(* ===== verification/_CoqProject ===== *)
-Q . S2P
Prelude.v
Errors.v
Varint.v
Voice.v
Float32.v
Text.v
Messages.v
Wire.v
WireFormat.v
Codec.v
CodecRest.v
Fields.v
Accessors.v
AccessorsRest.v
Crypt.v
Replay.v
Proto.v
CodecProps.v
AllMessages.v
Schema.v
SchemaProps.v
Maps.v
Calendar.v
Bans.v
Client.v
Anticheat.v
State.v
StateInv.v
StateProps.v
Handlers.v
HandlerInv.v
HandlerProps.v
Net.v
Greeting.v
NetProps.v
Delivery.v
Sampler.v
SamplerProps.v
Http.v
HttpProps.v
System.v
Frames.v
Connection.v
Flaws.v
Queues.v
Lifecycle.v
Rooms.v
Announce.v
Roster.v
