(* ===== verification/Prelude.v ===== *)
(** * A Mumble voice server with an anticheat: the verification development

    The program is a Mumble server for game voice chat written in Rust (directory [src/src/]).  Players connect over
    TLS, exchange protobuf messages, and send encrypted voice datagrams over UDP; the server relays the voice to the
    players addressed.  An anticheat watches whom each player talks to and from where, and may mute, kick or ban; an
    HTTP API for administrators shows and changes all of this.  All tasks share one state, [ServerState].

    ** The parts and their files

    - Prelude (this file): [Result], panics ([Outcome]), machine integers with their wrap-around, byte strings, lists,
      the tactics and hint databases used everywhere.  [Errors]: [error.rs].  [Text], [Float32], [Maps]: what the
      sources use of Rust's strings, of [f32] and of hash maps; the order in which a hash map is iterated is a
      parameter ([HashIter]).
    - Varint, Voice: the codecs of [varint.rs] and [voice.rs], on lists of bytes.
    - Crypt, Replay: [crypt.rs], the OCB2 mode over a block cipher that is a parameter ([Aes128]), the state of one
      direction of a voice connection and its window of nonces.
    - Messages, Wire, Codec, CodecRest: the generated code of [proto/mumble.rs] for all its messages, as structures
      and enumerations (Messages), over the functions of the protobuf crate (class [Runtime] of Wire), and as one
      Module per message with [new], [merge_from], [is_initialized], [compute_size] and [write_to_with_cached_sizes]
      (Codec for the messages the server exchanges, CodecRest for the others).  WireFormat is an executable runtime,
      the protobuf encoding itself, with the laws of [Runtime] proved.  CodecProps and AllMessages prove the codecs.
    - Fields, Accessors, AccessorsRest: the accessor methods, [clear] and the descriptors of the same messages, one
      Module per message.  Schema: the protocol as [proto/mumble.proto] defines it (field numbers, types, labels and
      defaults as data, the encoding of values, what a receiver keeps), and what it means that a message type
      implements its schema; SchemaProps proves it of the generated code.
    - Proto: [proto/mod.rs], kinds, frames and the reads of the handshake, over the class [ProtoMessage], which the
      codecs implement ([message_proto]).
    - Calendar, Bans: the clock texts and the ban list of [anticheat.rs].  Client: [client.rs], [target.rs],
      [message/mod.rs], [server/constants.rs].  Anticheat: the configuration and what is recorded on the voice path.
    - State: [state.rs] and [channel.rs].  A shared [Arc<Client>] is a reference into the heap of the state and a
      [Weak] the same reference, so aliasing and dead clients are visible; the metrics of clients and disconnections
      ([metrics.rs]) are a field of the state.  StateInv: the invariant [state_inv].  StateProps: what the operations
      do.
    - Handlers: [handler/], one definition per message kind, the dispatch, the loop that reads a client's stream and
      the loop that serves its queue.  HandlerInv, HandlerProps: invariant and behaviour.
    - Net: [server/udp.rs], [server/tcp.rs], [Client::init] and [clean.rs].  NetProps: their behaviour.  The greeting
      of a client is there whole ([client_run]) and as items, one per wait ([greet_item]); Greeting proves that the
      items are the whole.
    - Sampler, SamplerProps: the periodic evaluation of [anticheat.rs], sanctions and the snapshot of the memory of
      speakers.
    - Http, HttpProps: [http/], the endpoints, the routes and the authentication.
    - Delivery: paths through several parts, the queue down to the stream, the handshake over real protobuf bytes, and
      a voice packet from one player's microphone to another's ear.
    - System: start-up ([main.rs]) and the step relation [server_step], a step being what one task does between two
      waits.  Tasks interleave in any order; what holds of [rtc server_step] holds under any scheduling.
    - Frames: what every operation does to each client, for any relation the primitive writes respect (class
      [ClientFrame], with [MovingFrame] and [TaskFrame] for the operations that also change the channel, the count of
      bad messages or the stream); used by the files that follow with relations of their own.
    - Connection: the life of one connection of [server/tcp.rs], from the accept loop to the final [disconnect], with
      the two tasks of the client under any schedule.  Here a stream is a finite list of bytes, all that the client
      sends before it hangs up.
    - Flaws: behaviours of the whole server that its code does not intend.
    - Queues: the queues of the clients through infinite executions of the server, and fairness.
    - Lifecycle: all connections together, each through its phases, interleaved with the other tasks.  Here a stream is
      what has arrived and was not read yet ([Input]): at any instant more can arrive, without end, or the client hangs
      up ([NetEvent]), and a reading task whose message is not complete waits ([waits]).
    - Rooms: an abstract machine of visits and rooms driven by events, and the proof that the server with its
      connections refines it step by step.
    - Announce: from a message of one player to the streams of all the others.
    - Roster: what the clients know of each other when their greetings overlap.

    ** What the theorems show

    - Of the whole server: every reachable state satisfies the invariant and an in-range configuration
      ([reachable_states_sound]); each step of the server is at most one event of the machine of rooms, in which the
      effect of an event is fixed and an event happens only when it may (a session, an id and a name nobody has), so
      that no temporary channel is ever empty ([server_refines_rooms]) and the channels are well formed
      ([channels_well_formed]); a banned player is out and stays out ([banned_player_stays_out]); when a client has
      sent a finite stream and hung up, its connection ends and leaves no trace ([connection_leaves_no_trace]); among
      any number of others, no client outlives its connection ([no_ghost_clients]), and under a fair schedule the
      connection of a client that hangs up or is cancelled ends, however long the client goes on sending
      ([connections_end]); what is queued for a client stays in order under every interleaving and, under a fair
      schedule, each message has its turn and the effect its kind asks for ([queues_drain]), so that everybody learns
      of a player's move ([moves_announced]); clients whose greetings overlap learn of each other ([everyone_known]).
    - Of voice: packets of an unmuted sender are queued for exactly the clients addressed, among them listeners of a
      channel that have disconnected ([voice_routing]), and arrive as they were sent
      ([voice_end_to_end]); codecs and encryption round trip ([varint_roundtrip], [voice_roundtrip], [ocb_roundtrip],
      [crypt_roundtrip]), decoding is safe on any input ([voice_decode_safe]), no nonce is taken twice
      ([crypt_no_replay]).
    - Of the control channel: codecs ([codec_roundtrip], [codec_terminates]), the generated code against the schema of the
      protocol ([schema_implemented]), handshake ([handshake]), admission ([admission]), greeting ([greeting_order]), broadcasts,
      channel moves, disconnection, also when several tasks race for it ([racing_disconnects_count_once]), time-outs as
      the code has them ([clean_tick_exact]).
    - Of the anticheat: the measures equal their definitions by sets ([reading_exact]), the guilty are sanctioned and
      nobody else, by a count of strikes that goes up and down by one ([sample_sanctions_guilty],
      [crowd_is_innocent]), the memory of speakers is bounded and survives
      restarts, bans hold across restarts.
    - Of the API: the configuration stays in range ([config_ok] in [reachable_states_sound]); with masking on, no
      response depends on any address ([masked_addresses_never_leave]).
    - Behaviours the code may not intend are stated as they are: a short nonce stops the server
      ([crypt_setup_panics]), a failed move strands a member ([failed_join_strands_member]), UDP silence hides a dead
      TCP connection ([udp_silence_masks_tcp_timeout]), a short encrypted datagram may be taken for a server list ping ([speech_taken_for_ping]), more
      clients than the limit can be admitted ([capacity_race]), a kick can be lost ([kick_lost]), and a muted player
      can unmute itself ([mute_evaded]).

    ** Fuel

    Recursion that is not structural takes fuel, and the fuel is shown sufficient: [write_varint_fuel] calls itself at
    most once, for a negative number ([varint_write_total]); the frame loop of the voice decoder and the loop of the
    generated parsers take at least one byte a turn, so one turn per byte and one more is enough
    ([voice_frames_terminate], [codec_terminates]); the OCB loops take a block a turn ([ocb_total]); the search for a
    free id visits at most one id more than are in use ([session_id_fresh]); the loop that reads a stream ends within
    24 turns more than the stream has bytes ([reading_ends], [turns_left] in Connection); the queue loop takes a
    message a turn ([queue_in_order]); a greeting has six items and one per channel and per client
    ([client_run_items]).

    ** Not modelled, and why

    Sockets, TLS, certificates, task spawning and the timers that drive the loops ([main.rs], [server/tcp.rs],
    [server/udp.rs], [clean.rs]): I/O of libraries; the steps take the instants, the bytes and the outcomes as
    arguments.  A step is atomic: where two tasks interleave inside an operation, the parts are steps of their own
    (the lookup and the removal of [disconnect], the reading and the clearing of the queue of disconnections, the
    capacity test and the admission, the items of a greeting).  The counters of messages and bytes of [metrics.rs]:
    traffic volumes that nothing reads; the gauges and counters of clients, disconnections and resets are modelled,
    and what they show is part of the invariant ([books]).  The HTML of the panel: a constant.  In [proto/mumble.rs]:
    conversions to [Any], the encoded file descriptor and [Debug], all of the crate's reflection, and the unknown
    fields and cached sizes of a message, which no code reads or sends on.  Third party code is a parameter with laws:
    AES, protobuf, JSON, regular expressions, lower-casing of Unicode text, the UDP socket, the file system.  The
    release profile is modelled: arithmetic wraps, a panic aborts the process. *)

From stdpp Require Import base list numbers decidable.
From Stdlib Require Import ZArith Lia.

#[global] Open Scope Z_scope.

(** ** Results and panics *)

(** Rust's [Result<A, E>]. *)
Inductive Result (E A : Type) : Type :=
  | Ok (a : A)
  | Err (e : E).
Arguments Ok {E A} a.
Arguments Err {E A} e.

(** A computation that may panic: [unwrap], [expect], an out of range index or
    an assertion.  The release profile sets [panic = "abort"], so [Panic] ends the process. *)
Inductive Outcome (A : Type) : Type :=
  | Done (a : A)
  | Panic.
Arguments Done {A} a.
Arguments Panic {A}.

Definition result_bind {E A B} (m : Result E A) (k : A -> Result E B) : Result E B :=
  match m with Ok a => k a | Err e => Err e end.

Definition result_map_err {E F A} (f : E -> F) (m : Result E A) : Result F A :=
  match m with Ok a => Ok a | Err e => Err (f e) end.

Declare Scope rust_scope.
Delimit Scope rust_scope with rust.
#[global] Open Scope rust_scope.

(** The [?] operator: bind, leaving the function on an error. *)
Notation "'let?' x ':=' m 'in' k" := (result_bind m (fun x => k))
  (at level 10, x pattern, m at level 100, k at level 200) : rust_scope.

#[global] Instance Result_eq_dec {E A} `{EqDecision E, EqDecision A} : EqDecision (Result E A).
Proof. solve_decision. Defined.

(** [std::io::ErrorKind]: the two kinds the codecs produce, and a failed write. *)
Inductive IoError := UnexpectedEof | InvalidData | BrokenPipe.

#[global] Instance IoError_eq_dec : EqDecision IoError.
Proof. solve_decision. Defined.

(** ** Machine integers: [Z] with the wrap-around written out *)

Definition wrap (w z : Z) : Z := z mod 2 ^ w.
Definition as_u8 (z : Z) : Z := wrap 8 z.
Definition as_u16 (z : Z) : Z := wrap 16 z.
Definition as_u32 (z : Z) : Z := wrap 32 z.
Definition as_u64 (z : Z) : Z := wrap 64 z.
Definition as_u128 (z : Z) : Z := wrap 128 z.

(** Two's complement reading of the low [w] bits. *)
Definition sign (w z : Z) : Z :=
  let u := wrap w z in if u <? 2 ^ (w - 1) then u else u - 2 ^ w.
Definition as_i8 (z : Z) : Z := sign 8 z.
Definition as_i32 (z : Z) : Z := sign 32 z.
Definition as_i64 (z : Z) : Z := sign 64 z.

(** Bitwise complement of a [u64] ([!x]). *)
Definition not_u64 (z : Z) : Z := Z.lxor z (Z.ones 64).

(** [u128::rotate_left(1)]. *)
Definition rotl1_u128 (z : Z) : Z :=
  Z.lor (as_u128 (Z.shiftl z 1)) (Z.shiftr z 127).

Definition in_u (w z : Z) : Prop := 0 <= z < 2 ^ w.

#[global] Instance in_u_dec w z : Decision (in_u w z).
Proof. unfold in_u. apply _. Defined.

(** ** Bytes *)

Abbreviation byte_ok b := (in_u 8 b).
Abbreviation bytes_ok bs := (Forall (fun b => in_u 8 b) bs).

(** [to_le_bytes], [to_be_bytes] of an [n]-byte integer and their inverses. *)
Fixpoint le_bytes (n : nat) (z : Z) : list Z :=
  match n with
  | O => []
  | S n' => z mod 256 :: le_bytes n' (z / 256)
  end.

Definition be_bytes (n : nat) (z : Z) : list Z := rev (le_bytes n z).

Fixpoint from_le_bytes (bs : list Z) : Z :=
  match bs with
  | [] => 0
  | b :: bs' => b + 256 * from_le_bytes bs'
  end.

Definition from_be_bytes (bs : list Z) : Z := from_le_bytes (rev bs).

(** [n < 2^w] ranges as a decidable test used by the witnesses. *)
Definition bytes_okb (bs : list Z) : bool := forallb (fun b => (0 <=? b) && (b <? 256)) bs.

(** A byte string whose length fits in 32 bits. *)
Definition short (bs : list Z) : Prop := Z.of_nat (length bs) < 2 ^ 32.

(** ** Lemmas on machine integers *)

Lemma wrap_range w z : 0 <= w -> in_u w (wrap w z).
Proof. intros; apply Z.mod_pos_bound, Z.pow_pos_nonneg; lia. Qed.

Lemma wrap_small w z : in_u w z -> wrap w z = z.
Proof. apply Z.mod_small. Qed.

Lemma as_u8_range z : in_u 8 (as_u8 z).
Proof. by apply wrap_range. Qed.
Lemma as_u32_range z : in_u 32 (as_u32 z).
Proof. by apply wrap_range. Qed.
Lemma as_u128_range z : in_u 128 (as_u128 z).
Proof. by apply wrap_range. Qed.

Lemma as_u8_small z : in_u 8 z -> as_u8 z = z.
Proof. apply wrap_small. Qed.
Lemma as_u16_small z : in_u 16 z -> as_u16 z = z.
Proof. apply wrap_small. Qed.
Lemma as_u32_small z : in_u 32 z -> as_u32 z = z.
Proof. apply wrap_small. Qed.
Lemma as_u64_small z : in_u 64 z -> as_u64 z = z.
Proof. apply wrap_small. Qed.
Lemma as_u128_small z : in_u 128 z -> as_u128 z = z.
Proof. apply wrap_small. Qed.

(** A fact about a found value, computed where it is found. *)
Lemma found_fact {A B} (o : option A) (x : A) (f : A -> B) (y : B) : o = Some x -> f <$> o = Some y -> f x = y.
Proof. by intros -> [= <-]. Qed.

Lemma filter_none {A} (P : A -> Prop) `{forall x, Decision (P x)} l : Forall (fun x => ~ P x) l -> filter P l = [].
Proof. induction 1 as [|x l Hx _ IH]; [done|]. by rewrite filter_cons_False. Qed.

(** A test that holds of the 256 byte values holds of every byte. *)
Lemma byte_forall (P : Z -> bool) :
  forallb P (seqZ 0 256) = true -> forall b, byte_ok b -> P b = true.
Proof.
  rewrite forallb_forall. intros H b Hb. apply H, list_elem_of_In, elem_of_seqZ.
  unfold in_u in Hb. lia.
Qed.

Lemma testbit_above w z i : in_u w z -> w <= i -> Z.testbit z i = false.
Proof.
  intros [Hz0 Hz] Hi.
  destruct (Z.eq_dec z 0) as [->|]; [apply Z.testbit_0_l|].
  apply Z.bits_above_log2; [done|].
  apply Z.lt_le_trans with w; [apply Z.log2_lt_pow2; lia|done].
Qed.

Lemma land_disjoint a b n : 0 <= n -> in_u n b -> Z.land (Z.shiftl a n) b = 0.
Proof.
  intros Hn Hb. apply Z.bits_inj'; intros i Hi. rewrite Z.land_spec, Z.bits_0.
  destruct (Z.lt_ge_cases i n).
  - by rewrite Z.shiftl_spec_low.
  - by rewrite (testbit_above n b), andb_false_r.
Qed.

(** Gluing bit fields is addition. *)
Lemma lor_disjoint a b n : 0 <= n -> in_u n b -> Z.lor (Z.shiftl a n) b = a * 2 ^ n + b.
Proof.
  intros Hn Hb. pose proof (land_disjoint a b n Hn Hb) as Hl.
  rewrite <- Z.lxor_lor, <- Z.add_nocarry_lxor, Z.shiftl_mul_pow2 by done. done.
Qed.

(** Two adjacent byte fields glue to one. *)
Lemma lor_glue a b m n :
  m = n + 8 -> 0 <= n -> in_u 8 b ->
  Z.lor (Z.shiftl a m) (Z.shiftl b n) = Z.shiftl (a * 256 + b) n.
Proof.
  intros -> Hn Hb. rewrite Z.add_comm, <- Z.shiftl_shiftl, <- Z.shiftl_lor by lia.
  by rewrite (lor_disjoint a b 8).
Qed.

(** A byte-wise digit step of a positional reading. *)
Lemma digit_step v m n :
  m = n + 8 -> 0 <= n -> v / 2 ^ m * 256 + (v / 2 ^ n) mod 2 ^ 8 = v / 2 ^ n.
Proof.
  intros -> Hn. rewrite Z.pow_add_r, <- Z.div_div by lia.
  pose proof (Z.div_mod (v / 2 ^ n) (2 ^ 8)). lia.
Qed.

Lemma not_u64_spec z : in_u 64 z -> not_u64 z = 2 ^ 64 - 1 - z.
Proof.
  intros Hz. unfold not_u64. rewrite Z.ones_equiv.
  enough (Z.lxor z (Z.pred (2 ^ 64)) + z = 2 ^ 64 - 1) by lia.
  assert (Z.land (Z.lxor z (Z.pred (2 ^ 64))) z = 0) as Hl.
  { apply Z.bits_inj'; intros i Hi. rewrite Z.land_spec, Z.lxor_spec, Z.bits_0.
    rewrite <- Z.ones_equiv. destruct (Z.lt_ge_cases i 64).
    - rewrite Z.ones_spec_low by lia. by destruct (Z.testbit z i).
    - by rewrite (testbit_above 64 z), andb_false_r. }
  rewrite Z.add_nocarry_lxor by done.
  rewrite Z.lxor_assoc, (Z.lxor_comm _ z), <- Z.lxor_assoc, Z.lxor_nilpotent, Z.lxor_0_l. lia.
Qed.

Lemma not_u64_range z : in_u 64 z -> in_u 64 (not_u64 z).
Proof. intros Hz. rewrite not_u64_spec by done. unfold in_u in *. lia. Qed.

Lemma not_u64_involutive z : in_u 64 z -> not_u64 (not_u64 z) = z.
Proof.
  intros Hz. rewrite (not_u64_spec (not_u64 z)) by by apply not_u64_range.
  rewrite not_u64_spec by done. lia.
Qed.

(** Ranges of the bitwise operators. *)
Lemma in_u_testbit w z : 0 <= w -> 0 <= z -> (forall i, w <= i -> Z.testbit z i = false) -> in_u w z.
Proof.
  intros Hw Hz H. split; [done|].
  destruct (Z.lt_ge_cases z (2 ^ w)) as [|Hge]; [done|exfalso].
  assert (0 < z) by (pose proof (Z.pow_pos_nonneg 2 w); lia).
  assert (w <= Z.log2 z) by (apply Z.log2_le_pow2; lia).
  specialize (H (Z.log2 z)). rewrite Z.bit_log2 in H by done. by discriminate H.
Qed.

Lemma lxor_range w a b : 0 <= w -> in_u w a -> in_u w b -> in_u w (Z.lxor a b).
Proof.
  intros Hw Ha Hb. apply in_u_testbit; [done| |].
  - apply Z.lxor_nonneg. unfold in_u in *; lia.
  - intros i Hi. by rewrite Z.lxor_spec, (testbit_above w a), (testbit_above w b).
Qed.

Lemma lor_range w a b : 0 <= w -> in_u w a -> in_u w b -> in_u w (Z.lor a b).
Proof.
  intros Hw Ha Hb. apply in_u_testbit; [done| |].
  - apply Z.lor_nonneg. unfold in_u in *; lia.
  - intros i Hi. by rewrite Z.lor_spec, (testbit_above w a), (testbit_above w b).
Qed.

Lemma land_range_r w a b : 0 <= w -> 0 <= a -> in_u w b -> in_u w (Z.land a b).
Proof.
  intros Hw Ha Hb. apply in_u_testbit; [done| |].
  - apply Z.land_nonneg. unfold in_u in *; lia.
  - intros i Hi. by rewrite Z.land_spec, (testbit_above w b), andb_false_r.
Qed.

Lemma lxor_cancel_r a b : Z.lxor (Z.lxor a b) b = a.
Proof. by rewrite Z.lxor_assoc, Z.lxor_nilpotent, Z.lxor_0_r. Qed.

Lemma lxor_cancel_l a b : Z.lxor a (Z.lxor a b) = b.
Proof. by rewrite <- Z.lxor_assoc, Z.lxor_nilpotent, Z.lxor_0_l. Qed.

(** ** Lemmas on byte strings *)

Lemma length_le_bytes n z : length (le_bytes n z) = n.
Proof. revert z; induction n; simpl; congruence. Qed.

Lemma length_be_bytes n z : length (be_bytes n z) = n.
Proof. unfold be_bytes. by rewrite length_rev, length_le_bytes. Qed.

Lemma le_bytes_ok n z : bytes_ok (le_bytes n z).
Proof.
  revert z; induction n; intros z; simpl; constructor; [|done].
  apply Z.mod_pos_bound; lia.
Qed.

Lemma be_bytes_ok n z : bytes_ok (be_bytes n z).
Proof. unfold be_bytes. apply Forall_rev, le_bytes_ok. Qed.

Lemma pow256_succ n : 2 ^ (8 * Z.of_nat (S n)) = 256 * 2 ^ (8 * Z.of_nat n).
Proof. rewrite Nat2Z.inj_succ, Z.mul_succ_r, Z.pow_add_r by lia. lia. Qed.

Lemma from_le_le_bytes n z : from_le_bytes (le_bytes n z) = z mod 2 ^ (8 * Z.of_nat n).
Proof.
  revert z; induction n as [|n IH]; intros z; cbn [le_bytes from_le_bytes].
  - by rewrite Z.mod_1_r.
  - rewrite IH, pow256_succ, Z.rem_mul_r; [lia|lia|]. apply Z.pow_pos_nonneg; lia.
Qed.

Lemma from_le_bytes_range bs :
  bytes_ok bs -> in_u (8 * Z.of_nat (length bs)) (from_le_bytes bs).
Proof.
  unfold in_u. induction 1 as [|b bs Hb _ IH]; cbn [from_le_bytes length]; [simpl; lia|].
  unfold in_u in Hb. rewrite pow256_succ. lia.
Qed.

Lemma le_bytes_from_le bs : bytes_ok bs -> le_bytes (length bs) (from_le_bytes bs) = bs.
Proof.
  induction 1 as [|b bs Hb _ IH]; cbn [le_bytes from_le_bytes length]; [done|].
  unfold in_u in Hb. rewrite (Z.mul_comm 256), Z.mod_add, Z.div_add by lia.
  rewrite Z.mod_small, Z.div_small by lia. by rewrite Z.add_0_l, IH.
Qed.

Lemma from_be_be_bytes n z : from_be_bytes (be_bytes n z) = z mod 2 ^ (8 * Z.of_nat n).
Proof. unfold from_be_bytes, be_bytes. by rewrite rev_involutive, from_le_le_bytes. Qed.

Lemma be_bytes_from_be bs n : bytes_ok bs -> length bs = n -> be_bytes n (from_be_bytes bs) = bs.
Proof.
  intros H <-. unfold from_be_bytes, be_bytes. rewrite <- (length_rev bs).
  rewrite le_bytes_from_le by by apply Forall_rev. apply rev_involutive.
Qed.

Lemma from_be_bytes_range bs n :
  bytes_ok bs -> length bs = n -> in_u (8 * Z.of_nat n) (from_be_bytes bs).
Proof.
  intros H <-. unfold from_be_bytes. rewrite <- (length_rev bs).
  by apply from_le_bytes_range, Forall_rev.
Qed.

Lemma mod_lxor a b w : 0 <= w -> Z.lxor a b mod 2 ^ w = Z.lxor (a mod 2 ^ w) (b mod 2 ^ w).
Proof.
  intros Hw. rewrite <- !Z.land_ones by done.
  apply Z.bits_inj'; intros i Hi. rewrite ?Z.land_spec, ?Z.lxor_spec, ?Z.land_spec.
  by destruct (Z.testbit a i), (Z.testbit b i), (Z.testbit (Z.ones w) i).
Qed.

Lemma le_bytes_lxor n a b :
  le_bytes n (Z.lxor a b) = zip_with Z.lxor (le_bytes n a) (le_bytes n b).
Proof.
  revert a b; induction n as [|n IH]; intros a b; cbn [le_bytes]; [done|]. simpl.
  change 256 with (2 ^ 8). rewrite mod_lxor by done.
  by rewrite <- !Z.shiftr_div_pow2, Z.shiftr_lxor, IH by lia.
Qed.

Lemma rev_zip_with {A B C} (f : A -> B -> C) xs ys :
  length xs = length ys -> rev (zip_with f xs ys) = zip_with f (rev xs) (rev ys).
Proof.
  revert ys; induction xs as [|x xs IH]; intros [|y ys] H; try discriminate H; [done|].
  simpl in *. injection H as H. rewrite zip_with_app by (by rewrite !length_rev). by rewrite IH.
Qed.

Lemma be_bytes_lxor n a b :
  be_bytes n (Z.lxor a b) = zip_with Z.lxor (be_bytes n a) (be_bytes n b).
Proof.
  unfold be_bytes. rewrite le_bytes_lxor. apply rev_zip_with. by rewrite !length_le_bytes.
Qed.

Lemma bytes_okb_spec bs : bytes_okb bs = true -> bytes_ok bs.
Proof.
  unfold bytes_okb. rewrite forallb_forall, List.Forall_forall. intros H b Hb.
  specialize (H b Hb). unfold in_u. lia.
Qed.

Lemma short_app a b : short (a ++ b) -> short a /\ short b.
Proof. unfold short. rewrite length_app. lia. Qed.

(** ** Automation *)

Create HintDb rust.
#[export] Hint Resolve as_u8_range as_u32_range as_u128_range le_bytes_ok be_bytes_ok
  not_u64_range : rust.
Create Rewrite HintDb rust_len.
#[export] Hint Rewrite length_le_bytes length_be_bytes @length_app @length_rev : rust_len.

(** Splits a chain of [if]s on boolean tests in the goal. *)
Ltac case_if :=
  match goal with
  | |- context [if ?b then _ else _] => destruct b eqn:?
  end.

(** Closes a fact about a byte by running through its 256 values. *)
Ltac by_bytes b Hb :=
  revert b Hb;
  match goal with
  | |- forall b, _ -> @?P b = true => apply (byte_forall P); vm_compute; reflexivity
  end.

(** Linear arithmetic over ranges, quotients and remainders. *)
Ltac range_lia := unfold in_u, as_u8, as_u16, as_u32, as_u64, as_u128, wrap in *;
  Z.div_mod_to_equations; lia.
