(* ===== verification/Errors.v ===== *)
(** The error enumerations of [src/src/error.rs].

    The payloads carried by foreign error types (I/O, protobuf, channel and timer errors)
    are kept only as far as the sources branch on them. *)

From stdpp Require Import base decidable strings.
From S2P Require Import Prelude.
#[local] Open Scope string_scope.

(** [DecryptError]: why a voice packet was refused. *)
Inductive DecryptError :=
  | DecryptIo (e : IoError)
  | Eof
  | Repeat
  | Late
  | Mac.

(** [MumbleError]. *)
Inductive MumbleError :=
  | UnexpectedMessageKind (value : Z)
  | MumbleIo (e : IoError)
  | Parse
  | Decrypt (e : DecryptError)
  | SendError
  | InvalidVoiceTarget
  | ChannelDoesntExist
  | PacketDiscarded
  | ClientInitFailed
  | WritterShutDown
  | UnknownError.

(** [DisconnectReason] with its [Display] text, the label of the disconnect metric. *)
Inductive DisconnectReason :=
  | Disconnected
  | ClientTimedOutTcp
  | LostReceivingChannel
  | ClientMSPCFull
  | Anticheat.

Definition disconnect_reason_to_string (r : DisconnectReason) : string :=
  match r with
  | Disconnected => "Client disconnected"
  | ClientTimedOutTcp => "Client stopped responding to TCP pings"
  | LostReceivingChannel => "Clients receiving channel got removed"
  | ClientMSPCFull => "Client Message Channel Full"
  | Anticheat => "Kicked by anticheat: voice reached an abnormal share of connected players"
  end.

#[global] Instance DecryptError_eq_dec : EqDecision DecryptError.
Proof. solve_decision. Defined.
#[global] Instance MumbleError_eq_dec : EqDecision MumbleError.
Proof. solve_decision. Defined.
#[global] Instance DisconnectReason_eq_dec : EqDecision DisconnectReason.
Proof. solve_decision. Defined.

(** [From<io::Error>] for the two error types: what [?] inserts. *)
Definition io_decrypt {A} (m : Result IoError A) : Result DecryptError A := result_map_err DecryptIo m.
Definition io_mumble {A} (m : Result IoError A) : Result MumbleError A := result_map_err MumbleIo m.
