(* ===== verification/Varint.v ===== *)
(** Mumble's variable-length integers: [src/src/varint.rs].

    A reader ([io::Read]) is the list of bytes still to be read, a writer is the list
    of bytes written so far.  [read_u8] fails with [UnexpectedEof] on an empty reader;
    writing to a [BytesMut] never fails. *)

From stdpp Require Import base list.
From Stdlib Require Import ZArith Lia.
From S2P Require Import Prelude.

(** [byteorder::ReadBytesExt::read_u8] on an in-memory reader. *)
Definition read_u8 (bs : list Z) : Result IoError (Z * list Z) :=
  match bs with
  | [] => Err UnexpectedEof
  | b :: bs' => Ok (b, bs')
  end.

(** [ReadExt::read_varint].  The recursive call is on the bytes after the [0b1111_10xx]
    prefix, so the recursion is structural in the reader. *)
Fixpoint read_varint (bs : list Z) : Result IoError (Z * list Z) :=
  match bs with
  | [] => Err UnexpectedEof
  | b0 :: r0 =>
    if Z.land b0 252 =? 248 then
      let? (v, r) := read_varint r0 in Ok (not_u64 v, r)
    else if Z.land b0 252 =? 252 then Ok (not_u64 (Z.land b0 3), r0)
    else if Z.land b0 128 =? 0 then Ok (Z.land b0 127, r0)
    else
      let? (b1, r1) := read_u8 r0 in
      if Z.land b0 64 =? 0 then Ok (Z.lor (Z.shiftl (Z.land b0 63) 8) b1, r1)
      else
        let? (b2, r2) := read_u8 r1 in
        if Z.land b0 32 =? 0 then
          Ok (Z.lor (Z.lor (Z.shiftl (Z.land b0 31) 16) (Z.shiftl b1 8)) b2, r2)
        else
          let? (b3, r3) := read_u8 r2 in
          if Z.land b0 16 =? 0 then
            Ok (Z.lor (Z.lor (Z.lor (Z.shiftl (Z.land b0 15) 24) (Z.shiftl b1 16))
                  (Z.shiftl b2 8)) b3, r3)
          else
            let? (b4, r4) := read_u8 r3 in
            if Z.land b0 4 =? 0 then
              Ok (Z.lor (Z.lor (Z.lor (Z.shiftl b1 24) (Z.shiftl b2 16)) (Z.shiftl b3 8)) b4, r4)
            else
              let? (b5, r5) := read_u8 r4 in
              let? (b6, r6) := read_u8 r5 in
              let? (b7, r7) := read_u8 r6 in
              let? (b8, r8) := read_u8 r7 in
              Ok (Z.lor (Z.lor (Z.lor (Z.lor (Z.lor (Z.lor (Z.lor
                    (Z.shiftl b1 56) (Z.shiftl b2 48)) (Z.shiftl b3 40)) (Z.shiftl b4 32))
                    (Z.shiftl b5 24)) (Z.shiftl b6 16)) (Z.shiftl b7 8)) b8, r8)
  end.

(** [(value >> n) as u8]. *)
Definition shr_u8 (value n : Z) : Z := as_u8 (Z.shiftr value n).

(** [WriteExt::write_varint]: the bytes it appends.  The function calls itself on [!value]
    when the top bit is set; [fuel] bounds the recursion and [None] means it ran out. *)
Fixpoint write_varint_fuel (fuel : nat) (value : Z) : option (list Z) :=
  match fuel with
  | O => None
  | S fuel' =>
    if Z.land value 18446744073709551612 =? 18446744073709551612 then
      Some [Z.lor 252 (as_u8 (not_u64 value))]
    else if Z.land value 9223372036854775808 =? 9223372036854775808 then
      match write_varint_fuel fuel' (not_u64 value) with
      | Some bs => Some (248 :: bs)
      | None => None
      end
    else if 4294967295 <? value then
      Some [244; shr_u8 value 56; shr_u8 value 48; shr_u8 value 40; shr_u8 value 32;
            shr_u8 value 24; shr_u8 value 16; shr_u8 value 8; as_u8 value]
    else if 268435455 <? value then
      Some [240; shr_u8 value 24; shr_u8 value 16; shr_u8 value 8; as_u8 value]
    else if 2097151 <? value then
      Some [Z.lor 224 (shr_u8 value 24); shr_u8 value 16; shr_u8 value 8; as_u8 value]
    else if 16383 <? value then
      Some [Z.lor 192 (shr_u8 value 16); shr_u8 value 8; as_u8 value]
    else if 127 <? value then
      Some [Z.lor 128 (shr_u8 value 8); as_u8 value]
    else Some [as_u8 value]
  end.

(** Two activations are enough ([write_varint_total]). *)
Definition write_varint (value : Z) : list Z :=
  match write_varint_fuel 2 value with Some bs => bs | None => [] end.

(** [BufMutExt::put_varint]. *)
Definition put_varint (dst : list Z) (val : Z) : list Z := dst ++ write_varint val.

(** ** Correctness *)

(** The two masks of [write_varint] are range tests. *)
Lemma high_mask_spec v :
  in_u 64 v -> (Z.land v 18446744073709551612 =? 18446744073709551612) = (2 ^ 64 - 4 <=? v).
Proof.
  intros Hv.
  replace (Z.land v 18446744073709551612) with (v - v mod 4).
  - apply eq_true_iff_eq. rewrite Z.eqb_eq, Z.leb_le. range_lia.
  - replace (v - v mod 4) with (Z.shiftl (Z.shiftr v 2) 2)
      by (rewrite Z.shiftl_mul_pow2, Z.shiftr_div_pow2 by lia; range_lia).
    change 18446744073709551612 with (Z.shiftl (Z.ones 62) 2).
    apply Z.bits_inj'; intros i Hi. rewrite Z.land_spec.
    destruct (Z.lt_ge_cases i 2); [by rewrite !Z.shiftl_spec_low, andb_false_r by lia|].
    rewrite !Z.shiftl_spec_high, Z.shiftr_spec, Z.sub_add by lia.
    destruct (Z.lt_ge_cases i 64); [by rewrite Z.ones_spec_low, andb_true_r by lia|].
    by rewrite (testbit_above 64 v).
Qed.

Lemma sign_mask_spec v :
  in_u 64 v -> (Z.land v 9223372036854775808 =? 9223372036854775808) = (2 ^ 63 <=? v).
Proof.
  intros Hv. change 9223372036854775808 with (2 ^ 63).
  assert (Z.testbit v 63 = (2 ^ 63 <=? v)) as Hb.
  { rewrite Z.testbit_eqb by lia. apply eq_true_iff_eq. rewrite Z.eqb_eq, Z.leb_le. range_lia. }
  rewrite <- Hb. replace (Z.land v (2 ^ 63)) with (if Z.testbit v 63 then 2 ^ 63 else 0).
  - by destruct (Z.testbit v 63).
  - apply Z.bits_inj'; intros i Hi. rewrite Z.land_spec.
    destruct (Z.eq_dec i 63) as [->|];
      [rewrite Z.pow2_bits_true, andb_true_r by lia|rewrite Z.pow2_bits_false, andb_false_r by lia];
      destruct (Z.testbit v 63); rewrite ?Z.pow2_bits_true, ?Z.pow2_bits_false, ?Z.testbit_0_l by lia;
      done.
Qed.

(** The encoding as a function of the range of the value: the reference reading of
    [write_varint_fuel], without masks and recursion. *)
Definition varint_short (v : Z) : list Z :=
  if v <=? 127 then [v]
  else if v <=? 16383 then [128 + v / 2 ^ 8; v mod 2 ^ 8]
  else if v <=? 2097151 then [192 + v / 2 ^ 16; (v / 2 ^ 8) mod 2 ^ 8; v mod 2 ^ 8]
  else if v <=? 268435455 then
    [224 + v / 2 ^ 24; (v / 2 ^ 16) mod 2 ^ 8; (v / 2 ^ 8) mod 2 ^ 8; v mod 2 ^ 8]
  else if v <=? 4294967295 then 240 :: be_bytes 4 v
  else 244 :: be_bytes 8 v.

Definition varint_ref (v : Z) : list Z :=
  if 2 ^ 64 - 4 <=? v then [252 + (2 ^ 64 - 1 - v)]
  else if 2 ^ 63 <=? v then 248 :: varint_short (2 ^ 64 - 1 - v)
  else varint_short v.

Lemma shr_u8_spec v n : 0 <= n -> shr_u8 v n = (v / 2 ^ n) mod 2 ^ 8.
Proof. intros. unfold shr_u8, as_u8, wrap. by rewrite Z.shiftr_div_pow2. Qed.

(** [prefix | x] is [prefix + x] when [x] fits below the prefix bits. *)
Lemma lor_prefix p n x : 0 <= n -> in_u n x -> Z.lor (p * 2 ^ n) x = p * 2 ^ n + x.
Proof. intros Hn Hx. rewrite <- Z.shiftl_mul_pow2 by done. by rewrite lor_disjoint, Z.shiftl_mul_pow2. Qed.

Lemma write_varint_short fuel v :
  in_u 63 v -> write_varint_fuel (S fuel) v = Some (varint_short v).
Proof.
  intros Hv. assert (in_u 64 v) as Hv64 by (unfold in_u in *; lia).
  cbn [write_varint_fuel]. rewrite high_mask_spec, sign_mask_spec by done.
  replace (2 ^ 64 - 4 <=? v) with false by (unfold in_u in *; lia).
  replace (2 ^ 63 <=? v) with false by (unfold in_u in *; lia).
  unfold varint_short, be_bytes, as_u8, wrap. rewrite !shr_u8_spec by lia.
  repeat (case_if; try lia); f_equal.
  all: cbn [le_bytes rev app]; rewrite ?Z.div_div by lia; try done.
  all: change (2 ^ 8) with 256 in *.
  - change 224 with (7 * 2 ^ 5). rewrite lor_prefix; [|lia|range_lia]. repeat f_equal; range_lia.
  - change 192 with (6 * 2 ^ 5). rewrite lor_prefix; [|lia|range_lia]. repeat f_equal; range_lia.
  - change 128 with (2 * 2 ^ 6). rewrite lor_prefix; [|lia|range_lia]. repeat f_equal; range_lia.
  - repeat f_equal; range_lia.
Qed.

Lemma write_varint_fuel_ref fuel v :
  in_u 64 v -> write_varint_fuel (S (S fuel)) v = Some (varint_ref v).
Proof.
  intros Hv. unfold varint_ref. destruct (2 ^ 63 <=? v) eqn:Hs.
  - assert (in_u 63 (2 ^ 64 - 1 - v)) as Hn by (unfold in_u in *; lia).
    rewrite <- not_u64_spec in Hn by done.
    cbn [write_varint_fuel]. rewrite high_mask_spec, sign_mask_spec by done. rewrite Hs.
    pose proof (write_varint_short fuel _ Hn) as Hw. cbn [write_varint_fuel] in Hw. rewrite Hw.
    rewrite not_u64_spec by done. case_if; [|done].
    rewrite as_u8_small by (unfold in_u in *; lia). change 252 with (63 * 2 ^ 2) at 1.
    rewrite lor_prefix by (unfold in_u in *; lia). done.
  - replace (2 ^ 64 - 4 <=? v) with false by lia. apply write_varint_short. unfold in_u in *; lia.
Qed.

Lemma write_varint_ref v : in_u 64 v -> write_varint v = varint_ref v.
Proof. intros Hv. unfold write_varint. by rewrite write_varint_fuel_ref. Qed.

(** [decides x] for the tests [read_varint] makes on its first byte. *)
Definition class2 (x : Z) : bool :=
  let b := 128 + x in
  negb (Z.land b 252 =? 248) && negb (Z.land b 252 =? 252) && negb (Z.land b 128 =? 0)
  && (Z.land b 64 =? 0) && (Z.land b 63 =? x).
Definition class3 (x : Z) : bool :=
  let b := 192 + x in
  negb (Z.land b 252 =? 248) && negb (Z.land b 252 =? 252) && negb (Z.land b 128 =? 0)
  && negb (Z.land b 64 =? 0) && (Z.land b 32 =? 0) && (Z.land b 31 =? x).
Definition class4 (x : Z) : bool :=
  let b := 224 + x in
  negb (Z.land b 252 =? 248) && negb (Z.land b 252 =? 252) && negb (Z.land b 128 =? 0)
  && negb (Z.land b 64 =? 0) && negb (Z.land b 32 =? 0) && (Z.land b 16 =? 0)
  && (Z.land b 15 =? x).
Definition class1 (x : Z) : bool :=
  negb (Z.land x 252 =? 248) && negb (Z.land x 252 =? 252) && (Z.land x 128 =? 0)
  && (Z.land x 127 =? x).
Definition classneg (x : Z) : bool :=
  let b := 252 + x in negb (Z.land b 252 =? 248) && (Z.land b 252 =? 252) && (Z.land b 3 =? x).

Lemma seqZ_forall (P : Z -> bool) n :
  forallb P (seqZ 0 n) = true -> forall x, 0 <= x < n -> P x = true.
Proof.
  rewrite forallb_forall. intros H x Hx. apply H, list_elem_of_In, elem_of_seqZ. lia.
Qed.

(** Decides the tests [read_varint] makes on a first byte of a known class, and its low bits. *)
Ltac use_class c n x :=
  let H := fresh in
  assert (c x = true) as H by (apply (seqZ_forall c n); [vm_compute; reflexivity|lia]);
  unfold class1, class2, class3, class4, classneg in H; cbv zeta in H;
  rewrite ?andb_true_iff, ?negb_true_iff in H; destruct_and! H; cbn [read_varint];
  repeat match goal with
    | E : (Z.land _ _ =? _) = _ |- _ =>
        lazymatch type of E with
        | (_ =? x) = true => apply Z.eqb_eq in E; rewrite ?E; clear E
        | _ => rewrite ?E; clear E
        end
    end; cbn [read_u8 result_bind].

Lemma read_class1 x r : 0 <= x < 128 -> read_varint (x :: r) = Ok (x, r).
Proof. intros. by use_class class1 128 x. Qed.

Lemma read_class2 x b1 r :
  0 <= x < 64 -> byte_ok b1 -> read_varint (128 + x :: b1 :: r) = Ok (x * 256 + b1, r).
Proof. intros. use_class class2 64 x. by rewrite (lor_disjoint _ b1 8). Qed.

Lemma read_class3 x b1 b2 r :
  0 <= x < 32 -> byte_ok b1 -> byte_ok b2 ->
  read_varint (192 + x :: b1 :: b2 :: r) = Ok ((x * 256 + b1) * 256 + b2, r).
Proof.
  intros. use_class class3 32 x. rewrite (lor_glue x b1 16 8), (lor_disjoint _ b2 8); done.
Qed.

Lemma read_class4 x b1 b2 b3 r :
  0 <= x < 16 -> byte_ok b1 -> byte_ok b2 -> byte_ok b3 ->
  read_varint (224 + x :: b1 :: b2 :: b3 :: r) = Ok (((x * 256 + b1) * 256 + b2) * 256 + b3, r).
Proof.
  intros. use_class class4 16 x.
  rewrite (lor_glue x b1 24 16), (lor_glue _ b2 16 8), (lor_disjoint _ b3 8); done.
Qed.

Lemma read_class_neg x r :
  0 <= x < 4 -> read_varint (252 + x :: r) = Ok (2 ^ 64 - 1 - x, r).
Proof. intros. use_class classneg 4 x. rewrite not_u64_spec; [done|unfold in_u; lia]. Qed.

Lemma from_be_bytes_snoc bs b : from_be_bytes (bs ++ [b]) = from_be_bytes bs * 256 + b.
Proof. unfold from_be_bytes. rewrite rev_app_distr. cbn [rev app from_le_bytes]. lia. Qed.

Lemma read_class_u32 bs r :
  length bs = 4%nat -> bytes_ok bs -> read_varint (240 :: bs ++ r) = Ok (from_be_bytes bs, r).
Proof.
  intros Hl Hb. do 4 (destruct bs as [|? bs]; [discriminate Hl|]).
  destruct bs as [|]; [|discriminate Hl]. rewrite !Forall_cons in Hb. destruct_and! Hb.
  match goal with |- _ = Ok (from_be_bytes [?b1; ?b2; ?b3; ?b4], _) =>
    transitivity (@Ok IoError _ (Z.lor (Z.lor (Z.lor (Z.shiftl b1 24) (Z.shiftl b2 16))
      (Z.shiftl b3 8)) b4, r)); [reflexivity|] end.
  rewrite (lor_glue _ _ 24 16), (lor_glue _ _ 16 8), (lor_disjoint _ _ 8) by done.
  unfold from_be_bytes. cbn [rev app from_le_bytes]. do 2 f_equal. lia.
Qed.

Lemma read_class_u64 bs r :
  length bs = 8%nat -> bytes_ok bs -> read_varint (244 :: bs ++ r) = Ok (from_be_bytes bs, r).
Proof.
  intros Hl Hb. do 8 (destruct bs as [|? bs]; [discriminate Hl|]).
  destruct bs as [|]; [|discriminate Hl]. rewrite !Forall_cons in Hb. destruct_and! Hb.
  match goal with |- _ = Ok (from_be_bytes [?b1; ?b2; ?b3; ?b4; ?b5; ?b6; ?b7; ?b8], _) =>
    transitivity (@Ok IoError _ (Z.lor (Z.lor (Z.lor (Z.lor (Z.lor (Z.lor (Z.lor
      (Z.shiftl b1 56) (Z.shiftl b2 48)) (Z.shiftl b3 40)) (Z.shiftl b4 32))
      (Z.shiftl b5 24)) (Z.shiftl b6 16)) (Z.shiftl b7 8)) b8, r)); [reflexivity|] end.
  rewrite (lor_glue _ _ 56 48), (lor_glue _ _ 48 40), (lor_glue _ _ 40 32), (lor_glue _ _ 32 24),
    (lor_glue _ _ 24 16), (lor_glue _ _ 16 8), (lor_disjoint _ _ 8) by done.
  unfold from_be_bytes. cbn [rev app from_le_bytes]. do 2 f_equal. lia.
Qed.

Lemma read_varint_short v rest :
  in_u 63 v -> read_varint (varint_short v ++ rest) = Ok (v, rest).
Proof.
  intros Hv. unfold varint_short, in_u in *.
  assert (forall z, byte_ok (z mod 2 ^ 8)) as Hm by (intros; apply Z.mod_pos_bound; lia).
  repeat case_if; rewrite <- ?app_comm_cons, ?app_nil_l.
  - apply read_class1; lia.
  - rewrite read_class2; [do 2 f_equal; range_lia|range_lia|done].
  - rewrite read_class3; [do 2 f_equal; range_lia|range_lia|done|done].
  - rewrite read_class4; [do 2 f_equal; range_lia|range_lia|done|done|done].
  - rewrite read_class_u32, from_be_be_bytes by (rewrite ?length_be_bytes; auto with rust).
    rewrite Z.mod_small by lia. done.
  - rewrite read_class_u64, from_be_be_bytes by (rewrite ?length_be_bytes; auto with rust).
    rewrite Z.mod_small by lia. done.
Qed.

Lemma read_varint_neg bs : read_varint (248 :: bs) =
  (let? (v, r) := read_varint bs in Ok (not_u64 v, r)).
Proof. done. Qed.

(** The reader undoes the writer, whatever follows; shared by the packet codecs. *)
Lemma read_write_varint v rest :
  in_u 64 v -> read_varint (write_varint v ++ rest) = Ok (v, rest).
Proof.
  intros Hv. rewrite write_varint_ref by done. unfold varint_ref.
  repeat case_if; rewrite <- ?app_comm_cons, ?app_nil_l.
  - rewrite read_class_neg by (unfold in_u in *; lia). do 2 f_equal. lia.
  - rewrite read_varint_neg, read_varint_short by (unfold in_u in *; lia). cbn [result_bind].
    rewrite not_u64_spec by (unfold in_u in *; lia). do 2 f_equal. lia.
  - apply read_varint_short. unfold in_u in *; lia.
Qed.

Lemma length_varint_short v : in_u 63 v -> (1 <= length (varint_short v) <= 9)%nat.
Proof.
  intros _. unfold varint_short. repeat case_if; cbn [length]; rewrite ?length_be_bytes; lia.
Qed.

Lemma length_write_varint v : in_u 64 v -> (1 <= length (write_varint v) <= 10)%nat.
Proof.
  intros Hv. rewrite write_varint_ref by done. unfold varint_ref.
  repeat case_if; cbn [length]; [lia| |].
  - pose proof (length_varint_short (2 ^ 64 - 1 - v)). unfold in_u in *; lia.
  - pose proof (length_varint_short v). unfold in_u in *; lia.
Qed.

Lemma varint_short_ok v : in_u 63 v -> bytes_ok (varint_short v).
Proof.
  intros Hv. unfold varint_short. repeat case_if.
  all: repeat (apply Forall_cons; split); auto with rust; try apply Forall_nil; range_lia.
Qed.

Lemma write_varint_ok v : in_u 64 v -> bytes_ok (write_varint v).
Proof.
  intros Hv. rewrite write_varint_ref by done. unfold varint_ref. repeat case_if.
  - apply Forall_singleton. unfold in_u in *; lia.
  - apply Forall_cons. split; [unfold in_u; lia|]. apply varint_short_ok. unfold in_u in *; lia.
  - apply varint_short_ok. unfold in_u in *; lia.
Qed.

(** ** The reader on arbitrary input *)

Lemma shiftl_byte_range b n : byte_ok b -> 0 <= n <= 56 -> in_u 64 (Z.shiftl b n).
Proof.
  intros Hb Hn. rewrite Z.shiftl_mul_pow2 by lia. unfold in_u in *.
  pose proof (Z.pow_pos_nonneg 2 n). pose proof (Z.pow_le_mono_r 2 n 56). nia.
Qed.

Lemma land_byte_range b m : byte_ok b -> byte_ok m -> byte_ok (Z.land b m).
Proof. intros Hb Hm. apply land_range_r; unfold in_u in *; lia. Qed.

Lemma byte_u64 b : byte_ok b -> in_u 64 b.
Proof. unfold in_u. lia. Qed.

(** Solves [in_u 64] goals on the byte gluing expressions. *)
Ltac glue_range :=
  repeat (apply lor_range; [lia| |]);
  first [ apply shiftl_byte_range; [|lia] | apply byte_u64 ];
  first [ assumption | apply land_byte_range; [assumption|unfold in_u; lia] ].

Lemma read_varint_sound bs v rest :
  bytes_ok bs -> read_varint bs = Ok (v, rest) ->
  in_u 64 v /\ exists used, bs = used ++ rest /\ used <> [].
Proof.
  revert v rest; induction bs as [|b0 bs IH]; intros v rest Hok H; [discriminate H|].
  apply Forall_cons in Hok as [Hb0 Hok]. cbn [read_varint] in H.
  destruct (Z.land b0 252 =? 248).
  { destruct (read_varint bs) as [[v' r']|] eqn:Hr; cbn [result_bind] in H; [|discriminate H].
    injection H as <- <-. destruct (IH _ _ Hok eq_refl) as [Hv (u & -> & _)].
    split; [auto with rust|by exists (b0 :: u)]. }
  destruct (Z.land b0 252 =? 252).
  { injection H as <- <-. split; [|by exists [b0]].
    apply not_u64_range, byte_u64, land_byte_range; [done|unfold in_u; lia]. }
  destruct (Z.land b0 128 =? 0); [injection H as <- <-; split; [glue_range|by exists [b0]]|].
  destruct bs as [|b1 bs]; [discriminate H|]. apply Forall_cons in Hok as [Hb1 Hok].
  cbn [read_u8 result_bind] in H.
  destruct (Z.land b0 64 =? 0); [injection H as <- <-; split; [glue_range|by exists [b0; b1]]|].
  destruct bs as [|b2 bs]; [discriminate H|]. apply Forall_cons in Hok as [Hb2 Hok].
  cbn [read_u8 result_bind] in H.
  destruct (Z.land b0 32 =? 0); [injection H as <- <-; split; [glue_range|by exists [b0; b1; b2]]|].
  destruct bs as [|b3 bs]; [discriminate H|]. apply Forall_cons in Hok as [Hb3 Hok].
  cbn [read_u8 result_bind] in H.
  destruct (Z.land b0 16 =? 0);
    [injection H as <- <-; split; [glue_range|by exists [b0; b1; b2; b3]]|].
  destruct bs as [|b4 bs]; [discriminate H|]. apply Forall_cons in Hok as [Hb4 Hok].
  cbn [read_u8 result_bind] in H.
  destruct (Z.land b0 4 =? 0);
    [injection H as <- <-; split; [glue_range|by exists [b0; b1; b2; b3; b4]]|].
  do 4 (destruct bs as [|? bs]; [discriminate H|]; apply Forall_cons in Hok as [? Hok];
        cbn [read_u8 result_bind] in H).
  injection H as <- <-. split; [glue_range|by eexists [b0; b1; b2; b3; b4; _; _; _; _]].
Qed.

Lemma read_varint_rest_ok bs v rest :
  bytes_ok bs -> read_varint bs = Ok (v, rest) -> bytes_ok rest.
Proof.
  intros Hok H. destruct (read_varint_sound _ _ _ Hok H) as [_ (u & -> & _)].
  by apply Forall_app in Hok as [_ Hok].
Qed.

Lemma read_varint_err bs e : read_varint bs = Err e -> e = UnexpectedEof.
Proof.
  revert e; induction bs as [|b0 bs IH]; intros e H; cbn [read_varint] in H;
    [by injection H as <-|].
  destruct (Z.land b0 252 =? 248).
  { destruct (read_varint bs) as [[??]|e']; cbn [result_bind] in H; [discriminate H|].
    injection H as <-. by apply IH. }
  destruct (Z.land b0 252 =? 252); [discriminate H|].
  destruct (Z.land b0 128 =? 0); [discriminate H|].
  do 8 (destruct bs as [|? bs]; [by injection H as <-|]; cbn [read_u8 result_bind] in H;
        try (match type of H with (if ?b then _ else _) = _ => destruct b end; [discriminate H|])).
  discriminate H.
Qed.

(** Nested activations of [read_varint] on an input. *)
Fixpoint read_varint_depth (bs : list Z) : nat :=
  match bs with
  | [] => 1
  | b0 :: r0 => if Z.land b0 252 =? 248 then S (read_varint_depth r0) else 1
  end.

(** ** Properties *)

(** C28.  Round trip of the varint codec: for every 64-bit value the bytes [write_varint]
    produces are bytes, are between 1 and 10 of them (the room the packet encoder reserves),
    and [read_varint] reads back the value and leaves exactly what follows. *)
Theorem varint_roundtrip v rest :
  in_u 64 v ->
  read_varint (write_varint v ++ rest) = Ok (v, rest)
  /\ (1 <= length (write_varint v) <= 10)%nat /\ bytes_ok (write_varint v).
Proof.
  intros Hv. split; [by apply read_write_varint|].
  split; [by apply length_write_varint|by apply write_varint_ok].
Qed.

Lemma varint_roundtrip_witness :
  let v := 18446744073709548544 in
  in_u 64 v /\ write_varint v = [248; 139; 255]
  /\ read_varint (write_varint v ++ [7]) = Ok (v, [7]).
Proof.
  cbv zeta. assert (in_u 64 18446744073709548544) as H by (unfold in_u; lia).
  split; [exact H|]. split; [vm_compute; reflexivity|].
  exact (proj1 (varint_roundtrip 18446744073709548544 [7] H)).
Defined.

(** [write_varint]'s self-call happens at most once: with any fuel of at least two
    activations the encoder finishes, with the same bytes, and those bytes are the ones the
    range-by-range reference encoding gives. *)
Theorem varint_write_total fuel v :
  in_u 64 v -> write_varint_fuel (2 + fuel) v = Some (write_varint v) /\ write_varint v = varint_ref v.
Proof.
  intros Hv. split; [|by apply write_varint_ref].
  rewrite write_varint_ref by done. by apply write_varint_fuel_ref.
Qed.

Lemma varint_write_total_witness :
  write_varint_fuel 5 300 = Some (write_varint 300) /\ write_varint 300 = varint_ref 300.
Proof. apply (varint_write_total 3 300). unfold in_u; lia. Defined.

(** Reading any byte string either fails with end of file or returns a value that fits
    64 bits and a proper suffix of the input; the recursion nests at most once per
    input byte plus one, and an input of [n] negation prefixes does nest [n] deep. *)
Theorem varint_read_safe bs n :
  bytes_ok bs ->
  match read_varint bs with
  | Ok (v, rest) => in_u 64 v /\ exists used, bs = used ++ rest /\ used <> []
  | Err e => e = UnexpectedEof
  end
  /\ (read_varint_depth bs <= S (length bs))%nat
  /\ read_varint_depth (replicate n 248 ++ bs) = (n + read_varint_depth bs)%nat.
Proof.
  intros Hok. split; [|split].
  - destruct (read_varint bs) as [[v rest]|e] eqn:H; [by apply read_varint_sound|].
    by apply read_varint_err in H.
  - clear Hok. induction bs as [|b bs IH]; cbn; [lia|]. case_if; lia.
  - clear Hok. induction n as [|n IH]; [done|]. cbn. by rewrite IH.
Qed.

Lemma varint_read_safe_witness :
  read_varint [130; 44; 9] = Ok (556, [9]) /\ (read_varint_depth [130; 44; 9]%Z <= 4)%nat.
Proof.
  assert (bytes_ok [130; 44; 9]) as H by (apply bytes_okb_spec; reflexivity).
  split; [vm_compute; reflexivity|]. exact (proj1 (proj2 (varint_read_safe [130; 44; 9] 0 H))).
Defined.
