(* ===== verification/Voice.v ===== *)
(** Voice packets and their wire format: [src/src/voice.rs]. *)

From stdpp Require Import base list.
From Stdlib Require Import ZArith Lia.
From S2P Require Import Prelude Errors Varint.

(** ** Direction of a packet *)

(** The sealed trait [VoicePacketDst]: what the two directions disagree on. *)
Class VoicePacketDst (D : Type) := {
  SessionId : Type;
  read_session_id : list Z -> Result IoError (SessionId * list Z);
  write_session_id : list Z -> SessionId -> list Z;
}.
Arguments SessionId D {_}.
Arguments read_session_id D {_} bs.
Arguments write_session_id D {_} buf s.

Inductive ServerBound : Set := serverBound.
Inductive ClientBound : Set := clientBound.

(** Server-bound packets carry no session id. *)
#[global] Instance ServerBound_dst : VoicePacketDst ServerBound := {|
  SessionId := unit;
  read_session_id bs := Ok (tt, bs);
  write_session_id buf _ := buf;
|}.

(** Client-bound packets carry the speaker's session id as a varint. *)
#[global] Instance ClientBound_dst : VoicePacketDst ClientBound := {|
  SessionId := Z;
  read_session_id bs := let? (var_int, r) := read_varint bs in Ok (as_u32 var_int, r);
  write_session_id buf session_id := put_varint buf session_id;
|}.

(** ** Packets *)

Inductive VoicePacketPayload :=
  | CeltAlpha (frames : list (list Z))
  | CeltBeta (frames : list (list Z))
  | Speex (frames : list (list Z))
  | Opus (frame : list Z) (termination_bit : bool).

Inductive VoicePacket (D : Type) `{VoicePacketDst D} :=
  | VPing (timestamp : Z)
  | VAudio (target : Z) (session_id : SessionId D) (seq_num : Z)
      (payload : VoicePacketPayload) (position_info : option (list Z)).
Arguments VPing {D _} timestamp.
Arguments VAudio {D _} target session_id seq_num payload position_info.

(** [VoicePacket::into_client_bound]. *)
Definition into_client_bound (p : VoicePacket ServerBound) (session_id : Z)
    (remove_positional_data : bool) : VoicePacket ClientBound :=
  match p with
  | VPing timestamp => VPing timestamp
  | VAudio target _ seq_num payload position_info =>
    VAudio (D := ClientBound) target session_id seq_num payload
      (if remove_positional_data then None else position_info)
  end.

(** ** Decoding *)

(** The [loop] over length-prefixed frames; the high bit of a length announces another frame.
    [fuel] bounds the iterations, each of which consumes a byte. *)
Fixpoint decode_frames (fuel : nat) (buf : list Z)
    : option (Result DecryptError (list (list Z) * list Z)) :=
  match fuel with
  | O => None
  | S fuel' =>
    match buf with
    | [] => Some (Err Eof)
    | header :: buf1 =>
      let len := Z.land header (as_u8 (Z.lnot 128)) in
      if Z.of_nat (length buf1) <? len then Some (Err Eof)
      else
        let frame := take (Z.to_nat len) buf1 in
        let buf2 := drop (Z.to_nat len) buf1 in
        if Z.land header 128 =? 128 then
          match decode_frames fuel' buf2 with
          | Some (Ok (frames, rest)) => Some (Ok (frame :: frames, rest))
          | other => other
          end
        else Some (Ok ([frame], buf2))
    end
  end.

(** One iteration per byte is enough ([decode_frames_total]). *)
Definition decode_frames_all (buf : list Z) : Result DecryptError (list (list Z) * list Z) :=
  match decode_frames (S (length buf)) buf with Some r => r | None => Err Eof end.

(** The payload part of [decode_voice_packet]: the [match kind]. *)
Definition decode_payload (kind : Z) (buf : list Z)
    : Result DecryptError (VoicePacketPayload * list Z) :=
  if (kind =? 0) || (kind =? 2) || (kind =? 3) then
    let? (frames, rest) := decode_frames_all buf in
    Ok ((if kind =? 0 then CeltAlpha frames
         else if kind =? 2 then Speex frames
         else CeltBeta frames), rest)
  else if kind =? 4 then
    let? (header, buf1) := io_decrypt (read_varint buf) in
    let termination_bit := Z.land header 8192 =? 8192 in
    let len := Z.land header (not_u64 8192) in
    if Z.of_nat (length buf1) <? len then Err Eof
    else Ok (Opus (take (Z.to_nat len) buf1) termination_bit, drop (Z.to_nat len) buf1)
  else Err (DecryptIo InvalidData).

(** [decode_voice_packet]: the packet and what is left in the buffer. *)
Definition decode_voice_packet (D : Type) `{VoicePacketDst D} (buf_mut : list Z)
    : Result DecryptError (VoicePacket D * list Z) :=
  let? (header, buf) := io_decrypt (read_u8 buf_mut) in
  let kind := Z.shiftr header 5 in
  let target := Z.land header 31 in
  if kind =? 1 then
    let? (timestamp, _) := io_decrypt (read_varint buf) in
    Ok (VPing timestamp, [])
  else
    let? (session_id, buf) := io_decrypt (read_session_id D buf) in
    let? (seq_num, buf) := io_decrypt (read_varint buf) in
    let? (payload, buf) := decode_payload kind buf in
    let position_info := match buf with [] => None | _ => Some buf end in
    Ok (VAudio target session_id seq_num payload position_info, []).

(** ** Encoding *)

Definition put_u8 (dst : list Z) (b : Z) : list Z := dst ++ [b].

(** The [while let] over the peekable frame iterator. *)
Fixpoint encode_frames (frames : list (list Z)) (dst : list Z) : list Z :=
  match frames with
  | [] => dst
  | frame :: frames' =>
    let continuation := match frames' with [] => 0 | _ => 128 end in
    let dst := put_u8 dst (Z.lor continuation (as_u8 (Z.of_nat (length frame)))) in
    encode_frames frames' (dst ++ frame)
  end.

Definition payload_kind (payload : VoicePacketPayload) : Z :=
  match payload with
  | CeltAlpha _ => 0
  | Speex _ => 2
  | CeltBeta _ => 3
  | Opus _ _ => 4
  end.

Definition encode_payload (payload : VoicePacketPayload) (dst : list Z) : list Z :=
  match payload with
  | CeltAlpha frames | Speex frames | CeltBeta frames => encode_frames frames dst
  | Opus frame termination_bit =>
    let term_bit := if termination_bit then 8192 else 0 in
    put_varint dst (Z.lor term_bit (Z.of_nat (length frame))) ++ frame
  end.

(** [encode_voice_packet]. *)
Definition encode_voice_packet {D : Type} `{VoicePacketDst D} (item : VoicePacket D)
    (dst : list Z) : list Z :=
  match item with
  | VPing timestamp => put_varint (put_u8 dst 32) timestamp
  | VAudio target session_id seq_num payload position_info =>
    let dst := put_u8 dst (Z.lor (as_u8 (Z.shiftl (payload_kind payload) 5)) (Z.land target 31)) in
    let dst := write_session_id D dst session_id in
    let dst := put_varint dst seq_num in
    let dst := encode_payload payload dst in
    match position_info with
    | Some bytes => dst ++ bytes
    | None => dst
    end
  end.

(** ** Well-formed packets *)

Definition frame_ok (frame : list Z) : Prop := bytes_ok frame /\ Z.of_nat (length frame) < 128.

Definition payload_ok (payload : VoicePacketPayload) : Prop :=
  match payload with
  | CeltAlpha frames | Speex frames | CeltBeta frames => frames <> [] /\ Forall frame_ok frames
  | Opus frame _ =>
    bytes_ok frame /\ in_u 64 (Z.of_nat (length frame))
    /\ Z.testbit (Z.of_nat (length frame)) 13 = false
  end.

Definition position_ok (position_info : option (list Z)) : Prop :=
  match position_info with Some bytes => bytes <> [] /\ bytes_ok bytes | None => True end.

(** What one direction promises to the packet codec. *)
Class VoicePacketDstLaws (D : Type) `{VoicePacketDst D} := {
  session_ok : SessionId D -> Prop;
  write_session_app dst s : write_session_id D dst s = dst ++ write_session_id D [] s;
  write_session_ok s : session_ok s -> bytes_ok (write_session_id D [] s);
  read_write_session s rest :
    session_ok s -> read_session_id D (write_session_id D [] s ++ rest) = Ok (s, rest);
  read_session_sound bs s rest :
    bytes_ok bs -> read_session_id D bs = Ok (s, rest) ->
    session_ok s /\ bytes_ok rest /\ (length rest <= length bs)%nat;
}.

Lemma read_varint_length bs v rest :
  bytes_ok bs -> read_varint bs = Ok (v, rest) -> (length rest < length bs)%nat.
Proof.
  intros Hok H. destruct (read_varint_sound _ _ _ Hok H) as [_ ([|u us] & -> & Hne)]; [done|].
  cbn. rewrite length_app. lia.
Qed.

#[global] Instance ServerBound_laws : VoicePacketDstLaws ServerBound.
Proof.
  refine {| session_ok := fun _ => True |}; cbn; intros.
  - by rewrite app_nil_r.
  - constructor.
  - by destruct s.
  - simplify_eq. auto.
Defined.

#[global] Instance ClientBound_laws : VoicePacketDstLaws ClientBound.
Proof.
  refine {| session_ok := fun s : SessionId ClientBound => in_u 32 s |}; cbn -[read_varint]; intros.
  - done.
  - apply write_varint_ok. unfold in_u in *; lia.
  - unfold put_varint. cbn [app]. rewrite read_write_varint by (unfold in_u in *; lia).
    cbn. by rewrite as_u32_small.
  - destruct (read_varint bs) as [[v r]|] eqn:Hr; [|done]. cbn in *. simplify_eq.
    pose proof (read_varint_length _ _ _ H Hr).
    split; [auto with rust|]. split; [by eapply read_varint_rest_ok|lia].
Defined.

Definition packet_ok {D} `{VoicePacketDstLaws D} (p : VoicePacket D) : Prop :=
  match p with
  | VPing timestamp => in_u 64 timestamp
  | VAudio target session_id seq_num payload position_info =>
    0 <= target < 32 /\ session_ok session_id /\ in_u 64 seq_num /\ payload_ok payload
    /\ position_ok position_info
  end.

(** ** Frame lists *)

Definition len_byte_ok (n : Z) : bool :=
  (Z.land (Z.lor 128 n) (as_u8 (Z.lnot 128)) =? n) && (Z.land (Z.lor 128 n) 128 =? 128)
  && (Z.land n (as_u8 (Z.lnot 128)) =? n) && negb (Z.land n 128 =? 128)
  && (Z.lor 128 n =? 128 + n).

(** A frame length below 128 and its continuation bit do not disturb each other. *)
Lemma len_byte n : 0 <= n < 128 ->
  Z.land (Z.lor 128 n) (as_u8 (Z.lnot 128)) = n /\ (Z.land (Z.lor 128 n) 128 =? 128) = true
  /\ Z.land n (as_u8 (Z.lnot 128)) = n /\ (Z.land n 128 =? 128) = false
  /\ Z.lor 128 n = 128 + n.
Proof.
  intros Hn. assert (len_byte_ok n = true) as H
    by (apply (seqZ_forall len_byte_ok 128); [vm_compute; reflexivity|done]).
  unfold len_byte_ok in H. rewrite !andb_true_iff, negb_true_iff, !Z.eqb_eq in H.
  destruct_and! H. by rewrite Z.eqb_eq.
Qed.

Lemma encode_frames_app frames dst : encode_frames frames dst = dst ++ encode_frames frames [].
Proof.
  revert dst; induction frames as [|f fs IH]; intros dst; cbn [encode_frames];
    [by rewrite app_nil_r|].
  rewrite IH, (IH (put_u8 [] _ ++ f)). unfold put_u8. by rewrite <- !app_assoc.
Qed.

Lemma encode_frames_cons f fs :
  encode_frames (f :: fs) [] =
  Z.lor (match fs with [] => 0 | _ => 128 end) (as_u8 (Z.of_nat (length f)))
    :: f ++ encode_frames fs [].
Proof. cbn [encode_frames]. by rewrite encode_frames_app. Qed.

Lemma decode_frames_last fuel f rest :
  frame_ok f ->
  decode_frames (S fuel) (Z.lor 0 (as_u8 (Z.of_nat (length f))) :: f ++ rest) = Some (Ok ([f], rest)).
Proof.
  intros [_ Hlen]. rewrite as_u8_small, Z.lor_0_l by (unfold in_u; lia). cbn [decode_frames].
  destruct (len_byte (Z.of_nat (length f))) as (_ & _ & -> & -> & _); [lia|].
  rewrite Nat2Z.id, take_app_length, drop_app_length, length_app.
  rewrite (proj2 (Z.ltb_ge _ _)) by lia. done.
Qed.

Lemma decode_frames_more fuel f buf :
  frame_ok f ->
  decode_frames (S fuel) (Z.lor 128 (as_u8 (Z.of_nat (length f))) :: f ++ buf) =
  match decode_frames fuel buf with
  | Some (Ok (frames, rest)) => Some (Ok (f :: frames, rest))
  | other => other
  end.
Proof.
  intros [_ Hlen]. rewrite as_u8_small by (unfold in_u; lia). cbn [decode_frames].
  destruct (len_byte (Z.of_nat (length f))) as (-> & -> & _); [lia|].
  rewrite Nat2Z.id, take_app_length, drop_app_length, length_app.
  rewrite (proj2 (Z.ltb_ge _ _)) by lia. done.
Qed.

Lemma decode_encode_frames fuel frames rest :
  frames <> [] -> Forall frame_ok frames -> (length frames <= fuel)%nat ->
  decode_frames fuel (encode_frames frames [] ++ rest) = Some (Ok (frames, rest)).
Proof.
  revert fuel. induction frames as [|f fs IH]; [done|]. intros [|fuel] _ Hok Hf; [cbn in Hf; lia|].
  apply Forall_cons in Hok as [Hf0 Hok].
  rewrite encode_frames_cons, <- app_comm_cons, <- app_assoc. destruct fs as [|f' fs].
  - by apply decode_frames_last.
  - rewrite decode_frames_more by done. rewrite IH; [done|done|done|cbn in *; lia].
Qed.

Lemma length_encode_frames frames : (length frames <= length (encode_frames frames []))%nat.
Proof.
  induction frames as [|f fs IH]; [done|]. rewrite encode_frames_cons. cbn. rewrite length_app. lia.
Qed.

Lemma decode_frames_all_encode frames rest :
  frames <> [] -> Forall frame_ok frames ->
  decode_frames_all (encode_frames frames [] ++ rest) = Ok (frames, rest).
Proof.
  intros Hne Hok. unfold decode_frames_all. rewrite decode_encode_frames; [done..|].
  rewrite length_app. pose proof (length_encode_frames frames). lia.
Qed.

(** The frame loop finishes: one iteration per remaining byte, plus one, is enough. *)
Lemma decode_frames_total fuel buf : (length buf < fuel)%nat -> is_Some (decode_frames fuel buf).
Proof.
  revert buf; induction fuel as [|fuel IH]; intros buf H; [lia|].
  destruct buf as [|h buf]; cbn [decode_frames]; [by eexists|]. case_if; [by eexists|].
  case_if; [|by eexists].
  destruct (IH (drop (Z.to_nat (Z.land h (as_u8 (Z.lnot 128)))) buf)) as [r ->].
  - rewrite length_drop. cbn in H. lia.
  - destruct r as [[??]|]; by eexists.
Qed.

Lemma decode_frames_sound fuel buf frames rest :
  bytes_ok buf -> decode_frames fuel buf = Some (Ok (frames, rest)) ->
  frames <> [] /\ Forall frame_ok frames /\ bytes_ok rest.
Proof.
  revert buf frames rest; induction fuel as [|fuel IH]; intros buf frames rest Hok H; [done|].
  destruct buf as [|h buf]; cbn [decode_frames] in H; [done|].
  apply Forall_cons in Hok as [Hh Hok]. revert H.
  set (len := Z.land h (as_u8 (Z.lnot 128))). intros H.
  assert (in_u 7 len) as Hlen
    by (apply land_range_r; [lia|unfold in_u in Hh; lia|vm_compute; split; congruence]).
  destruct (Z.of_nat (length buf) <? len) eqn:Hl; [done|].
  assert (frame_ok (take (Z.to_nat len) buf)) as Hf.
  { split; [by apply Forall_take|]. rewrite length_take. unfold in_u in Hlen. lia. }
  assert (bytes_ok (drop (Z.to_nat len) buf)) as Hd by by apply Forall_drop.
  destruct (Z.land h 128 =? 128).
  - destruct (decode_frames fuel _) as [[[fs r]|]|] eqn:Hr; simplify_eq.
    destruct (IH _ _ _ Hd Hr) as (_ & ? & ?). auto.
  - simplify_eq. auto.
Qed.

(** ** Payloads and packets *)

(** The termination bit and the length share the Opus header without overlap. *)
Lemma opus_header n (b : bool) :
  in_u 64 n -> Z.testbit n 13 = false ->
  let h := Z.lor (if b then 8192 else 0) n in
  in_u 64 h /\ (Z.land h 8192 =? 8192) = b /\ Z.land h (not_u64 8192) = n.
Proof.
  intros Hn Hbit h. change 8192 with (2 ^ 13) in *. subst h.
  assert (forall i, 0 <= i -> Z.testbit (if b then 2 ^ 13 else 0) i = b && (i =? 13)) as Ht.
  { intros i Hi. destruct b; [|by rewrite Z.testbit_0_l].
    destruct (Z.eqb_spec i 13) as [->|]; [done|by apply Z.pow2_bits_false]. }
  split; [|split].
  - apply lor_range; [lia| |done]. unfold in_u. destruct b; lia.
  - replace (Z.land _ (2 ^ 13)) with (if b then 2 ^ 13 else 0); [by destruct b|].
    apply Z.bits_inj'; intros i Hi. rewrite Z.land_spec, Z.lor_spec, Ht by done.
    destruct (Z.eqb_spec i 13) as [->|].
    + by rewrite Hbit, Z.pow2_bits_true, orb_false_r, !andb_true_r by lia.
    + by rewrite Z.pow2_bits_false, !andb_false_r by lia.
  - apply Z.bits_inj'; intros i Hi. unfold not_u64.
    rewrite Z.land_spec, Z.lor_spec, Ht, Z.lxor_spec by done.
    destruct (Z.eqb_spec i 13) as [->|].
    + rewrite Hbit, Z.pow2_bits_true, Z.ones_spec_low by lia. by rewrite andb_false_r.
    + rewrite Z.pow2_bits_false, andb_false_r, orb_false_l, xorb_false_l by lia.
      destruct (Z.lt_ge_cases i 64); [by rewrite Z.ones_spec_low, andb_true_r by lia|].
      by rewrite (testbit_above 64 n).
Qed.

Lemma encode_payload_app payload dst : encode_payload payload dst = dst ++ encode_payload payload [].
Proof.
  destruct payload; cbn [encode_payload]; try apply encode_frames_app.
  unfold put_varint. by rewrite !app_nil_l, <- !app_assoc.
Qed.

Lemma decode_encode_payload payload rest :
  payload_ok payload ->
  decode_payload (payload_kind payload) (encode_payload payload [] ++ rest) = Ok (payload, rest).
Proof.
  destruct payload as [fs|fs|fs|frame b]; cbn [payload_ok payload_kind encode_payload]; intros Hok;
    unfold decode_payload; cbn [Z.eqb orb].
  1-3: by rewrite decode_frames_all_encode by apply Hok.
  destruct Hok as (Hf & Hlen & Hbit). unfold put_varint. rewrite app_nil_l, <- app_assoc.
  destruct (opus_header _ b Hlen Hbit) as (Hh & Ht & Hl).
  rewrite read_write_varint by done. cbn [io_decrypt result_map_err result_bind].
  rewrite Ht, Hl, Nat2Z.id, take_app_length, drop_app_length, length_app.
  rewrite (proj2 (Z.ltb_ge _ _)) by lia. done.
Qed.

Lemma encode_frames_ok frames : Forall frame_ok frames -> bytes_ok (encode_frames frames []).
Proof.
  induction 1 as [|f fs [Hf Hlen] _ IH]; [constructor|]. rewrite encode_frames_cons.
  apply Forall_cons. split; [|by apply Forall_app].
  apply lor_range; [lia| |apply as_u8_range]. unfold in_u. destruct fs; lia.
Qed.

Lemma encode_payload_ok payload : payload_ok payload -> bytes_ok (encode_payload payload []).
Proof.
  destruct payload as [fs|fs|fs|frame b]; cbn [payload_ok encode_payload].
  1-3: intros [_ Hok]; by apply encode_frames_ok.
  intros (Hf & Hlen & Hbit). unfold put_varint. rewrite app_nil_l. apply Forall_app.
  split; [|done]. apply write_varint_ok. by apply opus_header.
Qed.

Definition header_ok (k t : Z) : bool :=
  let b := Z.lor (as_u8 (Z.shiftl k 5)) (Z.land t 31) in
  (Z.shiftr b 5 =? k) && (Z.land b 31 =? t) && (0 <=? b) && (b <? 256).

(** Kind and target share the packet header byte without overlap. *)
Lemma packet_header k t :
  0 <= k < 8 -> 0 <= t < 32 ->
  let b := Z.lor (as_u8 (Z.shiftl k 5)) (Z.land t 31) in
  Z.shiftr b 5 = k /\ Z.land b 31 = t /\ byte_ok b.
Proof.
  intros Hk Ht. assert (header_ok k t = true) as H.
  { apply (seqZ_forall (header_ok k) 32); [|done]. revert k Hk.
    apply (seqZ_forall (fun k => forallb (header_ok k) (seqZ 0 32)) 8). vm_compute. reflexivity. }
  unfold header_ok in H. cbv zeta in *. unfold in_u. lia.
Qed.

Section packets.
Context {D : Type} `{VoicePacketDstLaws D}.
Implicit Type p : VoicePacket D.

Lemma encode_voice_packet_app p dst :
  encode_voice_packet p dst = dst ++ encode_voice_packet p [].
Proof.
  destruct p as [ts|t s n pl pos]; cbn [encode_voice_packet]; unfold put_varint, put_u8.
  - by rewrite <- !app_assoc.
  - rewrite (write_session_app (dst ++ _)), (write_session_app ([] ++ _)).
    rewrite (encode_payload_app _ (((dst ++ _) ++ _) ++ _)),
      (encode_payload_app _ ((([] ++ _) ++ _) ++ _)).
    destruct pos; by rewrite <- ?app_assoc.
Qed.

(** Decoding the encoding of a well-formed packet gives the packet back and empties the buffer. *)
Lemma decode_encode_packet p :
  packet_ok p -> decode_voice_packet D (encode_voice_packet p []) = Ok (p, []).
Proof.
  destruct p as [ts|t s n pl pos]; cbn [packet_ok encode_voice_packet].
  - intros Hts. unfold put_varint, put_u8, decode_voice_packet. cbn.
    rewrite <- (app_nil_r (write_varint ts)), read_write_varint by done. done.
  - intros (Ht & Hs & Hn & Hpl & Hpos). unfold put_varint, put_u8. rewrite app_nil_l.
    rewrite (write_session_app [_]), encode_payload_app, <- !app_assoc.
    destruct (packet_header (payload_kind pl) t) as (Hk & Hb & _); [destruct pl; cbn; lia|done|].
    unfold decode_voice_packet. destruct pos as [pos|]; rewrite <- ?app_assoc, <- app_comm_cons;
      cbn [app read_u8 io_decrypt result_map_err result_bind]; rewrite Hk, Hb.
    all: replace (payload_kind pl =? 1) with false by (by destruct pl).
    1: rewrite read_write_session by done.
    2: rewrite <- (app_nil_r (encode_payload pl [])), read_write_session by done.
    all: cbn [io_decrypt result_map_err result_bind]; rewrite read_write_varint by done.
    all: cbn [io_decrypt result_map_err result_bind]; rewrite decode_encode_payload by done.
    all: cbn [result_bind]. 2: done.
    cbn in Hpos. by destruct pos; [destruct Hpos|].
Qed.

Lemma encode_packet_ok p : packet_ok p -> bytes_ok (encode_voice_packet p []).
Proof.
  destruct p as [ts|t s n pl pos]; cbn [packet_ok encode_voice_packet].
  - intros Hts. unfold put_varint, put_u8. apply Forall_app. split; [|by apply write_varint_ok].
    apply Forall_singleton. unfold in_u. lia.
  - intros (Ht & Hs & Hn & Hpl & Hpos). unfold put_varint, put_u8. rewrite app_nil_l.
    rewrite write_session_app, encode_payload_app.
    destruct (packet_header (payload_kind pl) t) as (_ & _ & Hb); [destruct pl; cbn; lia|done|].
    destruct pos as [pos|]; rewrite !Forall_app, ?Forall_singleton;
      split_and!; try done; try (by apply write_session_ok); try (by apply write_varint_ok);
      try (by apply encode_payload_ok). apply Hpos.
Qed.

Lemma decode_payload_sound kind buf payload rest :
  bytes_ok buf -> Z.of_nat (length buf) < 2 ^ 64 ->
  decode_payload kind buf = Ok (payload, rest) -> payload_ok payload /\ bytes_ok rest.
Proof.
  intros Hok Hlen Hd. unfold decode_payload in Hd. case_match eqn:Hk.
  - unfold decode_frames_all in Hd.
    destruct (decode_frames _ buf) as [[[fs r]|]|] eqn:Hf; cbn in Hd; simplify_eq.
    destruct (decode_frames_sound _ _ _ _ Hok Hf) as (? & ? & ?).
    split; [|done]. by repeat case_match.
  - case_match; [|done].
    destruct (read_varint buf) as [[h buf1]|] eqn:Hr; cbn in Hd; [|done].
    destruct (read_varint_sound _ _ _ Hok Hr) as [Hh _].
    pose proof (read_varint_rest_ok _ _ _ Hok Hr). pose proof (read_varint_length _ _ _ Hok Hr).
    destruct (Z.of_nat (length buf1) <? _) eqn:Hl; simplify_eq.
    apply Z.ltb_ge in Hl. split; [|by apply Forall_drop]. cbn [payload_ok].
    assert (0 <= Z.land h (not_u64 8192)) by (apply Z.land_nonneg; unfold in_u in *; lia).
    rewrite length_take_le, Z2Nat.id by lia.
    split; [by apply Forall_take|]. split; [unfold in_u; lia|].
    rewrite Z.land_spec. change (Z.testbit (not_u64 8192) 13) with false. apply andb_false_r.
Qed.

(** Whatever bytes arrive, a packet that decodes is well-formed and the buffer is consumed. *)
Lemma decode_packet_sound buf p rest :
  bytes_ok buf -> Z.of_nat (length buf) < 2 ^ 64 ->
  decode_voice_packet D buf = Ok (p, rest) -> packet_ok p /\ rest = [].
Proof.
  intros Hok Hlen Hd. unfold decode_voice_packet in Hd.
  destruct buf as [|h buf]; [done|]. apply Forall_cons in Hok as [Hh Hok].
  cbn -[Z.shiftr Z.land read_session_id] in Hd, Hlen. case_match.
  { destruct (read_varint buf) as [[ts r]|] eqn:Hr; cbn in Hd; simplify_eq.
    by destruct (read_varint_sound _ _ _ Hok Hr). }
  destruct (read_session_id D buf) as [[s r]|] eqn:Hs; cbn in Hd; [|done].
  destruct (read_session_sound _ _ _ Hok Hs) as (Hsok & Hr & Hrl).
  destruct (read_varint r) as [[n r2]|] eqn:Hn; cbn in Hd; [|done].
  destruct (read_varint_sound _ _ _ Hr Hn) as [Hnu _].
  pose proof (read_varint_length _ _ _ Hr Hn). pose proof (read_varint_rest_ok _ _ _ Hr Hn).
  destruct (decode_payload _ r2) as [[pl r3]|] eqn:Hp; cbn in Hd; [|done].
  destruct (decode_payload_sound _ _ _ _ ltac:(done) ltac:(lia) Hp).
  simplify_eq. split; [|done]. cbn.
  assert (in_u 5 (Z.land h 31)) by (apply land_range_r; unfold in_u in *; lia).
  split; [unfold in_u in *; lia|]. do 3 (split; [done|]). by destruct r3.
Qed.
End packets.

Lemma into_client_bound_ok (p : VoicePacket ServerBound) sid strip :
  packet_ok p -> in_u 32 sid -> packet_ok (into_client_bound p sid strip).
Proof.
  destruct p as [|t s n pl pos]; [done|]. cbn. intros (? & _ & ? & ? & ?) ?. by destruct strip.
Qed.

Lemma decode_frames_mono fuel fuel' buf r :
  (fuel <= fuel')%nat -> decode_frames fuel buf = Some r -> decode_frames fuel' buf = Some r.
Proof.
  revert fuel' buf r; induction fuel as [|fuel IH]; intros [|fuel'] buf r Hle H; try (done || lia).
  destruct buf as [|h buf]; cbn [decode_frames] in *; [done|].
  case_if; [done|]. case_if; [|done].
  destruct (decode_frames fuel _) as [r0|] eqn:Hr; [|done].
  rewrite (IH fuel' _ _ ltac:(lia) Hr). done.
Qed.

Lemma decode_frames_err fuel buf e : decode_frames fuel buf = Some (Err e) -> e = Eof.
Proof.
  revert buf e; induction fuel as [|fuel IH]; intros [|h buf] e H; cbn [decode_frames] in H;
    try (discriminate H || by simplify_eq).
  case_match; [by simplify_eq|]. case_match; [|done].
  destruct (decode_frames fuel _) as [[[]|e']|] eqn:Hr; simplify_eq. by eapply IH.
Qed.

(** The decoder's own errors are end of file and I/O errors. *)
Lemma decode_voice_packet_err {D} `{VoicePacketDst D} buf e :
  decode_voice_packet D buf = Err e -> e = Eof \/ exists io, e = DecryptIo io.
Proof.
  intros Hd.
  unfold decode_voice_packet, io_decrypt in Hd. destruct (read_u8 buf) as [[h b0]|]; cbn in Hd;
    [|simplify_eq; eauto].
  case_match; [destruct (read_varint b0) as [[]|]; cbn in Hd; simplify_eq; eauto|].
  destruct (read_session_id D b0) as [[s b1]|]; cbn in Hd; [|simplify_eq; eauto].
  destruct (read_varint b1) as [[n b2]|]; cbn in Hd; [|simplify_eq; eauto].
  destruct (decode_payload _ b2) as [[pl b3]|] eqn:Hp; cbn in Hd; [done|]. simplify_eq.
  unfold decode_payload, decode_frames_all, io_decrypt in Hp. case_match.
  - destruct (decode_frames _ b2) as [[[]|]|] eqn:Hf; cbn in Hp; simplify_eq; [|auto].
    left. by eapply decode_frames_err.
  - case_match; [|simplify_eq; eauto].
    destruct (read_varint b2) as [[hd b4]|]; cbn in Hp; [|simplify_eq; eauto].
    case_match; simplify_eq; auto.
Qed.

(** ** Properties *)

(** C27.  Round trip of voice packets in either direction: encoding a well-formed packet
    (5-bit target, 64-bit sequence number, at least one frame of fewer than 128 bytes or an Opus
    frame whose length leaves the termination bit free, non-empty position data) and decoding
    the bytes gives the packet back with an empty buffer. *)
Theorem voice_roundtrip {D : Type} `{VoicePacketDstLaws D} (p : VoicePacket D) :
  packet_ok p -> decode_voice_packet D (encode_voice_packet p []) = Ok (p, []).
Proof. apply decode_encode_packet. Qed.

Definition sample_audio : VoicePacket ClientBound :=
  VAudio (D := ClientBound) 5 70000 12345678901 (Opus [1; 2; 3] true) (Some [9; 8]).

Lemma voice_roundtrip_witness :
  packet_ok sample_audio
  /\ decode_voice_packet ClientBound (encode_voice_packet sample_audio []) = Ok (sample_audio, []).
Proof.
  assert (packet_ok sample_audio) as H.
  { cbn. unfold in_u. repeat split; try lia; try done; apply bytes_okb_spec; reflexivity. }
  split; [exact H|]. exact (voice_roundtrip sample_audio H).
Defined.

(** Decoding is total and safe on any bytes of a buffer whose length fits [usize]: either
    the packet is well-formed and the whole buffer is consumed, or the error is an I/O error or end of
    file; the errors of the decryption layer never come from the decoder. *)
Theorem voice_decode_safe {D : Type} `{VoicePacketDstLaws D} (buf : list Z) :
  bytes_ok buf -> Z.of_nat (length buf) < 2 ^ 64 ->
  match decode_voice_packet D buf with
  | Ok (p, rest) => packet_ok p /\ rest = []
  | Err e => e = Eof \/ exists io, e = DecryptIo io
  end.
Proof.
  intros Hok Hlen. destruct (decode_voice_packet D buf) as [[p rest]|e] eqn:Hd;
    [by eapply decode_packet_sound|].
  by eapply decode_voice_packet_err.
Qed.

Lemma voice_decode_safe_witness :
  decode_voice_packet ServerBound [0; 4; 130; 7; 7; 1; 9; 3] =
    Ok (VAudio (D := ServerBound) 0 tt 4 (CeltAlpha [[7; 7]; [9]]) (Some [3]), [])
  /\ match decode_voice_packet ServerBound [0; 4; 130; 7; 7; 1; 9; 3] with
     | Ok (p, rest) => packet_ok p /\ rest = []
     | Err e => e = Eof \/ exists io, e = DecryptIo io
     end.
Proof.
  split; [vm_compute; reflexivity|].
  apply (voice_decode_safe (D := ServerBound)); [apply bytes_okb_spec; reflexivity|cbn; lia].
Defined.

(** Relaying preserves the audio: when the server decodes a packet a client sent, stamps
    it with the speaker's session id and encodes it for another client, that client decodes
    exactly the stamped packet (target, sequence number, payload and position unchanged, the position
    dropped when the server strips it). *)
Theorem voice_relay_faithful (buf rest : list Z) (p : VoicePacket ServerBound) (sid : Z) (strip : bool) :
  bytes_ok buf -> Z.of_nat (length buf) < 2 ^ 64 -> in_u 32 sid ->
  decode_voice_packet ServerBound buf = Ok (p, rest) ->
  decode_voice_packet ClientBound (encode_voice_packet (into_client_bound p sid strip) []) =
    Ok (into_client_bound p sid strip, []).
Proof.
  intros Hok Hlen Hsid Hd. destruct (decode_packet_sound _ _ _ Hok Hlen Hd) as [Hp _].
  by apply decode_encode_packet, into_client_bound_ok.
Qed.

Definition sample_whisper : VoicePacket ServerBound :=
  VAudio (D := ServerBound) 1 tt 4 (Opus [7; 7] false) (Some [3]).

Lemma voice_relay_faithful_witness :
  decode_voice_packet ServerBound [129; 4; 2; 7; 7; 3] = Ok (sample_whisper, [])
  /\ decode_voice_packet ClientBound
       (encode_voice_packet (into_client_bound sample_whisper 300 true) []) =
       Ok (VAudio (D := ClientBound) 1 300 4 (Opus [7; 7] false) None, []).
Proof.
  split; [vm_compute; reflexivity|].
  apply (voice_relay_faithful [129; 4; 2; 7; 7; 3] [] sample_whisper 300 true);
    [apply bytes_okb_spec; reflexivity|cbn; lia|unfold in_u; lia|vm_compute; reflexivity].
Defined.

(** The frame loop of the decoder terminates: any bound above the number of remaining
    bytes lets it finish, always with the same result. *)
Theorem voice_frames_terminate (fuel : nat) (buf : list Z) :
  (length buf < fuel)%nat -> decode_frames fuel buf = Some (decode_frames_all buf).
Proof.
  intros Hf. unfold decode_frames_all.
  destruct (decode_frames_total (S (length buf)) buf) as [r Hr]; [lia|]. rewrite Hr.
  eapply decode_frames_mono; [|exact Hr]. lia.
Qed.

Lemma voice_frames_terminate_witness :
  decode_frames 9 [130; 7; 7; 1; 9; 3] = Some (Ok ([[7; 7]; [9]], [3])).
Proof. rewrite (voice_frames_terminate 9 [130; 7; 7; 1; 9; 3]) by (cbn; lia). reflexivity. Defined.
