(* ===== verification/Float32.v ===== *)
(** IEEE 754 binary32, the [f32] of the position and ping statistics.

    The Standard Library's [SpecFloat] gives executable arithmetic with round to nearest,
    ties to even, for any precision; binary32 is precision 24 with exponents below 128.
    NaNs are one value: the sources never look at a NaN's payload. *)

From stdpp Require Import base list.
From Stdlib Require Import ZArith SpecFloat.
From S2P Require Import Prelude.

Abbreviation f32 := spec_float.

Definition f32_add : f32 -> f32 -> f32 := SFadd 24 128.
Definition f32_sub : f32 -> f32 -> f32 := SFsub 24 128.
Definition f32_mul : f32 -> f32 -> f32 := SFmul 24 128.
Definition f32_div : f32 -> f32 -> f32 := SFdiv 24 128.
Definition f32_sqrt : f32 -> f32 := SFsqrt 24 128.
Definition f32_lt (x y : f32) : bool := SFltb x y.
Definition f32_le (x y : f32) : bool := SFleb x y.
Definition f32_zero : f32 := S754_zero false.

(** [n as f32] for an unsigned integer: the nearest representable value. *)
Definition f32_of_Z (n : Z) : f32 := binary_normalize 24 128 n 0 false.

(** 0.5 *)
Definition f32_half : f32 := f32_div (f32_of_Z 1) (f32_of_Z 2).

(** [f32::from_le_bytes]: sign, 8 exponent bits, 23 mantissa bits. *)
Definition f32_of_bits (u : Z) : f32 :=
  let s := Z.testbit u 31 in
  let e := Z.land (Z.shiftr u 23) 255 in
  let m := Z.land u (Z.ones 23) in
  if e =? 255 then (if m =? 0 then S754_infinity s else S754_nan)
  else if e =? 0 then
    match m with
    | Zpos p => S754_finite s p (-149)
    | _ => S754_zero s
    end
  else match m + 2 ^ 23 with
    | Zpos p => S754_finite s p (e - 150)
    | _ => S754_nan
    end.

Definition f32_from_le_bytes (bs : list Z) : f32 := f32_of_bits (from_le_bytes bs).

(** [Duration::as_secs_f32] of a duration in nanoseconds. *)
Definition as_secs_f32 (ns : Z) : f32 :=
  f32_add (f32_of_Z (ns / 1000000000))
    (f32_div (f32_of_Z (ns mod 1000000000)) (f32_of_Z 1000000000)).

Example f32_bits_one : f32_of_bits 1065353216 = f32_of_Z 1.
Proof. reflexivity. Qed.
Example f32_bits_minus_2_5 : f32_of_bits 3223322624 = f32_sub f32_zero (f32_div (f32_of_Z 5) (f32_of_Z 2)).
Proof. reflexivity. Qed.
Example f32_rounding : f32_add (f32_of_Z 16777216) (f32_of_Z 1) = f32_of_Z 16777216.
Proof. reflexivity. Qed.
