(* ===== verification/Text.v ===== *)
(** What the sources use of Rust's strings.  A [String] is its UTF-8 bytes, a Rocq [string]; the byte
    level definitions below agree with the [char] level ones on UTF-8 text. *)

From stdpp Require Import base list strings countable.
From Stdlib Require Import ZArith Lia Ascii.
From S2P Require Import Prelude.

Definition byte_of_ascii (a : ascii) : Z := Z.of_nat (nat_of_ascii a).
Definition ascii_of_byte (b : Z) : ascii := ascii_of_nat (Z.to_nat b).
Definition as_bytes (s : string) : list Z := byte_of_ascii <$> String.list_ascii_of_string s.
Definition of_bytes (bs : list Z) : string := String.string_of_list_ascii (ascii_of_byte <$> bs).

Definition is_empty (s : string) : bool := match s with EmptyString => true | _ => false end.

(** ** [str::trim] *)

(** The UTF-8 encodings of the characters with the property [White_Space]. *)
Definition white1 (b : Z) : bool := ((9 <=? b) && (b <=? 13)) || (b =? 32).
Definition white2 (b0 b1 : Z) : bool := (b0 =? 194) && ((b1 =? 133) || (b1 =? 160)).
Definition white3 (b0 b1 b2 : Z) : bool :=
  ((b0 =? 225) && (b1 =? 154) && (b2 =? 128))
  || ((b0 =? 226) && (b1 =? 128)
      && (((128 <=? b2) && (b2 <=? 138)) || (b2 =? 168) || (b2 =? 169) || (b2 =? 175)))
  || ((b0 =? 226) && (b1 =? 129) && (b2 =? 159))
  || ((b0 =? 227) && (b1 =? 128) && (b2 =? 128)).

Fixpoint strip (w2 : Z -> Z -> bool) (w3 : Z -> Z -> Z -> bool) (bs : list Z) : list Z :=
  match bs with
  | [] => []
  | b0 :: r0 =>
    if white1 b0 then strip w2 w3 r0 else
    match r0 with
    | [] => bs
    | b1 :: r1 =>
      if w2 b0 b1 then strip w2 w3 r1 else
      match r1 with
      | [] => bs
      | b2 :: r2 => if w3 b0 b1 b2 then strip w2 w3 r2 else bs
      end
    end
  end.

Definition trim_start (bs : list Z) : list Z := strip white2 white3 bs.
Definition trim_end (bs : list Z) : list Z :=
  rev (strip (fun b1 b0 => white2 b0 b1) (fun b2 b1 b0 => white3 b0 b1 b2) (rev bs)).
Definition trim (s : string) : string := of_bytes (trim_end (trim_start (as_bytes s))).

(** ** [str::find] and slicing *)

Definition find (s pattern : string) : option nat := String.index 0 pattern s.
Definition slice_from (s : string) (pos : nat) : string :=
  String.substring pos (String.length s - pos) s.

(** ** ASCII case *)

Definition to_ascii_lowercase (b : Z) : Z := if (65 <=? b) && (b <=? 90) then b + 32 else b.
Definition eq_ignore_ascii_case (s t : string) : bool :=
  bool_decide ((to_ascii_lowercase <$> as_bytes s) = (to_ascii_lowercase <$> as_bytes t)).

Lemma eq_ignore_ascii_case_refl s : eq_ignore_ascii_case s s = true.
Proof. by apply bool_decide_eq_true. Qed.

(** ** Serialisation: the two [serde_json] functions, for the types stored on disk *)

Class SerdeJson (T : Type) := {
  to_json : T -> string;
  from_json : string -> option T;
}.

Class SerdeJsonLaws (T : Type) `{SerdeJson T} := {
  from_to_json (x : T) : from_json (to_json x) = Some x;
}.

(** A concrete serialiser for any countable type: the bits of its code. *)
Fixpoint bits_of (p : positive) : string :=
  match p with
  | xH => EmptyString
  | xO p => String "0" (bits_of p)
  | xI p => String "1" (bits_of p)
  end.

Fixpoint of_bits (s : string) : option positive :=
  match s with
  | EmptyString => Some xH
  | String c s => (if bool_decide (c = "0"%char) then xO else xI) <$> of_bits s
  end.

Lemma of_bits_of p : of_bits (bits_of p) = Some p.
Proof. induction p as [p IH|p IH|]; cbn; by rewrite ?IH. Qed.

Definition bits_json {T} `{Countable T} : SerdeJson T := {|
  to_json x := bits_of (encode x);
  from_json s := of_bits s ≫= decode;
|}.

Lemma bits_json_laws {T} `{Countable T} : @SerdeJsonLaws T bits_json.
Proof. split. intros x. cbn. rewrite of_bits_of. cbn. apply decode_encode. Qed.

(** ** Files: what [fs::read_to_string] and [fs::write] see.  A write to a path that is not writable
    fails and changes nothing. *)

Record FileSystem := mkFileSystem {
  files : string -> option string;
  writable : string -> bool;
}.

Definition read_file (fs : FileSystem) (path : string) : option string := files fs path.

Definition write_file (fs : FileSystem) (path data : string) : FileSystem :=
  if writable fs path then
    {| files := fun p => if bool_decide (p = path) then Some data else files fs p;
       writable := writable fs |}
  else fs.

Lemma read_write_file fs path data :
  writable fs path = true -> read_file (write_file fs path data) path = Some data.
Proof.
  intros Hw. unfold read_file, write_file. rewrite Hw. cbn. by rewrite bool_decide_eq_true_2.
Qed.

Lemma writable_write_file fs path data p : writable (write_file fs path data) p = writable fs p.
Proof. unfold write_file. by case_if. Qed.
