(* ===== verification/Messages.v ===== *)
(** The control messages: the structs and enumerations of [src/src/proto/mumble.rs] (generated from [mumble.proto]), one
    Module per message; first those the server reads and writes, then the others.

    An optional scalar is an [option], a repeated field a list, [u32]/[u64]/[i32] are [Z], text is
    [string], bytes are lists of [Z].  [has_x] is [is_Some], [get_x] falls back to the
    protobuf default, and a message built with [T::new()] and [set_x] has [Some] in the fields set
    and [None] in the others.  The [unknown_fields] and
    [cached_size] bookkeeping of the protobuf runtime is left out: no handler reads it. *)

From stdpp Require Import base list option strings.
From S2P Require Import Prelude Float32.

(** [has_x] of an optional field. *)
Definition has {A} (o : option A) : bool := match o with Some _ => true | None => false end.

(** [get_x] of an optional field: the stored value or the type's default. *)
Definition get_num (o : option Z) : Z := default 0 o.
Definition get_bool (o : option bool) : bool := default false o.
Definition get_str (o : option string) : string := default EmptyString o.
Definition get_bytes (o : option (list Z)) : list Z := default [] o.
Definition get_f32 (o : option f32) : f32 := default f32_zero o.

Module VersionMsg.
Record Version := mkVersion {
  version : option Z;
  release : option string;
  os : option string;
  os_version : option string;
}.
End VersionMsg.

Module AuthenticateMsg.
Record Authenticate := mkAuthenticate {
  username : option string;
  password : option string;
  tokens : list string;
  celt_versions : list Z;
  opus : option bool;
}.
End AuthenticateMsg.

Module PingMsg.
Record Ping := mkPing {
  timestamp : option Z;
  good : option Z;
  late : option Z;
  lost : option Z;
  resync : option Z;
  udp_packets : option Z;
  tcp_packets : option Z;
  udp_ping_avg : option f32;
  udp_ping_var : option f32;
  tcp_ping_avg : option f32;
  tcp_ping_var : option f32;
}.
End PingMsg.

Module ServerSyncMsg.
Record ServerSync := mkServerSync {
  session : option Z;
  max_bandwidth : option Z;
  welcome_text : option string;
  permissions : option Z;
}.
End ServerSyncMsg.

Module ChannelRemoveMsg.
Record ChannelRemove := mkChannelRemove {
  channel_id : option Z;
}.
End ChannelRemoveMsg.

Module ChannelStateMsg.
Record ChannelState := mkChannelState {
  channel_id : option Z;
  parent : option Z;
  name : option string;
  links : list Z;
  description : option string;
  links_add : list Z;
  links_remove : list Z;
  temporary : option bool;
  position : option Z;
  description_hash : option (list Z);
  max_users : option Z;
  is_enter_restricted : option bool;
  can_enter : option bool;
}.
End ChannelStateMsg.

Module UserRemoveMsg.
Record UserRemove := mkUserRemove {
  session : option Z;
  actor : option Z;
  reason : option string;
  ban : option bool;
}.
End UserRemoveMsg.

Module UserStateMsg.
Record UserState := mkUserState {
  session : option Z;
  actor : option Z;
  name : option string;
  user_id : option Z;
  channel_id : option Z;
  mute : option bool;
  deaf : option bool;
  suppress : option bool;
  self_mute : option bool;
  self_deaf : option bool;
  texture : option (list Z);
  plugin_context : option (list Z);
  plugin_identity : option string;
  comment : option string;
  hash : option string;
  comment_hash : option (list Z);
  texture_hash : option (list Z);
  priority_speaker : option bool;
  recording : option bool;
  temporary_access_tokens : list string;
  listening_channel_add : list Z;
  listening_channel_remove : list Z;
}.
End UserStateMsg.

Module CryptSetupMsg.
Record CryptSetup := mkCryptSetup {
  key : option (list Z);
  client_nonce : option (list Z);
  server_nonce : option (list Z);
}.
End CryptSetupMsg.

Module VoiceTarget_TargetMsg.
Record VoiceTarget_Target := mkVoiceTarget_Target {
  session : list Z;
  channel_id : option Z;
  group : option string;
  links : option bool;
  children : option bool;
}.
End VoiceTarget_TargetMsg.

Module VoiceTargetMsg.
Record VoiceTarget := mkVoiceTarget {
  id : option Z;
  targets : list VoiceTarget_TargetMsg.VoiceTarget_Target;
}.
End VoiceTargetMsg.

Module PermissionQueryMsg.
Record PermissionQuery := mkPermissionQuery {
  channel_id : option Z;
  permissions : option Z;
  flush : option bool;
}.
End PermissionQueryMsg.

Module CodecVersionMsg.
Record CodecVersion := mkCodecVersion {
  alpha : option Z;
  beta : option Z;
  prefer_alpha : option bool;
  opus : option bool;
}.
End CodecVersionMsg.

Module UserStats_StatsMsg.
Record UserStats_Stats := mkUserStats_Stats {
  good : option Z;
  late : option Z;
  lost : option Z;
  resync : option Z;
}.
End UserStats_StatsMsg.

Module UserStatsMsg.
Record UserStats := mkUserStats {
  session : option Z;
  stats_only : option bool;
  certificates : list (list Z);
  from_client : option UserStats_StatsMsg.UserStats_Stats;
  from_server : option UserStats_StatsMsg.UserStats_Stats;
  udp_packets : option Z;
  tcp_packets : option Z;
  udp_ping_avg : option f32;
  udp_ping_var : option f32;
  tcp_ping_avg : option f32;
  tcp_ping_var : option f32;
  version : option VersionMsg.Version;
  celt_versions : list Z;
  address : option (list Z);
  bandwidth : option Z;
  onlinesecs : option Z;
  idlesecs : option Z;
  strong_certificate : option bool;
  opus : option bool;
}.
End UserStatsMsg.

Module ServerConfigMsg.
Record ServerConfig := mkServerConfig {
  max_bandwidth : option Z;
  welcome_text : option string;
  allow_html : option bool;
  message_length : option Z;
  image_message_length : option Z;
  max_users : option Z;
}.
End ServerConfigMsg.

(** ** The messages the server neither reads nor sends, and their enumerations *)

Module Reject_RejectType.
Inductive Reject_RejectType :=
  | None
  | WrongVersion
  | InvalidUsername
  | WrongUserPW
  | WrongServerPW
  | UsernameInUse
  | ServerFull
  | NoCertificate
  | AuthenticatorFail.
End Reject_RejectType.

Module PermissionDenied_DenyType.
Inductive PermissionDenied_DenyType :=
  | Text
  | Permission
  | SuperUser
  | ChannelName
  | TextTooLong
  | H9K
  | TemporaryChannel
  | MissingCertificate
  | UserName
  | ChannelFull
  | NestingLimit
  | ChannelCountLimit
  | ChannelListenerLimit
  | UserListenerLimit.
End PermissionDenied_DenyType.

Module ContextActionModify_Context.
Inductive ContextActionModify_Context :=
  | Server
  | Channel
  | User.
End ContextActionModify_Context.

Module ContextActionModify_Operation.
Inductive ContextActionModify_Operation :=
  | Add
  | Remove.
End ContextActionModify_Operation.

Module UDPTunnelMsg.
Record UDPTunnel := mkUDPTunnel {
  packet : option (list Z);
}.
End UDPTunnelMsg.

Module RejectMsg.
Record Reject := mkReject {
  field_type : option Reject_RejectType.Reject_RejectType;
  reason : option string;
}.
End RejectMsg.

Module BanList_BanEntryMsg.
Record BanList_BanEntry := mkBanList_BanEntry {
  address : option (list Z);
  mask : option Z;
  name : option string;
  hash : option string;
  reason : option string;
  start : option string;
  duration : option Z;
}.
End BanList_BanEntryMsg.

Module BanListMsg.
Record BanList := mkBanList {
  bans : list BanList_BanEntryMsg.BanList_BanEntry;
  query : option bool;
}.
End BanListMsg.

Module TextMessageMsg.
Record TextMessage := mkTextMessage {
  actor : option Z;
  session : list Z;
  channel_id : list Z;
  tree_id : list Z;
  message : option string;
}.
End TextMessageMsg.

Module PermissionDeniedMsg.
Record PermissionDenied := mkPermissionDenied {
  permission : option Z;
  channel_id : option Z;
  session : option Z;
  reason : option string;
  field_type : option PermissionDenied_DenyType.PermissionDenied_DenyType;
  name : option string;
}.
End PermissionDeniedMsg.

Module ACL_ChanGroupMsg.
Record ACL_ChanGroup := mkACL_ChanGroup {
  name : option string;
  inherited : option bool;
  inherit : option bool;
  inheritable : option bool;
  add : list Z;
  remove : list Z;
  inherited_members : list Z;
}.
End ACL_ChanGroupMsg.

Module ACL_ChanACLMsg.
Record ACL_ChanACL := mkACL_ChanACL {
  apply_here : option bool;
  apply_subs : option bool;
  inherited : option bool;
  user_id : option Z;
  group : option string;
  grant : option Z;
  deny : option Z;
}.
End ACL_ChanACLMsg.

Module ACLMsg.
Record ACL := mkACL {
  channel_id : option Z;
  inherit_acls : option bool;
  groups : list ACL_ChanGroupMsg.ACL_ChanGroup;
  acls : list ACL_ChanACLMsg.ACL_ChanACL;
  query : option bool;
}.
End ACLMsg.

Module QueryUsersMsg.
Record QueryUsers := mkQueryUsers {
  ids : list Z;
  names : list string;
}.
End QueryUsersMsg.

Module ContextActionModifyMsg.
Record ContextActionModify := mkContextActionModify {
  action : option string;
  text : option string;
  context : option Z;
  operation : option ContextActionModify_Operation.ContextActionModify_Operation;
}.
End ContextActionModifyMsg.

Module ContextActionMsg.
Record ContextAction := mkContextAction {
  session : option Z;
  channel_id : option Z;
  action : option string;
}.
End ContextActionMsg.

Module UserList_UserMsg.
Record UserList_User := mkUserList_User {
  user_id : option Z;
  name : option string;
  last_seen : option string;
  last_channel : option Z;
}.
End UserList_UserMsg.

Module UserListMsg.
Record UserList := mkUserList {
  users : list UserList_UserMsg.UserList_User;
}.
End UserListMsg.

Module RequestBlobMsg.
Record RequestBlob := mkRequestBlob {
  session_texture : list Z;
  session_comment : list Z;
  channel_description : list Z;
}.
End RequestBlobMsg.

Module SuggestConfigMsg.
Record SuggestConfig := mkSuggestConfig {
  version : option Z;
  positional : option bool;
  push_to_talk : option bool;
}.
End SuggestConfigMsg.
