(* ===== verification/Wire.v ===== *)
(** The protobuf runtime under the generated code of [src/src/proto/mumble.rs].

    The [protobuf] crate is not part of the repository: the class [Runtime] lists the functions of
    it that the generated code calls, and [RuntimeLaws] what the wire format documents about them
    (a value written under a field number is read back under that number; the sizes are the numbers
    of bytes written; reading consumes its input).  A [CodedInputStream] is the list of the bytes not
    yet read, up to the current limit; a [CodedOutputStream] is the list of the bytes written; a
    [ProtobufError] is [None].  The file also has the loop shared by all generated [merge_from]
    bodies and the lemmas the round trips of the messages are made of. *)

From stdpp Require Import base list option strings.
From Stdlib Require Import ZArith Lia.
From S2P Require Import Prelude Float32 Text.

(** [protobuf::wire_format::WireType]. *)
Inductive WireType :=
  | WireTypeVarint | WireTypeFixed64 | WireTypeLengthDelimited
  | WireTypeStartGroup | WireTypeEndGroup | WireTypeFixed32.

#[global] Instance WireType_eq_dec : EqDecision WireType.
Proof. solve_decision. Defined.

(** ** Ranges of the field types *)

Definition u32 (v : Z) : Prop := in_u 32 v.
Definition u64 (v : Z) : Prop := in_u 64 v.
Definition i32 (v : Z) : Prop := - 2 ^ 31 <= v < 2 ^ 31.
Definition any_bool (_ : bool) : Prop := True.

(** The binary32 values, in the normal form of [SpecFloat]: 24-bit mantissas, or less at the least
    exponent. *)
Definition float32 (x : f32) : Prop :=
  match x with
  | SpecFloat.S754_finite _ m e =>
    (Z.pos m < 2 ^ 23 /\ e = -149) \/ (2 ^ 23 <= Z.pos m < 2 ^ 24 /\ -149 <= e <= 104)
  | _ => True
  end.

(** Well formed UTF-8, which every Rust [String] is (Unicode, table 3-7). *)
Definition cont (b : Z) : bool := (128 <=? b) && (b <=? 191).
Definition lead3 (b0 b1 : Z) : bool :=
  if b0 =? 224 then (160 <=? b1) && (b1 <=? 191)
  else if b0 =? 237 then (128 <=? b1) && (b1 <=? 159)
  else (225 <=? b0) && (b0 <=? 239) && cont b1.
Definition lead4 (b0 b1 : Z) : bool :=
  if b0 =? 240 then (144 <=? b1) && (b1 <=? 191)
  else if b0 =? 244 then (128 <=? b1) && (b1 <=? 143)
  else (241 <=? b0) && (b0 <=? 243) && cont b1.

Fixpoint utf8_bytes (bs : list Z) : bool :=
  match bs with
  | [] => true
  | b0 :: r0 =>
    if b0 <=? 127 then utf8_bytes r0 else
    match r0 with
    | [] => false
    | b1 :: r1 =>
      if (194 <=? b0) && (b0 <=? 223) then cont b1 && utf8_bytes r1 else
      match r1 with
      | [] => false
      | b2 :: r2 =>
        if b0 <=? 239 then lead3 b0 b1 && cont b2 && utf8_bytes r2 else
        match r2 with
        | [] => false
        | b3 :: r3 => lead4 b0 b1 && cont b2 && cont b3 && utf8_bytes r3
        end
      end
    end
  end.

Definition utf8 (s : string) : Prop := utf8_bytes (as_bytes s) = true.

Definition byte_string (bs : list Z) : Prop := bytes_ok bs.

(** A present field is in range. *)
Definition opt_ok {A} (ok : A -> Prop) (o : option A) : Prop :=
  match o with Some v => ok v | None => True end.

(** ** Enumerations *)

(** [protobuf::ProtobufEnum]. *)
Class ProtobufEnum (E : Type) := {
  value : E -> Z;
  from_i32 : Z -> option E;
}.

Class ProtobufEnumLaws (E : Type) `{ProtobufEnum E} := {
  from_value (e : E) : from_i32 (value e) = Some e;
  value_i32 (e : E) : i32 (value e);
}.

#[global] Arguments value : simpl never.

Definition any_variant {E} (_ : E) : Prop := True.

(** ** The runtime *)

Class Runtime := {
  (* CodedInputStream *)
  read_tag_unpack : list Z -> option (Z * WireType * list Z);
  read_uint32 : list Z -> option (Z * list Z);
  read_uint64 : list Z -> option (Z * list Z);
  read_int32 : list Z -> option (Z * list Z);
  read_bool : list Z -> option (bool * list Z);
  read_float : list Z -> option (f32 * list Z);
  (* rt: the readers that check the wire type themselves; the third argument is the field *)
  read_singular_string_into : WireType -> list Z -> option string -> option (option string * list Z);
  read_repeated_string_into : WireType -> list Z -> list string -> option (list string * list Z);
  read_singular_bytes_into : WireType -> list Z -> option (list Z) -> option (option (list Z) * list Z);
  read_repeated_bytes_into : WireType -> list Z -> list (list Z) -> option (list (list Z) * list Z);
  read_repeated_uint32_into : WireType -> list Z -> list Z -> option (list Z * list Z);
  read_repeated_int32_into : WireType -> list Z -> list Z -> option (list Z * list Z);
  (* rt: the readers of nested messages, with the default and the merge_from of the message *)
  read_singular_message_into : forall {T : Type}, T -> (T -> list Z -> option T) ->
    WireType -> list Z -> option T -> option (option T * list Z);
  read_repeated_message_into : forall {T : Type}, T -> (T -> list Z -> option T) ->
    WireType -> list Z -> list T -> option (list T * list Z);
  (* rt: the reader of an enumeration, with the field number: a value that no variant has goes to the unknown fields *)
  read_proto2_enum_with_unknown_fields_into : forall {E : Type} `{ProtobufEnum E},
    WireType -> list Z -> option E -> Z -> option (option E * list Z);
  (* rt: an unknown field is moved to the unknown fields of the message, or skipped *)
  read_unknown_or_skip_group : Z -> WireType -> list Z -> option (list Z);
  (* CodedOutputStream: the bytes appended *)
  write_tag : Z -> WireType -> list Z;
  write_raw_varint32 : Z -> list Z;
  write_uint32 : Z -> Z -> list Z;
  write_uint64 : Z -> Z -> list Z;
  write_int32 : Z -> Z -> list Z;
  write_bool : Z -> bool -> list Z;
  write_float : Z -> f32 -> list Z;
  write_enum : Z -> Z -> list Z;
  write_string : Z -> string -> list Z;
  write_bytes : Z -> list Z -> list Z;
  (* rt: sizes *)
  value_size : Z -> Z -> WireType -> Z;
  string_size : Z -> string -> Z;
  bytes_size : Z -> list Z -> Z;
  compute_raw_varint32_size : Z -> Z;
  enum_size : forall {E : Type} `{ProtobufEnum E}, Z -> E -> Z;
  (* Message: the provided methods write_to_bytes, from is_initialized, compute_size and the bytes
     write_to_with_cached_sizes writes, and parse_from_bytes, from new, merge_from and is_initialized *)
  rt_write_to_bytes : bool -> Z -> list Z -> option (list Z);
  rt_parse_from_bytes : forall {T : Type}, T -> (T -> list Z -> option T) -> (T -> bool) -> list Z -> option T;
}.

(** Field numbers. *)
Definition field (n : Z) : Prop := 1 <= n < 2 ^ 29.

(** [w] is read as the field [n] of wire type [wt], and [rd] then returns [v]. *)
Definition reads `{Runtime} (w : list Z) (n : Z) (wt : WireType) {A}
    (rd : list Z -> option (A * list Z)) (v : A) : Prop :=
  w <> [] /\ forall rest, exists mid,
    read_tag_unpack (w ++ rest) = Some (n, wt, mid) /\ rd mid = Some (v, rest).

(** [rd] leaves at most its input. *)
Definition consumes {A} (rd : list Z -> option (A * list Z)) : Prop :=
  forall input v rest, rd input = Some (v, rest) -> (length rest <= length input)%nat.

Class RuntimeLaws `{R : Runtime} := {
  (* what is written is read *)
  law_uint32 n v : field n -> u32 v -> reads (write_uint32 n v) n WireTypeVarint read_uint32 v;
  law_uint64 n v : field n -> u64 v -> reads (write_uint64 n v) n WireTypeVarint read_uint64 v;
  law_int32 n v : field n -> i32 v -> reads (write_int32 n v) n WireTypeVarint read_int32 v;
  law_bool n v : field n -> reads (write_bool n v) n WireTypeVarint read_bool v;
  law_float n v : field n -> float32 v -> reads (write_float n v) n WireTypeFixed32 read_float v;
  law_string n s old : field n -> utf8 s -> short (write_string n s) ->
    reads (write_string n s) n WireTypeLengthDelimited
      (fun input => read_singular_string_into WireTypeLengthDelimited input old) (Some s);
  law_strings n s old : field n -> utf8 s -> short (write_string n s) ->
    reads (write_string n s) n WireTypeLengthDelimited
      (fun input => read_repeated_string_into WireTypeLengthDelimited input old) (old ++ [s]);
  law_bytes n bs old : field n -> byte_string bs -> short (write_bytes n bs) ->
    reads (write_bytes n bs) n WireTypeLengthDelimited
      (fun input => read_singular_bytes_into WireTypeLengthDelimited input old) (Some bs);
  law_bytess n bs old : field n -> byte_string bs -> short (write_bytes n bs) ->
    reads (write_bytes n bs) n WireTypeLengthDelimited
      (fun input => read_repeated_bytes_into WireTypeLengthDelimited input old) (old ++ [bs]);
  law_uint32s n v old : field n -> u32 v ->
    reads (write_uint32 n v) n WireTypeVarint
      (fun input => read_repeated_uint32_into WireTypeVarint input old) (old ++ [v]);
  law_int32s n v old : field n -> i32 v ->
    reads (write_int32 n v) n WireTypeVarint
      (fun input => read_repeated_int32_into WireTypeVarint input old) (old ++ [v]);
  law_message {T} (d v : T) merge n body : field n -> short body ->
    merge d body = Some v ->
    reads (write_tag n WireTypeLengthDelimited ++ write_raw_varint32 (Z.of_nat (length body)) ++ body) n
      WireTypeLengthDelimited
      (fun input => read_singular_message_into d merge WireTypeLengthDelimited input None) (Some v);
  law_messages {T} (d v : T) merge n body old : field n -> short body ->
    merge d body = Some v ->
    reads (write_tag n WireTypeLengthDelimited ++ write_raw_varint32 (Z.of_nat (length body)) ++ body) n
      WireTypeLengthDelimited
      (fun input => read_repeated_message_into d merge WireTypeLengthDelimited input old) (old ++ [v]);
  law_enum {E} `{ProtobufEnumLaws E} n (e : E) old : field n ->
    reads (write_enum n (value e)) n WireTypeVarint
      (fun input => read_proto2_enum_with_unknown_fields_into WireTypeVarint input old n) (Some e);
  (* sizes; field numbers below 16 have tags of one byte, those below 2048 of two *)
  law_uint32_size n v : field n -> u32 v -> value_size n v WireTypeVarint = Z.of_nat (length (write_uint32 n v));
  law_uint64_size n v : field n -> u64 v -> value_size n v WireTypeVarint = Z.of_nat (length (write_uint64 n v));
  law_int32_size n v : field n -> i32 v -> value_size n v WireTypeVarint = Z.of_nat (length (write_int32 n v));
  law_bool_size1 n v : 1 <= n < 16 -> length (write_bool n v) = 2%nat;
  law_bool_size2 n v : 16 <= n < 2048 -> length (write_bool n v) = 3%nat;
  law_float_size n v : 1 <= n < 16 -> length (write_float n v) = 5%nat;
  law_string_size n s : field n -> short (write_string n s) ->
    string_size n s = Z.of_nat (length (write_string n s));
  law_bytes_size n bs : field n -> short (write_bytes n bs) ->
    bytes_size n bs = Z.of_nat (length (write_bytes n bs));
  law_enum_size {E} `{ProtobufEnumLaws E} n (e : E) : field n ->
    enum_size n e = Z.of_nat (length (write_enum n (value e)));
  law_tag_size n wt : 1 <= n < 16 -> length (write_tag n wt) = 1%nat;
  law_varint_size v : u32 v -> compute_raw_varint32_size v = Z.of_nat (length (write_raw_varint32 v));
  (* what is written is made of bytes *)
  law_written_bytes n : field n ->
    (forall v, u32 v -> bytes_ok (write_uint32 n v)) /\ (forall v, u64 v -> bytes_ok (write_uint64 n v))
    /\ (forall v, i32 v -> bytes_ok (write_int32 n v)) /\ (forall v, bytes_ok (write_bool n v))
    /\ (forall v, bytes_ok (write_float n v)) /\ (forall s, bytes_ok (write_string n s))
    /\ (forall bs, byte_string bs -> bytes_ok (write_bytes n bs)) /\ (forall wt, bytes_ok (write_tag n wt))
    /\ (forall v, u32 v -> bytes_ok (write_raw_varint32 v));
  law_enum_bytes n v : field n -> i32 v -> bytes_ok (write_enum n v);
  (* reading consumes the input: a tag at least one byte *)
  law_tag_consumes input n wt mid : read_tag_unpack input = Some (n, wt, mid) -> (length mid < length input)%nat;
  law_uint32_consumes : consumes read_uint32;
  law_uint64_consumes : consumes read_uint64;
  law_int32_consumes : consumes read_int32;
  law_bool_consumes : consumes read_bool;
  law_float_consumes : consumes read_float;
  law_string_consumes wt old : consumes (fun input => read_singular_string_into wt input old);
  law_strings_consumes wt old : consumes (fun input => read_repeated_string_into wt input old);
  law_bytes_consumes wt old : consumes (fun input => read_singular_bytes_into wt input old);
  law_bytess_consumes wt old : consumes (fun input => read_repeated_bytes_into wt input old);
  law_uint32s_consumes wt old : consumes (fun input => read_repeated_uint32_into wt input old);
  law_int32s_consumes wt old : consumes (fun input => read_repeated_int32_into wt input old);
  law_message_consumes {T} (d : T) merge wt old : consumes (fun input => read_singular_message_into d merge wt input old);
  law_messages_consumes {T} (d : T) merge wt old : consumes (fun input => read_repeated_message_into d merge wt input old);
  law_enum_consumes {E} `{ProtobufEnum E} wt old n :
    consumes (fun input => read_proto2_enum_with_unknown_fields_into (E := E) wt input old n);
  law_unknown_consumes n wt input rest :
    read_unknown_or_skip_group n wt input = Some rest -> (length rest <= length input)%nat;
  (* the provided methods *)
  law_write w : rt_write_to_bytes true (Z.of_nat (length w)) w = Some w;
  law_write_missing size w : rt_write_to_bytes false size w = None;
  law_parse {T} (d m : T) merge is_initialized bs : merge d bs = Some m -> is_initialized m = true ->
    rt_parse_from_bytes d merge is_initialized bs = Some m;
  law_parse_missing {T} (d m : T) merge is_initialized bs : merge d bs = Some m -> is_initialized m = false ->
    rt_parse_from_bytes d merge is_initialized bs = None;
  law_parse_error {T} (d : T) merge is_initialized bs : merge d bs = None ->
    rt_parse_from_bytes d merge is_initialized bs = None;
}.

(** ** The shapes of the generated code *)

Section Shapes.
Context `{Runtime}.
Context {T : Type}.

(** The branch of a scalar field: the wire type is checked, the value read and stored. *)
Definition scalar {A} (wire_type expected : WireType) (read : list Z -> option (A * list Z))
    (input : list Z) (set : option A -> T) : option (T * list Z) :=
  if decide (wire_type = expected) then '(tmp, input) ← read input; Some (set (Some tmp), input) else None.

(** The branch of a field whose reader checks the wire type. *)
Definition into {A} (r : option (A * list Z)) (set : A -> T) : option (T * list Z) :=
  '(v, input) ← r; Some (set v, input).

(** The last branch.  The unknown fields are never read by the program and not part of the model. *)
Definition unknown (self : T) (field_number : Z) (wire_type : WireType) (input : list Z) : option (T * list Z) :=
  input ← read_unknown_or_skip_group field_number wire_type input; Some (self, input).

Context (merge_field : T -> Z -> WireType -> list Z -> option (T * list Z)).

(** The loop [while !is.eof()] of [merge_from]; [None] when the fuel runs out. *)
Fixpoint merge_loop (fuel : nat) (self : T) (input : list Z) : option (option T) :=
  match fuel with
  | O => None
  | S fuel =>
    match input with
    | [] => Some (Some self)
    | _ :: _ =>
      match read_tag_unpack input with
      | None => Some None
      | Some (field_number, wire_type, input) =>
        match merge_field self field_number wire_type input with
        | None => Some None
        | Some (self, input) => merge_loop fuel self input
        end
      end
    end
  end.

(** One turn per byte is enough ([merge_loop_total]). *)
Definition merge_all (self : T) (input : list Z) : option T :=
  match merge_loop (S (length input)) self input with Some r => r | None => None end.
End Shapes.

(** [if let Some(v) = f { my_size += size }] and [for v in f { my_size += size }]. *)
Definition add_u32 (a b : Z) : Z := as_u32 (a + b).
Definition size_opt {A} (f : option A) (size : A -> Z) (my_size : Z) : Z :=
  match f with Some v => add_u32 my_size (size v) | None => my_size end.
Definition size_all {A} (f : list A) (size : A -> Z) (my_size : Z) : Z :=
  fold_left (fun my_size v => add_u32 my_size (size v)) f my_size.

(** [if let Some(v) = f { os.write(v)?; }] and [for v in f { os.write(v)?; }]. *)
Definition write_opt {A} (f : option A) (write : A -> list Z) (os : list Z) : list Z :=
  match f with Some v => os ++ write v | None => os end.
Definition write_all {A} (f : list A) (write : A -> list Z) (os : list Z) : list Z :=
  fold_left (fun os v => os ++ write v) f os.

(** The sum of a nested message: [1 + compute_raw_varint32_size(len) + len]. *)
Definition message_size `{Runtime} (len : Z) : Z :=
  add_u32 (add_u32 1 (compute_raw_varint32_size len)) len.

(** A nested message with its header; [get_cached_size] is the value of the [compute_size] that ran
    just before. *)
Definition write_message `{Runtime} (field_number cached_size : Z) (body : list Z) : list Z :=
  write_tag field_number WireTypeLengthDelimited ++ write_raw_varint32 cached_size ++ body.

(** [is_initialized] of the nested messages. *)
Definition all_initialized {A} (is_initialized : A -> bool) (f : list A) : bool := forallb is_initialized f.
Definition opt_initialized {A} (is_initialized : A -> bool) (f : option A) : bool :=
  match f with Some v => is_initialized v | None => true end.

(** ** Lemmas *)

Section Merging.
Context `{R : Runtime} {L : @RuntimeLaws R}.
Context {T : Type} (merge_field : T -> Z -> WireType -> list Z -> option (T * list Z)).

(** The readers of a message never give back more than they were given. *)
Definition field_consumes : Prop :=
  forall self n wt input self' rest, merge_field self n wt input = Some (self', rest) -> (length rest <= length input)%nat.

(** Every input, of any length, is dealt with in one turn per byte. *)
Lemma merge_loop_total self input fuel :
  field_consumes -> (length input < fuel)%nat -> is_Some (merge_loop merge_field fuel self input).
Proof.
  intros Hc. revert self input. induction fuel as [|fuel IH]; intros self input Hf; [lia|]. cbn.
  destruct input as [|b input]; [by eexists|].
  destruct (read_tag_unpack (b :: input)) as [[[n wt] mid]|] eqn:Ht; [|by eexists].
  destruct (merge_field self n wt mid) as [[self' rest]|] eqn:Hm; [|by eexists].
  apply law_tag_consumes in Ht. apply Hc in Hm. apply IH. cbn [length] in *. lia.
Qed.

(** More fuel than that changes nothing. *)
Lemma merge_loop_fuel self input fuel fuel' :
  field_consumes -> (length input < fuel)%nat -> (length input < fuel')%nat ->
  merge_loop merge_field fuel self input = merge_loop merge_field fuel' self input.
Proof.
  intros Hc. revert self input fuel'.
  induction fuel as [|fuel IH]; intros self input [|fuel'] Hf Hf'; [lia..|]. cbn.
  destruct input as [|b input]; [done|].
  destruct (read_tag_unpack (b :: input)) as [[[n wt] mid]|] eqn:Ht; [|done].
  destruct (merge_field self n wt mid) as [[self' rest]|] eqn:Hm; [|done].
  apply law_tag_consumes in Ht. apply Hc in Hm. apply IH; cbn [length] in *; lia.
Qed.

(** [input] takes [self] to [self'], with any sufficient fuel. *)
Definition merges (self : T) (input : list Z) (self' : T) : Prop :=
  short input -> forall fuel, (length input < fuel)%nat ->
  merge_loop merge_field fuel self input = Some (Some self').

Lemma merges_all_of self input self' :
  merges self input self' -> short input -> merge_all merge_field self input = Some self'.
Proof. intros Hm Hs. unfold merge_all. by rewrite Hm by (done || lia). Qed.

Lemma merges_nil self : merges self [] self.
Proof. intros _ [|fuel] Hf; [cbn in Hf; lia|done]. Qed.

(** One field on the wire: one turn of the loop. *)
Lemma merges_step {A} (rd : list Z -> option (A * list Z)) v self self1 self' w n wt rest :
  (short w -> reads w n wt rd v) ->
  (forall mid, rd mid = Some (v, rest) -> merge_field self n wt mid = Some (self1, rest)) ->
  merges self1 rest self' -> merges self (w ++ rest) self'.
Proof.
  intros Hr Hm Hn Hs [|fuel] Hf; [lia|]. apply short_app in Hs as [Hs1 Hs2].
  destruct (Hr Hs1) as [Hw Hr']. destruct (Hr' rest) as (mid & Ht & Hrd).
  destruct w as [|b w]; [done|]. cbn [app merge_loop] in *. rewrite Ht, (Hm mid Hrd).
  apply (Hn Hs2). cbn [length] in Hf. rewrite length_app in Hf. lia.
Qed.

(** A scalar field. *)
Lemma merges_scalar {A} (rd : list Z -> option (A * list Z)) set v self self' w n wt rest :
  reads w n wt rd v ->
  (forall mid, merge_field self n wt mid = scalar wt wt rd mid set) ->
  merges (set (Some v)) rest self' -> merges self (w ++ rest) self'.
Proof.
  intros Hr Hm. apply (merges_step rd v self (set (Some v)) self' w n wt); [done|]. intros mid Hmid.
  rewrite Hm. unfold scalar. by rewrite decide_True, Hmid.
Qed.

(** A field whose reader updates the old value. *)
Lemma merges_into {A} (rd : list Z -> option (A * list Z)) set v self self' w n wt rest :
  (short w -> reads w n wt rd v) ->
  (forall mid, merge_field self n wt mid = into (rd mid) set) ->
  merges (set v) rest self' -> merges self (w ++ rest) self'.
Proof.
  intros Hr Hm. apply (merges_step rd v self (set v) self' w n wt); [done|]. intros mid Hmid.
  by rewrite Hm, Hmid.
Qed.

(** The bytes of a field that may be present. *)
Definition chunk {A} (o : option A) (w : A -> list Z) : list Z :=
  match o with Some v => w v | None => [] end.

(** A field that may be present; [S] stores it. *)
Lemma merges_opt {A} (S : option A -> T) (ok : A -> Prop) (w : A -> list Z) o rest self' :
  (forall v rest, ok v -> merges (S (Some v)) rest self' -> merges (S None) (w v ++ rest) self') ->
  opt_ok ok o -> merges (S o) rest self' -> merges (S None) (chunk o w ++ rest) self'.
Proof. intros Hs Ho Hm. destruct o as [v|]; cbn in *; [by apply Hs|done]. Qed.

(** A repeated field. *)
Lemma merges_all {A} (S : list A -> T) (ok : A -> Prop) (w : A -> list Z) l rest self' :
  (forall pre v rest, ok v -> merges (S (pre ++ [v])) rest self' -> merges (S pre) (w v ++ rest) self') ->
  Forall ok l -> merges (S l) rest self' -> merges (S []) ((l ≫= w) ++ rest) self'.
Proof.
  intros Hs Hl Hm. change l with ([] ++ l) in Hm. revert Hm. generalize (@nil A) as pre.
  induction Hl as [|v l Hv Hl IH]; intros pre Hm; [by rewrite app_nil_r in Hm|].
  cbn [mbind list_bind]. rewrite <-app_assoc. apply Hs; [done|].
  apply IH. by rewrite <-app_assoc.
Qed.
End Merging.

Lemma write_opt_app {A} (o : option A) w os : write_opt o w os = os ++ chunk o w.
Proof. destruct o; cbn; by rewrite ?app_nil_r. Qed.

Lemma write_all_app {A} (l : list A) w os : write_all l w os = os ++ (l ≫= w).
Proof.
  unfold write_all. revert os. induction l as [|v l IH]; intros os; cbn; [by rewrite app_nil_r|].
  by rewrite IH, app_assoc.
Qed.

(** ** Sizes: [my_size] is the number of bytes written, while that fits in 32 bits *)

Definition sized (my_size : Z) (os : list Z) : Prop := short os -> my_size = Z.of_nat (length os).

Lemma sized_nil : sized 0 [].
Proof. done. Qed.

Lemma sized_add my_size os size w :
  sized my_size os -> sized size w -> sized (add_u32 my_size size) (os ++ w).
Proof.
  intros H1 H2 Hs. pose proof Hs as [Hs1 Hs2]%short_app. rewrite H1, H2 by done.
  unfold add_u32. unfold short in Hs. rewrite length_app in *. rewrite as_u32_small; [lia|unfold in_u; lia].
Qed.

Lemma sized_opt {A} (ok : A -> Prop) o size (w : A -> list Z) my_size os :
  sized my_size os -> (forall v, ok v -> sized (size v) (w v)) -> opt_ok ok o ->
  sized (size_opt o size my_size) (write_opt o w os).
Proof. intros H1 H2 Ho. destruct o as [v|]; cbn in *; [|done]. apply sized_add; auto. Qed.

Lemma sized_all {A} (ok : A -> Prop) l size (w : A -> list Z) my_size os :
  sized my_size os -> (forall v, ok v -> sized (size v) (w v)) -> Forall ok l ->
  sized (size_all l size my_size) (write_all l w os).
Proof.
  intros H1 H2 Hl. unfold size_all, write_all. revert my_size os H1.
  induction Hl as [|v l Hv Hl IH]; intros my_size os H1; cbn; [done|].
  apply IH, sized_add; auto.
Qed.

Lemma u32_opt {A} (o : option A) size my_size : u32 my_size -> u32 (size_opt o size my_size).
Proof. intros. destruct o; cbn; [apply as_u32_range|done]. Qed.

Lemma u32_all {A} (l : list A) size my_size : u32 my_size -> u32 (size_all l size my_size).
Proof.
  unfold size_all. revert my_size. induction l; intros; cbn; [done|]. apply IHl, as_u32_range.
Qed.

Lemma sized_message `{R : Runtime} {L : @RuntimeLaws R} n len body :
  1 <= n < 16 -> sized len body -> sized (message_size len) (write_message n len body).
Proof.
  intros Hn Hl Hs. unfold write_message in *. pose proof Hs as [_ [Hs1 Hs2]%short_app]%short_app.
  rewrite (Hl Hs2) in *. unfold message_size, add_u32, short in *. rewrite !length_app in *.
  rewrite (law_tag_size n) in * by done. rewrite law_varint_size by (unfold u32, in_u; lia).
  rewrite !as_u32_small; unfold in_u; rewrite ?as_u32_small; unfold in_u; lia.
Qed.
