(* ===== verification/WireFormat.v ===== *)
(** A concrete protobuf runtime: the Protocol Buffers wire format (base 128 varints, little endian fixed
    width values, length delimited strings and messages).  It shows that the laws of [Wire.v] hold
    together, and lets the codecs of the messages be run. *)

From stdpp Require Import base list option strings.
From Stdlib Require Import ZArith Lia Ascii SpecFloat.
From S2P Require Import Prelude Float32 Text Wire.

(** ** Varints *)

Fixpoint base128 (n : nat) (v : Z) : list Z :=
  match n with
  | O => []
  | S n => if v <? 128 then [v] else (128 + v mod 128) :: base128 n (v / 128)
  end.

Fixpoint read_base128 (n : nat) (input : list Z) : option (Z * list Z) :=
  match n, input with
  | S n, b :: input =>
    if b <? 128 then Some (b, input)
    else '(high, input) ← read_base128 n input; Some (b - 128 + 128 * high, input)
  | _, _ => None
  end.

(** 64 bits take at most ten groups of seven. *)
Abbreviation varint := (base128 10).
Abbreviation read_raw_varint64 := (read_base128 10).

Lemma read_base128_app n v rest :
  0 <= v < 128 ^ Z.of_nat (S n) -> read_base128 (S n) (base128 (S n) v ++ rest) = Some (v, rest).
Proof.
  revert v. induction n as [|n IH]; intros v Hv;
    rewrite Nat2Z.inj_succ, Z.pow_succ_r in Hv by lia; cbn [base128].
  - change (128 ^ Z.of_nat 0) with 1 in Hv. rewrite (proj2 (Z.ltb_lt v 128)) by lia. cbn.
    by rewrite (proj2 (Z.ltb_lt v 128)) by lia.
  - destruct (Z.ltb_spec v 128) as [Hs|Hb]; cbn [app read_base128];
      [by rewrite (proj2 (Z.ltb_lt v 128) Hs)|].
    pose proof (Z.mod_pos_bound v 128). rewrite (proj2 (Z.ltb_ge _ 128)) by lia.
    cbn [base128 app read_base128] in IH.
    rewrite IH; [|split; [apply Z.div_pos; lia|apply Z.div_lt_upper_bound; lia]].
    cbn. do 2 f_equal. pose proof (Z.div_mod v 128). lia.
Qed.

Lemma varint_app v rest : u64 v -> read_raw_varint64 (varint v ++ rest) = Some (v, rest).
Proof. intros [H1 H2]. apply read_base128_app. change (128 ^ Z.of_nat 10) with (2 ^ 70). lia. Qed.

Lemma base128_ok n v : 0 <= v -> bytes_ok (base128 n v).
Proof.
  revert v. induction n as [|n IH]; intros v Hv; cbn [base128]; [constructor|].
  pose proof (Z.mod_pos_bound v 128).
  destruct (Z.ltb_spec v 128); repeat constructor; unfold in_u; try lia. apply IH, Z.div_pos; lia.
Qed.

Lemma base128_nonempty n v : base128 (S n) v <> [].
Proof. cbn [base128]. by case_match. Qed.

Lemma read_base128_consumes n input v rest :
  read_base128 n input = Some (v, rest) -> (length rest < length input)%nat.
Proof.
  revert input v rest. induction n as [|n IH]; intros [|b input] v rest E; cbn [read_base128] in E; [done..|].
  case_match; [simplify_eq; cbn; lia|].
  destruct (read_base128 n input) as [[h r]|] eqn:E'; cbn in E; simplify_eq.
  apply IH in E'. cbn. lia.
Qed.

(** ** Tags *)

Definition wire_code (wt : WireType) : Z :=
  match wt with
  | WireTypeVarint => 0 | WireTypeFixed64 => 1 | WireTypeLengthDelimited => 2
  | WireTypeStartGroup => 3 | WireTypeEndGroup => 4 | WireTypeFixed32 => 5
  end.

Definition wire_of (code : Z) : option WireType :=
  match code with
  | 0 => Some WireTypeVarint | 1 => Some WireTypeFixed64 | 2 => Some WireTypeLengthDelimited
  | 3 => Some WireTypeStartGroup | 4 => Some WireTypeEndGroup | 5 => Some WireTypeFixed32
  | _ => None
  end.

Definition wf_tag (n : Z) (wt : WireType) : list Z := varint (n * 8 + wire_code wt).

Definition wf_read_tag (input : list Z) : option (Z * WireType * list Z) :=
  '(tag, input) ← read_raw_varint64 input;
  wt ← wire_of (tag mod 8);
  if 1 <=? tag / 8 then Some (tag / 8, wt, input) else None.

Lemma wf_tag_read n wt rest : field n -> wf_read_tag (wf_tag n wt ++ rest) = Some (n, wt, rest).
Proof.
  intros Hn. unfold field in Hn. unfold wf_read_tag, wf_tag.
  assert (0 <= wire_code wt < 6) by (destruct wt; cbn; lia).
  rewrite varint_app by (unfold u64, in_u; lia). cbn [mbind option_bind].
  replace ((n * 8 + wire_code wt) mod 8) with (wire_code wt) by (apply Z.mod_unique with n; lia).
  replace ((n * 8 + wire_code wt) / 8) with n by (apply Z.div_unique with (wire_code wt); lia).
  rewrite (proj2 (Z.leb_le 1 n)) by lia. by destruct wt.
Qed.

Lemma wf_tag_nonempty n wt w : wf_tag n wt ++ w <> [].
Proof. unfold wf_tag. intros [H _]%app_nil. by apply base128_nonempty in H. Qed.

(** A field written as its tag and a value that [rd] reads. *)
Definition wf_reads {A} (w : list Z) (rd : list Z -> option (A * list Z)) (v : A) : Prop :=
  forall rest, rd (w ++ rest) = Some (v, rest).

(** ** Values *)

Definition wf_uint32 (input : list Z) : option (Z * list Z) :=
  '(v, input) ← read_raw_varint64 input; Some (as_u32 v, input).
Definition wf_uint64 (input : list Z) : option (Z * list Z) :=
  '(v, input) ← read_raw_varint64 input; Some (as_u64 v, input).
Definition wf_int32 (input : list Z) : option (Z * list Z) :=
  '(v, input) ← read_raw_varint64 input; Some (as_i32 v, input).
Definition wf_bool (input : list Z) : option (bool * list Z) :=
  '(v, input) ← read_raw_varint64 input; Some (negb (v =? 0), input).

Definition f32_to_bits (x : f32) : Z :=
  let s (b : bool) := if b then 2 ^ 31 else 0 in
  match x with
  | S754_zero b => s b
  | S754_infinity b => s b + 255 * 2 ^ 23
  | S754_nan => 255 * 2 ^ 23 + 2 ^ 22
  | S754_finite b m e =>
    if Z.pos m <? 2 ^ 23 then s b + Z.pos m else s b + (e + 150) * 2 ^ 23 + (Z.pos m - 2 ^ 23)
  end.

Definition take_exact (n : Z) (input : list Z) : option (list Z * list Z) :=
  if n <=? Z.of_nat (length input) then Some (take (Z.to_nat n) input, drop (Z.to_nat n) input) else None.

Definition wf_float (input : list Z) : option (f32 * list Z) :=
  '(bs, input) ← take_exact 4 input; Some (f32_from_le_bytes bs, input).

(** A length and that many bytes. *)
Definition delimited (bs : list Z) : list Z := varint (Z.of_nat (length bs)) ++ bs.
Definition read_delimited (input : list Z) : option (list Z * list Z) :=
  '(len, input) ← read_raw_varint64 input; take_exact len input.

Lemma take_exact_app bs rest : take_exact (Z.of_nat (length bs)) (bs ++ rest) = Some (bs, rest).
Proof.
  unfold take_exact. rewrite (proj2 (Z.leb_le _ _)) by (rewrite length_app; lia).
  by rewrite Nat2Z.id, take_app_length, drop_app_length.
Qed.

Lemma take_exact_consumes n input bs rest :
  take_exact n input = Some (bs, rest) -> (length rest <= length input)%nat.
Proof. unfold take_exact. case_match; intros; simplify_eq. rewrite length_drop. lia. Qed.

Lemma delimited_app bs rest : short bs -> read_delimited (delimited bs ++ rest) = Some (bs, rest).
Proof.
  intros Hs. unfold read_delimited, delimited, short in *. rewrite <-app_assoc.
  rewrite varint_app by (unfold u64, in_u; lia). apply take_exact_app.
Qed.

Lemma read_delimited_consumes input bs rest :
  read_delimited input = Some (bs, rest) -> (length rest <= length input)%nat.
Proof.
  unfold read_delimited. destruct (read_raw_varint64 input) as [[n r]|] eqn:E; [|done]. cbn.
  intros H%take_exact_consumes. apply read_base128_consumes in E. lia.
Qed.

(** ** The values are read back *)

Lemma wf_uint32_app v : u32 v -> wf_reads (varint v) wf_uint32 v.
Proof.
  intros Hv rest. unfold wf_uint32. rewrite varint_app by (unfold u32, u64, in_u in *; lia). cbn.
  by rewrite as_u32_small.
Qed.

Lemma wf_uint64_app v : u64 v -> wf_reads (varint v) wf_uint64 v.
Proof. intros Hv rest. unfold wf_uint64. rewrite varint_app by done. cbn. by rewrite as_u64_small. Qed.

Lemma as_i32_as_u64 v : i32 v -> as_i32 (as_u64 v) = v.
Proof.
  unfold i32, as_i32, sign, as_u64, wrap. intros Hv.
  assert ((v mod 2 ^ 64) mod 2 ^ 32 = v mod 2 ^ 32) as ->
    by (change (2 ^ 64) with (2 ^ 32 * 2 ^ 32); rewrite Z.rem_mul_r by lia;
        rewrite Z.mul_comm, Z.mod_add, Z.mod_mod by lia; done).
  destruct (Z.ltb_spec (v mod 2 ^ 32) (2 ^ (32 - 1))) as [H|H]; change (2 ^ (32 - 1)) with (2 ^ 31) in H;
    Z.div_mod_to_equations; lia.
Qed.

Lemma wf_int32_app v : i32 v -> wf_reads (varint (as_u64 v)) wf_int32 v.
Proof.
  intros Hv rest. unfold wf_int32. rewrite varint_app by (apply wrap_range; lia). cbn.
  by rewrite as_i32_as_u64.
Qed.

Lemma wf_bool_app (v : bool) : wf_reads (varint (if v then 1 else 0)) wf_bool v.
Proof. intros rest. unfold wf_bool. rewrite varint_app by (destruct v; unfold u64, in_u; lia). by destruct v. Qed.

(** Sign, exponent and mantissa of the bits. *)
Lemma f32_fields (b : bool) (E M : Z) : 0 <= E < 256 -> 0 <= M < 2 ^ 23 ->
  let u := (if b then 2 ^ 31 else 0) + E * 2 ^ 23 + M in
  Z.testbit u 31 = b /\ Z.land (Z.shiftr u 23) 255 = E /\ Z.land u (Z.ones 23) = M.
Proof.
  intros HE HM. cbv zeta. split; [|split].
  - rewrite Z.testbit_odd, Z.shiftr_div_pow2 by lia.
    destruct b; [replace (_ / _) with 1|replace (_ / _) with 0]; try done; Z.div_mod_to_equations; lia.
  - change 255 with (Z.ones 8). rewrite Z.land_ones, Z.shiftr_div_pow2 by lia.
    destruct b; Z.div_mod_to_equations; lia.
  - rewrite Z.land_ones by lia. destruct b; Z.div_mod_to_equations; lia.
Qed.

Lemma f32_bits_inv x : float32 x -> f32_of_bits (f32_to_bits x) = x.
Proof.
  assert (forall (b : bool) (E M : Z), 0 <= E < 256 -> 0 <= M < 2 ^ 23 ->
    f32_of_bits ((if b then 2 ^ 31 else 0) + E * 2 ^ 23 + M) =
    if E =? 255 then (if M =? 0 then S754_infinity b else S754_nan)
    else if E =? 0 then match M with Zpos p => S754_finite b p (-149) | _ => S754_zero b end
    else match M + 2 ^ 23 with Zpos p => S754_finite b p (E - 150) | _ => S754_nan end) as Hb.
  { intros b E M HE HM. destruct (f32_fields b E M HE HM) as (H1 & H2 & H3).
    unfold f32_of_bits. by rewrite H1, H2, H3. }
  destruct x as [b|b| |b m e]; [by destruct b..|done|].
  cbn [float32 f32_to_bits]. intros Hx. destruct (Z.ltb_spec (Z.pos m) (2 ^ 23)) as [Hm|Hm].
  - replace (_ + Z.pos m) with ((if b then 2 ^ 31 else 0) + 0 * 2 ^ 23 + Z.pos m) by lia.
    rewrite Hb by lia. cbn. f_equal. lia.
  - rewrite Hb by lia. rewrite (proj2 (Z.eqb_neq _ 255)), (proj2 (Z.eqb_neq _ 0)) by lia.
    replace (Z.pos m - 2 ^ 23 + 2 ^ 23) with (Z.pos m) by lia. f_equal. lia.
Qed.

Lemma f32_to_bits_u32 x : float32 x -> u32 (f32_to_bits x).
Proof.
  unfold u32, in_u. destruct x as [b|b| |b m e]; cbn [float32 f32_to_bits]; intros Hx;
    try (destruct b; lia); [lia|].
  destruct (Z.ltb_spec (Z.pos m) (2 ^ 23)); destruct b; lia.
Qed.

Lemma wf_float_app v : float32 v -> wf_reads (le_bytes 4 (f32_to_bits v)) wf_float v.
Proof.
  intros Hv rest. unfold wf_float. change 4 with (Z.of_nat 4) at 1.
  rewrite <- (length_le_bytes 4 (f32_to_bits v)) at 1. rewrite take_exact_app. cbn [mbind option_bind].
  unfold f32_from_le_bytes. rewrite from_le_le_bytes.
  pose proof (f32_to_bits_u32 v Hv) as [??]. rewrite Z.mod_small by (change (8 * Z.of_nat 4) with 32; lia).
  by rewrite f32_bits_inv.
Qed.

Lemma of_as_bytes s : of_bytes (as_bytes s) = s.
Proof.
  unfold of_bytes, as_bytes. rewrite <-list_fmap_compose.
  rewrite <- (String.string_of_list_ascii_of_string s) at 2. f_equal.
  induction (String.list_ascii_of_string s) as [|a l IH]; cbn; [done|]. rewrite IH. f_equal.
  unfold ascii_of_byte, byte_of_ascii. by rewrite Nat2Z.id, ascii_nat_embedding.
Qed.

Lemma as_bytes_ok s : bytes_ok (as_bytes s).
Proof.
  unfold as_bytes. apply Forall_fmap, Forall_true. intros a. unfold compose, in_u, byte_of_ascii.
  pose proof (nat_ascii_bounded a). lia.
Qed.

(** ** The runtime *)

Definition wf_length_delimited {A} (f : list Z -> option A) (wt : WireType) (input : list Z)
    : option (A * list Z) :=
  if decide (wt = WireTypeLengthDelimited) then
    '(bs, input) ← read_delimited input; v ← f bs; Some (v, input)
  else None.

Definition wf_string_of (bs : list Z) : option string := if utf8_bytes bs then Some (of_bytes bs) else None.

(** Packed repeated values. *)
Fixpoint wf_packed (fuel : nat) (rd : list Z -> option (Z * list Z)) (input : list Z) : option (list Z) :=
  match fuel, input with
  | _, [] => Some []
  | O, _ :: _ => None
  | S fuel, _ :: _ => '(v, input) ← rd input; vs ← wf_packed fuel rd input; Some (v :: vs)
  end.

Definition wf_repeated (rd : list Z -> option (Z * list Z)) (wt : WireType) (input : list Z) (old : list Z)
    : option (list Z * list Z) :=
  match wt with
  | WireTypeVarint => '(v, input) ← rd input; Some (old ++ [v], input)
  | WireTypeLengthDelimited =>
    '(bs, input) ← read_delimited input; vs ← wf_packed (length bs) rd bs; Some (old ++ vs, input)
  | _ => None
  end.

Definition map_fst {A B} (f : A -> B) (r : option (A * list Z)) : option (B * list Z) :=
  '(v, input) ← r; Some (f v, input).

(** A value that no variant has leaves the field as it was. *)
Definition wf_enum {E} `{ProtobufEnum E} (wt : WireType) (input : list Z) (old : option E) : option (option E * list Z) :=
  if decide (wt = WireTypeVarint) then
    '(v, input) ← wf_int32 input; Some (match from_i32 v with Some e => Some e | None => old end, input)
  else None.

Definition wire_format : Runtime := {|
  read_tag_unpack := wf_read_tag;
  read_uint32 := wf_uint32;
  read_uint64 := wf_uint64;
  read_int32 := wf_int32;
  read_bool := wf_bool;
  read_float := wf_float;
  read_singular_string_into wt input _ := map_fst Some (wf_length_delimited wf_string_of wt input);
  read_repeated_string_into wt input old :=
    map_fst (fun s => old ++ [s]) (wf_length_delimited wf_string_of wt input);
  read_singular_bytes_into wt input _ := map_fst Some (wf_length_delimited Some wt input);
  read_repeated_bytes_into wt input old := map_fst (fun s => old ++ [s]) (wf_length_delimited Some wt input);
  read_repeated_uint32_into := wf_repeated wf_uint32;
  read_repeated_int32_into := wf_repeated wf_int32;
  read_singular_message_into T d merge wt input _ := map_fst Some (wf_length_delimited (merge d) wt input);
  read_repeated_message_into T d merge wt input old :=
    map_fst (fun m => old ++ [m]) (wf_length_delimited (merge d) wt input);
  read_proto2_enum_with_unknown_fields_into E P wt input old _ := wf_enum wt input old;
  read_unknown_or_skip_group _ wt input :=
    match wt with
    | WireTypeVarint => snd <$> read_raw_varint64 input
    | WireTypeFixed64 => snd <$> take_exact 8 input
    | WireTypeLengthDelimited => snd <$> read_delimited input
    | WireTypeFixed32 => snd <$> take_exact 4 input
    | _ => None
    end;
  write_tag := wf_tag;
  write_raw_varint32 v := varint v;
  write_uint32 n v := wf_tag n WireTypeVarint ++ varint v;
  write_uint64 n v := wf_tag n WireTypeVarint ++ varint v;
  write_int32 n v := wf_tag n WireTypeVarint ++ varint (as_u64 v);
  write_bool n v := wf_tag n WireTypeVarint ++ varint (if v then 1 else 0);
  write_float n v := wf_tag n WireTypeFixed32 ++ le_bytes 4 (f32_to_bits v);
  write_enum n v := wf_tag n WireTypeVarint ++ varint (as_u64 v);
  write_string n s := wf_tag n WireTypeLengthDelimited ++ delimited (as_bytes s);
  write_bytes n bs := wf_tag n WireTypeLengthDelimited ++ delimited bs;
  value_size n v wt := Z.of_nat (length (wf_tag n wt ++ varint (as_u64 v)));
  string_size n s := Z.of_nat (length (wf_tag n WireTypeLengthDelimited ++ delimited (as_bytes s)));
  bytes_size n bs := Z.of_nat (length (wf_tag n WireTypeLengthDelimited ++ delimited bs));
  compute_raw_varint32_size v := Z.of_nat (length (varint v));
  enum_size E P n e := Z.of_nat (length (wf_tag n WireTypeVarint ++ varint (as_u64 (value e))));
  rt_write_to_bytes initialized size w :=
    if initialized && (size =? Z.of_nat (length w)) then Some w else None;
  rt_parse_from_bytes T d merge is_initialized bs :=
    m ← merge d bs; if is_initialized m : bool then Some m else None;
|}.

(** ** Its laws *)

Lemma wf_field {A} (w : list Z) n wt (rd : list Z -> option (A * list Z)) v :
  field n -> wf_reads w rd v -> @reads wire_format (wf_tag n wt ++ w) n wt A rd v.
Proof.
  intros Hn Hr. split; [apply wf_tag_nonempty|]. intros rest. exists (w ++ rest). split; [|apply Hr].
  rewrite <-app_assoc. cbn. by apply wf_tag_read.
Qed.

Lemma wf_delimited_app {A B} (f : list Z -> option A) (g : A -> B) bs v :
  short bs -> f bs = Some v ->
  wf_reads (delimited bs)
    (fun input => map_fst g (wf_length_delimited f WireTypeLengthDelimited input)) (g v).
Proof.
  intros Hs Hf rest. unfold wf_length_delimited. rewrite decide_True by done.
  rewrite delimited_app by done. cbn. by rewrite Hf.
Qed.

Lemma wf_delimited_consumes {A B} (f : list Z -> option A) (g : A -> B) wt :
  consumes (fun input => map_fst g (wf_length_delimited f wt input)).
Proof.
  intros input v rest. unfold map_fst, wf_length_delimited. case_decide; [|done].
  destruct (read_delimited input) as [[bs r]|] eqn:E; [|done]. cbn. destruct (f bs); [|done]. cbn.
  intros; simplify_eq. by eapply read_delimited_consumes.
Qed.

Lemma wf_varint_consumes {A} (g : Z -> A) :
  consumes (fun input => '(v, input) ← read_raw_varint64 input; Some (g v, input)).
Proof.
  intros input v rest. destruct (read_raw_varint64 input) as [[bs r]|] eqn:E; [|done]. cbn.
  intros; simplify_eq. apply read_base128_consumes in E. lia.
Qed.

Lemma wf_repeated_consumes rd wt old : consumes rd -> consumes (fun input => wf_repeated rd wt input old).
Proof.
  intros Hr input v rest. unfold wf_repeated. destruct wt; try done.
  - destruct (rd input) as [[x r]|] eqn:E; [|done]. cbn. intros; simplify_eq. eauto.
  - destruct (read_delimited input) as [[bs r]|] eqn:E; [|done]. cbn.
    destruct (wf_packed _ rd bs); [|done]. cbn. intros; simplify_eq. by eapply read_delimited_consumes.
Qed.

Lemma wf_repeated_app rd w v old : wf_reads w rd v ->
  wf_reads w (fun input => wf_repeated rd WireTypeVarint input old) (old ++ [v]).
Proof. intros Hr rest. cbn. by rewrite Hr. Qed.

Lemma wf_utf8 s : utf8 s -> wf_string_of (as_bytes s) = Some s.
Proof. unfold utf8, wf_string_of. intros ->. by rewrite of_as_bytes. Qed.

Lemma length_wf_tag1 n wt : 1 <= n < 16 -> length (wf_tag n wt) = 1%nat.
Proof.
  intros Hn. unfold wf_tag. cbn [base128].
  by rewrite (proj2 (Z.ltb_lt _ 128)) by (destruct wt; cbn; lia).
Qed.

Lemma length_wf_tag2 n wt : 16 <= n < 2048 -> length (wf_tag n wt) = 2%nat.
Proof.
  intros Hn. unfold wf_tag. cbn [base128].
  rewrite (proj2 (Z.ltb_ge _ 128)), (proj2 (Z.ltb_lt _ 128)); [done| |destruct wt; cbn; lia].
  apply Z.div_lt_upper_bound; destruct wt; cbn; lia.
Qed.

Lemma wf_tag_ok n wt : field n -> bytes_ok (wf_tag n wt).
Proof. intros Hn. apply base128_ok. unfold field in Hn. destruct wt; cbn; lia. Qed.

Lemma wf_short_delimited n bs : short (wf_tag n WireTypeLengthDelimited ++ delimited bs) -> short bs.
Proof. by intros [_ [_ H]%short_app]%short_app. Qed.

Lemma wf_written_ok n : field n ->
  (forall w wt, bytes_ok w -> bytes_ok (wf_tag n wt ++ w)) /\ (forall bs, bytes_ok bs -> bytes_ok (delimited bs)).
Proof.
  intros Hn. split; intros; (apply Forall_app_2; [|done]); [by apply wf_tag_ok|apply base128_ok; lia].
Qed.

Lemma wf_tag_consumes input n wt mid : wf_read_tag input = Some (n, wt, mid) -> (length mid < length input)%nat.
Proof.
  unfold wf_read_tag. destruct (read_raw_varint64 input) as [[t r]|] eqn:E; [|done]. cbn [mbind option_bind].
  destruct (wire_of _); [|done]. cbn [mbind option_bind]. case_match; intros; simplify_eq. by eapply read_base128_consumes.
Qed.

Lemma wf_float_consumes : consumes wf_float.
Proof.
  intros input v rest. unfold wf_float. destruct (take_exact 4 input) as [[bs r]|] eqn:E; [|done]. cbn.
  intros; simplify_eq. by eapply take_exact_consumes.
Qed.

Lemma wf_enum_app {E} `{ProtobufEnumLaws E} (e : E) old :
  wf_reads (varint (as_u64 (value e))) (fun input => wf_enum WireTypeVarint input old) (Some e).
Proof.
  intros rest. unfold wf_enum. rewrite decide_True by done. rewrite (wf_int32_app (value e) (value_i32 e) rest). cbn.
  by rewrite from_value.
Qed.

Lemma wf_enum_consumes {E} `{ProtobufEnum E} wt old : consumes (fun input => wf_enum (E := E) wt input old).
Proof.
  intros input v rest. unfold wf_enum. case_decide; [|done]. destruct (wf_int32 input) as [[z r]|] eqn:E1; [|done].
  cbn. intros; simplify_eq. by eapply wf_varint_consumes.
Qed.

(** The readers of scalars, and of a field whose reader is told the old value. *)
Create HintDb wire.
#[local] Hint Resolve wf_uint32_app wf_uint64_app wf_int32_app wf_bool_app wf_float_app wf_repeated_app wf_utf8
  wf_short_delimited wf_varint_consumes wf_delimited_consumes wf_repeated_consumes wf_float_consumes length_wf_tag1 wf_enum_app wf_enum_consumes : wire.

Lemma wf_bool_consumes : consumes wf_bool.
Proof. apply (wf_varint_consumes (fun v => negb (v =? 0))). Qed.
#[local] Hint Resolve wf_bool_consumes : wire.

#[export] Instance wire_format_laws : @RuntimeLaws wire_format.
Proof.
  split; cbn -[length Z.of_nat base128 read_base128 le_bytes]; intros;
    try (match goal with |- reads _ _ _ _ _ => apply wf_field; [done|] end;
         first [by eauto with wire
               |apply wf_delimited_app; by eauto with wire
               |apply (wf_delimited_app _ (fun s => old ++ [s])); by eauto with wire]);
    try (by eauto with wire).
  - rewrite as_u64_small; [done|]. unfold u32, in_u in *. lia.
  - by rewrite as_u64_small.
  - rewrite length_app, length_wf_tag1 by done. by destruct v.
  - rewrite length_app, length_wf_tag2 by done. by destruct v.
  - by rewrite length_app, length_wf_tag1.
  - destruct (wf_written_ok n) as [Ht Hd]; [done|].
    repeat split; intros; try apply Ht; try apply Hd; auto using le_bytes_ok, as_bytes_ok, wf_tag_ok;
      apply base128_ok; try (destruct v; lia); unfold u32, u64, in_u in *; try lia.
    apply wrap_range. lia.
  - apply (proj1 (wf_written_ok n ltac:(done))), base128_ok, wrap_range. lia.
  - by eapply wf_tag_consumes.
  - destruct wt; try discriminate;
      match goal with H : snd <$> ?e = Some _ |- _ => destruct e as [[x r]|] eqn:E; cbn in H; simplify_eq end;
      first [by eapply take_exact_consumes | by eapply read_delimited_consumes
            | apply read_base128_consumes in E; lia].
  - by rewrite Z.eqb_refl.
  - rewrite H. cbn. by rewrite H0.
  - rewrite H. cbn. by rewrite H0.
  - by rewrite H.
Qed.
