(* ===== verification/Codec.v ===== *)
(** The generated code of [src/src/proto/mumble.rs] for the messages the server uses: [new],
    [merge_from], [is_initialized], [compute_size] and [write_to_with_cached_sizes], one Module per
    message, each translated branch by branch over the class [Runtime] of [Wire.v].  [with_x] stores into
    the field [x].  [message_ok] says that the fields are in the ranges of their Rust types. *)

From stdpp Require Import base list option strings.
From Stdlib Require Import ZArith Lia.
From S2P Require Import Prelude Float32 Messages Wire.

(** *** [Version] *)

Module VersionCodec.
Section VersionCodec.
Context `{Runtime}.
Import VersionMsg.

Definition new : Version :=
  mkVersion None None None None.

Definition with_version (self : Version) (v : option Z) : Version :=
  mkVersion v (release self) (os self) (os_version self).
Definition with_release (self : Version) (v : option string) : Version :=
  mkVersion (version self) v (os self) (os_version self).
Definition with_os (self : Version) (v : option string) : Version :=
  mkVersion (version self) (release self) v (os_version self).
Definition with_os_version (self : Version) (v : option string) : Version :=
  mkVersion (version self) (release self) (os self) v.

Definition merge_field (self : Version) (field_number : Z) (wire_type : WireType) (input : list Z)
    : option (Version * list Z) :=
  match field_number with
  | 1 => scalar wire_type WireTypeVarint read_uint32 input (with_version self)
  | 2 => into (read_singular_string_into wire_type input (release self)) (with_release self)
  | 3 => into (read_singular_string_into wire_type input (os self)) (with_os self)
  | 4 => into (read_singular_string_into wire_type input (os_version self)) (with_os_version self)
  | _ => unknown self field_number wire_type input
  end.

Definition merge_from : Version -> list Z -> option Version := merge_all merge_field.

Definition is_initialized (self : Version) : bool := true.

Definition compute_size (self : Version) : Z :=
  let my_size := 0 in
  let my_size := size_opt (version self) (fun v => value_size 1 v WireTypeVarint) my_size in
  let my_size := size_opt (release self) (fun v => string_size 2 v) my_size in
  let my_size := size_opt (os self) (fun v => string_size 3 v) my_size in
  let my_size := size_opt (os_version self) (fun v => string_size 4 v) my_size in
  my_size.

Definition write_to_with_cached_sizes (self : Version) : list Z :=
  let out := [] in
  let out := write_opt (version self) (write_uint32 1) out in
  let out := write_opt (release self) (write_string 2) out in
  let out := write_opt (os self) (write_string 3) out in
  let out := write_opt (os_version self) (write_string 4) out in
  out.

(** The fields are in the ranges of their Rust types. *)
Definition message_ok (self : Version) : Prop :=
  opt_ok u32 (version self)
  /\ opt_ok utf8 (release self)
  /\ opt_ok utf8 (os self)
  /\ opt_ok utf8 (os_version self).
End VersionCodec.
End VersionCodec.

(** *** [Authenticate] *)

Module AuthenticateCodec.
Section AuthenticateCodec.
Context `{Runtime}.
Import AuthenticateMsg.

Definition new : Authenticate :=
  mkAuthenticate None None [] [] None.

Definition with_username (self : Authenticate) (v : option string) : Authenticate :=
  mkAuthenticate v (password self) (tokens self) (celt_versions self) (opus self).
Definition with_password (self : Authenticate) (v : option string) : Authenticate :=
  mkAuthenticate (username self) v (tokens self) (celt_versions self) (opus self).
Definition with_tokens (self : Authenticate) (v : list string) : Authenticate :=
  mkAuthenticate (username self) (password self) v (celt_versions self) (opus self).
Definition with_celt_versions (self : Authenticate) (v : list Z) : Authenticate :=
  mkAuthenticate (username self) (password self) (tokens self) v (opus self).
Definition with_opus (self : Authenticate) (v : option bool) : Authenticate :=
  mkAuthenticate (username self) (password self) (tokens self) (celt_versions self) v.

Definition merge_field (self : Authenticate) (field_number : Z) (wire_type : WireType) (input : list Z)
    : option (Authenticate * list Z) :=
  match field_number with
  | 1 => into (read_singular_string_into wire_type input (username self)) (with_username self)
  | 2 => into (read_singular_string_into wire_type input (password self)) (with_password self)
  | 3 => into (read_repeated_string_into wire_type input (tokens self)) (with_tokens self)
  | 4 => into (read_repeated_int32_into wire_type input (celt_versions self)) (with_celt_versions self)
  | 5 => scalar wire_type WireTypeVarint read_bool input (with_opus self)
  | _ => unknown self field_number wire_type input
  end.

Definition merge_from : Authenticate -> list Z -> option Authenticate := merge_all merge_field.

Definition is_initialized (self : Authenticate) : bool := true.

Definition compute_size (self : Authenticate) : Z :=
  let my_size := 0 in
  let my_size := size_opt (username self) (fun v => string_size 1 v) my_size in
  let my_size := size_opt (password self) (fun v => string_size 2 v) my_size in
  let my_size := size_all (tokens self) (fun v => string_size 3 v) my_size in
  let my_size := size_all (celt_versions self) (fun v => value_size 4 v WireTypeVarint) my_size in
  let my_size := size_opt (opus self) (fun _ => 2) my_size in
  my_size.

Definition write_to_with_cached_sizes (self : Authenticate) : list Z :=
  let out := [] in
  let out := write_opt (username self) (write_string 1) out in
  let out := write_opt (password self) (write_string 2) out in
  let out := write_all (tokens self) (write_string 3) out in
  let out := write_all (celt_versions self) (write_int32 4) out in
  let out := write_opt (opus self) (write_bool 5) out in
  out.

(** The fields are in the ranges of their Rust types. *)
Definition message_ok (self : Authenticate) : Prop :=
  opt_ok utf8 (username self)
  /\ opt_ok utf8 (password self)
  /\ Forall utf8 (tokens self)
  /\ Forall i32 (celt_versions self)
  /\ opt_ok any_bool (opus self).
End AuthenticateCodec.
End AuthenticateCodec.

(** *** [Ping] *)

Module PingCodec.
Section PingCodec.
Context `{Runtime}.
Import PingMsg.

Definition new : Ping :=
  mkPing None None None None None None None None None None None.

Definition with_timestamp (self : Ping) (v : option Z) : Ping :=
  mkPing v (good self) (late self) (lost self) (resync self) (udp_packets self) (tcp_packets self)
    (udp_ping_avg self) (udp_ping_var self) (tcp_ping_avg self) (tcp_ping_var self).
Definition with_good (self : Ping) (v : option Z) : Ping :=
  mkPing (timestamp self) v (late self) (lost self) (resync self) (udp_packets self) (tcp_packets self)
    (udp_ping_avg self) (udp_ping_var self) (tcp_ping_avg self) (tcp_ping_var self).
Definition with_late (self : Ping) (v : option Z) : Ping :=
  mkPing (timestamp self) (good self) v (lost self) (resync self) (udp_packets self) (tcp_packets self)
    (udp_ping_avg self) (udp_ping_var self) (tcp_ping_avg self) (tcp_ping_var self).
Definition with_lost (self : Ping) (v : option Z) : Ping :=
  mkPing (timestamp self) (good self) (late self) v (resync self) (udp_packets self) (tcp_packets self)
    (udp_ping_avg self) (udp_ping_var self) (tcp_ping_avg self) (tcp_ping_var self).
Definition with_resync (self : Ping) (v : option Z) : Ping :=
  mkPing (timestamp self) (good self) (late self) (lost self) v (udp_packets self) (tcp_packets self)
    (udp_ping_avg self) (udp_ping_var self) (tcp_ping_avg self) (tcp_ping_var self).
Definition with_udp_packets (self : Ping) (v : option Z) : Ping :=
  mkPing (timestamp self) (good self) (late self) (lost self) (resync self) v (tcp_packets self)
    (udp_ping_avg self) (udp_ping_var self) (tcp_ping_avg self) (tcp_ping_var self).
Definition with_tcp_packets (self : Ping) (v : option Z) : Ping :=
  mkPing (timestamp self) (good self) (late self) (lost self) (resync self) (udp_packets self) v
    (udp_ping_avg self) (udp_ping_var self) (tcp_ping_avg self) (tcp_ping_var self).
Definition with_udp_ping_avg (self : Ping) (v : option f32) : Ping :=
  mkPing (timestamp self) (good self) (late self) (lost self) (resync self) (udp_packets self)
    (tcp_packets self) v (udp_ping_var self) (tcp_ping_avg self) (tcp_ping_var self).
Definition with_udp_ping_var (self : Ping) (v : option f32) : Ping :=
  mkPing (timestamp self) (good self) (late self) (lost self) (resync self) (udp_packets self)
    (tcp_packets self) (udp_ping_avg self) v (tcp_ping_avg self) (tcp_ping_var self).
Definition with_tcp_ping_avg (self : Ping) (v : option f32) : Ping :=
  mkPing (timestamp self) (good self) (late self) (lost self) (resync self) (udp_packets self)
    (tcp_packets self) (udp_ping_avg self) (udp_ping_var self) v (tcp_ping_var self).
Definition with_tcp_ping_var (self : Ping) (v : option f32) : Ping :=
  mkPing (timestamp self) (good self) (late self) (lost self) (resync self) (udp_packets self)
    (tcp_packets self) (udp_ping_avg self) (udp_ping_var self) (tcp_ping_avg self) v.

Definition merge_field (self : Ping) (field_number : Z) (wire_type : WireType) (input : list Z)
    : option (Ping * list Z) :=
  match field_number with
  | 1 => scalar wire_type WireTypeVarint read_uint64 input (with_timestamp self)
  | 2 => scalar wire_type WireTypeVarint read_uint32 input (with_good self)
  | 3 => scalar wire_type WireTypeVarint read_uint32 input (with_late self)
  | 4 => scalar wire_type WireTypeVarint read_uint32 input (with_lost self)
  | 5 => scalar wire_type WireTypeVarint read_uint32 input (with_resync self)
  | 6 => scalar wire_type WireTypeVarint read_uint32 input (with_udp_packets self)
  | 7 => scalar wire_type WireTypeVarint read_uint32 input (with_tcp_packets self)
  | 8 => scalar wire_type WireTypeFixed32 read_float input (with_udp_ping_avg self)
  | 9 => scalar wire_type WireTypeFixed32 read_float input (with_udp_ping_var self)
  | 10 => scalar wire_type WireTypeFixed32 read_float input (with_tcp_ping_avg self)
  | 11 => scalar wire_type WireTypeFixed32 read_float input (with_tcp_ping_var self)
  | _ => unknown self field_number wire_type input
  end.

Definition merge_from : Ping -> list Z -> option Ping := merge_all merge_field.

Definition is_initialized (self : Ping) : bool := true.

Definition compute_size (self : Ping) : Z :=
  let my_size := 0 in
  let my_size := size_opt (timestamp self) (fun v => value_size 1 v WireTypeVarint) my_size in
  let my_size := size_opt (good self) (fun v => value_size 2 v WireTypeVarint) my_size in
  let my_size := size_opt (late self) (fun v => value_size 3 v WireTypeVarint) my_size in
  let my_size := size_opt (lost self) (fun v => value_size 4 v WireTypeVarint) my_size in
  let my_size := size_opt (resync self) (fun v => value_size 5 v WireTypeVarint) my_size in
  let my_size := size_opt (udp_packets self) (fun v => value_size 6 v WireTypeVarint) my_size in
  let my_size := size_opt (tcp_packets self) (fun v => value_size 7 v WireTypeVarint) my_size in
  let my_size := size_opt (udp_ping_avg self) (fun _ => 5) my_size in
  let my_size := size_opt (udp_ping_var self) (fun _ => 5) my_size in
  let my_size := size_opt (tcp_ping_avg self) (fun _ => 5) my_size in
  let my_size := size_opt (tcp_ping_var self) (fun _ => 5) my_size in
  my_size.

Definition write_to_with_cached_sizes (self : Ping) : list Z :=
  let out := [] in
  let out := write_opt (timestamp self) (write_uint64 1) out in
  let out := write_opt (good self) (write_uint32 2) out in
  let out := write_opt (late self) (write_uint32 3) out in
  let out := write_opt (lost self) (write_uint32 4) out in
  let out := write_opt (resync self) (write_uint32 5) out in
  let out := write_opt (udp_packets self) (write_uint32 6) out in
  let out := write_opt (tcp_packets self) (write_uint32 7) out in
  let out := write_opt (udp_ping_avg self) (write_float 8) out in
  let out := write_opt (udp_ping_var self) (write_float 9) out in
  let out := write_opt (tcp_ping_avg self) (write_float 10) out in
  let out := write_opt (tcp_ping_var self) (write_float 11) out in
  out.

(** The fields are in the ranges of their Rust types. *)
Definition message_ok (self : Ping) : Prop :=
  opt_ok u64 (timestamp self)
  /\ opt_ok u32 (good self)
  /\ opt_ok u32 (late self)
  /\ opt_ok u32 (lost self)
  /\ opt_ok u32 (resync self)
  /\ opt_ok u32 (udp_packets self)
  /\ opt_ok u32 (tcp_packets self)
  /\ opt_ok float32 (udp_ping_avg self)
  /\ opt_ok float32 (udp_ping_var self)
  /\ opt_ok float32 (tcp_ping_avg self)
  /\ opt_ok float32 (tcp_ping_var self).
End PingCodec.
End PingCodec.

(** *** [ServerSync] *)

Module ServerSyncCodec.
Section ServerSyncCodec.
Context `{Runtime}.
Import ServerSyncMsg.

Definition new : ServerSync :=
  mkServerSync None None None None.

Definition with_session (self : ServerSync) (v : option Z) : ServerSync :=
  mkServerSync v (max_bandwidth self) (welcome_text self) (permissions self).
Definition with_max_bandwidth (self : ServerSync) (v : option Z) : ServerSync :=
  mkServerSync (session self) v (welcome_text self) (permissions self).
Definition with_welcome_text (self : ServerSync) (v : option string) : ServerSync :=
  mkServerSync (session self) (max_bandwidth self) v (permissions self).
Definition with_permissions (self : ServerSync) (v : option Z) : ServerSync :=
  mkServerSync (session self) (max_bandwidth self) (welcome_text self) v.

Definition merge_field (self : ServerSync) (field_number : Z) (wire_type : WireType) (input : list Z)
    : option (ServerSync * list Z) :=
  match field_number with
  | 1 => scalar wire_type WireTypeVarint read_uint32 input (with_session self)
  | 2 => scalar wire_type WireTypeVarint read_uint32 input (with_max_bandwidth self)
  | 3 => into (read_singular_string_into wire_type input (welcome_text self)) (with_welcome_text self)
  | 4 => scalar wire_type WireTypeVarint read_uint64 input (with_permissions self)
  | _ => unknown self field_number wire_type input
  end.

Definition merge_from : ServerSync -> list Z -> option ServerSync := merge_all merge_field.

Definition is_initialized (self : ServerSync) : bool := true.

Definition compute_size (self : ServerSync) : Z :=
  let my_size := 0 in
  let my_size := size_opt (session self) (fun v => value_size 1 v WireTypeVarint) my_size in
  let my_size := size_opt (max_bandwidth self) (fun v => value_size 2 v WireTypeVarint) my_size in
  let my_size := size_opt (welcome_text self) (fun v => string_size 3 v) my_size in
  let my_size := size_opt (permissions self) (fun v => value_size 4 v WireTypeVarint) my_size in
  my_size.

Definition write_to_with_cached_sizes (self : ServerSync) : list Z :=
  let out := [] in
  let out := write_opt (session self) (write_uint32 1) out in
  let out := write_opt (max_bandwidth self) (write_uint32 2) out in
  let out := write_opt (welcome_text self) (write_string 3) out in
  let out := write_opt (permissions self) (write_uint64 4) out in
  out.

(** The fields are in the ranges of their Rust types. *)
Definition message_ok (self : ServerSync) : Prop :=
  opt_ok u32 (session self)
  /\ opt_ok u32 (max_bandwidth self)
  /\ opt_ok utf8 (welcome_text self)
  /\ opt_ok u64 (permissions self).
End ServerSyncCodec.
End ServerSyncCodec.

(** *** [ChannelRemove] *)

Module ChannelRemoveCodec.
Section ChannelRemoveCodec.
Context `{Runtime}.
Import ChannelRemoveMsg.

Definition new : ChannelRemove :=
  mkChannelRemove None.

Definition with_channel_id (self : ChannelRemove) (v : option Z) : ChannelRemove :=
  mkChannelRemove v.

Definition merge_field (self : ChannelRemove) (field_number : Z) (wire_type : WireType) (input : list Z)
    : option (ChannelRemove * list Z) :=
  match field_number with
  | 1 => scalar wire_type WireTypeVarint read_uint32 input (with_channel_id self)
  | _ => unknown self field_number wire_type input
  end.

Definition merge_from : ChannelRemove -> list Z -> option ChannelRemove := merge_all merge_field.

Definition is_initialized (self : ChannelRemove) : bool := has (channel_id self).

Definition compute_size (self : ChannelRemove) : Z :=
  let my_size := 0 in
  let my_size := size_opt (channel_id self) (fun v => value_size 1 v WireTypeVarint) my_size in
  my_size.

Definition write_to_with_cached_sizes (self : ChannelRemove) : list Z :=
  let out := [] in
  let out := write_opt (channel_id self) (write_uint32 1) out in
  out.

(** The fields are in the ranges of their Rust types. *)
Definition message_ok (self : ChannelRemove) : Prop :=
  opt_ok u32 (channel_id self).
End ChannelRemoveCodec.
End ChannelRemoveCodec.

(** *** [ChannelState] *)

Module ChannelStateCodec.
Section ChannelStateCodec.
Context `{Runtime}.
Import ChannelStateMsg.

Definition new : ChannelState :=
  mkChannelState None None None [] None [] [] None None None None None None.

Definition with_channel_id (self : ChannelState) (v : option Z) : ChannelState :=
  mkChannelState v (parent self) (name self) (links self) (description self) (links_add self)
    (links_remove self) (temporary self) (position self) (description_hash self) (max_users self)
    (is_enter_restricted self) (can_enter self).
Definition with_parent (self : ChannelState) (v : option Z) : ChannelState :=
  mkChannelState (channel_id self) v (name self) (links self) (description self) (links_add self)
    (links_remove self) (temporary self) (position self) (description_hash self) (max_users self)
    (is_enter_restricted self) (can_enter self).
Definition with_name (self : ChannelState) (v : option string) : ChannelState :=
  mkChannelState (channel_id self) (parent self) v (links self) (description self) (links_add self)
    (links_remove self) (temporary self) (position self) (description_hash self) (max_users self)
    (is_enter_restricted self) (can_enter self).
Definition with_links (self : ChannelState) (v : list Z) : ChannelState :=
  mkChannelState (channel_id self) (parent self) (name self) v (description self) (links_add self)
    (links_remove self) (temporary self) (position self) (description_hash self) (max_users self)
    (is_enter_restricted self) (can_enter self).
Definition with_description (self : ChannelState) (v : option string) : ChannelState :=
  mkChannelState (channel_id self) (parent self) (name self) (links self) v (links_add self)
    (links_remove self) (temporary self) (position self) (description_hash self) (max_users self)
    (is_enter_restricted self) (can_enter self).
Definition with_links_add (self : ChannelState) (v : list Z) : ChannelState :=
  mkChannelState (channel_id self) (parent self) (name self) (links self) (description self) v
    (links_remove self) (temporary self) (position self) (description_hash self) (max_users self)
    (is_enter_restricted self) (can_enter self).
Definition with_links_remove (self : ChannelState) (v : list Z) : ChannelState :=
  mkChannelState (channel_id self) (parent self) (name self) (links self) (description self)
    (links_add self) v (temporary self) (position self) (description_hash self) (max_users self)
    (is_enter_restricted self) (can_enter self).
Definition with_temporary (self : ChannelState) (v : option bool) : ChannelState :=
  mkChannelState (channel_id self) (parent self) (name self) (links self) (description self)
    (links_add self) (links_remove self) v (position self) (description_hash self) (max_users self)
    (is_enter_restricted self) (can_enter self).
Definition with_position (self : ChannelState) (v : option Z) : ChannelState :=
  mkChannelState (channel_id self) (parent self) (name self) (links self) (description self)
    (links_add self) (links_remove self) (temporary self) v (description_hash self) (max_users self)
    (is_enter_restricted self) (can_enter self).
Definition with_description_hash (self : ChannelState) (v : option (list Z)) : ChannelState :=
  mkChannelState (channel_id self) (parent self) (name self) (links self) (description self)
    (links_add self) (links_remove self) (temporary self) (position self) v (max_users self)
    (is_enter_restricted self) (can_enter self).
Definition with_max_users (self : ChannelState) (v : option Z) : ChannelState :=
  mkChannelState (channel_id self) (parent self) (name self) (links self) (description self)
    (links_add self) (links_remove self) (temporary self) (position self) (description_hash self) v
    (is_enter_restricted self) (can_enter self).
Definition with_is_enter_restricted (self : ChannelState) (v : option bool) : ChannelState :=
  mkChannelState (channel_id self) (parent self) (name self) (links self) (description self)
    (links_add self) (links_remove self) (temporary self) (position self) (description_hash self)
    (max_users self) v (can_enter self).
Definition with_can_enter (self : ChannelState) (v : option bool) : ChannelState :=
  mkChannelState (channel_id self) (parent self) (name self) (links self) (description self)
    (links_add self) (links_remove self) (temporary self) (position self) (description_hash self)
    (max_users self) (is_enter_restricted self) v.

Definition merge_field (self : ChannelState) (field_number : Z) (wire_type : WireType) (input : list Z)
    : option (ChannelState * list Z) :=
  match field_number with
  | 1 => scalar wire_type WireTypeVarint read_uint32 input (with_channel_id self)
  | 2 => scalar wire_type WireTypeVarint read_uint32 input (with_parent self)
  | 3 => into (read_singular_string_into wire_type input (name self)) (with_name self)
  | 4 => into (read_repeated_uint32_into wire_type input (links self)) (with_links self)
  | 5 => into (read_singular_string_into wire_type input (description self)) (with_description self)
  | 6 => into (read_repeated_uint32_into wire_type input (links_add self)) (with_links_add self)
  | 7 => into (read_repeated_uint32_into wire_type input (links_remove self)) (with_links_remove self)
  | 8 => scalar wire_type WireTypeVarint read_bool input (with_temporary self)
  | 9 => scalar wire_type WireTypeVarint read_int32 input (with_position self)
  | 10 => into (read_singular_bytes_into wire_type input (description_hash self)) (with_description_hash self)
  | 11 => scalar wire_type WireTypeVarint read_uint32 input (with_max_users self)
  | 12 => scalar wire_type WireTypeVarint read_bool input (with_is_enter_restricted self)
  | 13 => scalar wire_type WireTypeVarint read_bool input (with_can_enter self)
  | _ => unknown self field_number wire_type input
  end.

Definition merge_from : ChannelState -> list Z -> option ChannelState := merge_all merge_field.

Definition is_initialized (self : ChannelState) : bool := true.

Definition compute_size (self : ChannelState) : Z :=
  let my_size := 0 in
  let my_size := size_opt (channel_id self) (fun v => value_size 1 v WireTypeVarint) my_size in
  let my_size := size_opt (parent self) (fun v => value_size 2 v WireTypeVarint) my_size in
  let my_size := size_opt (name self) (fun v => string_size 3 v) my_size in
  let my_size := size_all (links self) (fun v => value_size 4 v WireTypeVarint) my_size in
  let my_size := size_opt (description self) (fun v => string_size 5 v) my_size in
  let my_size := size_all (links_add self) (fun v => value_size 6 v WireTypeVarint) my_size in
  let my_size := size_all (links_remove self) (fun v => value_size 7 v WireTypeVarint) my_size in
  let my_size := size_opt (temporary self) (fun _ => 2) my_size in
  let my_size := size_opt (position self) (fun v => value_size 9 v WireTypeVarint) my_size in
  let my_size := size_opt (description_hash self) (fun v => bytes_size 10 v) my_size in
  let my_size := size_opt (max_users self) (fun v => value_size 11 v WireTypeVarint) my_size in
  let my_size := size_opt (is_enter_restricted self) (fun _ => 2) my_size in
  let my_size := size_opt (can_enter self) (fun _ => 2) my_size in
  my_size.

Definition write_to_with_cached_sizes (self : ChannelState) : list Z :=
  let out := [] in
  let out := write_opt (channel_id self) (write_uint32 1) out in
  let out := write_opt (parent self) (write_uint32 2) out in
  let out := write_opt (name self) (write_string 3) out in
  let out := write_all (links self) (write_uint32 4) out in
  let out := write_opt (description self) (write_string 5) out in
  let out := write_all (links_add self) (write_uint32 6) out in
  let out := write_all (links_remove self) (write_uint32 7) out in
  let out := write_opt (temporary self) (write_bool 8) out in
  let out := write_opt (position self) (write_int32 9) out in
  let out := write_opt (description_hash self) (write_bytes 10) out in
  let out := write_opt (max_users self) (write_uint32 11) out in
  let out := write_opt (is_enter_restricted self) (write_bool 12) out in
  let out := write_opt (can_enter self) (write_bool 13) out in
  out.

(** The fields are in the ranges of their Rust types. *)
Definition message_ok (self : ChannelState) : Prop :=
  opt_ok u32 (channel_id self)
  /\ opt_ok u32 (parent self)
  /\ opt_ok utf8 (name self)
  /\ Forall u32 (links self)
  /\ opt_ok utf8 (description self)
  /\ Forall u32 (links_add self)
  /\ Forall u32 (links_remove self)
  /\ opt_ok any_bool (temporary self)
  /\ opt_ok i32 (position self)
  /\ opt_ok byte_string (description_hash self)
  /\ opt_ok u32 (max_users self)
  /\ opt_ok any_bool (is_enter_restricted self)
  /\ opt_ok any_bool (can_enter self).
End ChannelStateCodec.
End ChannelStateCodec.

(** *** [UserRemove] *)

Module UserRemoveCodec.
Section UserRemoveCodec.
Context `{Runtime}.
Import UserRemoveMsg.

Definition new : UserRemove :=
  mkUserRemove None None None None.

Definition with_session (self : UserRemove) (v : option Z) : UserRemove :=
  mkUserRemove v (actor self) (reason self) (ban self).
Definition with_actor (self : UserRemove) (v : option Z) : UserRemove :=
  mkUserRemove (session self) v (reason self) (ban self).
Definition with_reason (self : UserRemove) (v : option string) : UserRemove :=
  mkUserRemove (session self) (actor self) v (ban self).
Definition with_ban (self : UserRemove) (v : option bool) : UserRemove :=
  mkUserRemove (session self) (actor self) (reason self) v.

Definition merge_field (self : UserRemove) (field_number : Z) (wire_type : WireType) (input : list Z)
    : option (UserRemove * list Z) :=
  match field_number with
  | 1 => scalar wire_type WireTypeVarint read_uint32 input (with_session self)
  | 2 => scalar wire_type WireTypeVarint read_uint32 input (with_actor self)
  | 3 => into (read_singular_string_into wire_type input (reason self)) (with_reason self)
  | 4 => scalar wire_type WireTypeVarint read_bool input (with_ban self)
  | _ => unknown self field_number wire_type input
  end.

Definition merge_from : UserRemove -> list Z -> option UserRemove := merge_all merge_field.

Definition is_initialized (self : UserRemove) : bool := has (session self).

Definition compute_size (self : UserRemove) : Z :=
  let my_size := 0 in
  let my_size := size_opt (session self) (fun v => value_size 1 v WireTypeVarint) my_size in
  let my_size := size_opt (actor self) (fun v => value_size 2 v WireTypeVarint) my_size in
  let my_size := size_opt (reason self) (fun v => string_size 3 v) my_size in
  let my_size := size_opt (ban self) (fun _ => 2) my_size in
  my_size.

Definition write_to_with_cached_sizes (self : UserRemove) : list Z :=
  let out := [] in
  let out := write_opt (session self) (write_uint32 1) out in
  let out := write_opt (actor self) (write_uint32 2) out in
  let out := write_opt (reason self) (write_string 3) out in
  let out := write_opt (ban self) (write_bool 4) out in
  out.

(** The fields are in the ranges of their Rust types. *)
Definition message_ok (self : UserRemove) : Prop :=
  opt_ok u32 (session self)
  /\ opt_ok u32 (actor self)
  /\ opt_ok utf8 (reason self)
  /\ opt_ok any_bool (ban self).
End UserRemoveCodec.
End UserRemoveCodec.

(** *** [UserState] *)

Module UserStateCodec.
Section UserStateCodec.
Context `{Runtime}.
Import UserStateMsg.

Definition new : UserState :=
  mkUserState None None None None None None None None None None None None None None None None None None
    None [] [] [].

Definition with_session (self : UserState) (v : option Z) : UserState :=
  mkUserState v (actor self) (name self) (user_id self) (channel_id self) (mute self) (deaf self)
    (suppress self) (self_mute self) (self_deaf self) (texture self) (plugin_context self)
    (plugin_identity self) (comment self) (hash self) (comment_hash self) (texture_hash self)
    (priority_speaker self) (recording self) (temporary_access_tokens self) (listening_channel_add self)
    (listening_channel_remove self).
Definition with_actor (self : UserState) (v : option Z) : UserState :=
  mkUserState (session self) v (name self) (user_id self) (channel_id self) (mute self) (deaf self)
    (suppress self) (self_mute self) (self_deaf self) (texture self) (plugin_context self)
    (plugin_identity self) (comment self) (hash self) (comment_hash self) (texture_hash self)
    (priority_speaker self) (recording self) (temporary_access_tokens self) (listening_channel_add self)
    (listening_channel_remove self).
Definition with_name (self : UserState) (v : option string) : UserState :=
  mkUserState (session self) (actor self) v (user_id self) (channel_id self) (mute self) (deaf self)
    (suppress self) (self_mute self) (self_deaf self) (texture self) (plugin_context self)
    (plugin_identity self) (comment self) (hash self) (comment_hash self) (texture_hash self)
    (priority_speaker self) (recording self) (temporary_access_tokens self) (listening_channel_add self)
    (listening_channel_remove self).
Definition with_user_id (self : UserState) (v : option Z) : UserState :=
  mkUserState (session self) (actor self) (name self) v (channel_id self) (mute self) (deaf self)
    (suppress self) (self_mute self) (self_deaf self) (texture self) (plugin_context self)
    (plugin_identity self) (comment self) (hash self) (comment_hash self) (texture_hash self)
    (priority_speaker self) (recording self) (temporary_access_tokens self) (listening_channel_add self)
    (listening_channel_remove self).
Definition with_channel_id (self : UserState) (v : option Z) : UserState :=
  mkUserState (session self) (actor self) (name self) (user_id self) v (mute self) (deaf self)
    (suppress self) (self_mute self) (self_deaf self) (texture self) (plugin_context self)
    (plugin_identity self) (comment self) (hash self) (comment_hash self) (texture_hash self)
    (priority_speaker self) (recording self) (temporary_access_tokens self) (listening_channel_add self)
    (listening_channel_remove self).
Definition with_mute (self : UserState) (v : option bool) : UserState :=
  mkUserState (session self) (actor self) (name self) (user_id self) (channel_id self) v (deaf self)
    (suppress self) (self_mute self) (self_deaf self) (texture self) (plugin_context self)
    (plugin_identity self) (comment self) (hash self) (comment_hash self) (texture_hash self)
    (priority_speaker self) (recording self) (temporary_access_tokens self) (listening_channel_add self)
    (listening_channel_remove self).
Definition with_deaf (self : UserState) (v : option bool) : UserState :=
  mkUserState (session self) (actor self) (name self) (user_id self) (channel_id self) (mute self) v
    (suppress self) (self_mute self) (self_deaf self) (texture self) (plugin_context self)
    (plugin_identity self) (comment self) (hash self) (comment_hash self) (texture_hash self)
    (priority_speaker self) (recording self) (temporary_access_tokens self) (listening_channel_add self)
    (listening_channel_remove self).
Definition with_suppress (self : UserState) (v : option bool) : UserState :=
  mkUserState (session self) (actor self) (name self) (user_id self) (channel_id self) (mute self)
    (deaf self) v (self_mute self) (self_deaf self) (texture self) (plugin_context self)
    (plugin_identity self) (comment self) (hash self) (comment_hash self) (texture_hash self)
    (priority_speaker self) (recording self) (temporary_access_tokens self) (listening_channel_add self)
    (listening_channel_remove self).
Definition with_self_mute (self : UserState) (v : option bool) : UserState :=
  mkUserState (session self) (actor self) (name self) (user_id self) (channel_id self) (mute self)
    (deaf self) (suppress self) v (self_deaf self) (texture self) (plugin_context self)
    (plugin_identity self) (comment self) (hash self) (comment_hash self) (texture_hash self)
    (priority_speaker self) (recording self) (temporary_access_tokens self) (listening_channel_add self)
    (listening_channel_remove self).
Definition with_self_deaf (self : UserState) (v : option bool) : UserState :=
  mkUserState (session self) (actor self) (name self) (user_id self) (channel_id self) (mute self)
    (deaf self) (suppress self) (self_mute self) v (texture self) (plugin_context self)
    (plugin_identity self) (comment self) (hash self) (comment_hash self) (texture_hash self)
    (priority_speaker self) (recording self) (temporary_access_tokens self) (listening_channel_add self)
    (listening_channel_remove self).
Definition with_texture (self : UserState) (v : option (list Z)) : UserState :=
  mkUserState (session self) (actor self) (name self) (user_id self) (channel_id self) (mute self)
    (deaf self) (suppress self) (self_mute self) (self_deaf self) v (plugin_context self)
    (plugin_identity self) (comment self) (hash self) (comment_hash self) (texture_hash self)
    (priority_speaker self) (recording self) (temporary_access_tokens self) (listening_channel_add self)
    (listening_channel_remove self).
Definition with_plugin_context (self : UserState) (v : option (list Z)) : UserState :=
  mkUserState (session self) (actor self) (name self) (user_id self) (channel_id self) (mute self)
    (deaf self) (suppress self) (self_mute self) (self_deaf self) (texture self) v
    (plugin_identity self) (comment self) (hash self) (comment_hash self) (texture_hash self)
    (priority_speaker self) (recording self) (temporary_access_tokens self) (listening_channel_add self)
    (listening_channel_remove self).
Definition with_plugin_identity (self : UserState) (v : option string) : UserState :=
  mkUserState (session self) (actor self) (name self) (user_id self) (channel_id self) (mute self)
    (deaf self) (suppress self) (self_mute self) (self_deaf self) (texture self) (plugin_context self) v
    (comment self) (hash self) (comment_hash self) (texture_hash self) (priority_speaker self)
    (recording self) (temporary_access_tokens self) (listening_channel_add self)
    (listening_channel_remove self).
Definition with_comment (self : UserState) (v : option string) : UserState :=
  mkUserState (session self) (actor self) (name self) (user_id self) (channel_id self) (mute self)
    (deaf self) (suppress self) (self_mute self) (self_deaf self) (texture self) (plugin_context self)
    (plugin_identity self) v (hash self) (comment_hash self) (texture_hash self) (priority_speaker self)
    (recording self) (temporary_access_tokens self) (listening_channel_add self)
    (listening_channel_remove self).
Definition with_hash (self : UserState) (v : option string) : UserState :=
  mkUserState (session self) (actor self) (name self) (user_id self) (channel_id self) (mute self)
    (deaf self) (suppress self) (self_mute self) (self_deaf self) (texture self) (plugin_context self)
    (plugin_identity self) (comment self) v (comment_hash self) (texture_hash self)
    (priority_speaker self) (recording self) (temporary_access_tokens self) (listening_channel_add self)
    (listening_channel_remove self).
Definition with_comment_hash (self : UserState) (v : option (list Z)) : UserState :=
  mkUserState (session self) (actor self) (name self) (user_id self) (channel_id self) (mute self)
    (deaf self) (suppress self) (self_mute self) (self_deaf self) (texture self) (plugin_context self)
    (plugin_identity self) (comment self) (hash self) v (texture_hash self) (priority_speaker self)
    (recording self) (temporary_access_tokens self) (listening_channel_add self)
    (listening_channel_remove self).
Definition with_texture_hash (self : UserState) (v : option (list Z)) : UserState :=
  mkUserState (session self) (actor self) (name self) (user_id self) (channel_id self) (mute self)
    (deaf self) (suppress self) (self_mute self) (self_deaf self) (texture self) (plugin_context self)
    (plugin_identity self) (comment self) (hash self) (comment_hash self) v (priority_speaker self)
    (recording self) (temporary_access_tokens self) (listening_channel_add self)
    (listening_channel_remove self).
Definition with_priority_speaker (self : UserState) (v : option bool) : UserState :=
  mkUserState (session self) (actor self) (name self) (user_id self) (channel_id self) (mute self)
    (deaf self) (suppress self) (self_mute self) (self_deaf self) (texture self) (plugin_context self)
    (plugin_identity self) (comment self) (hash self) (comment_hash self) (texture_hash self) v
    (recording self) (temporary_access_tokens self) (listening_channel_add self)
    (listening_channel_remove self).
Definition with_recording (self : UserState) (v : option bool) : UserState :=
  mkUserState (session self) (actor self) (name self) (user_id self) (channel_id self) (mute self)
    (deaf self) (suppress self) (self_mute self) (self_deaf self) (texture self) (plugin_context self)
    (plugin_identity self) (comment self) (hash self) (comment_hash self) (texture_hash self)
    (priority_speaker self) v (temporary_access_tokens self) (listening_channel_add self)
    (listening_channel_remove self).
Definition with_temporary_access_tokens (self : UserState) (v : list string) : UserState :=
  mkUserState (session self) (actor self) (name self) (user_id self) (channel_id self) (mute self)
    (deaf self) (suppress self) (self_mute self) (self_deaf self) (texture self) (plugin_context self)
    (plugin_identity self) (comment self) (hash self) (comment_hash self) (texture_hash self)
    (priority_speaker self) (recording self) v (listening_channel_add self)
    (listening_channel_remove self).
Definition with_listening_channel_add (self : UserState) (v : list Z) : UserState :=
  mkUserState (session self) (actor self) (name self) (user_id self) (channel_id self) (mute self)
    (deaf self) (suppress self) (self_mute self) (self_deaf self) (texture self) (plugin_context self)
    (plugin_identity self) (comment self) (hash self) (comment_hash self) (texture_hash self)
    (priority_speaker self) (recording self) (temporary_access_tokens self) v
    (listening_channel_remove self).
Definition with_listening_channel_remove (self : UserState) (v : list Z) : UserState :=
  mkUserState (session self) (actor self) (name self) (user_id self) (channel_id self) (mute self)
    (deaf self) (suppress self) (self_mute self) (self_deaf self) (texture self) (plugin_context self)
    (plugin_identity self) (comment self) (hash self) (comment_hash self) (texture_hash self)
    (priority_speaker self) (recording self) (temporary_access_tokens self) (listening_channel_add self)
    v.

Definition merge_field (self : UserState) (field_number : Z) (wire_type : WireType) (input : list Z)
    : option (UserState * list Z) :=
  match field_number with
  | 1 => scalar wire_type WireTypeVarint read_uint32 input (with_session self)
  | 2 => scalar wire_type WireTypeVarint read_uint32 input (with_actor self)
  | 3 => into (read_singular_string_into wire_type input (name self)) (with_name self)
  | 4 => scalar wire_type WireTypeVarint read_uint32 input (with_user_id self)
  | 5 => scalar wire_type WireTypeVarint read_uint32 input (with_channel_id self)
  | 6 => scalar wire_type WireTypeVarint read_bool input (with_mute self)
  | 7 => scalar wire_type WireTypeVarint read_bool input (with_deaf self)
  | 8 => scalar wire_type WireTypeVarint read_bool input (with_suppress self)
  | 9 => scalar wire_type WireTypeVarint read_bool input (with_self_mute self)
  | 10 => scalar wire_type WireTypeVarint read_bool input (with_self_deaf self)
  | 11 => into (read_singular_bytes_into wire_type input (texture self)) (with_texture self)
  | 12 => into (read_singular_bytes_into wire_type input (plugin_context self)) (with_plugin_context self)
  | 13 => into (read_singular_string_into wire_type input (plugin_identity self)) (with_plugin_identity self)
  | 14 => into (read_singular_string_into wire_type input (comment self)) (with_comment self)
  | 15 => into (read_singular_string_into wire_type input (hash self)) (with_hash self)
  | 16 => into (read_singular_bytes_into wire_type input (comment_hash self)) (with_comment_hash self)
  | 17 => into (read_singular_bytes_into wire_type input (texture_hash self)) (with_texture_hash self)
  | 18 => scalar wire_type WireTypeVarint read_bool input (with_priority_speaker self)
  | 19 => scalar wire_type WireTypeVarint read_bool input (with_recording self)
  | 20 => into (read_repeated_string_into wire_type input (temporary_access_tokens self)) (with_temporary_access_tokens self)
  | 21 => into (read_repeated_uint32_into wire_type input (listening_channel_add self)) (with_listening_channel_add self)
  | 22 => into (read_repeated_uint32_into wire_type input (listening_channel_remove self)) (with_listening_channel_remove self)
  | _ => unknown self field_number wire_type input
  end.

Definition merge_from : UserState -> list Z -> option UserState := merge_all merge_field.

Definition is_initialized (self : UserState) : bool := true.

Definition compute_size (self : UserState) : Z :=
  let my_size := 0 in
  let my_size := size_opt (session self) (fun v => value_size 1 v WireTypeVarint) my_size in
  let my_size := size_opt (actor self) (fun v => value_size 2 v WireTypeVarint) my_size in
  let my_size := size_opt (name self) (fun v => string_size 3 v) my_size in
  let my_size := size_opt (user_id self) (fun v => value_size 4 v WireTypeVarint) my_size in
  let my_size := size_opt (channel_id self) (fun v => value_size 5 v WireTypeVarint) my_size in
  let my_size := size_opt (mute self) (fun _ => 2) my_size in
  let my_size := size_opt (deaf self) (fun _ => 2) my_size in
  let my_size := size_opt (suppress self) (fun _ => 2) my_size in
  let my_size := size_opt (self_mute self) (fun _ => 2) my_size in
  let my_size := size_opt (self_deaf self) (fun _ => 2) my_size in
  let my_size := size_opt (texture self) (fun v => bytes_size 11 v) my_size in
  let my_size := size_opt (plugin_context self) (fun v => bytes_size 12 v) my_size in
  let my_size := size_opt (plugin_identity self) (fun v => string_size 13 v) my_size in
  let my_size := size_opt (comment self) (fun v => string_size 14 v) my_size in
  let my_size := size_opt (hash self) (fun v => string_size 15 v) my_size in
  let my_size := size_opt (comment_hash self) (fun v => bytes_size 16 v) my_size in
  let my_size := size_opt (texture_hash self) (fun v => bytes_size 17 v) my_size in
  let my_size := size_opt (priority_speaker self) (fun _ => 3) my_size in
  let my_size := size_opt (recording self) (fun _ => 3) my_size in
  let my_size := size_all (temporary_access_tokens self) (fun v => string_size 20 v) my_size in
  let my_size := size_all (listening_channel_add self) (fun v => value_size 21 v WireTypeVarint) my_size in
  let my_size := size_all (listening_channel_remove self) (fun v => value_size 22 v WireTypeVarint) my_size in
  my_size.

Definition write_to_with_cached_sizes (self : UserState) : list Z :=
  let out := [] in
  let out := write_opt (session self) (write_uint32 1) out in
  let out := write_opt (actor self) (write_uint32 2) out in
  let out := write_opt (name self) (write_string 3) out in
  let out := write_opt (user_id self) (write_uint32 4) out in
  let out := write_opt (channel_id self) (write_uint32 5) out in
  let out := write_opt (mute self) (write_bool 6) out in
  let out := write_opt (deaf self) (write_bool 7) out in
  let out := write_opt (suppress self) (write_bool 8) out in
  let out := write_opt (self_mute self) (write_bool 9) out in
  let out := write_opt (self_deaf self) (write_bool 10) out in
  let out := write_opt (texture self) (write_bytes 11) out in
  let out := write_opt (plugin_context self) (write_bytes 12) out in
  let out := write_opt (plugin_identity self) (write_string 13) out in
  let out := write_opt (comment self) (write_string 14) out in
  let out := write_opt (hash self) (write_string 15) out in
  let out := write_opt (comment_hash self) (write_bytes 16) out in
  let out := write_opt (texture_hash self) (write_bytes 17) out in
  let out := write_opt (priority_speaker self) (write_bool 18) out in
  let out := write_opt (recording self) (write_bool 19) out in
  let out := write_all (temporary_access_tokens self) (write_string 20) out in
  let out := write_all (listening_channel_add self) (write_uint32 21) out in
  let out := write_all (listening_channel_remove self) (write_uint32 22) out in
  out.

(** The fields are in the ranges of their Rust types. *)
Definition message_ok (self : UserState) : Prop :=
  opt_ok u32 (session self)
  /\ opt_ok u32 (actor self)
  /\ opt_ok utf8 (name self)
  /\ opt_ok u32 (user_id self)
  /\ opt_ok u32 (channel_id self)
  /\ opt_ok any_bool (mute self)
  /\ opt_ok any_bool (deaf self)
  /\ opt_ok any_bool (suppress self)
  /\ opt_ok any_bool (self_mute self)
  /\ opt_ok any_bool (self_deaf self)
  /\ opt_ok byte_string (texture self)
  /\ opt_ok byte_string (plugin_context self)
  /\ opt_ok utf8 (plugin_identity self)
  /\ opt_ok utf8 (comment self)
  /\ opt_ok utf8 (hash self)
  /\ opt_ok byte_string (comment_hash self)
  /\ opt_ok byte_string (texture_hash self)
  /\ opt_ok any_bool (priority_speaker self)
  /\ opt_ok any_bool (recording self)
  /\ Forall utf8 (temporary_access_tokens self)
  /\ Forall u32 (listening_channel_add self)
  /\ Forall u32 (listening_channel_remove self).
End UserStateCodec.
End UserStateCodec.

(** *** [CryptSetup] *)

Module CryptSetupCodec.
Section CryptSetupCodec.
Context `{Runtime}.
Import CryptSetupMsg.

Definition new : CryptSetup :=
  mkCryptSetup None None None.

Definition with_key (self : CryptSetup) (v : option (list Z)) : CryptSetup :=
  mkCryptSetup v (client_nonce self) (server_nonce self).
Definition with_client_nonce (self : CryptSetup) (v : option (list Z)) : CryptSetup :=
  mkCryptSetup (key self) v (server_nonce self).
Definition with_server_nonce (self : CryptSetup) (v : option (list Z)) : CryptSetup :=
  mkCryptSetup (key self) (client_nonce self) v.

Definition merge_field (self : CryptSetup) (field_number : Z) (wire_type : WireType) (input : list Z)
    : option (CryptSetup * list Z) :=
  match field_number with
  | 1 => into (read_singular_bytes_into wire_type input (key self)) (with_key self)
  | 2 => into (read_singular_bytes_into wire_type input (client_nonce self)) (with_client_nonce self)
  | 3 => into (read_singular_bytes_into wire_type input (server_nonce self)) (with_server_nonce self)
  | _ => unknown self field_number wire_type input
  end.

Definition merge_from : CryptSetup -> list Z -> option CryptSetup := merge_all merge_field.

Definition is_initialized (self : CryptSetup) : bool := true.

Definition compute_size (self : CryptSetup) : Z :=
  let my_size := 0 in
  let my_size := size_opt (key self) (fun v => bytes_size 1 v) my_size in
  let my_size := size_opt (client_nonce self) (fun v => bytes_size 2 v) my_size in
  let my_size := size_opt (server_nonce self) (fun v => bytes_size 3 v) my_size in
  my_size.

Definition write_to_with_cached_sizes (self : CryptSetup) : list Z :=
  let out := [] in
  let out := write_opt (key self) (write_bytes 1) out in
  let out := write_opt (client_nonce self) (write_bytes 2) out in
  let out := write_opt (server_nonce self) (write_bytes 3) out in
  out.

(** The fields are in the ranges of their Rust types. *)
Definition message_ok (self : CryptSetup) : Prop :=
  opt_ok byte_string (key self)
  /\ opt_ok byte_string (client_nonce self)
  /\ opt_ok byte_string (server_nonce self).
End CryptSetupCodec.
End CryptSetupCodec.

(** *** [VoiceTarget_Target] *)

Module VoiceTarget_TargetCodec.
Section VoiceTarget_TargetCodec.
Context `{Runtime}.
Import VoiceTarget_TargetMsg.

Definition new : VoiceTarget_Target :=
  mkVoiceTarget_Target [] None None None None.

Definition with_session (self : VoiceTarget_Target) (v : list Z) : VoiceTarget_Target :=
  mkVoiceTarget_Target v (channel_id self) (group self) (links self) (children self).
Definition with_channel_id (self : VoiceTarget_Target) (v : option Z) : VoiceTarget_Target :=
  mkVoiceTarget_Target (session self) v (group self) (links self) (children self).
Definition with_group (self : VoiceTarget_Target) (v : option string) : VoiceTarget_Target :=
  mkVoiceTarget_Target (session self) (channel_id self) v (links self) (children self).
Definition with_links (self : VoiceTarget_Target) (v : option bool) : VoiceTarget_Target :=
  mkVoiceTarget_Target (session self) (channel_id self) (group self) v (children self).
Definition with_children (self : VoiceTarget_Target) (v : option bool) : VoiceTarget_Target :=
  mkVoiceTarget_Target (session self) (channel_id self) (group self) (links self) v.

Definition merge_field (self : VoiceTarget_Target) (field_number : Z) (wire_type : WireType) (input : list Z)
    : option (VoiceTarget_Target * list Z) :=
  match field_number with
  | 1 => into (read_repeated_uint32_into wire_type input (session self)) (with_session self)
  | 2 => scalar wire_type WireTypeVarint read_uint32 input (with_channel_id self)
  | 3 => into (read_singular_string_into wire_type input (group self)) (with_group self)
  | 4 => scalar wire_type WireTypeVarint read_bool input (with_links self)
  | 5 => scalar wire_type WireTypeVarint read_bool input (with_children self)
  | _ => unknown self field_number wire_type input
  end.

Definition merge_from : VoiceTarget_Target -> list Z -> option VoiceTarget_Target := merge_all merge_field.

Definition is_initialized (self : VoiceTarget_Target) : bool := true.

Definition compute_size (self : VoiceTarget_Target) : Z :=
  let my_size := 0 in
  let my_size := size_all (session self) (fun v => value_size 1 v WireTypeVarint) my_size in
  let my_size := size_opt (channel_id self) (fun v => value_size 2 v WireTypeVarint) my_size in
  let my_size := size_opt (group self) (fun v => string_size 3 v) my_size in
  let my_size := size_opt (links self) (fun _ => 2) my_size in
  let my_size := size_opt (children self) (fun _ => 2) my_size in
  my_size.

Definition write_to_with_cached_sizes (self : VoiceTarget_Target) : list Z :=
  let out := [] in
  let out := write_all (session self) (write_uint32 1) out in
  let out := write_opt (channel_id self) (write_uint32 2) out in
  let out := write_opt (group self) (write_string 3) out in
  let out := write_opt (links self) (write_bool 4) out in
  let out := write_opt (children self) (write_bool 5) out in
  out.

(** The fields are in the ranges of their Rust types. *)
Definition message_ok (self : VoiceTarget_Target) : Prop :=
  Forall u32 (session self)
  /\ opt_ok u32 (channel_id self)
  /\ opt_ok utf8 (group self)
  /\ opt_ok any_bool (links self)
  /\ opt_ok any_bool (children self).
End VoiceTarget_TargetCodec.
End VoiceTarget_TargetCodec.

(** *** [VoiceTarget] *)

Module VoiceTargetCodec.
Section VoiceTargetCodec.
Context `{Runtime}.
Import VoiceTargetMsg.

Definition new : VoiceTarget :=
  mkVoiceTarget None [].

Definition with_id (self : VoiceTarget) (v : option Z) : VoiceTarget :=
  mkVoiceTarget v (targets self).
Definition with_targets (self : VoiceTarget) (v : list VoiceTarget_TargetMsg.VoiceTarget_Target) : VoiceTarget :=
  mkVoiceTarget (id self) v.

Definition merge_field (self : VoiceTarget) (field_number : Z) (wire_type : WireType) (input : list Z)
    : option (VoiceTarget * list Z) :=
  match field_number with
  | 1 => scalar wire_type WireTypeVarint read_uint32 input (with_id self)
  | 2 => into (read_repeated_message_into VoiceTarget_TargetCodec.new VoiceTarget_TargetCodec.merge_from wire_type input (targets self)) (with_targets self)
  | _ => unknown self field_number wire_type input
  end.

Definition merge_from : VoiceTarget -> list Z -> option VoiceTarget := merge_all merge_field.

Definition is_initialized (self : VoiceTarget) : bool := all_initialized VoiceTarget_TargetCodec.is_initialized (targets self).

Definition compute_size (self : VoiceTarget) : Z :=
  let my_size := 0 in
  let my_size := size_opt (id self) (fun v => value_size 1 v WireTypeVarint) my_size in
  let my_size := size_all (targets self) (fun v => message_size (VoiceTarget_TargetCodec.compute_size v)) my_size in
  my_size.

Definition write_to_with_cached_sizes (self : VoiceTarget) : list Z :=
  let out := [] in
  let out := write_opt (id self) (write_uint32 1) out in
  let out := write_all (targets self) (fun v =>
    write_message 2 (VoiceTarget_TargetCodec.compute_size v) (VoiceTarget_TargetCodec.write_to_with_cached_sizes v)) out in
  out.

(** The fields are in the ranges of their Rust types. *)
Definition message_ok (self : VoiceTarget) : Prop :=
  opt_ok u32 (id self)
  /\ Forall VoiceTarget_TargetCodec.message_ok (targets self).
End VoiceTargetCodec.
End VoiceTargetCodec.

(** *** [PermissionQuery] *)

Module PermissionQueryCodec.
Section PermissionQueryCodec.
Context `{Runtime}.
Import PermissionQueryMsg.

Definition new : PermissionQuery :=
  mkPermissionQuery None None None.

Definition with_channel_id (self : PermissionQuery) (v : option Z) : PermissionQuery :=
  mkPermissionQuery v (permissions self) (flush self).
Definition with_permissions (self : PermissionQuery) (v : option Z) : PermissionQuery :=
  mkPermissionQuery (channel_id self) v (flush self).
Definition with_flush (self : PermissionQuery) (v : option bool) : PermissionQuery :=
  mkPermissionQuery (channel_id self) (permissions self) v.

Definition merge_field (self : PermissionQuery) (field_number : Z) (wire_type : WireType) (input : list Z)
    : option (PermissionQuery * list Z) :=
  match field_number with
  | 1 => scalar wire_type WireTypeVarint read_uint32 input (with_channel_id self)
  | 2 => scalar wire_type WireTypeVarint read_uint32 input (with_permissions self)
  | 3 => scalar wire_type WireTypeVarint read_bool input (with_flush self)
  | _ => unknown self field_number wire_type input
  end.

Definition merge_from : PermissionQuery -> list Z -> option PermissionQuery := merge_all merge_field.

Definition is_initialized (self : PermissionQuery) : bool := true.

Definition compute_size (self : PermissionQuery) : Z :=
  let my_size := 0 in
  let my_size := size_opt (channel_id self) (fun v => value_size 1 v WireTypeVarint) my_size in
  let my_size := size_opt (permissions self) (fun v => value_size 2 v WireTypeVarint) my_size in
  let my_size := size_opt (flush self) (fun _ => 2) my_size in
  my_size.

Definition write_to_with_cached_sizes (self : PermissionQuery) : list Z :=
  let out := [] in
  let out := write_opt (channel_id self) (write_uint32 1) out in
  let out := write_opt (permissions self) (write_uint32 2) out in
  let out := write_opt (flush self) (write_bool 3) out in
  out.

(** The fields are in the ranges of their Rust types. *)
Definition message_ok (self : PermissionQuery) : Prop :=
  opt_ok u32 (channel_id self)
  /\ opt_ok u32 (permissions self)
  /\ opt_ok any_bool (flush self).
End PermissionQueryCodec.
End PermissionQueryCodec.

(** *** [CodecVersion] *)

Module CodecVersionCodec.
Section CodecVersionCodec.
Context `{Runtime}.
Import CodecVersionMsg.

Definition new : CodecVersion :=
  mkCodecVersion None None None None.

Definition with_alpha (self : CodecVersion) (v : option Z) : CodecVersion :=
  mkCodecVersion v (beta self) (prefer_alpha self) (opus self).
Definition with_beta (self : CodecVersion) (v : option Z) : CodecVersion :=
  mkCodecVersion (alpha self) v (prefer_alpha self) (opus self).
Definition with_prefer_alpha (self : CodecVersion) (v : option bool) : CodecVersion :=
  mkCodecVersion (alpha self) (beta self) v (opus self).
Definition with_opus (self : CodecVersion) (v : option bool) : CodecVersion :=
  mkCodecVersion (alpha self) (beta self) (prefer_alpha self) v.

Definition merge_field (self : CodecVersion) (field_number : Z) (wire_type : WireType) (input : list Z)
    : option (CodecVersion * list Z) :=
  match field_number with
  | 1 => scalar wire_type WireTypeVarint read_int32 input (with_alpha self)
  | 2 => scalar wire_type WireTypeVarint read_int32 input (with_beta self)
  | 3 => scalar wire_type WireTypeVarint read_bool input (with_prefer_alpha self)
  | 4 => scalar wire_type WireTypeVarint read_bool input (with_opus self)
  | _ => unknown self field_number wire_type input
  end.

Definition merge_from : CodecVersion -> list Z -> option CodecVersion := merge_all merge_field.

Definition is_initialized (self : CodecVersion) : bool := has (alpha self) && has (beta self) && has (prefer_alpha self).

Definition compute_size (self : CodecVersion) : Z :=
  let my_size := 0 in
  let my_size := size_opt (alpha self) (fun v => value_size 1 v WireTypeVarint) my_size in
  let my_size := size_opt (beta self) (fun v => value_size 2 v WireTypeVarint) my_size in
  let my_size := size_opt (prefer_alpha self) (fun _ => 2) my_size in
  let my_size := size_opt (opus self) (fun _ => 2) my_size in
  my_size.

Definition write_to_with_cached_sizes (self : CodecVersion) : list Z :=
  let out := [] in
  let out := write_opt (alpha self) (write_int32 1) out in
  let out := write_opt (beta self) (write_int32 2) out in
  let out := write_opt (prefer_alpha self) (write_bool 3) out in
  let out := write_opt (opus self) (write_bool 4) out in
  out.

(** The fields are in the ranges of their Rust types. *)
Definition message_ok (self : CodecVersion) : Prop :=
  opt_ok i32 (alpha self)
  /\ opt_ok i32 (beta self)
  /\ opt_ok any_bool (prefer_alpha self)
  /\ opt_ok any_bool (opus self).
End CodecVersionCodec.
End CodecVersionCodec.

(** *** [UserStats_Stats] *)

Module UserStats_StatsCodec.
Section UserStats_StatsCodec.
Context `{Runtime}.
Import UserStats_StatsMsg.

Definition new : UserStats_Stats :=
  mkUserStats_Stats None None None None.

Definition with_good (self : UserStats_Stats) (v : option Z) : UserStats_Stats :=
  mkUserStats_Stats v (late self) (lost self) (resync self).
Definition with_late (self : UserStats_Stats) (v : option Z) : UserStats_Stats :=
  mkUserStats_Stats (good self) v (lost self) (resync self).
Definition with_lost (self : UserStats_Stats) (v : option Z) : UserStats_Stats :=
  mkUserStats_Stats (good self) (late self) v (resync self).
Definition with_resync (self : UserStats_Stats) (v : option Z) : UserStats_Stats :=
  mkUserStats_Stats (good self) (late self) (lost self) v.

Definition merge_field (self : UserStats_Stats) (field_number : Z) (wire_type : WireType) (input : list Z)
    : option (UserStats_Stats * list Z) :=
  match field_number with
  | 1 => scalar wire_type WireTypeVarint read_uint32 input (with_good self)
  | 2 => scalar wire_type WireTypeVarint read_uint32 input (with_late self)
  | 3 => scalar wire_type WireTypeVarint read_uint32 input (with_lost self)
  | 4 => scalar wire_type WireTypeVarint read_uint32 input (with_resync self)
  | _ => unknown self field_number wire_type input
  end.

Definition merge_from : UserStats_Stats -> list Z -> option UserStats_Stats := merge_all merge_field.

Definition is_initialized (self : UserStats_Stats) : bool := true.

Definition compute_size (self : UserStats_Stats) : Z :=
  let my_size := 0 in
  let my_size := size_opt (good self) (fun v => value_size 1 v WireTypeVarint) my_size in
  let my_size := size_opt (late self) (fun v => value_size 2 v WireTypeVarint) my_size in
  let my_size := size_opt (lost self) (fun v => value_size 3 v WireTypeVarint) my_size in
  let my_size := size_opt (resync self) (fun v => value_size 4 v WireTypeVarint) my_size in
  my_size.

Definition write_to_with_cached_sizes (self : UserStats_Stats) : list Z :=
  let out := [] in
  let out := write_opt (good self) (write_uint32 1) out in
  let out := write_opt (late self) (write_uint32 2) out in
  let out := write_opt (lost self) (write_uint32 3) out in
  let out := write_opt (resync self) (write_uint32 4) out in
  out.

(** The fields are in the ranges of their Rust types. *)
Definition message_ok (self : UserStats_Stats) : Prop :=
  opt_ok u32 (good self)
  /\ opt_ok u32 (late self)
  /\ opt_ok u32 (lost self)
  /\ opt_ok u32 (resync self).
End UserStats_StatsCodec.
End UserStats_StatsCodec.

(** *** [UserStats] *)

Module UserStatsCodec.
Section UserStatsCodec.
Context `{Runtime}.
Import UserStatsMsg.

Definition new : UserStats :=
  mkUserStats None None [] None None None None None None None None None [] None None None None None None.

Definition with_session (self : UserStats) (v : option Z) : UserStats :=
  mkUserStats v (stats_only self) (certificates self) (from_client self) (from_server self)
    (udp_packets self) (tcp_packets self) (udp_ping_avg self) (udp_ping_var self) (tcp_ping_avg self)
    (tcp_ping_var self) (version self) (celt_versions self) (address self) (bandwidth self)
    (onlinesecs self) (idlesecs self) (strong_certificate self) (opus self).
Definition with_stats_only (self : UserStats) (v : option bool) : UserStats :=
  mkUserStats (session self) v (certificates self) (from_client self) (from_server self)
    (udp_packets self) (tcp_packets self) (udp_ping_avg self) (udp_ping_var self) (tcp_ping_avg self)
    (tcp_ping_var self) (version self) (celt_versions self) (address self) (bandwidth self)
    (onlinesecs self) (idlesecs self) (strong_certificate self) (opus self).
Definition with_certificates (self : UserStats) (v : list (list Z)) : UserStats :=
  mkUserStats (session self) (stats_only self) v (from_client self) (from_server self)
    (udp_packets self) (tcp_packets self) (udp_ping_avg self) (udp_ping_var self) (tcp_ping_avg self)
    (tcp_ping_var self) (version self) (celt_versions self) (address self) (bandwidth self)
    (onlinesecs self) (idlesecs self) (strong_certificate self) (opus self).
Definition with_from_client (self : UserStats) (v : option UserStats_StatsMsg.UserStats_Stats) : UserStats :=
  mkUserStats (session self) (stats_only self) (certificates self) v (from_server self)
    (udp_packets self) (tcp_packets self) (udp_ping_avg self) (udp_ping_var self) (tcp_ping_avg self)
    (tcp_ping_var self) (version self) (celt_versions self) (address self) (bandwidth self)
    (onlinesecs self) (idlesecs self) (strong_certificate self) (opus self).
Definition with_from_server (self : UserStats) (v : option UserStats_StatsMsg.UserStats_Stats) : UserStats :=
  mkUserStats (session self) (stats_only self) (certificates self) (from_client self) v
    (udp_packets self) (tcp_packets self) (udp_ping_avg self) (udp_ping_var self) (tcp_ping_avg self)
    (tcp_ping_var self) (version self) (celt_versions self) (address self) (bandwidth self)
    (onlinesecs self) (idlesecs self) (strong_certificate self) (opus self).
Definition with_udp_packets (self : UserStats) (v : option Z) : UserStats :=
  mkUserStats (session self) (stats_only self) (certificates self) (from_client self) (from_server self)
    v (tcp_packets self) (udp_ping_avg self) (udp_ping_var self) (tcp_ping_avg self) (tcp_ping_var self)
    (version self) (celt_versions self) (address self) (bandwidth self) (onlinesecs self)
    (idlesecs self) (strong_certificate self) (opus self).
Definition with_tcp_packets (self : UserStats) (v : option Z) : UserStats :=
  mkUserStats (session self) (stats_only self) (certificates self) (from_client self) (from_server self)
    (udp_packets self) v (udp_ping_avg self) (udp_ping_var self) (tcp_ping_avg self) (tcp_ping_var self)
    (version self) (celt_versions self) (address self) (bandwidth self) (onlinesecs self)
    (idlesecs self) (strong_certificate self) (opus self).
Definition with_udp_ping_avg (self : UserStats) (v : option f32) : UserStats :=
  mkUserStats (session self) (stats_only self) (certificates self) (from_client self) (from_server self)
    (udp_packets self) (tcp_packets self) v (udp_ping_var self) (tcp_ping_avg self) (tcp_ping_var self)
    (version self) (celt_versions self) (address self) (bandwidth self) (onlinesecs self)
    (idlesecs self) (strong_certificate self) (opus self).
Definition with_udp_ping_var (self : UserStats) (v : option f32) : UserStats :=
  mkUserStats (session self) (stats_only self) (certificates self) (from_client self) (from_server self)
    (udp_packets self) (tcp_packets self) (udp_ping_avg self) v (tcp_ping_avg self) (tcp_ping_var self)
    (version self) (celt_versions self) (address self) (bandwidth self) (onlinesecs self)
    (idlesecs self) (strong_certificate self) (opus self).
Definition with_tcp_ping_avg (self : UserStats) (v : option f32) : UserStats :=
  mkUserStats (session self) (stats_only self) (certificates self) (from_client self) (from_server self)
    (udp_packets self) (tcp_packets self) (udp_ping_avg self) (udp_ping_var self) v (tcp_ping_var self)
    (version self) (celt_versions self) (address self) (bandwidth self) (onlinesecs self)
    (idlesecs self) (strong_certificate self) (opus self).
Definition with_tcp_ping_var (self : UserStats) (v : option f32) : UserStats :=
  mkUserStats (session self) (stats_only self) (certificates self) (from_client self) (from_server self)
    (udp_packets self) (tcp_packets self) (udp_ping_avg self) (udp_ping_var self) (tcp_ping_avg self) v
    (version self) (celt_versions self) (address self) (bandwidth self) (onlinesecs self)
    (idlesecs self) (strong_certificate self) (opus self).
Definition with_version (self : UserStats) (v : option VersionMsg.Version) : UserStats :=
  mkUserStats (session self) (stats_only self) (certificates self) (from_client self) (from_server self)
    (udp_packets self) (tcp_packets self) (udp_ping_avg self) (udp_ping_var self) (tcp_ping_avg self)
    (tcp_ping_var self) v (celt_versions self) (address self) (bandwidth self) (onlinesecs self)
    (idlesecs self) (strong_certificate self) (opus self).
Definition with_celt_versions (self : UserStats) (v : list Z) : UserStats :=
  mkUserStats (session self) (stats_only self) (certificates self) (from_client self) (from_server self)
    (udp_packets self) (tcp_packets self) (udp_ping_avg self) (udp_ping_var self) (tcp_ping_avg self)
    (tcp_ping_var self) (version self) v (address self) (bandwidth self) (onlinesecs self)
    (idlesecs self) (strong_certificate self) (opus self).
Definition with_address (self : UserStats) (v : option (list Z)) : UserStats :=
  mkUserStats (session self) (stats_only self) (certificates self) (from_client self) (from_server self)
    (udp_packets self) (tcp_packets self) (udp_ping_avg self) (udp_ping_var self) (tcp_ping_avg self)
    (tcp_ping_var self) (version self) (celt_versions self) v (bandwidth self) (onlinesecs self)
    (idlesecs self) (strong_certificate self) (opus self).
Definition with_bandwidth (self : UserStats) (v : option Z) : UserStats :=
  mkUserStats (session self) (stats_only self) (certificates self) (from_client self) (from_server self)
    (udp_packets self) (tcp_packets self) (udp_ping_avg self) (udp_ping_var self) (tcp_ping_avg self)
    (tcp_ping_var self) (version self) (celt_versions self) (address self) v (onlinesecs self)
    (idlesecs self) (strong_certificate self) (opus self).
Definition with_onlinesecs (self : UserStats) (v : option Z) : UserStats :=
  mkUserStats (session self) (stats_only self) (certificates self) (from_client self) (from_server self)
    (udp_packets self) (tcp_packets self) (udp_ping_avg self) (udp_ping_var self) (tcp_ping_avg self)
    (tcp_ping_var self) (version self) (celt_versions self) (address self) (bandwidth self) v
    (idlesecs self) (strong_certificate self) (opus self).
Definition with_idlesecs (self : UserStats) (v : option Z) : UserStats :=
  mkUserStats (session self) (stats_only self) (certificates self) (from_client self) (from_server self)
    (udp_packets self) (tcp_packets self) (udp_ping_avg self) (udp_ping_var self) (tcp_ping_avg self)
    (tcp_ping_var self) (version self) (celt_versions self) (address self) (bandwidth self)
    (onlinesecs self) v (strong_certificate self) (opus self).
Definition with_strong_certificate (self : UserStats) (v : option bool) : UserStats :=
  mkUserStats (session self) (stats_only self) (certificates self) (from_client self) (from_server self)
    (udp_packets self) (tcp_packets self) (udp_ping_avg self) (udp_ping_var self) (tcp_ping_avg self)
    (tcp_ping_var self) (version self) (celt_versions self) (address self) (bandwidth self)
    (onlinesecs self) (idlesecs self) v (opus self).
Definition with_opus (self : UserStats) (v : option bool) : UserStats :=
  mkUserStats (session self) (stats_only self) (certificates self) (from_client self) (from_server self)
    (udp_packets self) (tcp_packets self) (udp_ping_avg self) (udp_ping_var self) (tcp_ping_avg self)
    (tcp_ping_var self) (version self) (celt_versions self) (address self) (bandwidth self)
    (onlinesecs self) (idlesecs self) (strong_certificate self) v.

Definition merge_field (self : UserStats) (field_number : Z) (wire_type : WireType) (input : list Z)
    : option (UserStats * list Z) :=
  match field_number with
  | 1 => scalar wire_type WireTypeVarint read_uint32 input (with_session self)
  | 2 => scalar wire_type WireTypeVarint read_bool input (with_stats_only self)
  | 3 => into (read_repeated_bytes_into wire_type input (certificates self)) (with_certificates self)
  | 4 => into (read_singular_message_into UserStats_StatsCodec.new UserStats_StatsCodec.merge_from wire_type input (from_client self)) (with_from_client self)
  | 5 => into (read_singular_message_into UserStats_StatsCodec.new UserStats_StatsCodec.merge_from wire_type input (from_server self)) (with_from_server self)
  | 6 => scalar wire_type WireTypeVarint read_uint32 input (with_udp_packets self)
  | 7 => scalar wire_type WireTypeVarint read_uint32 input (with_tcp_packets self)
  | 8 => scalar wire_type WireTypeFixed32 read_float input (with_udp_ping_avg self)
  | 9 => scalar wire_type WireTypeFixed32 read_float input (with_udp_ping_var self)
  | 10 => scalar wire_type WireTypeFixed32 read_float input (with_tcp_ping_avg self)
  | 11 => scalar wire_type WireTypeFixed32 read_float input (with_tcp_ping_var self)
  | 12 => into (read_singular_message_into VersionCodec.new VersionCodec.merge_from wire_type input (version self)) (with_version self)
  | 13 => into (read_repeated_int32_into wire_type input (celt_versions self)) (with_celt_versions self)
  | 14 => into (read_singular_bytes_into wire_type input (address self)) (with_address self)
  | 15 => scalar wire_type WireTypeVarint read_uint32 input (with_bandwidth self)
  | 16 => scalar wire_type WireTypeVarint read_uint32 input (with_onlinesecs self)
  | 17 => scalar wire_type WireTypeVarint read_uint32 input (with_idlesecs self)
  | 18 => scalar wire_type WireTypeVarint read_bool input (with_strong_certificate self)
  | 19 => scalar wire_type WireTypeVarint read_bool input (with_opus self)
  | _ => unknown self field_number wire_type input
  end.

Definition merge_from : UserStats -> list Z -> option UserStats := merge_all merge_field.

Definition is_initialized (self : UserStats) : bool := opt_initialized UserStats_StatsCodec.is_initialized (from_client self) && opt_initialized UserStats_StatsCodec.is_initialized (from_server self) && opt_initialized VersionCodec.is_initialized (version self).

Definition compute_size (self : UserStats) : Z :=
  let my_size := 0 in
  let my_size := size_opt (session self) (fun v => value_size 1 v WireTypeVarint) my_size in
  let my_size := size_opt (stats_only self) (fun _ => 2) my_size in
  let my_size := size_all (certificates self) (fun v => bytes_size 3 v) my_size in
  let my_size := size_opt (from_client self) (fun v => message_size (UserStats_StatsCodec.compute_size v)) my_size in
  let my_size := size_opt (from_server self) (fun v => message_size (UserStats_StatsCodec.compute_size v)) my_size in
  let my_size := size_opt (udp_packets self) (fun v => value_size 6 v WireTypeVarint) my_size in
  let my_size := size_opt (tcp_packets self) (fun v => value_size 7 v WireTypeVarint) my_size in
  let my_size := size_opt (udp_ping_avg self) (fun _ => 5) my_size in
  let my_size := size_opt (udp_ping_var self) (fun _ => 5) my_size in
  let my_size := size_opt (tcp_ping_avg self) (fun _ => 5) my_size in
  let my_size := size_opt (tcp_ping_var self) (fun _ => 5) my_size in
  let my_size := size_opt (version self) (fun v => message_size (VersionCodec.compute_size v)) my_size in
  let my_size := size_all (celt_versions self) (fun v => value_size 13 v WireTypeVarint) my_size in
  let my_size := size_opt (address self) (fun v => bytes_size 14 v) my_size in
  let my_size := size_opt (bandwidth self) (fun v => value_size 15 v WireTypeVarint) my_size in
  let my_size := size_opt (onlinesecs self) (fun v => value_size 16 v WireTypeVarint) my_size in
  let my_size := size_opt (idlesecs self) (fun v => value_size 17 v WireTypeVarint) my_size in
  let my_size := size_opt (strong_certificate self) (fun _ => 3) my_size in
  let my_size := size_opt (opus self) (fun _ => 3) my_size in
  my_size.

Definition write_to_with_cached_sizes (self : UserStats) : list Z :=
  let out := [] in
  let out := write_opt (session self) (write_uint32 1) out in
  let out := write_opt (stats_only self) (write_bool 2) out in
  let out := write_all (certificates self) (write_bytes 3) out in
  let out := write_opt (from_client self) (fun v =>
    write_message 4 (UserStats_StatsCodec.compute_size v) (UserStats_StatsCodec.write_to_with_cached_sizes v)) out in
  let out := write_opt (from_server self) (fun v =>
    write_message 5 (UserStats_StatsCodec.compute_size v) (UserStats_StatsCodec.write_to_with_cached_sizes v)) out in
  let out := write_opt (udp_packets self) (write_uint32 6) out in
  let out := write_opt (tcp_packets self) (write_uint32 7) out in
  let out := write_opt (udp_ping_avg self) (write_float 8) out in
  let out := write_opt (udp_ping_var self) (write_float 9) out in
  let out := write_opt (tcp_ping_avg self) (write_float 10) out in
  let out := write_opt (tcp_ping_var self) (write_float 11) out in
  let out := write_opt (version self) (fun v =>
    write_message 12 (VersionCodec.compute_size v) (VersionCodec.write_to_with_cached_sizes v)) out in
  let out := write_all (celt_versions self) (write_int32 13) out in
  let out := write_opt (address self) (write_bytes 14) out in
  let out := write_opt (bandwidth self) (write_uint32 15) out in
  let out := write_opt (onlinesecs self) (write_uint32 16) out in
  let out := write_opt (idlesecs self) (write_uint32 17) out in
  let out := write_opt (strong_certificate self) (write_bool 18) out in
  let out := write_opt (opus self) (write_bool 19) out in
  out.

(** The fields are in the ranges of their Rust types. *)
Definition message_ok (self : UserStats) : Prop :=
  opt_ok u32 (session self)
  /\ opt_ok any_bool (stats_only self)
  /\ Forall byte_string (certificates self)
  /\ opt_ok UserStats_StatsCodec.message_ok (from_client self)
  /\ opt_ok UserStats_StatsCodec.message_ok (from_server self)
  /\ opt_ok u32 (udp_packets self)
  /\ opt_ok u32 (tcp_packets self)
  /\ opt_ok float32 (udp_ping_avg self)
  /\ opt_ok float32 (udp_ping_var self)
  /\ opt_ok float32 (tcp_ping_avg self)
  /\ opt_ok float32 (tcp_ping_var self)
  /\ opt_ok VersionCodec.message_ok (version self)
  /\ Forall i32 (celt_versions self)
  /\ opt_ok byte_string (address self)
  /\ opt_ok u32 (bandwidth self)
  /\ opt_ok u32 (onlinesecs self)
  /\ opt_ok u32 (idlesecs self)
  /\ opt_ok any_bool (strong_certificate self)
  /\ opt_ok any_bool (opus self).
End UserStatsCodec.
End UserStatsCodec.

(** *** [ServerConfig] *)

Module ServerConfigCodec.
Section ServerConfigCodec.
Context `{Runtime}.
Import ServerConfigMsg.

Definition new : ServerConfig :=
  mkServerConfig None None None None None None.

Definition with_max_bandwidth (self : ServerConfig) (v : option Z) : ServerConfig :=
  mkServerConfig v (welcome_text self) (allow_html self) (message_length self)
    (image_message_length self) (max_users self).
Definition with_welcome_text (self : ServerConfig) (v : option string) : ServerConfig :=
  mkServerConfig (max_bandwidth self) v (allow_html self) (message_length self)
    (image_message_length self) (max_users self).
Definition with_allow_html (self : ServerConfig) (v : option bool) : ServerConfig :=
  mkServerConfig (max_bandwidth self) (welcome_text self) v (message_length self)
    (image_message_length self) (max_users self).
Definition with_message_length (self : ServerConfig) (v : option Z) : ServerConfig :=
  mkServerConfig (max_bandwidth self) (welcome_text self) (allow_html self) v
    (image_message_length self) (max_users self).
Definition with_image_message_length (self : ServerConfig) (v : option Z) : ServerConfig :=
  mkServerConfig (max_bandwidth self) (welcome_text self) (allow_html self) (message_length self) v
    (max_users self).
Definition with_max_users (self : ServerConfig) (v : option Z) : ServerConfig :=
  mkServerConfig (max_bandwidth self) (welcome_text self) (allow_html self) (message_length self)
    (image_message_length self) v.

Definition merge_field (self : ServerConfig) (field_number : Z) (wire_type : WireType) (input : list Z)
    : option (ServerConfig * list Z) :=
  match field_number with
  | 1 => scalar wire_type WireTypeVarint read_uint32 input (with_max_bandwidth self)
  | 2 => into (read_singular_string_into wire_type input (welcome_text self)) (with_welcome_text self)
  | 3 => scalar wire_type WireTypeVarint read_bool input (with_allow_html self)
  | 4 => scalar wire_type WireTypeVarint read_uint32 input (with_message_length self)
  | 5 => scalar wire_type WireTypeVarint read_uint32 input (with_image_message_length self)
  | 6 => scalar wire_type WireTypeVarint read_uint32 input (with_max_users self)
  | _ => unknown self field_number wire_type input
  end.

Definition merge_from : ServerConfig -> list Z -> option ServerConfig := merge_all merge_field.

Definition is_initialized (self : ServerConfig) : bool := true.

Definition compute_size (self : ServerConfig) : Z :=
  let my_size := 0 in
  let my_size := size_opt (max_bandwidth self) (fun v => value_size 1 v WireTypeVarint) my_size in
  let my_size := size_opt (welcome_text self) (fun v => string_size 2 v) my_size in
  let my_size := size_opt (allow_html self) (fun _ => 2) my_size in
  let my_size := size_opt (message_length self) (fun v => value_size 4 v WireTypeVarint) my_size in
  let my_size := size_opt (image_message_length self) (fun v => value_size 5 v WireTypeVarint) my_size in
  let my_size := size_opt (max_users self) (fun v => value_size 6 v WireTypeVarint) my_size in
  my_size.

Definition write_to_with_cached_sizes (self : ServerConfig) : list Z :=
  let out := [] in
  let out := write_opt (max_bandwidth self) (write_uint32 1) out in
  let out := write_opt (welcome_text self) (write_string 2) out in
  let out := write_opt (allow_html self) (write_bool 3) out in
  let out := write_opt (message_length self) (write_uint32 4) out in
  let out := write_opt (image_message_length self) (write_uint32 5) out in
  let out := write_opt (max_users self) (write_uint32 6) out in
  out.

(** The fields are in the ranges of their Rust types. *)
Definition message_ok (self : ServerConfig) : Prop :=
  opt_ok u32 (max_bandwidth self)
  /\ opt_ok utf8 (welcome_text self)
  /\ opt_ok any_bool (allow_html self)
  /\ opt_ok u32 (message_length self)
  /\ opt_ok u32 (image_message_length self)
  /\ opt_ok u32 (max_users self).
End ServerConfigCodec.
End ServerConfigCodec.
