(* ===== verification/CodecRest.v ===== *)
(** The generated code of [src/src/proto/mumble.rs] for the messages of the protocol that the server neither reads nor
    sends: the same functions as in [Codec.v], and the enumerations with their numbers. *)

From stdpp Require Import base list option strings.
From Stdlib Require Import ZArith Lia.
From S2P Require Import Prelude Float32 Messages Wire Codec.

(** *** [Reject_RejectType] *)

Module Reject_RejectTypeCode.
Import Reject_RejectType.

Definition value (self : Reject_RejectType) : Z :=
  match self with
  | None => 0
  | WrongVersion => 1
  | InvalidUsername => 2
  | WrongUserPW => 3
  | WrongServerPW => 4
  | UsernameInUse => 5
  | ServerFull => 6
  | NoCertificate => 7
  | AuthenticatorFail => 8
  end.

Definition from_i32 (value : Z) : option Reject_RejectType :=
  match value with
  | 0 => Some None
  | 1 => Some WrongVersion
  | 2 => Some InvalidUsername
  | 3 => Some WrongUserPW
  | 4 => Some WrongServerPW
  | 5 => Some UsernameInUse
  | 6 => Some ServerFull
  | 7 => Some NoCertificate
  | 8 => Some AuthenticatorFail
  | _ => Datatypes.None
  end.
End Reject_RejectTypeCode.

#[export] Instance reject_reject_type_enum : ProtobufEnum Reject_RejectType.Reject_RejectType := {|
  value := Reject_RejectTypeCode.value;
  from_i32 := Reject_RejectTypeCode.from_i32;
|}.

#[export] Instance reject_reject_type_enum_laws : ProtobufEnumLaws Reject_RejectType.Reject_RejectType.
Proof. split; intros []; unfold i32; (reflexivity || (vm_compute; split; congruence)). Qed.

(** *** [PermissionDenied_DenyType] *)

Module PermissionDenied_DenyTypeCode.
Import PermissionDenied_DenyType.

Definition value (self : PermissionDenied_DenyType) : Z :=
  match self with
  | Text => 0
  | Permission => 1
  | SuperUser => 2
  | ChannelName => 3
  | TextTooLong => 4
  | H9K => 5
  | TemporaryChannel => 6
  | MissingCertificate => 7
  | UserName => 8
  | ChannelFull => 9
  | NestingLimit => 10
  | ChannelCountLimit => 11
  | ChannelListenerLimit => 12
  | UserListenerLimit => 13
  end.

Definition from_i32 (value : Z) : option PermissionDenied_DenyType :=
  match value with
  | 0 => Some Text
  | 1 => Some Permission
  | 2 => Some SuperUser
  | 3 => Some ChannelName
  | 4 => Some TextTooLong
  | 5 => Some H9K
  | 6 => Some TemporaryChannel
  | 7 => Some MissingCertificate
  | 8 => Some UserName
  | 9 => Some ChannelFull
  | 10 => Some NestingLimit
  | 11 => Some ChannelCountLimit
  | 12 => Some ChannelListenerLimit
  | 13 => Some UserListenerLimit
  | _ => Datatypes.None
  end.
End PermissionDenied_DenyTypeCode.

#[export] Instance permission_denied_deny_type_enum : ProtobufEnum PermissionDenied_DenyType.PermissionDenied_DenyType := {|
  value := PermissionDenied_DenyTypeCode.value;
  from_i32 := PermissionDenied_DenyTypeCode.from_i32;
|}.

#[export] Instance permission_denied_deny_type_enum_laws : ProtobufEnumLaws PermissionDenied_DenyType.PermissionDenied_DenyType.
Proof. split; intros []; unfold i32; (reflexivity || (vm_compute; split; congruence)). Qed.

(** *** [ContextActionModify_Context] *)

Module ContextActionModify_ContextCode.
Import ContextActionModify_Context.

Definition value (self : ContextActionModify_Context) : Z :=
  match self with
  | Server => 1
  | Channel => 2
  | User => 4
  end.

Definition from_i32 (value : Z) : option ContextActionModify_Context :=
  match value with
  | 1 => Some Server
  | 2 => Some Channel
  | 4 => Some User
  | _ => Datatypes.None
  end.
End ContextActionModify_ContextCode.

#[export] Instance context_action_modify_context_enum : ProtobufEnum ContextActionModify_Context.ContextActionModify_Context := {|
  value := ContextActionModify_ContextCode.value;
  from_i32 := ContextActionModify_ContextCode.from_i32;
|}.

#[export] Instance context_action_modify_context_enum_laws : ProtobufEnumLaws ContextActionModify_Context.ContextActionModify_Context.
Proof. split; intros []; unfold i32; (reflexivity || (vm_compute; split; congruence)). Qed.

(** *** [ContextActionModify_Operation] *)

Module ContextActionModify_OperationCode.
Import ContextActionModify_Operation.

Definition value (self : ContextActionModify_Operation) : Z :=
  match self with
  | Add => 0
  | Remove => 1
  end.

Definition from_i32 (value : Z) : option ContextActionModify_Operation :=
  match value with
  | 0 => Some Add
  | 1 => Some Remove
  | _ => Datatypes.None
  end.
End ContextActionModify_OperationCode.

#[export] Instance context_action_modify_operation_enum : ProtobufEnum ContextActionModify_Operation.ContextActionModify_Operation := {|
  value := ContextActionModify_OperationCode.value;
  from_i32 := ContextActionModify_OperationCode.from_i32;
|}.

#[export] Instance context_action_modify_operation_enum_laws : ProtobufEnumLaws ContextActionModify_Operation.ContextActionModify_Operation.
Proof. split; intros []; unfold i32; (reflexivity || (vm_compute; split; congruence)). Qed.

(** *** [UDPTunnel] *)

Module UDPTunnelCodec.
Section UDPTunnelCodec.
Context `{Runtime}.
Import UDPTunnelMsg.

Definition new : UDPTunnel :=
  mkUDPTunnel None.

Definition with_packet (self : UDPTunnel) (v : option (list Z)) : UDPTunnel :=
  mkUDPTunnel v.

Definition merge_field (self : UDPTunnel) (field_number : Z) (wire_type : WireType) (input : list Z)
    : option (UDPTunnel * list Z) :=
  match field_number with
  | 1 => into (read_singular_bytes_into wire_type input (packet self)) (with_packet self)
  | _ => unknown self field_number wire_type input
  end.

Definition merge_from : UDPTunnel -> list Z -> option UDPTunnel := merge_all merge_field.

Definition is_initialized (self : UDPTunnel) : bool := has (packet self).

Definition compute_size (self : UDPTunnel) : Z :=
  let my_size := 0 in
  let my_size := size_opt (packet self) (fun v => bytes_size 1 v) my_size in
  my_size.

Definition write_to_with_cached_sizes (self : UDPTunnel) : list Z :=
  let out := [] in
  let out := write_opt (packet self) (write_bytes 1) out in
  out.

(** The fields are in the ranges of their Rust types. *)
Definition message_ok (self : UDPTunnel) : Prop :=
  opt_ok byte_string (packet self).
End UDPTunnelCodec.
End UDPTunnelCodec.

(** *** [Reject] *)

Module RejectCodec.
Section RejectCodec.
Context `{Runtime}.
Import RejectMsg.

Definition new : Reject :=
  mkReject None None.

Definition with_field_type (self : Reject) (v : option Reject_RejectType.Reject_RejectType) : Reject :=
  mkReject v (reason self).
Definition with_reason (self : Reject) (v : option string) : Reject :=
  mkReject (field_type self) v.

Definition merge_field (self : Reject) (field_number : Z) (wire_type : WireType) (input : list Z)
    : option (Reject * list Z) :=
  match field_number with
  | 1 => into (read_proto2_enum_with_unknown_fields_into wire_type input (field_type self) 1) (with_field_type self)
  | 2 => into (read_singular_string_into wire_type input (reason self)) (with_reason self)
  | _ => unknown self field_number wire_type input
  end.

Definition merge_from : Reject -> list Z -> option Reject := merge_all merge_field.

Definition is_initialized (self : Reject) : bool := true.

Definition compute_size (self : Reject) : Z :=
  let my_size := 0 in
  let my_size := size_opt (field_type self) (fun v => enum_size 1 v) my_size in
  let my_size := size_opt (reason self) (fun v => string_size 2 v) my_size in
  my_size.

Definition write_to_with_cached_sizes (self : Reject) : list Z :=
  let out := [] in
  let out := write_opt (field_type self) (fun v => write_enum 1 (value v)) out in
  let out := write_opt (reason self) (write_string 2) out in
  out.

(** The fields are in the ranges of their Rust types. *)
Definition message_ok (self : Reject) : Prop :=
  opt_ok any_variant (field_type self)
  /\ opt_ok utf8 (reason self).
End RejectCodec.
End RejectCodec.

(** *** [BanList_BanEntry] *)

Module BanList_BanEntryCodec.
Section BanList_BanEntryCodec.
Context `{Runtime}.
Import BanList_BanEntryMsg.

Definition new : BanList_BanEntry :=
  mkBanList_BanEntry None None None None None None None.

Definition with_address (self : BanList_BanEntry) (v : option (list Z)) : BanList_BanEntry :=
  mkBanList_BanEntry v (mask self) (name self) (hash self) (reason self) (start self) (duration self).
Definition with_mask (self : BanList_BanEntry) (v : option Z) : BanList_BanEntry :=
  mkBanList_BanEntry (address self) v (name self) (hash self) (reason self) (start self) (duration self).
Definition with_name (self : BanList_BanEntry) (v : option string) : BanList_BanEntry :=
  mkBanList_BanEntry (address self) (mask self) v (hash self) (reason self) (start self) (duration self).
Definition with_hash (self : BanList_BanEntry) (v : option string) : BanList_BanEntry :=
  mkBanList_BanEntry (address self) (mask self) (name self) v (reason self) (start self) (duration self).
Definition with_reason (self : BanList_BanEntry) (v : option string) : BanList_BanEntry :=
  mkBanList_BanEntry (address self) (mask self) (name self) (hash self) v (start self) (duration self).
Definition with_start (self : BanList_BanEntry) (v : option string) : BanList_BanEntry :=
  mkBanList_BanEntry (address self) (mask self) (name self) (hash self) (reason self) v (duration self).
Definition with_duration (self : BanList_BanEntry) (v : option Z) : BanList_BanEntry :=
  mkBanList_BanEntry (address self) (mask self) (name self) (hash self) (reason self) (start self) v.

Definition merge_field (self : BanList_BanEntry) (field_number : Z) (wire_type : WireType) (input : list Z)
    : option (BanList_BanEntry * list Z) :=
  match field_number with
  | 1 => into (read_singular_bytes_into wire_type input (address self)) (with_address self)
  | 2 => scalar wire_type WireTypeVarint read_uint32 input (with_mask self)
  | 3 => into (read_singular_string_into wire_type input (name self)) (with_name self)
  | 4 => into (read_singular_string_into wire_type input (hash self)) (with_hash self)
  | 5 => into (read_singular_string_into wire_type input (reason self)) (with_reason self)
  | 6 => into (read_singular_string_into wire_type input (start self)) (with_start self)
  | 7 => scalar wire_type WireTypeVarint read_uint32 input (with_duration self)
  | _ => unknown self field_number wire_type input
  end.

Definition merge_from : BanList_BanEntry -> list Z -> option BanList_BanEntry := merge_all merge_field.

Definition is_initialized (self : BanList_BanEntry) : bool := has (address self) && has (mask self).

Definition compute_size (self : BanList_BanEntry) : Z :=
  let my_size := 0 in
  let my_size := size_opt (address self) (fun v => bytes_size 1 v) my_size in
  let my_size := size_opt (mask self) (fun v => value_size 2 v WireTypeVarint) my_size in
  let my_size := size_opt (name self) (fun v => string_size 3 v) my_size in
  let my_size := size_opt (hash self) (fun v => string_size 4 v) my_size in
  let my_size := size_opt (reason self) (fun v => string_size 5 v) my_size in
  let my_size := size_opt (start self) (fun v => string_size 6 v) my_size in
  let my_size := size_opt (duration self) (fun v => value_size 7 v WireTypeVarint) my_size in
  my_size.

Definition write_to_with_cached_sizes (self : BanList_BanEntry) : list Z :=
  let out := [] in
  let out := write_opt (address self) (write_bytes 1) out in
  let out := write_opt (mask self) (write_uint32 2) out in
  let out := write_opt (name self) (write_string 3) out in
  let out := write_opt (hash self) (write_string 4) out in
  let out := write_opt (reason self) (write_string 5) out in
  let out := write_opt (start self) (write_string 6) out in
  let out := write_opt (duration self) (write_uint32 7) out in
  out.

(** The fields are in the ranges of their Rust types. *)
Definition message_ok (self : BanList_BanEntry) : Prop :=
  opt_ok byte_string (address self)
  /\ opt_ok u32 (mask self)
  /\ opt_ok utf8 (name self)
  /\ opt_ok utf8 (hash self)
  /\ opt_ok utf8 (reason self)
  /\ opt_ok utf8 (start self)
  /\ opt_ok u32 (duration self).
End BanList_BanEntryCodec.
End BanList_BanEntryCodec.

(** *** [BanList] *)

Module BanListCodec.
Section BanListCodec.
Context `{Runtime}.
Import BanListMsg.

Definition new : BanList :=
  mkBanList [] None.

Definition with_bans (self : BanList) (v : list BanList_BanEntryMsg.BanList_BanEntry) : BanList :=
  mkBanList v (query self).
Definition with_query (self : BanList) (v : option bool) : BanList :=
  mkBanList (bans self) v.

Definition merge_field (self : BanList) (field_number : Z) (wire_type : WireType) (input : list Z)
    : option (BanList * list Z) :=
  match field_number with
  | 1 => into (read_repeated_message_into BanList_BanEntryCodec.new BanList_BanEntryCodec.merge_from wire_type input (bans self)) (with_bans self)
  | 2 => scalar wire_type WireTypeVarint read_bool input (with_query self)
  | _ => unknown self field_number wire_type input
  end.

Definition merge_from : BanList -> list Z -> option BanList := merge_all merge_field.

Definition is_initialized (self : BanList) : bool := all_initialized BanList_BanEntryCodec.is_initialized (bans self).

Definition compute_size (self : BanList) : Z :=
  let my_size := 0 in
  let my_size := size_all (bans self) (fun v => message_size (BanList_BanEntryCodec.compute_size v)) my_size in
  let my_size := size_opt (query self) (fun _ => 2) my_size in
  my_size.

Definition write_to_with_cached_sizes (self : BanList) : list Z :=
  let out := [] in
  let out := write_all (bans self) (fun v =>
    write_message 1 (BanList_BanEntryCodec.compute_size v) (BanList_BanEntryCodec.write_to_with_cached_sizes v)) out in
  let out := write_opt (query self) (write_bool 2) out in
  out.

(** The fields are in the ranges of their Rust types. *)
Definition message_ok (self : BanList) : Prop :=
  Forall BanList_BanEntryCodec.message_ok (bans self)
  /\ opt_ok any_bool (query self).
End BanListCodec.
End BanListCodec.

(** *** [TextMessage] *)

Module TextMessageCodec.
Section TextMessageCodec.
Context `{Runtime}.
Import TextMessageMsg.

Definition new : TextMessage :=
  mkTextMessage None [] [] [] None.

Definition with_actor (self : TextMessage) (v : option Z) : TextMessage :=
  mkTextMessage v (session self) (channel_id self) (tree_id self) (message self).
Definition with_session (self : TextMessage) (v : list Z) : TextMessage :=
  mkTextMessage (actor self) v (channel_id self) (tree_id self) (message self).
Definition with_channel_id (self : TextMessage) (v : list Z) : TextMessage :=
  mkTextMessage (actor self) (session self) v (tree_id self) (message self).
Definition with_tree_id (self : TextMessage) (v : list Z) : TextMessage :=
  mkTextMessage (actor self) (session self) (channel_id self) v (message self).
Definition with_message (self : TextMessage) (v : option string) : TextMessage :=
  mkTextMessage (actor self) (session self) (channel_id self) (tree_id self) v.

Definition merge_field (self : TextMessage) (field_number : Z) (wire_type : WireType) (input : list Z)
    : option (TextMessage * list Z) :=
  match field_number with
  | 1 => scalar wire_type WireTypeVarint read_uint32 input (with_actor self)
  | 2 => into (read_repeated_uint32_into wire_type input (session self)) (with_session self)
  | 3 => into (read_repeated_uint32_into wire_type input (channel_id self)) (with_channel_id self)
  | 4 => into (read_repeated_uint32_into wire_type input (tree_id self)) (with_tree_id self)
  | 5 => into (read_singular_string_into wire_type input (message self)) (with_message self)
  | _ => unknown self field_number wire_type input
  end.

Definition merge_from : TextMessage -> list Z -> option TextMessage := merge_all merge_field.

Definition is_initialized (self : TextMessage) : bool := has (message self).

Definition compute_size (self : TextMessage) : Z :=
  let my_size := 0 in
  let my_size := size_opt (actor self) (fun v => value_size 1 v WireTypeVarint) my_size in
  let my_size := size_all (session self) (fun v => value_size 2 v WireTypeVarint) my_size in
  let my_size := size_all (channel_id self) (fun v => value_size 3 v WireTypeVarint) my_size in
  let my_size := size_all (tree_id self) (fun v => value_size 4 v WireTypeVarint) my_size in
  let my_size := size_opt (message self) (fun v => string_size 5 v) my_size in
  my_size.

Definition write_to_with_cached_sizes (self : TextMessage) : list Z :=
  let out := [] in
  let out := write_opt (actor self) (write_uint32 1) out in
  let out := write_all (session self) (write_uint32 2) out in
  let out := write_all (channel_id self) (write_uint32 3) out in
  let out := write_all (tree_id self) (write_uint32 4) out in
  let out := write_opt (message self) (write_string 5) out in
  out.

(** The fields are in the ranges of their Rust types. *)
Definition message_ok (self : TextMessage) : Prop :=
  opt_ok u32 (actor self)
  /\ Forall u32 (session self)
  /\ Forall u32 (channel_id self)
  /\ Forall u32 (tree_id self)
  /\ opt_ok utf8 (message self).
End TextMessageCodec.
End TextMessageCodec.

(** *** [PermissionDenied] *)

Module PermissionDeniedCodec.
Section PermissionDeniedCodec.
Context `{Runtime}.
Import PermissionDeniedMsg.

Definition new : PermissionDenied :=
  mkPermissionDenied None None None None None None.

Definition with_permission (self : PermissionDenied) (v : option Z) : PermissionDenied :=
  mkPermissionDenied v (channel_id self) (session self) (reason self) (field_type self) (name self).
Definition with_channel_id (self : PermissionDenied) (v : option Z) : PermissionDenied :=
  mkPermissionDenied (permission self) v (session self) (reason self) (field_type self) (name self).
Definition with_session (self : PermissionDenied) (v : option Z) : PermissionDenied :=
  mkPermissionDenied (permission self) (channel_id self) v (reason self) (field_type self) (name self).
Definition with_reason (self : PermissionDenied) (v : option string) : PermissionDenied :=
  mkPermissionDenied (permission self) (channel_id self) (session self) v (field_type self) (name self).
Definition with_field_type (self : PermissionDenied) (v : option PermissionDenied_DenyType.PermissionDenied_DenyType) : PermissionDenied :=
  mkPermissionDenied (permission self) (channel_id self) (session self) (reason self) v (name self).
Definition with_name (self : PermissionDenied) (v : option string) : PermissionDenied :=
  mkPermissionDenied (permission self) (channel_id self) (session self) (reason self) (field_type self)
    v.

Definition merge_field (self : PermissionDenied) (field_number : Z) (wire_type : WireType) (input : list Z)
    : option (PermissionDenied * list Z) :=
  match field_number with
  | 1 => scalar wire_type WireTypeVarint read_uint32 input (with_permission self)
  | 2 => scalar wire_type WireTypeVarint read_uint32 input (with_channel_id self)
  | 3 => scalar wire_type WireTypeVarint read_uint32 input (with_session self)
  | 4 => into (read_singular_string_into wire_type input (reason self)) (with_reason self)
  | 5 => into (read_proto2_enum_with_unknown_fields_into wire_type input (field_type self) 5) (with_field_type self)
  | 6 => into (read_singular_string_into wire_type input (name self)) (with_name self)
  | _ => unknown self field_number wire_type input
  end.

Definition merge_from : PermissionDenied -> list Z -> option PermissionDenied := merge_all merge_field.

Definition is_initialized (self : PermissionDenied) : bool := true.

Definition compute_size (self : PermissionDenied) : Z :=
  let my_size := 0 in
  let my_size := size_opt (permission self) (fun v => value_size 1 v WireTypeVarint) my_size in
  let my_size := size_opt (channel_id self) (fun v => value_size 2 v WireTypeVarint) my_size in
  let my_size := size_opt (session self) (fun v => value_size 3 v WireTypeVarint) my_size in
  let my_size := size_opt (reason self) (fun v => string_size 4 v) my_size in
  let my_size := size_opt (field_type self) (fun v => enum_size 5 v) my_size in
  let my_size := size_opt (name self) (fun v => string_size 6 v) my_size in
  my_size.

Definition write_to_with_cached_sizes (self : PermissionDenied) : list Z :=
  let out := [] in
  let out := write_opt (permission self) (write_uint32 1) out in
  let out := write_opt (channel_id self) (write_uint32 2) out in
  let out := write_opt (session self) (write_uint32 3) out in
  let out := write_opt (reason self) (write_string 4) out in
  let out := write_opt (field_type self) (fun v => write_enum 5 (value v)) out in
  let out := write_opt (name self) (write_string 6) out in
  out.

(** The fields are in the ranges of their Rust types. *)
Definition message_ok (self : PermissionDenied) : Prop :=
  opt_ok u32 (permission self)
  /\ opt_ok u32 (channel_id self)
  /\ opt_ok u32 (session self)
  /\ opt_ok utf8 (reason self)
  /\ opt_ok any_variant (field_type self)
  /\ opt_ok utf8 (name self).
End PermissionDeniedCodec.
End PermissionDeniedCodec.

(** *** [ACL_ChanGroup] *)

Module ACL_ChanGroupCodec.
Section ACL_ChanGroupCodec.
Context `{Runtime}.
Import ACL_ChanGroupMsg.

Definition new : ACL_ChanGroup :=
  mkACL_ChanGroup None None None None [] [] [].

Definition with_name (self : ACL_ChanGroup) (v : option string) : ACL_ChanGroup :=
  mkACL_ChanGroup v (inherited self) (inherit self) (inheritable self) (add self) (remove self)
    (inherited_members self).
Definition with_inherited (self : ACL_ChanGroup) (v : option bool) : ACL_ChanGroup :=
  mkACL_ChanGroup (name self) v (inherit self) (inheritable self) (add self) (remove self)
    (inherited_members self).
Definition with_inherit (self : ACL_ChanGroup) (v : option bool) : ACL_ChanGroup :=
  mkACL_ChanGroup (name self) (inherited self) v (inheritable self) (add self) (remove self)
    (inherited_members self).
Definition with_inheritable (self : ACL_ChanGroup) (v : option bool) : ACL_ChanGroup :=
  mkACL_ChanGroup (name self) (inherited self) (inherit self) v (add self) (remove self)
    (inherited_members self).
Definition with_add (self : ACL_ChanGroup) (v : list Z) : ACL_ChanGroup :=
  mkACL_ChanGroup (name self) (inherited self) (inherit self) (inheritable self) v (remove self)
    (inherited_members self).
Definition with_remove (self : ACL_ChanGroup) (v : list Z) : ACL_ChanGroup :=
  mkACL_ChanGroup (name self) (inherited self) (inherit self) (inheritable self) (add self) v
    (inherited_members self).
Definition with_inherited_members (self : ACL_ChanGroup) (v : list Z) : ACL_ChanGroup :=
  mkACL_ChanGroup (name self) (inherited self) (inherit self) (inheritable self) (add self)
    (remove self) v.

Definition merge_field (self : ACL_ChanGroup) (field_number : Z) (wire_type : WireType) (input : list Z)
    : option (ACL_ChanGroup * list Z) :=
  match field_number with
  | 1 => into (read_singular_string_into wire_type input (name self)) (with_name self)
  | 2 => scalar wire_type WireTypeVarint read_bool input (with_inherited self)
  | 3 => scalar wire_type WireTypeVarint read_bool input (with_inherit self)
  | 4 => scalar wire_type WireTypeVarint read_bool input (with_inheritable self)
  | 5 => into (read_repeated_uint32_into wire_type input (add self)) (with_add self)
  | 6 => into (read_repeated_uint32_into wire_type input (remove self)) (with_remove self)
  | 7 => into (read_repeated_uint32_into wire_type input (inherited_members self)) (with_inherited_members self)
  | _ => unknown self field_number wire_type input
  end.

Definition merge_from : ACL_ChanGroup -> list Z -> option ACL_ChanGroup := merge_all merge_field.

Definition is_initialized (self : ACL_ChanGroup) : bool := has (name self).

Definition compute_size (self : ACL_ChanGroup) : Z :=
  let my_size := 0 in
  let my_size := size_opt (name self) (fun v => string_size 1 v) my_size in
  let my_size := size_opt (inherited self) (fun _ => 2) my_size in
  let my_size := size_opt (inherit self) (fun _ => 2) my_size in
  let my_size := size_opt (inheritable self) (fun _ => 2) my_size in
  let my_size := size_all (add self) (fun v => value_size 5 v WireTypeVarint) my_size in
  let my_size := size_all (remove self) (fun v => value_size 6 v WireTypeVarint) my_size in
  let my_size := size_all (inherited_members self) (fun v => value_size 7 v WireTypeVarint) my_size in
  my_size.

Definition write_to_with_cached_sizes (self : ACL_ChanGroup) : list Z :=
  let out := [] in
  let out := write_opt (name self) (write_string 1) out in
  let out := write_opt (inherited self) (write_bool 2) out in
  let out := write_opt (inherit self) (write_bool 3) out in
  let out := write_opt (inheritable self) (write_bool 4) out in
  let out := write_all (add self) (write_uint32 5) out in
  let out := write_all (remove self) (write_uint32 6) out in
  let out := write_all (inherited_members self) (write_uint32 7) out in
  out.

(** The fields are in the ranges of their Rust types. *)
Definition message_ok (self : ACL_ChanGroup) : Prop :=
  opt_ok utf8 (name self)
  /\ opt_ok any_bool (inherited self)
  /\ opt_ok any_bool (inherit self)
  /\ opt_ok any_bool (inheritable self)
  /\ Forall u32 (add self)
  /\ Forall u32 (remove self)
  /\ Forall u32 (inherited_members self).
End ACL_ChanGroupCodec.
End ACL_ChanGroupCodec.

(** *** [ACL_ChanACL] *)

Module ACL_ChanACLCodec.
Section ACL_ChanACLCodec.
Context `{Runtime}.
Import ACL_ChanACLMsg.

Definition new : ACL_ChanACL :=
  mkACL_ChanACL None None None None None None None.

Definition with_apply_here (self : ACL_ChanACL) (v : option bool) : ACL_ChanACL :=
  mkACL_ChanACL v (apply_subs self) (inherited self) (user_id self) (group self) (grant self)
    (deny self).
Definition with_apply_subs (self : ACL_ChanACL) (v : option bool) : ACL_ChanACL :=
  mkACL_ChanACL (apply_here self) v (inherited self) (user_id self) (group self) (grant self)
    (deny self).
Definition with_inherited (self : ACL_ChanACL) (v : option bool) : ACL_ChanACL :=
  mkACL_ChanACL (apply_here self) (apply_subs self) v (user_id self) (group self) (grant self)
    (deny self).
Definition with_user_id (self : ACL_ChanACL) (v : option Z) : ACL_ChanACL :=
  mkACL_ChanACL (apply_here self) (apply_subs self) (inherited self) v (group self) (grant self)
    (deny self).
Definition with_group (self : ACL_ChanACL) (v : option string) : ACL_ChanACL :=
  mkACL_ChanACL (apply_here self) (apply_subs self) (inherited self) (user_id self) v (grant self)
    (deny self).
Definition with_grant (self : ACL_ChanACL) (v : option Z) : ACL_ChanACL :=
  mkACL_ChanACL (apply_here self) (apply_subs self) (inherited self) (user_id self) (group self) v
    (deny self).
Definition with_deny (self : ACL_ChanACL) (v : option Z) : ACL_ChanACL :=
  mkACL_ChanACL (apply_here self) (apply_subs self) (inherited self) (user_id self) (group self)
    (grant self) v.

Definition merge_field (self : ACL_ChanACL) (field_number : Z) (wire_type : WireType) (input : list Z)
    : option (ACL_ChanACL * list Z) :=
  match field_number with
  | 1 => scalar wire_type WireTypeVarint read_bool input (with_apply_here self)
  | 2 => scalar wire_type WireTypeVarint read_bool input (with_apply_subs self)
  | 3 => scalar wire_type WireTypeVarint read_bool input (with_inherited self)
  | 4 => scalar wire_type WireTypeVarint read_uint32 input (with_user_id self)
  | 5 => into (read_singular_string_into wire_type input (group self)) (with_group self)
  | 6 => scalar wire_type WireTypeVarint read_uint32 input (with_grant self)
  | 7 => scalar wire_type WireTypeVarint read_uint32 input (with_deny self)
  | _ => unknown self field_number wire_type input
  end.

Definition merge_from : ACL_ChanACL -> list Z -> option ACL_ChanACL := merge_all merge_field.

Definition is_initialized (self : ACL_ChanACL) : bool := true.

Definition compute_size (self : ACL_ChanACL) : Z :=
  let my_size := 0 in
  let my_size := size_opt (apply_here self) (fun _ => 2) my_size in
  let my_size := size_opt (apply_subs self) (fun _ => 2) my_size in
  let my_size := size_opt (inherited self) (fun _ => 2) my_size in
  let my_size := size_opt (user_id self) (fun v => value_size 4 v WireTypeVarint) my_size in
  let my_size := size_opt (group self) (fun v => string_size 5 v) my_size in
  let my_size := size_opt (grant self) (fun v => value_size 6 v WireTypeVarint) my_size in
  let my_size := size_opt (deny self) (fun v => value_size 7 v WireTypeVarint) my_size in
  my_size.

Definition write_to_with_cached_sizes (self : ACL_ChanACL) : list Z :=
  let out := [] in
  let out := write_opt (apply_here self) (write_bool 1) out in
  let out := write_opt (apply_subs self) (write_bool 2) out in
  let out := write_opt (inherited self) (write_bool 3) out in
  let out := write_opt (user_id self) (write_uint32 4) out in
  let out := write_opt (group self) (write_string 5) out in
  let out := write_opt (grant self) (write_uint32 6) out in
  let out := write_opt (deny self) (write_uint32 7) out in
  out.

(** The fields are in the ranges of their Rust types. *)
Definition message_ok (self : ACL_ChanACL) : Prop :=
  opt_ok any_bool (apply_here self)
  /\ opt_ok any_bool (apply_subs self)
  /\ opt_ok any_bool (inherited self)
  /\ opt_ok u32 (user_id self)
  /\ opt_ok utf8 (group self)
  /\ opt_ok u32 (grant self)
  /\ opt_ok u32 (deny self).
End ACL_ChanACLCodec.
End ACL_ChanACLCodec.

(** *** [ACL] *)

Module ACLCodec.
Section ACLCodec.
Context `{Runtime}.
Import ACLMsg.

Definition new : ACL :=
  mkACL None None [] [] None.

Definition with_channel_id (self : ACL) (v : option Z) : ACL :=
  mkACL v (inherit_acls self) (groups self) (acls self) (query self).
Definition with_inherit_acls (self : ACL) (v : option bool) : ACL :=
  mkACL (channel_id self) v (groups self) (acls self) (query self).
Definition with_groups (self : ACL) (v : list ACL_ChanGroupMsg.ACL_ChanGroup) : ACL :=
  mkACL (channel_id self) (inherit_acls self) v (acls self) (query self).
Definition with_acls (self : ACL) (v : list ACL_ChanACLMsg.ACL_ChanACL) : ACL :=
  mkACL (channel_id self) (inherit_acls self) (groups self) v (query self).
Definition with_query (self : ACL) (v : option bool) : ACL :=
  mkACL (channel_id self) (inherit_acls self) (groups self) (acls self) v.

Definition merge_field (self : ACL) (field_number : Z) (wire_type : WireType) (input : list Z)
    : option (ACL * list Z) :=
  match field_number with
  | 1 => scalar wire_type WireTypeVarint read_uint32 input (with_channel_id self)
  | 2 => scalar wire_type WireTypeVarint read_bool input (with_inherit_acls self)
  | 3 => into (read_repeated_message_into ACL_ChanGroupCodec.new ACL_ChanGroupCodec.merge_from wire_type input (groups self)) (with_groups self)
  | 4 => into (read_repeated_message_into ACL_ChanACLCodec.new ACL_ChanACLCodec.merge_from wire_type input (acls self)) (with_acls self)
  | 5 => scalar wire_type WireTypeVarint read_bool input (with_query self)
  | _ => unknown self field_number wire_type input
  end.

Definition merge_from : ACL -> list Z -> option ACL := merge_all merge_field.

Definition is_initialized (self : ACL) : bool := has (channel_id self) && all_initialized ACL_ChanGroupCodec.is_initialized (groups self) && all_initialized ACL_ChanACLCodec.is_initialized (acls self).

Definition compute_size (self : ACL) : Z :=
  let my_size := 0 in
  let my_size := size_opt (channel_id self) (fun v => value_size 1 v WireTypeVarint) my_size in
  let my_size := size_opt (inherit_acls self) (fun _ => 2) my_size in
  let my_size := size_all (groups self) (fun v => message_size (ACL_ChanGroupCodec.compute_size v)) my_size in
  let my_size := size_all (acls self) (fun v => message_size (ACL_ChanACLCodec.compute_size v)) my_size in
  let my_size := size_opt (query self) (fun _ => 2) my_size in
  my_size.

Definition write_to_with_cached_sizes (self : ACL) : list Z :=
  let out := [] in
  let out := write_opt (channel_id self) (write_uint32 1) out in
  let out := write_opt (inherit_acls self) (write_bool 2) out in
  let out := write_all (groups self) (fun v =>
    write_message 3 (ACL_ChanGroupCodec.compute_size v) (ACL_ChanGroupCodec.write_to_with_cached_sizes v)) out in
  let out := write_all (acls self) (fun v =>
    write_message 4 (ACL_ChanACLCodec.compute_size v) (ACL_ChanACLCodec.write_to_with_cached_sizes v)) out in
  let out := write_opt (query self) (write_bool 5) out in
  out.

(** The fields are in the ranges of their Rust types. *)
Definition message_ok (self : ACL) : Prop :=
  opt_ok u32 (channel_id self)
  /\ opt_ok any_bool (inherit_acls self)
  /\ Forall ACL_ChanGroupCodec.message_ok (groups self)
  /\ Forall ACL_ChanACLCodec.message_ok (acls self)
  /\ opt_ok any_bool (query self).
End ACLCodec.
End ACLCodec.

(** *** [QueryUsers] *)

Module QueryUsersCodec.
Section QueryUsersCodec.
Context `{Runtime}.
Import QueryUsersMsg.

Definition new : QueryUsers :=
  mkQueryUsers [] [].

Definition with_ids (self : QueryUsers) (v : list Z) : QueryUsers :=
  mkQueryUsers v (names self).
Definition with_names (self : QueryUsers) (v : list string) : QueryUsers :=
  mkQueryUsers (ids self) v.

Definition merge_field (self : QueryUsers) (field_number : Z) (wire_type : WireType) (input : list Z)
    : option (QueryUsers * list Z) :=
  match field_number with
  | 1 => into (read_repeated_uint32_into wire_type input (ids self)) (with_ids self)
  | 2 => into (read_repeated_string_into wire_type input (names self)) (with_names self)
  | _ => unknown self field_number wire_type input
  end.

Definition merge_from : QueryUsers -> list Z -> option QueryUsers := merge_all merge_field.

Definition is_initialized (self : QueryUsers) : bool := true.

Definition compute_size (self : QueryUsers) : Z :=
  let my_size := 0 in
  let my_size := size_all (ids self) (fun v => value_size 1 v WireTypeVarint) my_size in
  let my_size := size_all (names self) (fun v => string_size 2 v) my_size in
  my_size.

Definition write_to_with_cached_sizes (self : QueryUsers) : list Z :=
  let out := [] in
  let out := write_all (ids self) (write_uint32 1) out in
  let out := write_all (names self) (write_string 2) out in
  out.

(** The fields are in the ranges of their Rust types. *)
Definition message_ok (self : QueryUsers) : Prop :=
  Forall u32 (ids self)
  /\ Forall utf8 (names self).
End QueryUsersCodec.
End QueryUsersCodec.

(** *** [ContextActionModify] *)

Module ContextActionModifyCodec.
Section ContextActionModifyCodec.
Context `{Runtime}.
Import ContextActionModifyMsg.

Definition new : ContextActionModify :=
  mkContextActionModify None None None None.

Definition with_action (self : ContextActionModify) (v : option string) : ContextActionModify :=
  mkContextActionModify v (text self) (context self) (operation self).
Definition with_text (self : ContextActionModify) (v : option string) : ContextActionModify :=
  mkContextActionModify (action self) v (context self) (operation self).
Definition with_context (self : ContextActionModify) (v : option Z) : ContextActionModify :=
  mkContextActionModify (action self) (text self) v (operation self).
Definition with_operation (self : ContextActionModify) (v : option ContextActionModify_Operation.ContextActionModify_Operation) : ContextActionModify :=
  mkContextActionModify (action self) (text self) (context self) v.

Definition merge_field (self : ContextActionModify) (field_number : Z) (wire_type : WireType) (input : list Z)
    : option (ContextActionModify * list Z) :=
  match field_number with
  | 1 => into (read_singular_string_into wire_type input (action self)) (with_action self)
  | 2 => into (read_singular_string_into wire_type input (text self)) (with_text self)
  | 3 => scalar wire_type WireTypeVarint read_uint32 input (with_context self)
  | 4 => into (read_proto2_enum_with_unknown_fields_into wire_type input (operation self) 4) (with_operation self)
  | _ => unknown self field_number wire_type input
  end.

Definition merge_from : ContextActionModify -> list Z -> option ContextActionModify := merge_all merge_field.

Definition is_initialized (self : ContextActionModify) : bool := has (action self).

Definition compute_size (self : ContextActionModify) : Z :=
  let my_size := 0 in
  let my_size := size_opt (action self) (fun v => string_size 1 v) my_size in
  let my_size := size_opt (text self) (fun v => string_size 2 v) my_size in
  let my_size := size_opt (context self) (fun v => value_size 3 v WireTypeVarint) my_size in
  let my_size := size_opt (operation self) (fun v => enum_size 4 v) my_size in
  my_size.

Definition write_to_with_cached_sizes (self : ContextActionModify) : list Z :=
  let out := [] in
  let out := write_opt (action self) (write_string 1) out in
  let out := write_opt (text self) (write_string 2) out in
  let out := write_opt (context self) (write_uint32 3) out in
  let out := write_opt (operation self) (fun v => write_enum 4 (value v)) out in
  out.

(** The fields are in the ranges of their Rust types. *)
Definition message_ok (self : ContextActionModify) : Prop :=
  opt_ok utf8 (action self)
  /\ opt_ok utf8 (text self)
  /\ opt_ok u32 (context self)
  /\ opt_ok any_variant (operation self).
End ContextActionModifyCodec.
End ContextActionModifyCodec.

(** *** [ContextAction] *)

Module ContextActionCodec.
Section ContextActionCodec.
Context `{Runtime}.
Import ContextActionMsg.

Definition new : ContextAction :=
  mkContextAction None None None.

Definition with_session (self : ContextAction) (v : option Z) : ContextAction :=
  mkContextAction v (channel_id self) (action self).
Definition with_channel_id (self : ContextAction) (v : option Z) : ContextAction :=
  mkContextAction (session self) v (action self).
Definition with_action (self : ContextAction) (v : option string) : ContextAction :=
  mkContextAction (session self) (channel_id self) v.

Definition merge_field (self : ContextAction) (field_number : Z) (wire_type : WireType) (input : list Z)
    : option (ContextAction * list Z) :=
  match field_number with
  | 1 => scalar wire_type WireTypeVarint read_uint32 input (with_session self)
  | 2 => scalar wire_type WireTypeVarint read_uint32 input (with_channel_id self)
  | 3 => into (read_singular_string_into wire_type input (action self)) (with_action self)
  | _ => unknown self field_number wire_type input
  end.

Definition merge_from : ContextAction -> list Z -> option ContextAction := merge_all merge_field.

Definition is_initialized (self : ContextAction) : bool := has (action self).

Definition compute_size (self : ContextAction) : Z :=
  let my_size := 0 in
  let my_size := size_opt (session self) (fun v => value_size 1 v WireTypeVarint) my_size in
  let my_size := size_opt (channel_id self) (fun v => value_size 2 v WireTypeVarint) my_size in
  let my_size := size_opt (action self) (fun v => string_size 3 v) my_size in
  my_size.

Definition write_to_with_cached_sizes (self : ContextAction) : list Z :=
  let out := [] in
  let out := write_opt (session self) (write_uint32 1) out in
  let out := write_opt (channel_id self) (write_uint32 2) out in
  let out := write_opt (action self) (write_string 3) out in
  out.

(** The fields are in the ranges of their Rust types. *)
Definition message_ok (self : ContextAction) : Prop :=
  opt_ok u32 (session self)
  /\ opt_ok u32 (channel_id self)
  /\ opt_ok utf8 (action self).
End ContextActionCodec.
End ContextActionCodec.

(** *** [UserList_User] *)

Module UserList_UserCodec.
Section UserList_UserCodec.
Context `{Runtime}.
Import UserList_UserMsg.

Definition new : UserList_User :=
  mkUserList_User None None None None.

Definition with_user_id (self : UserList_User) (v : option Z) : UserList_User :=
  mkUserList_User v (name self) (last_seen self) (last_channel self).
Definition with_name (self : UserList_User) (v : option string) : UserList_User :=
  mkUserList_User (user_id self) v (last_seen self) (last_channel self).
Definition with_last_seen (self : UserList_User) (v : option string) : UserList_User :=
  mkUserList_User (user_id self) (name self) v (last_channel self).
Definition with_last_channel (self : UserList_User) (v : option Z) : UserList_User :=
  mkUserList_User (user_id self) (name self) (last_seen self) v.

Definition merge_field (self : UserList_User) (field_number : Z) (wire_type : WireType) (input : list Z)
    : option (UserList_User * list Z) :=
  match field_number with
  | 1 => scalar wire_type WireTypeVarint read_uint32 input (with_user_id self)
  | 2 => into (read_singular_string_into wire_type input (name self)) (with_name self)
  | 3 => into (read_singular_string_into wire_type input (last_seen self)) (with_last_seen self)
  | 4 => scalar wire_type WireTypeVarint read_uint32 input (with_last_channel self)
  | _ => unknown self field_number wire_type input
  end.

Definition merge_from : UserList_User -> list Z -> option UserList_User := merge_all merge_field.

Definition is_initialized (self : UserList_User) : bool := has (user_id self).

Definition compute_size (self : UserList_User) : Z :=
  let my_size := 0 in
  let my_size := size_opt (user_id self) (fun v => value_size 1 v WireTypeVarint) my_size in
  let my_size := size_opt (name self) (fun v => string_size 2 v) my_size in
  let my_size := size_opt (last_seen self) (fun v => string_size 3 v) my_size in
  let my_size := size_opt (last_channel self) (fun v => value_size 4 v WireTypeVarint) my_size in
  my_size.

Definition write_to_with_cached_sizes (self : UserList_User) : list Z :=
  let out := [] in
  let out := write_opt (user_id self) (write_uint32 1) out in
  let out := write_opt (name self) (write_string 2) out in
  let out := write_opt (last_seen self) (write_string 3) out in
  let out := write_opt (last_channel self) (write_uint32 4) out in
  out.

(** The fields are in the ranges of their Rust types. *)
Definition message_ok (self : UserList_User) : Prop :=
  opt_ok u32 (user_id self)
  /\ opt_ok utf8 (name self)
  /\ opt_ok utf8 (last_seen self)
  /\ opt_ok u32 (last_channel self).
End UserList_UserCodec.
End UserList_UserCodec.

(** *** [UserList] *)

Module UserListCodec.
Section UserListCodec.
Context `{Runtime}.
Import UserListMsg.

Definition new : UserList :=
  mkUserList [].

Definition with_users (self : UserList) (v : list UserList_UserMsg.UserList_User) : UserList :=
  mkUserList v.

Definition merge_field (self : UserList) (field_number : Z) (wire_type : WireType) (input : list Z)
    : option (UserList * list Z) :=
  match field_number with
  | 1 => into (read_repeated_message_into UserList_UserCodec.new UserList_UserCodec.merge_from wire_type input (users self)) (with_users self)
  | _ => unknown self field_number wire_type input
  end.

Definition merge_from : UserList -> list Z -> option UserList := merge_all merge_field.

Definition is_initialized (self : UserList) : bool := all_initialized UserList_UserCodec.is_initialized (users self).

Definition compute_size (self : UserList) : Z :=
  let my_size := 0 in
  let my_size := size_all (users self) (fun v => message_size (UserList_UserCodec.compute_size v)) my_size in
  my_size.

Definition write_to_with_cached_sizes (self : UserList) : list Z :=
  let out := [] in
  let out := write_all (users self) (fun v =>
    write_message 1 (UserList_UserCodec.compute_size v) (UserList_UserCodec.write_to_with_cached_sizes v)) out in
  out.

(** The fields are in the ranges of their Rust types. *)
Definition message_ok (self : UserList) : Prop :=
  Forall UserList_UserCodec.message_ok (users self).
End UserListCodec.
End UserListCodec.

(** *** [RequestBlob] *)

Module RequestBlobCodec.
Section RequestBlobCodec.
Context `{Runtime}.
Import RequestBlobMsg.

Definition new : RequestBlob :=
  mkRequestBlob [] [] [].

Definition with_session_texture (self : RequestBlob) (v : list Z) : RequestBlob :=
  mkRequestBlob v (session_comment self) (channel_description self).
Definition with_session_comment (self : RequestBlob) (v : list Z) : RequestBlob :=
  mkRequestBlob (session_texture self) v (channel_description self).
Definition with_channel_description (self : RequestBlob) (v : list Z) : RequestBlob :=
  mkRequestBlob (session_texture self) (session_comment self) v.

Definition merge_field (self : RequestBlob) (field_number : Z) (wire_type : WireType) (input : list Z)
    : option (RequestBlob * list Z) :=
  match field_number with
  | 1 => into (read_repeated_uint32_into wire_type input (session_texture self)) (with_session_texture self)
  | 2 => into (read_repeated_uint32_into wire_type input (session_comment self)) (with_session_comment self)
  | 3 => into (read_repeated_uint32_into wire_type input (channel_description self)) (with_channel_description self)
  | _ => unknown self field_number wire_type input
  end.

Definition merge_from : RequestBlob -> list Z -> option RequestBlob := merge_all merge_field.

Definition is_initialized (self : RequestBlob) : bool := true.

Definition compute_size (self : RequestBlob) : Z :=
  let my_size := 0 in
  let my_size := size_all (session_texture self) (fun v => value_size 1 v WireTypeVarint) my_size in
  let my_size := size_all (session_comment self) (fun v => value_size 2 v WireTypeVarint) my_size in
  let my_size := size_all (channel_description self) (fun v => value_size 3 v WireTypeVarint) my_size in
  my_size.

Definition write_to_with_cached_sizes (self : RequestBlob) : list Z :=
  let out := [] in
  let out := write_all (session_texture self) (write_uint32 1) out in
  let out := write_all (session_comment self) (write_uint32 2) out in
  let out := write_all (channel_description self) (write_uint32 3) out in
  out.

(** The fields are in the ranges of their Rust types. *)
Definition message_ok (self : RequestBlob) : Prop :=
  Forall u32 (session_texture self)
  /\ Forall u32 (session_comment self)
  /\ Forall u32 (channel_description self).
End RequestBlobCodec.
End RequestBlobCodec.

(** *** [SuggestConfig] *)

Module SuggestConfigCodec.
Section SuggestConfigCodec.
Context `{Runtime}.
Import SuggestConfigMsg.

Definition new : SuggestConfig :=
  mkSuggestConfig None None None.

Definition with_version (self : SuggestConfig) (v : option Z) : SuggestConfig :=
  mkSuggestConfig v (positional self) (push_to_talk self).
Definition with_positional (self : SuggestConfig) (v : option bool) : SuggestConfig :=
  mkSuggestConfig (version self) v (push_to_talk self).
Definition with_push_to_talk (self : SuggestConfig) (v : option bool) : SuggestConfig :=
  mkSuggestConfig (version self) (positional self) v.

Definition merge_field (self : SuggestConfig) (field_number : Z) (wire_type : WireType) (input : list Z)
    : option (SuggestConfig * list Z) :=
  match field_number with
  | 1 => scalar wire_type WireTypeVarint read_uint32 input (with_version self)
  | 2 => scalar wire_type WireTypeVarint read_bool input (with_positional self)
  | 3 => scalar wire_type WireTypeVarint read_bool input (with_push_to_talk self)
  | _ => unknown self field_number wire_type input
  end.

Definition merge_from : SuggestConfig -> list Z -> option SuggestConfig := merge_all merge_field.

Definition is_initialized (self : SuggestConfig) : bool := true.

Definition compute_size (self : SuggestConfig) : Z :=
  let my_size := 0 in
  let my_size := size_opt (version self) (fun v => value_size 1 v WireTypeVarint) my_size in
  let my_size := size_opt (positional self) (fun _ => 2) my_size in
  let my_size := size_opt (push_to_talk self) (fun _ => 2) my_size in
  my_size.

Definition write_to_with_cached_sizes (self : SuggestConfig) : list Z :=
  let out := [] in
  let out := write_opt (version self) (write_uint32 1) out in
  let out := write_opt (positional self) (write_bool 2) out in
  let out := write_opt (push_to_talk self) (write_bool 3) out in
  out.

(** The fields are in the ranges of their Rust types. *)
Definition message_ok (self : SuggestConfig) : Prop :=
  opt_ok u32 (version self)
  /\ opt_ok any_bool (positional self)
  /\ opt_ok any_bool (push_to_talk self).
End SuggestConfigCodec.
End SuggestConfigCodec.
