(* ===== verification/Fields.v ===== *)
(** Fields of generated messages: what the accessor methods of [src/src/proto/mumble.rs] are made of, and what is observed through them. *)

From stdpp Require Import base list option strings.
From Stdlib Require Import ZArith.
From S2P Require Import Prelude Float32 Messages.

(** [Option::unwrap_or]. *)
Definition unwrap_or {A} (o : option A) (d : A) : A := match o with Some v => v | None => d end.

(** A mutable reference into a message: what it points to, and the message after a write through it. *)
Record Pointer (M V : Type) := pointer { pointee : V; store : V -> M }.
Arguments pointer {M V}.
Arguments pointee {M V}.
Arguments store {M V}.

(** ** Types and values of fields *)

Inductive EnumType := Reject_RejectType | PermissionDenied_DenyType | ContextActionModify_Operation.
Inductive MessageType := Version | UserStats_Stats | VoiceTarget_Target | BanList_BanEntry | ACL_ChanGroup | ACL_ChanACL | UserList_User.

(** [protobuf::types]. *)
Inductive ProtobufType :=
  | ProtobufTypeUint32 | ProtobufTypeUint64 | ProtobufTypeInt32 | ProtobufTypeBool | ProtobufTypeFloat
  | ProtobufTypeString | ProtobufTypeBytes
  | ProtobufTypeEnum (e : EnumType)
  | ProtobufTypeMessage (m : MessageType).

#[global] Instance ProtobufType_eq_dec : EqDecision ProtobufType.
Proof. assert (EqDecision EnumType) by solve_decision. assert (EqDecision MessageType) by solve_decision. solve_decision. Defined.

(** What a field can hold. *)
Inductive Value :=
  | Uint32 (v : Z) | Uint64 (v : Z) | Int32 (v : Z) | Bool (v : bool) | Float (v : f32) | Text (v : string) | Bytes (v : list Z)
  | RejectType (v : Reject_RejectType.Reject_RejectType)
  | DenyType (v : PermissionDenied_DenyType.PermissionDenied_DenyType)
  | Operation (v : ContextActionModify_Operation.ContextActionModify_Operation)
  | VersionV (v : VersionMsg.Version)
  | Stats (v : UserStats_StatsMsg.UserStats_Stats)
  | Target (v : VoiceTarget_TargetMsg.VoiceTarget_Target)
  | BanEntry (v : BanList_BanEntryMsg.BanList_BanEntry)
  | ChanGroup (v : ACL_ChanGroupMsg.ACL_ChanGroup)
  | ChanACL (v : ACL_ChanACLMsg.ACL_ChanACL)
  | User (v : UserList_UserMsg.UserList_User).

Definition type_of (v : Value) : ProtobufType :=
  match v with
  | Uint32 _ => ProtobufTypeUint32 | Uint64 _ => ProtobufTypeUint64 | Int32 _ => ProtobufTypeInt32
  | Bool _ => ProtobufTypeBool | Float _ => ProtobufTypeFloat | Text _ => ProtobufTypeString | Bytes _ => ProtobufTypeBytes
  | RejectType _ => ProtobufTypeEnum Reject_RejectType | DenyType _ => ProtobufTypeEnum PermissionDenied_DenyType
  | Operation _ => ProtobufTypeEnum ContextActionModify_Operation
  | VersionV _ => ProtobufTypeMessage Version | Stats _ => ProtobufTypeMessage UserStats_Stats
  | Target _ => ProtobufTypeMessage VoiceTarget_Target | BanEntry _ => ProtobufTypeMessage BanList_BanEntry
  | ChanGroup _ => ProtobufTypeMessage ACL_ChanGroup | ChanACL _ => ProtobufTypeMessage ACL_ChanACL
  | User _ => ProtobufTypeMessage UserList_User
  end.

(** ** Accessors *)

(** A field as the reflection of the protobuf crate sees it: its type, its name, and how to read and to write it whole. *)
Record FieldAccessor (M : Type) := mkFieldAccessor {
  fa_protobuf : ProtobufType;
  fa_name : string;
  fa_type : Type;
  fa_get : M -> fa_type;
  fa_mut : M -> fa_type -> M;
}.
Arguments mkFieldAccessor {M}.
Arguments fa_protobuf {M}.
Arguments fa_name {M}.
Arguments fa_type {M}.
Arguments fa_get {M}.
Arguments fa_mut {M}.

Definition make_option_accessor {M V} (t : ProtobufType) (name : string) (get : M -> option V) (put : M -> option V -> M) : FieldAccessor M :=
  mkFieldAccessor t name (option V) get put.
Definition make_singular_field_accessor {M V} (t : ProtobufType) (name : string) (get : M -> option V) (put : M -> option V -> M) : FieldAccessor M :=
  mkFieldAccessor t name (option V) get put.
Definition make_singular_ptr_field_accessor {M V} (t : ProtobufType) (name : string) (get : M -> option V) (put : M -> option V -> M) : FieldAccessor M :=
  mkFieldAccessor t name (option V) get put.
Definition make_vec_accessor {M V} (t : ProtobufType) (name : string) (get : M -> list V) (put : M -> list V -> M) : FieldAccessor M :=
  mkFieldAccessor t name (list V) get put.
Definition make_repeated_field_accessor {M V} (t : ProtobufType) (name : string) (get : M -> list V) (put : M -> list V -> M) : FieldAccessor M :=
  mkFieldAccessor t name (list V) get put.

(** The methods of a field: of a number or a flag, of a text, bytes or a message, of a repeated field.  [as_value] is the constructor
    of the values of its Rust type. *)
Inductive Accessor (M : Type) : Type :=
  | Optional {V : Type} (as_value : V -> Value) (get : M -> V) (has : M -> bool) (set : M -> V -> M) (clear : M -> M)
  | Singular {V : Type} (as_value : V -> Value) (get : M -> V) (has : M -> bool) (set : M -> V -> M) (clear : M -> M)
      (mut : M -> M * Pointer M V) (take : M -> V * M)
  | Repeated {V : Type} (as_value : V -> Value) (get : M -> list V) (set : M -> list V -> M) (clear : M -> M)
      (mut : M -> M * Pointer M (list V)) (take : M -> list V * M).
Arguments Optional {M V}.
Arguments Singular {M V}.
Arguments Repeated {M V}.

(** What the methods show of a field: the values it holds. *)
Definition view {M} (a : Accessor M) (m : M) : list Value :=
  match a with
  | Optional as_value get has _ _ | Singular as_value get has _ _ _ _ => if has m then [as_value (get m)] else []
  | Repeated as_value get _ _ _ _ => as_value <$> get m
  end.
