(* ===== verification/Accessors.v ===== *)
(** The accessors of the generated messages that the server exchanges ([src/src/proto/mumble.rs]): one definition per method of the
    [impl] block of a message, [clear], and the fields as [descriptor_static] lists them. *)

From stdpp Require Import base list option strings.
From Stdlib Require Import ZArith.
From S2P Require Import Prelude Float32 Messages Wire Codec Fields.

(** *** [Version] *)

Module VersionAccess.
Import VersionMsg VersionCodec.

Definition get_version (self : Version) : Z := unwrap_or (version self) 0.
Definition clear_version (self : Version) : Version := with_version self None.
Definition has_version (self : Version) : bool := has (version self).
Definition set_version (self : Version) (v : Z) : Version := with_version self (Some v).

Definition get_release (self : Version) : string := unwrap_or (release self) EmptyString.
Definition clear_release (self : Version) : Version := with_release self None.
Definition has_release (self : Version) : bool := has (release self).
Definition set_release (self : Version) (v : string) : Version := with_release self (Some v).
Definition mut_release (self : Version) : Version * Pointer Version string :=
  let self := if has (release self) then self else with_release self (Some EmptyString) in
  (self, pointer (unwrap_or (release self) EmptyString) (fun v => with_release self (Some v))).
Definition take_release (self : Version) : string * Version := (unwrap_or (release self) EmptyString, with_release self None).

Definition get_os (self : Version) : string := unwrap_or (os self) EmptyString.
Definition clear_os (self : Version) : Version := with_os self None.
Definition has_os (self : Version) : bool := has (os self).
Definition set_os (self : Version) (v : string) : Version := with_os self (Some v).
Definition mut_os (self : Version) : Version * Pointer Version string :=
  let self := if has (os self) then self else with_os self (Some EmptyString) in
  (self, pointer (unwrap_or (os self) EmptyString) (fun v => with_os self (Some v))).
Definition take_os (self : Version) : string * Version := (unwrap_or (os self) EmptyString, with_os self None).

Definition get_os_version (self : Version) : string := unwrap_or (os_version self) EmptyString.
Definition clear_os_version (self : Version) : Version := with_os_version self None.
Definition has_os_version (self : Version) : bool := has (os_version self).
Definition set_os_version (self : Version) (v : string) : Version := with_os_version self (Some v).
Definition mut_os_version (self : Version) : Version * Pointer Version string :=
  let self := if has (os_version self) then self else with_os_version self (Some EmptyString) in
  (self, pointer (unwrap_or (os_version self) EmptyString) (fun v => with_os_version self (Some v))).
Definition take_os_version (self : Version) : string * Version := (unwrap_or (os_version self) EmptyString, with_os_version self None).

Definition clear (self : Version) : Version :=
  let self := with_version self None in
  let self := with_release self None in
  let self := with_os self None in
  let self := with_os_version self None in
  self.

Definition descriptor_static : list (FieldAccessor Version) :=
  [make_option_accessor ProtobufTypeUint32 "version" version with_version;
   make_singular_field_accessor ProtobufTypeString "release" release with_release;
   make_singular_field_accessor ProtobufTypeString "os" os with_os;
   make_singular_field_accessor ProtobufTypeString "os_version" os_version with_os_version].

(** The accessors of the fields, in the order of the fields. *)
Definition accessors : list (Accessor Version) :=
  [Optional Uint32 get_version has_version set_version clear_version;
   Singular Text get_release has_release set_release clear_release mut_release take_release;
   Singular Text get_os has_os set_os clear_os mut_os take_os;
   Singular Text get_os_version has_os_version set_os_version clear_os_version mut_os_version take_os_version].
End VersionAccess.

(** *** [Authenticate] *)

Module AuthenticateAccess.
Import AuthenticateMsg AuthenticateCodec.

Definition get_username (self : Authenticate) : string := unwrap_or (username self) EmptyString.
Definition clear_username (self : Authenticate) : Authenticate := with_username self None.
Definition has_username (self : Authenticate) : bool := has (username self).
Definition set_username (self : Authenticate) (v : string) : Authenticate := with_username self (Some v).
Definition mut_username (self : Authenticate) : Authenticate * Pointer Authenticate string :=
  let self := if has (username self) then self else with_username self (Some EmptyString) in
  (self, pointer (unwrap_or (username self) EmptyString) (fun v => with_username self (Some v))).
Definition take_username (self : Authenticate) : string * Authenticate := (unwrap_or (username self) EmptyString, with_username self None).

Definition get_password (self : Authenticate) : string := unwrap_or (password self) EmptyString.
Definition clear_password (self : Authenticate) : Authenticate := with_password self None.
Definition has_password (self : Authenticate) : bool := has (password self).
Definition set_password (self : Authenticate) (v : string) : Authenticate := with_password self (Some v).
Definition mut_password (self : Authenticate) : Authenticate * Pointer Authenticate string :=
  let self := if has (password self) then self else with_password self (Some EmptyString) in
  (self, pointer (unwrap_or (password self) EmptyString) (fun v => with_password self (Some v))).
Definition take_password (self : Authenticate) : string * Authenticate := (unwrap_or (password self) EmptyString, with_password self None).

Definition get_tokens (self : Authenticate) : list string := tokens self.
Definition clear_tokens (self : Authenticate) : Authenticate := with_tokens self [].
Definition set_tokens (self : Authenticate) (v : list string) : Authenticate := with_tokens self v.
Definition mut_tokens (self : Authenticate) : Authenticate * Pointer Authenticate (list string) := (self, pointer (tokens self) (fun v => with_tokens self v)).
Definition take_tokens (self : Authenticate) : (list string) * Authenticate := (tokens self, with_tokens self []).

Definition get_celt_versions (self : Authenticate) : list Z := celt_versions self.
Definition clear_celt_versions (self : Authenticate) : Authenticate := with_celt_versions self [].
Definition set_celt_versions (self : Authenticate) (v : list Z) : Authenticate := with_celt_versions self v.
Definition mut_celt_versions (self : Authenticate) : Authenticate * Pointer Authenticate (list Z) := (self, pointer (celt_versions self) (fun v => with_celt_versions self v)).
Definition take_celt_versions (self : Authenticate) : (list Z) * Authenticate := (celt_versions self, with_celt_versions self []).

Definition get_opus (self : Authenticate) : bool := unwrap_or (opus self) false.
Definition clear_opus (self : Authenticate) : Authenticate := with_opus self None.
Definition has_opus (self : Authenticate) : bool := has (opus self).
Definition set_opus (self : Authenticate) (v : bool) : Authenticate := with_opus self (Some v).

Definition clear (self : Authenticate) : Authenticate :=
  let self := with_username self None in
  let self := with_password self None in
  let self := with_tokens self [] in
  let self := with_celt_versions self [] in
  let self := with_opus self None in
  self.

Definition descriptor_static : list (FieldAccessor Authenticate) :=
  [make_singular_field_accessor ProtobufTypeString "username" username with_username;
   make_singular_field_accessor ProtobufTypeString "password" password with_password;
   make_repeated_field_accessor ProtobufTypeString "tokens" tokens with_tokens;
   make_vec_accessor ProtobufTypeInt32 "celt_versions" celt_versions with_celt_versions;
   make_option_accessor ProtobufTypeBool "opus" opus with_opus].

(** The accessors of the fields, in the order of the fields. *)
Definition accessors : list (Accessor Authenticate) :=
  [Singular Text get_username has_username set_username clear_username mut_username take_username;
   Singular Text get_password has_password set_password clear_password mut_password take_password;
   Repeated Text get_tokens set_tokens clear_tokens mut_tokens take_tokens;
   Repeated Int32 get_celt_versions set_celt_versions clear_celt_versions mut_celt_versions take_celt_versions;
   Optional Bool get_opus has_opus set_opus clear_opus].
End AuthenticateAccess.

(** *** [Ping] *)

Module PingAccess.
Import PingMsg PingCodec.

Definition get_timestamp (self : Ping) : Z := unwrap_or (timestamp self) 0.
Definition clear_timestamp (self : Ping) : Ping := with_timestamp self None.
Definition has_timestamp (self : Ping) : bool := has (timestamp self).
Definition set_timestamp (self : Ping) (v : Z) : Ping := with_timestamp self (Some v).

Definition get_good (self : Ping) : Z := unwrap_or (good self) 0.
Definition clear_good (self : Ping) : Ping := with_good self None.
Definition has_good (self : Ping) : bool := has (good self).
Definition set_good (self : Ping) (v : Z) : Ping := with_good self (Some v).

Definition get_late (self : Ping) : Z := unwrap_or (late self) 0.
Definition clear_late (self : Ping) : Ping := with_late self None.
Definition has_late (self : Ping) : bool := has (late self).
Definition set_late (self : Ping) (v : Z) : Ping := with_late self (Some v).

Definition get_lost (self : Ping) : Z := unwrap_or (lost self) 0.
Definition clear_lost (self : Ping) : Ping := with_lost self None.
Definition has_lost (self : Ping) : bool := has (lost self).
Definition set_lost (self : Ping) (v : Z) : Ping := with_lost self (Some v).

Definition get_resync (self : Ping) : Z := unwrap_or (resync self) 0.
Definition clear_resync (self : Ping) : Ping := with_resync self None.
Definition has_resync (self : Ping) : bool := has (resync self).
Definition set_resync (self : Ping) (v : Z) : Ping := with_resync self (Some v).

Definition get_udp_packets (self : Ping) : Z := unwrap_or (udp_packets self) 0.
Definition clear_udp_packets (self : Ping) : Ping := with_udp_packets self None.
Definition has_udp_packets (self : Ping) : bool := has (udp_packets self).
Definition set_udp_packets (self : Ping) (v : Z) : Ping := with_udp_packets self (Some v).

Definition get_tcp_packets (self : Ping) : Z := unwrap_or (tcp_packets self) 0.
Definition clear_tcp_packets (self : Ping) : Ping := with_tcp_packets self None.
Definition has_tcp_packets (self : Ping) : bool := has (tcp_packets self).
Definition set_tcp_packets (self : Ping) (v : Z) : Ping := with_tcp_packets self (Some v).

Definition get_udp_ping_avg (self : Ping) : f32 := unwrap_or (udp_ping_avg self) f32_zero.
Definition clear_udp_ping_avg (self : Ping) : Ping := with_udp_ping_avg self None.
Definition has_udp_ping_avg (self : Ping) : bool := has (udp_ping_avg self).
Definition set_udp_ping_avg (self : Ping) (v : f32) : Ping := with_udp_ping_avg self (Some v).

Definition get_udp_ping_var (self : Ping) : f32 := unwrap_or (udp_ping_var self) f32_zero.
Definition clear_udp_ping_var (self : Ping) : Ping := with_udp_ping_var self None.
Definition has_udp_ping_var (self : Ping) : bool := has (udp_ping_var self).
Definition set_udp_ping_var (self : Ping) (v : f32) : Ping := with_udp_ping_var self (Some v).

Definition get_tcp_ping_avg (self : Ping) : f32 := unwrap_or (tcp_ping_avg self) f32_zero.
Definition clear_tcp_ping_avg (self : Ping) : Ping := with_tcp_ping_avg self None.
Definition has_tcp_ping_avg (self : Ping) : bool := has (tcp_ping_avg self).
Definition set_tcp_ping_avg (self : Ping) (v : f32) : Ping := with_tcp_ping_avg self (Some v).

Definition get_tcp_ping_var (self : Ping) : f32 := unwrap_or (tcp_ping_var self) f32_zero.
Definition clear_tcp_ping_var (self : Ping) : Ping := with_tcp_ping_var self None.
Definition has_tcp_ping_var (self : Ping) : bool := has (tcp_ping_var self).
Definition set_tcp_ping_var (self : Ping) (v : f32) : Ping := with_tcp_ping_var self (Some v).

Definition clear (self : Ping) : Ping :=
  let self := with_timestamp self None in
  let self := with_good self None in
  let self := with_late self None in
  let self := with_lost self None in
  let self := with_resync self None in
  let self := with_udp_packets self None in
  let self := with_tcp_packets self None in
  let self := with_udp_ping_avg self None in
  let self := with_udp_ping_var self None in
  let self := with_tcp_ping_avg self None in
  let self := with_tcp_ping_var self None in
  self.

Definition descriptor_static : list (FieldAccessor Ping) :=
  [make_option_accessor ProtobufTypeUint64 "timestamp" timestamp with_timestamp;
   make_option_accessor ProtobufTypeUint32 "good" good with_good;
   make_option_accessor ProtobufTypeUint32 "late" late with_late;
   make_option_accessor ProtobufTypeUint32 "lost" lost with_lost;
   make_option_accessor ProtobufTypeUint32 "resync" resync with_resync;
   make_option_accessor ProtobufTypeUint32 "udp_packets" udp_packets with_udp_packets;
   make_option_accessor ProtobufTypeUint32 "tcp_packets" tcp_packets with_tcp_packets;
   make_option_accessor ProtobufTypeFloat "udp_ping_avg" udp_ping_avg with_udp_ping_avg;
   make_option_accessor ProtobufTypeFloat "udp_ping_var" udp_ping_var with_udp_ping_var;
   make_option_accessor ProtobufTypeFloat "tcp_ping_avg" tcp_ping_avg with_tcp_ping_avg;
   make_option_accessor ProtobufTypeFloat "tcp_ping_var" tcp_ping_var with_tcp_ping_var].

(** The accessors of the fields, in the order of the fields. *)
Definition accessors : list (Accessor Ping) :=
  [Optional Uint64 get_timestamp has_timestamp set_timestamp clear_timestamp;
   Optional Uint32 get_good has_good set_good clear_good;
   Optional Uint32 get_late has_late set_late clear_late;
   Optional Uint32 get_lost has_lost set_lost clear_lost;
   Optional Uint32 get_resync has_resync set_resync clear_resync;
   Optional Uint32 get_udp_packets has_udp_packets set_udp_packets clear_udp_packets;
   Optional Uint32 get_tcp_packets has_tcp_packets set_tcp_packets clear_tcp_packets;
   Optional Float get_udp_ping_avg has_udp_ping_avg set_udp_ping_avg clear_udp_ping_avg;
   Optional Float get_udp_ping_var has_udp_ping_var set_udp_ping_var clear_udp_ping_var;
   Optional Float get_tcp_ping_avg has_tcp_ping_avg set_tcp_ping_avg clear_tcp_ping_avg;
   Optional Float get_tcp_ping_var has_tcp_ping_var set_tcp_ping_var clear_tcp_ping_var].
End PingAccess.

(** *** [ServerSync] *)

Module ServerSyncAccess.
Import ServerSyncMsg ServerSyncCodec.

Definition get_session (self : ServerSync) : Z := unwrap_or (session self) 0.
Definition clear_session (self : ServerSync) : ServerSync := with_session self None.
Definition has_session (self : ServerSync) : bool := has (session self).
Definition set_session (self : ServerSync) (v : Z) : ServerSync := with_session self (Some v).

Definition get_max_bandwidth (self : ServerSync) : Z := unwrap_or (max_bandwidth self) 0.
Definition clear_max_bandwidth (self : ServerSync) : ServerSync := with_max_bandwidth self None.
Definition has_max_bandwidth (self : ServerSync) : bool := has (max_bandwidth self).
Definition set_max_bandwidth (self : ServerSync) (v : Z) : ServerSync := with_max_bandwidth self (Some v).

Definition get_welcome_text (self : ServerSync) : string := unwrap_or (welcome_text self) EmptyString.
Definition clear_welcome_text (self : ServerSync) : ServerSync := with_welcome_text self None.
Definition has_welcome_text (self : ServerSync) : bool := has (welcome_text self).
Definition set_welcome_text (self : ServerSync) (v : string) : ServerSync := with_welcome_text self (Some v).
Definition mut_welcome_text (self : ServerSync) : ServerSync * Pointer ServerSync string :=
  let self := if has (welcome_text self) then self else with_welcome_text self (Some EmptyString) in
  (self, pointer (unwrap_or (welcome_text self) EmptyString) (fun v => with_welcome_text self (Some v))).
Definition take_welcome_text (self : ServerSync) : string * ServerSync := (unwrap_or (welcome_text self) EmptyString, with_welcome_text self None).

Definition get_permissions (self : ServerSync) : Z := unwrap_or (permissions self) 0.
Definition clear_permissions (self : ServerSync) : ServerSync := with_permissions self None.
Definition has_permissions (self : ServerSync) : bool := has (permissions self).
Definition set_permissions (self : ServerSync) (v : Z) : ServerSync := with_permissions self (Some v).

Definition clear (self : ServerSync) : ServerSync :=
  let self := with_session self None in
  let self := with_max_bandwidth self None in
  let self := with_welcome_text self None in
  let self := with_permissions self None in
  self.

Definition descriptor_static : list (FieldAccessor ServerSync) :=
  [make_option_accessor ProtobufTypeUint32 "session" session with_session;
   make_option_accessor ProtobufTypeUint32 "max_bandwidth" max_bandwidth with_max_bandwidth;
   make_singular_field_accessor ProtobufTypeString "welcome_text" welcome_text with_welcome_text;
   make_option_accessor ProtobufTypeUint64 "permissions" permissions with_permissions].

(** The accessors of the fields, in the order of the fields. *)
Definition accessors : list (Accessor ServerSync) :=
  [Optional Uint32 get_session has_session set_session clear_session;
   Optional Uint32 get_max_bandwidth has_max_bandwidth set_max_bandwidth clear_max_bandwidth;
   Singular Text get_welcome_text has_welcome_text set_welcome_text clear_welcome_text mut_welcome_text take_welcome_text;
   Optional Uint64 get_permissions has_permissions set_permissions clear_permissions].
End ServerSyncAccess.

(** *** [ChannelRemove] *)

Module ChannelRemoveAccess.
Import ChannelRemoveMsg ChannelRemoveCodec.

Definition get_channel_id (self : ChannelRemove) : Z := unwrap_or (channel_id self) 0.
Definition clear_channel_id (self : ChannelRemove) : ChannelRemove := with_channel_id self None.
Definition has_channel_id (self : ChannelRemove) : bool := has (channel_id self).
Definition set_channel_id (self : ChannelRemove) (v : Z) : ChannelRemove := with_channel_id self (Some v).

Definition clear (self : ChannelRemove) : ChannelRemove :=
  let self := with_channel_id self None in
  self.

Definition descriptor_static : list (FieldAccessor ChannelRemove) :=
  [make_option_accessor ProtobufTypeUint32 "channel_id" channel_id with_channel_id].

(** The accessors of the fields, in the order of the fields. *)
Definition accessors : list (Accessor ChannelRemove) :=
  [Optional Uint32 get_channel_id has_channel_id set_channel_id clear_channel_id].
End ChannelRemoveAccess.

(** *** [ChannelState] *)

Module ChannelStateAccess.
Import ChannelStateMsg ChannelStateCodec.

Definition get_channel_id (self : ChannelState) : Z := unwrap_or (channel_id self) 0.
Definition clear_channel_id (self : ChannelState) : ChannelState := with_channel_id self None.
Definition has_channel_id (self : ChannelState) : bool := has (channel_id self).
Definition set_channel_id (self : ChannelState) (v : Z) : ChannelState := with_channel_id self (Some v).

Definition get_parent (self : ChannelState) : Z := unwrap_or (parent self) 0.
Definition clear_parent (self : ChannelState) : ChannelState := with_parent self None.
Definition has_parent (self : ChannelState) : bool := has (parent self).
Definition set_parent (self : ChannelState) (v : Z) : ChannelState := with_parent self (Some v).

Definition get_name (self : ChannelState) : string := unwrap_or (name self) EmptyString.
Definition clear_name (self : ChannelState) : ChannelState := with_name self None.
Definition has_name (self : ChannelState) : bool := has (name self).
Definition set_name (self : ChannelState) (v : string) : ChannelState := with_name self (Some v).
Definition mut_name (self : ChannelState) : ChannelState * Pointer ChannelState string :=
  let self := if has (name self) then self else with_name self (Some EmptyString) in
  (self, pointer (unwrap_or (name self) EmptyString) (fun v => with_name self (Some v))).
Definition take_name (self : ChannelState) : string * ChannelState := (unwrap_or (name self) EmptyString, with_name self None).

Definition get_links (self : ChannelState) : list Z := links self.
Definition clear_links (self : ChannelState) : ChannelState := with_links self [].
Definition set_links (self : ChannelState) (v : list Z) : ChannelState := with_links self v.
Definition mut_links (self : ChannelState) : ChannelState * Pointer ChannelState (list Z) := (self, pointer (links self) (fun v => with_links self v)).
Definition take_links (self : ChannelState) : (list Z) * ChannelState := (links self, with_links self []).

Definition get_description (self : ChannelState) : string := unwrap_or (description self) EmptyString.
Definition clear_description (self : ChannelState) : ChannelState := with_description self None.
Definition has_description (self : ChannelState) : bool := has (description self).
Definition set_description (self : ChannelState) (v : string) : ChannelState := with_description self (Some v).
Definition mut_description (self : ChannelState) : ChannelState * Pointer ChannelState string :=
  let self := if has (description self) then self else with_description self (Some EmptyString) in
  (self, pointer (unwrap_or (description self) EmptyString) (fun v => with_description self (Some v))).
Definition take_description (self : ChannelState) : string * ChannelState := (unwrap_or (description self) EmptyString, with_description self None).

Definition get_links_add (self : ChannelState) : list Z := links_add self.
Definition clear_links_add (self : ChannelState) : ChannelState := with_links_add self [].
Definition set_links_add (self : ChannelState) (v : list Z) : ChannelState := with_links_add self v.
Definition mut_links_add (self : ChannelState) : ChannelState * Pointer ChannelState (list Z) := (self, pointer (links_add self) (fun v => with_links_add self v)).
Definition take_links_add (self : ChannelState) : (list Z) * ChannelState := (links_add self, with_links_add self []).

Definition get_links_remove (self : ChannelState) : list Z := links_remove self.
Definition clear_links_remove (self : ChannelState) : ChannelState := with_links_remove self [].
Definition set_links_remove (self : ChannelState) (v : list Z) : ChannelState := with_links_remove self v.
Definition mut_links_remove (self : ChannelState) : ChannelState * Pointer ChannelState (list Z) := (self, pointer (links_remove self) (fun v => with_links_remove self v)).
Definition take_links_remove (self : ChannelState) : (list Z) * ChannelState := (links_remove self, with_links_remove self []).

Definition get_temporary (self : ChannelState) : bool := unwrap_or (temporary self) false.
Definition clear_temporary (self : ChannelState) : ChannelState := with_temporary self None.
Definition has_temporary (self : ChannelState) : bool := has (temporary self).
Definition set_temporary (self : ChannelState) (v : bool) : ChannelState := with_temporary self (Some v).

Definition get_position (self : ChannelState) : Z := unwrap_or (position self) 0.
Definition clear_position (self : ChannelState) : ChannelState := with_position self None.
Definition has_position (self : ChannelState) : bool := has (position self).
Definition set_position (self : ChannelState) (v : Z) : ChannelState := with_position self (Some v).

Definition get_description_hash (self : ChannelState) : (list Z) := unwrap_or (description_hash self) [].
Definition clear_description_hash (self : ChannelState) : ChannelState := with_description_hash self None.
Definition has_description_hash (self : ChannelState) : bool := has (description_hash self).
Definition set_description_hash (self : ChannelState) (v : (list Z)) : ChannelState := with_description_hash self (Some v).
Definition mut_description_hash (self : ChannelState) : ChannelState * Pointer ChannelState (list Z) :=
  let self := if has (description_hash self) then self else with_description_hash self (Some []) in
  (self, pointer (unwrap_or (description_hash self) []) (fun v => with_description_hash self (Some v))).
Definition take_description_hash (self : ChannelState) : (list Z) * ChannelState := (unwrap_or (description_hash self) [], with_description_hash self None).

Definition get_max_users (self : ChannelState) : Z := unwrap_or (max_users self) 0.
Definition clear_max_users (self : ChannelState) : ChannelState := with_max_users self None.
Definition has_max_users (self : ChannelState) : bool := has (max_users self).
Definition set_max_users (self : ChannelState) (v : Z) : ChannelState := with_max_users self (Some v).

Definition get_is_enter_restricted (self : ChannelState) : bool := unwrap_or (is_enter_restricted self) false.
Definition clear_is_enter_restricted (self : ChannelState) : ChannelState := with_is_enter_restricted self None.
Definition has_is_enter_restricted (self : ChannelState) : bool := has (is_enter_restricted self).
Definition set_is_enter_restricted (self : ChannelState) (v : bool) : ChannelState := with_is_enter_restricted self (Some v).

Definition get_can_enter (self : ChannelState) : bool := unwrap_or (can_enter self) false.
Definition clear_can_enter (self : ChannelState) : ChannelState := with_can_enter self None.
Definition has_can_enter (self : ChannelState) : bool := has (can_enter self).
Definition set_can_enter (self : ChannelState) (v : bool) : ChannelState := with_can_enter self (Some v).

Definition clear (self : ChannelState) : ChannelState :=
  let self := with_channel_id self None in
  let self := with_parent self None in
  let self := with_name self None in
  let self := with_links self [] in
  let self := with_description self None in
  let self := with_links_add self [] in
  let self := with_links_remove self [] in
  let self := with_temporary self None in
  let self := with_position self None in
  let self := with_description_hash self None in
  let self := with_max_users self None in
  let self := with_is_enter_restricted self None in
  let self := with_can_enter self None in
  self.

Definition descriptor_static : list (FieldAccessor ChannelState) :=
  [make_option_accessor ProtobufTypeUint32 "channel_id" channel_id with_channel_id;
   make_option_accessor ProtobufTypeUint32 "parent" parent with_parent;
   make_singular_field_accessor ProtobufTypeString "name" name with_name;
   make_vec_accessor ProtobufTypeUint32 "links" links with_links;
   make_singular_field_accessor ProtobufTypeString "description" description with_description;
   make_vec_accessor ProtobufTypeUint32 "links_add" links_add with_links_add;
   make_vec_accessor ProtobufTypeUint32 "links_remove" links_remove with_links_remove;
   make_option_accessor ProtobufTypeBool "temporary" temporary with_temporary;
   make_option_accessor ProtobufTypeInt32 "position" position with_position;
   make_singular_field_accessor ProtobufTypeBytes "description_hash" description_hash with_description_hash;
   make_option_accessor ProtobufTypeUint32 "max_users" max_users with_max_users;
   make_option_accessor ProtobufTypeBool "is_enter_restricted" is_enter_restricted with_is_enter_restricted;
   make_option_accessor ProtobufTypeBool "can_enter" can_enter with_can_enter].

(** The accessors of the fields, in the order of the fields. *)
Definition accessors : list (Accessor ChannelState) :=
  [Optional Uint32 get_channel_id has_channel_id set_channel_id clear_channel_id;
   Optional Uint32 get_parent has_parent set_parent clear_parent;
   Singular Text get_name has_name set_name clear_name mut_name take_name;
   Repeated Uint32 get_links set_links clear_links mut_links take_links;
   Singular Text get_description has_description set_description clear_description mut_description take_description;
   Repeated Uint32 get_links_add set_links_add clear_links_add mut_links_add take_links_add;
   Repeated Uint32 get_links_remove set_links_remove clear_links_remove mut_links_remove take_links_remove;
   Optional Bool get_temporary has_temporary set_temporary clear_temporary;
   Optional Int32 get_position has_position set_position clear_position;
   Singular Bytes get_description_hash has_description_hash set_description_hash clear_description_hash mut_description_hash take_description_hash;
   Optional Uint32 get_max_users has_max_users set_max_users clear_max_users;
   Optional Bool get_is_enter_restricted has_is_enter_restricted set_is_enter_restricted clear_is_enter_restricted;
   Optional Bool get_can_enter has_can_enter set_can_enter clear_can_enter].
End ChannelStateAccess.

(** *** [UserRemove] *)

Module UserRemoveAccess.
Import UserRemoveMsg UserRemoveCodec.

Definition get_session (self : UserRemove) : Z := unwrap_or (session self) 0.
Definition clear_session (self : UserRemove) : UserRemove := with_session self None.
Definition has_session (self : UserRemove) : bool := has (session self).
Definition set_session (self : UserRemove) (v : Z) : UserRemove := with_session self (Some v).

Definition get_actor (self : UserRemove) : Z := unwrap_or (actor self) 0.
Definition clear_actor (self : UserRemove) : UserRemove := with_actor self None.
Definition has_actor (self : UserRemove) : bool := has (actor self).
Definition set_actor (self : UserRemove) (v : Z) : UserRemove := with_actor self (Some v).

Definition get_reason (self : UserRemove) : string := unwrap_or (reason self) EmptyString.
Definition clear_reason (self : UserRemove) : UserRemove := with_reason self None.
Definition has_reason (self : UserRemove) : bool := has (reason self).
Definition set_reason (self : UserRemove) (v : string) : UserRemove := with_reason self (Some v).
Definition mut_reason (self : UserRemove) : UserRemove * Pointer UserRemove string :=
  let self := if has (reason self) then self else with_reason self (Some EmptyString) in
  (self, pointer (unwrap_or (reason self) EmptyString) (fun v => with_reason self (Some v))).
Definition take_reason (self : UserRemove) : string * UserRemove := (unwrap_or (reason self) EmptyString, with_reason self None).

Definition get_ban (self : UserRemove) : bool := unwrap_or (ban self) false.
Definition clear_ban (self : UserRemove) : UserRemove := with_ban self None.
Definition has_ban (self : UserRemove) : bool := has (ban self).
Definition set_ban (self : UserRemove) (v : bool) : UserRemove := with_ban self (Some v).

Definition clear (self : UserRemove) : UserRemove :=
  let self := with_session self None in
  let self := with_actor self None in
  let self := with_reason self None in
  let self := with_ban self None in
  self.

Definition descriptor_static : list (FieldAccessor UserRemove) :=
  [make_option_accessor ProtobufTypeUint32 "session" session with_session;
   make_option_accessor ProtobufTypeUint32 "actor" actor with_actor;
   make_singular_field_accessor ProtobufTypeString "reason" reason with_reason;
   make_option_accessor ProtobufTypeBool "ban" ban with_ban].

(** The accessors of the fields, in the order of the fields. *)
Definition accessors : list (Accessor UserRemove) :=
  [Optional Uint32 get_session has_session set_session clear_session;
   Optional Uint32 get_actor has_actor set_actor clear_actor;
   Singular Text get_reason has_reason set_reason clear_reason mut_reason take_reason;
   Optional Bool get_ban has_ban set_ban clear_ban].
End UserRemoveAccess.

(** *** [UserState] *)

Module UserStateAccess.
Import UserStateMsg UserStateCodec.

Definition get_session (self : UserState) : Z := unwrap_or (session self) 0.
Definition clear_session (self : UserState) : UserState := with_session self None.
Definition has_session (self : UserState) : bool := has (session self).
Definition set_session (self : UserState) (v : Z) : UserState := with_session self (Some v).

Definition get_actor (self : UserState) : Z := unwrap_or (actor self) 0.
Definition clear_actor (self : UserState) : UserState := with_actor self None.
Definition has_actor (self : UserState) : bool := has (actor self).
Definition set_actor (self : UserState) (v : Z) : UserState := with_actor self (Some v).

Definition get_name (self : UserState) : string := unwrap_or (name self) EmptyString.
Definition clear_name (self : UserState) : UserState := with_name self None.
Definition has_name (self : UserState) : bool := has (name self).
Definition set_name (self : UserState) (v : string) : UserState := with_name self (Some v).
Definition mut_name (self : UserState) : UserState * Pointer UserState string :=
  let self := if has (name self) then self else with_name self (Some EmptyString) in
  (self, pointer (unwrap_or (name self) EmptyString) (fun v => with_name self (Some v))).
Definition take_name (self : UserState) : string * UserState := (unwrap_or (name self) EmptyString, with_name self None).

Definition get_user_id (self : UserState) : Z := unwrap_or (user_id self) 0.
Definition clear_user_id (self : UserState) : UserState := with_user_id self None.
Definition has_user_id (self : UserState) : bool := has (user_id self).
Definition set_user_id (self : UserState) (v : Z) : UserState := with_user_id self (Some v).

Definition get_channel_id (self : UserState) : Z := unwrap_or (channel_id self) 0.
Definition clear_channel_id (self : UserState) : UserState := with_channel_id self None.
Definition has_channel_id (self : UserState) : bool := has (channel_id self).
Definition set_channel_id (self : UserState) (v : Z) : UserState := with_channel_id self (Some v).

Definition get_mute (self : UserState) : bool := unwrap_or (mute self) false.
Definition clear_mute (self : UserState) : UserState := with_mute self None.
Definition has_mute (self : UserState) : bool := has (mute self).
Definition set_mute (self : UserState) (v : bool) : UserState := with_mute self (Some v).

Definition get_deaf (self : UserState) : bool := unwrap_or (deaf self) false.
Definition clear_deaf (self : UserState) : UserState := with_deaf self None.
Definition has_deaf (self : UserState) : bool := has (deaf self).
Definition set_deaf (self : UserState) (v : bool) : UserState := with_deaf self (Some v).

Definition get_suppress (self : UserState) : bool := unwrap_or (suppress self) false.
Definition clear_suppress (self : UserState) : UserState := with_suppress self None.
Definition has_suppress (self : UserState) : bool := has (suppress self).
Definition set_suppress (self : UserState) (v : bool) : UserState := with_suppress self (Some v).

Definition get_self_mute (self : UserState) : bool := unwrap_or (self_mute self) false.
Definition clear_self_mute (self : UserState) : UserState := with_self_mute self None.
Definition has_self_mute (self : UserState) : bool := has (self_mute self).
Definition set_self_mute (self : UserState) (v : bool) : UserState := with_self_mute self (Some v).

Definition get_self_deaf (self : UserState) : bool := unwrap_or (self_deaf self) false.
Definition clear_self_deaf (self : UserState) : UserState := with_self_deaf self None.
Definition has_self_deaf (self : UserState) : bool := has (self_deaf self).
Definition set_self_deaf (self : UserState) (v : bool) : UserState := with_self_deaf self (Some v).

Definition get_texture (self : UserState) : (list Z) := unwrap_or (texture self) [].
Definition clear_texture (self : UserState) : UserState := with_texture self None.
Definition has_texture (self : UserState) : bool := has (texture self).
Definition set_texture (self : UserState) (v : (list Z)) : UserState := with_texture self (Some v).
Definition mut_texture (self : UserState) : UserState * Pointer UserState (list Z) :=
  let self := if has (texture self) then self else with_texture self (Some []) in
  (self, pointer (unwrap_or (texture self) []) (fun v => with_texture self (Some v))).
Definition take_texture (self : UserState) : (list Z) * UserState := (unwrap_or (texture self) [], with_texture self None).

Definition get_plugin_context (self : UserState) : (list Z) := unwrap_or (plugin_context self) [].
Definition clear_plugin_context (self : UserState) : UserState := with_plugin_context self None.
Definition has_plugin_context (self : UserState) : bool := has (plugin_context self).
Definition set_plugin_context (self : UserState) (v : (list Z)) : UserState := with_plugin_context self (Some v).
Definition mut_plugin_context (self : UserState) : UserState * Pointer UserState (list Z) :=
  let self := if has (plugin_context self) then self else with_plugin_context self (Some []) in
  (self, pointer (unwrap_or (plugin_context self) []) (fun v => with_plugin_context self (Some v))).
Definition take_plugin_context (self : UserState) : (list Z) * UserState := (unwrap_or (plugin_context self) [], with_plugin_context self None).

Definition get_plugin_identity (self : UserState) : string := unwrap_or (plugin_identity self) EmptyString.
Definition clear_plugin_identity (self : UserState) : UserState := with_plugin_identity self None.
Definition has_plugin_identity (self : UserState) : bool := has (plugin_identity self).
Definition set_plugin_identity (self : UserState) (v : string) : UserState := with_plugin_identity self (Some v).
Definition mut_plugin_identity (self : UserState) : UserState * Pointer UserState string :=
  let self := if has (plugin_identity self) then self else with_plugin_identity self (Some EmptyString) in
  (self, pointer (unwrap_or (plugin_identity self) EmptyString) (fun v => with_plugin_identity self (Some v))).
Definition take_plugin_identity (self : UserState) : string * UserState := (unwrap_or (plugin_identity self) EmptyString, with_plugin_identity self None).

Definition get_comment (self : UserState) : string := unwrap_or (comment self) EmptyString.
Definition clear_comment (self : UserState) : UserState := with_comment self None.
Definition has_comment (self : UserState) : bool := has (comment self).
Definition set_comment (self : UserState) (v : string) : UserState := with_comment self (Some v).
Definition mut_comment (self : UserState) : UserState * Pointer UserState string :=
  let self := if has (comment self) then self else with_comment self (Some EmptyString) in
  (self, pointer (unwrap_or (comment self) EmptyString) (fun v => with_comment self (Some v))).
Definition take_comment (self : UserState) : string * UserState := (unwrap_or (comment self) EmptyString, with_comment self None).

Definition get_hash (self : UserState) : string := unwrap_or (hash self) EmptyString.
Definition clear_hash (self : UserState) : UserState := with_hash self None.
Definition has_hash (self : UserState) : bool := has (hash self).
Definition set_hash (self : UserState) (v : string) : UserState := with_hash self (Some v).
Definition mut_hash (self : UserState) : UserState * Pointer UserState string :=
  let self := if has (hash self) then self else with_hash self (Some EmptyString) in
  (self, pointer (unwrap_or (hash self) EmptyString) (fun v => with_hash self (Some v))).
Definition take_hash (self : UserState) : string * UserState := (unwrap_or (hash self) EmptyString, with_hash self None).

Definition get_comment_hash (self : UserState) : (list Z) := unwrap_or (comment_hash self) [].
Definition clear_comment_hash (self : UserState) : UserState := with_comment_hash self None.
Definition has_comment_hash (self : UserState) : bool := has (comment_hash self).
Definition set_comment_hash (self : UserState) (v : (list Z)) : UserState := with_comment_hash self (Some v).
Definition mut_comment_hash (self : UserState) : UserState * Pointer UserState (list Z) :=
  let self := if has (comment_hash self) then self else with_comment_hash self (Some []) in
  (self, pointer (unwrap_or (comment_hash self) []) (fun v => with_comment_hash self (Some v))).
Definition take_comment_hash (self : UserState) : (list Z) * UserState := (unwrap_or (comment_hash self) [], with_comment_hash self None).

Definition get_texture_hash (self : UserState) : (list Z) := unwrap_or (texture_hash self) [].
Definition clear_texture_hash (self : UserState) : UserState := with_texture_hash self None.
Definition has_texture_hash (self : UserState) : bool := has (texture_hash self).
Definition set_texture_hash (self : UserState) (v : (list Z)) : UserState := with_texture_hash self (Some v).
Definition mut_texture_hash (self : UserState) : UserState * Pointer UserState (list Z) :=
  let self := if has (texture_hash self) then self else with_texture_hash self (Some []) in
  (self, pointer (unwrap_or (texture_hash self) []) (fun v => with_texture_hash self (Some v))).
Definition take_texture_hash (self : UserState) : (list Z) * UserState := (unwrap_or (texture_hash self) [], with_texture_hash self None).

Definition get_priority_speaker (self : UserState) : bool := unwrap_or (priority_speaker self) false.
Definition clear_priority_speaker (self : UserState) : UserState := with_priority_speaker self None.
Definition has_priority_speaker (self : UserState) : bool := has (priority_speaker self).
Definition set_priority_speaker (self : UserState) (v : bool) : UserState := with_priority_speaker self (Some v).

Definition get_recording (self : UserState) : bool := unwrap_or (recording self) false.
Definition clear_recording (self : UserState) : UserState := with_recording self None.
Definition has_recording (self : UserState) : bool := has (recording self).
Definition set_recording (self : UserState) (v : bool) : UserState := with_recording self (Some v).

Definition get_temporary_access_tokens (self : UserState) : list string := temporary_access_tokens self.
Definition clear_temporary_access_tokens (self : UserState) : UserState := with_temporary_access_tokens self [].
Definition set_temporary_access_tokens (self : UserState) (v : list string) : UserState := with_temporary_access_tokens self v.
Definition mut_temporary_access_tokens (self : UserState) : UserState * Pointer UserState (list string) := (self, pointer (temporary_access_tokens self) (fun v => with_temporary_access_tokens self v)).
Definition take_temporary_access_tokens (self : UserState) : (list string) * UserState := (temporary_access_tokens self, with_temporary_access_tokens self []).

Definition get_listening_channel_add (self : UserState) : list Z := listening_channel_add self.
Definition clear_listening_channel_add (self : UserState) : UserState := with_listening_channel_add self [].
Definition set_listening_channel_add (self : UserState) (v : list Z) : UserState := with_listening_channel_add self v.
Definition mut_listening_channel_add (self : UserState) : UserState * Pointer UserState (list Z) := (self, pointer (listening_channel_add self) (fun v => with_listening_channel_add self v)).
Definition take_listening_channel_add (self : UserState) : (list Z) * UserState := (listening_channel_add self, with_listening_channel_add self []).

Definition get_listening_channel_remove (self : UserState) : list Z := listening_channel_remove self.
Definition clear_listening_channel_remove (self : UserState) : UserState := with_listening_channel_remove self [].
Definition set_listening_channel_remove (self : UserState) (v : list Z) : UserState := with_listening_channel_remove self v.
Definition mut_listening_channel_remove (self : UserState) : UserState * Pointer UserState (list Z) := (self, pointer (listening_channel_remove self) (fun v => with_listening_channel_remove self v)).
Definition take_listening_channel_remove (self : UserState) : (list Z) * UserState := (listening_channel_remove self, with_listening_channel_remove self []).

Definition clear (self : UserState) : UserState :=
  let self := with_session self None in
  let self := with_actor self None in
  let self := with_name self None in
  let self := with_user_id self None in
  let self := with_channel_id self None in
  let self := with_mute self None in
  let self := with_deaf self None in
  let self := with_suppress self None in
  let self := with_self_mute self None in
  let self := with_self_deaf self None in
  let self := with_texture self None in
  let self := with_plugin_context self None in
  let self := with_plugin_identity self None in
  let self := with_comment self None in
  let self := with_hash self None in
  let self := with_comment_hash self None in
  let self := with_texture_hash self None in
  let self := with_priority_speaker self None in
  let self := with_recording self None in
  let self := with_temporary_access_tokens self [] in
  let self := with_listening_channel_add self [] in
  let self := with_listening_channel_remove self [] in
  self.

Definition descriptor_static : list (FieldAccessor UserState) :=
  [make_option_accessor ProtobufTypeUint32 "session" session with_session;
   make_option_accessor ProtobufTypeUint32 "actor" actor with_actor;
   make_singular_field_accessor ProtobufTypeString "name" name with_name;
   make_option_accessor ProtobufTypeUint32 "user_id" user_id with_user_id;
   make_option_accessor ProtobufTypeUint32 "channel_id" channel_id with_channel_id;
   make_option_accessor ProtobufTypeBool "mute" mute with_mute;
   make_option_accessor ProtobufTypeBool "deaf" deaf with_deaf;
   make_option_accessor ProtobufTypeBool "suppress" suppress with_suppress;
   make_option_accessor ProtobufTypeBool "self_mute" self_mute with_self_mute;
   make_option_accessor ProtobufTypeBool "self_deaf" self_deaf with_self_deaf;
   make_singular_field_accessor ProtobufTypeBytes "texture" texture with_texture;
   make_singular_field_accessor ProtobufTypeBytes "plugin_context" plugin_context with_plugin_context;
   make_singular_field_accessor ProtobufTypeString "plugin_identity" plugin_identity with_plugin_identity;
   make_singular_field_accessor ProtobufTypeString "comment" comment with_comment;
   make_singular_field_accessor ProtobufTypeString "hash" hash with_hash;
   make_singular_field_accessor ProtobufTypeBytes "comment_hash" comment_hash with_comment_hash;
   make_singular_field_accessor ProtobufTypeBytes "texture_hash" texture_hash with_texture_hash;
   make_option_accessor ProtobufTypeBool "priority_speaker" priority_speaker with_priority_speaker;
   make_option_accessor ProtobufTypeBool "recording" recording with_recording;
   make_repeated_field_accessor ProtobufTypeString "temporary_access_tokens" temporary_access_tokens with_temporary_access_tokens;
   make_vec_accessor ProtobufTypeUint32 "listening_channel_add" listening_channel_add with_listening_channel_add;
   make_vec_accessor ProtobufTypeUint32 "listening_channel_remove" listening_channel_remove with_listening_channel_remove].

(** The accessors of the fields, in the order of the fields. *)
Definition accessors : list (Accessor UserState) :=
  [Optional Uint32 get_session has_session set_session clear_session;
   Optional Uint32 get_actor has_actor set_actor clear_actor;
   Singular Text get_name has_name set_name clear_name mut_name take_name;
   Optional Uint32 get_user_id has_user_id set_user_id clear_user_id;
   Optional Uint32 get_channel_id has_channel_id set_channel_id clear_channel_id;
   Optional Bool get_mute has_mute set_mute clear_mute;
   Optional Bool get_deaf has_deaf set_deaf clear_deaf;
   Optional Bool get_suppress has_suppress set_suppress clear_suppress;
   Optional Bool get_self_mute has_self_mute set_self_mute clear_self_mute;
   Optional Bool get_self_deaf has_self_deaf set_self_deaf clear_self_deaf;
   Singular Bytes get_texture has_texture set_texture clear_texture mut_texture take_texture;
   Singular Bytes get_plugin_context has_plugin_context set_plugin_context clear_plugin_context mut_plugin_context take_plugin_context;
   Singular Text get_plugin_identity has_plugin_identity set_plugin_identity clear_plugin_identity mut_plugin_identity take_plugin_identity;
   Singular Text get_comment has_comment set_comment clear_comment mut_comment take_comment;
   Singular Text get_hash has_hash set_hash clear_hash mut_hash take_hash;
   Singular Bytes get_comment_hash has_comment_hash set_comment_hash clear_comment_hash mut_comment_hash take_comment_hash;
   Singular Bytes get_texture_hash has_texture_hash set_texture_hash clear_texture_hash mut_texture_hash take_texture_hash;
   Optional Bool get_priority_speaker has_priority_speaker set_priority_speaker clear_priority_speaker;
   Optional Bool get_recording has_recording set_recording clear_recording;
   Repeated Text get_temporary_access_tokens set_temporary_access_tokens clear_temporary_access_tokens mut_temporary_access_tokens take_temporary_access_tokens;
   Repeated Uint32 get_listening_channel_add set_listening_channel_add clear_listening_channel_add mut_listening_channel_add take_listening_channel_add;
   Repeated Uint32 get_listening_channel_remove set_listening_channel_remove clear_listening_channel_remove mut_listening_channel_remove take_listening_channel_remove].
End UserStateAccess.

(** *** [CryptSetup] *)

Module CryptSetupAccess.
Import CryptSetupMsg CryptSetupCodec.

Definition get_key (self : CryptSetup) : (list Z) := unwrap_or (key self) [].
Definition clear_key (self : CryptSetup) : CryptSetup := with_key self None.
Definition has_key (self : CryptSetup) : bool := has (key self).
Definition set_key (self : CryptSetup) (v : (list Z)) : CryptSetup := with_key self (Some v).
Definition mut_key (self : CryptSetup) : CryptSetup * Pointer CryptSetup (list Z) :=
  let self := if has (key self) then self else with_key self (Some []) in
  (self, pointer (unwrap_or (key self) []) (fun v => with_key self (Some v))).
Definition take_key (self : CryptSetup) : (list Z) * CryptSetup := (unwrap_or (key self) [], with_key self None).

Definition get_client_nonce (self : CryptSetup) : (list Z) := unwrap_or (client_nonce self) [].
Definition clear_client_nonce (self : CryptSetup) : CryptSetup := with_client_nonce self None.
Definition has_client_nonce (self : CryptSetup) : bool := has (client_nonce self).
Definition set_client_nonce (self : CryptSetup) (v : (list Z)) : CryptSetup := with_client_nonce self (Some v).
Definition mut_client_nonce (self : CryptSetup) : CryptSetup * Pointer CryptSetup (list Z) :=
  let self := if has (client_nonce self) then self else with_client_nonce self (Some []) in
  (self, pointer (unwrap_or (client_nonce self) []) (fun v => with_client_nonce self (Some v))).
Definition take_client_nonce (self : CryptSetup) : (list Z) * CryptSetup := (unwrap_or (client_nonce self) [], with_client_nonce self None).

Definition get_server_nonce (self : CryptSetup) : (list Z) := unwrap_or (server_nonce self) [].
Definition clear_server_nonce (self : CryptSetup) : CryptSetup := with_server_nonce self None.
Definition has_server_nonce (self : CryptSetup) : bool := has (server_nonce self).
Definition set_server_nonce (self : CryptSetup) (v : (list Z)) : CryptSetup := with_server_nonce self (Some v).
Definition mut_server_nonce (self : CryptSetup) : CryptSetup * Pointer CryptSetup (list Z) :=
  let self := if has (server_nonce self) then self else with_server_nonce self (Some []) in
  (self, pointer (unwrap_or (server_nonce self) []) (fun v => with_server_nonce self (Some v))).
Definition take_server_nonce (self : CryptSetup) : (list Z) * CryptSetup := (unwrap_or (server_nonce self) [], with_server_nonce self None).

Definition clear (self : CryptSetup) : CryptSetup :=
  let self := with_key self None in
  let self := with_client_nonce self None in
  let self := with_server_nonce self None in
  self.

Definition descriptor_static : list (FieldAccessor CryptSetup) :=
  [make_singular_field_accessor ProtobufTypeBytes "key" key with_key;
   make_singular_field_accessor ProtobufTypeBytes "client_nonce" client_nonce with_client_nonce;
   make_singular_field_accessor ProtobufTypeBytes "server_nonce" server_nonce with_server_nonce].

(** The accessors of the fields, in the order of the fields. *)
Definition accessors : list (Accessor CryptSetup) :=
  [Singular Bytes get_key has_key set_key clear_key mut_key take_key;
   Singular Bytes get_client_nonce has_client_nonce set_client_nonce clear_client_nonce mut_client_nonce take_client_nonce;
   Singular Bytes get_server_nonce has_server_nonce set_server_nonce clear_server_nonce mut_server_nonce take_server_nonce].
End CryptSetupAccess.

(** *** [VoiceTarget_Target] *)

Module VoiceTarget_TargetAccess.
Import VoiceTarget_TargetMsg VoiceTarget_TargetCodec.

Definition get_session (self : VoiceTarget_Target) : list Z := session self.
Definition clear_session (self : VoiceTarget_Target) : VoiceTarget_Target := with_session self [].
Definition set_session (self : VoiceTarget_Target) (v : list Z) : VoiceTarget_Target := with_session self v.
Definition mut_session (self : VoiceTarget_Target) : VoiceTarget_Target * Pointer VoiceTarget_Target (list Z) := (self, pointer (session self) (fun v => with_session self v)).
Definition take_session (self : VoiceTarget_Target) : (list Z) * VoiceTarget_Target := (session self, with_session self []).

Definition get_channel_id (self : VoiceTarget_Target) : Z := unwrap_or (channel_id self) 0.
Definition clear_channel_id (self : VoiceTarget_Target) : VoiceTarget_Target := with_channel_id self None.
Definition has_channel_id (self : VoiceTarget_Target) : bool := has (channel_id self).
Definition set_channel_id (self : VoiceTarget_Target) (v : Z) : VoiceTarget_Target := with_channel_id self (Some v).

Definition get_group (self : VoiceTarget_Target) : string := unwrap_or (group self) EmptyString.
Definition clear_group (self : VoiceTarget_Target) : VoiceTarget_Target := with_group self None.
Definition has_group (self : VoiceTarget_Target) : bool := has (group self).
Definition set_group (self : VoiceTarget_Target) (v : string) : VoiceTarget_Target := with_group self (Some v).
Definition mut_group (self : VoiceTarget_Target) : VoiceTarget_Target * Pointer VoiceTarget_Target string :=
  let self := if has (group self) then self else with_group self (Some EmptyString) in
  (self, pointer (unwrap_or (group self) EmptyString) (fun v => with_group self (Some v))).
Definition take_group (self : VoiceTarget_Target) : string * VoiceTarget_Target := (unwrap_or (group self) EmptyString, with_group self None).

Definition get_links (self : VoiceTarget_Target) : bool := unwrap_or (links self) false.
Definition clear_links (self : VoiceTarget_Target) : VoiceTarget_Target := with_links self None.
Definition has_links (self : VoiceTarget_Target) : bool := has (links self).
Definition set_links (self : VoiceTarget_Target) (v : bool) : VoiceTarget_Target := with_links self (Some v).

Definition get_children (self : VoiceTarget_Target) : bool := unwrap_or (children self) false.
Definition clear_children (self : VoiceTarget_Target) : VoiceTarget_Target := with_children self None.
Definition has_children (self : VoiceTarget_Target) : bool := has (children self).
Definition set_children (self : VoiceTarget_Target) (v : bool) : VoiceTarget_Target := with_children self (Some v).

Definition clear (self : VoiceTarget_Target) : VoiceTarget_Target :=
  let self := with_session self [] in
  let self := with_channel_id self None in
  let self := with_group self None in
  let self := with_links self None in
  let self := with_children self None in
  self.

Definition descriptor_static : list (FieldAccessor VoiceTarget_Target) :=
  [make_vec_accessor ProtobufTypeUint32 "session" session with_session;
   make_option_accessor ProtobufTypeUint32 "channel_id" channel_id with_channel_id;
   make_singular_field_accessor ProtobufTypeString "group" group with_group;
   make_option_accessor ProtobufTypeBool "links" links with_links;
   make_option_accessor ProtobufTypeBool "children" children with_children].

(** The accessors of the fields, in the order of the fields. *)
Definition accessors : list (Accessor VoiceTarget_Target) :=
  [Repeated Uint32 get_session set_session clear_session mut_session take_session;
   Optional Uint32 get_channel_id has_channel_id set_channel_id clear_channel_id;
   Singular Text get_group has_group set_group clear_group mut_group take_group;
   Optional Bool get_links has_links set_links clear_links;
   Optional Bool get_children has_children set_children clear_children].
End VoiceTarget_TargetAccess.

(** *** [VoiceTarget] *)

Module VoiceTargetAccess.
Import VoiceTargetMsg VoiceTargetCodec.

Definition get_id (self : VoiceTarget) : Z := unwrap_or (id self) 0.
Definition clear_id (self : VoiceTarget) : VoiceTarget := with_id self None.
Definition has_id (self : VoiceTarget) : bool := has (id self).
Definition set_id (self : VoiceTarget) (v : Z) : VoiceTarget := with_id self (Some v).

Definition get_targets (self : VoiceTarget) : list VoiceTarget_TargetMsg.VoiceTarget_Target := targets self.
Definition clear_targets (self : VoiceTarget) : VoiceTarget := with_targets self [].
Definition set_targets (self : VoiceTarget) (v : list VoiceTarget_TargetMsg.VoiceTarget_Target) : VoiceTarget := with_targets self v.
Definition mut_targets (self : VoiceTarget) : VoiceTarget * Pointer VoiceTarget (list VoiceTarget_TargetMsg.VoiceTarget_Target) := (self, pointer (targets self) (fun v => with_targets self v)).
Definition take_targets (self : VoiceTarget) : (list VoiceTarget_TargetMsg.VoiceTarget_Target) * VoiceTarget := (targets self, with_targets self []).

Definition clear (self : VoiceTarget) : VoiceTarget :=
  let self := with_id self None in
  let self := with_targets self [] in
  self.

Definition descriptor_static : list (FieldAccessor VoiceTarget) :=
  [make_option_accessor ProtobufTypeUint32 "id" id with_id;
   make_repeated_field_accessor (ProtobufTypeMessage Fields.VoiceTarget_Target) "targets" targets with_targets].

(** The accessors of the fields, in the order of the fields. *)
Definition accessors : list (Accessor VoiceTarget) :=
  [Optional Uint32 get_id has_id set_id clear_id;
   Repeated Target get_targets set_targets clear_targets mut_targets take_targets].
End VoiceTargetAccess.

(** *** [PermissionQuery] *)

Module PermissionQueryAccess.
Import PermissionQueryMsg PermissionQueryCodec.

Definition get_channel_id (self : PermissionQuery) : Z := unwrap_or (channel_id self) 0.
Definition clear_channel_id (self : PermissionQuery) : PermissionQuery := with_channel_id self None.
Definition has_channel_id (self : PermissionQuery) : bool := has (channel_id self).
Definition set_channel_id (self : PermissionQuery) (v : Z) : PermissionQuery := with_channel_id self (Some v).

Definition get_permissions (self : PermissionQuery) : Z := unwrap_or (permissions self) 0.
Definition clear_permissions (self : PermissionQuery) : PermissionQuery := with_permissions self None.
Definition has_permissions (self : PermissionQuery) : bool := has (permissions self).
Definition set_permissions (self : PermissionQuery) (v : Z) : PermissionQuery := with_permissions self (Some v).

Definition get_flush (self : PermissionQuery) : bool := unwrap_or (flush self) false.
Definition clear_flush (self : PermissionQuery) : PermissionQuery := with_flush self None.
Definition has_flush (self : PermissionQuery) : bool := has (flush self).
Definition set_flush (self : PermissionQuery) (v : bool) : PermissionQuery := with_flush self (Some v).

Definition clear (self : PermissionQuery) : PermissionQuery :=
  let self := with_channel_id self None in
  let self := with_permissions self None in
  let self := with_flush self None in
  self.

Definition descriptor_static : list (FieldAccessor PermissionQuery) :=
  [make_option_accessor ProtobufTypeUint32 "channel_id" channel_id with_channel_id;
   make_option_accessor ProtobufTypeUint32 "permissions" permissions with_permissions;
   make_option_accessor ProtobufTypeBool "flush" flush with_flush].

(** The accessors of the fields, in the order of the fields. *)
Definition accessors : list (Accessor PermissionQuery) :=
  [Optional Uint32 get_channel_id has_channel_id set_channel_id clear_channel_id;
   Optional Uint32 get_permissions has_permissions set_permissions clear_permissions;
   Optional Bool get_flush has_flush set_flush clear_flush].
End PermissionQueryAccess.

(** *** [CodecVersion] *)

Module CodecVersionAccess.
Import CodecVersionMsg CodecVersionCodec.

Definition get_alpha (self : CodecVersion) : Z := unwrap_or (alpha self) 0.
Definition clear_alpha (self : CodecVersion) : CodecVersion := with_alpha self None.
Definition has_alpha (self : CodecVersion) : bool := has (alpha self).
Definition set_alpha (self : CodecVersion) (v : Z) : CodecVersion := with_alpha self (Some v).

Definition get_beta (self : CodecVersion) : Z := unwrap_or (beta self) 0.
Definition clear_beta (self : CodecVersion) : CodecVersion := with_beta self None.
Definition has_beta (self : CodecVersion) : bool := has (beta self).
Definition set_beta (self : CodecVersion) (v : Z) : CodecVersion := with_beta self (Some v).

Definition get_prefer_alpha (self : CodecVersion) : bool := unwrap_or (prefer_alpha self) true.
Definition clear_prefer_alpha (self : CodecVersion) : CodecVersion := with_prefer_alpha self None.
Definition has_prefer_alpha (self : CodecVersion) : bool := has (prefer_alpha self).
Definition set_prefer_alpha (self : CodecVersion) (v : bool) : CodecVersion := with_prefer_alpha self (Some v).

Definition get_opus (self : CodecVersion) : bool := unwrap_or (opus self) false.
Definition clear_opus (self : CodecVersion) : CodecVersion := with_opus self None.
Definition has_opus (self : CodecVersion) : bool := has (opus self).
Definition set_opus (self : CodecVersion) (v : bool) : CodecVersion := with_opus self (Some v).

Definition clear (self : CodecVersion) : CodecVersion :=
  let self := with_alpha self None in
  let self := with_beta self None in
  let self := with_prefer_alpha self None in
  let self := with_opus self None in
  self.

Definition descriptor_static : list (FieldAccessor CodecVersion) :=
  [make_option_accessor ProtobufTypeInt32 "alpha" alpha with_alpha;
   make_option_accessor ProtobufTypeInt32 "beta" beta with_beta;
   make_option_accessor ProtobufTypeBool "prefer_alpha" prefer_alpha with_prefer_alpha;
   make_option_accessor ProtobufTypeBool "opus" opus with_opus].

(** The accessors of the fields, in the order of the fields. *)
Definition accessors : list (Accessor CodecVersion) :=
  [Optional Int32 get_alpha has_alpha set_alpha clear_alpha;
   Optional Int32 get_beta has_beta set_beta clear_beta;
   Optional Bool get_prefer_alpha has_prefer_alpha set_prefer_alpha clear_prefer_alpha;
   Optional Bool get_opus has_opus set_opus clear_opus].
End CodecVersionAccess.

(** *** [UserStats_Stats] *)

Module UserStats_StatsAccess.
Import UserStats_StatsMsg UserStats_StatsCodec.

Definition get_good (self : UserStats_Stats) : Z := unwrap_or (good self) 0.
Definition clear_good (self : UserStats_Stats) : UserStats_Stats := with_good self None.
Definition has_good (self : UserStats_Stats) : bool := has (good self).
Definition set_good (self : UserStats_Stats) (v : Z) : UserStats_Stats := with_good self (Some v).

Definition get_late (self : UserStats_Stats) : Z := unwrap_or (late self) 0.
Definition clear_late (self : UserStats_Stats) : UserStats_Stats := with_late self None.
Definition has_late (self : UserStats_Stats) : bool := has (late self).
Definition set_late (self : UserStats_Stats) (v : Z) : UserStats_Stats := with_late self (Some v).

Definition get_lost (self : UserStats_Stats) : Z := unwrap_or (lost self) 0.
Definition clear_lost (self : UserStats_Stats) : UserStats_Stats := with_lost self None.
Definition has_lost (self : UserStats_Stats) : bool := has (lost self).
Definition set_lost (self : UserStats_Stats) (v : Z) : UserStats_Stats := with_lost self (Some v).

Definition get_resync (self : UserStats_Stats) : Z := unwrap_or (resync self) 0.
Definition clear_resync (self : UserStats_Stats) : UserStats_Stats := with_resync self None.
Definition has_resync (self : UserStats_Stats) : bool := has (resync self).
Definition set_resync (self : UserStats_Stats) (v : Z) : UserStats_Stats := with_resync self (Some v).

Definition clear (self : UserStats_Stats) : UserStats_Stats :=
  let self := with_good self None in
  let self := with_late self None in
  let self := with_lost self None in
  let self := with_resync self None in
  self.

Definition descriptor_static : list (FieldAccessor UserStats_Stats) :=
  [make_option_accessor ProtobufTypeUint32 "good" good with_good;
   make_option_accessor ProtobufTypeUint32 "late" late with_late;
   make_option_accessor ProtobufTypeUint32 "lost" lost with_lost;
   make_option_accessor ProtobufTypeUint32 "resync" resync with_resync].

(** The accessors of the fields, in the order of the fields. *)
Definition accessors : list (Accessor UserStats_Stats) :=
  [Optional Uint32 get_good has_good set_good clear_good;
   Optional Uint32 get_late has_late set_late clear_late;
   Optional Uint32 get_lost has_lost set_lost clear_lost;
   Optional Uint32 get_resync has_resync set_resync clear_resync].
End UserStats_StatsAccess.

(** *** [UserStats] *)

Module UserStatsAccess.
Import UserStatsMsg UserStatsCodec.

Definition get_session (self : UserStats) : Z := unwrap_or (session self) 0.
Definition clear_session (self : UserStats) : UserStats := with_session self None.
Definition has_session (self : UserStats) : bool := has (session self).
Definition set_session (self : UserStats) (v : Z) : UserStats := with_session self (Some v).

Definition get_stats_only (self : UserStats) : bool := unwrap_or (stats_only self) false.
Definition clear_stats_only (self : UserStats) : UserStats := with_stats_only self None.
Definition has_stats_only (self : UserStats) : bool := has (stats_only self).
Definition set_stats_only (self : UserStats) (v : bool) : UserStats := with_stats_only self (Some v).

Definition get_certificates (self : UserStats) : list (list Z) := certificates self.
Definition clear_certificates (self : UserStats) : UserStats := with_certificates self [].
Definition set_certificates (self : UserStats) (v : list (list Z)) : UserStats := with_certificates self v.
Definition mut_certificates (self : UserStats) : UserStats * Pointer UserStats (list (list Z)) := (self, pointer (certificates self) (fun v => with_certificates self v)).
Definition take_certificates (self : UserStats) : (list (list Z)) * UserStats := (certificates self, with_certificates self []).

Definition get_from_client (self : UserStats) : UserStats_StatsMsg.UserStats_Stats := unwrap_or (from_client self) UserStats_StatsCodec.new.
Definition clear_from_client (self : UserStats) : UserStats := with_from_client self None.
Definition has_from_client (self : UserStats) : bool := has (from_client self).
Definition set_from_client (self : UserStats) (v : UserStats_StatsMsg.UserStats_Stats) : UserStats := with_from_client self (Some v).
Definition mut_from_client (self : UserStats) : UserStats * Pointer UserStats UserStats_StatsMsg.UserStats_Stats :=
  let self := if has (from_client self) then self else with_from_client self (Some UserStats_StatsCodec.new) in
  (self, pointer (unwrap_or (from_client self) UserStats_StatsCodec.new) (fun v => with_from_client self (Some v))).
Definition take_from_client (self : UserStats) : UserStats_StatsMsg.UserStats_Stats * UserStats := (unwrap_or (from_client self) UserStats_StatsCodec.new, with_from_client self None).

Definition get_from_server (self : UserStats) : UserStats_StatsMsg.UserStats_Stats := unwrap_or (from_server self) UserStats_StatsCodec.new.
Definition clear_from_server (self : UserStats) : UserStats := with_from_server self None.
Definition has_from_server (self : UserStats) : bool := has (from_server self).
Definition set_from_server (self : UserStats) (v : UserStats_StatsMsg.UserStats_Stats) : UserStats := with_from_server self (Some v).
Definition mut_from_server (self : UserStats) : UserStats * Pointer UserStats UserStats_StatsMsg.UserStats_Stats :=
  let self := if has (from_server self) then self else with_from_server self (Some UserStats_StatsCodec.new) in
  (self, pointer (unwrap_or (from_server self) UserStats_StatsCodec.new) (fun v => with_from_server self (Some v))).
Definition take_from_server (self : UserStats) : UserStats_StatsMsg.UserStats_Stats * UserStats := (unwrap_or (from_server self) UserStats_StatsCodec.new, with_from_server self None).

Definition get_udp_packets (self : UserStats) : Z := unwrap_or (udp_packets self) 0.
Definition clear_udp_packets (self : UserStats) : UserStats := with_udp_packets self None.
Definition has_udp_packets (self : UserStats) : bool := has (udp_packets self).
Definition set_udp_packets (self : UserStats) (v : Z) : UserStats := with_udp_packets self (Some v).

Definition get_tcp_packets (self : UserStats) : Z := unwrap_or (tcp_packets self) 0.
Definition clear_tcp_packets (self : UserStats) : UserStats := with_tcp_packets self None.
Definition has_tcp_packets (self : UserStats) : bool := has (tcp_packets self).
Definition set_tcp_packets (self : UserStats) (v : Z) : UserStats := with_tcp_packets self (Some v).

Definition get_udp_ping_avg (self : UserStats) : f32 := unwrap_or (udp_ping_avg self) f32_zero.
Definition clear_udp_ping_avg (self : UserStats) : UserStats := with_udp_ping_avg self None.
Definition has_udp_ping_avg (self : UserStats) : bool := has (udp_ping_avg self).
Definition set_udp_ping_avg (self : UserStats) (v : f32) : UserStats := with_udp_ping_avg self (Some v).

Definition get_udp_ping_var (self : UserStats) : f32 := unwrap_or (udp_ping_var self) f32_zero.
Definition clear_udp_ping_var (self : UserStats) : UserStats := with_udp_ping_var self None.
Definition has_udp_ping_var (self : UserStats) : bool := has (udp_ping_var self).
Definition set_udp_ping_var (self : UserStats) (v : f32) : UserStats := with_udp_ping_var self (Some v).

Definition get_tcp_ping_avg (self : UserStats) : f32 := unwrap_or (tcp_ping_avg self) f32_zero.
Definition clear_tcp_ping_avg (self : UserStats) : UserStats := with_tcp_ping_avg self None.
Definition has_tcp_ping_avg (self : UserStats) : bool := has (tcp_ping_avg self).
Definition set_tcp_ping_avg (self : UserStats) (v : f32) : UserStats := with_tcp_ping_avg self (Some v).

Definition get_tcp_ping_var (self : UserStats) : f32 := unwrap_or (tcp_ping_var self) f32_zero.
Definition clear_tcp_ping_var (self : UserStats) : UserStats := with_tcp_ping_var self None.
Definition has_tcp_ping_var (self : UserStats) : bool := has (tcp_ping_var self).
Definition set_tcp_ping_var (self : UserStats) (v : f32) : UserStats := with_tcp_ping_var self (Some v).

Definition get_version (self : UserStats) : VersionMsg.Version := unwrap_or (version self) VersionCodec.new.
Definition clear_version (self : UserStats) : UserStats := with_version self None.
Definition has_version (self : UserStats) : bool := has (version self).
Definition set_version (self : UserStats) (v : VersionMsg.Version) : UserStats := with_version self (Some v).
Definition mut_version (self : UserStats) : UserStats * Pointer UserStats VersionMsg.Version :=
  let self := if has (version self) then self else with_version self (Some VersionCodec.new) in
  (self, pointer (unwrap_or (version self) VersionCodec.new) (fun v => with_version self (Some v))).
Definition take_version (self : UserStats) : VersionMsg.Version * UserStats := (unwrap_or (version self) VersionCodec.new, with_version self None).

Definition get_celt_versions (self : UserStats) : list Z := celt_versions self.
Definition clear_celt_versions (self : UserStats) : UserStats := with_celt_versions self [].
Definition set_celt_versions (self : UserStats) (v : list Z) : UserStats := with_celt_versions self v.
Definition mut_celt_versions (self : UserStats) : UserStats * Pointer UserStats (list Z) := (self, pointer (celt_versions self) (fun v => with_celt_versions self v)).
Definition take_celt_versions (self : UserStats) : (list Z) * UserStats := (celt_versions self, with_celt_versions self []).

Definition get_address (self : UserStats) : (list Z) := unwrap_or (address self) [].
Definition clear_address (self : UserStats) : UserStats := with_address self None.
Definition has_address (self : UserStats) : bool := has (address self).
Definition set_address (self : UserStats) (v : (list Z)) : UserStats := with_address self (Some v).
Definition mut_address (self : UserStats) : UserStats * Pointer UserStats (list Z) :=
  let self := if has (address self) then self else with_address self (Some []) in
  (self, pointer (unwrap_or (address self) []) (fun v => with_address self (Some v))).
Definition take_address (self : UserStats) : (list Z) * UserStats := (unwrap_or (address self) [], with_address self None).

Definition get_bandwidth (self : UserStats) : Z := unwrap_or (bandwidth self) 0.
Definition clear_bandwidth (self : UserStats) : UserStats := with_bandwidth self None.
Definition has_bandwidth (self : UserStats) : bool := has (bandwidth self).
Definition set_bandwidth (self : UserStats) (v : Z) : UserStats := with_bandwidth self (Some v).

Definition get_onlinesecs (self : UserStats) : Z := unwrap_or (onlinesecs self) 0.
Definition clear_onlinesecs (self : UserStats) : UserStats := with_onlinesecs self None.
Definition has_onlinesecs (self : UserStats) : bool := has (onlinesecs self).
Definition set_onlinesecs (self : UserStats) (v : Z) : UserStats := with_onlinesecs self (Some v).

Definition get_idlesecs (self : UserStats) : Z := unwrap_or (idlesecs self) 0.
Definition clear_idlesecs (self : UserStats) : UserStats := with_idlesecs self None.
Definition has_idlesecs (self : UserStats) : bool := has (idlesecs self).
Definition set_idlesecs (self : UserStats) (v : Z) : UserStats := with_idlesecs self (Some v).

Definition get_strong_certificate (self : UserStats) : bool := unwrap_or (strong_certificate self) false.
Definition clear_strong_certificate (self : UserStats) : UserStats := with_strong_certificate self None.
Definition has_strong_certificate (self : UserStats) : bool := has (strong_certificate self).
Definition set_strong_certificate (self : UserStats) (v : bool) : UserStats := with_strong_certificate self (Some v).

Definition get_opus (self : UserStats) : bool := unwrap_or (opus self) false.
Definition clear_opus (self : UserStats) : UserStats := with_opus self None.
Definition has_opus (self : UserStats) : bool := has (opus self).
Definition set_opus (self : UserStats) (v : bool) : UserStats := with_opus self (Some v).

Definition clear (self : UserStats) : UserStats :=
  let self := with_session self None in
  let self := with_stats_only self None in
  let self := with_certificates self [] in
  let self := with_from_client self None in
  let self := with_from_server self None in
  let self := with_udp_packets self None in
  let self := with_tcp_packets self None in
  let self := with_udp_ping_avg self None in
  let self := with_udp_ping_var self None in
  let self := with_tcp_ping_avg self None in
  let self := with_tcp_ping_var self None in
  let self := with_version self None in
  let self := with_celt_versions self [] in
  let self := with_address self None in
  let self := with_bandwidth self None in
  let self := with_onlinesecs self None in
  let self := with_idlesecs self None in
  let self := with_strong_certificate self None in
  let self := with_opus self None in
  self.

Definition descriptor_static : list (FieldAccessor UserStats) :=
  [make_option_accessor ProtobufTypeUint32 "session" session with_session;
   make_option_accessor ProtobufTypeBool "stats_only" stats_only with_stats_only;
   make_repeated_field_accessor ProtobufTypeBytes "certificates" certificates with_certificates;
   make_singular_ptr_field_accessor (ProtobufTypeMessage Fields.UserStats_Stats) "from_client" from_client with_from_client;
   make_singular_ptr_field_accessor (ProtobufTypeMessage Fields.UserStats_Stats) "from_server" from_server with_from_server;
   make_option_accessor ProtobufTypeUint32 "udp_packets" udp_packets with_udp_packets;
   make_option_accessor ProtobufTypeUint32 "tcp_packets" tcp_packets with_tcp_packets;
   make_option_accessor ProtobufTypeFloat "udp_ping_avg" udp_ping_avg with_udp_ping_avg;
   make_option_accessor ProtobufTypeFloat "udp_ping_var" udp_ping_var with_udp_ping_var;
   make_option_accessor ProtobufTypeFloat "tcp_ping_avg" tcp_ping_avg with_tcp_ping_avg;
   make_option_accessor ProtobufTypeFloat "tcp_ping_var" tcp_ping_var with_tcp_ping_var;
   make_singular_ptr_field_accessor (ProtobufTypeMessage Fields.Version) "version" version with_version;
   make_vec_accessor ProtobufTypeInt32 "celt_versions" celt_versions with_celt_versions;
   make_singular_field_accessor ProtobufTypeBytes "address" address with_address;
   make_option_accessor ProtobufTypeUint32 "bandwidth" bandwidth with_bandwidth;
   make_option_accessor ProtobufTypeUint32 "onlinesecs" onlinesecs with_onlinesecs;
   make_option_accessor ProtobufTypeUint32 "idlesecs" idlesecs with_idlesecs;
   make_option_accessor ProtobufTypeBool "strong_certificate" strong_certificate with_strong_certificate;
   make_option_accessor ProtobufTypeBool "opus" opus with_opus].

(** The accessors of the fields, in the order of the fields. *)
Definition accessors : list (Accessor UserStats) :=
  [Optional Uint32 get_session has_session set_session clear_session;
   Optional Bool get_stats_only has_stats_only set_stats_only clear_stats_only;
   Repeated Bytes get_certificates set_certificates clear_certificates mut_certificates take_certificates;
   Singular Stats get_from_client has_from_client set_from_client clear_from_client mut_from_client take_from_client;
   Singular Stats get_from_server has_from_server set_from_server clear_from_server mut_from_server take_from_server;
   Optional Uint32 get_udp_packets has_udp_packets set_udp_packets clear_udp_packets;
   Optional Uint32 get_tcp_packets has_tcp_packets set_tcp_packets clear_tcp_packets;
   Optional Float get_udp_ping_avg has_udp_ping_avg set_udp_ping_avg clear_udp_ping_avg;
   Optional Float get_udp_ping_var has_udp_ping_var set_udp_ping_var clear_udp_ping_var;
   Optional Float get_tcp_ping_avg has_tcp_ping_avg set_tcp_ping_avg clear_tcp_ping_avg;
   Optional Float get_tcp_ping_var has_tcp_ping_var set_tcp_ping_var clear_tcp_ping_var;
   Singular VersionV get_version has_version set_version clear_version mut_version take_version;
   Repeated Int32 get_celt_versions set_celt_versions clear_celt_versions mut_celt_versions take_celt_versions;
   Singular Bytes get_address has_address set_address clear_address mut_address take_address;
   Optional Uint32 get_bandwidth has_bandwidth set_bandwidth clear_bandwidth;
   Optional Uint32 get_onlinesecs has_onlinesecs set_onlinesecs clear_onlinesecs;
   Optional Uint32 get_idlesecs has_idlesecs set_idlesecs clear_idlesecs;
   Optional Bool get_strong_certificate has_strong_certificate set_strong_certificate clear_strong_certificate;
   Optional Bool get_opus has_opus set_opus clear_opus].
End UserStatsAccess.

(** *** [ServerConfig] *)

Module ServerConfigAccess.
Import ServerConfigMsg ServerConfigCodec.

Definition get_max_bandwidth (self : ServerConfig) : Z := unwrap_or (max_bandwidth self) 0.
Definition clear_max_bandwidth (self : ServerConfig) : ServerConfig := with_max_bandwidth self None.
Definition has_max_bandwidth (self : ServerConfig) : bool := has (max_bandwidth self).
Definition set_max_bandwidth (self : ServerConfig) (v : Z) : ServerConfig := with_max_bandwidth self (Some v).

Definition get_welcome_text (self : ServerConfig) : string := unwrap_or (welcome_text self) EmptyString.
Definition clear_welcome_text (self : ServerConfig) : ServerConfig := with_welcome_text self None.
Definition has_welcome_text (self : ServerConfig) : bool := has (welcome_text self).
Definition set_welcome_text (self : ServerConfig) (v : string) : ServerConfig := with_welcome_text self (Some v).
Definition mut_welcome_text (self : ServerConfig) : ServerConfig * Pointer ServerConfig string :=
  let self := if has (welcome_text self) then self else with_welcome_text self (Some EmptyString) in
  (self, pointer (unwrap_or (welcome_text self) EmptyString) (fun v => with_welcome_text self (Some v))).
Definition take_welcome_text (self : ServerConfig) : string * ServerConfig := (unwrap_or (welcome_text self) EmptyString, with_welcome_text self None).

Definition get_allow_html (self : ServerConfig) : bool := unwrap_or (allow_html self) false.
Definition clear_allow_html (self : ServerConfig) : ServerConfig := with_allow_html self None.
Definition has_allow_html (self : ServerConfig) : bool := has (allow_html self).
Definition set_allow_html (self : ServerConfig) (v : bool) : ServerConfig := with_allow_html self (Some v).

Definition get_message_length (self : ServerConfig) : Z := unwrap_or (message_length self) 0.
Definition clear_message_length (self : ServerConfig) : ServerConfig := with_message_length self None.
Definition has_message_length (self : ServerConfig) : bool := has (message_length self).
Definition set_message_length (self : ServerConfig) (v : Z) : ServerConfig := with_message_length self (Some v).

Definition get_image_message_length (self : ServerConfig) : Z := unwrap_or (image_message_length self) 0.
Definition clear_image_message_length (self : ServerConfig) : ServerConfig := with_image_message_length self None.
Definition has_image_message_length (self : ServerConfig) : bool := has (image_message_length self).
Definition set_image_message_length (self : ServerConfig) (v : Z) : ServerConfig := with_image_message_length self (Some v).

Definition get_max_users (self : ServerConfig) : Z := unwrap_or (max_users self) 0.
Definition clear_max_users (self : ServerConfig) : ServerConfig := with_max_users self None.
Definition has_max_users (self : ServerConfig) : bool := has (max_users self).
Definition set_max_users (self : ServerConfig) (v : Z) : ServerConfig := with_max_users self (Some v).

Definition clear (self : ServerConfig) : ServerConfig :=
  let self := with_max_bandwidth self None in
  let self := with_welcome_text self None in
  let self := with_allow_html self None in
  let self := with_message_length self None in
  let self := with_image_message_length self None in
  let self := with_max_users self None in
  self.

Definition descriptor_static : list (FieldAccessor ServerConfig) :=
  [make_option_accessor ProtobufTypeUint32 "max_bandwidth" max_bandwidth with_max_bandwidth;
   make_singular_field_accessor ProtobufTypeString "welcome_text" welcome_text with_welcome_text;
   make_option_accessor ProtobufTypeBool "allow_html" allow_html with_allow_html;
   make_option_accessor ProtobufTypeUint32 "message_length" message_length with_message_length;
   make_option_accessor ProtobufTypeUint32 "image_message_length" image_message_length with_image_message_length;
   make_option_accessor ProtobufTypeUint32 "max_users" max_users with_max_users].

(** The accessors of the fields, in the order of the fields. *)
Definition accessors : list (Accessor ServerConfig) :=
  [Optional Uint32 get_max_bandwidth has_max_bandwidth set_max_bandwidth clear_max_bandwidth;
   Singular Text get_welcome_text has_welcome_text set_welcome_text clear_welcome_text mut_welcome_text take_welcome_text;
   Optional Bool get_allow_html has_allow_html set_allow_html clear_allow_html;
   Optional Uint32 get_message_length has_message_length set_message_length clear_message_length;
   Optional Uint32 get_image_message_length has_image_message_length set_image_message_length clear_image_message_length;
   Optional Uint32 get_max_users has_max_users set_max_users clear_max_users].
End ServerConfigAccess.
