(* ===== verification/AccessorsRest.v ===== *)
(** The accessors of the other generated messages ([src/src/proto/mumble.rs]), in the same form. *)

From stdpp Require Import base list option strings.
From Stdlib Require Import ZArith.
From S2P Require Import Prelude Float32 Messages Wire Codec CodecRest Fields Accessors.

(** *** [UDPTunnel] *)

Module UDPTunnelAccess.
Import UDPTunnelMsg UDPTunnelCodec.

Definition get_packet (self : UDPTunnel) : (list Z) := unwrap_or (packet self) [].
Definition clear_packet (self : UDPTunnel) : UDPTunnel := with_packet self None.
Definition has_packet (self : UDPTunnel) : bool := has (packet self).
Definition set_packet (self : UDPTunnel) (v : (list Z)) : UDPTunnel := with_packet self (Some v).
Definition mut_packet (self : UDPTunnel) : UDPTunnel * Pointer UDPTunnel (list Z) :=
  let self := if has (packet self) then self else with_packet self (Some []) in
  (self, pointer (unwrap_or (packet self) []) (fun v => with_packet self (Some v))).
Definition take_packet (self : UDPTunnel) : (list Z) * UDPTunnel := (unwrap_or (packet self) [], with_packet self None).

Definition clear (self : UDPTunnel) : UDPTunnel :=
  let self := with_packet self None in
  self.

Definition descriptor_static : list (FieldAccessor UDPTunnel) :=
  [make_singular_field_accessor ProtobufTypeBytes "packet" packet with_packet].

(** The accessors of the fields, in the order of the fields. *)
Definition accessors : list (Accessor UDPTunnel) :=
  [Singular Bytes get_packet has_packet set_packet clear_packet mut_packet take_packet].
End UDPTunnelAccess.

(** *** [Reject] *)

Module RejectAccess.
Import RejectMsg RejectCodec.

Definition get_field_type (self : Reject) : Reject_RejectType.Reject_RejectType := unwrap_or (field_type self) Reject_RejectType.None.
Definition clear_field_type (self : Reject) : Reject := with_field_type self None.
Definition has_field_type (self : Reject) : bool := has (field_type self).
Definition set_field_type (self : Reject) (v : Reject_RejectType.Reject_RejectType) : Reject := with_field_type self (Some v).

Definition get_reason (self : Reject) : string := unwrap_or (reason self) EmptyString.
Definition clear_reason (self : Reject) : Reject := with_reason self None.
Definition has_reason (self : Reject) : bool := has (reason self).
Definition set_reason (self : Reject) (v : string) : Reject := with_reason self (Some v).
Definition mut_reason (self : Reject) : Reject * Pointer Reject string :=
  let self := if has (reason self) then self else with_reason self (Some EmptyString) in
  (self, pointer (unwrap_or (reason self) EmptyString) (fun v => with_reason self (Some v))).
Definition take_reason (self : Reject) : string * Reject := (unwrap_or (reason self) EmptyString, with_reason self None).

Definition clear (self : Reject) : Reject :=
  let self := with_field_type self None in
  let self := with_reason self None in
  self.

Definition descriptor_static : list (FieldAccessor Reject) :=
  [make_option_accessor (ProtobufTypeEnum Fields.Reject_RejectType) "type" field_type with_field_type;
   make_singular_field_accessor ProtobufTypeString "reason" reason with_reason].

(** The accessors of the fields, in the order of the fields. *)
Definition accessors : list (Accessor Reject) :=
  [Optional RejectType get_field_type has_field_type set_field_type clear_field_type;
   Singular Text get_reason has_reason set_reason clear_reason mut_reason take_reason].
End RejectAccess.

(** *** [BanList_BanEntry] *)

Module BanList_BanEntryAccess.
Import BanList_BanEntryMsg BanList_BanEntryCodec.

Definition get_address (self : BanList_BanEntry) : (list Z) := unwrap_or (address self) [].
Definition clear_address (self : BanList_BanEntry) : BanList_BanEntry := with_address self None.
Definition has_address (self : BanList_BanEntry) : bool := has (address self).
Definition set_address (self : BanList_BanEntry) (v : (list Z)) : BanList_BanEntry := with_address self (Some v).
Definition mut_address (self : BanList_BanEntry) : BanList_BanEntry * Pointer BanList_BanEntry (list Z) :=
  let self := if has (address self) then self else with_address self (Some []) in
  (self, pointer (unwrap_or (address self) []) (fun v => with_address self (Some v))).
Definition take_address (self : BanList_BanEntry) : (list Z) * BanList_BanEntry := (unwrap_or (address self) [], with_address self None).

Definition get_mask (self : BanList_BanEntry) : Z := unwrap_or (mask self) 0.
Definition clear_mask (self : BanList_BanEntry) : BanList_BanEntry := with_mask self None.
Definition has_mask (self : BanList_BanEntry) : bool := has (mask self).
Definition set_mask (self : BanList_BanEntry) (v : Z) : BanList_BanEntry := with_mask self (Some v).

Definition get_name (self : BanList_BanEntry) : string := unwrap_or (name self) EmptyString.
Definition clear_name (self : BanList_BanEntry) : BanList_BanEntry := with_name self None.
Definition has_name (self : BanList_BanEntry) : bool := has (name self).
Definition set_name (self : BanList_BanEntry) (v : string) : BanList_BanEntry := with_name self (Some v).
Definition mut_name (self : BanList_BanEntry) : BanList_BanEntry * Pointer BanList_BanEntry string :=
  let self := if has (name self) then self else with_name self (Some EmptyString) in
  (self, pointer (unwrap_or (name self) EmptyString) (fun v => with_name self (Some v))).
Definition take_name (self : BanList_BanEntry) : string * BanList_BanEntry := (unwrap_or (name self) EmptyString, with_name self None).

Definition get_hash (self : BanList_BanEntry) : string := unwrap_or (hash self) EmptyString.
Definition clear_hash (self : BanList_BanEntry) : BanList_BanEntry := with_hash self None.
Definition has_hash (self : BanList_BanEntry) : bool := has (hash self).
Definition set_hash (self : BanList_BanEntry) (v : string) : BanList_BanEntry := with_hash self (Some v).
Definition mut_hash (self : BanList_BanEntry) : BanList_BanEntry * Pointer BanList_BanEntry string :=
  let self := if has (hash self) then self else with_hash self (Some EmptyString) in
  (self, pointer (unwrap_or (hash self) EmptyString) (fun v => with_hash self (Some v))).
Definition take_hash (self : BanList_BanEntry) : string * BanList_BanEntry := (unwrap_or (hash self) EmptyString, with_hash self None).

Definition get_reason (self : BanList_BanEntry) : string := unwrap_or (reason self) EmptyString.
Definition clear_reason (self : BanList_BanEntry) : BanList_BanEntry := with_reason self None.
Definition has_reason (self : BanList_BanEntry) : bool := has (reason self).
Definition set_reason (self : BanList_BanEntry) (v : string) : BanList_BanEntry := with_reason self (Some v).
Definition mut_reason (self : BanList_BanEntry) : BanList_BanEntry * Pointer BanList_BanEntry string :=
  let self := if has (reason self) then self else with_reason self (Some EmptyString) in
  (self, pointer (unwrap_or (reason self) EmptyString) (fun v => with_reason self (Some v))).
Definition take_reason (self : BanList_BanEntry) : string * BanList_BanEntry := (unwrap_or (reason self) EmptyString, with_reason self None).

Definition get_start (self : BanList_BanEntry) : string := unwrap_or (start self) EmptyString.
Definition clear_start (self : BanList_BanEntry) : BanList_BanEntry := with_start self None.
Definition has_start (self : BanList_BanEntry) : bool := has (start self).
Definition set_start (self : BanList_BanEntry) (v : string) : BanList_BanEntry := with_start self (Some v).
Definition mut_start (self : BanList_BanEntry) : BanList_BanEntry * Pointer BanList_BanEntry string :=
  let self := if has (start self) then self else with_start self (Some EmptyString) in
  (self, pointer (unwrap_or (start self) EmptyString) (fun v => with_start self (Some v))).
Definition take_start (self : BanList_BanEntry) : string * BanList_BanEntry := (unwrap_or (start self) EmptyString, with_start self None).

Definition get_duration (self : BanList_BanEntry) : Z := unwrap_or (duration self) 0.
Definition clear_duration (self : BanList_BanEntry) : BanList_BanEntry := with_duration self None.
Definition has_duration (self : BanList_BanEntry) : bool := has (duration self).
Definition set_duration (self : BanList_BanEntry) (v : Z) : BanList_BanEntry := with_duration self (Some v).

Definition clear (self : BanList_BanEntry) : BanList_BanEntry :=
  let self := with_address self None in
  let self := with_mask self None in
  let self := with_name self None in
  let self := with_hash self None in
  let self := with_reason self None in
  let self := with_start self None in
  let self := with_duration self None in
  self.

Definition descriptor_static : list (FieldAccessor BanList_BanEntry) :=
  [make_singular_field_accessor ProtobufTypeBytes "address" address with_address;
   make_option_accessor ProtobufTypeUint32 "mask" mask with_mask;
   make_singular_field_accessor ProtobufTypeString "name" name with_name;
   make_singular_field_accessor ProtobufTypeString "hash" hash with_hash;
   make_singular_field_accessor ProtobufTypeString "reason" reason with_reason;
   make_singular_field_accessor ProtobufTypeString "start" start with_start;
   make_option_accessor ProtobufTypeUint32 "duration" duration with_duration].

(** The accessors of the fields, in the order of the fields. *)
Definition accessors : list (Accessor BanList_BanEntry) :=
  [Singular Bytes get_address has_address set_address clear_address mut_address take_address;
   Optional Uint32 get_mask has_mask set_mask clear_mask;
   Singular Text get_name has_name set_name clear_name mut_name take_name;
   Singular Text get_hash has_hash set_hash clear_hash mut_hash take_hash;
   Singular Text get_reason has_reason set_reason clear_reason mut_reason take_reason;
   Singular Text get_start has_start set_start clear_start mut_start take_start;
   Optional Uint32 get_duration has_duration set_duration clear_duration].
End BanList_BanEntryAccess.

(** *** [BanList] *)

Module BanListAccess.
Import BanListMsg BanListCodec.

Definition get_bans (self : BanList) : list BanList_BanEntryMsg.BanList_BanEntry := bans self.
Definition clear_bans (self : BanList) : BanList := with_bans self [].
Definition set_bans (self : BanList) (v : list BanList_BanEntryMsg.BanList_BanEntry) : BanList := with_bans self v.
Definition mut_bans (self : BanList) : BanList * Pointer BanList (list BanList_BanEntryMsg.BanList_BanEntry) := (self, pointer (bans self) (fun v => with_bans self v)).
Definition take_bans (self : BanList) : (list BanList_BanEntryMsg.BanList_BanEntry) * BanList := (bans self, with_bans self []).

Definition get_query (self : BanList) : bool := unwrap_or (query self) false.
Definition clear_query (self : BanList) : BanList := with_query self None.
Definition has_query (self : BanList) : bool := has (query self).
Definition set_query (self : BanList) (v : bool) : BanList := with_query self (Some v).

Definition clear (self : BanList) : BanList :=
  let self := with_bans self [] in
  let self := with_query self None in
  self.

Definition descriptor_static : list (FieldAccessor BanList) :=
  [make_repeated_field_accessor (ProtobufTypeMessage Fields.BanList_BanEntry) "bans" bans with_bans;
   make_option_accessor ProtobufTypeBool "query" query with_query].

(** The accessors of the fields, in the order of the fields. *)
Definition accessors : list (Accessor BanList) :=
  [Repeated BanEntry get_bans set_bans clear_bans mut_bans take_bans;
   Optional Bool get_query has_query set_query clear_query].
End BanListAccess.

(** *** [TextMessage] *)

Module TextMessageAccess.
Import TextMessageMsg TextMessageCodec.

Definition get_actor (self : TextMessage) : Z := unwrap_or (actor self) 0.
Definition clear_actor (self : TextMessage) : TextMessage := with_actor self None.
Definition has_actor (self : TextMessage) : bool := has (actor self).
Definition set_actor (self : TextMessage) (v : Z) : TextMessage := with_actor self (Some v).

Definition get_session (self : TextMessage) : list Z := session self.
Definition clear_session (self : TextMessage) : TextMessage := with_session self [].
Definition set_session (self : TextMessage) (v : list Z) : TextMessage := with_session self v.
Definition mut_session (self : TextMessage) : TextMessage * Pointer TextMessage (list Z) := (self, pointer (session self) (fun v => with_session self v)).
Definition take_session (self : TextMessage) : (list Z) * TextMessage := (session self, with_session self []).

Definition get_channel_id (self : TextMessage) : list Z := channel_id self.
Definition clear_channel_id (self : TextMessage) : TextMessage := with_channel_id self [].
Definition set_channel_id (self : TextMessage) (v : list Z) : TextMessage := with_channel_id self v.
Definition mut_channel_id (self : TextMessage) : TextMessage * Pointer TextMessage (list Z) := (self, pointer (channel_id self) (fun v => with_channel_id self v)).
Definition take_channel_id (self : TextMessage) : (list Z) * TextMessage := (channel_id self, with_channel_id self []).

Definition get_tree_id (self : TextMessage) : list Z := tree_id self.
Definition clear_tree_id (self : TextMessage) : TextMessage := with_tree_id self [].
Definition set_tree_id (self : TextMessage) (v : list Z) : TextMessage := with_tree_id self v.
Definition mut_tree_id (self : TextMessage) : TextMessage * Pointer TextMessage (list Z) := (self, pointer (tree_id self) (fun v => with_tree_id self v)).
Definition take_tree_id (self : TextMessage) : (list Z) * TextMessage := (tree_id self, with_tree_id self []).

Definition get_message (self : TextMessage) : string := unwrap_or (message self) EmptyString.
Definition clear_message (self : TextMessage) : TextMessage := with_message self None.
Definition has_message (self : TextMessage) : bool := has (message self).
Definition set_message (self : TextMessage) (v : string) : TextMessage := with_message self (Some v).
Definition mut_message (self : TextMessage) : TextMessage * Pointer TextMessage string :=
  let self := if has (message self) then self else with_message self (Some EmptyString) in
  (self, pointer (unwrap_or (message self) EmptyString) (fun v => with_message self (Some v))).
Definition take_message (self : TextMessage) : string * TextMessage := (unwrap_or (message self) EmptyString, with_message self None).

Definition clear (self : TextMessage) : TextMessage :=
  let self := with_actor self None in
  let self := with_session self [] in
  let self := with_channel_id self [] in
  let self := with_tree_id self [] in
  let self := with_message self None in
  self.

Definition descriptor_static : list (FieldAccessor TextMessage) :=
  [make_option_accessor ProtobufTypeUint32 "actor" actor with_actor;
   make_vec_accessor ProtobufTypeUint32 "session" session with_session;
   make_vec_accessor ProtobufTypeUint32 "channel_id" channel_id with_channel_id;
   make_vec_accessor ProtobufTypeUint32 "tree_id" tree_id with_tree_id;
   make_singular_field_accessor ProtobufTypeString "message" message with_message].

(** The accessors of the fields, in the order of the fields. *)
Definition accessors : list (Accessor TextMessage) :=
  [Optional Uint32 get_actor has_actor set_actor clear_actor;
   Repeated Uint32 get_session set_session clear_session mut_session take_session;
   Repeated Uint32 get_channel_id set_channel_id clear_channel_id mut_channel_id take_channel_id;
   Repeated Uint32 get_tree_id set_tree_id clear_tree_id mut_tree_id take_tree_id;
   Singular Text get_message has_message set_message clear_message mut_message take_message].
End TextMessageAccess.

(** *** [PermissionDenied] *)

Module PermissionDeniedAccess.
Import PermissionDeniedMsg PermissionDeniedCodec.

Definition get_permission (self : PermissionDenied) : Z := unwrap_or (permission self) 0.
Definition clear_permission (self : PermissionDenied) : PermissionDenied := with_permission self None.
Definition has_permission (self : PermissionDenied) : bool := has (permission self).
Definition set_permission (self : PermissionDenied) (v : Z) : PermissionDenied := with_permission self (Some v).

Definition get_channel_id (self : PermissionDenied) : Z := unwrap_or (channel_id self) 0.
Definition clear_channel_id (self : PermissionDenied) : PermissionDenied := with_channel_id self None.
Definition has_channel_id (self : PermissionDenied) : bool := has (channel_id self).
Definition set_channel_id (self : PermissionDenied) (v : Z) : PermissionDenied := with_channel_id self (Some v).

Definition get_session (self : PermissionDenied) : Z := unwrap_or (session self) 0.
Definition clear_session (self : PermissionDenied) : PermissionDenied := with_session self None.
Definition has_session (self : PermissionDenied) : bool := has (session self).
Definition set_session (self : PermissionDenied) (v : Z) : PermissionDenied := with_session self (Some v).

Definition get_reason (self : PermissionDenied) : string := unwrap_or (reason self) EmptyString.
Definition clear_reason (self : PermissionDenied) : PermissionDenied := with_reason self None.
Definition has_reason (self : PermissionDenied) : bool := has (reason self).
Definition set_reason (self : PermissionDenied) (v : string) : PermissionDenied := with_reason self (Some v).
Definition mut_reason (self : PermissionDenied) : PermissionDenied * Pointer PermissionDenied string :=
  let self := if has (reason self) then self else with_reason self (Some EmptyString) in
  (self, pointer (unwrap_or (reason self) EmptyString) (fun v => with_reason self (Some v))).
Definition take_reason (self : PermissionDenied) : string * PermissionDenied := (unwrap_or (reason self) EmptyString, with_reason self None).

Definition get_field_type (self : PermissionDenied) : PermissionDenied_DenyType.PermissionDenied_DenyType := unwrap_or (field_type self) PermissionDenied_DenyType.Text.
Definition clear_field_type (self : PermissionDenied) : PermissionDenied := with_field_type self None.
Definition has_field_type (self : PermissionDenied) : bool := has (field_type self).
Definition set_field_type (self : PermissionDenied) (v : PermissionDenied_DenyType.PermissionDenied_DenyType) : PermissionDenied := with_field_type self (Some v).

Definition get_name (self : PermissionDenied) : string := unwrap_or (name self) EmptyString.
Definition clear_name (self : PermissionDenied) : PermissionDenied := with_name self None.
Definition has_name (self : PermissionDenied) : bool := has (name self).
Definition set_name (self : PermissionDenied) (v : string) : PermissionDenied := with_name self (Some v).
Definition mut_name (self : PermissionDenied) : PermissionDenied * Pointer PermissionDenied string :=
  let self := if has (name self) then self else with_name self (Some EmptyString) in
  (self, pointer (unwrap_or (name self) EmptyString) (fun v => with_name self (Some v))).
Definition take_name (self : PermissionDenied) : string * PermissionDenied := (unwrap_or (name self) EmptyString, with_name self None).

Definition clear (self : PermissionDenied) : PermissionDenied :=
  let self := with_permission self None in
  let self := with_channel_id self None in
  let self := with_session self None in
  let self := with_reason self None in
  let self := with_field_type self None in
  let self := with_name self None in
  self.

Definition descriptor_static : list (FieldAccessor PermissionDenied) :=
  [make_option_accessor ProtobufTypeUint32 "permission" permission with_permission;
   make_option_accessor ProtobufTypeUint32 "channel_id" channel_id with_channel_id;
   make_option_accessor ProtobufTypeUint32 "session" session with_session;
   make_singular_field_accessor ProtobufTypeString "reason" reason with_reason;
   make_option_accessor (ProtobufTypeEnum Fields.PermissionDenied_DenyType) "type" field_type with_field_type;
   make_singular_field_accessor ProtobufTypeString "name" name with_name].

(** The accessors of the fields, in the order of the fields. *)
Definition accessors : list (Accessor PermissionDenied) :=
  [Optional Uint32 get_permission has_permission set_permission clear_permission;
   Optional Uint32 get_channel_id has_channel_id set_channel_id clear_channel_id;
   Optional Uint32 get_session has_session set_session clear_session;
   Singular Text get_reason has_reason set_reason clear_reason mut_reason take_reason;
   Optional DenyType get_field_type has_field_type set_field_type clear_field_type;
   Singular Text get_name has_name set_name clear_name mut_name take_name].
End PermissionDeniedAccess.

(** *** [ACL_ChanGroup] *)

Module ACL_ChanGroupAccess.
Import ACL_ChanGroupMsg ACL_ChanGroupCodec.

Definition get_name (self : ACL_ChanGroup) : string := unwrap_or (name self) EmptyString.
Definition clear_name (self : ACL_ChanGroup) : ACL_ChanGroup := with_name self None.
Definition has_name (self : ACL_ChanGroup) : bool := has (name self).
Definition set_name (self : ACL_ChanGroup) (v : string) : ACL_ChanGroup := with_name self (Some v).
Definition mut_name (self : ACL_ChanGroup) : ACL_ChanGroup * Pointer ACL_ChanGroup string :=
  let self := if has (name self) then self else with_name self (Some EmptyString) in
  (self, pointer (unwrap_or (name self) EmptyString) (fun v => with_name self (Some v))).
Definition take_name (self : ACL_ChanGroup) : string * ACL_ChanGroup := (unwrap_or (name self) EmptyString, with_name self None).

Definition get_inherited (self : ACL_ChanGroup) : bool := unwrap_or (inherited self) true.
Definition clear_inherited (self : ACL_ChanGroup) : ACL_ChanGroup := with_inherited self None.
Definition has_inherited (self : ACL_ChanGroup) : bool := has (inherited self).
Definition set_inherited (self : ACL_ChanGroup) (v : bool) : ACL_ChanGroup := with_inherited self (Some v).

Definition get_inherit (self : ACL_ChanGroup) : bool := unwrap_or (inherit self) true.
Definition clear_inherit (self : ACL_ChanGroup) : ACL_ChanGroup := with_inherit self None.
Definition has_inherit (self : ACL_ChanGroup) : bool := has (inherit self).
Definition set_inherit (self : ACL_ChanGroup) (v : bool) : ACL_ChanGroup := with_inherit self (Some v).

Definition get_inheritable (self : ACL_ChanGroup) : bool := unwrap_or (inheritable self) true.
Definition clear_inheritable (self : ACL_ChanGroup) : ACL_ChanGroup := with_inheritable self None.
Definition has_inheritable (self : ACL_ChanGroup) : bool := has (inheritable self).
Definition set_inheritable (self : ACL_ChanGroup) (v : bool) : ACL_ChanGroup := with_inheritable self (Some v).

Definition get_add (self : ACL_ChanGroup) : list Z := add self.
Definition clear_add (self : ACL_ChanGroup) : ACL_ChanGroup := with_add self [].
Definition set_add (self : ACL_ChanGroup) (v : list Z) : ACL_ChanGroup := with_add self v.
Definition mut_add (self : ACL_ChanGroup) : ACL_ChanGroup * Pointer ACL_ChanGroup (list Z) := (self, pointer (add self) (fun v => with_add self v)).
Definition take_add (self : ACL_ChanGroup) : (list Z) * ACL_ChanGroup := (add self, with_add self []).

Definition get_remove (self : ACL_ChanGroup) : list Z := remove self.
Definition clear_remove (self : ACL_ChanGroup) : ACL_ChanGroup := with_remove self [].
Definition set_remove (self : ACL_ChanGroup) (v : list Z) : ACL_ChanGroup := with_remove self v.
Definition mut_remove (self : ACL_ChanGroup) : ACL_ChanGroup * Pointer ACL_ChanGroup (list Z) := (self, pointer (remove self) (fun v => with_remove self v)).
Definition take_remove (self : ACL_ChanGroup) : (list Z) * ACL_ChanGroup := (remove self, with_remove self []).

Definition get_inherited_members (self : ACL_ChanGroup) : list Z := inherited_members self.
Definition clear_inherited_members (self : ACL_ChanGroup) : ACL_ChanGroup := with_inherited_members self [].
Definition set_inherited_members (self : ACL_ChanGroup) (v : list Z) : ACL_ChanGroup := with_inherited_members self v.
Definition mut_inherited_members (self : ACL_ChanGroup) : ACL_ChanGroup * Pointer ACL_ChanGroup (list Z) := (self, pointer (inherited_members self) (fun v => with_inherited_members self v)).
Definition take_inherited_members (self : ACL_ChanGroup) : (list Z) * ACL_ChanGroup := (inherited_members self, with_inherited_members self []).

Definition clear (self : ACL_ChanGroup) : ACL_ChanGroup :=
  let self := with_name self None in
  let self := with_inherited self None in
  let self := with_inherit self None in
  let self := with_inheritable self None in
  let self := with_add self [] in
  let self := with_remove self [] in
  let self := with_inherited_members self [] in
  self.

Definition descriptor_static : list (FieldAccessor ACL_ChanGroup) :=
  [make_singular_field_accessor ProtobufTypeString "name" name with_name;
   make_option_accessor ProtobufTypeBool "inherited" inherited with_inherited;
   make_option_accessor ProtobufTypeBool "inherit" inherit with_inherit;
   make_option_accessor ProtobufTypeBool "inheritable" inheritable with_inheritable;
   make_vec_accessor ProtobufTypeUint32 "add" add with_add;
   make_vec_accessor ProtobufTypeUint32 "remove" remove with_remove;
   make_vec_accessor ProtobufTypeUint32 "inherited_members" inherited_members with_inherited_members].

(** The accessors of the fields, in the order of the fields. *)
Definition accessors : list (Accessor ACL_ChanGroup) :=
  [Singular Text get_name has_name set_name clear_name mut_name take_name;
   Optional Bool get_inherited has_inherited set_inherited clear_inherited;
   Optional Bool get_inherit has_inherit set_inherit clear_inherit;
   Optional Bool get_inheritable has_inheritable set_inheritable clear_inheritable;
   Repeated Uint32 get_add set_add clear_add mut_add take_add;
   Repeated Uint32 get_remove set_remove clear_remove mut_remove take_remove;
   Repeated Uint32 get_inherited_members set_inherited_members clear_inherited_members mut_inherited_members take_inherited_members].
End ACL_ChanGroupAccess.

(** *** [ACL_ChanACL] *)

Module ACL_ChanACLAccess.
Import ACL_ChanACLMsg ACL_ChanACLCodec.

Definition get_apply_here (self : ACL_ChanACL) : bool := unwrap_or (apply_here self) true.
Definition clear_apply_here (self : ACL_ChanACL) : ACL_ChanACL := with_apply_here self None.
Definition has_apply_here (self : ACL_ChanACL) : bool := has (apply_here self).
Definition set_apply_here (self : ACL_ChanACL) (v : bool) : ACL_ChanACL := with_apply_here self (Some v).

Definition get_apply_subs (self : ACL_ChanACL) : bool := unwrap_or (apply_subs self) true.
Definition clear_apply_subs (self : ACL_ChanACL) : ACL_ChanACL := with_apply_subs self None.
Definition has_apply_subs (self : ACL_ChanACL) : bool := has (apply_subs self).
Definition set_apply_subs (self : ACL_ChanACL) (v : bool) : ACL_ChanACL := with_apply_subs self (Some v).

Definition get_inherited (self : ACL_ChanACL) : bool := unwrap_or (inherited self) true.
Definition clear_inherited (self : ACL_ChanACL) : ACL_ChanACL := with_inherited self None.
Definition has_inherited (self : ACL_ChanACL) : bool := has (inherited self).
Definition set_inherited (self : ACL_ChanACL) (v : bool) : ACL_ChanACL := with_inherited self (Some v).

Definition get_user_id (self : ACL_ChanACL) : Z := unwrap_or (user_id self) 0.
Definition clear_user_id (self : ACL_ChanACL) : ACL_ChanACL := with_user_id self None.
Definition has_user_id (self : ACL_ChanACL) : bool := has (user_id self).
Definition set_user_id (self : ACL_ChanACL) (v : Z) : ACL_ChanACL := with_user_id self (Some v).

Definition get_group (self : ACL_ChanACL) : string := unwrap_or (group self) EmptyString.
Definition clear_group (self : ACL_ChanACL) : ACL_ChanACL := with_group self None.
Definition has_group (self : ACL_ChanACL) : bool := has (group self).
Definition set_group (self : ACL_ChanACL) (v : string) : ACL_ChanACL := with_group self (Some v).
Definition mut_group (self : ACL_ChanACL) : ACL_ChanACL * Pointer ACL_ChanACL string :=
  let self := if has (group self) then self else with_group self (Some EmptyString) in
  (self, pointer (unwrap_or (group self) EmptyString) (fun v => with_group self (Some v))).
Definition take_group (self : ACL_ChanACL) : string * ACL_ChanACL := (unwrap_or (group self) EmptyString, with_group self None).

Definition get_grant (self : ACL_ChanACL) : Z := unwrap_or (grant self) 0.
Definition clear_grant (self : ACL_ChanACL) : ACL_ChanACL := with_grant self None.
Definition has_grant (self : ACL_ChanACL) : bool := has (grant self).
Definition set_grant (self : ACL_ChanACL) (v : Z) : ACL_ChanACL := with_grant self (Some v).

Definition get_deny (self : ACL_ChanACL) : Z := unwrap_or (deny self) 0.
Definition clear_deny (self : ACL_ChanACL) : ACL_ChanACL := with_deny self None.
Definition has_deny (self : ACL_ChanACL) : bool := has (deny self).
Definition set_deny (self : ACL_ChanACL) (v : Z) : ACL_ChanACL := with_deny self (Some v).

Definition clear (self : ACL_ChanACL) : ACL_ChanACL :=
  let self := with_apply_here self None in
  let self := with_apply_subs self None in
  let self := with_inherited self None in
  let self := with_user_id self None in
  let self := with_group self None in
  let self := with_grant self None in
  let self := with_deny self None in
  self.

Definition descriptor_static : list (FieldAccessor ACL_ChanACL) :=
  [make_option_accessor ProtobufTypeBool "apply_here" apply_here with_apply_here;
   make_option_accessor ProtobufTypeBool "apply_subs" apply_subs with_apply_subs;
   make_option_accessor ProtobufTypeBool "inherited" inherited with_inherited;
   make_option_accessor ProtobufTypeUint32 "user_id" user_id with_user_id;
   make_singular_field_accessor ProtobufTypeString "group" group with_group;
   make_option_accessor ProtobufTypeUint32 "grant" grant with_grant;
   make_option_accessor ProtobufTypeUint32 "deny" deny with_deny].

(** The accessors of the fields, in the order of the fields. *)
Definition accessors : list (Accessor ACL_ChanACL) :=
  [Optional Bool get_apply_here has_apply_here set_apply_here clear_apply_here;
   Optional Bool get_apply_subs has_apply_subs set_apply_subs clear_apply_subs;
   Optional Bool get_inherited has_inherited set_inherited clear_inherited;
   Optional Uint32 get_user_id has_user_id set_user_id clear_user_id;
   Singular Text get_group has_group set_group clear_group mut_group take_group;
   Optional Uint32 get_grant has_grant set_grant clear_grant;
   Optional Uint32 get_deny has_deny set_deny clear_deny].
End ACL_ChanACLAccess.

(** *** [ACL] *)

Module ACLAccess.
Import ACLMsg ACLCodec.

Definition get_channel_id (self : ACL) : Z := unwrap_or (channel_id self) 0.
Definition clear_channel_id (self : ACL) : ACL := with_channel_id self None.
Definition has_channel_id (self : ACL) : bool := has (channel_id self).
Definition set_channel_id (self : ACL) (v : Z) : ACL := with_channel_id self (Some v).

Definition get_inherit_acls (self : ACL) : bool := unwrap_or (inherit_acls self) true.
Definition clear_inherit_acls (self : ACL) : ACL := with_inherit_acls self None.
Definition has_inherit_acls (self : ACL) : bool := has (inherit_acls self).
Definition set_inherit_acls (self : ACL) (v : bool) : ACL := with_inherit_acls self (Some v).

Definition get_groups (self : ACL) : list ACL_ChanGroupMsg.ACL_ChanGroup := groups self.
Definition clear_groups (self : ACL) : ACL := with_groups self [].
Definition set_groups (self : ACL) (v : list ACL_ChanGroupMsg.ACL_ChanGroup) : ACL := with_groups self v.
Definition mut_groups (self : ACL) : ACL * Pointer ACL (list ACL_ChanGroupMsg.ACL_ChanGroup) := (self, pointer (groups self) (fun v => with_groups self v)).
Definition take_groups (self : ACL) : (list ACL_ChanGroupMsg.ACL_ChanGroup) * ACL := (groups self, with_groups self []).

Definition get_acls (self : ACL) : list ACL_ChanACLMsg.ACL_ChanACL := acls self.
Definition clear_acls (self : ACL) : ACL := with_acls self [].
Definition set_acls (self : ACL) (v : list ACL_ChanACLMsg.ACL_ChanACL) : ACL := with_acls self v.
Definition mut_acls (self : ACL) : ACL * Pointer ACL (list ACL_ChanACLMsg.ACL_ChanACL) := (self, pointer (acls self) (fun v => with_acls self v)).
Definition take_acls (self : ACL) : (list ACL_ChanACLMsg.ACL_ChanACL) * ACL := (acls self, with_acls self []).

Definition get_query (self : ACL) : bool := unwrap_or (query self) false.
Definition clear_query (self : ACL) : ACL := with_query self None.
Definition has_query (self : ACL) : bool := has (query self).
Definition set_query (self : ACL) (v : bool) : ACL := with_query self (Some v).

Definition clear (self : ACL) : ACL :=
  let self := with_channel_id self None in
  let self := with_inherit_acls self None in
  let self := with_groups self [] in
  let self := with_acls self [] in
  let self := with_query self None in
  self.

Definition descriptor_static : list (FieldAccessor ACL) :=
  [make_option_accessor ProtobufTypeUint32 "channel_id" channel_id with_channel_id;
   make_option_accessor ProtobufTypeBool "inherit_acls" inherit_acls with_inherit_acls;
   make_repeated_field_accessor (ProtobufTypeMessage Fields.ACL_ChanGroup) "groups" groups with_groups;
   make_repeated_field_accessor (ProtobufTypeMessage Fields.ACL_ChanACL) "acls" acls with_acls;
   make_option_accessor ProtobufTypeBool "query" query with_query].

(** The accessors of the fields, in the order of the fields. *)
Definition accessors : list (Accessor ACL) :=
  [Optional Uint32 get_channel_id has_channel_id set_channel_id clear_channel_id;
   Optional Bool get_inherit_acls has_inherit_acls set_inherit_acls clear_inherit_acls;
   Repeated ChanGroup get_groups set_groups clear_groups mut_groups take_groups;
   Repeated ChanACL get_acls set_acls clear_acls mut_acls take_acls;
   Optional Bool get_query has_query set_query clear_query].
End ACLAccess.

(** *** [QueryUsers] *)

Module QueryUsersAccess.
Import QueryUsersMsg QueryUsersCodec.

Definition get_ids (self : QueryUsers) : list Z := ids self.
Definition clear_ids (self : QueryUsers) : QueryUsers := with_ids self [].
Definition set_ids (self : QueryUsers) (v : list Z) : QueryUsers := with_ids self v.
Definition mut_ids (self : QueryUsers) : QueryUsers * Pointer QueryUsers (list Z) := (self, pointer (ids self) (fun v => with_ids self v)).
Definition take_ids (self : QueryUsers) : (list Z) * QueryUsers := (ids self, with_ids self []).

Definition get_names (self : QueryUsers) : list string := names self.
Definition clear_names (self : QueryUsers) : QueryUsers := with_names self [].
Definition set_names (self : QueryUsers) (v : list string) : QueryUsers := with_names self v.
Definition mut_names (self : QueryUsers) : QueryUsers * Pointer QueryUsers (list string) := (self, pointer (names self) (fun v => with_names self v)).
Definition take_names (self : QueryUsers) : (list string) * QueryUsers := (names self, with_names self []).

Definition clear (self : QueryUsers) : QueryUsers :=
  let self := with_ids self [] in
  let self := with_names self [] in
  self.

Definition descriptor_static : list (FieldAccessor QueryUsers) :=
  [make_vec_accessor ProtobufTypeUint32 "ids" ids with_ids;
   make_repeated_field_accessor ProtobufTypeString "names" names with_names].

(** The accessors of the fields, in the order of the fields. *)
Definition accessors : list (Accessor QueryUsers) :=
  [Repeated Uint32 get_ids set_ids clear_ids mut_ids take_ids;
   Repeated Text get_names set_names clear_names mut_names take_names].
End QueryUsersAccess.

(** *** [ContextActionModify] *)

Module ContextActionModifyAccess.
Import ContextActionModifyMsg ContextActionModifyCodec.

Definition get_action (self : ContextActionModify) : string := unwrap_or (action self) EmptyString.
Definition clear_action (self : ContextActionModify) : ContextActionModify := with_action self None.
Definition has_action (self : ContextActionModify) : bool := has (action self).
Definition set_action (self : ContextActionModify) (v : string) : ContextActionModify := with_action self (Some v).
Definition mut_action (self : ContextActionModify) : ContextActionModify * Pointer ContextActionModify string :=
  let self := if has (action self) then self else with_action self (Some EmptyString) in
  (self, pointer (unwrap_or (action self) EmptyString) (fun v => with_action self (Some v))).
Definition take_action (self : ContextActionModify) : string * ContextActionModify := (unwrap_or (action self) EmptyString, with_action self None).

Definition get_text (self : ContextActionModify) : string := unwrap_or (text self) EmptyString.
Definition clear_text (self : ContextActionModify) : ContextActionModify := with_text self None.
Definition has_text (self : ContextActionModify) : bool := has (text self).
Definition set_text (self : ContextActionModify) (v : string) : ContextActionModify := with_text self (Some v).
Definition mut_text (self : ContextActionModify) : ContextActionModify * Pointer ContextActionModify string :=
  let self := if has (text self) then self else with_text self (Some EmptyString) in
  (self, pointer (unwrap_or (text self) EmptyString) (fun v => with_text self (Some v))).
Definition take_text (self : ContextActionModify) : string * ContextActionModify := (unwrap_or (text self) EmptyString, with_text self None).

Definition get_context (self : ContextActionModify) : Z := unwrap_or (context self) 0.
Definition clear_context (self : ContextActionModify) : ContextActionModify := with_context self None.
Definition has_context (self : ContextActionModify) : bool := has (context self).
Definition set_context (self : ContextActionModify) (v : Z) : ContextActionModify := with_context self (Some v).

Definition get_operation (self : ContextActionModify) : ContextActionModify_Operation.ContextActionModify_Operation := unwrap_or (operation self) ContextActionModify_Operation.Add.
Definition clear_operation (self : ContextActionModify) : ContextActionModify := with_operation self None.
Definition has_operation (self : ContextActionModify) : bool := has (operation self).
Definition set_operation (self : ContextActionModify) (v : ContextActionModify_Operation.ContextActionModify_Operation) : ContextActionModify := with_operation self (Some v).

Definition clear (self : ContextActionModify) : ContextActionModify :=
  let self := with_action self None in
  let self := with_text self None in
  let self := with_context self None in
  let self := with_operation self None in
  self.

Definition descriptor_static : list (FieldAccessor ContextActionModify) :=
  [make_singular_field_accessor ProtobufTypeString "action" action with_action;
   make_singular_field_accessor ProtobufTypeString "text" text with_text;
   make_option_accessor ProtobufTypeUint32 "context" context with_context;
   make_option_accessor (ProtobufTypeEnum Fields.ContextActionModify_Operation) "operation" operation with_operation].

(** The accessors of the fields, in the order of the fields. *)
Definition accessors : list (Accessor ContextActionModify) :=
  [Singular Text get_action has_action set_action clear_action mut_action take_action;
   Singular Text get_text has_text set_text clear_text mut_text take_text;
   Optional Uint32 get_context has_context set_context clear_context;
   Optional Operation get_operation has_operation set_operation clear_operation].
End ContextActionModifyAccess.

(** *** [ContextAction] *)

Module ContextActionAccess.
Import ContextActionMsg ContextActionCodec.

Definition get_session (self : ContextAction) : Z := unwrap_or (session self) 0.
Definition clear_session (self : ContextAction) : ContextAction := with_session self None.
Definition has_session (self : ContextAction) : bool := has (session self).
Definition set_session (self : ContextAction) (v : Z) : ContextAction := with_session self (Some v).

Definition get_channel_id (self : ContextAction) : Z := unwrap_or (channel_id self) 0.
Definition clear_channel_id (self : ContextAction) : ContextAction := with_channel_id self None.
Definition has_channel_id (self : ContextAction) : bool := has (channel_id self).
Definition set_channel_id (self : ContextAction) (v : Z) : ContextAction := with_channel_id self (Some v).

Definition get_action (self : ContextAction) : string := unwrap_or (action self) EmptyString.
Definition clear_action (self : ContextAction) : ContextAction := with_action self None.
Definition has_action (self : ContextAction) : bool := has (action self).
Definition set_action (self : ContextAction) (v : string) : ContextAction := with_action self (Some v).
Definition mut_action (self : ContextAction) : ContextAction * Pointer ContextAction string :=
  let self := if has (action self) then self else with_action self (Some EmptyString) in
  (self, pointer (unwrap_or (action self) EmptyString) (fun v => with_action self (Some v))).
Definition take_action (self : ContextAction) : string * ContextAction := (unwrap_or (action self) EmptyString, with_action self None).

Definition clear (self : ContextAction) : ContextAction :=
  let self := with_session self None in
  let self := with_channel_id self None in
  let self := with_action self None in
  self.

Definition descriptor_static : list (FieldAccessor ContextAction) :=
  [make_option_accessor ProtobufTypeUint32 "session" session with_session;
   make_option_accessor ProtobufTypeUint32 "channel_id" channel_id with_channel_id;
   make_singular_field_accessor ProtobufTypeString "action" action with_action].

(** The accessors of the fields, in the order of the fields. *)
Definition accessors : list (Accessor ContextAction) :=
  [Optional Uint32 get_session has_session set_session clear_session;
   Optional Uint32 get_channel_id has_channel_id set_channel_id clear_channel_id;
   Singular Text get_action has_action set_action clear_action mut_action take_action].
End ContextActionAccess.

(** *** [UserList_User] *)

Module UserList_UserAccess.
Import UserList_UserMsg UserList_UserCodec.

Definition get_user_id (self : UserList_User) : Z := unwrap_or (user_id self) 0.
Definition clear_user_id (self : UserList_User) : UserList_User := with_user_id self None.
Definition has_user_id (self : UserList_User) : bool := has (user_id self).
Definition set_user_id (self : UserList_User) (v : Z) : UserList_User := with_user_id self (Some v).

Definition get_name (self : UserList_User) : string := unwrap_or (name self) EmptyString.
Definition clear_name (self : UserList_User) : UserList_User := with_name self None.
Definition has_name (self : UserList_User) : bool := has (name self).
Definition set_name (self : UserList_User) (v : string) : UserList_User := with_name self (Some v).
Definition mut_name (self : UserList_User) : UserList_User * Pointer UserList_User string :=
  let self := if has (name self) then self else with_name self (Some EmptyString) in
  (self, pointer (unwrap_or (name self) EmptyString) (fun v => with_name self (Some v))).
Definition take_name (self : UserList_User) : string * UserList_User := (unwrap_or (name self) EmptyString, with_name self None).

Definition get_last_seen (self : UserList_User) : string := unwrap_or (last_seen self) EmptyString.
Definition clear_last_seen (self : UserList_User) : UserList_User := with_last_seen self None.
Definition has_last_seen (self : UserList_User) : bool := has (last_seen self).
Definition set_last_seen (self : UserList_User) (v : string) : UserList_User := with_last_seen self (Some v).
Definition mut_last_seen (self : UserList_User) : UserList_User * Pointer UserList_User string :=
  let self := if has (last_seen self) then self else with_last_seen self (Some EmptyString) in
  (self, pointer (unwrap_or (last_seen self) EmptyString) (fun v => with_last_seen self (Some v))).
Definition take_last_seen (self : UserList_User) : string * UserList_User := (unwrap_or (last_seen self) EmptyString, with_last_seen self None).

Definition get_last_channel (self : UserList_User) : Z := unwrap_or (last_channel self) 0.
Definition clear_last_channel (self : UserList_User) : UserList_User := with_last_channel self None.
Definition has_last_channel (self : UserList_User) : bool := has (last_channel self).
Definition set_last_channel (self : UserList_User) (v : Z) : UserList_User := with_last_channel self (Some v).

Definition clear (self : UserList_User) : UserList_User :=
  let self := with_user_id self None in
  let self := with_name self None in
  let self := with_last_seen self None in
  let self := with_last_channel self None in
  self.

Definition descriptor_static : list (FieldAccessor UserList_User) :=
  [make_option_accessor ProtobufTypeUint32 "user_id" user_id with_user_id;
   make_singular_field_accessor ProtobufTypeString "name" name with_name;
   make_singular_field_accessor ProtobufTypeString "last_seen" last_seen with_last_seen;
   make_option_accessor ProtobufTypeUint32 "last_channel" last_channel with_last_channel].

(** The accessors of the fields, in the order of the fields. *)
Definition accessors : list (Accessor UserList_User) :=
  [Optional Uint32 get_user_id has_user_id set_user_id clear_user_id;
   Singular Text get_name has_name set_name clear_name mut_name take_name;
   Singular Text get_last_seen has_last_seen set_last_seen clear_last_seen mut_last_seen take_last_seen;
   Optional Uint32 get_last_channel has_last_channel set_last_channel clear_last_channel].
End UserList_UserAccess.

(** *** [UserList] *)

Module UserListAccess.
Import UserListMsg UserListCodec.

Definition get_users (self : UserList) : list UserList_UserMsg.UserList_User := users self.
Definition clear_users (self : UserList) : UserList := with_users self [].
Definition set_users (self : UserList) (v : list UserList_UserMsg.UserList_User) : UserList := with_users self v.
Definition mut_users (self : UserList) : UserList * Pointer UserList (list UserList_UserMsg.UserList_User) := (self, pointer (users self) (fun v => with_users self v)).
Definition take_users (self : UserList) : (list UserList_UserMsg.UserList_User) * UserList := (users self, with_users self []).

Definition clear (self : UserList) : UserList :=
  let self := with_users self [] in
  self.

Definition descriptor_static : list (FieldAccessor UserList) :=
  [make_repeated_field_accessor (ProtobufTypeMessage Fields.UserList_User) "users" users with_users].

(** The accessors of the fields, in the order of the fields. *)
Definition accessors : list (Accessor UserList) :=
  [Repeated User get_users set_users clear_users mut_users take_users].
End UserListAccess.

(** *** [RequestBlob] *)

Module RequestBlobAccess.
Import RequestBlobMsg RequestBlobCodec.

Definition get_session_texture (self : RequestBlob) : list Z := session_texture self.
Definition clear_session_texture (self : RequestBlob) : RequestBlob := with_session_texture self [].
Definition set_session_texture (self : RequestBlob) (v : list Z) : RequestBlob := with_session_texture self v.
Definition mut_session_texture (self : RequestBlob) : RequestBlob * Pointer RequestBlob (list Z) := (self, pointer (session_texture self) (fun v => with_session_texture self v)).
Definition take_session_texture (self : RequestBlob) : (list Z) * RequestBlob := (session_texture self, with_session_texture self []).

Definition get_session_comment (self : RequestBlob) : list Z := session_comment self.
Definition clear_session_comment (self : RequestBlob) : RequestBlob := with_session_comment self [].
Definition set_session_comment (self : RequestBlob) (v : list Z) : RequestBlob := with_session_comment self v.
Definition mut_session_comment (self : RequestBlob) : RequestBlob * Pointer RequestBlob (list Z) := (self, pointer (session_comment self) (fun v => with_session_comment self v)).
Definition take_session_comment (self : RequestBlob) : (list Z) * RequestBlob := (session_comment self, with_session_comment self []).

Definition get_channel_description (self : RequestBlob) : list Z := channel_description self.
Definition clear_channel_description (self : RequestBlob) : RequestBlob := with_channel_description self [].
Definition set_channel_description (self : RequestBlob) (v : list Z) : RequestBlob := with_channel_description self v.
Definition mut_channel_description (self : RequestBlob) : RequestBlob * Pointer RequestBlob (list Z) := (self, pointer (channel_description self) (fun v => with_channel_description self v)).
Definition take_channel_description (self : RequestBlob) : (list Z) * RequestBlob := (channel_description self, with_channel_description self []).

Definition clear (self : RequestBlob) : RequestBlob :=
  let self := with_session_texture self [] in
  let self := with_session_comment self [] in
  let self := with_channel_description self [] in
  self.

Definition descriptor_static : list (FieldAccessor RequestBlob) :=
  [make_vec_accessor ProtobufTypeUint32 "session_texture" session_texture with_session_texture;
   make_vec_accessor ProtobufTypeUint32 "session_comment" session_comment with_session_comment;
   make_vec_accessor ProtobufTypeUint32 "channel_description" channel_description with_channel_description].

(** The accessors of the fields, in the order of the fields. *)
Definition accessors : list (Accessor RequestBlob) :=
  [Repeated Uint32 get_session_texture set_session_texture clear_session_texture mut_session_texture take_session_texture;
   Repeated Uint32 get_session_comment set_session_comment clear_session_comment mut_session_comment take_session_comment;
   Repeated Uint32 get_channel_description set_channel_description clear_channel_description mut_channel_description take_channel_description].
End RequestBlobAccess.

(** *** [SuggestConfig] *)

Module SuggestConfigAccess.
Import SuggestConfigMsg SuggestConfigCodec.

Definition get_version (self : SuggestConfig) : Z := unwrap_or (version self) 0.
Definition clear_version (self : SuggestConfig) : SuggestConfig := with_version self None.
Definition has_version (self : SuggestConfig) : bool := has (version self).
Definition set_version (self : SuggestConfig) (v : Z) : SuggestConfig := with_version self (Some v).

Definition get_positional (self : SuggestConfig) : bool := unwrap_or (positional self) false.
Definition clear_positional (self : SuggestConfig) : SuggestConfig := with_positional self None.
Definition has_positional (self : SuggestConfig) : bool := has (positional self).
Definition set_positional (self : SuggestConfig) (v : bool) : SuggestConfig := with_positional self (Some v).

Definition get_push_to_talk (self : SuggestConfig) : bool := unwrap_or (push_to_talk self) false.
Definition clear_push_to_talk (self : SuggestConfig) : SuggestConfig := with_push_to_talk self None.
Definition has_push_to_talk (self : SuggestConfig) : bool := has (push_to_talk self).
Definition set_push_to_talk (self : SuggestConfig) (v : bool) : SuggestConfig := with_push_to_talk self (Some v).

Definition clear (self : SuggestConfig) : SuggestConfig :=
  let self := with_version self None in
  let self := with_positional self None in
  let self := with_push_to_talk self None in
  self.

Definition descriptor_static : list (FieldAccessor SuggestConfig) :=
  [make_option_accessor ProtobufTypeUint32 "version" version with_version;
   make_option_accessor ProtobufTypeBool "positional" positional with_positional;
   make_option_accessor ProtobufTypeBool "push_to_talk" push_to_talk with_push_to_talk].

(** The accessors of the fields, in the order of the fields. *)
Definition accessors : list (Accessor SuggestConfig) :=
  [Optional Uint32 get_version has_version set_version clear_version;
   Optional Bool get_positional has_positional set_positional clear_positional;
   Optional Bool get_push_to_talk has_push_to_talk set_push_to_talk clear_push_to_talk].
End SuggestConfigAccess.
