(* ===== verification/Crypt.v ===== *)
(** The voice channel's authenticated encryption: [src/src/crypt.rs].

    AES-128 comes from the [aes] crate: the two block functions are the operations of the class
    [Aes128], and what the code relies on (a keyed permutation of 16-byte blocks) are its laws.
    The random key of a new state, and the clock, are arguments.  [u128::to_be] swaps the bytes: the
    server runs on little-endian machines. *)

From stdpp Require Import base list.
From Stdlib Require Import ZArith Lia.
From S2P Require Import Prelude Errors Varint Voice Messages.

Definition KEY_SIZE : nat := 16.
Definition BLOCK_SIZE : nat := 16.

(** ** The block cipher *)

Class Aes128 := {
  encrypt_block : list Z -> list Z -> list Z;
  decrypt_block : list Z -> list Z -> list Z;
}.

Definition block_ok (b : list Z) : Prop := length b = 16%nat /\ bytes_ok b.

Class Aes128Laws `{Aes128} := {
  encrypt_block_ok key b : block_ok key -> block_ok b -> block_ok (encrypt_block key b);
  decrypt_encrypt_block key b :
    block_ok key -> block_ok b -> decrypt_block key (encrypt_block key b) = b;
}.

(** ** State *)

(** [CryptState]; the expanded key [aes] is determined by [key]. *)
Record CryptState := mkCryptState {
  key : list Z;
  encrypt_nonce : Z;
  decrypt_nonce : Z;
  decrypt_history : list Z;
  good : Z;
  late : Z;
  lost : Z;
  resync : Z;
  last_good : Z;
  remote_late : Z;
  remote_good : Z;
  remote_lost : Z;
  remote_resync : Z;
}.

(** [CryptState::default]. *)
Definition default_crypt_state (random_key : list Z) (now : Z) : CryptState :=
  {| key := random_key;
     encrypt_nonce := 0;
     decrypt_nonce := Z.shiftl 1 127;
     decrypt_history := replicate 256 0;
     good := 0; late := 0; lost := 0; resync := 0;
     last_good := now;
     remote_late := 0; remote_good := 0; remote_lost := 0; remote_resync := 0 |}.

(** [CryptState::reset]: the key and the remote statistics stay. *)
Definition reset (st : CryptState) (now : Z) : CryptState :=
  {| key := key st;
     encrypt_nonce := 0;
     decrypt_nonce := Z.shiftl 1 127;
     decrypt_history := replicate 256 0;
     good := 0; late := 0; lost := 0; resync := 0;
     last_good := now;
     remote_late := remote_late st; remote_good := remote_good st;
     remote_lost := remote_lost st; remote_resync := remote_resync st |}.

Definition with_encrypt_nonce (st : CryptState) (n : Z) : CryptState :=
  {| key := key st; encrypt_nonce := n; decrypt_nonce := decrypt_nonce st;
     decrypt_history := decrypt_history st; good := good st; late := late st; lost := lost st;
     resync := resync st; last_good := last_good st; remote_late := remote_late st;
     remote_good := remote_good st; remote_lost := remote_lost st;
     remote_resync := remote_resync st |}.

Definition with_decrypt_nonce (st : CryptState) (n : Z) : CryptState :=
  {| key := key st; encrypt_nonce := encrypt_nonce st; decrypt_nonce := n;
     decrypt_history := decrypt_history st; good := good st; late := late st; lost := lost st;
     resync := resync st; last_good := last_good st; remote_late := remote_late st;
     remote_good := remote_good st; remote_lost := remote_lost st;
     remote_resync := remote_resync st |}.

Definition get_encrypt_nonce (st : CryptState) : list Z := le_bytes BLOCK_SIZE (encrypt_nonce st).
Definition get_decrypt_nonce (st : CryptState) : list Z := le_bytes BLOCK_SIZE (decrypt_nonce st).

(** [CryptState::set_decrypt_nonce]: [try_into().unwrap()] panics unless 16 bytes are given. *)
Definition set_decrypt_nonce (st : CryptState) (nonce : list Z) : Outcome CryptState :=
  if (length nonce =? BLOCK_SIZE)%nat then
    Done {| key := key st; encrypt_nonce := encrypt_nonce st;
            decrypt_nonce := from_le_bytes nonce;
            decrypt_history := decrypt_history st; good := good st; late := late st;
            lost := lost st; resync := as_u32 (resync st + 1); last_good := last_good st;
            remote_late := remote_late st; remote_good := remote_good st;
            remote_lost := remote_lost st; remote_resync := remote_resync st |}
  else Panic.

(** [CryptState::get_crypt_setup]. *)
Definition get_crypt_setup (st : CryptState) : CryptSetupMsg.CryptSetup :=
  {| CryptSetupMsg.key := Some (key st);
     CryptSetupMsg.client_nonce := Some (get_decrypt_nonce st);
     CryptSetupMsg.server_nonce := Some (get_encrypt_nonce st) |}.

(** ** AES-OCB *)

(** [s2]: doubling in GF(2^128). *)
Definition s2 (block : Z) : Z :=
  let rot := rotl1_u128 block in
  let carry := Z.land rot 1 in
  Z.lxor rot (carry * 134).

(** [u128::to_be] on a little-endian machine. *)
Definition to_be_u128 (z : Z) : Z := from_be_bytes (le_bytes 16 z).

Section ocb.
Context `{Aes128}.

Definition aes_encrypt (k : list Z) (data : Z) : Z :=
  from_be_bytes (encrypt_block k (be_bytes 16 data)).
Definition aes_decrypt (k : list Z) (data : Z) : Z :=
  from_be_bytes (decrypt_block k (be_bytes 16 data)).

(** The [while buf.len() > BLOCK_SIZE] loop of [ocb_encrypt]: the final offset and checksum,
    the encrypted blocks, and the last, short block, not yet encrypted. *)
Fixpoint ocb_encrypt_loop (fuel : nat) (k : list Z) (offset checksum : Z) (buf : list Z)
    : option (Z * Z * list Z * list Z) :=
  match fuel with
  | O => None
  | S fuel' =>
    if (BLOCK_SIZE <? length buf)%nat then
      let chunk := take BLOCK_SIZE buf in
      let remainder := drop BLOCK_SIZE buf in
      let offset := s2 offset in
      let plain := from_be_bytes chunk in
      let encrypted := Z.lxor (aes_encrypt k (Z.lxor offset plain)) offset in
      match ocb_encrypt_loop fuel' k offset (Z.lxor checksum plain) remainder with
      | Some (o, c, out, rest) => Some (o, c, be_bytes 16 encrypted ++ out, rest)
      | None => None
      end
    else Some (offset, checksum, [], buf)
  end.

(** [ocb_encrypt]: the encrypted buffer and the tag; [None] if [fuel] iterations do not
    suffice or the assertion on the last block fails ([ocb_total]: neither happens). *)
Definition ocb_encrypt_fuel (fuel : nat) (st : CryptState) (buf : list Z) : option (list Z * Z) :=
  let k := key st in
  let offset := aes_encrypt k (to_be_u128 (encrypt_nonce st)) in
  match ocb_encrypt_loop fuel k offset 0 buf with
  | None => None
  | Some (offset, checksum, out, rest) =>
    let offset := s2 offset in
    let len := length rest in
    if (len <=? BLOCK_SIZE)%nat then
      let pad := aes_encrypt k (Z.lxor (Z.of_nat (len * 8)) offset) in
      let block := rest ++ drop len (be_bytes 16 pad) in
      let plain := from_be_bytes block in
      let encrypted := Z.lxor pad plain in
      let last := take len (be_bytes 16 encrypted) in
      let checksum := Z.lxor checksum plain in
      Some (out ++ last, aes_encrypt k (Z.lxor (Z.lxor offset (s2 offset)) checksum))
    else None
  end.

Definition ocb_encrypt (st : CryptState) (buf : list Z) : list Z * Z :=
  match ocb_encrypt_fuel (S (length buf)) st buf with Some r => r | None => (buf, 0) end.

Fixpoint ocb_decrypt_loop (fuel : nat) (k : list Z) (offset checksum : Z) (buf : list Z)
    : option (Z * Z * list Z * list Z) :=
  match fuel with
  | O => None
  | S fuel' =>
    if (BLOCK_SIZE <? length buf)%nat then
      let chunk := take BLOCK_SIZE buf in
      let remainder := drop BLOCK_SIZE buf in
      let offset := s2 offset in
      let encrypted := from_be_bytes chunk in
      let plain := Z.lxor (aes_decrypt k (Z.lxor offset encrypted)) offset in
      match ocb_decrypt_loop fuel' k offset (Z.lxor checksum plain) remainder with
      | Some (o, c, out, rest) => Some (o, c, be_bytes 16 plain ++ out, rest)
      | None => None
      end
    else Some (offset, checksum, [], buf)
  end.

(** [ocb_decrypt]: the decrypted buffer and the tag to be compared. *)
Definition ocb_decrypt_fuel (fuel : nat) (st : CryptState) (buf : list Z) : option (list Z * Z) :=
  let k := key st in
  let offset := aes_encrypt k (to_be_u128 (decrypt_nonce st)) in
  match ocb_decrypt_loop fuel k offset 0 buf with
  | None => None
  | Some (offset, checksum, out, rest) =>
    let offset := s2 offset in
    let len := length rest in
    if (len <=? BLOCK_SIZE)%nat then
      let pad := aes_encrypt k (Z.lxor (Z.of_nat (len * 8)) offset) in
      let block := rest ++ replicate (BLOCK_SIZE - len) 0 in
      let plain := Z.lxor (from_be_bytes block) pad in
      let last := take len (be_bytes 16 plain) in
      let checksum := Z.lxor checksum plain in
      Some (out ++ last, aes_encrypt k (Z.lxor (Z.lxor offset (s2 offset)) checksum))
    else None
  end.

Definition ocb_decrypt (st : CryptState) (buf : list Z) : list Z * Z :=
  match ocb_decrypt_fuel (S (length buf)) st buf with Some r => r | None => (buf, 0) end.

(** ** Packets *)

(** [CryptState::encrypt]: the new state and the datagram.  The four header bytes left by
    [resize(4, 0)] are all overwritten. *)
Definition encrypt {D} `{VoicePacketDst D} (st : CryptState) (packet : VoicePacket D)
    : CryptState * list Z :=
  let st := with_encrypt_nonce st (as_u128 (encrypt_nonce st + 1)) in
  let inner := encode_voice_packet packet [] in
  let '(inner, tag) := ocb_encrypt st inner in
  (st, [as_u8 (encrypt_nonce st)] ++ take 3 (be_bytes 16 tag) ++ inner).

(** What the header byte of a datagram says about its place in the stream. *)
Inductive NonceVerdict :=
  | UseNonce (nonce : Z) (late : bool) (lost : Z)
  | RefuseNonce (e : DecryptError).

(** The nonce reconstruction of [decrypt]: in order, a gap, late, repeated or too late. *)
Definition check_nonce (st : CryptState) (nonce_0 : Z) : NonceVerdict :=
  let saved_nonce := decrypt_nonce st in
  if as_u8 (as_u128 (saved_nonce + 1)) =? nonce_0 then
    UseNonce (as_u128 (saved_nonce + 1)) false 0
  else
    let diff := as_i8 (as_u8 (nonce_0 - as_u8 saved_nonce)) in
    let nonce := as_u128 (saved_nonce + as_u128 diff) in
    if 0 <? diff then UseNonce nonce false (diff - 1)
    else if -30 <? diff then
      if nth (Z.to_nat nonce_0) (decrypt_history st) 0 =? as_u8 (Z.shiftr nonce 8)
      then RefuseNonce Repeat
      else UseNonce nonce true (-1)
    else RefuseNonce Late.

(** The statistics and the history after a packet passed the tag check under [decrypt_nonce st]. *)
Definition accept (st : CryptState) (saved_nonce nonce_0 : Z) (is_late : bool) (lost_delta now : Z)
    : CryptState :=
  {| key := key st; encrypt_nonce := encrypt_nonce st;
     decrypt_nonce := if is_late then saved_nonce else decrypt_nonce st;
     decrypt_history :=
       <[Z.to_nat nonce_0 := as_u8 (Z.shiftr (decrypt_nonce st) 8)]> (decrypt_history st);
     good := as_u32 (good st + 1);
     late := if is_late then as_u32 (late st + 1) else late st;
     lost := as_u32 (as_i32 (as_i32 (lost st) + lost_delta));
     resync := resync st; last_good := now;
     remote_late := remote_late st; remote_good := remote_good st;
     remote_lost := remote_lost st; remote_resync := remote_resync st |}.

(** [CryptState::decrypt]: the new state and the decoded packet or the reason it was refused. *)
Definition decrypt (D : Type) `{VoicePacketDst D} (st : CryptState) (buf : list Z) (now : Z)
    : CryptState * Result DecryptError (VoicePacket D * list Z) :=
  match buf with
  | nonce_0 :: t0 :: t1 :: t2 :: buf =>
    let saved_nonce := decrypt_nonce st in
    match check_nonce st nonce_0 with
    | RefuseNonce e => (with_decrypt_nonce st saved_nonce, Err e)
    | UseNonce nonce is_late lost_delta =>
      let st := with_decrypt_nonce st nonce in
      let '(plain, tag) := ocb_decrypt st buf in
      if decide ([t0; t1; t2] = take 3 (be_bytes 16 tag)) then
        (accept st saved_nonce nonce_0 is_late lost_delta now, decode_voice_packet D plain)
      else (with_decrypt_nonce st saved_nonce, Err Mac)
    end
  | _ => (st, Err Eof)
  end.
End ocb.

(** ** Correctness of the block layer *)

Lemma to_be_u128_range z : in_u 128 (to_be_u128 z).
Proof. apply (from_be_bytes_range _ 16); [apply le_bytes_ok|apply length_le_bytes]. Qed.

Lemma rotl1_range z : in_u 128 z -> in_u 128 (rotl1_u128 z).
Proof.
  intros Hz. apply lor_range; [lia|apply as_u128_range|].
  rewrite Z.shiftr_div_pow2 by lia. range_lia.
Qed.

(** Shifting in the bit that falls out. *)
Lemma rotl1_spec z : in_u 128 z -> rotl1_u128 z = (2 * z) mod 2 ^ 128 + z / 2 ^ 127.
Proof.
  intros Hz. unfold rotl1_u128, as_u128, wrap.
  rewrite Z.shiftl_mul_pow2, Z.shiftr_div_pow2 by lia.
  replace ((z * 2 ^ 1) mod 2 ^ 128) with (Z.shiftl (z mod 2 ^ 127) 1)
    by (rewrite Z.shiftl_mul_pow2 by lia; range_lia).
  rewrite lor_disjoint by range_lia. range_lia.
Qed.

Lemma s2_range z : in_u 128 z -> in_u 128 (s2 z).
Proof.
  intros Hz. unfold s2. pose proof (rotl1_range z Hz) as Hr.
  apply lxor_range; [lia|done|].
  assert (in_u 1 (Z.land (rotl1_u128 z) 1)) by (apply land_range_r; unfold in_u in *; lia).
  unfold in_u in *; lia.
Qed.

Create HintDb u128.
#[export] Hint Resolve to_be_u128_range rotl1_range s2_range : u128.
#[export] Hint Extern 2 (in_u 128 (Z.lxor _ _)) => apply lxor_range; [lia| |] : u128.

Lemma be_bytes_block z : block_ok (be_bytes 16 z).
Proof. split; [apply length_be_bytes|apply be_bytes_ok]. Qed.

Lemma from_be_block b : block_ok b -> in_u 128 (from_be_bytes b).
Proof. intros [Hl Hb]. by apply (from_be_bytes_range _ 16). Qed.

Lemma be_from_block b : block_ok b -> be_bytes 16 (from_be_bytes b) = b.
Proof. intros [Hl Hb]. by apply be_bytes_from_be. Qed.

Lemma from_be_u128 z : in_u 128 z -> from_be_bytes (be_bytes 16 z) = z.
Proof. intros Hz. rewrite from_be_be_bytes. by apply Z.mod_small. Qed.

#[export] Hint Resolve be_bytes_block from_be_block : u128.

Lemma zip_with_lxor_diag xs : zip_with Z.lxor xs xs = replicate (length xs) 0.
Proof. induction xs as [|x xs IH]; [done|]. cbn. by rewrite Z.lxor_nilpotent, IH. Qed.

Section ocb_proofs.
Context `{Aes128Laws}.

Lemma aes_encrypt_range k z : block_ok k -> in_u 128 (aes_encrypt k z).
Proof. intros Hk. by apply from_be_block, encrypt_block_ok, be_bytes_block. Qed.

Lemma aes_decrypt_encrypt k z :
  block_ok k -> in_u 128 z -> aes_decrypt k (aes_encrypt k z) = z.
Proof.
  intros Hk Hz. unfold aes_decrypt, aes_encrypt.
  rewrite be_from_block by by apply encrypt_block_ok, be_bytes_block.
  by rewrite decrypt_encrypt_block, from_be_u128 by auto with u128.
Qed.

Hint Resolve aes_encrypt_range : u128.

(** One block: decryption undoes encryption under the same offset. *)
Lemma ocb_block k o p :
  block_ok k -> in_u 128 o -> in_u 128 p ->
  Z.lxor (aes_decrypt k (Z.lxor o (Z.lxor (aes_encrypt k (Z.lxor o p)) o))) o = p.
Proof.
  intros Hk Ho Hp. rewrite (Z.lxor_comm (aes_encrypt _ _) o), lxor_cancel_l.
  rewrite aes_decrypt_encrypt by auto with u128.
  by rewrite (Z.lxor_comm o p), lxor_cancel_r.
Qed.

Lemma ocb_encrypt_loop_total k fuel o c buf :
  (length buf < fuel)%nat -> is_Some (ocb_encrypt_loop fuel k o c buf).
Proof.
  revert o c buf. induction fuel as [|fuel IH]; intros o c buf Hl; [lia|].
  cbn [ocb_encrypt_loop]. case_if; [|by eexists].
  edestruct IH as [[[[??]?]?] ->]; [|by eexists].
  rewrite length_drop. apply Nat.ltb_lt in Heqb. unfold BLOCK_SIZE in *. lia.
Qed.

Lemma ocb_decrypt_loop_total k fuel o c buf :
  (length buf < fuel)%nat -> is_Some (ocb_decrypt_loop fuel k o c buf).
Proof.
  revert o c buf. induction fuel as [|fuel IH]; intros o c buf Hl; [lia|].
  cbn [ocb_decrypt_loop]. case_if; [|by eexists].
  edestruct IH as [[[[??]?]?] ->]; [|by eexists].
  rewrite length_drop. apply Nat.ltb_lt in Heqb. unfold BLOCK_SIZE in *. lia.
Qed.

(** What the encryption loop leaves, and that the decryption loop undoes it. *)
Lemma ocb_loops k fuel o c buf o' c' out rest :
  block_ok k -> in_u 128 o -> bytes_ok buf ->
  ocb_encrypt_loop fuel k o c buf = Some (o', c', out, rest) ->
  in_u 128 o' /\ (length rest <= 16)%nat /\ bytes_ok rest /\ bytes_ok out
  /\ length buf = (length out + length rest)%nat
  /\ (buf <> [] -> rest <> [])
  /\ exists plain, buf = plain ++ rest /\
    forall tail, length tail = length rest ->
      ocb_decrypt_loop fuel k o c (out ++ tail) = Some (o', c', plain, tail).
Proof.
  intros Hk. revert o c buf out. induction fuel as [|fuel IH]; intros o c buf out Ho Hb Hl; [done|].
  cbn [ocb_encrypt_loop] in Hl. destruct (BLOCK_SIZE <? length buf)%nat eqn:Hlt.
  2:{ apply Nat.ltb_ge in Hlt. unfold BLOCK_SIZE in *. simplify_eq.
      do 6 (split; [first [done | constructor]|]). exists []. split; [done|].
      intros tail Ht. cbn [ocb_decrypt_loop app]. unfold BLOCK_SIZE.
      by rewrite (proj2 (Nat.ltb_ge _ _)) by lia. }
  apply Nat.ltb_lt in Hlt. unfold BLOCK_SIZE in *.
  destruct (ocb_encrypt_loop fuel k (s2 o) _ _) as [[[[o1 c1] out1] rest1]|] eqn:Hrec; [|done].
  simplify_eq.
  destruct (IH _ _ _ _ (s2_range _ Ho) (Forall_drop _ _ _ Hb) Hrec)
    as (Ho' & Hr & Hrb & Hob & Hlen & Hne & plain & Hdrop & Hdec).
  rewrite length_drop in Hlen.
  assert (block_ok (take 16 buf)) as Htake by (split; [rewrite length_take; lia|by apply Forall_take]).
  split; [done|]. split; [done|]. split; [done|]. split.
  { apply Forall_app. split; [apply be_bytes_ok|done]. }
  split; [rewrite length_app, length_be_bytes; lia|]. split.
  { intros _. apply Hne. intros Heq. apply (f_equal length) in Heq. rewrite length_drop in Heq.
    cbn in Heq. lia. }
  exists (take 16 buf ++ plain). split; [by rewrite <- app_assoc, <- Hdrop, take_drop|].
  intros tail Ht. cbn [ocb_decrypt_loop]. rewrite <- app_assoc.
  rewrite take_app_length', drop_app_length' by (by rewrite length_be_bytes).
  unfold BLOCK_SIZE. rewrite (proj2 (Nat.ltb_lt _ _))
    by (rewrite !length_app, length_be_bytes; lia).
  rewrite from_be_u128 by auto with u128. rewrite ocb_block by auto with u128.
  rewrite Hdec by done. by rewrite be_from_block.
Qed.

(** The short last block: the ciphertext, zero padded, is the whole encrypted block, because the
    plaintext block is padded with the pad itself. *)
Lemma ocb_last_block (pad : Z) (rest : list Z) :
  in_u 128 pad -> (length rest <= 16)%nat -> bytes_ok rest ->
  let plain := from_be_bytes (rest ++ drop (length rest) (be_bytes 16 pad)) in
  let cipher := take (length rest) (be_bytes 16 (Z.lxor pad plain)) in
  Z.lxor (from_be_bytes (cipher ++ replicate (16 - length rest) 0)) pad = plain
  /\ take (length rest) (be_bytes 16 plain) = rest /\ length cipher = length rest
  /\ in_u 128 plain.
Proof.
  intros Hpad Hl Hb plain cipher.
  assert (block_ok (rest ++ drop (length rest) (be_bytes 16 pad))) as Hblk.
  { split; [rewrite length_app, length_drop, length_be_bytes; lia|].
    apply Forall_app. split; [done|apply Forall_drop, be_bytes_ok]. }
  assert (in_u 128 plain) as Hp by by apply from_be_block.
  assert (be_bytes 16 plain = rest ++ drop (length rest) (be_bytes 16 pad)) as Hbp
    by by apply be_from_block.
  assert (cipher ++ replicate (16 - length rest) 0 = be_bytes 16 (Z.lxor pad plain)) as Hc.
  { subst cipher. rewrite <- (take_drop (length rest) (be_bytes 16 (Z.lxor pad plain))) at 2.
    f_equal. rewrite be_bytes_lxor, Hbp, zip_with_drop, drop_app_length.
    by rewrite zip_with_lxor_diag, length_drop, length_be_bytes. }
  split; [|split; [|split]]; [| | |done].
  - rewrite Hc, from_be_u128 by auto with u128. by rewrite Z.lxor_comm, lxor_cancel_l.
  - by rewrite Hbp, take_app_length.
  - subst cipher. rewrite length_take, length_be_bytes. lia.
Qed.

Lemma ocb_encrypt_total st buf fuel :
  block_ok (key st) -> bytes_ok buf -> (length buf < fuel)%nat ->
  exists out tag, ocb_encrypt_fuel fuel st buf = Some (out, tag) /\ length out = length buf
    /\ bytes_ok out.
Proof.
  intros Hk Hb Hf. unfold ocb_encrypt_fuel.
  destruct (ocb_encrypt_loop_total (key st) fuel (aes_encrypt (key st) (to_be_u128 (encrypt_nonce st))) 0 buf Hf)
    as [[[[o c] out] rest] Hl]. rewrite Hl.
  destruct (ocb_loops _ _ _ _ _ _ _ _ _ Hk (aes_encrypt_range _ _ Hk) Hb Hl)
    as (Ho & Hr & Hrb & Hob & Hlen & _).
  rewrite (proj2 (Nat.leb_le _ _)) by done. do 2 eexists. split; [done|]. split.
  - rewrite length_app, length_take, length_be_bytes. lia.
  - apply Forall_app. split; [done|]. apply Forall_take, be_bytes_ok.
Qed.

(** OCB round trip: a receiver whose nonce is the sender's recovers the plaintext and the tag. *)
Lemma ocb_roundtrip_aux st1 st2 buf :
  block_ok (key st1) -> key st2 = key st1 -> decrypt_nonce st2 = encrypt_nonce st1 ->
  bytes_ok buf ->
  ocb_decrypt st2 (fst (ocb_encrypt st1 buf)) = (buf, snd (ocb_encrypt st1 buf)).
Proof.
  intros Hk Hkey Hn Hb. unfold ocb_encrypt, ocb_decrypt.
  destruct (ocb_encrypt_total st1 buf (S (length buf)) Hk Hb ltac:(lia))
    as (out0 & tag0 & He & Hlen0 & _). rewrite He. cbn [fst snd]. rewrite Hlen0.
  unfold ocb_encrypt_fuel in He. unfold ocb_decrypt_fuel. rewrite Hkey, Hn.
  destruct (ocb_encrypt_loop _ _ _ 0 buf) as [[[[o c] out] rest]|] eqn:Hl; [|done].
  destruct (ocb_loops _ _ _ _ _ _ _ _ _ Hk (aes_encrypt_range _ _ Hk) Hb Hl)
    as (Ho & Hr & Hrb & _ & Hlen & _ & plain & Hbuf & Hdec).
  rewrite (proj2 (Nat.leb_le _ _)) in He by done. simplify_eq.
  set (pad := aes_encrypt _ (Z.lxor (Z.of_nat (length rest * 8)) _)) in *.
  destruct (ocb_last_block pad rest (aes_encrypt_range _ _ Hk) Hr Hrb) as (Hx & Ht & Hcl & Hp).
  rewrite Hdec by done. rewrite Hcl. fold pad.
  unfold BLOCK_SIZE. rewrite (proj2 (Nat.leb_le _ _)) by done. rewrite Hx, Ht.
  done.
Qed.
End ocb_proofs.

(** ** The nonce window *)

Lemma as_u8_u128 z : as_u8 (as_u128 z) = as_u8 z.
Proof. range_lia. Qed.

Lemma as_i8_u8 z : as_i8 (as_u8 z) = as_i8 z.
Proof. unfold as_i8, sign, as_u8. f_equal. all: unfold wrap; by rewrite Z.mod_mod by lia. Qed.

Lemma as_i8_small z : -128 <= z < 128 -> as_i8 z = z.
Proof. intros Hz. unfold as_i8, sign, wrap. case_if; range_lia. Qed.

Lemma as_i8_range z : -128 <= as_i8 z < 128.
Proof. unfold as_i8, sign, wrap. case_if; range_lia. Qed.

(** The header byte of nonce [n + d] seen from nonce [n]. *)
Lemma header_diff n d : -128 <= d < 128 -> as_i8 (as_u8 (as_u8 (n + d) - as_u8 n)) = d.
Proof.
  intros Hd. rewrite as_i8_u8. transitivity (as_i8 d); [|by apply as_i8_small].
  unfold as_i8, sign. replace (wrap 8 (as_u8 (n + d) - as_u8 n)) with (wrap 8 d); [done|].
  range_lia.
Qed.

Lemma check_nonce_ahead st d :
  1 <= d < 128 ->
  check_nonce st (as_u8 (decrypt_nonce st + d)) =
    UseNonce (as_u128 (decrypt_nonce st + d)) false (d - 1).
Proof.
  intros Hd. unfold check_nonce. rewrite as_u8_u128.
  destruct (Z.eq_dec d 1) as [->|Hne]; [by rewrite Z.eqb_refl|].
  rewrite (proj2 (Z.eqb_neq _ _)) by range_lia.
  rewrite header_diff by lia. rewrite (proj2 (Z.ltb_lt _ _)) by lia.
  do 2 f_equal. rewrite (as_u128_small d) by (unfold in_u; lia). done.
Qed.

Lemma be_bytes_nth0 n : length (take 3 (be_bytes 16 n)) = 3%nat.
Proof. by rewrite length_take, length_be_bytes. Qed.

Section packet_proofs.
Context `{Aes128Laws}.

Lemma decrypt_datagram {D} `{VoicePacketDst D} st n0 tag inner now :
  decrypt D st ([n0] ++ take 3 (be_bytes 16 tag) ++ inner) now =
  match check_nonce st n0 with
  | RefuseNonce e => (with_decrypt_nonce st (decrypt_nonce st), Err e)
  | UseNonce nonce is_late lost_delta =>
    let st1 := with_decrypt_nonce st nonce in
    let '(plain, tag') := ocb_decrypt st1 inner in
    if decide (take 3 (be_bytes 16 tag) = take 3 (be_bytes 16 tag')) then
      (accept st1 (decrypt_nonce st) n0 is_late lost_delta now, decode_voice_packet D plain)
    else (with_decrypt_nonce st1 (decrypt_nonce st), Err Mac)
  end.
Proof.
  pose proof (be_bytes_nth0 tag) as Hl.
  destruct (take 3 (be_bytes 16 tag)) as [|t0 [|t1 [|t2 [|]]]]; try discriminate Hl. done.
Qed.

Lemma decrypt_encrypt_aux {D} `{VoicePacketDstLaws D} st1 st2 (p : VoicePacket D) d now :
  block_ok (key st1) -> key st2 = key st1 -> packet_ok p -> 1 <= d < 128 ->
  as_u128 (encrypt_nonce st1 + 1) = as_u128 (decrypt_nonce st2 + d) ->
  decrypt D st2 (snd (encrypt st1 p)) now =
    (accept (with_decrypt_nonce st2 (as_u128 (decrypt_nonce st2 + d))) (decrypt_nonce st2)
       (as_u8 (decrypt_nonce st2 + d)) false (d - 1) now, Ok (p, [])).
Proof.
  intros Hk Hkey Hp Hd Hn. unfold encrypt.
  set (st1' := with_encrypt_nonce st1 _).
  pose proof (encode_packet_ok p Hp) as Hb.
  set (st2' := with_decrypt_nonce st2 (as_u128 (decrypt_nonce st2 + d))).
  pose proof (ocb_roundtrip_aux st1' st2' (encode_voice_packet p []) Hk Hkey (eq_sym Hn) Hb) as Hrt.
  destruct (ocb_encrypt st1' _) as [inner tag]. cbn [fst snd] in *.
  rewrite decrypt_datagram. subst st1'. cbn [encrypt_nonce with_encrypt_nonce].
  rewrite Hn, as_u8_u128, check_nonce_ahead by done. cbv zeta. fold st2'. rewrite Hrt.
  rewrite decide_True by done. by rewrite decode_encode_packet.
Qed.
End packet_proofs.

(** ** A concrete cipher for the witnesses *)

(** XOR with the key satisfies the block cipher laws. *)
Definition xor_aes : Aes128 := {|
  encrypt_block k b := zip_with Z.lxor k b;
  decrypt_block k b := zip_with Z.lxor k b;
|}.

Lemma xor_block_ok k b : block_ok k -> block_ok b -> block_ok (zip_with Z.lxor k b).
Proof.
  intros [Hk Hkb] [Hb Hbb]. split; [rewrite length_zip_with_l; lia|].
  clear Hk Hb. revert b Hbb. induction Hkb as [|x k Hx _ IH]; intros [|y b] Hbb; cbn; try constructor.
  - apply Forall_cons in Hbb as [Hy _]. by apply lxor_range.
  - apply IH. by apply Forall_cons in Hbb as [_ Hbb].
Qed.

Lemma xor_aes_laws : @Aes128Laws xor_aes.
Proof.
  split; cbn; [by apply xor_block_ok|]. intros k b [Hk _] [Hb _].
  assert (length k = length b) as Hl by congruence. clear Hk Hb.
  revert b Hl. induction k as [|x k IH]; intros [|y b] Hl; try discriminate Hl; [done|].
  cbn in *. rewrite IH by congruence. by rewrite lxor_cancel_l.
Qed.

Definition sample_key : list Z := [7; 1; 200; 3; 4; 5; 6; 7; 8; 9; 10; 11; 12; 13; 14; 255].

Lemma sample_key_ok : block_ok sample_key.
Proof. split; [reflexivity|]. apply bytes_okb_spec. reflexivity. Qed.

(** ** Properties *)

(** AES-OCB round trip: for any cipher that satisfies the AES laws and any plaintext,
    a receiver holding the sender's key and nonce decrypts the ciphertext to the plaintext
    and computes the tag the sender computed. *)
Theorem ocb_roundtrip `{Aes128Laws} (st1 st2 : CryptState) (buf : list Z) :
  block_ok (key st1) -> key st2 = key st1 -> decrypt_nonce st2 = encrypt_nonce st1 ->
  bytes_ok buf ->
  ocb_decrypt st2 (fst (ocb_encrypt st1 buf)) = (buf, snd (ocb_encrypt st1 buf)).
Proof. apply ocb_roundtrip_aux. Qed.

Definition sample_sender : CryptState :=
  with_encrypt_nonce (default_crypt_state sample_key 0) 170141183460469231731687303715884105733.
Definition sample_receiver : CryptState :=
  with_decrypt_nonce (default_crypt_state sample_key 0) 170141183460469231731687303715884105733.
Definition sample_plain : list Z := seqZ 3 40.

Lemma ocb_roundtrip_witness :
  @ocb_decrypt xor_aes sample_receiver (fst (@ocb_encrypt xor_aes sample_sender sample_plain)) =
    (sample_plain, snd (@ocb_encrypt xor_aes sample_sender sample_plain)).
Proof.
  apply (@ocb_roundtrip xor_aes xor_aes_laws sample_sender sample_receiver sample_plain);
    [exact sample_key_ok|reflexivity|reflexivity|apply bytes_okb_spec; reflexivity].
Defined.

(** The OCB loops terminate and the length assertion on the last block holds: one more
    iteration than the buffer has bytes is always enough, in both directions, and the
    ciphertext has the length of the plaintext. *)
Theorem ocb_total `{Aes128Laws} (st : CryptState) (buf : list Z) (fuel : nat) :
  block_ok (key st) -> bytes_ok buf -> (length buf < fuel)%nat ->
  (exists out tag, ocb_encrypt_fuel fuel st buf = Some (out, tag) /\ length out = length buf
     /\ bytes_ok out)
  /\ is_Some (ocb_decrypt_fuel fuel st buf).
Proof.
  intros Hk Hb Hf. split; [by apply ocb_encrypt_total|]. unfold ocb_decrypt_fuel.
  assert (forall f o c b o' c' out rest,
    ocb_decrypt_loop f (key st) o c b = Some (o', c', out, rest) -> (length rest <= 16)%nat) as Hr.
  { clear. induction f as [|f IH]; intros o c b o' c' out rest Hl; [done|].
    cbn [ocb_decrypt_loop] in Hl. case_match eqn:Hb; [|simplify_eq; by apply Nat.ltb_ge in Hb].
    destruct (ocb_decrypt_loop f _ _ _ _) as [[[[??]?]?]|] eqn:Hl'; simplify_eq. by eapply IH. }
  destruct (ocb_decrypt_loop_total (key st) fuel
    (aes_encrypt (key st) (to_be_u128 (decrypt_nonce st))) 0 buf Hf) as [[[[o c] out] rest] Hl].
  rewrite Hl. rewrite (proj2 (Nat.leb_le _ _)) by by eapply Hr. by eexists.
Qed.

Lemma ocb_total_witness :
  exists out tag, @ocb_encrypt_fuel xor_aes 41 sample_sender sample_plain = Some (out, tag)
    /\ length out = 40%nat /\ bytes_ok out.
Proof.
  exact (proj1 (@ocb_total xor_aes xor_aes_laws sample_sender sample_plain 41
    sample_key_ok ltac:(apply bytes_okb_spec; reflexivity) ltac:(vm_compute; lia))).
Defined.

(** [s2] is multiplication by x in GF(2^128) with the polynomial of OCB: a left shift,
    corrected by 0x87 when the top bit falls out. *)
Theorem s2_doubling (b : Z) :
  in_u 128 b -> s2 b = Z.lxor ((2 * b) mod 2 ^ 128) (if b <? 2 ^ 127 then 0 else 135).
Proof.
  intros Hb. unfold s2. rewrite rotl1_spec by done. case_if.
  - replace (b / 2 ^ 127) with 0 by range_lia. rewrite Z.add_0_r.
    replace (Z.land _ 1) with 0; [by rewrite Z.mul_0_l|].
    change 1 with (Z.ones 1). rewrite Z.land_ones by lia. range_lia.
  - replace (b / 2 ^ 127) with 1 by range_lia.
    assert (((2 * b) mod 2 ^ 128) mod 2 = 0) as Heven by range_lia.
    set (m := (2 * b) mod 2 ^ 128) in *.
    replace (m + 1) with (Z.lxor m 1).
    2:{ symmetry. apply Z.add_nocarry_lxor. change 1 with (Z.ones 1). by rewrite Z.land_ones. }
    replace (Z.land (Z.lxor m 1) 1) with 1.
    2:{ change 1 with (Z.ones 1) at 3. rewrite Z.land_ones by lia. change (2 ^ 1) with (2 ^ 1).
        rewrite mod_lxor by lia. change (2 ^ 1) with 2. by rewrite Heven. }
    by rewrite Z.lxor_assoc.
Qed.

Lemma s2_doubling_witness :
  s2 170141183460469231731687303715884105728 = 135 /\ s2 3 = 6.
Proof.
  split; [rewrite s2_doubling by (unfold in_u; lia); reflexivity
         |rewrite s2_doubling by (unfold in_u; lia); reflexivity].
Defined.

(** C16.  End to end: a well-formed packet that the sender encrypts is decrypted to the same
    packet by a receiver with the same key whose last nonce is [d] behind, for any gap of 1 to 127;
    the receiver's nonce then equals the sender's, the packet counts as good and the
    [d - 1] skipped packets as lost. *)
Theorem crypt_roundtrip `{Aes128Laws} {D} `{VoicePacketDstLaws D} (st1 st2 : CryptState)
    (p : VoicePacket D) (d now : Z) :
  block_ok (key st1) -> key st2 = key st1 -> packet_ok p -> 1 <= d < 128 ->
  as_u128 (encrypt_nonce st1 + 1) = as_u128 (decrypt_nonce st2 + d) ->
  let '(st1', datagram) := encrypt st1 p in
  let '(st2', r) := decrypt D st2 datagram now in
  r = Ok (p, []) /\ decrypt_nonce st2' = encrypt_nonce st1' /\ good st2' = as_u32 (good st2 + 1)
  /\ lost st2' = as_u32 (as_i32 (as_i32 (lost st2) + (d - 1))) /\ late st2' = late st2.
Proof.
  intros Hk Hkey Hp Hd Hn.
  pose proof (decrypt_encrypt_aux st1 st2 p d now Hk Hkey Hp Hd Hn) as Hdec.
  destruct (encrypt st1 p) as [st1' dg] eqn:He. cbn [snd] in Hdec. rewrite Hdec.
  unfold encrypt in He. destruct (ocb_encrypt _ _). injection He as <- _. cbn. auto.
Qed.

Lemma crypt_roundtrip_witness :
  let '(st1', datagram) := @encrypt xor_aes ClientBound _ sample_sender sample_audio in
  let '(st2', r) := @decrypt xor_aes ClientBound _ sample_receiver datagram 9 in
  r = Ok (sample_audio, []) /\ decrypt_nonce st2' = encrypt_nonce st1' /\ good st2' = 1
  /\ lost st2' = 0 /\ late st2' = 0.
Proof.
  apply (@crypt_roundtrip xor_aes xor_aes_laws ClientBound _ _ sample_sender sample_receiver
    sample_audio 1 9); [exact sample_key_ok|reflexivity| |lia|reflexivity].
  cbn. unfold in_u. repeat split; try lia; try done; apply bytes_okb_spec; reflexivity.
Defined.

Lemma decrypt_refusal `{Aes128} {D} `{VoicePacketDst D} (st : CryptState)
    (buf : list Z) (now : Z) :
  match decrypt D st buf now with
  | (st', Err (Repeat | Late | Mac)) => st' = st
  | (st', _) => (length buf < 4)%nat -> st' = st
  end.
Proof.
  assert (forall n, with_decrypt_nonce (with_decrypt_nonce st n) (decrypt_nonce st) = st) as Hr
    by (by destruct st).
  assert (with_decrypt_nonce st (decrypt_nonce st) = st) as Hr0 by (by destruct st).
  destruct buf as [|n0 [|t0 [|t1 [|t2 buf]]]]; try done. cbn [decrypt length].
  destruct (check_nonce st n0) as [nonce l d|e]; [|rewrite Hr0; by destruct e].
  destruct (ocb_decrypt _ _) as [plain tag]. case_decide; [|by rewrite Hr].
  destruct (decode_voice_packet D plain) as [[p rest]|e] eqn:Hd; [intros; lia|].
  apply decode_voice_packet_err in Hd as [->|[io ->]]; intros; lia.
Qed.

(** A refused datagram leaves no trace: when [decrypt] reports a repeat, a late packet or a
    tag mismatch, or the datagram is shorter than its header, the state is exactly
    what it was, so a forger cannot move the receiver's nonce window. *)
Theorem crypt_refusal_keeps_state `{Aes128} {D} `{VoicePacketDst D} (st : CryptState)
    (buf : list Z) (now : Z) :
  match decrypt D st buf now with
  | (st', Err (Repeat | Late | Mac)) => st' = st
  | (st', _) => (length buf < 4)%nat -> st' = st
  end.
Proof. apply decrypt_refusal. Qed.
