(* ===== verification/Replay.v ===== *)
(** Replay protection of the voice channel: what the nonce window and the 256-entry history of
    [src/src/crypt.rs] guarantee over a sequence of received datagrams. *)

From stdpp Require Import base list.
From Stdlib Require Import ZArith Lia.
From S2P Require Import Prelude Errors Varint Voice Messages Crypt.

Section replay.
Context `{Aes128} {D : Type} `{VoicePacketDst D}.

(** The nonce under which [decrypt] authenticates a datagram, if it does. *)
Definition accepted_nonce (st : CryptState) (buf : list Z) : option Z :=
  match buf with
  | nonce_0 :: t0 :: t1 :: t2 :: buf =>
    match check_nonce st nonce_0 with
    | RefuseNonce _ => None
    | UseNonce nonce _ _ =>
      if decide ([t0; t1; t2] = take 3 (be_bytes 16 (snd (ocb_decrypt (with_decrypt_nonce st nonce) buf))))
      then Some nonce else None
    end
  | _ => None
  end.

(** Receiving datagrams one after the other: the final state and the nonces accepted, in order. *)
Fixpoint receive (st : CryptState) (bufs : list (list Z * Z)) : CryptState * list Z :=
  match bufs with
  | [] => (st, [])
  | (buf, now) :: bufs =>
    let '(st', acc) := receive (fst (decrypt D st buf now)) bufs in
    (st', option_list (accepted_nonce st buf) ++ acc)
  end.

(** The position of a nonce in the history and its mark. *)
Definition slot (n : Z) : nat := Z.to_nat (as_u8 n).
Definition mark (n : Z) : Z := as_u8 (Z.shiftr n 8).

(** What the history remembers: the accepted nonces of the last thirty. *)
Record window_inv (lo hi : Z) (st : CryptState) (acc : list Z) : Prop := {
  wi_range : lo <= decrypt_nonce st <= hi;
  wi_history : length (decrypt_history st) = 256%nat;
  wi_below m : m ∈ acc -> m <= decrypt_nonce st;
  wi_marked m : m ∈ acc -> decrypt_nonce st - 30 < m ->
    nth (slot m) (decrypt_history st) 0 = mark m;
  wi_nodup : NoDup acc;
}.

Lemma slot_lt n : (slot n < 256)%nat.
Proof. unfold slot. pose proof (as_u8_range n). unfold in_u in *. lia. Qed.

(** Nonces less than 256 apart use different slots. *)
Lemma slot_ne m n : m <> n -> -256 < m - n < 256 -> slot m <> slot n.
Proof.
  intros Hne Hd Heq. unfold slot in Heq.
  assert (as_u8 m = as_u8 n)
    by (pose proof (as_u8_range m); pose proof (as_u8_range n); unfold in_u in *; lia).
  range_lia.
Qed.

Lemma nth_insert (l : list Z) i j x :
  (i < length l)%nat -> nth j (<[i := x]> l) 0 = if decide (i = j) then x else nth j l 0.
Proof.
  intros Hi. rewrite !nth_lookup. case_decide as Hd.
  - subst. by rewrite list_lookup_insert_eq.
  - by rewrite list_lookup_insert_ne.
Qed.

(** The three ways a nonce is accepted or refused, with the arithmetic resolved. *)
Lemma check_nonce_cases st nonce_0 :
  byte_ok nonce_0 -> 30 <= decrypt_nonce st < 2 ^ 128 - 128 ->
  let c := decrypt_nonce st in
  match check_nonce st nonce_0 with
  | UseNonce n false _ => c < n < c + 128 /\ as_u8 n = nonce_0
  | UseNonce n true _ => c - 30 < n <= c /\ as_u8 n = nonce_0
                         /\ nth (slot n) (decrypt_history st) 0 <> mark n
  | RefuseNonce _ => True
  end.
Proof.
  intros Hb Hc c. unfold check_nonce. fold c.
  assert (forall z, 0 <= z < 2 ^ 128 -> as_u128 z = z) as Hsm by (intros; by apply as_u128_small).
  rewrite as_u8_u128, (Hsm (c + 1)) by lia.
  destruct (Z.eqb_spec (as_u8 (c + 1)) nonce_0) as [Heq|Hne]; [lia|].
  set (diff := as_i8 (as_u8 (nonce_0 - as_u8 c))).
  pose proof (as_i8_range (as_u8 (nonce_0 - as_u8 c))) as Hdr. fold diff in Hdr.
  assert (as_u8 (c + diff) = nonce_0) as Hn0.
  { subst diff. rewrite as_i8_u8. unfold as_i8, sign. case_if; range_lia. }
  assert (as_u128 (c + as_u128 diff) = as_u128 (c + diff)) as -> by range_lia.
  assert (-128 <= c + diff < 2 ^ 128) by lia.
  destruct (0 <? diff) eqn:Hpos; [rewrite Hsm by lia; lia|].
  destruct (-30 <? diff) eqn:H30; [|done]. rewrite Hsm by lia.
  case_if; [done|]. split; [lia|]. split; [done|].
  unfold slot, mark. rewrite Hn0. by apply Z.eqb_neq.
Qed.

(** The state after one datagram, by the nonce it was accepted under. *)
Lemma decrypt_state st buf now :
  match accepted_nonce st buf with
  | None => fst (decrypt D st buf now) = st
  | Some n => exists nonce_0 rest l d,
      buf = nonce_0 :: rest /\ check_nonce st nonce_0 = UseNonce n l d
      /\ fst (decrypt D st buf now) =
           accept (with_decrypt_nonce st n) (decrypt_nonce st) nonce_0 l d now
  end.
Proof.
  assert (forall n, with_decrypt_nonce (with_decrypt_nonce st n) (decrypt_nonce st) = st) as Hr
    by (by destruct st).
  assert (with_decrypt_nonce st (decrypt_nonce st) = st) as Hr0 by (by destruct st).
  destruct buf as [|n0 [|t0 [|t1 [|t2 buf]]]]; try done. cbn [decrypt accepted_nonce].
  destruct (check_nonce st n0) as [n l d|e] eqn:Hc; [|done].
  destruct (ocb_decrypt _ _) as [plain tag]. cbn [snd]. case_decide; [|apply Hr].
  exists n0, (t0 :: t1 :: t2 :: buf), l, d. auto.
Qed.

(** One datagram keeps the invariant, with the accepted nonce added. *)
Lemma window_step lo hi st acc buf now :
  30 <= lo -> hi < 2 ^ 128 - 256 -> bytes_ok buf -> window_inv lo hi st acc ->
  window_inv lo (hi + 127) (fst (decrypt D st buf now))
    (acc ++ option_list (accepted_nonce st buf)).
Proof.
  intros Hlo Hhi Hb [Hr Hh Hbel Hmk Hnd]. pose proof (decrypt_state st buf now) as Hst.
  destruct (accepted_nonce st buf) as [n|]; cbn [option_list].
  2:{ rewrite app_nil_r, Hst. split; auto. lia. }
  destruct Hst as (n0 & rest & l & d & -> & Hc & ->).
  apply Forall_cons in Hb as [Hb0 _].
  pose proof (check_nonce_cases st n0 Hb0 ltac:(lia)) as Hcase. cbv zeta in Hcase.
  rewrite Hc in *. set (c := decrypt_nonce st) in *.
  assert (Hin : forall m, m ∈ acc ++ [n] <-> m ∈ acc \/ m = n)
    by (intros; by rewrite elem_of_app, list_elem_of_singleton).
  assert (as_u8 n = n0) as Hn0 by (destruct l; apply Hcase). subst n0.
  assert (n ∉ acc) as Hfresh.
  { intros Hna. destruct l; [|specialize (Hbel n Hna); lia].
    destruct Hcase as (? & _ & Hneq). apply Hneq, Hmk; [done|lia]. }
  assert (exists c', decrypt_nonce (accept (with_decrypt_nonce st n) c (as_u8 n) l d now) = c'
    /\ c <= c' <= c + 127 /\ n <= c' < n + 30) as (c' & Hc' & Hcc & Hcn)
    by (eexists; split; [reflexivity|]; destruct l; cbn; lia).
  split; rewrite ?Hc'; cbn [accept with_decrypt_nonce decrypt_history].
  - lia.
  - by rewrite length_insert.
  - intros m [Hm| ->]%Hin; [specialize (Hbel m Hm)|]; lia.
  - intros m Hm Hw. change (Z.to_nat (as_u8 n)) with (slot n).
    rewrite nth_insert by (rewrite Hh; apply slot_lt).
    apply Hin in Hm as [Hm| ->]; [|by rewrite decide_True].
    specialize (Hbel m Hm). assert (m <> n) by congruence.
    rewrite decide_False by (apply not_eq_sym, slot_ne; [done|lia]).
    apply Hmk; [done|lia].
  - apply NoDup_app. split; [done|]. split; [|apply NoDup_singleton].
    intros m Hm ->%list_elem_of_singleton. done.
Qed.

Lemma window_receive bufs lo hi st acc :
  30 <= lo -> hi + 127 * Z.of_nat (length bufs) < 2 ^ 128 - 256 ->
  Forall (fun b => bytes_ok (fst b)) bufs -> window_inv lo hi st acc ->
  window_inv lo (hi + 127 * Z.of_nat (length bufs)) (fst (receive st bufs))
    (acc ++ snd (receive st bufs)).
Proof.
  intros Hlo. revert hi st acc. induction bufs as [|[buf now] bufs IH]; intros hi st acc Hhi Hok Hinv.
  - cbn in *. rewrite app_nil_r, Z.add_0_r. done.
  - apply Forall_cons in Hok as [Hb Hok]. cbn [fst] in Hb.
    cbn [receive length] in *. assert (hi < 2 ^ 128 - 256) as Hhi' by lia.
    pose proof (window_step _ _ _ _ _ now Hlo Hhi' Hb Hinv) as Hs.
    assert (hi + 127 + 127 * Z.of_nat (length bufs) < 2 ^ 128 - 256) as Hhi2 by lia.
    specialize (IH _ _ _ Hhi2 Hok Hs).
    destruct (receive (fst (decrypt D st buf now)) bufs) as [st' acc']. cbn [fst snd] in *.
    rewrite app_assoc. replace (hi + _) with (hi + 127 + 127 * Z.of_nat (length bufs)) by lia. done.
Qed.

(** A datagram whose nonce was accepted within the last thirty is refused as a repeat. *)
Lemma window_refuses lo hi st acc n :
  30 <= lo -> hi < 2 ^ 128 - 256 -> window_inv lo hi st acc ->
  n ∈ acc -> decrypt_nonce st - 30 < n -> check_nonce st (as_u8 n) = RefuseNonce Repeat.
Proof.
  intros Hlo Hhi [Hr Hh Hbel Hmk Hnd] Hn Hw. pose proof (Hbel n Hn) as Hle.
  specialize (Hmk n Hn Hw). unfold check_nonce. set (c := decrypt_nonce st) in *.
  rewrite as_u8_u128. rewrite (proj2 (Z.eqb_neq _ _)) by range_lia.
  replace (as_u8 n) with (as_u8 (c + (n - c))) by (f_equal; lia).
  rewrite header_diff by lia.
  rewrite (proj2 (Z.ltb_ge _ _)), (proj2 (Z.ltb_lt _ _)) by lia.
  replace (as_u128 (c + as_u128 (n - c))) with n by range_lia.
  replace (c + (n - c)) with n by lia. fold (slot n) (mark n). by rewrite Hmk, Z.eqb_refl.
Qed.
End replay.

(** A state right after the handshake or a resynchronisation. *)
Definition fresh_window (st : CryptState) : Prop :=
  decrypt_nonce st = Z.shiftl 1 127 /\ decrypt_history st = replicate 256 0.

Lemma fresh_window_inv st : fresh_window st -> window_inv (2 ^ 127) (2 ^ 127) st [].
Proof.
  intros [Hn Hh]. change (Z.shiftl 1 127) with (2 ^ 127) in Hn. split; [lia|by rewrite Hh| | |constructor];
    intros m Hm; by apply not_elem_of_nil in Hm.
Qed.

(** ** Properties *)

(** C15.  No replay: starting from a freshly keyed or reset state, whatever sequence of
    datagrams arrives (genuine, reordered, duplicated or forged), no nonce is ever accepted
    twice.  The bound on the number of datagrams only excludes a wrap-around of the 128-bit nonce. *)
Theorem crypt_no_replay `{Aes128} {D} `{VoicePacketDst D} (st : CryptState)
    (bufs : list (list Z * Z)) :
  fresh_window st -> Forall (fun b => bytes_ok (fst b)) bufs ->
  Z.of_nat (length bufs) < 2 ^ 120 ->
  NoDup (snd (receive (D := D) st bufs)).
Proof.
  intros Hf Hok Hlen.
  exact (wi_nodup _ _ _ _ (window_receive bufs (2 ^ 127) (2 ^ 127) st [] ltac:(lia) ltac:(lia)
    Hok (fresh_window_inv st Hf))).
Qed.

(** The sender's first packets, in the order it emits them. *)
Fixpoint emit `{Aes128} (st : CryptState) (ps : list (VoicePacket ServerBound)) : list (list Z) :=
  match ps with
  | [] => []
  | p :: ps => let '(st', dg) := encrypt st p in dg :: emit st' ps
  end.

Definition sample_client : CryptState :=
  with_encrypt_nonce (default_crypt_state sample_key 0) (2 ^ 127).
Definition sample_server : CryptState := default_crypt_state sample_key 0.
Definition sample_pings : list (list Z) :=
  @emit xor_aes sample_client [VPing 5; VPing 6; VPing 7].

(** Packet 1, packet 3, packet 3 again, packet 1 again. *)
Definition sample_traffic : list (list Z * Z) :=
  (fun b => (b, 0)) <$>
    [nth 0 sample_pings []; nth 2 sample_pings []; nth 2 sample_pings []; nth 0 sample_pings []].

Lemma crypt_no_replay_witness :
  snd (@receive xor_aes ServerBound _ sample_server sample_traffic) = [2 ^ 127 + 1; 2 ^ 127 + 3]
  /\ NoDup (snd (@receive xor_aes ServerBound _ sample_server sample_traffic)).
Proof.
  split; [vm_compute; reflexivity|].
  apply (@crypt_no_replay xor_aes ServerBound _ sample_server sample_traffic);
    [split; reflexivity| |vm_compute; reflexivity].
  repeat (apply Forall_cons; split; [apply bytes_okb_spec; vm_compute; reflexivity|]). constructor.
Defined.

(** A replayed datagram is reported as such: after any received sequence, a datagram
    that carries the header of a nonce accepted among the last thirty is refused with [Repeat] before its
    tag is even looked at. *)
Theorem crypt_replay_reported `{Aes128} {D} `{VoicePacketDst D} (st : CryptState)
    (bufs : list (list Z * Z)) (n : Z) (tail : list Z) (now : Z) :
  fresh_window st -> Forall (fun b => bytes_ok (fst b)) bufs ->
  Z.of_nat (length bufs) < 2 ^ 120 ->
  let st' := fst (receive (D := D) st bufs) in
  n ∈ snd (receive (D := D) st bufs) -> decrypt_nonce st' - 30 < n -> (3 <= length tail)%nat ->
  decrypt D st' (as_u8 n :: tail) now = (st', Err Repeat).
Proof.
  intros Hf Hok Hlen st' Hn Hw Ht.
  pose proof (window_receive (D := D) bufs (2 ^ 127) (2 ^ 127) st [] ltac:(lia) ltac:(lia)
    Hok (fresh_window_inv st Hf)) as Hinv.
  assert (30 <= 2 ^ 127) as Hlo by lia.
  assert (2 ^ 127 + 127 * Z.of_nat (length bufs) < 2 ^ 128 - 256) as Hhi by lia.
  pose proof (window_refuses _ _ _ _ n Hlo Hhi Hinv Hn Hw) as Hc.
  destruct tail as [|t0 [|t1 [|t2 tail]]]; try (cbn in Ht; lia).
  cbn [decrypt]. fold st' in Hc. rewrite Hc. by destruct st'.
Qed.

Lemma crypt_replay_reported_witness :
  let st' := fst (@receive xor_aes ServerBound _ sample_server sample_traffic) in
  @decrypt xor_aes ServerBound _ st' (1 :: [0; 0; 0]) 7 = (st', Err Repeat).
Proof.
  cbv zeta.
  apply (@crypt_replay_reported xor_aes ServerBound _ sample_server sample_traffic (2 ^ 127 + 1) [0; 0; 0] 7);
    [split; reflexivity| |vm_compute; reflexivity| |vm_compute; reflexivity|cbn; lia].
  - repeat (apply Forall_cons; split; [apply bytes_okb_spec; vm_compute; reflexivity|]). constructor.
  - vm_compute. left.
Defined.

(** Right after a handshake or a resynchronisation the window refuses genuine late packets: for
    every late packet among the first 255, not received before (its history slot is still
    zero), the slot's initial value already equals the packet's mark, so the packet is dropped as a
    [Repeat] although it is the first of its nonce. *)
Theorem crypt_first_window_drops_late (st : CryptState) (j gap : Z) :
  0 < j -> 0 < gap < 30 -> j < 256 ->
  decrypt_nonce st = 2 ^ 127 + j + gap -> nth (slot j) (decrypt_history st) 0 = 0 ->
  check_nonce st (as_u8 (2 ^ 127 + j)) = RefuseNonce Repeat.
Proof.
  intros Hj Hgap Hj2 Hc Hh. unfold check_nonce. set (c := decrypt_nonce st) in *.
  assert (as_u8 (2 ^ 127 + j) = as_u8 j) as Hn by range_lia.
  rewrite as_u8_u128. rewrite (proj2 (Z.eqb_neq _ _)) by range_lia.
  replace (2 ^ 127 + j) with (c + - gap) by lia. rewrite header_diff by lia.
  rewrite (proj2 (Z.ltb_ge _ _)), (proj2 (Z.ltb_lt _ _)) by lia.
  replace (as_u128 (c + as_u128 (- gap))) with (2 ^ 127 + j) by range_lia.
  replace (c + - gap) with (2 ^ 127 + j) by lia. rewrite Hn. fold (slot j). rewrite Hh.
  replace (as_u8 (Z.shiftr (2 ^ 127 + j) 8)) with 0; [done|].
  rewrite Z.shiftr_div_pow2 by lia. range_lia.
Qed.

(** Packet 2 overtakes packet 1: packet 1 is lost. *)
Definition sample_overtaken : CryptState :=
  fst (@decrypt xor_aes ServerBound _ sample_server (nth 1 sample_pings []) 0).

Lemma crypt_first_window_drops_late_witness :
  decrypt_nonce sample_overtaken = 2 ^ 127 + 2
  /\ check_nonce sample_overtaken (as_u8 (2 ^ 127 + 1)) = RefuseNonce Repeat.
Proof.
  split; [vm_compute; reflexivity|].
  apply (crypt_first_window_drops_late sample_overtaken 1 1); try lia; vm_compute; reflexivity.
Defined.
