(* ===== verification/Proto.v ===== *)
(** The control channel of [src/src/proto/mod.rs]: message kinds, framing
    (16-bit kind, 32-bit length, payload, all big endian) and the reads of the
    handshake.  A TLS stream is the list of bytes the peer sends before it closes: a read
    past the end is [UnexpectedEof].

    The payload codec is the [Message] trait of the protobuf crate, the class
    [ProtoMessage]. *)

From stdpp Require Import base list strings.
From Stdlib Require Import ZArith Lia.
From S2P Require Import Prelude Errors.

(** ** Message kinds *)

Module MessageKind.
Inductive MessageKind :=
  | Version | UDPTunnel | Authenticate | Ping | Reject | ServerSync | ChannelRemove
  | ChannelState | UserRemove | UserState | BanList | TextMessage | PermissionDenied | Acl
  | QueryUsers | CryptSetup | ContextActionModify | ContextAction | UserList | VoiceTarget
  | PermissionQuery | CodecVersion | UserStats | RequestBlob | ServerConfig | SuggestConfig.

#[global] Instance MessageKind_eq_dec : EqDecision MessageKind.
Proof. solve_decision. Defined.

(** [kind as u16]. *)
Definition as_u16 (kind : MessageKind) : Z :=
  match kind with
  | Version => 0 | UDPTunnel => 1 | Authenticate => 2 | Ping => 3 | Reject => 4
  | ServerSync => 5 | ChannelRemove => 6 | ChannelState => 7 | UserRemove => 8
  | UserState => 9 | BanList => 10 | TextMessage => 11 | PermissionDenied => 12 | Acl => 13
  | QueryUsers => 14 | CryptSetup => 15 | ContextActionModify => 16 | ContextAction => 17
  | UserList => 18 | VoiceTarget => 19 | PermissionQuery => 20 | CodecVersion => 21
  | UserStats => 22 | RequestBlob => 23 | ServerConfig => 24 | SuggestConfig => 25
  end.

(** [Display], the label of the message metrics. *)
Definition to_string (kind : MessageKind) : string :=
  match kind with
  | Version => "Version"
  | UDPTunnel => "UDPTunnel"
  | Authenticate => "Authenticate"
  | Ping => "Ping"
  | Reject => "Reject"
  | ServerSync => "ServerSync"
  | ChannelRemove => "ChannelRemove"
  | ChannelState => "ChannelState"
  | UserRemove => "UserRemove"
  | UserState => "UserState"
  | BanList => "BanList"
  | TextMessage => "TextMessage"
  | PermissionDenied => "PermissionDenied"
  | Acl => "ACL"
  | QueryUsers => "QueryUsers"
  | CryptSetup => "CryptSetup"
  | ContextActionModify => "ContextActionModify"
  | ContextAction => "ContextAction"
  | UserList => "UserList"
  | VoiceTarget => "VoiceTarget"
  | PermissionQuery => "PermissionQuery"
  | CodecVersion => "CodecVersion"
  | UserStats => "UserStats"
  | RequestBlob => "RequestBlob"
  | ServerConfig => "ServerConfig"
  | SuggestConfig => "SuggestConfig"
  end%string.

Definition try_from (value : Z) : Result MumbleError MessageKind :=
  match value with
  | 0 => Ok Version | 1 => Ok UDPTunnel | 2 => Ok Authenticate | 3 => Ok Ping | 4 => Ok Reject
  | 5 => Ok ServerSync | 6 => Ok ChannelRemove | 7 => Ok ChannelState | 8 => Ok UserRemove
  | 9 => Ok UserState | 10 => Ok BanList | 11 => Ok TextMessage | 12 => Ok PermissionDenied
  | 13 => Ok Acl | 14 => Ok QueryUsers | 15 => Ok CryptSetup | 16 => Ok ContextActionModify
  | 17 => Ok ContextAction | 18 => Ok UserList | 19 => Ok VoiceTarget | 20 => Ok PermissionQuery
  | 21 => Ok CodecVersion | 22 => Ok UserStats | 23 => Ok RequestBlob | 24 => Ok ServerConfig
  | 25 => Ok SuggestConfig
  | _ => Err (UnexpectedMessageKind value)
  end.

Lemma as_u16_range kind : 0 <= as_u16 kind < 26.
Proof. destruct kind; cbn; lia. Qed.

Lemma try_from_as_u16 kind : try_from (as_u16 kind) = Ok kind.
Proof. by destruct kind. Qed.

Lemma try_from_inv value kind : try_from value = Ok kind -> value = as_u16 kind.
Proof. unfold try_from. intros H. repeat case_match; by simplify_eq. Qed.

#[global] Instance as_u16_inj : Inj (=) (=) as_u16.
Proof. intros k1 k2 H. apply (f_equal try_from) in H. rewrite !try_from_as_u16 in H. by simplify_eq. Qed.
End MessageKind.

(** ** The payload codec: [protobuf::Message], [None] standing for a [ProtobufError] *)

Class ProtoMessage (T : Type) := {
  write_to_bytes : T -> option (list Z);
  parse_from_bytes : list Z -> option T;
}.

(** What the protocol relies on: a message with fields in range that serialises is parsed back, and its
    serialisation is made of bytes.  The generated codecs have these laws ([CodecProps]). *)
Class ProtoMessageLaws (T : Type) `{ProtoMessage T} := {
  message_ok : T -> Prop;
  parse_write (m : T) bs : message_ok m -> write_to_bytes m = Some bs -> parse_from_bytes bs = Some m;
  write_ok (m : T) bs : message_ok m -> write_to_bytes m = Some bs -> bytes_ok bs;
}.

(** ** Writing *)

Definition get_mumble_buffer (kind : MessageKind.MessageKind) (bytes : list Z) : list Z :=
  be_bytes 2 (MessageKind.as_u16 kind) ++ be_bytes 4 (as_u32 (Z.of_nat (length bytes))) ++ bytes.

Definition message_to_bytes {T} `{ProtoMessage T} (kind : MessageKind.MessageKind) (message : T)
    : Result MumbleError (list Z) :=
  match write_to_bytes message with
  | None => Err Parse
  | Some bytes => Ok (get_mumble_buffer kind bytes)
  end.

(** [send_message]: what is appended to the stream. *)
Definition send_message {T} `{ProtoMessage T} (kind : MessageKind.MessageKind) (message : T)
    (stream : list Z) : Result MumbleError (list Z) :=
  let? bytes := message_to_bytes kind message in Ok (stream ++ bytes).

(** ** Reading *)

(** [read_exact] into a buffer of [n] bytes, and the big endian integer reads built on it. *)
Definition read_exact (n : nat) (stream : list Z) : Result IoError (list Z * list Z) :=
  if decide (n <= length stream)%nat then Ok (take n stream, drop n stream) else Err UnexpectedEof.

Definition read_be (n : nat) (stream : list Z) : Result IoError (Z * list Z) :=
  let? (bs, stream) := read_exact n stream in Ok (from_be_bytes bs, stream).
Abbreviation read_u16 := (read_be 2).
Abbreviation read_u32 := (read_be 4).

(** One message body: the length, then that many bytes. *)
Definition read_body (stream : list Z) : Result MumbleError (list Z * list Z) :=
  let? (size, stream) := io_mumble (read_u32 stream) in
  io_mumble (read_exact (Z.to_nat size) stream).

Definition get_message (T : Type) `{ProtoMessage T} (stream : list Z)
    : Result MumbleError (T * list Z) :=
  let? (data, stream) := read_body stream in
  match parse_from_bytes data with
  | None => Err Parse
  | Some message => Ok (message, stream)
  end.

(** The loop of [expected_message]; [retries] is [10 - retry]. *)
Fixpoint skip_tunnelled (retries : nat) (kind : MessageKind.MessageKind) (message_kind : Z)
    (stream : list Z) : Result MumbleError (list Z) :=
  match retries with
  | O => Ok stream
  | S retries =>
    if message_kind =? MessageKind.as_u16 kind then Ok stream else
    let? (data, stream) := read_body stream in
    if message_kind =? MessageKind.as_u16 MessageKind.UDPTunnel then
      let? (message_kind, stream) := io_mumble (read_u16 stream) in
      skip_tunnelled retries kind message_kind stream
    else Err (UnexpectedMessageKind message_kind)
  end.

Definition expected_message (T : Type) `{ProtoMessage T} (kind : MessageKind.MessageKind)
    (stream : list Z) : Result MumbleError (T * list Z) :=
  let? (message_kind, stream) := io_mumble (read_u16 stream) in
  let? stream := skip_tunnelled 10 kind message_kind stream in
  get_message T stream.

(** ** Framing lemmas *)

Lemma read_exact_length n s bs rest :
  read_exact n s = Ok (bs, rest) -> (n <= length s)%nat /\ length rest = (length s - n)%nat.
Proof. unfold read_exact. case_decide; [|done]. intros [= <- <-]. by rewrite length_drop. Qed.

Lemma read_be_length n s z rest : read_be n s = Ok (z, rest) -> (n <= length s)%nat /\ length rest = (length s - n)%nat.
Proof.
  unfold read_be. destruct (read_exact n s) as [[bs s']|] eqn:E; [|done]. cbn. intros [= _ <-].
  by eapply read_exact_length.
Qed.

(** The reads of the handshake only take bytes away. *)
Lemma io_mumble_ok {A} (r : Result IoError A) x : io_mumble r = Ok x -> r = Ok x.
Proof. destruct r; cbn; congruence. Qed.

Lemma read_body_length s data rest : read_body s = Ok (data, rest) -> (length rest <= length s)%nat.
Proof.
  unfold read_body. destruct (io_mumble (read_u32 s)) as [[n s1]|] eqn:E1; [|done]. cbn [result_bind].
  apply io_mumble_ok, read_be_length in E1 as [_ E1]. intros E2%io_mumble_ok%read_exact_length. lia.
Qed.

Lemma skip_tunnelled_length retries kind k s rest :
  skip_tunnelled retries kind k s = Ok rest -> (length rest <= length s)%nat.
Proof.
  revert k s. induction retries as [|retries IH]; intros k s; cbn [skip_tunnelled]; [intros [= <-]; lia|].
  case_if; [intros [= <-]; lia|]. destruct (read_body s) as [[data s1]|] eqn:E1; [|done]. cbn [result_bind].
  case_if; [|done]. apply read_body_length in E1. destruct (io_mumble (read_u16 s1)) as [[k' s2]|] eqn:E2; [|done].
  apply io_mumble_ok, read_be_length in E2 as [_ E2]. cbn [result_bind]. intros E3%IH. lia.
Qed.

Lemma expected_message_length T `{ProtoMessage T} kind s m rest :
  expected_message T kind s = Ok (m, rest) -> (length rest <= length s)%nat.
Proof.
  unfold expected_message. destruct (io_mumble (read_u16 s)) as [[k s1]|] eqn:E1; [|done]. cbn [result_bind].
  apply io_mumble_ok, read_be_length in E1 as [_ E1].
  destruct (skip_tunnelled 10 kind k s1) as [s2|] eqn:E2; [|done]. apply skip_tunnelled_length in E2. cbn [result_bind].
  unfold get_message. destruct (read_body s2) as [[data s3]|] eqn:E3; [|done]. apply read_body_length in E3. cbn [result_bind].
  destruct (parse_from_bytes data); [|done]. intros [= _ <-]. lia.
Qed.

Lemma read_exact_app bs rest n : n = length bs -> read_exact n (bs ++ rest) = Ok (bs, rest).
Proof.
  intros ->. unfold read_exact. rewrite decide_True by (rewrite length_app; lia).
  by rewrite take_app_length, drop_app_length.
Qed.

Lemma read_be_app n z rest :
  in_u (8 * Z.of_nat n) z -> read_be n (be_bytes n z ++ rest) = Ok (z, rest).
Proof.
  intros Hz. unfold read_be. rewrite read_exact_app by (by rewrite length_be_bytes).
  cbn [result_bind]. rewrite from_be_be_bytes. by rewrite Z.mod_small.
Qed.

Lemma read_body_app body rest :
  Z.of_nat (length body) < 2 ^ 32 ->
  read_body (be_bytes 4 (as_u32 (Z.of_nat (length body))) ++ body ++ rest) = Ok (body, rest).
Proof.
  intros Hl. unfold read_body. rewrite as_u32_small by (unfold in_u; lia).
  rewrite read_be_app by (unfold in_u; lia). cbn [io_mumble result_map_err result_bind].
  by rewrite Nat2Z.id, read_exact_app.
Qed.

(** The stream of [n] tunnelled voice packets. *)
Definition tunnelled (voice : list (list Z)) : list Z :=
  concat (get_mumble_buffer MessageKind.UDPTunnel <$> voice).

(** Reading the kind of a frame and skipping [length voice] tunnelled frames. *)
Lemma skip_tunnelled_frames retries kind voice next body rest :
  kind <> MessageKind.UDPTunnel -> Forall short voice -> (length voice <= retries)%nat ->
  (let? (k, s) := io_mumble (read_u16 (tunnelled voice ++ get_mumble_buffer next body ++ rest)) in
   skip_tunnelled retries kind k s) =
  skip_tunnelled (retries - length voice) kind (MessageKind.as_u16 next)
    (be_bytes 4 (as_u32 (Z.of_nat (length body))) ++ body ++ rest).
Proof.
  intros Hkind Hv. revert retries. induction Hv as [|v voice Hshort Hv IH]; intros retries Hr.
  - rewrite Nat.sub_0_r. cbn [tunnelled fmap list_fmap concat app]. unfold get_mumble_buffer.
    rewrite <-!app_assoc, read_be_app; [done|].
    pose proof (MessageKind.as_u16_range next). unfold in_u. lia.
  - cbn [length] in Hr. destruct retries as [|retries]; [lia|].
    change (tunnelled (v :: voice)) with (get_mumble_buffer MessageKind.UDPTunnel v ++ tunnelled voice).
    unfold get_mumble_buffer at 1. rewrite <-!app_assoc, read_be_app by (cbn; unfold in_u; lia).
    cbn [io_mumble result_map_err result_bind skip_tunnelled length Nat.sub].
    rewrite (proj2 (Z.eqb_neq _ _)); [|intros Heq; by apply (inj MessageKind.as_u16) in Heq].
    rewrite read_body_app by done. cbn [result_bind].
    change (_ =? _) with true. cbv iota. apply IH. lia.
Qed.

Lemma get_message_app {T} `{ProtoMessageLaws T} (m : T) bs rest :
  message_ok m -> write_to_bytes m = Some bs -> short bs ->
  get_message T (be_bytes 4 (as_u32 (Z.of_nat (length bs))) ++ bs ++ rest) = Ok (m, rest).
Proof.
  intros Ho Hw Hs. unfold get_message. rewrite read_body_app by done. cbn [result_bind].
  by rewrite (parse_write m bs Ho Hw).
Qed.

Lemma expected_message_frames {T} `{ProtoMessage T} kind voice next body rest :
  kind <> MessageKind.UDPTunnel -> Forall short voice -> (length voice <= 10)%nat ->
  expected_message T kind (tunnelled voice ++ get_mumble_buffer next body ++ rest) =
  let? stream := skip_tunnelled (10 - length voice) kind (MessageKind.as_u16 next)
    (be_bytes 4 (as_u32 (Z.of_nat (length body))) ++ body ++ rest) in
  get_message T stream.
Proof.
  intros Hk Hv Hl. rewrite <-(skip_tunnelled_frames 10) by done. unfold expected_message.
  by destruct (io_mumble (read_u16 _)) as [[k s]|].
Qed.

(** A framed message behind tunnelled packets is read back. *)
Lemma expected_message_app {T} `{ProtoMessageLaws T} (kind : MessageKind.MessageKind) (m : T)
    (frame : list Z) (voice : list (list Z)) (rest : list Z) :
  kind <> MessageKind.UDPTunnel -> Forall short voice -> (length voice <= 10)%nat ->
  message_ok m -> message_to_bytes kind m = Ok frame -> Z.of_nat (length frame) < 2 ^ 32 ->
  expected_message T kind (tunnelled voice ++ frame ++ rest) = Ok (m, rest).
Proof.
  intros Hk Hv Hl Ho Hm Hs. unfold message_to_bytes in Hm.
  destruct (write_to_bytes m) as [bs|] eqn:Hw; simplify_eq.
  assert (short bs) as Hbs.
  { unfold short, get_mumble_buffer in *. rewrite !length_app in Hs. lia. }
  rewrite expected_message_frames by done.
  destruct (10 - length voice)%nat; cbn [skip_tunnelled]; rewrite ?Z.eqb_refl;
    cbn [result_bind]; by apply get_message_app.
Qed.

(** The identity codec on byte strings, a concrete [ProtoMessage]. *)
Definition raw_message : ProtoMessage (list Z) := {|
  write_to_bytes m := if bytes_okb m then Some m else None;
  parse_from_bytes bs := Some bs;
|}.

Lemma raw_message_laws : @ProtoMessageLaws (list Z) raw_message.
Proof.
  split with (fun _ => True); cbn; intros m bs _; case_if; intros; simplify_eq; [done|by apply bytes_okb_spec].
Defined.

(** ** Properties *)

(** The discriminants of [MessageKind] and [TryFrom<u16>] are inverse to each other, and every
    other 16-bit value is refused with the value in the error. *)
Theorem message_kind_roundtrip (value : Z) (kind : MessageKind.MessageKind) :
  MessageKind.try_from (MessageKind.as_u16 kind) = Ok kind
  /\ match MessageKind.try_from value with
     | Ok k => MessageKind.as_u16 k = value
     | Err e => e = UnexpectedMessageKind value /\ (value < 0 \/ 26 <= value)
     end.
Proof.
  split; [apply MessageKind.try_from_as_u16|].
  destruct (MessageKind.try_from value) as [k|e] eqn:Hk; [by apply MessageKind.try_from_inv in Hk|].
  assert (forall b, byte_ok b -> (26 <=? b) ||
    match MessageKind.try_from b with Ok _ => true | Err _ => false end = true) as Hlow
    by (intros b Hb; by_bytes b Hb).
  split; [unfold MessageKind.try_from in Hk; repeat case_match; by simplify_eq|].
  destruct (decide (0 <= value < 26)) as [Hr|Hr]; [|lia].
  specialize (Hlow value ltac:(unfold in_u; lia)). rewrite Hk, orb_false_r in Hlow. lia.
Qed.

(** Round trip of the control channel: whatever serialises, with fields in range, is framed by [message_to_bytes] so that
    [expected_message] returns it and leaves exactly the bytes that follow, after skipping up to ten
    voice packets tunnelled before it. *)
Theorem expected_message_roundtrip {T} `{ProtoMessageLaws T} (kind : MessageKind.MessageKind) (m : T)
    (frame : list Z) (voice : list (list Z)) (rest : list Z) :
  kind <> MessageKind.UDPTunnel -> Forall short voice -> (length voice <= 10)%nat ->
  message_ok m -> message_to_bytes kind m = Ok frame -> Z.of_nat (length frame) < 2 ^ 32 ->
  expected_message T kind (tunnelled voice ++ frame ++ rest) = Ok (m, rest).
Proof. apply expected_message_app. Qed.

Lemma expected_message_roundtrip_witness :
  @expected_message (list Z) raw_message MessageKind.Version
    (tunnelled [[1; 2]; [3]] ++ [0; 0; 0; 0; 0; 2; 77; 78] ++ [9]) = Ok ([77; 78], [9]).
Proof.
  apply (@expected_message_roundtrip (list Z) raw_message raw_message_laws MessageKind.Version
    [77; 78] [0; 0; 0; 0; 0; 2; 77; 78] [[1; 2]; [3]] [9]); [done| |cbn; lia|exact I|reflexivity|cbn; lia].
  repeat constructor.
Defined.

(** The retry limit of the handshake is not a refusal: after exactly ten tunnelled packets the
    loop stops without looking at the next kind, so a message of any other kind is
    parsed as the expected one. *)
Theorem expected_message_after_ten {T} `{ProtoMessageLaws T} (kind other : MessageKind.MessageKind)
    (m : T) (body : list Z) (voice : list (list Z)) (rest : list Z) :
  kind <> MessageKind.UDPTunnel -> Forall short voice -> length voice = 10%nat ->
  message_ok m -> write_to_bytes m = Some body -> short body ->
  expected_message T kind (tunnelled voice ++ get_mumble_buffer other body ++ rest) = Ok (m, rest).
Proof.
  intros Hk Hv Hl Ho Hw Hs. rewrite expected_message_frames by (done || lia).
  rewrite Hl. cbn [Nat.sub skip_tunnelled result_bind]. by apply get_message_app.
Qed.

Lemma expected_message_after_ten_witness :
  @expected_message (list Z) raw_message MessageKind.Version
    (tunnelled (replicate 10 [1]) ++ get_mumble_buffer MessageKind.Ping [77; 78] ++ [9])
  = Ok ([77; 78], [9]).
Proof.
  apply (@expected_message_after_ten (list Z) raw_message raw_message_laws MessageKind.Version
    MessageKind.Ping [77; 78] [77; 78] (replicate 10 [1]) [9]); try done.
  repeat constructor.
Defined.

(** Any other kind before the expected one ends the handshake with that kind in the
    error, once its body has been read. *)
Theorem expected_message_refuses {T} `{ProtoMessage T} (kind other : MessageKind.MessageKind)
    (body : list Z) (voice : list (list Z)) (rest : list Z) :
  kind <> MessageKind.UDPTunnel -> other <> MessageKind.UDPTunnel -> other <> kind ->
  Forall short voice -> (length voice < 10)%nat -> short body ->
  expected_message T kind (tunnelled voice ++ get_mumble_buffer other body ++ rest)
  = Err (UnexpectedMessageKind (MessageKind.as_u16 other)).
Proof.
  intros Hk Ho Hok Hv Hl Hs. rewrite expected_message_frames by (done || lia).
  destruct (10 - length voice)%nat as [|r] eqn:Hr; [lia|]. cbn [skip_tunnelled].
  rewrite !(proj2 (Z.eqb_neq _ _)) by (intros Heq; by apply (inj MessageKind.as_u16) in Heq).
  by rewrite read_body_app.
Qed.
