(* ===== verification/CodecProps.v ===== *)
(** The generated codec of every message the server uses is correct over any runtime with the laws of
    [Wire.v]: what is written is read back, [compute_size] announces the bytes written, every
    input is dealt with in finitely many turns. *)

From stdpp Require Import base list option strings.
From Stdlib Require Import ZArith Lia.
From S2P Require Import Prelude Errors Float32 Messages Wire WireFormat Codec Proto.

(** ** The trait *)

(** The required methods of [protobuf::Message] and what the proofs below show of them. *)
Class Message `{Runtime} (T : Type) := {
  msg_new : T;
  msg_field : T -> Z -> WireType -> list Z -> option (T * list Z);
  msg_initialized : T -> bool;
  msg_size : T -> Z;
  msg_write : T -> list Z;
  msg_ok : T -> Prop;
}.

Class MessageLaws `{R : Runtime} (T : Type) `{!@Message R T} := {
  msg_merges m : msg_ok m -> merges msg_field msg_new (msg_write m) m;
  msg_size_u32 m : u32 (msg_size m);
  msg_sized m : msg_ok m -> sized (msg_size m) (msg_write m);
  msg_bytes m : msg_ok m -> bytes_ok (msg_write m);
  msg_consumes : field_consumes msg_field;
}.

(** The provided methods. *)
#[export] Instance message_proto `{R : Runtime} {T} {M : @Message R T} : ProtoMessage T := {|
  write_to_bytes m := rt_write_to_bytes (msg_initialized m) (msg_size m) (msg_write m);
  parse_from_bytes bs := rt_parse_from_bytes msg_new (merge_all msg_field) msg_initialized bs;
|}.

Section Trait.
Context `{R : Runtime} {L : @RuntimeLaws R} {T : Type} `{M : !@Message R T} {ML : @MessageLaws R T M}.

Lemma msg_written m : msg_ok m -> short (msg_write m) ->
  write_to_bytes m = if msg_initialized m then Some (msg_write m) else None.
Proof.
  intros Ho Hs. cbn. rewrite (msg_sized m Ho Hs).
  destruct (msg_initialized m); [apply law_write|apply law_write_missing].
Qed.

Lemma msg_parsed m : msg_ok m -> short (msg_write m) -> msg_initialized m = true ->
  parse_from_bytes (msg_write m) = Some m.
Proof. intros Ho Hs Hi. cbn. apply law_parse; [|done]. by apply merges_all_of; [apply msg_merges|]. Qed.

#[export] Instance message_proto_laws : ProtoMessageLaws T.
Proof.
  split with (fun m => msg_ok m /\ short (msg_write m)).
  - intros m bs [Ho Hs] Hw. rewrite msg_written in Hw by done.
    destruct (msg_initialized m) eqn:Hi; simplify_eq. by apply msg_parsed.
  - intros m bs [Ho Hs] Hw. rewrite msg_written in Hw by done.
    destruct (msg_initialized m); simplify_eq. by apply msg_bytes.
Defined.
End Trait.

(** ** Automation *)

Lemma scalar_consumes {T A} wt wt' (rd : list Z -> option (A * list Z)) input (set : option A -> T) self' rest :
  consumes rd -> scalar wt wt' rd input set = Some (self', rest) -> (length rest <= length input)%nat.
Proof.
  intros Hc. unfold scalar. case_decide; [|done]. destruct (rd input) as [[v r]|] eqn:E; [|done].
  cbn. intros; simplify_eq. eauto.
Qed.

Lemma into_consumes {T A} (r : option (A * list Z)) (input : list Z) (set : A -> T) self' rest :
  (forall v rest, r = Some (v, rest) -> (length rest <= length input)%nat) ->
  into r set = Some (self', rest) -> (length rest <= length input)%nat.
Proof.
  intros Hc. unfold into. destruct r as [[v rem]|] eqn:E; [|done]. cbn. intros; simplify_eq. eauto.
Qed.

Lemma unknown_consumes `{R : Runtime} {L : @RuntimeLaws R} {T} (self : T) n wt input self' rest :
  unknown self n wt input = Some (self', rest) -> (length rest <= length input)%nat.
Proof.
  unfold unknown. destruct (read_unknown_or_skip_group n wt input) as [r|] eqn:E; [|done].
  cbn. intros; simplify_eq. eauto using law_unknown_consumes.
Qed.

Create HintDb wire.
#[export] Hint Resolve law_uint32_consumes law_uint64_consumes law_int32_consumes law_bool_consumes
  law_float_consumes : wire.

(** Every branch of a [merge_field] consumes its input. *)
Ltac field_consumes_tac :=
  intros self n wt input self' rest;
  repeat match goal with |- context [match ?x with _ => _ end] => is_var x; destruct x end;
  first [ apply unknown_consumes
        | apply scalar_consumes; solve [auto with wire]
        | apply into_consumes; intros ? ?;
          first [ apply law_string_consumes | apply law_strings_consumes | apply law_bytes_consumes
                | apply law_bytess_consumes | apply law_uint32s_consumes | apply law_int32s_consumes
                | apply law_message_consumes | apply law_messages_consumes | apply law_enum_consumes ] ].

Lemma message_reads `{R : Runtime} {L : @RuntimeLaws R} {T} {M : @Message R T} {ML : @MessageLaws R T M} n (v : T) :
  field n -> msg_ok v -> short (write_message n (msg_size v) (msg_write v)) ->
  reads (write_message n (msg_size v) (msg_write v)) n WireTypeLengthDelimited
    (fun input => read_singular_message_into msg_new (merge_all msg_field) WireTypeLengthDelimited input None) (Some v).
Proof.
  intros Hn Ho Hs. pose proof Hs as [_ [_ Hb]%short_app]%short_app. unfold write_message.
  rewrite (msg_sized v Ho Hb). apply law_message; [done..|].
  by apply merges_all_of; [apply msg_merges|].
Qed.

Lemma messages_read `{R : Runtime} {L : @RuntimeLaws R} {T} {M : @Message R T} {ML : @MessageLaws R T M} n (v : T) old :
  field n -> msg_ok v -> short (write_message n (msg_size v) (msg_write v)) ->
  reads (write_message n (msg_size v) (msg_write v)) n WireTypeLengthDelimited
    (fun input => read_repeated_message_into msg_new (merge_all msg_field) WireTypeLengthDelimited input old)
    (old ++ [v]).
Proof.
  intros Hn Ho Hs. pose proof Hs as [_ [_ Hb]%short_app]%short_app. unfold write_message.
  rewrite (msg_sized v Ho Hb). apply law_messages; [done..|].
  by apply merges_all_of; [apply msg_merges|].
Qed.

Section Bytes.
Context `{R : Runtime} {L : @RuntimeLaws R}.

Lemma write_opt_ok {A} (ok : A -> Prop) o w out :
  bytes_ok out -> (forall v, ok v -> bytes_ok (w v)) -> opt_ok ok o -> bytes_ok (write_opt o w out).
Proof. intros H1 H2 Ho. destruct o; cbn in *; [apply Forall_app_2; auto|done]. Qed.

Lemma write_all_ok {A} (ok : A -> Prop) l w out :
  bytes_ok out -> (forall v, ok v -> bytes_ok (w v)) -> Forall ok l -> bytes_ok (write_all l w out).
Proof.
  intros H1 H2 Hl. rewrite write_all_app. apply Forall_app_2; [done|].
  induction Hl; cbn; [constructor|]. apply Forall_app_2; auto.
Qed.

Lemma write_message_ok {T} {M : @Message R T} {ML : @MessageLaws R T M} n (v : T) :
  field n -> msg_ok v -> bytes_ok (write_message n (msg_size v) (msg_write v)).
Proof.
  intros Hn Ho. destruct (law_written_bytes n Hn) as (_&_&_&_&_&_&_&Ht&Hr). unfold write_message.
  repeat apply Forall_app_2; auto using msg_bytes, msg_size_u32.
Qed.
End Bytes.

(** Goals of the form [field n] or a small range, for a literal [n]. *)
Ltac field_lit := unfold field; lia.

#[export] Hint Resolve law_uint32 law_uint64 law_int32 law_bool law_float law_string law_strings law_bytes
  law_bytess law_uint32s law_int32s : wire.
#[global] Arguments write_opt : simpl never.
#[global] Arguments write_all : simpl never.
#[global] Arguments size_opt : simpl never.
#[global] Arguments size_all : simpl never.
#[global] Arguments chunk : simpl never.
#[global] Arguments write_message : simpl never.
#[global] Arguments message_size : simpl never.

(** The ranges of the fields, one hypothesis each. *)
Ltac split_ok Ho :=
  repeat match type of Ho with _ /\ _ => let H := fresh "Ho" in destruct Ho as [H Ho] end.

(** Reads one field that may be present: [W] stores it. *)
Ltac merge_opt W :=
  lazymatch goal with |- merges ?mf ?self (chunk ?o ?w ++ ?rest) ?self' =>
    let s := eval cbv [W] in (W self o) in let s := eval cbn in s in
    match goal with Ho : opt_ok ?ok o |- _ =>
      apply (merges_opt mf (W self) ok w o rest self'); [|exact Ho|change (merges mf s rest self')] end;
    [let v := fresh "v" in let Hv := fresh "Hv" in intros v ? Hv;
     first
       [ eapply (merges_scalar mf read_uint32 (W self) v self); [apply law_uint32; [field_lit|exact Hv]|reflexivity]
       | eapply (merges_scalar mf read_uint64 (W self) v self); [apply law_uint64; [field_lit|exact Hv]|reflexivity]
       | eapply (merges_scalar mf read_int32 (W self) v self); [apply law_int32; [field_lit|exact Hv]|reflexivity]
       | eapply (merges_scalar mf read_bool (W self) v self); [apply law_bool; field_lit|reflexivity]
       | eapply (merges_scalar mf read_float (W self) v self); [apply law_float; [field_lit|exact Hv]|reflexivity]
       | eapply (merges_into mf _ (W self) (Some v) self);
         [intros; apply law_string; [field_lit|exact Hv|assumption]|reflexivity]
       | eapply (merges_into mf _ (W self) (Some v) self);
         [intros; apply law_bytes; [field_lit|exact Hv|assumption]|reflexivity]
       | eapply (merges_into mf _ (W self) (Some v) self); [intros; apply law_enum; field_lit|reflexivity]
       | eapply (merges_into mf _ (W self) (Some v) self);
         [intros; 
          lazymatch goal with |- reads (write_message ?n _ _) _ _ _ _ => refine (message_reads n v _ _ _) end;
          [field_lit|exact Hv|assumption]|reflexivity] ]
    |]
  end.

(** Reads one repeated field. *)
Ltac merge_all W :=
  lazymatch goal with |- merges ?mf ?self ((?l ≫= ?w) ++ ?rest) ?self' =>
    let s := eval cbv [W] in (W self l) in let s := eval cbn in s in
    match goal with Ho : Forall ?ok l |- _ =>
      apply (merges_all mf (W self) ok w l rest self'); [|exact Ho|change (merges mf s rest self')] end;
    [let pre := fresh "pre" in let v := fresh "v" in let Hv := fresh "Hv" in intros pre v ? Hv;
     first
       [ eapply (merges_into mf _ (W self) (pre ++ [v]) (W self pre));
         [intros; apply law_strings; [field_lit|exact Hv|assumption]|reflexivity]
       | eapply (merges_into mf _ (W self) (pre ++ [v]) (W self pre));
         [intros; apply law_bytess; [field_lit|exact Hv|assumption]|reflexivity]
       | eapply (merges_into mf _ (W self) (pre ++ [v]) (W self pre));
         [intros; apply law_uint32s; [field_lit|exact Hv]|reflexivity]
       | eapply (merges_into mf _ (W self) (pre ++ [v]) (W self pre));
         [intros; apply law_int32s; [field_lit|exact Hv]|reflexivity]
       | eapply (merges_into mf _ (W self) (pre ++ [v]) (W self pre));
         [intros;
          lazymatch goal with |- reads (write_message ?n _ _) _ _ _ _ => refine (messages_read n v pre _ _ _) end;
          [field_lit|exact Hv|assumption]|reflexivity] ]
    |]
  end.


(** The size of one field. *)
Ltac size_field :=
  let v := fresh "v" in let Hv := fresh "Hv" in let Hs := fresh "Hs" in intros v Hv;
  first
    [ apply sized_message; [lia|refine (msg_sized v _); exact Hv]
    | intros Hs;
      first [ apply law_uint32_size; [field_lit|exact Hv] | apply law_uint64_size; [field_lit|exact Hv]
            | apply law_int32_size; [field_lit|exact Hv]
            | rewrite law_bool_size1 by lia; reflexivity | rewrite law_bool_size2 by lia; reflexivity
            | rewrite law_float_size by lia; reflexivity
            | apply law_enum_size; field_lit
            | apply law_string_size; [field_lit|exact Hs] | apply law_bytes_size; [field_lit|exact Hs] ] ].

Ltac size_fields :=
  repeat first
    [ exact sized_nil
    | match goal with Ho : opt_ok ?ok ?o |- sized (size_opt ?o _ _) _ => apply (sized_opt ok); [|size_field|exact Ho] end
    | match goal with Ho : Forall ?ok ?l |- sized (size_all ?l _ _) _ => apply (sized_all ok); [|size_field|exact Ho] end ].

(** The bytes of one field. *)
Ltac bytes_field n :=
  let v := fresh "v" in let Hv := fresh "Hv" in intros v Hv;
  first [ lazymatch goal with |- bytes_ok (write_message ?k _ _) => refine (write_message_ok k v _ _) end;
          [field_lit|exact Hv]
        | apply law_enum_bytes; [field_lit|apply value_i32]
        | destruct (law_written_bytes n) as (?&?&?&?&?&?&?&?&?); [field_lit|]; auto ].

Ltac bytes_fields :=
  repeat first
    [ apply Forall_nil_2
    | match goal with
      | Ho : opt_ok ?ok ?o |- bytes_ok (write_opt ?o (?f ?n) _) => apply (write_opt_ok ok); [|bytes_field n|exact Ho]
      | Ho : Forall ?ok ?l |- bytes_ok (write_all ?l (?f ?n) _) => apply (write_all_ok ok); [|bytes_field n|exact Ho]
      | Ho : opt_ok ?ok ?o |- bytes_ok (write_opt ?o _ _) => apply (write_opt_ok ok); [|bytes_field 1|exact Ho]
      | Ho : Forall ?ok ?l |- bytes_ok (write_all ?l _ _) => apply (write_all_ok ok); [|bytes_field 1|exact Ho]
      end ].

Ltac u32_fields := repeat first [apply u32_opt | apply u32_all]; unfold u32, in_u; lia.

(** ** The messages *)

(** The fields of a message in the order they are written. *)
Ltac fields m Ho :=
  split_ok Ho; cbv zeta; rewrite ?write_opt_app, ?write_all_app, ?write_opt_app, ?write_all_app;
  lazymatch goal with |- merges _ _ ?w _ => rewrite <- (app_nil_r w) end;
  rewrite <- !app_assoc, app_nil_l; destruct m; cbn -[merges] in *.

#[export] Instance version_codec `{Runtime} : Message VersionMsg.Version := {|
  msg_new := VersionCodec.new; msg_field := VersionCodec.merge_field; msg_initialized := VersionCodec.is_initialized;
  msg_size := VersionCodec.compute_size; msg_write := VersionCodec.write_to_with_cached_sizes; msg_ok := VersionCodec.message_ok;
|}.

#[export] Instance version_laws `{R : Runtime} {L : @RuntimeLaws R} : MessageLaws VersionMsg.Version.
Proof.
  split; unfold msg_ok, msg_write, msg_size, msg_field, msg_new, version_codec.
  - intros m Ho. unfold VersionCodec.message_ok, VersionCodec.write_to_with_cached_sizes, VersionCodec.new in *. fields m Ho.
    merge_opt VersionCodec.with_version. merge_opt VersionCodec.with_release. merge_opt VersionCodec.with_os.
    merge_opt VersionCodec.with_os_version.
    apply merges_nil.
  - intros m. unfold VersionCodec.compute_size. u32_fields.
  - intros m Ho. unfold VersionCodec.message_ok, VersionCodec.compute_size, VersionCodec.write_to_with_cached_sizes in *.
    split_ok Ho. size_fields.
  - intros m Ho. unfold VersionCodec.message_ok, VersionCodec.write_to_with_cached_sizes in *. split_ok Ho. bytes_fields.
  - unfold field_consumes, VersionCodec.merge_field. field_consumes_tac.
Qed.

#[export] Instance authenticate_codec `{Runtime} : Message AuthenticateMsg.Authenticate := {|
  msg_new := AuthenticateCodec.new; msg_field := AuthenticateCodec.merge_field; msg_initialized := AuthenticateCodec.is_initialized;
  msg_size := AuthenticateCodec.compute_size; msg_write := AuthenticateCodec.write_to_with_cached_sizes; msg_ok := AuthenticateCodec.message_ok;
|}.

#[export] Instance authenticate_laws `{R : Runtime} {L : @RuntimeLaws R} : MessageLaws AuthenticateMsg.Authenticate.
Proof.
  split; unfold msg_ok, msg_write, msg_size, msg_field, msg_new, authenticate_codec.
  - intros m Ho. unfold AuthenticateCodec.message_ok, AuthenticateCodec.write_to_with_cached_sizes, AuthenticateCodec.new in *. fields m Ho.
    merge_opt AuthenticateCodec.with_username. merge_opt AuthenticateCodec.with_password.
    merge_all AuthenticateCodec.with_tokens. merge_all AuthenticateCodec.with_celt_versions.
    merge_opt AuthenticateCodec.with_opus.
    apply merges_nil.
  - intros m. unfold AuthenticateCodec.compute_size. u32_fields.
  - intros m Ho. unfold AuthenticateCodec.message_ok, AuthenticateCodec.compute_size, AuthenticateCodec.write_to_with_cached_sizes in *.
    split_ok Ho. size_fields.
  - intros m Ho. unfold AuthenticateCodec.message_ok, AuthenticateCodec.write_to_with_cached_sizes in *. split_ok Ho. bytes_fields.
  - unfold field_consumes, AuthenticateCodec.merge_field. field_consumes_tac.
Qed.

#[export] Instance ping_codec `{Runtime} : Message PingMsg.Ping := {|
  msg_new := PingCodec.new; msg_field := PingCodec.merge_field; msg_initialized := PingCodec.is_initialized;
  msg_size := PingCodec.compute_size; msg_write := PingCodec.write_to_with_cached_sizes; msg_ok := PingCodec.message_ok;
|}.

#[export] Instance ping_laws `{R : Runtime} {L : @RuntimeLaws R} : MessageLaws PingMsg.Ping.
Proof.
  split; unfold msg_ok, msg_write, msg_size, msg_field, msg_new, ping_codec.
  - intros m Ho. unfold PingCodec.message_ok, PingCodec.write_to_with_cached_sizes, PingCodec.new in *. fields m Ho.
    merge_opt PingCodec.with_timestamp. merge_opt PingCodec.with_good. merge_opt PingCodec.with_late.
    merge_opt PingCodec.with_lost. merge_opt PingCodec.with_resync. merge_opt PingCodec.with_udp_packets.
    merge_opt PingCodec.with_tcp_packets. merge_opt PingCodec.with_udp_ping_avg.
    merge_opt PingCodec.with_udp_ping_var. merge_opt PingCodec.with_tcp_ping_avg.
    merge_opt PingCodec.with_tcp_ping_var.
    apply merges_nil.
  - intros m. unfold PingCodec.compute_size. u32_fields.
  - intros m Ho. unfold PingCodec.message_ok, PingCodec.compute_size, PingCodec.write_to_with_cached_sizes in *.
    split_ok Ho. size_fields.
  - intros m Ho. unfold PingCodec.message_ok, PingCodec.write_to_with_cached_sizes in *. split_ok Ho. bytes_fields.
  - unfold field_consumes, PingCodec.merge_field. field_consumes_tac.
Qed.

#[export] Instance server_sync_codec `{Runtime} : Message ServerSyncMsg.ServerSync := {|
  msg_new := ServerSyncCodec.new; msg_field := ServerSyncCodec.merge_field; msg_initialized := ServerSyncCodec.is_initialized;
  msg_size := ServerSyncCodec.compute_size; msg_write := ServerSyncCodec.write_to_with_cached_sizes; msg_ok := ServerSyncCodec.message_ok;
|}.

#[export] Instance server_sync_laws `{R : Runtime} {L : @RuntimeLaws R} : MessageLaws ServerSyncMsg.ServerSync.
Proof.
  split; unfold msg_ok, msg_write, msg_size, msg_field, msg_new, server_sync_codec.
  - intros m Ho. unfold ServerSyncCodec.message_ok, ServerSyncCodec.write_to_with_cached_sizes, ServerSyncCodec.new in *. fields m Ho.
    merge_opt ServerSyncCodec.with_session. merge_opt ServerSyncCodec.with_max_bandwidth.
    merge_opt ServerSyncCodec.with_welcome_text. merge_opt ServerSyncCodec.with_permissions.
    apply merges_nil.
  - intros m. unfold ServerSyncCodec.compute_size. u32_fields.
  - intros m Ho. unfold ServerSyncCodec.message_ok, ServerSyncCodec.compute_size, ServerSyncCodec.write_to_with_cached_sizes in *.
    split_ok Ho. size_fields.
  - intros m Ho. unfold ServerSyncCodec.message_ok, ServerSyncCodec.write_to_with_cached_sizes in *. split_ok Ho. bytes_fields.
  - unfold field_consumes, ServerSyncCodec.merge_field. field_consumes_tac.
Qed.

#[export] Instance channel_remove_codec `{Runtime} : Message ChannelRemoveMsg.ChannelRemove := {|
  msg_new := ChannelRemoveCodec.new; msg_field := ChannelRemoveCodec.merge_field; msg_initialized := ChannelRemoveCodec.is_initialized;
  msg_size := ChannelRemoveCodec.compute_size; msg_write := ChannelRemoveCodec.write_to_with_cached_sizes; msg_ok := ChannelRemoveCodec.message_ok;
|}.

#[export] Instance channel_remove_laws `{R : Runtime} {L : @RuntimeLaws R} : MessageLaws ChannelRemoveMsg.ChannelRemove.
Proof.
  split; unfold msg_ok, msg_write, msg_size, msg_field, msg_new, channel_remove_codec.
  - intros m Ho. unfold ChannelRemoveCodec.message_ok, ChannelRemoveCodec.write_to_with_cached_sizes, ChannelRemoveCodec.new in *. fields m Ho.
    merge_opt ChannelRemoveCodec.with_channel_id.
    apply merges_nil.
  - intros m. unfold ChannelRemoveCodec.compute_size. u32_fields.
  - intros m Ho. unfold ChannelRemoveCodec.message_ok, ChannelRemoveCodec.compute_size, ChannelRemoveCodec.write_to_with_cached_sizes in *.
    split_ok Ho. size_fields.
  - intros m Ho. unfold ChannelRemoveCodec.message_ok, ChannelRemoveCodec.write_to_with_cached_sizes in *. split_ok Ho. bytes_fields.
  - unfold field_consumes, ChannelRemoveCodec.merge_field. field_consumes_tac.
Qed.

#[export] Instance channel_state_codec `{Runtime} : Message ChannelStateMsg.ChannelState := {|
  msg_new := ChannelStateCodec.new; msg_field := ChannelStateCodec.merge_field; msg_initialized := ChannelStateCodec.is_initialized;
  msg_size := ChannelStateCodec.compute_size; msg_write := ChannelStateCodec.write_to_with_cached_sizes; msg_ok := ChannelStateCodec.message_ok;
|}.

#[export] Instance channel_state_laws `{R : Runtime} {L : @RuntimeLaws R} : MessageLaws ChannelStateMsg.ChannelState.
Proof.
  split; unfold msg_ok, msg_write, msg_size, msg_field, msg_new, channel_state_codec.
  - intros m Ho. unfold ChannelStateCodec.message_ok, ChannelStateCodec.write_to_with_cached_sizes, ChannelStateCodec.new in *. fields m Ho.
    merge_opt ChannelStateCodec.with_channel_id. merge_opt ChannelStateCodec.with_parent.
    merge_opt ChannelStateCodec.with_name. merge_all ChannelStateCodec.with_links.
    merge_opt ChannelStateCodec.with_description. merge_all ChannelStateCodec.with_links_add.
    merge_all ChannelStateCodec.with_links_remove. merge_opt ChannelStateCodec.with_temporary.
    merge_opt ChannelStateCodec.with_position. merge_opt ChannelStateCodec.with_description_hash.
    merge_opt ChannelStateCodec.with_max_users. merge_opt ChannelStateCodec.with_is_enter_restricted.
    merge_opt ChannelStateCodec.with_can_enter.
    apply merges_nil.
  - intros m. unfold ChannelStateCodec.compute_size. u32_fields.
  - intros m Ho. unfold ChannelStateCodec.message_ok, ChannelStateCodec.compute_size, ChannelStateCodec.write_to_with_cached_sizes in *.
    split_ok Ho. size_fields.
  - intros m Ho. unfold ChannelStateCodec.message_ok, ChannelStateCodec.write_to_with_cached_sizes in *. split_ok Ho. bytes_fields.
  - unfold field_consumes, ChannelStateCodec.merge_field. field_consumes_tac.
Qed.

#[export] Instance user_remove_codec `{Runtime} : Message UserRemoveMsg.UserRemove := {|
  msg_new := UserRemoveCodec.new; msg_field := UserRemoveCodec.merge_field; msg_initialized := UserRemoveCodec.is_initialized;
  msg_size := UserRemoveCodec.compute_size; msg_write := UserRemoveCodec.write_to_with_cached_sizes; msg_ok := UserRemoveCodec.message_ok;
|}.

#[export] Instance user_remove_laws `{R : Runtime} {L : @RuntimeLaws R} : MessageLaws UserRemoveMsg.UserRemove.
Proof.
  split; unfold msg_ok, msg_write, msg_size, msg_field, msg_new, user_remove_codec.
  - intros m Ho. unfold UserRemoveCodec.message_ok, UserRemoveCodec.write_to_with_cached_sizes, UserRemoveCodec.new in *. fields m Ho.
    merge_opt UserRemoveCodec.with_session. merge_opt UserRemoveCodec.with_actor.
    merge_opt UserRemoveCodec.with_reason. merge_opt UserRemoveCodec.with_ban.
    apply merges_nil.
  - intros m. unfold UserRemoveCodec.compute_size. u32_fields.
  - intros m Ho. unfold UserRemoveCodec.message_ok, UserRemoveCodec.compute_size, UserRemoveCodec.write_to_with_cached_sizes in *.
    split_ok Ho. size_fields.
  - intros m Ho. unfold UserRemoveCodec.message_ok, UserRemoveCodec.write_to_with_cached_sizes in *. split_ok Ho. bytes_fields.
  - unfold field_consumes, UserRemoveCodec.merge_field. field_consumes_tac.
Qed.

#[export] Instance user_state_codec `{Runtime} : Message UserStateMsg.UserState := {|
  msg_new := UserStateCodec.new; msg_field := UserStateCodec.merge_field; msg_initialized := UserStateCodec.is_initialized;
  msg_size := UserStateCodec.compute_size; msg_write := UserStateCodec.write_to_with_cached_sizes; msg_ok := UserStateCodec.message_ok;
|}.

#[export] Instance user_state_laws `{R : Runtime} {L : @RuntimeLaws R} : MessageLaws UserStateMsg.UserState.
Proof.
  split; unfold msg_ok, msg_write, msg_size, msg_field, msg_new, user_state_codec.
  - intros m Ho. unfold UserStateCodec.message_ok, UserStateCodec.write_to_with_cached_sizes, UserStateCodec.new in *. fields m Ho.
    merge_opt UserStateCodec.with_session. merge_opt UserStateCodec.with_actor.
    merge_opt UserStateCodec.with_name. merge_opt UserStateCodec.with_user_id.
    merge_opt UserStateCodec.with_channel_id. merge_opt UserStateCodec.with_mute.
    merge_opt UserStateCodec.with_deaf. merge_opt UserStateCodec.with_suppress.
    merge_opt UserStateCodec.with_self_mute. merge_opt UserStateCodec.with_self_deaf.
    merge_opt UserStateCodec.with_texture. merge_opt UserStateCodec.with_plugin_context.
    merge_opt UserStateCodec.with_plugin_identity. merge_opt UserStateCodec.with_comment.
    merge_opt UserStateCodec.with_hash. merge_opt UserStateCodec.with_comment_hash.
    merge_opt UserStateCodec.with_texture_hash. merge_opt UserStateCodec.with_priority_speaker.
    merge_opt UserStateCodec.with_recording. merge_all UserStateCodec.with_temporary_access_tokens.
    merge_all UserStateCodec.with_listening_channel_add.
    merge_all UserStateCodec.with_listening_channel_remove.
    apply merges_nil.
  - intros m. unfold UserStateCodec.compute_size. u32_fields.
  - intros m Ho. unfold UserStateCodec.message_ok, UserStateCodec.compute_size, UserStateCodec.write_to_with_cached_sizes in *.
    split_ok Ho. size_fields.
  - intros m Ho. unfold UserStateCodec.message_ok, UserStateCodec.write_to_with_cached_sizes in *. split_ok Ho. bytes_fields.
  - unfold field_consumes, UserStateCodec.merge_field. field_consumes_tac.
Qed.

#[export] Instance crypt_setup_codec `{Runtime} : Message CryptSetupMsg.CryptSetup := {|
  msg_new := CryptSetupCodec.new; msg_field := CryptSetupCodec.merge_field; msg_initialized := CryptSetupCodec.is_initialized;
  msg_size := CryptSetupCodec.compute_size; msg_write := CryptSetupCodec.write_to_with_cached_sizes; msg_ok := CryptSetupCodec.message_ok;
|}.

#[export] Instance crypt_setup_laws `{R : Runtime} {L : @RuntimeLaws R} : MessageLaws CryptSetupMsg.CryptSetup.
Proof.
  split; unfold msg_ok, msg_write, msg_size, msg_field, msg_new, crypt_setup_codec.
  - intros m Ho. unfold CryptSetupCodec.message_ok, CryptSetupCodec.write_to_with_cached_sizes, CryptSetupCodec.new in *. fields m Ho.
    merge_opt CryptSetupCodec.with_key. merge_opt CryptSetupCodec.with_client_nonce.
    merge_opt CryptSetupCodec.with_server_nonce.
    apply merges_nil.
  - intros m. unfold CryptSetupCodec.compute_size. u32_fields.
  - intros m Ho. unfold CryptSetupCodec.message_ok, CryptSetupCodec.compute_size, CryptSetupCodec.write_to_with_cached_sizes in *.
    split_ok Ho. size_fields.
  - intros m Ho. unfold CryptSetupCodec.message_ok, CryptSetupCodec.write_to_with_cached_sizes in *. split_ok Ho. bytes_fields.
  - unfold field_consumes, CryptSetupCodec.merge_field. field_consumes_tac.
Qed.

#[export] Instance voice_target_target_codec `{Runtime} : Message VoiceTarget_TargetMsg.VoiceTarget_Target := {|
  msg_new := VoiceTarget_TargetCodec.new; msg_field := VoiceTarget_TargetCodec.merge_field; msg_initialized := VoiceTarget_TargetCodec.is_initialized;
  msg_size := VoiceTarget_TargetCodec.compute_size; msg_write := VoiceTarget_TargetCodec.write_to_with_cached_sizes; msg_ok := VoiceTarget_TargetCodec.message_ok;
|}.

#[export] Instance voice_target_target_laws `{R : Runtime} {L : @RuntimeLaws R} : MessageLaws VoiceTarget_TargetMsg.VoiceTarget_Target.
Proof.
  split; unfold msg_ok, msg_write, msg_size, msg_field, msg_new, voice_target_target_codec.
  - intros m Ho. unfold VoiceTarget_TargetCodec.message_ok, VoiceTarget_TargetCodec.write_to_with_cached_sizes, VoiceTarget_TargetCodec.new in *. fields m Ho.
    merge_all VoiceTarget_TargetCodec.with_session. merge_opt VoiceTarget_TargetCodec.with_channel_id.
    merge_opt VoiceTarget_TargetCodec.with_group. merge_opt VoiceTarget_TargetCodec.with_links.
    merge_opt VoiceTarget_TargetCodec.with_children.
    apply merges_nil.
  - intros m. unfold VoiceTarget_TargetCodec.compute_size. u32_fields.
  - intros m Ho. unfold VoiceTarget_TargetCodec.message_ok, VoiceTarget_TargetCodec.compute_size, VoiceTarget_TargetCodec.write_to_with_cached_sizes in *.
    split_ok Ho. size_fields.
  - intros m Ho. unfold VoiceTarget_TargetCodec.message_ok, VoiceTarget_TargetCodec.write_to_with_cached_sizes in *. split_ok Ho. bytes_fields.
  - unfold field_consumes, VoiceTarget_TargetCodec.merge_field. field_consumes_tac.
Qed.

#[export] Instance voice_target_codec `{Runtime} : Message VoiceTargetMsg.VoiceTarget := {|
  msg_new := VoiceTargetCodec.new; msg_field := VoiceTargetCodec.merge_field; msg_initialized := VoiceTargetCodec.is_initialized;
  msg_size := VoiceTargetCodec.compute_size; msg_write := VoiceTargetCodec.write_to_with_cached_sizes; msg_ok := VoiceTargetCodec.message_ok;
|}.

#[export] Instance voice_target_laws `{R : Runtime} {L : @RuntimeLaws R} : MessageLaws VoiceTargetMsg.VoiceTarget.
Proof.
  split; unfold msg_ok, msg_write, msg_size, msg_field, msg_new, voice_target_codec.
  - intros m Ho. unfold VoiceTargetCodec.message_ok, VoiceTargetCodec.write_to_with_cached_sizes, VoiceTargetCodec.new in *. fields m Ho.
    merge_opt VoiceTargetCodec.with_id. merge_all VoiceTargetCodec.with_targets.
    apply merges_nil.
  - intros m. unfold VoiceTargetCodec.compute_size. u32_fields.
  - intros m Ho. unfold VoiceTargetCodec.message_ok, VoiceTargetCodec.compute_size, VoiceTargetCodec.write_to_with_cached_sizes in *.
    split_ok Ho. size_fields.
  - intros m Ho. unfold VoiceTargetCodec.message_ok, VoiceTargetCodec.write_to_with_cached_sizes in *. split_ok Ho. bytes_fields.
  - unfold field_consumes, VoiceTargetCodec.merge_field. field_consumes_tac.
Qed.

#[export] Instance permission_query_codec `{Runtime} : Message PermissionQueryMsg.PermissionQuery := {|
  msg_new := PermissionQueryCodec.new; msg_field := PermissionQueryCodec.merge_field; msg_initialized := PermissionQueryCodec.is_initialized;
  msg_size := PermissionQueryCodec.compute_size; msg_write := PermissionQueryCodec.write_to_with_cached_sizes; msg_ok := PermissionQueryCodec.message_ok;
|}.

#[export] Instance permission_query_laws `{R : Runtime} {L : @RuntimeLaws R} : MessageLaws PermissionQueryMsg.PermissionQuery.
Proof.
  split; unfold msg_ok, msg_write, msg_size, msg_field, msg_new, permission_query_codec.
  - intros m Ho. unfold PermissionQueryCodec.message_ok, PermissionQueryCodec.write_to_with_cached_sizes, PermissionQueryCodec.new in *. fields m Ho.
    merge_opt PermissionQueryCodec.with_channel_id. merge_opt PermissionQueryCodec.with_permissions.
    merge_opt PermissionQueryCodec.with_flush.
    apply merges_nil.
  - intros m. unfold PermissionQueryCodec.compute_size. u32_fields.
  - intros m Ho. unfold PermissionQueryCodec.message_ok, PermissionQueryCodec.compute_size, PermissionQueryCodec.write_to_with_cached_sizes in *.
    split_ok Ho. size_fields.
  - intros m Ho. unfold PermissionQueryCodec.message_ok, PermissionQueryCodec.write_to_with_cached_sizes in *. split_ok Ho. bytes_fields.
  - unfold field_consumes, PermissionQueryCodec.merge_field. field_consumes_tac.
Qed.

#[export] Instance codec_version_codec `{Runtime} : Message CodecVersionMsg.CodecVersion := {|
  msg_new := CodecVersionCodec.new; msg_field := CodecVersionCodec.merge_field; msg_initialized := CodecVersionCodec.is_initialized;
  msg_size := CodecVersionCodec.compute_size; msg_write := CodecVersionCodec.write_to_with_cached_sizes; msg_ok := CodecVersionCodec.message_ok;
|}.

#[export] Instance codec_version_laws `{R : Runtime} {L : @RuntimeLaws R} : MessageLaws CodecVersionMsg.CodecVersion.
Proof.
  split; unfold msg_ok, msg_write, msg_size, msg_field, msg_new, codec_version_codec.
  - intros m Ho. unfold CodecVersionCodec.message_ok, CodecVersionCodec.write_to_with_cached_sizes, CodecVersionCodec.new in *. fields m Ho.
    merge_opt CodecVersionCodec.with_alpha. merge_opt CodecVersionCodec.with_beta.
    merge_opt CodecVersionCodec.with_prefer_alpha. merge_opt CodecVersionCodec.with_opus.
    apply merges_nil.
  - intros m. unfold CodecVersionCodec.compute_size. u32_fields.
  - intros m Ho. unfold CodecVersionCodec.message_ok, CodecVersionCodec.compute_size, CodecVersionCodec.write_to_with_cached_sizes in *.
    split_ok Ho. size_fields.
  - intros m Ho. unfold CodecVersionCodec.message_ok, CodecVersionCodec.write_to_with_cached_sizes in *. split_ok Ho. bytes_fields.
  - unfold field_consumes, CodecVersionCodec.merge_field. field_consumes_tac.
Qed.

#[export] Instance user_stats_stats_codec `{Runtime} : Message UserStats_StatsMsg.UserStats_Stats := {|
  msg_new := UserStats_StatsCodec.new; msg_field := UserStats_StatsCodec.merge_field; msg_initialized := UserStats_StatsCodec.is_initialized;
  msg_size := UserStats_StatsCodec.compute_size; msg_write := UserStats_StatsCodec.write_to_with_cached_sizes; msg_ok := UserStats_StatsCodec.message_ok;
|}.

#[export] Instance user_stats_stats_laws `{R : Runtime} {L : @RuntimeLaws R} : MessageLaws UserStats_StatsMsg.UserStats_Stats.
Proof.
  split; unfold msg_ok, msg_write, msg_size, msg_field, msg_new, user_stats_stats_codec.
  - intros m Ho. unfold UserStats_StatsCodec.message_ok, UserStats_StatsCodec.write_to_with_cached_sizes, UserStats_StatsCodec.new in *. fields m Ho.
    merge_opt UserStats_StatsCodec.with_good. merge_opt UserStats_StatsCodec.with_late.
    merge_opt UserStats_StatsCodec.with_lost. merge_opt UserStats_StatsCodec.with_resync.
    apply merges_nil.
  - intros m. unfold UserStats_StatsCodec.compute_size. u32_fields.
  - intros m Ho. unfold UserStats_StatsCodec.message_ok, UserStats_StatsCodec.compute_size, UserStats_StatsCodec.write_to_with_cached_sizes in *.
    split_ok Ho. size_fields.
  - intros m Ho. unfold UserStats_StatsCodec.message_ok, UserStats_StatsCodec.write_to_with_cached_sizes in *. split_ok Ho. bytes_fields.
  - unfold field_consumes, UserStats_StatsCodec.merge_field. field_consumes_tac.
Qed.

#[export] Instance user_stats_codec `{Runtime} : Message UserStatsMsg.UserStats := {|
  msg_new := UserStatsCodec.new; msg_field := UserStatsCodec.merge_field; msg_initialized := UserStatsCodec.is_initialized;
  msg_size := UserStatsCodec.compute_size; msg_write := UserStatsCodec.write_to_with_cached_sizes; msg_ok := UserStatsCodec.message_ok;
|}.

#[export] Instance user_stats_laws `{R : Runtime} {L : @RuntimeLaws R} : MessageLaws UserStatsMsg.UserStats.
Proof.
  split; unfold msg_ok, msg_write, msg_size, msg_field, msg_new, user_stats_codec.
  - intros m Ho. unfold UserStatsCodec.message_ok, UserStatsCodec.write_to_with_cached_sizes, UserStatsCodec.new in *. fields m Ho.
    merge_opt UserStatsCodec.with_session. merge_opt UserStatsCodec.with_stats_only.
    merge_all UserStatsCodec.with_certificates. merge_opt UserStatsCodec.with_from_client.
    merge_opt UserStatsCodec.with_from_server. merge_opt UserStatsCodec.with_udp_packets.
    merge_opt UserStatsCodec.with_tcp_packets. merge_opt UserStatsCodec.with_udp_ping_avg.
    merge_opt UserStatsCodec.with_udp_ping_var. merge_opt UserStatsCodec.with_tcp_ping_avg.
    merge_opt UserStatsCodec.with_tcp_ping_var. merge_opt UserStatsCodec.with_version.
    merge_all UserStatsCodec.with_celt_versions. merge_opt UserStatsCodec.with_address.
    merge_opt UserStatsCodec.with_bandwidth. merge_opt UserStatsCodec.with_onlinesecs.
    merge_opt UserStatsCodec.with_idlesecs. merge_opt UserStatsCodec.with_strong_certificate.
    merge_opt UserStatsCodec.with_opus.
    apply merges_nil.
  - intros m. unfold UserStatsCodec.compute_size. u32_fields.
  - intros m Ho. unfold UserStatsCodec.message_ok, UserStatsCodec.compute_size, UserStatsCodec.write_to_with_cached_sizes in *.
    split_ok Ho. size_fields.
  - intros m Ho. unfold UserStatsCodec.message_ok, UserStatsCodec.write_to_with_cached_sizes in *. split_ok Ho. bytes_fields.
  - unfold field_consumes, UserStatsCodec.merge_field. field_consumes_tac.
Qed.

#[export] Instance server_config_codec `{Runtime} : Message ServerConfigMsg.ServerConfig := {|
  msg_new := ServerConfigCodec.new; msg_field := ServerConfigCodec.merge_field; msg_initialized := ServerConfigCodec.is_initialized;
  msg_size := ServerConfigCodec.compute_size; msg_write := ServerConfigCodec.write_to_with_cached_sizes; msg_ok := ServerConfigCodec.message_ok;
|}.

#[export] Instance server_config_laws `{R : Runtime} {L : @RuntimeLaws R} : MessageLaws ServerConfigMsg.ServerConfig.
Proof.
  split; unfold msg_ok, msg_write, msg_size, msg_field, msg_new, server_config_codec.
  - intros m Ho. unfold ServerConfigCodec.message_ok, ServerConfigCodec.write_to_with_cached_sizes, ServerConfigCodec.new in *. fields m Ho.
    merge_opt ServerConfigCodec.with_max_bandwidth. merge_opt ServerConfigCodec.with_welcome_text.
    merge_opt ServerConfigCodec.with_allow_html. merge_opt ServerConfigCodec.with_message_length.
    merge_opt ServerConfigCodec.with_image_message_length. merge_opt ServerConfigCodec.with_max_users.
    apply merges_nil.
  - intros m. unfold ServerConfigCodec.compute_size. u32_fields.
  - intros m Ho. unfold ServerConfigCodec.message_ok, ServerConfigCodec.compute_size, ServerConfigCodec.write_to_with_cached_sizes in *.
    split_ok Ho. size_fields.
  - intros m Ho. unfold ServerConfigCodec.message_ok, ServerConfigCodec.write_to_with_cached_sizes in *. split_ok Ho. bytes_fields.
  - unfold field_consumes, ServerConfigCodec.merge_field. field_consumes_tac.
Qed.
