(* ===== verification/AllMessages.v ===== *)
(** The remaining codecs are correct too, and with them every message of the protocol: what is written is read back,
    [compute_size] announces the bytes written, every input is dealt with in finitely many turns. *)

From stdpp Require Import base list option strings.
From Stdlib Require Import ZArith Lia.
From S2P Require Import Prelude Errors Float32 Messages Wire WireFormat Codec CodecRest Proto CodecProps.

(** ** The remaining messages *)

#[export] Instance udptunnel_codec `{Runtime} : Message UDPTunnelMsg.UDPTunnel := {|
  msg_new := UDPTunnelCodec.new; msg_field := UDPTunnelCodec.merge_field; msg_initialized := UDPTunnelCodec.is_initialized;
  msg_size := UDPTunnelCodec.compute_size; msg_write := UDPTunnelCodec.write_to_with_cached_sizes; msg_ok := UDPTunnelCodec.message_ok;
|}.

#[export] Instance udptunnel_laws `{R : Runtime} {L : @RuntimeLaws R} : MessageLaws UDPTunnelMsg.UDPTunnel.
Proof.
  split; unfold msg_ok, msg_write, msg_size, msg_field, msg_new, udptunnel_codec.
  - intros m Ho. unfold UDPTunnelCodec.message_ok, UDPTunnelCodec.write_to_with_cached_sizes, UDPTunnelCodec.new in *. fields m Ho.
    merge_opt UDPTunnelCodec.with_packet.
    apply merges_nil.
  - intros m. unfold UDPTunnelCodec.compute_size. u32_fields.
  - intros m Ho. unfold UDPTunnelCodec.message_ok, UDPTunnelCodec.compute_size, UDPTunnelCodec.write_to_with_cached_sizes in *.
    split_ok Ho. size_fields.
  - intros m Ho. unfold UDPTunnelCodec.message_ok, UDPTunnelCodec.write_to_with_cached_sizes in *. split_ok Ho. bytes_fields.
  - unfold field_consumes, UDPTunnelCodec.merge_field. field_consumes_tac.
Qed.

#[export] Instance reject_codec `{Runtime} : Message RejectMsg.Reject := {|
  msg_new := RejectCodec.new; msg_field := RejectCodec.merge_field; msg_initialized := RejectCodec.is_initialized;
  msg_size := RejectCodec.compute_size; msg_write := RejectCodec.write_to_with_cached_sizes; msg_ok := RejectCodec.message_ok;
|}.

#[export] Instance reject_laws `{R : Runtime} {L : @RuntimeLaws R} : MessageLaws RejectMsg.Reject.
Proof.
  split; unfold msg_ok, msg_write, msg_size, msg_field, msg_new, reject_codec.
  - intros m Ho. unfold RejectCodec.message_ok, RejectCodec.write_to_with_cached_sizes, RejectCodec.new in *. fields m Ho.
    merge_opt RejectCodec.with_field_type. merge_opt RejectCodec.with_reason.
    apply merges_nil.
  - intros m. unfold RejectCodec.compute_size. u32_fields.
  - intros m Ho. unfold RejectCodec.message_ok, RejectCodec.compute_size, RejectCodec.write_to_with_cached_sizes in *.
    split_ok Ho. size_fields.
  - intros m Ho. unfold RejectCodec.message_ok, RejectCodec.write_to_with_cached_sizes in *. split_ok Ho. bytes_fields.
  - unfold field_consumes, RejectCodec.merge_field. field_consumes_tac.
Qed.

#[export] Instance ban_list_ban_entry_codec `{Runtime} : Message BanList_BanEntryMsg.BanList_BanEntry := {|
  msg_new := BanList_BanEntryCodec.new; msg_field := BanList_BanEntryCodec.merge_field; msg_initialized := BanList_BanEntryCodec.is_initialized;
  msg_size := BanList_BanEntryCodec.compute_size; msg_write := BanList_BanEntryCodec.write_to_with_cached_sizes; msg_ok := BanList_BanEntryCodec.message_ok;
|}.

#[export] Instance ban_list_ban_entry_laws `{R : Runtime} {L : @RuntimeLaws R} : MessageLaws BanList_BanEntryMsg.BanList_BanEntry.
Proof.
  split; unfold msg_ok, msg_write, msg_size, msg_field, msg_new, ban_list_ban_entry_codec.
  - intros m Ho. unfold BanList_BanEntryCodec.message_ok, BanList_BanEntryCodec.write_to_with_cached_sizes, BanList_BanEntryCodec.new in *. fields m Ho.
    merge_opt BanList_BanEntryCodec.with_address. merge_opt BanList_BanEntryCodec.with_mask.
    merge_opt BanList_BanEntryCodec.with_name. merge_opt BanList_BanEntryCodec.with_hash.
    merge_opt BanList_BanEntryCodec.with_reason. merge_opt BanList_BanEntryCodec.with_start.
    merge_opt BanList_BanEntryCodec.with_duration.
    apply merges_nil.
  - intros m. unfold BanList_BanEntryCodec.compute_size. u32_fields.
  - intros m Ho. unfold BanList_BanEntryCodec.message_ok, BanList_BanEntryCodec.compute_size, BanList_BanEntryCodec.write_to_with_cached_sizes in *.
    split_ok Ho. size_fields.
  - intros m Ho. unfold BanList_BanEntryCodec.message_ok, BanList_BanEntryCodec.write_to_with_cached_sizes in *. split_ok Ho. bytes_fields.
  - unfold field_consumes, BanList_BanEntryCodec.merge_field. field_consumes_tac.
Qed.

#[export] Instance ban_list_codec `{Runtime} : Message BanListMsg.BanList := {|
  msg_new := BanListCodec.new; msg_field := BanListCodec.merge_field; msg_initialized := BanListCodec.is_initialized;
  msg_size := BanListCodec.compute_size; msg_write := BanListCodec.write_to_with_cached_sizes; msg_ok := BanListCodec.message_ok;
|}.

#[export] Instance ban_list_laws `{R : Runtime} {L : @RuntimeLaws R} : MessageLaws BanListMsg.BanList.
Proof.
  split; unfold msg_ok, msg_write, msg_size, msg_field, msg_new, ban_list_codec.
  - intros m Ho. unfold BanListCodec.message_ok, BanListCodec.write_to_with_cached_sizes, BanListCodec.new in *. fields m Ho.
    merge_all BanListCodec.with_bans. merge_opt BanListCodec.with_query.
    apply merges_nil.
  - intros m. unfold BanListCodec.compute_size. u32_fields.
  - intros m Ho. unfold BanListCodec.message_ok, BanListCodec.compute_size, BanListCodec.write_to_with_cached_sizes in *.
    split_ok Ho. size_fields.
  - intros m Ho. unfold BanListCodec.message_ok, BanListCodec.write_to_with_cached_sizes in *. split_ok Ho. bytes_fields.
  - unfold field_consumes, BanListCodec.merge_field. field_consumes_tac.
Qed.

#[export] Instance text_message_codec `{Runtime} : Message TextMessageMsg.TextMessage := {|
  msg_new := TextMessageCodec.new; msg_field := TextMessageCodec.merge_field; msg_initialized := TextMessageCodec.is_initialized;
  msg_size := TextMessageCodec.compute_size; msg_write := TextMessageCodec.write_to_with_cached_sizes; msg_ok := TextMessageCodec.message_ok;
|}.

#[export] Instance text_message_laws `{R : Runtime} {L : @RuntimeLaws R} : MessageLaws TextMessageMsg.TextMessage.
Proof.
  split; unfold msg_ok, msg_write, msg_size, msg_field, msg_new, text_message_codec.
  - intros m Ho. unfold TextMessageCodec.message_ok, TextMessageCodec.write_to_with_cached_sizes, TextMessageCodec.new in *. fields m Ho.
    merge_opt TextMessageCodec.with_actor. merge_all TextMessageCodec.with_session.
    merge_all TextMessageCodec.with_channel_id. merge_all TextMessageCodec.with_tree_id.
    merge_opt TextMessageCodec.with_message.
    apply merges_nil.
  - intros m. unfold TextMessageCodec.compute_size. u32_fields.
  - intros m Ho. unfold TextMessageCodec.message_ok, TextMessageCodec.compute_size, TextMessageCodec.write_to_with_cached_sizes in *.
    split_ok Ho. size_fields.
  - intros m Ho. unfold TextMessageCodec.message_ok, TextMessageCodec.write_to_with_cached_sizes in *. split_ok Ho. bytes_fields.
  - unfold field_consumes, TextMessageCodec.merge_field. field_consumes_tac.
Qed.

#[export] Instance permission_denied_codec `{Runtime} : Message PermissionDeniedMsg.PermissionDenied := {|
  msg_new := PermissionDeniedCodec.new; msg_field := PermissionDeniedCodec.merge_field; msg_initialized := PermissionDeniedCodec.is_initialized;
  msg_size := PermissionDeniedCodec.compute_size; msg_write := PermissionDeniedCodec.write_to_with_cached_sizes; msg_ok := PermissionDeniedCodec.message_ok;
|}.

#[export] Instance permission_denied_laws `{R : Runtime} {L : @RuntimeLaws R} : MessageLaws PermissionDeniedMsg.PermissionDenied.
Proof.
  split; unfold msg_ok, msg_write, msg_size, msg_field, msg_new, permission_denied_codec.
  - intros m Ho. unfold PermissionDeniedCodec.message_ok, PermissionDeniedCodec.write_to_with_cached_sizes, PermissionDeniedCodec.new in *. fields m Ho.
    merge_opt PermissionDeniedCodec.with_permission. merge_opt PermissionDeniedCodec.with_channel_id.
    merge_opt PermissionDeniedCodec.with_session. merge_opt PermissionDeniedCodec.with_reason.
    merge_opt PermissionDeniedCodec.with_field_type. merge_opt PermissionDeniedCodec.with_name.
    apply merges_nil.
  - intros m. unfold PermissionDeniedCodec.compute_size. u32_fields.
  - intros m Ho. unfold PermissionDeniedCodec.message_ok, PermissionDeniedCodec.compute_size, PermissionDeniedCodec.write_to_with_cached_sizes in *.
    split_ok Ho. size_fields.
  - intros m Ho. unfold PermissionDeniedCodec.message_ok, PermissionDeniedCodec.write_to_with_cached_sizes in *. split_ok Ho. bytes_fields.
  - unfold field_consumes, PermissionDeniedCodec.merge_field. field_consumes_tac.
Qed.

#[export] Instance acl_chan_group_codec `{Runtime} : Message ACL_ChanGroupMsg.ACL_ChanGroup := {|
  msg_new := ACL_ChanGroupCodec.new; msg_field := ACL_ChanGroupCodec.merge_field; msg_initialized := ACL_ChanGroupCodec.is_initialized;
  msg_size := ACL_ChanGroupCodec.compute_size; msg_write := ACL_ChanGroupCodec.write_to_with_cached_sizes; msg_ok := ACL_ChanGroupCodec.message_ok;
|}.

#[export] Instance acl_chan_group_laws `{R : Runtime} {L : @RuntimeLaws R} : MessageLaws ACL_ChanGroupMsg.ACL_ChanGroup.
Proof.
  split; unfold msg_ok, msg_write, msg_size, msg_field, msg_new, acl_chan_group_codec.
  - intros m Ho. unfold ACL_ChanGroupCodec.message_ok, ACL_ChanGroupCodec.write_to_with_cached_sizes, ACL_ChanGroupCodec.new in *. fields m Ho.
    merge_opt ACL_ChanGroupCodec.with_name. merge_opt ACL_ChanGroupCodec.with_inherited.
    merge_opt ACL_ChanGroupCodec.with_inherit. merge_opt ACL_ChanGroupCodec.with_inheritable.
    merge_all ACL_ChanGroupCodec.with_add. merge_all ACL_ChanGroupCodec.with_remove.
    merge_all ACL_ChanGroupCodec.with_inherited_members.
    apply merges_nil.
  - intros m. unfold ACL_ChanGroupCodec.compute_size. u32_fields.
  - intros m Ho. unfold ACL_ChanGroupCodec.message_ok, ACL_ChanGroupCodec.compute_size, ACL_ChanGroupCodec.write_to_with_cached_sizes in *.
    split_ok Ho. size_fields.
  - intros m Ho. unfold ACL_ChanGroupCodec.message_ok, ACL_ChanGroupCodec.write_to_with_cached_sizes in *. split_ok Ho. bytes_fields.
  - unfold field_consumes, ACL_ChanGroupCodec.merge_field. field_consumes_tac.
Qed.

#[export] Instance acl_chan_acl_codec `{Runtime} : Message ACL_ChanACLMsg.ACL_ChanACL := {|
  msg_new := ACL_ChanACLCodec.new; msg_field := ACL_ChanACLCodec.merge_field; msg_initialized := ACL_ChanACLCodec.is_initialized;
  msg_size := ACL_ChanACLCodec.compute_size; msg_write := ACL_ChanACLCodec.write_to_with_cached_sizes; msg_ok := ACL_ChanACLCodec.message_ok;
|}.

#[export] Instance acl_chan_acl_laws `{R : Runtime} {L : @RuntimeLaws R} : MessageLaws ACL_ChanACLMsg.ACL_ChanACL.
Proof.
  split; unfold msg_ok, msg_write, msg_size, msg_field, msg_new, acl_chan_acl_codec.
  - intros m Ho. unfold ACL_ChanACLCodec.message_ok, ACL_ChanACLCodec.write_to_with_cached_sizes, ACL_ChanACLCodec.new in *. fields m Ho.
    merge_opt ACL_ChanACLCodec.with_apply_here. merge_opt ACL_ChanACLCodec.with_apply_subs.
    merge_opt ACL_ChanACLCodec.with_inherited. merge_opt ACL_ChanACLCodec.with_user_id.
    merge_opt ACL_ChanACLCodec.with_group. merge_opt ACL_ChanACLCodec.with_grant.
    merge_opt ACL_ChanACLCodec.with_deny.
    apply merges_nil.
  - intros m. unfold ACL_ChanACLCodec.compute_size. u32_fields.
  - intros m Ho. unfold ACL_ChanACLCodec.message_ok, ACL_ChanACLCodec.compute_size, ACL_ChanACLCodec.write_to_with_cached_sizes in *.
    split_ok Ho. size_fields.
  - intros m Ho. unfold ACL_ChanACLCodec.message_ok, ACL_ChanACLCodec.write_to_with_cached_sizes in *. split_ok Ho. bytes_fields.
  - unfold field_consumes, ACL_ChanACLCodec.merge_field. field_consumes_tac.
Qed.

#[export] Instance acl_codec `{Runtime} : Message ACLMsg.ACL := {|
  msg_new := ACLCodec.new; msg_field := ACLCodec.merge_field; msg_initialized := ACLCodec.is_initialized;
  msg_size := ACLCodec.compute_size; msg_write := ACLCodec.write_to_with_cached_sizes; msg_ok := ACLCodec.message_ok;
|}.

#[export] Instance acl_laws `{R : Runtime} {L : @RuntimeLaws R} : MessageLaws ACLMsg.ACL.
Proof.
  split; unfold msg_ok, msg_write, msg_size, msg_field, msg_new, acl_codec.
  - intros m Ho. unfold ACLCodec.message_ok, ACLCodec.write_to_with_cached_sizes, ACLCodec.new in *. fields m Ho.
    merge_opt ACLCodec.with_channel_id. merge_opt ACLCodec.with_inherit_acls.
    merge_all ACLCodec.with_groups. merge_all ACLCodec.with_acls. merge_opt ACLCodec.with_query.
    apply merges_nil.
  - intros m. unfold ACLCodec.compute_size. u32_fields.
  - intros m Ho. unfold ACLCodec.message_ok, ACLCodec.compute_size, ACLCodec.write_to_with_cached_sizes in *.
    split_ok Ho. size_fields.
  - intros m Ho. unfold ACLCodec.message_ok, ACLCodec.write_to_with_cached_sizes in *. split_ok Ho. bytes_fields.
  - unfold field_consumes, ACLCodec.merge_field. field_consumes_tac.
Qed.

#[export] Instance query_users_codec `{Runtime} : Message QueryUsersMsg.QueryUsers := {|
  msg_new := QueryUsersCodec.new; msg_field := QueryUsersCodec.merge_field; msg_initialized := QueryUsersCodec.is_initialized;
  msg_size := QueryUsersCodec.compute_size; msg_write := QueryUsersCodec.write_to_with_cached_sizes; msg_ok := QueryUsersCodec.message_ok;
|}.

#[export] Instance query_users_laws `{R : Runtime} {L : @RuntimeLaws R} : MessageLaws QueryUsersMsg.QueryUsers.
Proof.
  split; unfold msg_ok, msg_write, msg_size, msg_field, msg_new, query_users_codec.
  - intros m Ho. unfold QueryUsersCodec.message_ok, QueryUsersCodec.write_to_with_cached_sizes, QueryUsersCodec.new in *. fields m Ho.
    merge_all QueryUsersCodec.with_ids. merge_all QueryUsersCodec.with_names.
    apply merges_nil.
  - intros m. unfold QueryUsersCodec.compute_size. u32_fields.
  - intros m Ho. unfold QueryUsersCodec.message_ok, QueryUsersCodec.compute_size, QueryUsersCodec.write_to_with_cached_sizes in *.
    split_ok Ho. size_fields.
  - intros m Ho. unfold QueryUsersCodec.message_ok, QueryUsersCodec.write_to_with_cached_sizes in *. split_ok Ho. bytes_fields.
  - unfold field_consumes, QueryUsersCodec.merge_field. field_consumes_tac.
Qed.

#[export] Instance context_action_modify_codec `{Runtime} : Message ContextActionModifyMsg.ContextActionModify := {|
  msg_new := ContextActionModifyCodec.new; msg_field := ContextActionModifyCodec.merge_field; msg_initialized := ContextActionModifyCodec.is_initialized;
  msg_size := ContextActionModifyCodec.compute_size; msg_write := ContextActionModifyCodec.write_to_with_cached_sizes; msg_ok := ContextActionModifyCodec.message_ok;
|}.

#[export] Instance context_action_modify_laws `{R : Runtime} {L : @RuntimeLaws R} : MessageLaws ContextActionModifyMsg.ContextActionModify.
Proof.
  split; unfold msg_ok, msg_write, msg_size, msg_field, msg_new, context_action_modify_codec.
  - intros m Ho. unfold ContextActionModifyCodec.message_ok, ContextActionModifyCodec.write_to_with_cached_sizes, ContextActionModifyCodec.new in *. fields m Ho.
    merge_opt ContextActionModifyCodec.with_action. merge_opt ContextActionModifyCodec.with_text.
    merge_opt ContextActionModifyCodec.with_context. merge_opt ContextActionModifyCodec.with_operation.
    apply merges_nil.
  - intros m. unfold ContextActionModifyCodec.compute_size. u32_fields.
  - intros m Ho. unfold ContextActionModifyCodec.message_ok, ContextActionModifyCodec.compute_size, ContextActionModifyCodec.write_to_with_cached_sizes in *.
    split_ok Ho. size_fields.
  - intros m Ho. unfold ContextActionModifyCodec.message_ok, ContextActionModifyCodec.write_to_with_cached_sizes in *. split_ok Ho. bytes_fields.
  - unfold field_consumes, ContextActionModifyCodec.merge_field. field_consumes_tac.
Qed.

#[export] Instance context_action_codec `{Runtime} : Message ContextActionMsg.ContextAction := {|
  msg_new := ContextActionCodec.new; msg_field := ContextActionCodec.merge_field; msg_initialized := ContextActionCodec.is_initialized;
  msg_size := ContextActionCodec.compute_size; msg_write := ContextActionCodec.write_to_with_cached_sizes; msg_ok := ContextActionCodec.message_ok;
|}.

#[export] Instance context_action_laws `{R : Runtime} {L : @RuntimeLaws R} : MessageLaws ContextActionMsg.ContextAction.
Proof.
  split; unfold msg_ok, msg_write, msg_size, msg_field, msg_new, context_action_codec.
  - intros m Ho. unfold ContextActionCodec.message_ok, ContextActionCodec.write_to_with_cached_sizes, ContextActionCodec.new in *. fields m Ho.
    merge_opt ContextActionCodec.with_session. merge_opt ContextActionCodec.with_channel_id.
    merge_opt ContextActionCodec.with_action.
    apply merges_nil.
  - intros m. unfold ContextActionCodec.compute_size. u32_fields.
  - intros m Ho. unfold ContextActionCodec.message_ok, ContextActionCodec.compute_size, ContextActionCodec.write_to_with_cached_sizes in *.
    split_ok Ho. size_fields.
  - intros m Ho. unfold ContextActionCodec.message_ok, ContextActionCodec.write_to_with_cached_sizes in *. split_ok Ho. bytes_fields.
  - unfold field_consumes, ContextActionCodec.merge_field. field_consumes_tac.
Qed.

#[export] Instance user_list_user_codec `{Runtime} : Message UserList_UserMsg.UserList_User := {|
  msg_new := UserList_UserCodec.new; msg_field := UserList_UserCodec.merge_field; msg_initialized := UserList_UserCodec.is_initialized;
  msg_size := UserList_UserCodec.compute_size; msg_write := UserList_UserCodec.write_to_with_cached_sizes; msg_ok := UserList_UserCodec.message_ok;
|}.

#[export] Instance user_list_user_laws `{R : Runtime} {L : @RuntimeLaws R} : MessageLaws UserList_UserMsg.UserList_User.
Proof.
  split; unfold msg_ok, msg_write, msg_size, msg_field, msg_new, user_list_user_codec.
  - intros m Ho. unfold UserList_UserCodec.message_ok, UserList_UserCodec.write_to_with_cached_sizes, UserList_UserCodec.new in *. fields m Ho.
    merge_opt UserList_UserCodec.with_user_id. merge_opt UserList_UserCodec.with_name.
    merge_opt UserList_UserCodec.with_last_seen. merge_opt UserList_UserCodec.with_last_channel.
    apply merges_nil.
  - intros m. unfold UserList_UserCodec.compute_size. u32_fields.
  - intros m Ho. unfold UserList_UserCodec.message_ok, UserList_UserCodec.compute_size, UserList_UserCodec.write_to_with_cached_sizes in *.
    split_ok Ho. size_fields.
  - intros m Ho. unfold UserList_UserCodec.message_ok, UserList_UserCodec.write_to_with_cached_sizes in *. split_ok Ho. bytes_fields.
  - unfold field_consumes, UserList_UserCodec.merge_field. field_consumes_tac.
Qed.

#[export] Instance user_list_codec `{Runtime} : Message UserListMsg.UserList := {|
  msg_new := UserListCodec.new; msg_field := UserListCodec.merge_field; msg_initialized := UserListCodec.is_initialized;
  msg_size := UserListCodec.compute_size; msg_write := UserListCodec.write_to_with_cached_sizes; msg_ok := UserListCodec.message_ok;
|}.

#[export] Instance user_list_laws `{R : Runtime} {L : @RuntimeLaws R} : MessageLaws UserListMsg.UserList.
Proof.
  split; unfold msg_ok, msg_write, msg_size, msg_field, msg_new, user_list_codec.
  - intros m Ho. unfold UserListCodec.message_ok, UserListCodec.write_to_with_cached_sizes, UserListCodec.new in *. fields m Ho.
    merge_all UserListCodec.with_users.
    apply merges_nil.
  - intros m. unfold UserListCodec.compute_size. u32_fields.
  - intros m Ho. unfold UserListCodec.message_ok, UserListCodec.compute_size, UserListCodec.write_to_with_cached_sizes in *.
    split_ok Ho. size_fields.
  - intros m Ho. unfold UserListCodec.message_ok, UserListCodec.write_to_with_cached_sizes in *. split_ok Ho. bytes_fields.
  - unfold field_consumes, UserListCodec.merge_field. field_consumes_tac.
Qed.

#[export] Instance request_blob_codec `{Runtime} : Message RequestBlobMsg.RequestBlob := {|
  msg_new := RequestBlobCodec.new; msg_field := RequestBlobCodec.merge_field; msg_initialized := RequestBlobCodec.is_initialized;
  msg_size := RequestBlobCodec.compute_size; msg_write := RequestBlobCodec.write_to_with_cached_sizes; msg_ok := RequestBlobCodec.message_ok;
|}.

#[export] Instance request_blob_laws `{R : Runtime} {L : @RuntimeLaws R} : MessageLaws RequestBlobMsg.RequestBlob.
Proof.
  split; unfold msg_ok, msg_write, msg_size, msg_field, msg_new, request_blob_codec.
  - intros m Ho. unfold RequestBlobCodec.message_ok, RequestBlobCodec.write_to_with_cached_sizes, RequestBlobCodec.new in *. fields m Ho.
    merge_all RequestBlobCodec.with_session_texture. merge_all RequestBlobCodec.with_session_comment.
    merge_all RequestBlobCodec.with_channel_description.
    apply merges_nil.
  - intros m. unfold RequestBlobCodec.compute_size. u32_fields.
  - intros m Ho. unfold RequestBlobCodec.message_ok, RequestBlobCodec.compute_size, RequestBlobCodec.write_to_with_cached_sizes in *.
    split_ok Ho. size_fields.
  - intros m Ho. unfold RequestBlobCodec.message_ok, RequestBlobCodec.write_to_with_cached_sizes in *. split_ok Ho. bytes_fields.
  - unfold field_consumes, RequestBlobCodec.merge_field. field_consumes_tac.
Qed.

#[export] Instance suggest_config_codec `{Runtime} : Message SuggestConfigMsg.SuggestConfig := {|
  msg_new := SuggestConfigCodec.new; msg_field := SuggestConfigCodec.merge_field; msg_initialized := SuggestConfigCodec.is_initialized;
  msg_size := SuggestConfigCodec.compute_size; msg_write := SuggestConfigCodec.write_to_with_cached_sizes; msg_ok := SuggestConfigCodec.message_ok;
|}.

#[export] Instance suggest_config_laws `{R : Runtime} {L : @RuntimeLaws R} : MessageLaws SuggestConfigMsg.SuggestConfig.
Proof.
  split; unfold msg_ok, msg_write, msg_size, msg_field, msg_new, suggest_config_codec.
  - intros m Ho. unfold SuggestConfigCodec.message_ok, SuggestConfigCodec.write_to_with_cached_sizes, SuggestConfigCodec.new in *. fields m Ho.
    merge_opt SuggestConfigCodec.with_version. merge_opt SuggestConfigCodec.with_positional.
    merge_opt SuggestConfigCodec.with_push_to_talk.
    apply merges_nil.
  - intros m. unfold SuggestConfigCodec.compute_size. u32_fields.
  - intros m Ho. unfold SuggestConfigCodec.message_ok, SuggestConfigCodec.compute_size, SuggestConfigCodec.write_to_with_cached_sizes in *.
    split_ok Ho. size_fields.
  - intros m Ho. unfold SuggestConfigCodec.message_ok, SuggestConfigCodec.write_to_with_cached_sizes in *. split_ok Ho. bytes_fields.
  - unfold field_consumes, SuggestConfigCodec.merge_field. field_consumes_tac.
Qed.

(** ** Any message of the protocol *)

Inductive AnyMessage :=
  | AnyVersion (m : VersionMsg.Version)
  | AnyAuthenticate (m : AuthenticateMsg.Authenticate)
  | AnyPing (m : PingMsg.Ping)
  | AnyServerSync (m : ServerSyncMsg.ServerSync)
  | AnyChannelRemove (m : ChannelRemoveMsg.ChannelRemove)
  | AnyChannelState (m : ChannelStateMsg.ChannelState)
  | AnyUserRemove (m : UserRemoveMsg.UserRemove)
  | AnyUserState (m : UserStateMsg.UserState)
  | AnyCryptSetup (m : CryptSetupMsg.CryptSetup)
  | AnyVoiceTarget (m : VoiceTargetMsg.VoiceTarget)
  | AnyPermissionQuery (m : PermissionQueryMsg.PermissionQuery)
  | AnyCodecVersion (m : CodecVersionMsg.CodecVersion)
  | AnyUserStats (m : UserStatsMsg.UserStats)
  | AnyServerConfig (m : ServerConfigMsg.ServerConfig)
  | AnyUDPTunnel (m : UDPTunnelMsg.UDPTunnel)
  | AnyReject (m : RejectMsg.Reject)
  | AnyBanList (m : BanListMsg.BanList)
  | AnyTextMessage (m : TextMessageMsg.TextMessage)
  | AnyPermissionDenied (m : PermissionDeniedMsg.PermissionDenied)
  | AnyAcl (m : ACLMsg.ACL)
  | AnyQueryUsers (m : QueryUsersMsg.QueryUsers)
  | AnyContextActionModify (m : ContextActionModifyMsg.ContextActionModify)
  | AnyContextAction (m : ContextActionMsg.ContextAction)
  | AnyUserList (m : UserListMsg.UserList)
  | AnyRequestBlob (m : RequestBlobMsg.RequestBlob)
  | AnySuggestConfig (m : SuggestConfigMsg.SuggestConfig).

Definition kind_of (a : AnyMessage) : MessageKind.MessageKind :=
  match a with
  | AnyVersion _ => MessageKind.Version
  | AnyAuthenticate _ => MessageKind.Authenticate
  | AnyPing _ => MessageKind.Ping
  | AnyServerSync _ => MessageKind.ServerSync
  | AnyChannelRemove _ => MessageKind.ChannelRemove
  | AnyChannelState _ => MessageKind.ChannelState
  | AnyUserRemove _ => MessageKind.UserRemove
  | AnyUserState _ => MessageKind.UserState
  | AnyCryptSetup _ => MessageKind.CryptSetup
  | AnyVoiceTarget _ => MessageKind.VoiceTarget
  | AnyPermissionQuery _ => MessageKind.PermissionQuery
  | AnyCodecVersion _ => MessageKind.CodecVersion
  | AnyUserStats _ => MessageKind.UserStats
  | AnyServerConfig _ => MessageKind.ServerConfig
  | AnyUDPTunnel _ => MessageKind.UDPTunnel
  | AnyReject _ => MessageKind.Reject
  | AnyBanList _ => MessageKind.BanList
  | AnyTextMessage _ => MessageKind.TextMessage
  | AnyPermissionDenied _ => MessageKind.PermissionDenied
  | AnyAcl _ => MessageKind.Acl
  | AnyQueryUsers _ => MessageKind.QueryUsers
  | AnyContextActionModify _ => MessageKind.ContextActionModify
  | AnyContextAction _ => MessageKind.ContextAction
  | AnyUserList _ => MessageKind.UserList
  | AnyRequestBlob _ => MessageKind.RequestBlob
  | AnySuggestConfig _ => MessageKind.SuggestConfig
  end.

(** A function of the codec of the message. *)
Definition with_codec `{Runtime} {B} (f : forall T, Message T -> T -> B) (a : AnyMessage) : B :=
  match a with
  | AnyVersion m => f _ _ m
  | AnyAuthenticate m => f _ _ m
  | AnyPing m => f _ _ m
  | AnyServerSync m => f _ _ m
  | AnyChannelRemove m => f _ _ m
  | AnyChannelState m => f _ _ m
  | AnyUserRemove m => f _ _ m
  | AnyUserState m => f _ _ m
  | AnyCryptSetup m => f _ _ m
  | AnyVoiceTarget m => f _ _ m
  | AnyPermissionQuery m => f _ _ m
  | AnyCodecVersion m => f _ _ m
  | AnyUserStats m => f _ _ m
  | AnyServerConfig m => f _ _ m
  | AnyUDPTunnel m => f _ _ m
  | AnyReject m => f _ _ m
  | AnyBanList m => f _ _ m
  | AnyTextMessage m => f _ _ m
  | AnyPermissionDenied m => f _ _ m
  | AnyAcl m => f _ _ m
  | AnyQueryUsers m => f _ _ m
  | AnyContextActionModify m => f _ _ m
  | AnyContextAction m => f _ _ m
  | AnyUserList m => f _ _ m
  | AnyRequestBlob m => f _ _ m
  | AnySuggestConfig m => f _ _ m
  end.

Section Any.
Context `{Runtime}.
Definition any_ok : AnyMessage -> Prop := with_codec (fun T M m => msg_ok m).
Definition any_initialized : AnyMessage -> bool := with_codec (fun T M m => msg_initialized m).
Definition any_size : AnyMessage -> Z := with_codec (fun T M m => msg_size m).
Definition any_bytes : AnyMessage -> list Z := with_codec (fun T M m => msg_write m).
Definition write_any : AnyMessage -> option (list Z) := with_codec (fun T M m => write_to_bytes m).

(** The loop of the message's [merge_from], into a fresh message. *)
Definition any_loop (fuel : nat) (input : list Z) : AnyMessage -> option bool :=
  with_codec (fun T M m => match merge_loop msg_field fuel m input with
                           | Some r => Some (has r)
                           | None => None
                           end).

(** The parser of the message of a kind. *)
Definition parse_any (kind : MessageKind.MessageKind) (bs : list Z) : option AnyMessage :=
  match kind with
  | MessageKind.Version => AnyVersion <$> parse_from_bytes bs
  | MessageKind.Authenticate => AnyAuthenticate <$> parse_from_bytes bs
  | MessageKind.Ping => AnyPing <$> parse_from_bytes bs
  | MessageKind.ServerSync => AnyServerSync <$> parse_from_bytes bs
  | MessageKind.ChannelRemove => AnyChannelRemove <$> parse_from_bytes bs
  | MessageKind.ChannelState => AnyChannelState <$> parse_from_bytes bs
  | MessageKind.UserRemove => AnyUserRemove <$> parse_from_bytes bs
  | MessageKind.UserState => AnyUserState <$> parse_from_bytes bs
  | MessageKind.CryptSetup => AnyCryptSetup <$> parse_from_bytes bs
  | MessageKind.VoiceTarget => AnyVoiceTarget <$> parse_from_bytes bs
  | MessageKind.PermissionQuery => AnyPermissionQuery <$> parse_from_bytes bs
  | MessageKind.CodecVersion => AnyCodecVersion <$> parse_from_bytes bs
  | MessageKind.UserStats => AnyUserStats <$> parse_from_bytes bs
  | MessageKind.ServerConfig => AnyServerConfig <$> parse_from_bytes bs
  | MessageKind.UDPTunnel => AnyUDPTunnel <$> parse_from_bytes bs
  | MessageKind.Reject => AnyReject <$> parse_from_bytes bs
  | MessageKind.BanList => AnyBanList <$> parse_from_bytes bs
  | MessageKind.TextMessage => AnyTextMessage <$> parse_from_bytes bs
  | MessageKind.PermissionDenied => AnyPermissionDenied <$> parse_from_bytes bs
  | MessageKind.Acl => AnyAcl <$> parse_from_bytes bs
  | MessageKind.QueryUsers => AnyQueryUsers <$> parse_from_bytes bs
  | MessageKind.ContextActionModify => AnyContextActionModify <$> parse_from_bytes bs
  | MessageKind.ContextAction => AnyContextAction <$> parse_from_bytes bs
  | MessageKind.UserList => AnyUserList <$> parse_from_bytes bs
  | MessageKind.RequestBlob => AnyRequestBlob <$> parse_from_bytes bs
  | MessageKind.SuggestConfig => AnySuggestConfig <$> parse_from_bytes bs
  end.
End Any.

(** C12.  The generated codecs are correct.  Over any protobuf runtime with the documented laws, for each of
    the twenty-six messages of the protocol and any field values in the ranges of their types, a message
    of less than 4 GiB with its required fields set is written as a byte string whose length is the one
    [compute_size] announces, nested messages included, and the parser for its kind returns it; a
    message that lacks a required field is not written. *)
Theorem codec_roundtrip `{R : Runtime} {L : @RuntimeLaws R} (a : AnyMessage) :
  any_ok a -> short (any_bytes a) ->
  (any_initialized a = false -> write_any a = None)
  /\ (any_initialized a = true ->
      write_any a = Some (any_bytes a) /\ bytes_ok (any_bytes a)
      /\ Z.of_nat (length (any_bytes a)) = any_size a
      /\ parse_any (kind_of a) (any_bytes a) = Some a).
Proof.
  destruct a as [m|m|m|m|m|m|m|m|m|m|m|m|m|m|m|m|m|m|m|m|m|m|m|m|m|m]; intros Ho Hs;
    unfold any_ok, any_bytes, any_initialized, any_size, write_any, with_codec in *;
    rewrite (msg_written m Ho Hs), (msg_sized m Ho Hs);
    (split; intros Hi; rewrite Hi; [done|]); repeat split; try apply (msg_bytes m Ho);
    cbn [kind_of parse_any]; by rewrite (msg_parsed m Ho Hs Hi).
Qed.

(** A user's state with text, bytes, flags and repeated fields. *)
Definition sample_user_state : UserStateMsg.UserState :=
  UserStateMsg.mkUserState (Some 7) None (Some "[3] eve"%string) None (Some 2) (Some true) None None
    (Some false) None (Some [1; 255]) None None None None None None None (Some true) ["a"; "b"]%string
    [1; 300] [4294967295].

Lemma codec_roundtrip_witness :
  let a := AnyUserState sample_user_state in
  @write_any wire_format a = Some (@any_bytes wire_format a)
  /\ @parse_any wire_format MessageKind.UserState (@any_bytes wire_format a) = Some a.
Proof.
  cbv zeta. destruct (@codec_roundtrip wire_format wire_format_laws (AnyUserState sample_user_state)) as [_ H].
  - cbn. unfold UserStateCodec.message_ok, u32, utf8, byte_string, in_u. cbn.
    repeat (split || constructor); done || lia.
  - vm_compute. reflexivity.
  - destruct (H eq_refl) as (H1 & _ & _ & H2). split; [exact H1|exact H2].
Defined.

(** C26.  The parsers terminate on every input, hostile ones included: one turn of the loop per byte is enough
    for any message, and more fuel changes nothing. *)
Theorem codec_terminates `{R : Runtime} {L : @RuntimeLaws R} (a : AnyMessage) (input : list Z) (fuel : nat) :
  (length input < fuel)%nat ->
  is_Some (any_loop fuel input a) /\ any_loop fuel input a = any_loop (S (length input)) input a.
Proof.
  intros Hf. destruct a as [m|m|m|m|m|m|m|m|m|m|m|m|m|m|m|m|m|m|m|m|m|m|m|m|m|m]; unfold any_loop, with_codec;
    rewrite (merge_loop_fuel _ m input fuel (S (length input)) msg_consumes) by lia;
    destruct (merge_loop_total _ m input (S (length input)) msg_consumes) as [r ->]; eauto.
Qed.

Lemma codec_terminates_witness :
  @any_loop wire_format 100 [8; 1; 255; 255; 255] (AnyVersion (@VersionCodec.new)) = Some false.
Proof.
  rewrite (proj2 (@codec_terminates wire_format wire_format_laws (AnyVersion VersionCodec.new)
    [8; 1; 255; 255; 255] 100 ltac:(cbn; lia))).
  vm_compute. reflexivity.
Defined.
