(* ===== verification/Schema.v ===== *)
(** The protocol as [src/src/proto/mumble.proto] defines it, from which [src/src/proto/mumble.rs] is generated: the fields of
    each message with their label, type, name, number and default, what a sequence of fields is on the wire, and what a
    receiver makes of one. *)

From stdpp Require Import base list option strings.
From Stdlib Require Import ZArith Lia.
From S2P Require Import Prelude Float32 Messages Wire Codec CodecRest Fields Accessors AccessorsRest CodecProps AllMessages.

(** ** Fields *)

Inductive Label := LabelOptional | LabelRequired | LabelRepeated.

Record FieldSchema := mkFieldSchema {
  label : Label;
  field_type : ProtobufType;
  field_name : string;
  number : Z;
  explicit_default : option Value;
}.

Definition optional (t : ProtobufType) (name : string) (n : Z) : FieldSchema := mkFieldSchema LabelOptional t name n None.
Definition required (t : ProtobufType) (name : string) (n : Z) : FieldSchema := mkFieldSchema LabelRequired t name n None.
Definition repeated (t : ProtobufType) (name : string) (n : Z) : FieldSchema := mkFieldSchema LabelRepeated t name n None.
Definition optional_default (t : ProtobufType) (name : string) (n : Z) (d : Value) : FieldSchema :=
  mkFieldSchema LabelOptional t name n (Some d).
Definition required_default (t : ProtobufType) (name : string) (n : Z) (d : Value) : FieldSchema :=
  mkFieldSchema LabelRequired t name n (Some d).

(** The default of a type: zero, the empty string, the first variant, the empty message. *)
Definition type_default (t : ProtobufType) : Value :=
  match t with
  | ProtobufTypeUint32 => Uint32 0 | ProtobufTypeUint64 => Uint64 0 | ProtobufTypeInt32 => Int32 0
  | ProtobufTypeBool => Bool false | ProtobufTypeFloat => Float f32_zero
  | ProtobufTypeString => Text EmptyString | ProtobufTypeBytes => Bytes []
  | ProtobufTypeEnum Reject_RejectType => RejectType Reject_RejectType.None
  | ProtobufTypeEnum PermissionDenied_DenyType => DenyType PermissionDenied_DenyType.Text
  | ProtobufTypeEnum ContextActionModify_Operation => Operation ContextActionModify_Operation.Add
  | ProtobufTypeMessage Version => VersionV (VersionMsg.mkVersion None None None None)
  | ProtobufTypeMessage UserStats_Stats => Stats (UserStats_StatsMsg.mkUserStats_Stats None None None None)
  | ProtobufTypeMessage VoiceTarget_Target => Target (VoiceTarget_TargetMsg.mkVoiceTarget_Target [] None None None None)
  | ProtobufTypeMessage BanList_BanEntry => BanEntry (BanList_BanEntryMsg.mkBanList_BanEntry None None None None None None None)
  | ProtobufTypeMessage ACL_ChanGroup => ChanGroup (ACL_ChanGroupMsg.mkACL_ChanGroup None None None None [] [] [])
  | ProtobufTypeMessage ACL_ChanACL => ChanACL (ACL_ChanACLMsg.mkACL_ChanACL None None None None None None None)
  | ProtobufTypeMessage UserList_User => User (UserList_UserMsg.mkUserList_User None None None None)
  end.

Definition default (f : FieldSchema) : Value := unwrap_or (explicit_default f) (type_default (field_type f)).

Definition is_repeated (f : FieldSchema) : bool := match label f with LabelRepeated => true | _ => false end.
Definition is_required (f : FieldSchema) : bool := match label f with LabelRequired => true | _ => false end.
Definition is_message (t : ProtobufType) : bool := match t with ProtobufTypeMessage _ => true | _ => false end.

(** ** Enumerations *)

Definition reject_number (e : Reject_RejectType.Reject_RejectType) : Z :=
  match e with
  | Reject_RejectType.None => 0 | Reject_RejectType.WrongVersion => 1 | Reject_RejectType.InvalidUsername => 2
  | Reject_RejectType.WrongUserPW => 3 | Reject_RejectType.WrongServerPW => 4 | Reject_RejectType.UsernameInUse => 5
  | Reject_RejectType.ServerFull => 6 | Reject_RejectType.NoCertificate => 7 | Reject_RejectType.AuthenticatorFail => 8
  end.
Definition deny_number (e : PermissionDenied_DenyType.PermissionDenied_DenyType) : Z :=
  match e with
  | PermissionDenied_DenyType.Text => 0 | PermissionDenied_DenyType.Permission => 1 | PermissionDenied_DenyType.SuperUser => 2
  | PermissionDenied_DenyType.ChannelName => 3 | PermissionDenied_DenyType.TextTooLong => 4 | PermissionDenied_DenyType.H9K => 5
  | PermissionDenied_DenyType.TemporaryChannel => 6 | PermissionDenied_DenyType.MissingCertificate => 7
  | PermissionDenied_DenyType.UserName => 8 | PermissionDenied_DenyType.ChannelFull => 9
  | PermissionDenied_DenyType.NestingLimit => 10 | PermissionDenied_DenyType.ChannelCountLimit => 11
  | PermissionDenied_DenyType.ChannelListenerLimit => 12 | PermissionDenied_DenyType.UserListenerLimit => 13
  end.
Definition operation_number (e : ContextActionModify_Operation.ContextActionModify_Operation) : Z :=
  match e with
  | ContextActionModify_Operation.Add => 0 | ContextActionModify_Operation.Remove => 1
  end.

(** ** The messages *)

Definition Version_schema : list FieldSchema :=
  [optional ProtobufTypeUint32 "version" 1;
   optional ProtobufTypeString "release" 2;
   optional ProtobufTypeString "os" 3;
   optional ProtobufTypeString "os_version" 4].
Definition UDPTunnel_schema : list FieldSchema :=
  [required ProtobufTypeBytes "packet" 1].
Definition Authenticate_schema : list FieldSchema :=
  [optional ProtobufTypeString "username" 1;
   optional ProtobufTypeString "password" 2;
   repeated ProtobufTypeString "tokens" 3;
   repeated ProtobufTypeInt32 "celt_versions" 4;
   optional_default ProtobufTypeBool "opus" 5 (Bool false)].
Definition Ping_schema : list FieldSchema :=
  [optional ProtobufTypeUint64 "timestamp" 1;
   optional ProtobufTypeUint32 "good" 2;
   optional ProtobufTypeUint32 "late" 3;
   optional ProtobufTypeUint32 "lost" 4;
   optional ProtobufTypeUint32 "resync" 5;
   optional ProtobufTypeUint32 "udp_packets" 6;
   optional ProtobufTypeUint32 "tcp_packets" 7;
   optional ProtobufTypeFloat "udp_ping_avg" 8;
   optional ProtobufTypeFloat "udp_ping_var" 9;
   optional ProtobufTypeFloat "tcp_ping_avg" 10;
   optional ProtobufTypeFloat "tcp_ping_var" 11].
Definition Reject_schema : list FieldSchema :=
  [optional (ProtobufTypeEnum Reject_RejectType) "type" 1;
   optional ProtobufTypeString "reason" 2].
Definition ServerSync_schema : list FieldSchema :=
  [optional ProtobufTypeUint32 "session" 1;
   optional ProtobufTypeUint32 "max_bandwidth" 2;
   optional ProtobufTypeString "welcome_text" 3;
   optional ProtobufTypeUint64 "permissions" 4].
Definition ChannelRemove_schema : list FieldSchema :=
  [required ProtobufTypeUint32 "channel_id" 1].
Definition ChannelState_schema : list FieldSchema :=
  [optional ProtobufTypeUint32 "channel_id" 1;
   optional ProtobufTypeUint32 "parent" 2;
   optional ProtobufTypeString "name" 3;
   repeated ProtobufTypeUint32 "links" 4;
   optional ProtobufTypeString "description" 5;
   repeated ProtobufTypeUint32 "links_add" 6;
   repeated ProtobufTypeUint32 "links_remove" 7;
   optional_default ProtobufTypeBool "temporary" 8 (Bool false);
   optional_default ProtobufTypeInt32 "position" 9 (Int32 0);
   optional ProtobufTypeBytes "description_hash" 10;
   optional ProtobufTypeUint32 "max_users" 11;
   optional ProtobufTypeBool "is_enter_restricted" 12;
   optional ProtobufTypeBool "can_enter" 13].
Definition UserRemove_schema : list FieldSchema :=
  [required ProtobufTypeUint32 "session" 1;
   optional ProtobufTypeUint32 "actor" 2;
   optional ProtobufTypeString "reason" 3;
   optional ProtobufTypeBool "ban" 4].
Definition UserState_schema : list FieldSchema :=
  [optional ProtobufTypeUint32 "session" 1;
   optional ProtobufTypeUint32 "actor" 2;
   optional ProtobufTypeString "name" 3;
   optional ProtobufTypeUint32 "user_id" 4;
   optional ProtobufTypeUint32 "channel_id" 5;
   optional ProtobufTypeBool "mute" 6;
   optional ProtobufTypeBool "deaf" 7;
   optional ProtobufTypeBool "suppress" 8;
   optional ProtobufTypeBool "self_mute" 9;
   optional ProtobufTypeBool "self_deaf" 10;
   optional ProtobufTypeBytes "texture" 11;
   optional ProtobufTypeBytes "plugin_context" 12;
   optional ProtobufTypeString "plugin_identity" 13;
   optional ProtobufTypeString "comment" 14;
   optional ProtobufTypeString "hash" 15;
   optional ProtobufTypeBytes "comment_hash" 16;
   optional ProtobufTypeBytes "texture_hash" 17;
   optional ProtobufTypeBool "priority_speaker" 18;
   optional ProtobufTypeBool "recording" 19;
   repeated ProtobufTypeString "temporary_access_tokens" 20;
   repeated ProtobufTypeUint32 "listening_channel_add" 21;
   repeated ProtobufTypeUint32 "listening_channel_remove" 22].
Definition BanList_BanEntry_schema : list FieldSchema :=
  [required ProtobufTypeBytes "address" 1;
   required ProtobufTypeUint32 "mask" 2;
   optional ProtobufTypeString "name" 3;
   optional ProtobufTypeString "hash" 4;
   optional ProtobufTypeString "reason" 5;
   optional ProtobufTypeString "start" 6;
   optional ProtobufTypeUint32 "duration" 7].
Definition BanList_schema : list FieldSchema :=
  [repeated (ProtobufTypeMessage BanList_BanEntry) "bans" 1;
   optional_default ProtobufTypeBool "query" 2 (Bool false)].
Definition TextMessage_schema : list FieldSchema :=
  [optional ProtobufTypeUint32 "actor" 1;
   repeated ProtobufTypeUint32 "session" 2;
   repeated ProtobufTypeUint32 "channel_id" 3;
   repeated ProtobufTypeUint32 "tree_id" 4;
   required ProtobufTypeString "message" 5].
Definition PermissionDenied_schema : list FieldSchema :=
  [optional ProtobufTypeUint32 "permission" 1;
   optional ProtobufTypeUint32 "channel_id" 2;
   optional ProtobufTypeUint32 "session" 3;
   optional ProtobufTypeString "reason" 4;
   optional (ProtobufTypeEnum PermissionDenied_DenyType) "type" 5;
   optional ProtobufTypeString "name" 6].
Definition ACL_ChanGroup_schema : list FieldSchema :=
  [required ProtobufTypeString "name" 1;
   optional_default ProtobufTypeBool "inherited" 2 (Bool true);
   optional_default ProtobufTypeBool "inherit" 3 (Bool true);
   optional_default ProtobufTypeBool "inheritable" 4 (Bool true);
   repeated ProtobufTypeUint32 "add" 5;
   repeated ProtobufTypeUint32 "remove" 6;
   repeated ProtobufTypeUint32 "inherited_members" 7].
Definition ACL_ChanACL_schema : list FieldSchema :=
  [optional_default ProtobufTypeBool "apply_here" 1 (Bool true);
   optional_default ProtobufTypeBool "apply_subs" 2 (Bool true);
   optional_default ProtobufTypeBool "inherited" 3 (Bool true);
   optional ProtobufTypeUint32 "user_id" 4;
   optional ProtobufTypeString "group" 5;
   optional ProtobufTypeUint32 "grant" 6;
   optional ProtobufTypeUint32 "deny" 7].
Definition ACL_schema : list FieldSchema :=
  [required ProtobufTypeUint32 "channel_id" 1;
   optional_default ProtobufTypeBool "inherit_acls" 2 (Bool true);
   repeated (ProtobufTypeMessage ACL_ChanGroup) "groups" 3;
   repeated (ProtobufTypeMessage ACL_ChanACL) "acls" 4;
   optional_default ProtobufTypeBool "query" 5 (Bool false)].
Definition QueryUsers_schema : list FieldSchema :=
  [repeated ProtobufTypeUint32 "ids" 1;
   repeated ProtobufTypeString "names" 2].
Definition CryptSetup_schema : list FieldSchema :=
  [optional ProtobufTypeBytes "key" 1;
   optional ProtobufTypeBytes "client_nonce" 2;
   optional ProtobufTypeBytes "server_nonce" 3].
Definition ContextActionModify_schema : list FieldSchema :=
  [required ProtobufTypeString "action" 1;
   optional ProtobufTypeString "text" 2;
   optional ProtobufTypeUint32 "context" 3;
   optional (ProtobufTypeEnum ContextActionModify_Operation) "operation" 4].
Definition ContextAction_schema : list FieldSchema :=
  [optional ProtobufTypeUint32 "session" 1;
   optional ProtobufTypeUint32 "channel_id" 2;
   required ProtobufTypeString "action" 3].
Definition UserList_User_schema : list FieldSchema :=
  [required ProtobufTypeUint32 "user_id" 1;
   optional ProtobufTypeString "name" 2;
   optional ProtobufTypeString "last_seen" 3;
   optional ProtobufTypeUint32 "last_channel" 4].
Definition UserList_schema : list FieldSchema :=
  [repeated (ProtobufTypeMessage UserList_User) "users" 1].
Definition VoiceTarget_Target_schema : list FieldSchema :=
  [repeated ProtobufTypeUint32 "session" 1;
   optional ProtobufTypeUint32 "channel_id" 2;
   optional ProtobufTypeString "group" 3;
   optional_default ProtobufTypeBool "links" 4 (Bool false);
   optional_default ProtobufTypeBool "children" 5 (Bool false)].
Definition VoiceTarget_schema : list FieldSchema :=
  [optional ProtobufTypeUint32 "id" 1;
   repeated (ProtobufTypeMessage VoiceTarget_Target) "targets" 2].
Definition PermissionQuery_schema : list FieldSchema :=
  [optional ProtobufTypeUint32 "channel_id" 1;
   optional ProtobufTypeUint32 "permissions" 2;
   optional_default ProtobufTypeBool "flush" 3 (Bool false)].
Definition CodecVersion_schema : list FieldSchema :=
  [required ProtobufTypeInt32 "alpha" 1;
   required ProtobufTypeInt32 "beta" 2;
   required_default ProtobufTypeBool "prefer_alpha" 3 (Bool true);
   optional_default ProtobufTypeBool "opus" 4 (Bool false)].
Definition UserStats_Stats_schema : list FieldSchema :=
  [optional ProtobufTypeUint32 "good" 1;
   optional ProtobufTypeUint32 "late" 2;
   optional ProtobufTypeUint32 "lost" 3;
   optional ProtobufTypeUint32 "resync" 4].
Definition UserStats_schema : list FieldSchema :=
  [optional ProtobufTypeUint32 "session" 1;
   optional_default ProtobufTypeBool "stats_only" 2 (Bool false);
   repeated ProtobufTypeBytes "certificates" 3;
   optional (ProtobufTypeMessage UserStats_Stats) "from_client" 4;
   optional (ProtobufTypeMessage UserStats_Stats) "from_server" 5;
   optional ProtobufTypeUint32 "udp_packets" 6;
   optional ProtobufTypeUint32 "tcp_packets" 7;
   optional ProtobufTypeFloat "udp_ping_avg" 8;
   optional ProtobufTypeFloat "udp_ping_var" 9;
   optional ProtobufTypeFloat "tcp_ping_avg" 10;
   optional ProtobufTypeFloat "tcp_ping_var" 11;
   optional (ProtobufTypeMessage Version) "version" 12;
   repeated ProtobufTypeInt32 "celt_versions" 13;
   optional ProtobufTypeBytes "address" 14;
   optional ProtobufTypeUint32 "bandwidth" 15;
   optional ProtobufTypeUint32 "onlinesecs" 16;
   optional ProtobufTypeUint32 "idlesecs" 17;
   optional_default ProtobufTypeBool "strong_certificate" 18 (Bool false);
   optional_default ProtobufTypeBool "opus" 19 (Bool false)].
Definition RequestBlob_schema : list FieldSchema :=
  [repeated ProtobufTypeUint32 "session_texture" 1;
   repeated ProtobufTypeUint32 "session_comment" 2;
   repeated ProtobufTypeUint32 "channel_description" 3].
Definition ServerConfig_schema : list FieldSchema :=
  [optional ProtobufTypeUint32 "max_bandwidth" 1;
   optional ProtobufTypeString "welcome_text" 2;
   optional ProtobufTypeBool "allow_html" 3;
   optional ProtobufTypeUint32 "message_length" 4;
   optional ProtobufTypeUint32 "image_message_length" 5;
   optional ProtobufTypeUint32 "max_users" 6].
Definition SuggestConfig_schema : list FieldSchema :=
  [optional ProtobufTypeUint32 "version" 1;
   optional ProtobufTypeBool "positional" 2;
   optional ProtobufTypeBool "push_to_talk" 3].

(** ** The wire *)

Section wire.
Context `{Runtime}.

(** A value under a field number. *)
Definition encode (n : Z) (v : Value) : list Z :=
  match v with
  | Uint32 v => write_uint32 n v | Uint64 v => write_uint64 n v | Int32 v => write_int32 n v
  | Bool v => write_bool n v | Float v => write_float n v | Text v => write_string n v | Bytes v => write_bytes n v
  | RejectType v => write_enum n (reject_number v) | DenyType v => write_enum n (deny_number v)
  | Operation v => write_enum n (operation_number v)
  | VersionV v => write_message n (msg_size v) (msg_write v) | Stats v => write_message n (msg_size v) (msg_write v)
  | Target v => write_message n (msg_size v) (msg_write v) | BanEntry v => write_message n (msg_size v) (msg_write v)
  | ChanGroup v => write_message n (msg_size v) (msg_write v) | ChanACL v => write_message n (msg_size v) (msg_write v)
  | User v => write_message n (msg_size v) (msg_write v)
  end.

(** A value is in the range of its type. *)
Definition value_ok (v : Value) : Prop :=
  match v with
  | Uint32 v => u32 v | Uint64 v => u64 v | Int32 v => i32 v | Bool _ => True | Float v => float32 v
  | Text v => utf8 v | Bytes v => byte_string v | RejectType _ | DenyType _ | Operation _ => True
  | VersionV v => msg_ok v | Stats v => msg_ok v | Target v => msg_ok v | BanEntry v => msg_ok v
  | ChanGroup v => msg_ok v | ChanACL v => msg_ok v | User v => msg_ok v
  end.

(** A message that is a value has its required fields. *)
Definition value_complete (v : Value) : bool :=
  match v with
  | VersionV v => msg_initialized v | Stats v => msg_initialized v | Target v => msg_initialized v | BanEntry v => msg_initialized v
  | ChanGroup v => msg_initialized v | ChanACL v => msg_initialized v | User v => msg_initialized v
  | _ => true
  end.

(** The values of a field: a required field has one. *)
Definition field_complete (f : FieldSchema) (vs : list Value) : bool :=
  (negb (is_required f) || match vs with [] => false | _ => true end) && forallb value_complete vs.

(** What is sent: values under field numbers, in any order, a number possibly more than once. *)
Definition encode_all (sent : list (Z * Value)) : list Z := sent ≫= fun e => encode e.1 e.2.

(** A value that a message of the schema can carry. *)
Definition fits (schema : list FieldSchema) (e : Z * Value) : Prop :=
  exists f, f ∈ schema /\ number f = e.1 /\ field_type f = type_of e.2 /\ value_ok e.2.
End wire.

(** What was sent under a number, in order. *)
Definition sent_under (n : Z) (sent : list (Z * Value)) : list Value := snd <$> filter (fun e => e.1 = n) sent.

(** What a receiver keeps of the values of a field: all of a repeated field, the last of another. *)
Definition kept (f : FieldSchema) (vs : list Value) : list Value :=
  if is_repeated f then vs else match last vs with Some v => [v] | None => [] end.

(** A message field that is not repeated comes once: the merging of two such messages is left to the runtime. *)
Definition once (f : FieldSchema) (vs : list Value) : Prop :=
  is_message (field_type f) = true -> is_repeated f = false -> (length vs <= 1)%nat.

(** ** An implementation of a message *)

Record Generated `{Runtime} := mkGenerated {
  g_type : Type;
  g_codec : Message g_type;
  g_clear : g_type -> g_type;
  g_descriptor : list (FieldAccessor g_type);
  g_accessors : list (Accessor g_type);
}.

Section implementation.
Context {M : Type}.

(** [mut] points to what [get] gives and stores what [set] does, [take] is [get] and [clear]. *)
Definition references_ok {V} (get : M -> V) (set : M -> V -> M) (clear : M -> M) (mut : M -> M * Pointer M V) (take : M -> V * M) : Prop :=
  forall m, fst (mut m) = set m (get m) /\ pointee (snd (mut m)) = get m /\ (forall v, store (snd (mut m)) v = set m v)
    /\ take m = (get m, clear m).

(** The constructor of the values of a field gives all values of its type and no others. *)
Definition holds_type {V} (f : FieldSchema) (as_value : V -> Value) : Prop :=
  forall v, type_of v = field_type f <-> exists x, v = as_value x.

(** A field that holds at most one value: [get] gives the default of the schema when it holds none. *)
Definition singular_ok {V} (f : FieldSchema) (shows : M -> list Value) (as_value : V -> Value) (get : M -> V)
    (set : M -> V -> M) (clear : M -> M) : Prop :=
  is_repeated f = false /\ holds_type f as_value
  /\ (forall m, as_value (get m) = unwrap_or (head (shows m)) (default f))
  /\ (forall m v, shows (set m v) = [as_value v]) /\ (forall m, shows (clear m) = []).

(** The methods of a field show and change the values it holds, as the schema has them. *)
Definition method_ok (f : FieldSchema) (a : Accessor M) : Prop :=
  match a with
  | Optional as_value get _ set clear => singular_ok f (view a) as_value get set clear
  | Singular as_value get _ set clear mut take =>
    singular_ok f (view a) as_value get set clear /\ references_ok get set clear mut take
  | Repeated as_value get set clear mut take =>
    is_repeated f = true /\ holds_type f as_value /\ (forall m v, view a (set m v) = as_value <$> v)
    /\ (forall m, view a (clear m) = []) /\ references_ok get set clear mut take
  end.

(** The methods of one field do not change what those of another show. *)
Definition apart (a b : Accessor M) : Prop :=
  match a with
  | Optional _ _ _ set clear | Singular _ _ _ set clear _ _ =>
    (forall m v, view b (set m v) = view b m) /\ (forall m, view b (clear m) = view b m)
  | Repeated _ _ set clear _ _ => (forall m v, view b (set m v) = view b m) /\ (forall m, view b (clear m) = view b m)
  end.
End implementation.

(** A message type implements a schema. *)
Record implements `{Runtime} (schema : list FieldSchema) (g : Generated) : Prop := {
  (* the descriptor names the fields and their types *)
  im_descriptor : (fun d => (fa_protobuf d, fa_name d)) <$> g_descriptor g = (fun f => (field_type f, field_name f)) <$> schema;
  (* the methods of each field are right and independent, and what they show is the whole message *)
  im_methods : Forall2 method_ok schema (g_accessors g);
  im_apart i j a b : g_accessors g !! i = Some a -> g_accessors g !! j = Some b -> i <> j -> apart a b;
  im_whole m m' : Forall (fun a => view a m = view a m') (g_accessors g) -> m = m';
  im_clear m : g_clear g m = @msg_new _ _ (g_codec g) /\ Forall (fun a => view a (g_clear g m) = []) (g_accessors g);
  (* what is written is what the methods show, under the numbers of the schema *)
  im_written m : @msg_write _ _ (g_codec g) m = concat (zip_with (fun f a => view a m ≫= encode (number f)) schema (g_accessors g));
  (* whatever is sent within the schema, in any order, is read and shown *)
  im_read m sent : Forall (fits schema) sent -> short (encode_all sent) ->
    Forall2 (fun f a => once f (view a m ++ sent_under (number f) sent)) schema (g_accessors g) ->
    exists m', merge_all (@msg_field _ _ (g_codec g)) m (encode_all sent) = Some m'
      /\ Forall2 (fun f a => view a m' = kept f (view a m ++ sent_under (number f) sent)) schema (g_accessors g);
  (* [is_initialized] looks for the required fields, in nested messages too *)
  im_complete m : @msg_initialized _ _ (g_codec g) m =
    forallb (fun p => field_complete p.1 (view p.2 m)) (zip schema (g_accessors g));
}.

(** The schema of the protocol and the generated messages, in one order. *)
Definition protocol_schema : list (list FieldSchema) :=
  [Version_schema; Authenticate_schema; Ping_schema; ServerSync_schema; ChannelRemove_schema; ChannelState_schema;
   UserRemove_schema; UserState_schema; CryptSetup_schema; VoiceTarget_Target_schema; VoiceTarget_schema;
   PermissionQuery_schema; CodecVersion_schema; UserStats_Stats_schema; UserStats_schema; ServerConfig_schema;
   UDPTunnel_schema; Reject_schema; BanList_BanEntry_schema; BanList_schema; TextMessage_schema;
   PermissionDenied_schema; ACL_ChanGroup_schema; ACL_ChanACL_schema; ACL_schema; QueryUsers_schema;
   ContextActionModify_schema; ContextAction_schema; UserList_User_schema; UserList_schema; RequestBlob_schema;
   SuggestConfig_schema].

Definition generated `{Runtime} : list Generated :=
  [mkGenerated _ _ _ VersionAccess.clear VersionAccess.descriptor_static VersionAccess.accessors;
   mkGenerated _ _ _ AuthenticateAccess.clear AuthenticateAccess.descriptor_static AuthenticateAccess.accessors;
   mkGenerated _ _ _ PingAccess.clear PingAccess.descriptor_static PingAccess.accessors;
   mkGenerated _ _ _ ServerSyncAccess.clear ServerSyncAccess.descriptor_static ServerSyncAccess.accessors;
   mkGenerated _ _ _ ChannelRemoveAccess.clear ChannelRemoveAccess.descriptor_static ChannelRemoveAccess.accessors;
   mkGenerated _ _ _ ChannelStateAccess.clear ChannelStateAccess.descriptor_static ChannelStateAccess.accessors;
   mkGenerated _ _ _ UserRemoveAccess.clear UserRemoveAccess.descriptor_static UserRemoveAccess.accessors;
   mkGenerated _ _ _ UserStateAccess.clear UserStateAccess.descriptor_static UserStateAccess.accessors;
   mkGenerated _ _ _ CryptSetupAccess.clear CryptSetupAccess.descriptor_static CryptSetupAccess.accessors;
   mkGenerated _ _ _ VoiceTarget_TargetAccess.clear VoiceTarget_TargetAccess.descriptor_static VoiceTarget_TargetAccess.accessors;
   mkGenerated _ _ _ VoiceTargetAccess.clear VoiceTargetAccess.descriptor_static VoiceTargetAccess.accessors;
   mkGenerated _ _ _ PermissionQueryAccess.clear PermissionQueryAccess.descriptor_static PermissionQueryAccess.accessors;
   mkGenerated _ _ _ CodecVersionAccess.clear CodecVersionAccess.descriptor_static CodecVersionAccess.accessors;
   mkGenerated _ _ _ UserStats_StatsAccess.clear UserStats_StatsAccess.descriptor_static UserStats_StatsAccess.accessors;
   mkGenerated _ _ _ UserStatsAccess.clear UserStatsAccess.descriptor_static UserStatsAccess.accessors;
   mkGenerated _ _ _ ServerConfigAccess.clear ServerConfigAccess.descriptor_static ServerConfigAccess.accessors;
   mkGenerated _ _ _ UDPTunnelAccess.clear UDPTunnelAccess.descriptor_static UDPTunnelAccess.accessors;
   mkGenerated _ _ _ RejectAccess.clear RejectAccess.descriptor_static RejectAccess.accessors;
   mkGenerated _ _ _ BanList_BanEntryAccess.clear BanList_BanEntryAccess.descriptor_static BanList_BanEntryAccess.accessors;
   mkGenerated _ _ _ BanListAccess.clear BanListAccess.descriptor_static BanListAccess.accessors;
   mkGenerated _ _ _ TextMessageAccess.clear TextMessageAccess.descriptor_static TextMessageAccess.accessors;
   mkGenerated _ _ _ PermissionDeniedAccess.clear PermissionDeniedAccess.descriptor_static PermissionDeniedAccess.accessors;
   mkGenerated _ _ _ ACL_ChanGroupAccess.clear ACL_ChanGroupAccess.descriptor_static ACL_ChanGroupAccess.accessors;
   mkGenerated _ _ _ ACL_ChanACLAccess.clear ACL_ChanACLAccess.descriptor_static ACL_ChanACLAccess.accessors;
   mkGenerated _ _ _ ACLAccess.clear ACLAccess.descriptor_static ACLAccess.accessors;
   mkGenerated _ _ _ QueryUsersAccess.clear QueryUsersAccess.descriptor_static QueryUsersAccess.accessors;
   mkGenerated _ _ _ ContextActionModifyAccess.clear ContextActionModifyAccess.descriptor_static ContextActionModifyAccess.accessors;
   mkGenerated _ _ _ ContextActionAccess.clear ContextActionAccess.descriptor_static ContextActionAccess.accessors;
   mkGenerated _ _ _ UserList_UserAccess.clear UserList_UserAccess.descriptor_static UserList_UserAccess.accessors;
   mkGenerated _ _ _ UserListAccess.clear UserListAccess.descriptor_static UserListAccess.accessors;
   mkGenerated _ _ _ RequestBlobAccess.clear RequestBlobAccess.descriptor_static RequestBlobAccess.accessors;
   mkGenerated _ _ _ SuggestConfigAccess.clear SuggestConfigAccess.descriptor_static SuggestConfigAccess.accessors].
