(* ===== verification/SchemaProps.v ===== *)
(** The generated code implements [src/src/proto/mumble.proto]: for each of the thirty-two message types, what the accessors show is
    what is on the wire, under the field numbers, types, labels and defaults of the schema. *)

From stdpp Require Import base list option strings.
From Stdlib Require Import ZArith Lia.
From S2P Require Import Prelude Float32 Messages Wire WireFormat Codec CodecRest Fields Accessors AccessorsRest Proto CodecProps AllMessages Schema.

(** ** What a receiver keeps *)

Lemma sent_under_cons n v k sent :
  sent_under k ((n, v) :: sent) = if decide (n = k) then v :: sent_under k sent else sent_under k sent.
Proof. unfold sent_under. rewrite filter_cons. cbn. by case_decide. Qed.

Lemma kept_kept f vs ws : kept f (kept f vs ++ ws) = kept f (vs ++ ws).
Proof.
  unfold kept. destruct (is_repeated f); [done|]. rewrite !last_app. destruct (last ws); [done|].
  by destruct (last vs).
Qed.

Lemma length_kept f vs : is_repeated f = false -> (length (kept f vs) <= 1)%nat.
Proof. intros Hf. unfold kept. rewrite Hf. by destruct (last vs); cbn; lia. Qed.

(** ** One field *)

Section fields.
Context `{R : Runtime} {L : @RuntimeLaws R} {M : Type} `{C : !@Message R M}.

(** The message after a value of a field has been read. *)
Definition stored (a : Accessor M) (m : M) (v : Value) (m1 : M) : Prop :=
  match a with
  | Optional as_value _ _ set _ | Singular as_value _ _ set _ _ _ => exists x, v = as_value x /\ m1 = set m x
  | Repeated as_value get set _ _ _ => exists x, v = as_value x /\ m1 = set m (get m ++ [x])
  end.

Lemma stored_view f a m v m1 : method_ok f a -> stored a m v m1 -> view a m1 = kept f (view a m ++ [v]).
Proof.
  destruct a as [V inj get has set clear|V inj get has set clear mut take|V inj get set clear mut take]; cbn [method_ok stored];
    [intros (Hr & _ & _ & Hs & _)|intros [(Hr & _ & _ & Hs & _) _]|intros (Hr & _ & Hs & _)];
    intros (x & -> & ->); unfold kept; rewrite Hr, ?last_snoc; [apply Hs..|]. rewrite Hs. cbn. by rewrite fmap_app.
Qed.

Lemma stored_apart a b m v m1 : apart a b -> stored a m v m1 -> view b m1 = view b m.
Proof. destruct a; cbn [apart stored]; intros [Hs _] (x & _ & ->); apply Hs. Qed.

Lemma stored_some f a m v : method_ok f a -> type_of v = field_type f -> exists m1, stored a m v m1.
Proof.
  destruct a; cbn [method_ok stored]; [intros (_ & Ht & _)|intros [(_ & Ht & _) _]|intros (_ & Ht & _)];
    intros [x ->]%Ht; eauto.
Qed.

Lemma kept_view f (a : Accessor M) m : method_ok f a -> kept f (view a m) = view a m.
Proof.
  unfold kept. destruct a as [V inj get has set clear|V inj get has set clear mut take|V inj get set clear mut take];
    cbn [method_ok view]; [intros (-> & _)|intros [(-> & _) _]|by intros (-> & _)]; by destruct (has m).
Qed.

(** A value on the wire is read as the schema says. *)
Definition field_reads (f : FieldSchema) (a : Accessor M) : Prop :=
  forall m v m1 rest m', value_ok v -> (is_message (field_type f) = true -> is_repeated f = false -> view a m = []) ->
    stored a m v m1 -> merges msg_field m1 rest m' -> merges msg_field m (encode (number f) v ++ rest) m'.

(** *** All fields *)

Context (schema : list FieldSchema) (accessors : list (Accessor M)).
Context (Hnumbers : NoDup (number <$> schema)) (Hmethods : Forall2 method_ok schema accessors).
Context (Hapart : forall i j a b, accessors !! i = Some a -> accessors !! j = Some b -> i <> j -> apart a b).
Context (Hreads : Forall2 field_reads schema accessors).

(** One value changes what its own field shows, and nothing else. *)
Lemma stored_all i f a m v m1 j g b :
  schema !! i = Some f -> accessors !! i = Some a -> stored a m v m1 -> schema !! j = Some g -> accessors !! j = Some b ->
  view b m1 = if decide (number f = number g) then kept g (view b m ++ [v]) else view b m.
Proof.
  intros Hf Ha Hst Hg Hb. destruct (decide (i = j)) as [<-|Hij].
  - simplify_eq. rewrite decide_True by done. eapply stored_view; [|done]. exact (Forall2_lookup_lr _ _ _ _ _ _ Hmethods Hf Ha).
  - rewrite decide_False; [exact (stored_apart a b m v m1 (Hapart i j a b Ha Hb Hij) Hst)|]. intros E. apply Hij.
    eapply (NoDup_lookup _ _ _ _ Hnumbers); rewrite list_lookup_fmap; [by rewrite Hf|by rewrite Hg, E].
Qed.

Lemma read_all sent m :
  Forall (fits schema) sent -> Forall2 (fun f a => once f (view a m ++ sent_under (number f) sent)) schema accessors ->
  exists m', merges msg_field m (encode_all sent) m'
    /\ Forall2 (fun f a => view a m' = kept f (view a m ++ sent_under (number f) sent)) schema accessors.
Proof.
  revert m. induction sent as [|[n v] sent IH]; intros m Hs Ho.
  { exists m. split; [apply merges_nil|]. eapply Forall2_impl; [exact Hmethods|]. intros f a Hok. cbn. rewrite app_nil_r. symmetry.
    by eapply kept_view. }
  apply Forall_cons in Hs as [(f & Hf & Hn & Ht & Hv) Hs]. cbn [fst snd] in *. subst n.
  apply list_elem_of_lookup in Hf as [i Hf]. destruct (Forall2_lookup_l _ _ _ _ _ Hmethods Hf) as (a & Ha & Hok).
  destruct (stored_some f a m v Hok ltac:(done)) as [m1 Hm1].
  assert (forall j g b, schema !! j = Some g -> accessors !! j = Some b ->
    kept g (view b m1 ++ sent_under (number g) sent) = kept g (view b m ++ sent_under (number g) ((number f, v) :: sent))) as Hkept.
  { intros j g b Hg Hb. rewrite sent_under_cons, (stored_all i f a m v m1 j g b) by done. case_decide; [|done].
    rewrite kept_kept, <-app_assoc. done. }
  destruct (IH m1 Hs) as (m' & Hm' & Hviews).
  { apply Forall2_same_length_lookup. split; [by eapply Forall2_length|]. intros j g b Hg Hb.
    pose proof (Forall2_lookup_lr _ _ _ _ _ _ Ho Hg Hb) as Hone. cbn beta in Hone. rewrite sent_under_cons in Hone.
    rewrite (stored_all i f a m v m1 j g b) by done. case_decide; [|done]. intros Hmsg Hrep. specialize (Hone Hmsg Hrep).
    rewrite length_app in *. cbn [length] in Hone. pose proof (length_kept g (view b m ++ [v]) Hrep). lia. }
  exists m'. split.
  - cbn. eapply (Forall2_lookup_lr _ _ _ _ _ _ Hreads Hf Ha); [done| |done|done]. intros Hmsg Hrep.
    pose proof (Forall2_lookup_lr _ _ _ _ _ _ Ho Hf Ha Hmsg Hrep) as Hone. cbn beta in Hone. rewrite sent_under_cons, decide_True, length_app in Hone by done.
    cbn [length] in Hone. destruct (view a m); [done|cbn [length] in Hone; lia].
  - apply Forall2_same_length_lookup. split; [by eapply Forall2_length|]. intros j g b Hg Hb.
    rewrite (Forall2_lookup_lr _ _ _ _ _ _ Hviews Hg Hb). by eapply Hkept.
Qed.
End fields.

(** ** One message *)

Lemma numbers_agree :
  (forall e, reject_number e = value e) /\ (forall e, deny_number e = value e) /\ (forall e, operation_number e = value e).
Proof. split_and!; by intros []. Qed.

Lemma optional_written `{Runtime} {V} (n : Z) (as_value : V -> Value) (o : option V) d w :
  (forall v, w v = encode n (as_value v)) -> chunk o w = (if has o then [as_value (unwrap_or o d)] else []) ≫= encode n.
Proof. intros Hw. destruct o; cbn; [by rewrite app_nil_r, <-Hw|done]. Qed.

Lemma repeated_written `{Runtime} {V} (n : Z) (as_value : V -> Value) (l : list V) w :
  (forall v, w v = encode n (as_value v)) -> l ≫= w = (as_value <$> l) ≫= encode n.
Proof. intros Hw. induction l as [|v l IH]; [done|]. cbn. by rewrite Hw, IH. Qed.

Section pairs.
Context {M : Type}.

Fixpoint all_apart (l : list (Accessor M)) : Prop :=
  match l with [] => True | a :: l => Forall (fun b => apart a b /\ apart b a) l /\ all_apart l end.

Lemma all_apart_lookup l i j a b : all_apart l -> l !! i = Some a -> l !! j = Some b -> i <> j -> apart a b.
Proof.
  revert i j. induction l as [|c l IH]; intros i j; [done|]. intros [Hc Hl].
  destruct i as [|i], j as [|j]; cbn; intros Ha Hb Hij; [done| | |apply (IH i j); auto].
  - injection Ha as <-. by apply (Forall_lookup_1 _ _ _ _ Hc) in Hb as [? _].
  - injection Hb as <-. by apply (Forall_lookup_1 _ _ _ _ Hc) in Ha as [_ ?].
Qed.

(** What the methods of a field show determines the field. *)
Definition field_shown (a : Accessor M) (d : FieldAccessor M) : Prop := forall m m', view a m = view a m' -> fa_get d m = fa_get d m'.

Lemma all_shown (accessors : list (Accessor M)) descriptor :
  Forall2 field_shown accessors descriptor -> (forall m m', Forall (fun d => fa_get d m = fa_get d m') descriptor -> m = m') ->
  forall m m', Forall (fun a => view a m = view a m') accessors -> m = m'.
Proof.
  intros Hs Hw m m' Hv. apply Hw. clear Hw. induction Hs as [|a d accessors descriptor Ha Hs IH]; [done|].
  apply Forall_cons in Hv as [Hv1 Hv]. constructor; auto.
Qed.
End pairs.

Section complete.
Context `{Runtime} {M : Type}.

Lemma view_types f (a : Accessor M) m : method_ok f a -> Forall (fun v => type_of v = field_type f) (view a m).
Proof.
  destruct a as [V inj get has set clear|V inj get has set clear mut take|V inj get set clear mut take]; cbn [method_ok view];
    [intros (_ & Ht & _)|intros [(_ & Ht & _) _]|intros (_ & Ht & _)]; [destruct (has m)..|apply Forall_fmap, Forall_true];
    repeat constructor; intros; apply Ht; eauto.
Qed.

(** Only required fields and messages can be incomplete. *)
Definition matters (f : FieldSchema) : bool := is_required f || is_message (field_type f).

Lemma leaf_complete f (a : Accessor M) m : method_ok f a -> matters f = false -> field_complete f (view a m) = true.
Proof.
  intros Hok [Hr Hm]%orb_false_iff. unfold field_complete. rewrite Hr. cbn. apply forallb_forall. intros v Hv%list_elem_of_In.
  pose proof (view_types f a m Hok) as Ht. rewrite Forall_forall in Ht. rewrite <-(Ht v Hv) in Hm. by destruct v.
Qed.

Lemma complete_matters schema (accessors : list (Accessor M)) m :
  Forall2 method_ok schema accessors ->
  forallb (fun p => field_complete p.1 (view p.2 m)) (zip schema accessors)
  = forallb (fun p => field_complete p.1 (view p.2 m)) (List.filter (fun p => matters p.1) (zip schema accessors)).
Proof.
  induction 1 as [|f a schema accessors Hok _ IH]; [done|]. cbn. destruct (matters f) eqn:E; cbn; [by f_equal|].
  by rewrite leaf_complete.
Qed.

Lemma repeated_complete {V} (as_value : V -> Value) complete l :
  (forall v, value_complete (as_value v) = complete v) -> forallb value_complete (as_value <$> l) = forallb complete l.
Proof. intros Hv. induction l as [|v l IH]; [done|]. cbn. by rewrite Hv, IH. Qed.
End complete.

(** ** Automation *)

(** A case for each value a field can have. *)
Ltac by_presence :=
  let m := fresh in intros m; destruct m; lazy -[f32_zero];
  repeat match goal with |- context [match ?o with _ => _ end] => is_var o; destruct o end; repeat split; intros; reflexivity.

Ltac by_fields := let m := fresh in intros m; destruct m; intros; reflexivity.

Ltac holds_type_solve :=
  let v := fresh in intros v; split;
  [destruct v; intros E; first [discriminate E | eexists; reflexivity] | intros [? ->]; reflexivity].

Ltac singular_solve := split_and!; [reflexivity|holds_type_solve|by_presence|by_fields|by_fields].

Ltac method_solve :=
  idtac; lazymatch goal with
  | |- method_ok _ (Optional _ _ _ _ _) => singular_solve
  | |- method_ok _ (Singular _ _ _ _ _ _ _) => split; [singular_solve|by_presence]
  | |- method_ok _ (Repeated _ _ _ _ _ _) => split_and!; [reflexivity|holds_type_solve|by_fields|by_fields|by_presence]
  end.

Ltac each t := repeat (first [apply Forall2_cons|apply Forall_cons]; split; [t|]); first [by apply Forall2_nil|by apply Forall_nil].

Ltac apart_solve := split; (split; [by_fields|by_fields]).

Ltac all_apart_solve := repeat (split; [each apart_solve|]); exact I.

(** Equal views of a field are equal fields. *)
Ltac shown_solve :=
  let m := fresh in let m' := fresh in intros m m'; destruct m, m';
  lazy -[fmap list_fmap];
  first
    [ repeat match goal with |- context [match ?o with _ => _ end] => is_var o; destruct o end; congruence
    | apply list_fmap_eq_inj; intros ? ? [=]; assumption ].

Ltac enum_solve := cbn [encode]; destruct numbers_agree as (E1 & E2 & E3); rewrite ?E1, ?E2, ?E3; reflexivity.

Ltac chunk_solve :=
  first [apply optional_written; intros; first [reflexivity|enum_solve] | apply repeated_written; reflexivity].

(** What is written, field after field. *)
Ltac written_solve write :=
  let m := fresh in intros m; unfold msg_write; cbn -[write encode concat zip_with]; unfold write; cbv zeta;
  rewrite ?write_opt_app, ?write_all_app, ?write_opt_app, ?write_all_app;
  lazymatch goal with |- ?w = _ => rewrite <-(app_nil_r w) end; rewrite <-!app_assoc, app_nil_l;
  cbn -[encode]; repeat (apply (f_equal2 app); [chunk_solve|]); reflexivity.

(** One field, read by the runtime's reader of its type. *)
Ltac reads_solve :=
  let m := fresh "m" in let m1 := fresh "m1" in let rest := fresh "rest" in let m' := fresh "m'" in
  let v := fresh "v" in let Hv := fresh "Hv" in let Hnone := fresh "Hnone" in let Hm := fresh "Hm" in
  intros m ? m1 rest m' Hv Hnone (v & -> & ->) Hm; cbn [value_ok encode number optional required repeated optional_default required_default] in *;
  try (destruct numbers_agree as (E1 & E2 & E3); rewrite ?E1, ?E2, ?E3; clear E1 E2 E3);
  first
    [ eapply (merges_scalar _ read_uint32); [apply law_uint32; [field_lit|exact Hv]|intros; reflexivity|exact Hm]
    | eapply (merges_scalar _ read_uint64); [apply law_uint64; [field_lit|exact Hv]|intros; reflexivity|exact Hm]
    | eapply (merges_scalar _ read_int32); [apply law_int32; [field_lit|exact Hv]|intros; reflexivity|exact Hm]
    | eapply (merges_scalar _ read_bool); [apply law_bool; field_lit|intros; reflexivity|exact Hm]
    | eapply (merges_scalar _ read_float); [apply law_float; [field_lit|exact Hv]|intros; reflexivity|exact Hm]
    | eapply merges_into; [intros; apply law_string; [field_lit|exact Hv|assumption]|intros; reflexivity|exact Hm]
    | eapply merges_into; [intros; apply law_strings; [field_lit|exact Hv|assumption]|intros; reflexivity|exact Hm]
    | eapply merges_into; [intros; apply law_bytes; [field_lit|exact Hv|assumption]|intros; reflexivity|exact Hm]
    | eapply merges_into; [intros; apply law_bytess; [field_lit|exact Hv|assumption]|intros; reflexivity|exact Hm]
    | eapply merges_into; [intros; apply law_uint32s; [field_lit|exact Hv]|intros; reflexivity|exact Hm]
    | eapply merges_into; [intros; apply law_int32s; [field_lit|exact Hv]|intros; reflexivity|exact Hm]
    | eapply merges_into; [intros; apply law_enum; field_lit|intros; reflexivity|exact Hm]
    | eapply merges_into; [intros; apply messages_read; [field_lit|exact Hv|assumption]|intros; reflexivity|exact Hm]
    | specialize (Hnone eq_refl eq_refl); destruct m; lazy in Hnone;
      match type of Hnone with context [match ?o with _ => _ end] => is_var o; destruct o; [discriminate Hnone|] end;
      eapply merges_into; [intros; apply message_reads; [field_lit|exact Hv|assumption]|intros; reflexivity|exact Hm] ].

(** The required fields and the messages. *)
Ltac complete_solve methods :=
  let m := fresh "m" in intros m; rewrite (complete_matters _ _ m methods); destruct m; cbn -[value_complete];
  repeat match goal with |- context [forallb value_complete (?inj <$> ?l)] =>
    erewrite (repeated_complete inj _ l) by reflexivity end;
  lazy -[forallb];
  repeat match goal with |- context [match ?o with _ => _ end] => is_var o; destruct o end;
  try reflexivity; repeat match goal with |- context [forallb ?f ?l] => is_var l; destruct (forallb f l) end; reflexivity.

(** ** All messages *)

Lemma implements_fields `{R : Runtime} {L : @RuntimeLaws R} (schema : list FieldSchema) (g : Generated) :
  NoDup (number <$> schema) ->
  (fun d => (fa_protobuf d, fa_name d)) <$> g_descriptor g = (fun f => (field_type f, field_name f)) <$> schema ->
  Forall2 method_ok schema (g_accessors g) -> all_apart (g_accessors g) ->
  Forall2 field_shown (g_accessors g) (g_descriptor g) ->
  (forall m m', Forall (fun d => fa_get d m = fa_get d m') (g_descriptor g) -> m = m') ->
  (forall m, g_clear g m = @msg_new _ _ (g_codec g) /\ Forall (fun a => view a (g_clear g m) = []) (g_accessors g)) ->
  (forall m, @msg_write _ _ (g_codec g) m = concat (zip_with (fun f a => view a m ≫= encode (number f)) schema (g_accessors g))) ->
  Forall2 (field_reads (C := g_codec g)) schema (g_accessors g) ->
  (forall m, @msg_initialized _ _ (g_codec g) m = forallb (fun p => field_complete p.1 (view p.2 m)) (zip schema (g_accessors g))) ->
  implements schema g.
Proof.
  intros Hn Hd Hm Ha Hs Hw Hc Hwr Hr Hi. split; try done.
  - intros i j a b. by apply all_apart_lookup.
  - by apply (all_shown _ (g_descriptor g)).
  - intros m sent Hf Hsh Ho. destruct (read_all (C := g_codec g) schema (g_accessors g) Hn Hm
      (fun i j a b => all_apart_lookup _ i j a b Ha) Hr sent m Hf Ho) as (m' & Hm' & Hv).
    exists m'. split; [by apply merges_all_of|done].
Qed.

Ltac shows_nothing := cbn beta; reflexivity.

Ltac implements_solve write :=
  match goal with |- implements ?schema ?g =>
    let methods := fresh in
    assert (Forall2 method_ok schema (g_accessors g)) as methods by each method_solve;
    apply implements_fields;
    [apply (bool_decide_unpack _); vm_compute; exact I|reflexivity|exact methods|all_apart_solve|each shown_solve
    |let m := fresh in let m' := fresh in let Hf := fresh in intros m m' Hf; destruct m, m'; cbn in Hf;
      repeat (apply Forall_cons in Hf as [? Hf]); cbn in *; f_equal; assumption
    |let m := fresh in intros m; destruct m; split; [reflexivity|each shows_nothing]
    |written_solve write|each reads_solve|complete_solve methods]
  end.

(** C13.  The generated code implements [mumble.proto], for each of the thirty-two message types and any protobuf runtime with the
    documented laws.  What a message writes is what its accessors show, each value under the number and in the type that the schema
    gives its field, in the order of the schema.  Whatever is sent within the schema, in any order and with fields repeated, is
    read: afterwards a repeated field shows all that came under its number, in order and after what it had, and another field the
    last of it.  Reading a field that holds nothing gives the default of the schema; [set], [clear], [mut] and [take] change what their
    own field shows and nothing else, [clear] of the message empties all fields, and the fields are the whole message.
    [is_initialized] is true when the fields the schema requires are there, in nested messages too, and the descriptor has the
    names and types of the schema. *)
Theorem schema_implemented `{R : Runtime} {L : @RuntimeLaws R} : Forall2 implements protocol_schema generated.
Proof.
  apply Forall2_cons; split; [implements_solve @VersionCodec.write_to_with_cached_sizes|].
  apply Forall2_cons; split; [implements_solve @AuthenticateCodec.write_to_with_cached_sizes|].
  apply Forall2_cons; split; [implements_solve @PingCodec.write_to_with_cached_sizes|].
  apply Forall2_cons; split; [implements_solve @ServerSyncCodec.write_to_with_cached_sizes|].
  apply Forall2_cons; split; [implements_solve @ChannelRemoveCodec.write_to_with_cached_sizes|].
  apply Forall2_cons; split; [implements_solve @ChannelStateCodec.write_to_with_cached_sizes|].
  apply Forall2_cons; split; [implements_solve @UserRemoveCodec.write_to_with_cached_sizes|].
  apply Forall2_cons; split; [implements_solve @UserStateCodec.write_to_with_cached_sizes|].
  apply Forall2_cons; split; [implements_solve @CryptSetupCodec.write_to_with_cached_sizes|].
  apply Forall2_cons; split; [implements_solve @VoiceTarget_TargetCodec.write_to_with_cached_sizes|].
  apply Forall2_cons; split; [implements_solve @VoiceTargetCodec.write_to_with_cached_sizes|].
  apply Forall2_cons; split; [implements_solve @PermissionQueryCodec.write_to_with_cached_sizes|].
  apply Forall2_cons; split; [implements_solve @CodecVersionCodec.write_to_with_cached_sizes|].
  apply Forall2_cons; split; [implements_solve @UserStats_StatsCodec.write_to_with_cached_sizes|].
  apply Forall2_cons; split; [implements_solve @UserStatsCodec.write_to_with_cached_sizes|].
  apply Forall2_cons; split; [implements_solve @ServerConfigCodec.write_to_with_cached_sizes|].
  apply Forall2_cons; split; [implements_solve @UDPTunnelCodec.write_to_with_cached_sizes|].
  apply Forall2_cons; split; [implements_solve @RejectCodec.write_to_with_cached_sizes|].
  apply Forall2_cons; split; [implements_solve @BanList_BanEntryCodec.write_to_with_cached_sizes|].
  apply Forall2_cons; split; [implements_solve @BanListCodec.write_to_with_cached_sizes|].
  apply Forall2_cons; split; [implements_solve @TextMessageCodec.write_to_with_cached_sizes|].
  apply Forall2_cons; split; [implements_solve @PermissionDeniedCodec.write_to_with_cached_sizes|].
  apply Forall2_cons; split; [implements_solve @ACL_ChanGroupCodec.write_to_with_cached_sizes|].
  apply Forall2_cons; split; [implements_solve @ACL_ChanACLCodec.write_to_with_cached_sizes|].
  apply Forall2_cons; split; [implements_solve @ACLCodec.write_to_with_cached_sizes|].
  apply Forall2_cons; split; [implements_solve @QueryUsersCodec.write_to_with_cached_sizes|].
  apply Forall2_cons; split; [implements_solve @ContextActionModifyCodec.write_to_with_cached_sizes|].
  apply Forall2_cons; split; [implements_solve @ContextActionCodec.write_to_with_cached_sizes|].
  apply Forall2_cons; split; [implements_solve @UserList_UserCodec.write_to_with_cached_sizes|].
  apply Forall2_cons; split; [implements_solve @UserListCodec.write_to_with_cached_sizes|].
  apply Forall2_cons; split; [implements_solve @RequestBlobCodec.write_to_with_cached_sizes|].
  apply Forall2_cons; split; [implements_solve @SuggestConfigCodec.write_to_with_cached_sizes|].
  by apply Forall2_nil.
Qed.

(** A user's state as a client may send it: out of order, the session twice, two channels to listen to. *)
Definition sample_sent : list (Z * Value) :=
  [(21, Uint32 3); (3, Text "Ann"); (1, Uint32 7); (21, Uint32 300); (1, Uint32 9); (6, Bool true)].

Lemma schema_implemented_witness :
  exists m, @merge_all wire_format _ (@UserStateCodec.merge_field wire_format) UserStateCodec.new (@encode_all wire_format sample_sent) = Some m
    /\ UserStateAccess.get_session m = 9 /\ UserStateAccess.get_name m = "Ann"%string /\ UserStateAccess.get_mute m = true
    /\ UserStateAccess.has_deaf m = false /\ UserStateAccess.get_listening_channel_add m = [3; 300].
Proof.
  pose proof (Forall2_lookup_lr _ _ _ 7 _ _ (@schema_implemented wire_format wire_format_laws) eq_refl eq_refl) as Himpl.
  destruct (im_read _ _ Himpl UserStateCodec.new sample_sent) as (m & Hm & Hv).
  - assert (forall i n v f, UserState_schema !! i = Some f -> number f = n -> field_type f = type_of v -> @value_ok wire_format v ->
      @fits wire_format UserState_schema (n, v)) as Hfit
      by (intros i n v f Hf Hn Ht Hok; exists f; split; [exact (list_elem_of_lookup_2 _ i f Hf)|split; [exact Hn|split; [exact Ht|exact Hok]]]).
    repeat (apply Forall_cons; split); try apply Forall_nil; try exact I;
      [eapply (Hfit 20%nat)|eapply (Hfit 2%nat)|eapply (Hfit 0%nat)|eapply (Hfit 20%nat)|eapply (Hfit 0%nat)|eapply (Hfit 5%nat)];
      try reflexivity; try exact I; split; vm_compute; first [reflexivity|discriminate].
  - vm_compute. reflexivity.
  - repeat (apply Forall2_cons; split; [intros E; discriminate E|]). apply Forall2_nil. exact I.
  - exists m. split; [exact Hm|].
    pose proof (Forall2_lookup_lr _ _ _ 0 _ _ Hv eq_refl eq_refl) as H0. pose proof (Forall2_lookup_lr _ _ _ 2 _ _ Hv eq_refl eq_refl) as H2.
    pose proof (Forall2_lookup_lr _ _ _ 5 _ _ Hv eq_refl eq_refl) as H5. pose proof (Forall2_lookup_lr _ _ _ 6 _ _ Hv eq_refl eq_refl) as H6.
    pose proof (Forall2_lookup_lr _ _ _ 20 _ _ Hv eq_refl eq_refl) as H20. clear Himpl Hv Hm. destruct m.
    vm_compute in H0, H2, H5, H6, H20.
    destruct session; [injection H0 as ->|discriminate H0]. destruct name; [injection H2 as ->|discriminate H2].
    destruct mute; [injection H5 as ->|discriminate H5]. destruct deaf; [discriminate H6|].
    destruct listening_channel_add as [|x [|y [|]]]; try discriminate H20. injection H20 as -> ->. repeat split.
Defined.
