(* ===== verification/Maps.v ===== *)
(** Hash maps: the parts of [std::collections::HashMap] and [scc::HashIndex] the sources use, over
    [gmap].  The iteration order of a hash map is not specified: it is a parameter, of which
    only completeness is assumed. *)

From stdpp Require Import base gmap list fin_maps.
From Stdlib Require Import ZArith Lia.
From S2P Require Import Prelude.

Class HashIter := hash_iter : forall {K A : Type} `{Countable K}, gmap K A -> list (K * A).

Class HashIterLaws `{HashIter} :=
  hash_iter_perm : forall {K A : Type} `{Countable K} (m : gmap K A), hash_iter m ≡ₚ map_to_list m.

(** The order of the representation, a concrete iteration order. *)
Definition canonical_iter : HashIter := fun K A _ _ m => map_to_list m.
Lemma canonical_iter_laws : @HashIterLaws canonical_iter.
Proof. intros K A ? ? m. reflexivity. Qed.

(** [HashIndex::insert] keeps an existing entry. *)
Definition insert_new {K A} `{Countable K} (k : K) (a : A) (m : gmap K A) : gmap K A :=
  match m !! k with Some _ => m | None => <[k := a]> m end.

Lemma lookup_insert_new {K A} `{Countable K} (k k' : K) (a : A) (m : gmap K A) :
  insert_new k a m !! k' =
    if decide (k = k') then Some (default a (m !! k)) else m !! k'.
Proof.
  unfold insert_new. case_decide as Hk.
  - subst. destruct (m !! k') eqn:Hm; cbn; by rewrite ?lookup_insert_eq.
  - destruct (m !! k); [done|]. by rewrite lookup_insert_ne.
Qed.

(** [Iterator::min_by_key]: the first of the least elements. *)
Definition min_by_key {A} (f : A -> Z) (l : list A) : option A :=
  match l with
  | [] => None
  | a :: l => Some (fold_left (fun a b => if f b <? f a then b else a) l a)
  end.

(** [retain] on a map, with a boolean test on key and value. *)
Definition retain {K A} `{Countable K} (keep : K -> A -> bool) (m : gmap K A) : gmap K A :=
  filter (fun p => keep p.1 p.2 = true) m.

Lemma lookup_retain {K A} `{Countable K} (keep : K -> A -> bool) (m : gmap K A) k :
  retain keep m !! k = a ← m !! k; if keep k a then Some a else None.
Proof.
  unfold retain. rewrite map_lookup_filter. destruct (m !! k) as [a|]; cbn; [|done].
  case_guard as Hk; destruct (keep k a); done.
Qed.

Lemma size_retain {K A} `{Countable K} (keep : K -> A -> bool) (m : gmap K A) :
  (size (retain keep m) <= size m)%nat.
Proof. apply map_size_filter. Qed.

Lemma min_by_key_spec {A} (f : A -> Z) (l : list A) a :
  min_by_key f l = Some a -> a ∈ l /\ forall b, b ∈ l -> f a <= f b.
Proof.
  destruct l as [|x l]; [done|]. cbn. intros [= <-]. revert x.
  induction l as [|y l IH]; intros x; cbn.
  - split; [by left|]. intros b ->%list_elem_of_singleton. lia.
  - destruct (IH (if f y <? f x then y else x)) as [Hin Hle]. split.
    + rewrite elem_of_cons in *. rewrite elem_of_cons. destruct Hin as [->|]; [case_if|]; auto.
    + intros b. rewrite !elem_of_cons. intros Hb.
      assert (f (fold_left (fun a b => if f b <? f a then b else a) l (if f y <? f x then y else x))
        <= f (if f y <? f x then y else x)) as Hx by (apply Hle; by left).
      destruct Hb as [-> |[-> |Hb]]; [revert Hx; case_if; lia|revert Hx; case_if; lia|].
      apply Hle. by right.
Qed.

Lemma min_by_key_is_Some {A} (f : A -> Z) (l : list A) : l <> [] -> is_Some (min_by_key f l).
Proof. by destruct l. Qed.

Section iter.
Context `{HashIterLaws}.

Lemma elem_of_hash_iter {K A} `{Countable K} (m : gmap K A) k a :
  (k, a) ∈ hash_iter m <-> m !! k = Some a.
Proof. rewrite hash_iter_perm. apply elem_of_map_to_list. Qed.

Lemma NoDup_hash_iter {K A} `{Countable K} (m : gmap K A) : NoDup (hash_iter m).*1.
Proof. rewrite hash_iter_perm. apply NoDup_fst_map_to_list. Qed.

Lemma length_hash_iter {K A} `{Countable K} (m : gmap K A) : length (hash_iter m) = size m.
Proof. rewrite hash_iter_perm. apply length_map_to_list. Qed.

Lemma hash_iter_nil {K A} `{Countable K} (m : gmap K A) : m <> ∅ -> hash_iter m <> [].
Proof.
  intros Hm Hn. apply Hm, map_size_empty_inv. by rewrite <-length_hash_iter, Hn.
Qed.
End iter.
