(* ===== verification/Calendar.v ===== *)
(** Wall clock texts of [src/src/anticheat.rs]: [hms_now], [iso8601_now] and
    [civil_from_days], checked against a plain definition of the Gregorian calendar.  The system clock
    is an argument: the seconds since the epoch. *)

From stdpp Require Import base list strings pretty.
From Stdlib Require Import ZArith Lia.
From S2P Require Import Prelude.

(** ** The code *)

(** [civil_from_days]: [i64] division truncates; the casts are written out.  After the first addition
    every intermediate value is smaller in size than its argument. *)
Definition civil_from_days (z : Z) : Z * Z * Z :=
  let z := as_i64 (z + 719468) in
  let era := Z.quot (if 0 <=? z then z else z - 146096) 146097 in
  let doe := as_u64 (z - era * 146097) in
  let yoe := (doe - doe / 1460 + doe / 36524 - doe / 146096) / 365 in
  let y := as_i64 yoe + era * 400 in
  let doy := doe - (365 * yoe + yoe / 4 - yoe / 100) in
  let mp := (5 * doy + 2) / 153 in
  let d := as_u32 (doy - (153 * mp + 2) / 5 + 1) in
  let m := as_u32 (if mp <? 10 then mp + 3 else mp - 9) in
  (if m <=? 2 then y + 1 else y, m, d).

(** [{:0w}] of a non-negative integer. *)
Definition pad (w : nat) (n : Z) : string :=
  let s := pretty (Z.to_N n) in
  String.concat "" (replicate (w - String.length s) "0") +:+ s.

Definition hms_now (secs : Z) : string :=
  pad 2 ((secs / 3600) mod 24) +:+ ":" +:+ pad 2 ((secs / 60) mod 60) +:+ ":" +:+ pad 2 (secs mod 60).

Definition iso8601_now (secs : Z) : string :=
  let '(y, m, d) := civil_from_days (as_i64 (secs / 86400)) in
  let rem := secs mod 86400 in
  pad 4 y +:+ "-" +:+ pad 2 m +:+ "-" +:+ pad 2 d +:+ "T" +:+ pad 2 (rem / 3600) +:+ ":"
  +:+ pad 2 ((rem mod 3600) / 60) +:+ ":" +:+ pad 2 (rem mod 60) +:+ "Z".

(** ** The Gregorian calendar *)

Definition leap (y : Z) : bool :=
  ((y mod 4 =? 0) && negb (y mod 100 =? 0)) || (y mod 400 =? 0).

Definition month_length (y m : Z) : Z :=
  if m =? 2 then (if leap y then 29 else 28)
  else if (m =? 4) || (m =? 6) || (m =? 9) || (m =? 11) then 30 else 31.

Definition valid_date (y m d : Z) : Prop := 1 <= m <= 12 /\ 1 <= d <= month_length y m.

(** Days of year [y] that precede month [m]. *)
Definition days_before_month (y m : Z) : Z :=
  foldr Z.add 0 (month_length y <$> seqZ 1 (m - 1)).

(** Days between 0000-01-01 and the first of January of year [y] (proleptic). *)
Definition days_before_year (y : Z) : Z := 365 * y + (y + 3) / 4 - (y + 99) / 100 + (y + 399) / 400.

(** Days since 1970-01-01 of a date. *)
Definition days_of_date (y m d : Z) : Z :=
  days_before_year y + days_before_month y m + (d - 1) - days_before_year 1970.

(** The year lengths add up. *)
Lemma days_before_year_step y :
  days_before_year (y + 1) = days_before_year y + (if leap y then 366 else 365).
Proof.
  unfold days_before_year, leap.
  destruct (y mod 4 =? 0) eqn:H4; destruct (y mod 100 =? 0) eqn:H100; destruct (y mod 400 =? 0) eqn:H400;
    cbn; Z.div_mod_to_equations; lia.
Qed.

(** ** Correctness of [civil_from_days] *)

(** First day of year [yoe] of an era, the era's years starting on the first of March. *)
Definition year_start (yoe : Z) : Z := 365 * yoe + yoe / 4 - yoe / 100.

(** The year-of-era formula, monotone in the day of the era. *)
Definition year_of (doe : Z) : Z := (doe - doe / 1460 + doe / 36524 - doe / 146096) / 365.

Lemma year_of_mono a b : 0 <= a <= b -> year_of a <= year_of b.
Proof. intros H. unfold year_of. apply Z.div_le_mono; [lia|]. Z.div_mod_to_equations. lia. Qed.

Definition year_check (y : Z) : bool :=
  (year_of (year_start y) =? y) && (year_of (year_start (y + 1) - 1 + (if y =? 399 then 1 else 0)) =? y).

Lemma year_check_all : forallb year_check (seqZ 0 400) = true.
Proof. vm_compute. reflexivity. Qed.

Lemma year_bounds y :
  0 <= y < 400 ->
  year_of (year_start y) = y /\ year_of (year_start (y + 1) - 1 + (if y =? 399 then 1 else 0)) = y.
Proof.
  intros Hy. pose proof year_check_all as H. rewrite forallb_forall in H.
  specialize (H y ltac:(apply list_elem_of_In, elem_of_seqZ; lia)).
  unfold year_check in H. apply andb_true_iff in H as [H1 H2].
  split; by apply Z.eqb_eq.
Qed.

Lemma year_start_nonneg y : 0 <= y -> 0 <= year_start y.
Proof. unfold year_start. Z.div_mod_to_equations. lia. Qed.

(** The year of the era is the one whose days contain [doe]. *)
Lemma year_of_spec doe :
  0 <= doe < 146097 ->
  let y := year_of doe in
  0 <= y < 400 /\ year_start y <= doe < year_start (y + 1) + (if y =? 399 then 1 else 0).
Proof.
  intros Hd y.
  assert (0 <= y < 400) as Hy.
  { pose proof (year_of_mono 0 doe ltac:(lia)) as H0. pose proof (year_of_mono doe 146096 ltac:(lia)) as H1.
    change (year_of 0) with 0 in H0. change (year_of 146096) with 399 in H1. subst y. lia. }
  split; [done|]. split.
  - destruct (decide (year_start y <= doe)) as [|Hlt]; [done|]. exfalso.
    assert (y <> 0) by (intros ->; apply Hlt; change (year_start 0) with 0; lia).
    destruct (year_bounds (y - 1) ltac:(lia)) as [_ He].
    rewrite (proj2 (Z.eqb_neq _ _)) in He by lia. replace (y - 1 + 1) with y in He by lia.
    pose proof (year_of_mono doe (year_start y - 1 + 0) ltac:(lia)). fold y in H0. lia.
  - destruct (decide (doe < year_start (y + 1) + (if y =? 399 then 1 else 0))) as [|Hge]; [done|]. exfalso.
    destruct (Z.eqb_spec y 399) as [He|He].
    + rewrite He in Hge. change (year_start (399 + 1)) with 146096 in Hge. lia.
    + destruct (year_bounds (y + 1) ltac:(lia)) as [Hs _].
      pose proof (year_of_mono (year_start (y + 1)) doe) as Hm.
      pose proof (year_start_nonneg (y + 1)). fold y in Hm. lia.
Qed.

(** Months, March first, in days from the first of March. *)
Lemma days_before_month_eq y m :
  1 <= m <= 12 ->
  days_before_month y m =
    if m <=? 2 then 31 * (m - 1) else (153 * (m - 3) + 2) / 5 + 59 + (if leap y then 1 else 0).
Proof.
  intros Hm.
  assert (m = 1 \/ m = 2 \/ m = 3 \/ m = 4 \/ m = 5 \/ m = 6 \/ m = 7 \/ m = 8 \/ m = 9 \/ m = 10
    \/ m = 11 \/ m = 12) as H by lia.
  destruct (leap y) eqn:Hl; repeat destruct H as [-> | H]; try subst m;
    unfold days_before_month; cbn; unfold month_length; cbn; rewrite ?Hl; reflexivity.
Qed.

(** The first of January after the March year [yoe] of an era. *)
Lemma days_before_march_year era yoe :
  0 <= yoe < 400 ->
  days_before_year (yoe + era * 400 + 1) = era * 146097 + year_start yoe + 366.
Proof. intros H. unfold days_before_year, year_start. Z.div_mod_to_equations. lia. Qed.

(** Month and day from the day of the March year. *)
Lemma month_of_doy doy :
  0 <= doy <= 365 ->
  let mp := (5 * doy + 2) / 153 in
  let d := doy - (153 * mp + 2) / 5 + 1 in
  let m := if mp <? 10 then mp + 3 else mp - 9 in
  1 <= m <= 12 /\ 1 <= d <= 31 /\ (m <= 2 <-> 306 <= doy)
  /\ doy = (if m <=? 2 then 306 + 31 * (m - 1) else (153 * (m - 3) + 2) / 5) + d - 1
  /\ (m = 2 -> d <= 28 \/ (d = 29 /\ doy = 365))
  /\ (m = 4 \/ m = 6 \/ m = 9 \/ m = 11 -> d <= 30).
Proof.
  intros H mp d m.
  assert (0 <= mp < 12 /\ 153 * mp <= 5 * doy + 2 < 153 * mp + 153) as Hmp
    by (subst mp; Z.div_mod_to_equations; lia).
  clearbody mp. subst d m.
  repeat case_if; split_and!; intros; Z.div_mod_to_equations; lia.
Qed.

Lemma as_i64_small z : - 2 ^ 63 <= z < 2 ^ 63 -> as_i64 z = z.
Proof. intros H. unfold as_i64, sign, wrap. case_if; Z.div_mod_to_equations; lia. Qed.

(** The era is the floor of the shifted day by the era length. *)
Lemma era_spec z :
  let era := Z.quot (if 0 <=? z then z else z - 146096) 146097 in
  era = z / 146097 /\ 0 <= z - era * 146097 < 146097.
Proof.
  cbv zeta. assert (Z.quot (if 0 <=? z then z else z - 146096) 146097 = z / 146097) as ->; [|split; [done|]].
  - case_if; [apply Z.quot_div_nonneg; lia|].
    rewrite <-(Z.opp_involutive (z - 146096)), Z.quot_opp_l, Z.quot_div_nonneg by lia.
    Z.div_mod_to_equations. lia.
  - Z.div_mod_to_equations. lia.
Qed.

(** A day 365 of the March year exists only before the 29th of February of a leap year. *)
Lemma leap_from_doy era yoe :
  0 <= yoe < 400 -> year_start (yoe + 1) + (if yoe =? 399 then 1 else 0) = year_start yoe + 366 ->
  leap (yoe + era * 400 + 1) = true.
Proof.
  intros Hy. unfold leap, year_start.
  destruct ((yoe + era * 400 + 1) mod 4 =? 0) eqn:H4;
  destruct ((yoe + era * 400 + 1) mod 100 =? 0) eqn:H100;
  destruct ((yoe + era * 400 + 1) mod 400 =? 0) eqn:H400; cbn; try done;
  case_if; Z.div_mod_to_equations; lia.
Qed.

Lemma civil_from_days_sound z :
  - 2 ^ 62 <= z < 2 ^ 62 ->
  let '(y, m, d) := civil_from_days z in valid_date y m d /\ days_of_date y m d = z.
Proof.
  intros Hz. unfold civil_from_days. rewrite as_i64_small by lia. set (w := z + 719468).
  destruct (era_spec w) as [_ Hdoe]. set (era := Z.quot _ _) in *. cbv zeta.
  rewrite (as_u64_small (w - era * 146097)) by (unfold in_u; lia). set (doe := w - era * 146097) in *.
  fold (year_of doe). destruct (year_of_spec doe Hdoe) as [Hy [Hlo Hhi]]. set (yoe := year_of doe) in *.
  rewrite (as_i64_small yoe) by lia.
  fold (year_start yoe). set (doy := doe - year_start yoe).
  assert (0 <= doy <= 365) as Hdoy.
  { subst doy. split; [lia|]. revert Hhi. unfold year_start. case_if; Z.div_mod_to_equations; lia. }
  destruct (month_of_doy doy Hdoy) as (Hm & Hd & Hm2 & Hsum & Hfeb & H30).
  set (mp := (5 * doy + 2) / 153) in *. set (d := doy - (153 * mp + 2) / 5 + 1) in *.
  set (m := if mp <? 10 then _ else _) in *.
  rewrite (as_u32_small m), (as_u32_small d) by (unfold in_u; lia).
  pose proof (days_before_march_year era yoe Hy) as Hyear.
  pose proof (days_before_year_step (yoe + era * 400)) as Hstep.
  assert (w = era * 146097 + year_start yoe + doy) as Hw by (subst doy doe; lia).
  assert (d = 29 /\ doy = 365 -> leap (yoe + era * 400 + 1) = true) as Hleap.
  { intros [_ H365]. apply leap_from_doy; [done|]. subst doy.
    clear -Hhi H365 Hy. unfold year_start in *. case_if; Z.div_mod_to_equations; lia. }
  clearbody m d doy doe yoe era. unfold valid_date, days_of_date, month_length.
  change (days_before_year 1970) with 719528. rewrite days_before_month_eq by done.
  subst w. split.
  - split; [done|]. destruct (Z.leb_spec m 2); repeat case_if; lia.
  - destruct (Z.leb_spec m 2); repeat case_if; lia.
Qed.

(** ** A date is determined by its day number *)

Lemma days_before_year_mono y n : days_before_year y <= days_before_year (y + Z.of_nat n).
Proof.
  induction n as [|n IH]; [by rewrite Z.add_0_r|].
  rewrite Nat2Z.inj_succ. replace (y + Z.succ (Z.of_nat n)) with (y + Z.of_nat n + 1) by lia.
  rewrite days_before_year_step. case_if; lia.
Qed.

(** The day of the year of a valid date. *)
Lemma day_of_year_bound y m d :
  valid_date y m d ->
  0 <= days_before_month y m + (d - 1) < days_before_year (y + 1) - days_before_year y.
Proof.
  intros [Hm Hd]. rewrite days_before_year_step, days_before_month_eq by done.
  unfold month_length in Hd. revert Hd. repeat case_if; intros; Z.div_mod_to_equations; lia.
Qed.

Lemma days_of_date_inj y1 m1 d1 y2 m2 d2 :
  valid_date y1 m1 d1 -> valid_date y2 m2 d2 -> days_of_date y1 m1 d1 = days_of_date y2 m2 d2 ->
  (y1, m1, d1) = (y2, m2, d2).
Proof.
  intros V1 V2 Heq. unfold days_of_date in Heq.
  pose proof (day_of_year_bound _ _ _ V1). pose proof (day_of_year_bound _ _ _ V2).
  assert (y1 = y2) as ->.
  { destruct (Z.lt_trichotomy y1 y2) as [Hlt|[Heqy|Hlt]]; [exfalso|done|exfalso].
    - pose proof (days_before_year_mono (y1 + 1) (Z.to_nat (y2 - (y1 + 1)))) as Hm.
      replace (y1 + 1 + Z.of_nat _) with y2 in Hm by lia. lia.
    - pose proof (days_before_year_mono (y2 + 1) (Z.to_nat (y1 - (y2 + 1)))) as Hm.
      replace (y2 + 1 + Z.of_nat _) with y1 in Hm by lia. lia. }
  destruct V1 as [Hm1 Hd1], V2 as [Hm2 Hd2]. rewrite !days_before_month_eq in * by done.
  assert (m1 = m2) as ->.
  { unfold month_length in *. revert Hd1 Hd2 Heq.
    destruct (leap y2); repeat case_if; intros; Z.div_mod_to_equations; lia. }
  repeat f_equal. lia.
Qed.

(** ** Texts *)

Lemma pad2_length n : 0 <= n < 100 -> String.length (pad 2 n) = 2%nat.
Proof.
  intros Hn. assert (forallb (fun n => Nat.eqb (String.length (pad 2 n)) 2) (seqZ 0 100) = true) as H
    by (vm_compute; reflexivity).
  rewrite forallb_forall in H. apply Nat.eqb_eq, H, list_elem_of_In, elem_of_seqZ. lia.
Qed.

Lemma string_length_app s t : String.length (s +:+ t) = (String.length s + String.length t)%nat.
Proof. induction s as [|c s IH]; [done|]. exact (f_equal S IH). Qed.

(** [hms_now] is always eight characters, [HH:MM:SS]. *)
Lemma hms_now_length secs : String.length (hms_now secs) = 8%nat.
Proof.
  unfold hms_now. rewrite !string_length_app, !pad2_length by (Z.div_mod_to_equations; lia). done.
Qed.

(** The example of the comment on [iso8601_now]. *)
Example iso8601_sample : iso8601_now 1783707042 = "2026-07-10T18:10:42Z"%string.
Proof. vm_compute. reflexivity. Qed.

(** ** Properties *)

(** [civil_from_days] computes the Gregorian calendar: for every day number of 62 bits the
    result is the one valid date whose day number (counted from 1970-01-01 with the leap year rule) it is. *)
Theorem civil_from_days_correct (z y m d : Z) :
  - 2 ^ 62 <= z < 2 ^ 62 ->
  civil_from_days z = (y, m, d) <-> valid_date y m d /\ days_of_date y m d = z.
Proof.
  intros Hz. pose proof (civil_from_days_sound z Hz) as Hs.
  destruct (civil_from_days z) as [[y' m'] d']. destruct Hs as [Hv Hd]. split.
  - intros Heq. by simplify_eq.
  - intros [Hv' Hd']. apply days_of_date_inj; [done|done|]. congruence.
Qed.

Lemma civil_from_days_correct_witness :
  civil_from_days 20644 = (2026, 7, 10) /\ days_of_date 2026 7 10 = 20644
  /\ civil_from_days (-1) = (1969, 12, 31).
Proof.
  assert (valid_date 2026 7 10 /\ days_of_date 2026 7 10 = 20644) as H1
    by (split; [vm_compute; repeat split; discriminate|reflexivity]).
  split; [apply (civil_from_days_correct 20644 2026 7 10); [lia|exact H1]|].
  split; [apply H1|]. apply (civil_from_days_correct (-1) 1969 12 31); [lia|].
  split; [vm_compute; repeat split; discriminate|reflexivity].
Defined.
