(* ===== verification/Bans.v ===== *)
(** The ban list of [src/src/anticheat.rs]: [BanEntry], [name_part] and [BanList] with its
    operations and its file.  A list entry bans or mutes a player by address or by name. *)

From stdpp Require Import base countable strings list.
From Stdlib Require Import ZArith Lia.
From S2P Require Import Prelude Text Calendar.
#[local] Open Scope string_scope.
#[local] Open Scope Z_scope.

Module BanList.

Record BanEntry := mkBanEntry {
  id : Z;
  kind : string;
  ip : option string;
  name : option string;
  display : string;
  reason : string;
  at_ : string;
}.

Definition default_kind : string := "ban".

(** The name without the "[id] " prefix the game puts before it. *)
Definition name_part (username : string) : string :=
  match find username "] " with
  | Some pos => trim (slice_from username (pos + 2))
  | None => trim username
  end.

Record BanList := mkBanList {
  bans : list BanEntry;
  next_id : Z;
  file : option string;
}.

Definition entry_matches (entry : BanEntry) (addr name_part : string) : bool :=
  match ip entry with
  | Some bip => if bool_decide (bip = addr) then true else false
  | None => false
  end ||
  match name entry with
  | Some bn => negb (is_empty bn) && eq_ignore_ascii_case bn name_part
  | None => false
  end.

Definition is_kind (k : string) (b : BanEntry) : bool := bool_decide (kind b = k).

(** [iter().find(..).map(|b| b.reason)]. *)
Definition is_banned (bl : BanList) (addr name_part : string) : option string :=
  reason <$> List.find (fun b => is_kind "ban" b && entry_matches b addr name_part) (bans bl).

Definition is_muted (bl : BanList) (addr name_part : string) : bool :=
  existsb (fun b => is_kind "mute" b && entry_matches b addr name_part) (bans bl).

Section persistence.
Context `{SerdeJson (list BanEntry)}.

(** [v.iter().map(|b| b.id).max().unwrap_or(0) + 1]. *)
Definition next_of (v : list BanEntry) : Z := as_u64 (foldr Z.max 0 (id <$> v) + 1).

Definition load (fs : FileSystem) (f : option string) : BanList :=
  match (path ← f; data ← read_file fs path; from_json data) with
  | Some v => {| bans := v; next_id := next_of v; file := f |}
  | None => {| bans := []; next_id := 1; file := f |}
  end.

Definition save (bl : BanList) (fs : FileSystem) : FileSystem :=
  match file bl with
  | Some path => write_file fs path (to_json (bans bl))
  | None => fs
  end.

Definition add (bl : BanList) (fs : FileSystem) (k : string) (addr name : option string)
    (display reason : string) (secs : Z) : BanList * FileSystem :=
  let entry := {| id := next_id bl; kind := k; ip := addr; name := name; display := display;
                  reason := reason; at_ := hms_now secs |} in
  let bl := {| bans := bans bl ++ [entry]; next_id := as_u64 (next_id bl + 1); file := file bl |} in
  (bl, save bl fs).

Definition retain (bl : BanList) (keep : BanEntry -> bool) : BanList :=
  {| bans := List.filter keep (bans bl); next_id := next_id bl; file := file bl |}.

Definition remove (bl : BanList) (fs : FileSystem) (i : Z) : BanList * FileSystem :=
  let bl := retain bl (fun b => negb (id b =? i)) in (bl, save bl fs).

Definition remove_matching (bl : BanList) (fs : FileSystem) (addr name_part k : string)
    : BanList * FileSystem :=
  let bl := retain bl (fun b => negb (is_kind k b && entry_matches b addr name_part)) in (bl, save bl fs).

Definition list_ (bl : BanList) : list BanEntry := bans bl.

(** ** Histories of the list: the operations in any order, and restarts of the server *)

Inductive BanOp :=
  | OpAdd (k : string) (addr name : option string) (display reason : string) (secs : Z)
  | OpRemove (i : Z)
  | OpRemoveMatching (addr np k : string)
  | OpRestart.

Definition run_op (op : BanOp) (s : BanList * FileSystem) : BanList * FileSystem :=
  let '(bl, fs) := s in
  match op with
  | OpAdd k addr name display reason secs => add bl fs k addr name display reason secs
  | OpRemove i => remove bl fs i
  | OpRemoveMatching addr np k => remove_matching bl fs addr np k
  | OpRestart => (load fs (file bl), fs)
  end.

Definition run_ops (ops : list BanOp) (s : BanList * FileSystem) : BanList * FileSystem :=
  fold_left (fun s op => run_op op s) ops s.

(** Identifiers are distinct and below the next one; the file holds the current list. *)
Record ban_inv (s : BanList * FileSystem) : Prop := {
  bi_ids : NoDup (id <$> bans s.1);
  bi_next i : i ∈ id <$> bans s.1 -> 0 <= i < next_id s.1;
  bi_pos : 0 < next_id s.1 < 2 ^ 64;
  bi_disk : is_Some (file s.1);
  bi_file path : file s.1 = Some path ->
    writable s.2 path = true /\ read_file s.2 path = Some (to_json (bans s.1));
}.

Lemma foldr_max_ge (l : list Z) i : i ∈ l -> i <= foldr Z.max 0 l.
Proof. induction 1; cbn; lia. Qed.

Lemma foldr_max_lt (l : list Z) n : 0 < n -> (forall i, i ∈ l -> i < n) -> 0 <= foldr Z.max 0 l < n.
Proof.
  intros Hn. induction l as [|x l IH]; cbn; intros Hl; [lia|].
  pose proof (Hl x ltac:(by left)). destruct IH; [|lia]. intros i Hi. apply Hl. by right.
Qed.

Lemma save_inv bl fs :
  (forall path, file bl = Some path -> writable fs path = true) ->
  forall path, file bl = Some path ->
    writable (save bl fs) path = true /\ read_file (save bl fs) path = Some (to_json (bans bl)).
Proof.
  intros Hw path Hp. unfold save. rewrite Hp, writable_write_file. split; [by apply Hw|].
  by apply read_write_file, Hw.
Qed.

Lemma filter_sublist {A} (P : A -> bool) (l : list A) : sublist (List.filter P l) l.
Proof. induction l as [|x l IH]; cbn; [constructor|]. case_if; by constructor. Qed.

Lemma retain_ids bl keep : sublist (id <$> bans (retain bl keep)) (id <$> bans bl).
Proof. apply fmap_sublist, filter_sublist. Qed.

(** Removing entries keeps the invariant, whatever is removed. *)
Lemma retain_inv bl fs keep :
  ban_inv (bl, fs) -> ban_inv (retain bl keep, save (retain bl keep) fs).
Proof.
  intros [Hid Hnx Hpos Hd Hf]. split; cbn [fst snd].
  - eapply sublist_NoDup; [done|apply retain_ids].
  - intros i Hi. apply Hnx. eapply elem_of_sublist; [done|apply retain_ids].
  - done.
  - done.
  - apply (save_inv (retain bl keep)). intros path Hp. by apply (Hf path).
Qed.

Lemma add_inv bl fs k addr nm display reason secs :
  next_id bl < 2 ^ 64 - 1 -> ban_inv (bl, fs) -> ban_inv (add bl fs k addr nm display reason secs).
Proof.
  intros Hlt [Hid Hnx Hpos Hd Hf]. cbn [fst snd] in *. unfold add. set (e := mkBanEntry _ _ _ _ _ _ _).
  set (bl' := {| bans := bans bl ++ [e] |}).
  assert (next_id bl' = next_id bl + 1) as Hn by (cbn; apply as_u64_small; unfold in_u; lia).
  assert (forall i, i ∈ id <$> bans bl' <-> i ∈ id <$> bans bl \/ i = next_id bl) as Hin.
  { intros i. cbn. rewrite fmap_app, elem_of_app. cbn. by rewrite list_elem_of_singleton. }
  split; cbn [fst snd].
  - cbn. rewrite fmap_app. apply NoDup_app. split; [done|]. split; [|apply NoDup_singleton].
    intros i Hi Hi'. cbn in Hi'. apply list_elem_of_singleton in Hi'. subst i. specialize (Hnx _ Hi). lia.
  - intros i [Hi| ->]%Hin; [specialize (Hnx i Hi)|]; lia.
  - lia.
  - done.
  - apply (save_inv bl'). intros path Hp. by apply (Hf path).
Qed.

Context `{!SerdeJsonLaws (list BanEntry)}.

(** A restart finds the same entries. *)
Lemma restart_bans bl fs :
  ban_inv (bl, fs) ->
  bans (load fs (file bl)) = bans bl /\ file (load fs (file bl)) = file bl
  /\ next_id (load fs (file bl)) <= next_id bl
  /\ ban_inv (load fs (file bl), fs).
Proof.
  intros [Hid Hnx Hpos [path Hp] Hf]. cbn [fst snd] in *. destruct (Hf path Hp) as [Hw Hr].
  assert (load fs (file bl) = {| bans := bans bl; next_id := next_of (bans bl); file := file bl |}) as Hl.
  { unfold load. rewrite Hp. cbn. rewrite Hr. cbn. by rewrite from_to_json. }
  pose proof (foldr_max_lt (id <$> bans bl) (next_id bl) ltac:(lia)) as Hmax.
  destruct Hmax as [H0 Hlt]; [intros i Hi; specialize (Hnx i Hi); lia|].
  assert (next_of (bans bl) = foldr Z.max 0 (id <$> bans bl) + 1) as Hnext
    by (apply as_u64_small; unfold in_u; lia).
  rewrite Hl. cbn. split; [done|]. split; [done|]. split; [lia|]. split; cbn [fst snd bans next_id file].
  - done.
  - intros i Hi. pose proof (foldr_max_ge _ _ Hi). specialize (Hnx i Hi). lia.
  - lia.
  - by eexists.
  - rewrite Hp. intros p [= <-]. done.
Qed.

(** Every operation keeps the invariant and hands out at most one identifier. *)
Lemma run_op_inv op s :
  next_id s.1 < 2 ^ 64 - 1 -> ban_inv s -> ban_inv (run_op op s) /\ next_id (run_op op s).1 <= next_id s.1 + 1.
Proof.
  destruct s as [bl fs]. intros Hlt Hinv. destruct op; cbn [run_op fst snd] in *.
  - split; [by apply add_inv|]. cbn. rewrite as_u64_small; [lia|].
    destruct Hinv as [_ _ Hpos _ _]. cbn in Hpos. unfold in_u. lia.
  - split; [by apply retain_inv|cbn; lia].
  - split; [by apply retain_inv|cbn; lia].
  - destruct (restart_bans bl fs Hinv) as (_ & _ & Hn & Hi). split; [done|lia].
Qed.

Lemma run_ops_inv ops s :
  next_id s.1 + Z.of_nat (length ops) < 2 ^ 64 -> ban_inv s -> ban_inv (run_ops ops s).
Proof.
  revert s. induction ops as [|op ops IH]; intros s Hlt Hinv; [done|]. cbn [run_ops fold_left].
  cbn [length] in Hlt. destruct (run_op_inv op s) as [Hi Hn]; [lia|done|].
  apply IH; [lia|done].
Qed.

(** The operations that lift an entry. *)
Definition lifts (e : BanEntry) (op : BanOp) : bool :=
  match op with
  | OpRemove i => id e =? i
  | OpRemoveMatching addr np k => is_kind k e && entry_matches e addr np
  | OpAdd _ _ _ _ _ _ | OpRestart => false
  end.

Lemma run_op_keeps op s e :
  ban_inv s -> e ∈ bans s.1 -> lifts e op = false -> e ∈ bans (run_op op s).1.
Proof.
  destruct s as [bl fs]. intros Hinv He Hl.
  assert (forall keep, keep e = true -> e ∈ bans (retain bl keep)) as Hk.
  { intros keep Hk. apply list_elem_of_In, filter_In. split; [by apply list_elem_of_In|done]. }
  destruct op; cbn [run_op fst snd lifts] in *.
  - cbn. apply elem_of_app. by left.
  - apply Hk. by rewrite Hl.
  - apply Hk. by rewrite Hl.
  - destruct (restart_bans bl fs Hinv) as (-> & _). done.
Qed.

Lemma run_ops_keeps ops s e :
  next_id s.1 + Z.of_nat (length ops) < 2 ^ 64 -> ban_inv s -> e ∈ bans s.1 ->
  Forall (fun op => lifts e op = false) ops -> e ∈ bans (run_ops ops s).1.
Proof.
  revert s. induction ops as [|op ops IH]; intros s Hlt Hinv He Hl; [done|].
  apply Forall_cons in Hl as [Hl Hls]. cbn [length] in Hlt.
  destruct (run_op_inv op s) as [Hi Hn]; [lia|done|]. cbn [run_ops fold_left].
  apply IH; [lia|done|by apply run_op_keeps|done].
Qed.
End persistence.

Lemma is_banned_spec bl addr np :
  is_Some (is_banned bl addr np) <->
  exists b, b ∈ bans bl /\ kind b = "ban" /\ entry_matches b addr np = true.
Proof.
  unfold is_banned. rewrite fmap_is_Some. split.
  - intros [b Hb]. apply find_some in Hb as [Hin Ht]. apply andb_true_iff in Ht as [Hk Hm].
    exists b. split; [by apply list_elem_of_In|]. split; [|done]. by apply bool_decide_eq_true in Hk.
  - intros (b & Hin & Hk & Hm). destruct (List.find _ (bans bl)) as [b'|] eqn:Hf; [done|].
    exfalso. eapply find_none in Hf; [|by apply list_elem_of_In].
    apply andb_false_iff in Hf as [Hf|Hf]; [|congruence]. unfold is_kind in Hf.
    by rewrite bool_decide_eq_true_2 in Hf.
Qed.

Lemma is_muted_spec bl addr np :
  is_muted bl addr np = true <->
  exists b, b ∈ bans bl /\ kind b = "mute" /\ entry_matches b addr np = true.
Proof.
  unfold is_muted. rewrite existsb_exists. setoid_rewrite andb_true_iff. unfold is_kind.
  setoid_rewrite bool_decide_eq_true. setoid_rewrite list_elem_of_In. done.
Qed.

(** Who an entry with an address and a name applies to. *)
Lemma entry_matches_spec e a n addr np :
  ip e = Some a -> name e = Some n ->
  entry_matches e addr np = true <-> addr = a \/ (n <> "" /\ eq_ignore_ascii_case n np = true).
Proof.
  intros Ha Hn. unfold entry_matches. rewrite Ha, Hn. rewrite orb_true_iff, andb_true_iff, negb_true_iff.
  case_bool_decide; destruct n; cbn; intuition congruence.
Qed.

#[global] Instance BanEntry_eq_dec : EqDecision BanEntry.
Proof. solve_decision. Defined.
#[global] Instance BanEntry_countable : Countable BanEntry.
Proof.
  refine (inj_countable'
    (fun e => (id e, kind e, ip e, name e, display e, reason e, at_ e))
    (fun t => let '(i, k, a, n, d, r, t) := t in mkBanEntry i k a n d r t) _).
  by intros [].
Defined.

(** ** Properties *)

(** C33.  A ban holds: once a player is banned by address and name, and whatever happens to the
    list afterwards (other bans and mutes, removals of other entries, unmutes, restarts of the server),
    every connection from that address, or under that name in any letter case, is refused,
    until the entry itself is lifted. *)
Theorem ban_holds `{SerdeJsonLaws (list BanEntry)} (bl : BanList) (fs : FileSystem)
    (addr nm display reason : string) (secs : Z) (ops : list BanOp) (addr' np' : string) :
  ban_inv (bl, fs) -> next_id bl + 1 + Z.of_nat (length ops) < 2 ^ 64 ->
  let s := add bl fs "ban" (Some addr) (Some nm) display reason secs in
  let e := mkBanEntry (next_id bl) "ban" (Some addr) (Some nm) display reason (hms_now secs) in
  Forall (fun op => lifts e op = false) ops ->
  addr' = addr \/ (nm <> "" /\ eq_ignore_ascii_case nm np' = true) ->
  is_Some (is_banned (run_ops ops s).1 addr' np').
Proof.
  intros Hinv Hlt s e Hl Hm. apply is_banned_spec. exists e.
  assert (ban_inv s) as Hs by (apply add_inv; [lia|done]).
  assert (next_id s.1 = next_id bl + 1) as Hn.
  { cbn. apply as_u64_small. destruct Hinv as [_ _ Hpos _ _]. cbn in Hpos. unfold in_u. lia. }
  split; [|split; [done|by apply (entry_matches_spec e addr nm)]].
  apply run_ops_keeps; [rewrite Hn; lia|done| |done]. cbn. apply elem_of_app. right. by left.
Qed.

Definition sample_fs : FileSystem := {|
  files p := if bool_decide (p = "bans.json") then Some (@to_json _ bits_json (@nil BanEntry)) else None;
  writable _ := true;
|}.
Definition sample_bans : BanList := {| bans := []; next_id := 1; file := Some "bans.json" |}.

Lemma sample_bans_inv : @ban_inv bits_json (sample_bans, sample_fs).
Proof.
  split; cbn [fst snd]; [constructor|intros i Hi; by apply not_elem_of_nil in Hi|cbn; lia|by eexists|].
  intros path [= <-]. split; reflexivity.
Qed.

Lemma ban_holds_witness :
  is_Some (is_banned
    (@run_ops bits_json [OpAdd "mute" (Some "10.0.0.9") (Some "Other") "Other" "noise" 7; OpRemove 2;
       OpRestart; OpRemoveMatching "10.0.0.1" "ReviewB" "mute"]
      (@add bits_json sample_bans sample_fs "ban" (Some "10.0.0.1") (Some "ReviewB") "[36] ReviewB" "spam" 0)).1
    "192.168.7.7" (name_part "[99] REVIEWb ")).
Proof.
  apply (@ban_holds bits_json bits_json_laws sample_bans sample_fs "10.0.0.1" "ReviewB" "[36] ReviewB" "spam" 0);
    [exact sample_bans_inv|cbn; lia|repeat constructor|right; split; [done|vm_compute; reflexivity]].
Defined.

(** Unblocking: removing the entries of a kind that match a player removes all of them, so a
    player unblocked from the panel is not muted at the next connection, and no entry of another kind is
    touched: who is banned does not change. *)
Theorem unblock_exact `{SerdeJson (list BanEntry)} (bl : BanList) (fs : FileSystem) (addr np : string) :
  let bl' := (remove_matching bl fs addr np "mute").1 in
  is_muted bl' addr np = false
  /\ forall addr' np', is_banned bl' addr' np' = is_banned bl addr' np'.
Proof.
  intros bl'. split.
  - apply not_true_is_false. rewrite is_muted_spec. intros (b & Hb & Hk & Hm).
    apply list_elem_of_In, filter_In in Hb as [_ Hb]. unfold is_kind in Hb.
    by rewrite bool_decide_eq_true_2, Hm in Hb.
  - intros addr' np'. unfold is_banned, bl'. cbn. f_equal.
    induction (bans bl) as [|b l IH]; [done|]. cbn [List.filter List.find].
    destruct (is_kind "mute" b) eqn:Hmute; cbn [andb].
    + assert (is_kind "ban" b = false) as ->.
      { unfold is_kind in *. apply bool_decide_eq_true in Hmute. rewrite Hmute. reflexivity. }
      case_if; [|done]. cbn [List.find andb]. unfold is_kind at 1. apply bool_decide_eq_true in Hmute.
      rewrite Hmute. done.
    + cbn [negb List.find]. by rewrite IH.
Qed.

(** Identifiers name entries: over any history with restarts they stay distinct and below the next one, and
    [remove] deletes exactly the entry that carries the identifier. *)
Theorem ban_ids_unique `{SerdeJsonLaws (list BanEntry)} (s : BanList * FileSystem) (ops : list BanOp) (i : Z) :
  ban_inv s -> next_id s.1 + Z.of_nat (length ops) < 2 ^ 64 ->
  let '(bl, fs) := run_ops ops s in
  NoDup (id <$> bans bl)
  /\ forall e e', e ∈ bans bl -> id e = i -> (e' ∈ bans (remove bl fs i).1 <-> e' ∈ bans bl /\ e' <> e).
Proof.
  intros Hinv Hlt. pose proof (run_ops_inv ops s Hlt Hinv) as Hi.
  destruct (run_ops ops s) as [bl fs]. destruct Hi as [Hnd _ _ _ _]. cbn [fst] in Hnd. split; [done|].
  intros e e' He Hid. cbn. rewrite list_elem_of_In, filter_In, <-list_elem_of_In, negb_true_iff, Z.eqb_neq.
  split; intros [Hin Hne]; (split; [done|]); [congruence|]. intros Heq. apply Hne.
  apply list_elem_of_lookup in He as [j Hj]. apply list_elem_of_lookup in Hin as [j' Hj'].
  assert (j' = j) as ->; [|congruence].
  eapply NoDup_lookup; [exact Hnd| |]; rewrite list_lookup_fmap, ?Hj, ?Hj'; cbn; [done|congruence].
Qed.

Lemma ban_ids_unique_witness :
  NoDup (id <$> bans (@run_ops bits_json
    [OpAdd "ban" None (Some "A") "A" "r" 0; OpAdd "mute" None (Some "B") "B" "r" 0; OpRestart; OpRemove 1;
     OpAdd "ban" None (Some "C") "C" "r" 0] (sample_bans, sample_fs)).1).
Proof.
  pose proof (@ban_ids_unique bits_json bits_json_laws (sample_bans, sample_fs)
    [OpAdd "ban" None (Some "A") "A" "r" 0; OpAdd "mute" None (Some "B") "B" "r" 0; OpRestart; OpRemove 1;
     OpAdd "ban" None (Some "C") "C" "r" 0] 3 sample_bans_inv ltac:(cbn; lia)) as H.
  destruct (run_ops _ _) as [bl fs]. exact (proj1 H).
Defined.

End BanList.
