(* ===== verification/Client.v ===== *)
(** A connected client: [src/src/client.rs], with the queue element of [src/src/message/mod.rs], the voice
    target of [src/src/target.rs] and the constants of [src/src/server/constants.rs].

    The functions below act on the client's value; the shared object of the code ([Arc<Client>] with
    atomics and locks in its fields) is a cell of the heap in [State.v] that holds such a value. *)

From stdpp Require Import base gmap strings pretty list.
From Stdlib Require Import ZArith Lia.
From S2P Require Import Prelude Errors Voice Float32 Messages Crypt Proto.

(** ** Time: instants and durations in nanoseconds; [duration_since] saturates at zero *)

Definition secs (n : Z) : Z := n * 1000000000.
Definition since (now t : Z) : Z := Z.max 0 (now - t).
Definition as_secs (d : Z) : Z := d / 1000000000.
Definition as_millis (d : Z) : Z := d / 1000000.

Abbreviation SocketAddr := (string * Z)%type.

(** ** [server/constants.rs] *)

Definition MAX_CLIENTS : Z := 4096.
Definition MAX_BANDWIDTH_IN_BITS : Z := 144000.

(** The message types exchanged with clients, each with its protobuf codec. *)
Class MumbleProto := {
  proto_version :: ProtoMessage VersionMsg.Version;
  proto_authenticate :: ProtoMessage AuthenticateMsg.Authenticate;
  proto_ping :: ProtoMessage PingMsg.Ping;
  proto_server_sync :: ProtoMessage ServerSyncMsg.ServerSync;
  proto_channel_remove :: ProtoMessage ChannelRemoveMsg.ChannelRemove;
  proto_channel_state :: ProtoMessage ChannelStateMsg.ChannelState;
  proto_user_remove :: ProtoMessage UserRemoveMsg.UserRemove;
  proto_user_state :: ProtoMessage UserStateMsg.UserState;
  proto_crypt_setup :: ProtoMessage CryptSetupMsg.CryptSetup;
  proto_voice_target :: ProtoMessage VoiceTargetMsg.VoiceTarget;
  proto_permission_query :: ProtoMessage PermissionQueryMsg.PermissionQuery;
  proto_codec_version :: ProtoMessage CodecVersionMsg.CodecVersion;
  proto_user_stats :: ProtoMessage UserStatsMsg.UserStats;
  proto_server_config :: ProtoMessage ServerConfigMsg.ServerConfig;
}.

(** ** [ClientMessage] and the bounded channel that carries it *)

Inductive ClientMessage :=
  | RouteVoicePacket (packet : VoicePacket ClientBound)
  | SendVoicePacket (packet : VoicePacket ClientBound)
  | SendMessage (kind : MessageKind.MessageKind) (payload : list Z).

(** [mpsc::channel(4096)]: the queue, and whether the receiver closed it. *)
Record Publisher := mkPublisher {
  queue : list ClientMessage;
  closed : bool;
}.

Definition CHANNEL_CAPACITY : nat := 4096.

(** [try_send]: [None] when the channel is full or closed. *)
Definition try_send (p : Publisher) (m : ClientMessage) : option Publisher :=
  if closed p then None
  else if decide (length (queue p) < CHANNEL_CAPACITY)%nat
  then Some {| queue := queue p ++ [m]; closed := false |}
  else None.

(** [recv] on a non-empty queue. *)
Definition recv (p : Publisher) : option (ClientMessage * Publisher) :=
  match queue p with
  | [] => None
  | m :: q => Some (m, {| queue := q; closed := closed p |})
  end.

(** ** [VoiceTarget] *)

Record VoiceTarget := mkVoiceTarget {
  sessions : gmap Z unit;
  target_channels : gmap Z unit;
}.

Definition default_voice_target : VoiceTarget := {| sessions := ∅; target_channels := ∅ |}.

(** ** Client *)

Module Client.

Record NetStats := mkNetStats {
  udp_packets : Z;
  tcp_packets : Z;
  udp_ping_avg : f32;
  udp_ping_var : f32;
  tcp_ping_avg : f32;
  tcp_ping_var : f32;
}.

Definition default_net_stats : NetStats := mkNetStats 0 0 f32_zero f32_zero f32_zero f32_zero.

(** [HeardEntry] of [anticheat.rs]. *)
Record HeardEntry := mkHeardEntry {
  heard_session_id : Z;
  heard_name : string;
  heard_ip : string;
  heard_last : Z;
  heard_secs_total : Z;
}.

(** An entry of [ac_pos_hist]: instant, position, whether it is a return. *)
Record PosAnchor := mkPosAnchor {
  anchor_time : Z;
  anchor_pos : f32 * f32 * f32;
  anchor_return : bool;
}.

(** The fields that never change after [Client::new]. *)
Record ClientIdentity := mkClientIdentity {
  id_name : string;
  id_log_name : string;
  id_authenticate : AuthenticateMsg.Authenticate;
  id_session_id : Z;
  id_peer_ip : string;
  id_version_release : string;
  id_version_str : string;
  id_version_os : string;
}.

(** The write half of the TLS stream: what was written, and whether it fails. *)
Record Writer := mkWriter {
  sent : list Z;
  broken : bool;
}.

(** The [ac_*] fields. *)
Record AcState := mkAcState {
  ac_score : Z;
  ac_max_recipients : Z;
  ac_flags : Z;
  ac_last_flag : Z;
  ac_exempt : bool;
  ac_reach_instant : Z;
  ac_reach_window : Z;
  ac_mutuality : Z;
  ac_strikes : Z;
  ac_listen_count : Z;
  ac_window : gmap Z Z;
  ac_last_webhook : Z;
  ac_pos : f32 * f32 * f32;
  ac_has_pos : bool;
  ac_last_pos_time : Z;
  ac_pos_jumps : Z;
  ac_max_speed : f32;
  ac_pos_hist : list PosAnchor;
  ac_far_targets : Z;
  ac_heard : gmap string HeardEntry;
  ac_last_heard_rec : Z;
}.

Definition set_ac_score (c : AcState) (v : Z) : AcState :=
  mkAcState v (ac_max_recipients c) (ac_flags c) (ac_last_flag c) (ac_exempt c)
    (ac_reach_instant c) (ac_reach_window c) (ac_mutuality c) (ac_strikes c) (ac_listen_count c)
    (ac_window c) (ac_last_webhook c) (ac_pos c) (ac_has_pos c) (ac_last_pos_time c)
    (ac_pos_jumps c) (ac_max_speed c) (ac_pos_hist c) (ac_far_targets c) (ac_heard c)
    (ac_last_heard_rec c).
Definition set_ac_max_recipients (c : AcState) (v : Z) : AcState :=
  mkAcState (ac_score c) v (ac_flags c) (ac_last_flag c) (ac_exempt c) (ac_reach_instant c)
    (ac_reach_window c) (ac_mutuality c) (ac_strikes c) (ac_listen_count c) (ac_window c)
    (ac_last_webhook c) (ac_pos c) (ac_has_pos c) (ac_last_pos_time c) (ac_pos_jumps c)
    (ac_max_speed c) (ac_pos_hist c) (ac_far_targets c) (ac_heard c) (ac_last_heard_rec c).
Definition set_ac_flags (c : AcState) (v : Z) : AcState :=
  mkAcState (ac_score c) (ac_max_recipients c) v (ac_last_flag c) (ac_exempt c)
    (ac_reach_instant c) (ac_reach_window c) (ac_mutuality c) (ac_strikes c) (ac_listen_count c)
    (ac_window c) (ac_last_webhook c) (ac_pos c) (ac_has_pos c) (ac_last_pos_time c)
    (ac_pos_jumps c) (ac_max_speed c) (ac_pos_hist c) (ac_far_targets c) (ac_heard c)
    (ac_last_heard_rec c).
Definition set_ac_last_flag (c : AcState) (v : Z) : AcState :=
  mkAcState (ac_score c) (ac_max_recipients c) (ac_flags c) v (ac_exempt c) (ac_reach_instant c)
    (ac_reach_window c) (ac_mutuality c) (ac_strikes c) (ac_listen_count c) (ac_window c)
    (ac_last_webhook c) (ac_pos c) (ac_has_pos c) (ac_last_pos_time c) (ac_pos_jumps c)
    (ac_max_speed c) (ac_pos_hist c) (ac_far_targets c) (ac_heard c) (ac_last_heard_rec c).
Definition set_ac_exempt (c : AcState) (v : bool) : AcState :=
  mkAcState (ac_score c) (ac_max_recipients c) (ac_flags c) (ac_last_flag c) v
    (ac_reach_instant c) (ac_reach_window c) (ac_mutuality c) (ac_strikes c) (ac_listen_count c)
    (ac_window c) (ac_last_webhook c) (ac_pos c) (ac_has_pos c) (ac_last_pos_time c)
    (ac_pos_jumps c) (ac_max_speed c) (ac_pos_hist c) (ac_far_targets c) (ac_heard c)
    (ac_last_heard_rec c).
Definition set_ac_reach_instant (c : AcState) (v : Z) : AcState :=
  mkAcState (ac_score c) (ac_max_recipients c) (ac_flags c) (ac_last_flag c) (ac_exempt c) v
    (ac_reach_window c) (ac_mutuality c) (ac_strikes c) (ac_listen_count c) (ac_window c)
    (ac_last_webhook c) (ac_pos c) (ac_has_pos c) (ac_last_pos_time c) (ac_pos_jumps c)
    (ac_max_speed c) (ac_pos_hist c) (ac_far_targets c) (ac_heard c) (ac_last_heard_rec c).
Definition set_ac_reach_window (c : AcState) (v : Z) : AcState :=
  mkAcState (ac_score c) (ac_max_recipients c) (ac_flags c) (ac_last_flag c) (ac_exempt c)
    (ac_reach_instant c) v (ac_mutuality c) (ac_strikes c) (ac_listen_count c) (ac_window c)
    (ac_last_webhook c) (ac_pos c) (ac_has_pos c) (ac_last_pos_time c) (ac_pos_jumps c)
    (ac_max_speed c) (ac_pos_hist c) (ac_far_targets c) (ac_heard c) (ac_last_heard_rec c).
Definition set_ac_mutuality (c : AcState) (v : Z) : AcState :=
  mkAcState (ac_score c) (ac_max_recipients c) (ac_flags c) (ac_last_flag c) (ac_exempt c)
    (ac_reach_instant c) (ac_reach_window c) v (ac_strikes c) (ac_listen_count c) (ac_window c)
    (ac_last_webhook c) (ac_pos c) (ac_has_pos c) (ac_last_pos_time c) (ac_pos_jumps c)
    (ac_max_speed c) (ac_pos_hist c) (ac_far_targets c) (ac_heard c) (ac_last_heard_rec c).
Definition set_ac_strikes (c : AcState) (v : Z) : AcState :=
  mkAcState (ac_score c) (ac_max_recipients c) (ac_flags c) (ac_last_flag c) (ac_exempt c)
    (ac_reach_instant c) (ac_reach_window c) (ac_mutuality c) v (ac_listen_count c) (ac_window c)
    (ac_last_webhook c) (ac_pos c) (ac_has_pos c) (ac_last_pos_time c) (ac_pos_jumps c)
    (ac_max_speed c) (ac_pos_hist c) (ac_far_targets c) (ac_heard c) (ac_last_heard_rec c).
Definition set_ac_listen_count (c : AcState) (v : Z) : AcState :=
  mkAcState (ac_score c) (ac_max_recipients c) (ac_flags c) (ac_last_flag c) (ac_exempt c)
    (ac_reach_instant c) (ac_reach_window c) (ac_mutuality c) (ac_strikes c) v (ac_window c)
    (ac_last_webhook c) (ac_pos c) (ac_has_pos c) (ac_last_pos_time c) (ac_pos_jumps c)
    (ac_max_speed c) (ac_pos_hist c) (ac_far_targets c) (ac_heard c) (ac_last_heard_rec c).
Definition set_ac_window (c : AcState) (v : gmap Z Z) : AcState :=
  mkAcState (ac_score c) (ac_max_recipients c) (ac_flags c) (ac_last_flag c) (ac_exempt c)
    (ac_reach_instant c) (ac_reach_window c) (ac_mutuality c) (ac_strikes c) (ac_listen_count c) v
    (ac_last_webhook c) (ac_pos c) (ac_has_pos c) (ac_last_pos_time c) (ac_pos_jumps c)
    (ac_max_speed c) (ac_pos_hist c) (ac_far_targets c) (ac_heard c) (ac_last_heard_rec c).
Definition set_ac_last_webhook (c : AcState) (v : Z) : AcState :=
  mkAcState (ac_score c) (ac_max_recipients c) (ac_flags c) (ac_last_flag c) (ac_exempt c)
    (ac_reach_instant c) (ac_reach_window c) (ac_mutuality c) (ac_strikes c) (ac_listen_count c)
    (ac_window c) v (ac_pos c) (ac_has_pos c) (ac_last_pos_time c) (ac_pos_jumps c)
    (ac_max_speed c) (ac_pos_hist c) (ac_far_targets c) (ac_heard c) (ac_last_heard_rec c).
Definition set_ac_pos (c : AcState) (v : f32 * f32 * f32) : AcState :=
  mkAcState (ac_score c) (ac_max_recipients c) (ac_flags c) (ac_last_flag c) (ac_exempt c)
    (ac_reach_instant c) (ac_reach_window c) (ac_mutuality c) (ac_strikes c) (ac_listen_count c)
    (ac_window c) (ac_last_webhook c) v (ac_has_pos c) (ac_last_pos_time c) (ac_pos_jumps c)
    (ac_max_speed c) (ac_pos_hist c) (ac_far_targets c) (ac_heard c) (ac_last_heard_rec c).
Definition set_ac_has_pos (c : AcState) (v : bool) : AcState :=
  mkAcState (ac_score c) (ac_max_recipients c) (ac_flags c) (ac_last_flag c) (ac_exempt c)
    (ac_reach_instant c) (ac_reach_window c) (ac_mutuality c) (ac_strikes c) (ac_listen_count c)
    (ac_window c) (ac_last_webhook c) (ac_pos c) v (ac_last_pos_time c) (ac_pos_jumps c)
    (ac_max_speed c) (ac_pos_hist c) (ac_far_targets c) (ac_heard c) (ac_last_heard_rec c).
Definition set_ac_last_pos_time (c : AcState) (v : Z) : AcState :=
  mkAcState (ac_score c) (ac_max_recipients c) (ac_flags c) (ac_last_flag c) (ac_exempt c)
    (ac_reach_instant c) (ac_reach_window c) (ac_mutuality c) (ac_strikes c) (ac_listen_count c)
    (ac_window c) (ac_last_webhook c) (ac_pos c) (ac_has_pos c) v (ac_pos_jumps c)
    (ac_max_speed c) (ac_pos_hist c) (ac_far_targets c) (ac_heard c) (ac_last_heard_rec c).
Definition set_ac_pos_jumps (c : AcState) (v : Z) : AcState :=
  mkAcState (ac_score c) (ac_max_recipients c) (ac_flags c) (ac_last_flag c) (ac_exempt c)
    (ac_reach_instant c) (ac_reach_window c) (ac_mutuality c) (ac_strikes c) (ac_listen_count c)
    (ac_window c) (ac_last_webhook c) (ac_pos c) (ac_has_pos c) (ac_last_pos_time c) v
    (ac_max_speed c) (ac_pos_hist c) (ac_far_targets c) (ac_heard c) (ac_last_heard_rec c).
Definition set_ac_max_speed (c : AcState) (v : f32) : AcState :=
  mkAcState (ac_score c) (ac_max_recipients c) (ac_flags c) (ac_last_flag c) (ac_exempt c)
    (ac_reach_instant c) (ac_reach_window c) (ac_mutuality c) (ac_strikes c) (ac_listen_count c)
    (ac_window c) (ac_last_webhook c) (ac_pos c) (ac_has_pos c) (ac_last_pos_time c)
    (ac_pos_jumps c) v (ac_pos_hist c) (ac_far_targets c) (ac_heard c) (ac_last_heard_rec c).
Definition set_ac_pos_hist (c : AcState) (v : list PosAnchor) : AcState :=
  mkAcState (ac_score c) (ac_max_recipients c) (ac_flags c) (ac_last_flag c) (ac_exempt c)
    (ac_reach_instant c) (ac_reach_window c) (ac_mutuality c) (ac_strikes c) (ac_listen_count c)
    (ac_window c) (ac_last_webhook c) (ac_pos c) (ac_has_pos c) (ac_last_pos_time c)
    (ac_pos_jumps c) (ac_max_speed c) v (ac_far_targets c) (ac_heard c) (ac_last_heard_rec c).
Definition set_ac_far_targets (c : AcState) (v : Z) : AcState :=
  mkAcState (ac_score c) (ac_max_recipients c) (ac_flags c) (ac_last_flag c) (ac_exempt c)
    (ac_reach_instant c) (ac_reach_window c) (ac_mutuality c) (ac_strikes c) (ac_listen_count c)
    (ac_window c) (ac_last_webhook c) (ac_pos c) (ac_has_pos c) (ac_last_pos_time c)
    (ac_pos_jumps c) (ac_max_speed c) (ac_pos_hist c) v (ac_heard c) (ac_last_heard_rec c).
Definition set_ac_heard (c : AcState) (v : gmap string HeardEntry) : AcState :=
  mkAcState (ac_score c) (ac_max_recipients c) (ac_flags c) (ac_last_flag c) (ac_exempt c)
    (ac_reach_instant c) (ac_reach_window c) (ac_mutuality c) (ac_strikes c) (ac_listen_count c)
    (ac_window c) (ac_last_webhook c) (ac_pos c) (ac_has_pos c) (ac_last_pos_time c)
    (ac_pos_jumps c) (ac_max_speed c) (ac_pos_hist c) (ac_far_targets c) v (ac_last_heard_rec c).
Definition set_ac_last_heard_rec (c : AcState) (v : Z) : AcState :=
  mkAcState (ac_score c) (ac_max_recipients c) (ac_flags c) (ac_last_flag c) (ac_exempt c)
    (ac_reach_instant c) (ac_reach_window c) (ac_mutuality c) (ac_strikes c) (ac_listen_count c)
    (ac_window c) (ac_last_webhook c) (ac_pos c) (ac_has_pos c) (ac_last_pos_time c)
    (ac_pos_jumps c) (ac_max_speed c) (ac_pos_hist c) (ac_far_targets c) (ac_heard c) v.

Record Client := mkClient {
  identity : ClientIdentity;
  net_stats : NetStats;
  channel_id : Z;
  mute : bool;
  deaf : bool;
  write : option Writer;
  crypt_state : CryptState;
  udp_socket_addr : option SocketAddr;
  cancelled : bool;
  publisher : Publisher;
  targets : list VoiceTarget;
  last_tcp_ping : Z;
  last_udp_ping : Z;
  bad_net_count : Z;
  ac : AcState;
}.

Definition set_identity (c : Client) (v : ClientIdentity) : Client :=
  mkClient v (net_stats c) (channel_id c) (mute c) (deaf c) (write c) (crypt_state c)
    (udp_socket_addr c) (cancelled c) (publisher c) (targets c) (last_tcp_ping c)
    (last_udp_ping c) (bad_net_count c) (ac c).
Definition set_net_stats (c : Client) (v : NetStats) : Client :=
  mkClient (identity c) v (channel_id c) (mute c) (deaf c) (write c) (crypt_state c)
    (udp_socket_addr c) (cancelled c) (publisher c) (targets c) (last_tcp_ping c)
    (last_udp_ping c) (bad_net_count c) (ac c).
Definition set_channel_id (c : Client) (v : Z) : Client :=
  mkClient (identity c) (net_stats c) v (mute c) (deaf c) (write c) (crypt_state c)
    (udp_socket_addr c) (cancelled c) (publisher c) (targets c) (last_tcp_ping c)
    (last_udp_ping c) (bad_net_count c) (ac c).
Definition set_mute (c : Client) (v : bool) : Client :=
  mkClient (identity c) (net_stats c) (channel_id c) v (deaf c) (write c) (crypt_state c)
    (udp_socket_addr c) (cancelled c) (publisher c) (targets c) (last_tcp_ping c)
    (last_udp_ping c) (bad_net_count c) (ac c).
Definition set_deaf (c : Client) (v : bool) : Client :=
  mkClient (identity c) (net_stats c) (channel_id c) (mute c) v (write c) (crypt_state c)
    (udp_socket_addr c) (cancelled c) (publisher c) (targets c) (last_tcp_ping c)
    (last_udp_ping c) (bad_net_count c) (ac c).
Definition set_write (c : Client) (v : option Writer) : Client :=
  mkClient (identity c) (net_stats c) (channel_id c) (mute c) (deaf c) v (crypt_state c)
    (udp_socket_addr c) (cancelled c) (publisher c) (targets c) (last_tcp_ping c)
    (last_udp_ping c) (bad_net_count c) (ac c).
Definition set_crypt_state (c : Client) (v : CryptState) : Client :=
  mkClient (identity c) (net_stats c) (channel_id c) (mute c) (deaf c) (write c) v
    (udp_socket_addr c) (cancelled c) (publisher c) (targets c) (last_tcp_ping c)
    (last_udp_ping c) (bad_net_count c) (ac c).
Definition set_udp_socket_addr (c : Client) (v : option SocketAddr) : Client :=
  mkClient (identity c) (net_stats c) (channel_id c) (mute c) (deaf c) (write c) (crypt_state c) v
    (cancelled c) (publisher c) (targets c) (last_tcp_ping c) (last_udp_ping c) (bad_net_count c)
    (ac c).
Definition set_cancelled (c : Client) (v : bool) : Client :=
  mkClient (identity c) (net_stats c) (channel_id c) (mute c) (deaf c) (write c) (crypt_state c)
    (udp_socket_addr c) v (publisher c) (targets c) (last_tcp_ping c) (last_udp_ping c)
    (bad_net_count c) (ac c).
Definition set_publisher (c : Client) (v : Publisher) : Client :=
  mkClient (identity c) (net_stats c) (channel_id c) (mute c) (deaf c) (write c) (crypt_state c)
    (udp_socket_addr c) (cancelled c) v (targets c) (last_tcp_ping c) (last_udp_ping c)
    (bad_net_count c) (ac c).
Definition set_targets (c : Client) (v : list VoiceTarget) : Client :=
  mkClient (identity c) (net_stats c) (channel_id c) (mute c) (deaf c) (write c) (crypt_state c)
    (udp_socket_addr c) (cancelled c) (publisher c) v (last_tcp_ping c) (last_udp_ping c)
    (bad_net_count c) (ac c).
Definition set_last_tcp_ping (c : Client) (v : Z) : Client :=
  mkClient (identity c) (net_stats c) (channel_id c) (mute c) (deaf c) (write c) (crypt_state c)
    (udp_socket_addr c) (cancelled c) (publisher c) (targets c) v (last_udp_ping c)
    (bad_net_count c) (ac c).
Definition set_last_udp_ping (c : Client) (v : Z) : Client :=
  mkClient (identity c) (net_stats c) (channel_id c) (mute c) (deaf c) (write c) (crypt_state c)
    (udp_socket_addr c) (cancelled c) (publisher c) (targets c) (last_tcp_ping c) v
    (bad_net_count c) (ac c).
Definition set_bad_net_count (c : Client) (v : Z) : Client :=
  mkClient (identity c) (net_stats c) (channel_id c) (mute c) (deaf c) (write c) (crypt_state c)
    (udp_socket_addr c) (cancelled c) (publisher c) (targets c) (last_tcp_ping c)
    (last_udp_ping c) v (ac c).
Definition set_ac (c : Client) (v : AcState) : Client :=
  mkClient (identity c) (net_stats c) (channel_id c) (mute c) (deaf c) (write c) (crypt_state c)
    (udp_socket_addr c) (cancelled c) (publisher c) (targets c) (last_tcp_ping c)
    (last_udp_ping c) (bad_net_count c) v.

Definition session_id (c : Client) : Z := id_session_id (identity c).
Definition peer_ip (c : Client) : string := id_peer_ip (identity c).
Definition get_name (c : Client) : string := id_name (identity c).
Definition authenticate (c : Client) : AuthenticateMsg.Authenticate := id_authenticate (identity c).
Definition is_muted (c : Client) : bool := mute c.
Definition is_deaf (c : Client) : bool := deaf c.

Definition version_string (ver : Z) : string :=
  pretty (Z.shiftr ver 16) +:+ "." +:+ pretty (Z.land (Z.shiftr ver 8) 255) +:+ "."
  +:+ pretty (Z.land ver 255).

(** [Client::new], at the instant [now]. *)
Definition new (version : VersionMsg.Version) (authenticate : AuthenticateMsg.Authenticate)
    (session_id channel_id : Z) (crypt_state : CryptState) (write : Writer) (publisher : Publisher)
    (peer_ip : string) (now : Z) : Client :=
  let username := get_str (AuthenticateMsg.username authenticate) in
  {| identity :=
       {| id_name := username;
          id_log_name := username +:+ " [session id: " +:+ pretty session_id +:+ "]";
          id_authenticate := authenticate;
          id_session_id := session_id;
          id_peer_ip := peer_ip;
          id_version_release := get_str (VersionMsg.release version);
          id_version_str := version_string (get_num (VersionMsg.version version));
          id_version_os := get_str (VersionMsg.os version) |};
     net_stats := default_net_stats;
     channel_id := channel_id;
     mute := false;
     deaf := false;
     write := Some write;
     crypt_state := crypt_state;
     udp_socket_addr := None;
     cancelled := false;
     publisher := publisher;
     targets := replicate 30 default_voice_target;
     last_tcp_ping := now;
     last_udp_ping := now;
     bad_net_count := 0;
     ac :=
       {| ac_score := 0; ac_max_recipients := 0; ac_flags := 0; ac_last_flag := now;
          ac_exempt := false; ac_reach_instant := 0; ac_reach_window := 0; ac_mutuality := 255;
          ac_strikes := 0; ac_listen_count := 0; ac_window := ∅;
          ac_last_webhook := now - secs 3600; ac_pos := (f32_zero, f32_zero, f32_zero);
          ac_has_pos := false; ac_last_pos_time := now; ac_pos_jumps := 0;
          ac_max_speed := f32_zero; ac_pos_hist := []; ac_far_targets := 0; ac_heard := ∅;
          ac_last_heard_rec := now - secs 3600 |} |}.

(** [(id - 1) as usize] wraps for the id 0, and the index is then out of range. *)
Definition target_index (id : Z) : nat := Z.to_nat (as_u8 (id - 1)).
Definition get_target (c : Client) (id : Z) : option VoiceTarget := targets c !! target_index id.

(** [send]: a cancelled client or one whose writer was taken refuses; a broken stream is an I/O
    error.  When the token is cancelled while the writer is available [select!] may take either branch;
    the model takes the cancellation. *)
Definition send (c : Client) (data : list Z) : Client * Result MumbleError unit :=
  if cancelled c then (c, Err WritterShutDown) else
  match write c with
  | None => (c, Err WritterShutDown)
  | Some w =>
    if broken w then (c, Err (MumbleIo BrokenPipe))
    else (set_write c (Some {| sent := sent w ++ data; broken := false |}), Ok tt)
  end.

Definition send_message {T} `{ProtoMessage T} (c : Client) (kind : MessageKind.MessageKind) (message : T)
    : Client * Result MumbleError unit :=
  match message_to_bytes kind message with
  | Err e => (c, Err e)
  | Ok bytes => send c bytes
  end.

Definition send_message_raw (c : Client) (kind : MessageKind.MessageKind) (buffer : list Z)
    : Client * Result MumbleError unit :=
  send c (get_mumble_buffer kind buffer).

(** The address taken out of the client, and the client without it. *)
Definition remove_udp_socket (c : Client) : Client * option SocketAddr :=
  (set_udp_socket_addr c None, udp_socket_addr c).

Definition update (c : Client) (state : UserStateMsg.UserState) : Client :=
  let c := if has (UserStateMsg.mute state) then set_mute c (get_bool (UserStateMsg.mute state)) else c in
  if has (UserStateMsg.deaf state) then set_deaf c (get_bool (UserStateMsg.deaf state)) else c.

Definition join_channel (c : Client) (id : Z) : Client * option Z :=
  if id =? channel_id c then (c, None) else (set_channel_id c id, Some (channel_id c)).

Definition get_user_state (c : Client) : UserStateMsg.UserState := {|
  UserStateMsg.session := Some (session_id c);
  UserStateMsg.actor := None;
  UserStateMsg.name := Some (get_name c);
  UserStateMsg.user_id := Some (session_id c);
  UserStateMsg.channel_id := Some (channel_id c);
  UserStateMsg.mute := None;
  UserStateMsg.deaf := None;
  UserStateMsg.suppress := None;
  UserStateMsg.self_mute := None;
  UserStateMsg.self_deaf := None;
  UserStateMsg.texture := None;
  UserStateMsg.plugin_context := None;
  UserStateMsg.plugin_identity := None;
  UserStateMsg.comment := None;
  UserStateMsg.hash := None;
  UserStateMsg.comment_hash := None;
  UserStateMsg.texture_hash := None;
  UserStateMsg.priority_speaker := None;
  UserStateMsg.recording := None;
  UserStateMsg.temporary_access_tokens := [];
  UserStateMsg.listening_channel_add := [];
  UserStateMsg.listening_channel_remove := [];
|}.

(** [send_voice_packet]: encrypted over UDP when the client has a socket, tunnelled over TCP otherwise.
    The datagram handed to the socket is returned beside the result. *)
Definition send_voice_packet `{Aes128} (udp : SocketAddr -> list Z -> Result MumbleError unit) (c : Client)
    (packet : VoicePacket ClientBound) : Client * option (SocketAddr * list Z) * Result MumbleError unit :=
  match udp_socket_addr c with
  | Some addr =>
    let '(cs, dest) := encrypt (crypt_state c) packet in
    (set_crypt_state c cs, Some (addr, dest), udp addr dest)
  | None =>
    let '(c, res) := send_message_raw c MessageKind.UDPTunnel (encode_voice_packet packet []) in
    (c, None, res)
  end.

Section sending.
Context `{MumbleProto}.

Definition send_crypt_setup (c : Client) (do_reset : bool) (now : Z) : Client * Result MumbleError unit :=
  let c := if do_reset then set_crypt_state c (reset (crypt_state c) now) else c in
  send_message c MessageKind.CryptSetup (get_crypt_setup (crypt_state c)).

Definition send_my_user_state (c : Client) : Client * Result MumbleError unit :=
  send_message c MessageKind.UserState (get_user_state c).

Definition send_server_sync (c : Client) : Client * Result MumbleError unit :=
  send_message c MessageKind.ServerSync
    {| ServerSyncMsg.session := Some (session_id c);
       ServerSyncMsg.max_bandwidth := Some MAX_BANDWIDTH_IN_BITS;
       ServerSyncMsg.welcome_text := Some "SoZ Mumble Server"%string;
       ServerSyncMsg.permissions := None |}.

Definition send_server_config (c : Client) : Client * Result MumbleError unit :=
  send_message c MessageKind.ServerConfig
    {| ServerConfigMsg.max_bandwidth := None;
       ServerConfigMsg.welcome_text := None;
       ServerConfigMsg.allow_html := Some false;
       ServerConfigMsg.message_length := Some 0;
       ServerConfigMsg.image_message_length := Some 0;
       ServerConfigMsg.max_users := None |}.
End sending.

(** A client as the server creates it, for the concrete instances of the theorems. *)
Definition sample (username : string) (session_id : Z) : Client :=
  new (VersionMsg.mkVersion (Some 66304) (Some "CitizenFX"%string) (Some "Windows"%string) None)
    (AuthenticateMsg.mkAuthenticate (Some username) None [] [] (Some true)) session_id 0
    (default_crypt_state sample_key 0) (mkWriter [] false) (mkPublisher [] false) "10.0.0.1" 0.
End Client.
