(* ===== verification/Anticheat.v ===== *)
(** The anticheat of [src/src/anticheat.rs], first half: configuration, log ring, and what is recorded
    per client on the voice path (targets, emissions, who spoke to whom, positions).  The
    periodic evaluation is in [Sampler.v], the ban list in [Bans.v].

    Instants are nanoseconds, wall clock times seconds since the epoch; both clocks are arguments. *)

From stdpp Require Import base gmap strings list.
From Stdlib Require Import ZArith Lia.
From S2P Require Import Prelude Maps Text Float32 Bans Client.

Module Anticheat.

(** ** Constants and actions *)

Definition LOG_CAPACITY : nat := 100.
Definition FLAG_COOLDOWN : Z := secs 3.
Definition ACTION_LOG : Z := 0.
Definition ACTION_MUTE : Z := 1.
Definition ACTION_KICK : Z := 2.
Definition ACTION_BAN : Z := 3.
Definition POS_OSC_WINDOW : Z := secs 30.
Definition POS_HIST_CAP : nat := 16.
Definition POS_FRESH : Z := secs 10.
Definition HEARD_CAP : nat := 256.
Definition HEARD_FLUSH_EVERY : Z := 30.

Definition key_channel (id : Z) : Z := as_u64 id.
Definition key_session (id : Z) : Z := Z.lor (Z.shiftl 1 40) (as_u64 id).

Definition parse_action (action : string) : Z :=
  if bool_decide (action = "mute"%string) then ACTION_MUTE
  else if bool_decide (action = "kick"%string) then ACTION_KICK
  else if bool_decide (action = "ban"%string) then ACTION_BAN
  else ACTION_LOG.

Definition action_name (action : Z) : string :=
  if action =? ACTION_MUTE then "mute"
  else if action =? ACTION_KICK then "kick"
  else if action =? ACTION_BAN then "ban"
  else "log".

(** ** Configuration *)

Record PersistedHeardEntry := mkPersistedHeardEntry {
  p_session_id : Z;
  p_name : string;
  p_ip : string;
  p_epoch : Z;
  p_secs : Z;
}.

Definition PersistedHeard : Type := gmap string (gmap string PersistedHeardEntry).

Record AnticheatConfig := mkAnticheatConfig {
  enabled : bool;
  threshold_pct : Z;
  min_recipients : Z;
  mutuality_max_pct : Z;
  window_secs : Z;
  strikes_required : Z;
  listen_max : Z;
  pos_osc_dist : Z;
  pos_osc_max : Z;
  pos_far_dist : Z;
  pos_far_min : Z;
  pos_far_pct : Z;
  heard_secs : Z;
  hide_ips : bool;
  heard_file : option string;
  heard_seed : PersistedHeard;
  action : Z;
  webhook : option string;
  panel_url : option string;
  server_label : string;
  logs : list string;
}.

Definition set_enabled (c : AnticheatConfig) (v : bool) : AnticheatConfig :=
  mkAnticheatConfig v (threshold_pct c) (min_recipients c) (mutuality_max_pct c) (window_secs c)
    (strikes_required c) (listen_max c) (pos_osc_dist c) (pos_osc_max c) (pos_far_dist c)
    (pos_far_min c) (pos_far_pct c) (heard_secs c) (hide_ips c) (heard_file c) (heard_seed c)
    (action c) (webhook c) (panel_url c) (server_label c) (logs c).
Definition set_threshold_pct (c : AnticheatConfig) (v : Z) : AnticheatConfig :=
  mkAnticheatConfig (enabled c) v (min_recipients c) (mutuality_max_pct c) (window_secs c)
    (strikes_required c) (listen_max c) (pos_osc_dist c) (pos_osc_max c) (pos_far_dist c)
    (pos_far_min c) (pos_far_pct c) (heard_secs c) (hide_ips c) (heard_file c) (heard_seed c)
    (action c) (webhook c) (panel_url c) (server_label c) (logs c).
Definition set_min_recipients (c : AnticheatConfig) (v : Z) : AnticheatConfig :=
  mkAnticheatConfig (enabled c) (threshold_pct c) v (mutuality_max_pct c) (window_secs c)
    (strikes_required c) (listen_max c) (pos_osc_dist c) (pos_osc_max c) (pos_far_dist c)
    (pos_far_min c) (pos_far_pct c) (heard_secs c) (hide_ips c) (heard_file c) (heard_seed c)
    (action c) (webhook c) (panel_url c) (server_label c) (logs c).
Definition set_mutuality_max_pct (c : AnticheatConfig) (v : Z) : AnticheatConfig :=
  mkAnticheatConfig (enabled c) (threshold_pct c) (min_recipients c) v (window_secs c)
    (strikes_required c) (listen_max c) (pos_osc_dist c) (pos_osc_max c) (pos_far_dist c)
    (pos_far_min c) (pos_far_pct c) (heard_secs c) (hide_ips c) (heard_file c) (heard_seed c)
    (action c) (webhook c) (panel_url c) (server_label c) (logs c).
Definition set_window_secs (c : AnticheatConfig) (v : Z) : AnticheatConfig :=
  mkAnticheatConfig (enabled c) (threshold_pct c) (min_recipients c) (mutuality_max_pct c) v
    (strikes_required c) (listen_max c) (pos_osc_dist c) (pos_osc_max c) (pos_far_dist c)
    (pos_far_min c) (pos_far_pct c) (heard_secs c) (hide_ips c) (heard_file c) (heard_seed c)
    (action c) (webhook c) (panel_url c) (server_label c) (logs c).
Definition set_strikes_required (c : AnticheatConfig) (v : Z) : AnticheatConfig :=
  mkAnticheatConfig (enabled c) (threshold_pct c) (min_recipients c) (mutuality_max_pct c)
    (window_secs c) v (listen_max c) (pos_osc_dist c) (pos_osc_max c) (pos_far_dist c)
    (pos_far_min c) (pos_far_pct c) (heard_secs c) (hide_ips c) (heard_file c) (heard_seed c)
    (action c) (webhook c) (panel_url c) (server_label c) (logs c).
Definition set_listen_max (c : AnticheatConfig) (v : Z) : AnticheatConfig :=
  mkAnticheatConfig (enabled c) (threshold_pct c) (min_recipients c) (mutuality_max_pct c)
    (window_secs c) (strikes_required c) v (pos_osc_dist c) (pos_osc_max c) (pos_far_dist c)
    (pos_far_min c) (pos_far_pct c) (heard_secs c) (hide_ips c) (heard_file c) (heard_seed c)
    (action c) (webhook c) (panel_url c) (server_label c) (logs c).
Definition set_pos_osc_dist (c : AnticheatConfig) (v : Z) : AnticheatConfig :=
  mkAnticheatConfig (enabled c) (threshold_pct c) (min_recipients c) (mutuality_max_pct c)
    (window_secs c) (strikes_required c) (listen_max c) v (pos_osc_max c) (pos_far_dist c)
    (pos_far_min c) (pos_far_pct c) (heard_secs c) (hide_ips c) (heard_file c) (heard_seed c)
    (action c) (webhook c) (panel_url c) (server_label c) (logs c).
Definition set_pos_osc_max (c : AnticheatConfig) (v : Z) : AnticheatConfig :=
  mkAnticheatConfig (enabled c) (threshold_pct c) (min_recipients c) (mutuality_max_pct c)
    (window_secs c) (strikes_required c) (listen_max c) (pos_osc_dist c) v (pos_far_dist c)
    (pos_far_min c) (pos_far_pct c) (heard_secs c) (hide_ips c) (heard_file c) (heard_seed c)
    (action c) (webhook c) (panel_url c) (server_label c) (logs c).
Definition set_pos_far_dist (c : AnticheatConfig) (v : Z) : AnticheatConfig :=
  mkAnticheatConfig (enabled c) (threshold_pct c) (min_recipients c) (mutuality_max_pct c)
    (window_secs c) (strikes_required c) (listen_max c) (pos_osc_dist c) (pos_osc_max c) v
    (pos_far_min c) (pos_far_pct c) (heard_secs c) (hide_ips c) (heard_file c) (heard_seed c)
    (action c) (webhook c) (panel_url c) (server_label c) (logs c).
Definition set_pos_far_min (c : AnticheatConfig) (v : Z) : AnticheatConfig :=
  mkAnticheatConfig (enabled c) (threshold_pct c) (min_recipients c) (mutuality_max_pct c)
    (window_secs c) (strikes_required c) (listen_max c) (pos_osc_dist c) (pos_osc_max c)
    (pos_far_dist c) v (pos_far_pct c) (heard_secs c) (hide_ips c) (heard_file c) (heard_seed c)
    (action c) (webhook c) (panel_url c) (server_label c) (logs c).
Definition set_pos_far_pct (c : AnticheatConfig) (v : Z) : AnticheatConfig :=
  mkAnticheatConfig (enabled c) (threshold_pct c) (min_recipients c) (mutuality_max_pct c)
    (window_secs c) (strikes_required c) (listen_max c) (pos_osc_dist c) (pos_osc_max c)
    (pos_far_dist c) (pos_far_min c) v (heard_secs c) (hide_ips c) (heard_file c) (heard_seed c)
    (action c) (webhook c) (panel_url c) (server_label c) (logs c).
Definition set_heard_secs (c : AnticheatConfig) (v : Z) : AnticheatConfig :=
  mkAnticheatConfig (enabled c) (threshold_pct c) (min_recipients c) (mutuality_max_pct c)
    (window_secs c) (strikes_required c) (listen_max c) (pos_osc_dist c) (pos_osc_max c)
    (pos_far_dist c) (pos_far_min c) (pos_far_pct c) v (hide_ips c) (heard_file c) (heard_seed c)
    (action c) (webhook c) (panel_url c) (server_label c) (logs c).
Definition set_hide_ips (c : AnticheatConfig) (v : bool) : AnticheatConfig :=
  mkAnticheatConfig (enabled c) (threshold_pct c) (min_recipients c) (mutuality_max_pct c)
    (window_secs c) (strikes_required c) (listen_max c) (pos_osc_dist c) (pos_osc_max c)
    (pos_far_dist c) (pos_far_min c) (pos_far_pct c) (heard_secs c) v (heard_file c)
    (heard_seed c) (action c) (webhook c) (panel_url c) (server_label c) (logs c).
Definition set_heard_file (c : AnticheatConfig) (v : option string) : AnticheatConfig :=
  mkAnticheatConfig (enabled c) (threshold_pct c) (min_recipients c) (mutuality_max_pct c)
    (window_secs c) (strikes_required c) (listen_max c) (pos_osc_dist c) (pos_osc_max c)
    (pos_far_dist c) (pos_far_min c) (pos_far_pct c) (heard_secs c) (hide_ips c) v (heard_seed c)
    (action c) (webhook c) (panel_url c) (server_label c) (logs c).
Definition set_heard_seed (c : AnticheatConfig) (v : PersistedHeard) : AnticheatConfig :=
  mkAnticheatConfig (enabled c) (threshold_pct c) (min_recipients c) (mutuality_max_pct c)
    (window_secs c) (strikes_required c) (listen_max c) (pos_osc_dist c) (pos_osc_max c)
    (pos_far_dist c) (pos_far_min c) (pos_far_pct c) (heard_secs c) (hide_ips c) (heard_file c) v
    (action c) (webhook c) (panel_url c) (server_label c) (logs c).
Definition set_action (c : AnticheatConfig) (v : Z) : AnticheatConfig :=
  mkAnticheatConfig (enabled c) (threshold_pct c) (min_recipients c) (mutuality_max_pct c)
    (window_secs c) (strikes_required c) (listen_max c) (pos_osc_dist c) (pos_osc_max c)
    (pos_far_dist c) (pos_far_min c) (pos_far_pct c) (heard_secs c) (hide_ips c) (heard_file c)
    (heard_seed c) v (webhook c) (panel_url c) (server_label c) (logs c).
Definition set_webhook (c : AnticheatConfig) (v : option string) : AnticheatConfig :=
  mkAnticheatConfig (enabled c) (threshold_pct c) (min_recipients c) (mutuality_max_pct c)
    (window_secs c) (strikes_required c) (listen_max c) (pos_osc_dist c) (pos_osc_max c)
    (pos_far_dist c) (pos_far_min c) (pos_far_pct c) (heard_secs c) (hide_ips c) (heard_file c)
    (heard_seed c) (action c) v (panel_url c) (server_label c) (logs c).
Definition set_panel_url (c : AnticheatConfig) (v : option string) : AnticheatConfig :=
  mkAnticheatConfig (enabled c) (threshold_pct c) (min_recipients c) (mutuality_max_pct c)
    (window_secs c) (strikes_required c) (listen_max c) (pos_osc_dist c) (pos_osc_max c)
    (pos_far_dist c) (pos_far_min c) (pos_far_pct c) (heard_secs c) (hide_ips c) (heard_file c)
    (heard_seed c) (action c) (webhook c) v (server_label c) (logs c).
Definition set_server_label (c : AnticheatConfig) (v : string) : AnticheatConfig :=
  mkAnticheatConfig (enabled c) (threshold_pct c) (min_recipients c) (mutuality_max_pct c)
    (window_secs c) (strikes_required c) (listen_max c) (pos_osc_dist c) (pos_osc_max c)
    (pos_far_dist c) (pos_far_min c) (pos_far_pct c) (heard_secs c) (hide_ips c) (heard_file c)
    (heard_seed c) (action c) (webhook c) (panel_url c) v (logs c).
Definition set_logs (c : AnticheatConfig) (v : list string) : AnticheatConfig :=
  mkAnticheatConfig (enabled c) (threshold_pct c) (min_recipients c) (mutuality_max_pct c)
    (window_secs c) (strikes_required c) (listen_max c) (pos_osc_dist c) (pos_osc_max c)
    (pos_far_dist c) (pos_far_min c) (pos_far_pct c) (heard_secs c) (hide_ips c) (heard_file c)
    (heard_seed c) (action c) (webhook c) (panel_url c) (server_label c) v.

(** [u32::clamp], [min] and [max]. *)
Definition clamp (v lo hi : Z) : Z := Z.min (Z.max v lo) hi.

Definition non_empty (s : option string) : option string :=
  s ← s; if is_empty s then None else Some s.

Definition new (enabled : bool)
    (threshold_pct min_recipients mutuality_max_pct window_secs strikes_required listen_max action : Z)
    (webhook panel_url : option string) (server_label : string) : AnticheatConfig := {|
  enabled := enabled;
  threshold_pct := clamp threshold_pct 1 100;
  min_recipients := min_recipients;
  mutuality_max_pct := Z.min mutuality_max_pct 100;
  window_secs := Z.max window_secs 1;
  strikes_required := Z.max strikes_required 1;
  listen_max := listen_max;
  pos_osc_dist := 300;
  pos_osc_max := 0;
  pos_far_dist := 500;
  pos_far_min := 15;
  pos_far_pct := 70;
  heard_secs := 900;
  hide_ips := false;
  heard_file := None;
  heard_seed := ∅;
  action := action;
  webhook := non_empty webhook;
  panel_url := non_empty panel_url;
  server_label := server_label;
  logs := [];
|}.

(** ** Log ring: oldest first *)

Definition recent_logs (a : AnticheatConfig) : list string := rev (logs a).
Definition clear_logs (a : AnticheatConfig) : AnticheatConfig := set_logs a [].
Definition push_log (a : AnticheatConfig) (line : string) : AnticheatConfig :=
  let logs := if decide (LOG_CAPACITY <= length (logs a))%nat then tail (logs a) else logs a in
  set_logs a (logs ++ [line]).

(** ** Recording *)

Definition record_targets (a : AnticheatConfig) (c : Client.Client) (keys : list Z) (now : Z) : Client.Client :=
  if negb (enabled a) then c else
  let window := secs (Z.max (window_secs a) 1) in
  let w := fold_left (fun w k => <[k := now]> w) keys (Client.ac_window (Client.ac c)) in
  let w := retain (fun _ t => since now t <=? window) w in
  Client.set_ac c (Client.set_ac_window (Client.ac c) w).

Definition note_emission (a : AnticheatConfig) (c : Client.Client) (recipients : Z) : Client.Client :=
  if negb (enabled a) then c else
  Client.set_ac c (Client.set_ac_max_recipients (Client.ac c)
    (Z.max (Client.ac_max_recipients (Client.ac c)) recipients)).

Section heard.
Context `{HashIter}.

(** The retention of the memory of speakers. *)
Definition retention (a : AnticheatConfig) : Z := Z.max (heard_secs a) 10.

(** Making room for a new speaker: drop the expired entries, then the oldest one. *)
Definition make_room (a : AnticheatConfig) (heard : gmap string Client.HeardEntry) (key : string) (now : Z)
    : gmap string Client.HeardEntry :=
  if decide (HEARD_CAP <= size heard)%nat then
    match heard !! key with
    | Some _ => heard
    | None =>
      let heard := retain (fun _ e => since now (Client.heard_last e) <=? secs (retention a)) heard in
      if decide (HEARD_CAP <= size heard)%nat then
        match min_by_key (fun p => Client.heard_last p.2) (hash_iter heard) with
        | Some (k, _) => delete k heard
        | None => heard
        end
      else heard
    end
  else heard.

(** The entry of the speaker after one more second of speech. *)
Definition heard_entry (old : option Client.HeardEntry) (speaker : Client.Client) (now : Z) : Client.HeardEntry :=
  let e := default (Client.mkHeardEntry (Client.session_id speaker) (Client.get_name speaker)
                      (Client.peer_ip speaker) now 0) old in
  let e := if Client.heard_session_id e =? Client.session_id speaker then e
           else Client.mkHeardEntry (Client.session_id speaker) (Client.get_name speaker)
                  (Client.peer_ip speaker) (Client.heard_last e) (Client.heard_secs_total e) in
  Client.mkHeardEntry (Client.heard_session_id e) (Client.heard_name e) (Client.heard_ip e) now
    (as_u32 (Client.heard_secs_total e + 1)).

Definition note_heard (a : AnticheatConfig) (speaker listener : Client.Client) (now : Z) : Client.Client :=
  let key := BanList.name_part (Client.get_name speaker) in
  let heard := make_room a (Client.ac_heard (Client.ac listener)) key now in
  Client.set_ac listener (Client.set_ac_heard (Client.ac listener)
    (<[key := heard_entry (heard !! key) speaker now]> heard)).

(** ** Persistence of the memory of speakers *)

Definition init_heard_persistence `{SerdeJson PersistedHeard} (a : AnticheatConfig) (fs : FileSystem)
    (path : string) (now_epoch : Z) : AnticheatConfig :=
  let a := match (data ← read_file fs path; from_json data) with
           | Some seed =>
             let seed := retain (fun _ e => Z.max 0 (now_epoch - p_epoch e) <=? retention a) <$> seed in
             set_heard_seed a (retain (fun _ l => negb (bool_decide (l = ∅))) seed)
           | None => a
           end in
  set_heard_file a (Some path).

(** One persisted entry back in memory; [checked_sub] fails below the least instant of the platform, a
    64-bit count of seconds. *)
Definition revive (now now_epoch : Z) (e : PersistedHeardEntry) : Client.HeardEntry :=
  let ago := Z.max 0 (now_epoch - p_epoch e) in
  let last := if secs (- 2 ^ 63) <=? now - secs ago then now - secs ago else now in
  Client.mkHeardEntry (p_session_id e) (p_name e) (p_ip e) last (p_secs e).

Definition seed_heard (a : AnticheatConfig) (c : Client.Client) (now now_epoch : Z)
    : AnticheatConfig * Client.Client :=
  let key := BanList.name_part (Client.get_name c) in
  match heard_seed a !! key with
  | None => (a, c)
  | Some entries =>
    let heard := fold_left (fun h p => insert_new p.1 (revive now now_epoch p.2) h)
                   (hash_iter entries) (Client.ac_heard (Client.ac c)) in
    (set_heard_seed a (delete key (heard_seed a)),
     Client.set_ac c (Client.set_ac_heard (Client.ac c) heard))
  end.
End heard.

(** ** Positions *)

Definition pos : Type := f32 * f32 * f32.

Definition dist2 (p q : pos) : f32 :=
  let '(x, y, z) := p in let '(a, b, c) := q in
  f32_add (f32_add (f32_mul (f32_sub x a) (f32_sub x a)) (f32_mul (f32_sub y b) (f32_sub y b)))
    (f32_mul (f32_sub z c) (f32_sub z c)).

Definition count_returns (hist : list Client.PosAnchor) : Z :=
  as_u32 (Z.of_nat (length (List.filter Client.anchor_return hist))).

(** Anchors no older than the window. *)
Definition fresh_anchors (now : Z) (hist : list Client.PosAnchor) : list Client.PosAnchor :=
  List.filter (fun h => since now (Client.anchor_time h) <=? POS_OSC_WINDOW) hist.

(** [while hist.len() > POS_HIST_CAP { hist.pop_front(); }]. *)
Definition cap_hist (hist : list Client.PosAnchor) : list Client.PosAnchor :=
  drop (length hist - POS_HIST_CAP) hist.

Definition note_speed (c : Client.Client) (p : pos) (now : Z) : Client.AcState :=
  let s := Client.ac c in
  if negb (Client.ac_has_pos s) then s else
  let dt := as_secs_f32 (since now (Client.ac_last_pos_time s)) in
  if f32_lt f32_zero dt && f32_lt dt f32_half then
    let speed := f32_div (f32_sqrt (dist2 p (Client.ac_pos s))) dt in
    if f32_lt (Client.ac_max_speed s) speed then Client.set_ac_max_speed s speed else s
  else s.

Definition note_position (a : AnticheatConfig) (c : Client.Client) (p : pos) (now : Z) : Client.Client :=
  if negb (enabled a) then c else
  let s := note_speed c p now in
  let s := Client.set_ac_has_pos s true in
  let s := Client.set_ac_last_pos_time (Client.set_ac_pos s p) now in
  let osc_dist := f32_of_Z (pos_osc_dist a) in
  if f32_le osc_dist f32_zero then Client.set_ac c s else
  let hist := Client.ac_pos_hist s in
  let moved := match last hist with
               | Some h => f32_lt (f32_mul osc_dist osc_dist) (dist2 p (Client.anchor_pos h))
               | None => true
               end in
  if moved then
    let rr := f32_mul (f32_mul osc_dist f32_half) (f32_mul osc_dist f32_half) in
    let is_return := existsb (fun h => f32_lt (dist2 p (Client.anchor_pos h)) rr) hist in
    let hist := fresh_anchors now (cap_hist (hist ++ [Client.mkPosAnchor now p is_return])) in
    Client.set_ac c (Client.set_ac_pos_jumps (Client.set_ac_pos_hist s hist) (count_returns hist))
  else Client.set_ac c s.

(** ** Lemmas *)

Lemma push_log_drop a line :
  (length (logs a) <= LOG_CAPACITY)%nat ->
  logs (push_log a line) = drop (length (logs a ++ [line]) - LOG_CAPACITY) (logs a ++ [line]).
Proof.
  intros Hl. unfold push_log. rewrite length_app. cbn [length]. case_decide as Hd.
  - replace (length (logs a) + 1 - LOG_CAPACITY)%nat with 1%nat by lia.
    destruct (logs a); [cbn in Hd; unfold LOG_CAPACITY in Hd; lia|done].
  - replace (length (logs a) + 1 - LOG_CAPACITY)%nat with 0%nat by lia. done.
Qed.

Lemma push_log_length a line :
  (length (logs a) <= LOG_CAPACITY)%nat -> (length (logs (push_log a line)) <= LOG_CAPACITY)%nat.
Proof. intros Hl. rewrite push_log_drop, length_drop by done. lia. Qed.

Lemma drop_drop_last {A} (l k : list A) n :
  drop (length (drop (length l - n) l ++ k) - n) (drop (length l - n) l ++ k)
  = drop (length (l ++ k) - n) (l ++ k).
Proof.
  rewrite !length_app, length_drop. destruct (decide (length l <= n)%nat) as [Hl|Hl].
  - replace (length l - n)%nat with 0%nat by lia. rewrite drop_0. f_equal. lia.
  - replace (length l - (length l - n) + length k - n)%nat with (length k) by lia.
    rewrite <-(drop_app_le l k (length l - n)) by lia. rewrite drop_drop. f_equal. lia.
Qed.

Section heard_lemmas.
Context `{HashIterLaws}.

Lemma make_room_spec a heard key now :
  (size heard <= HEARD_CAP)%nat ->
  let heard' := make_room a heard key now in
  heard' !! key = heard !! key
  /\ (heard !! key = None -> (size heard' < HEARD_CAP)%nat)
  /\ (size heard' <= HEARD_CAP)%nat
  /\ forall k e, heard !! k = Some e ->
       heard' !! k = Some e
       \/ (heard' !! k = None /\ size heard = HEARD_CAP /\ heard !! key = None
           /\ (secs (retention a) < since now (Client.heard_last e)
               \/ forall k2 e2, heard !! k2 = Some e2 -> since now (Client.heard_last e2) <= secs (retention a) ->
                    Client.heard_last e <= Client.heard_last e2)).
Proof.
  intros Hsz heard'. unfold heard', make_room.
  case_decide as Hfull; [|split_and!; [done|lia|done|auto]].
  destruct (heard !! key) as [e0|] eqn:Hkey; [split_and!; [done|done|done|auto]|].
  set (kept := retain _ heard).
  assert (forall k, kept !! k = e ← heard !! k;
    if since now (Client.heard_last e) <=? secs (retention a) then Some e else None) as Hkept
    by (intros; apply lookup_retain).
  pose proof (size_retain (fun _ e => since now (Client.heard_last e) <=? secs (retention a)) heard) as Hks.
  fold kept in Hks. assert (size heard = HEARD_CAP) as Hcap by lia.
  assert (kept !! key = None) as Hkk by (by rewrite Hkept, Hkey).
  case_decide as Hfull2.
  2:{ split_and!; [by rewrite Hkk|lia|lia|]. intros k e He. specialize (Hkept k). rewrite He in Hkept.
      cbn in Hkept. destruct (Z.leb_spec (since now (Client.heard_last e)) (secs (retention a))); [by left|].
      right. rewrite Hkept. auto. }
  assert (kept <> ∅) as Hne by (intros Hk; rewrite Hk, map_size_empty in Hfull2; unfold HEARD_CAP in Hfull2; lia).
  destruct (min_by_key_is_Some (fun p => Client.heard_last p.2) (hash_iter kept)) as [[k0 e0] Hmin];
    [by apply hash_iter_nil|]. rewrite Hmin.
  apply min_by_key_spec in Hmin as [Hin Hle]. apply elem_of_hash_iter in Hin. cbn [snd] in Hle.
  assert (size (delete k0 kept) < HEARD_CAP)%nat as Hdel
    by (rewrite map_size_delete_Some; [unfold HEARD_CAP in *; lia|by eexists]).
  split_and!; [|lia|lia|].
  - destruct (decide (k0 = key)) as [->|Hk]; [by rewrite lookup_delete_eq|by rewrite lookup_delete_ne].
  - intros k e He. destruct (decide (k0 = k)) as [->|Hk].
    + right. rewrite lookup_delete_eq. split_and!; auto. right. intros k2 e2 He2 Hr.
      specialize (Hkept k). rewrite Hin, He in Hkept. cbn in Hkept. case_match; simplify_eq.
      apply (Hle (k2, e2)). apply elem_of_hash_iter.
      match goal with |- ?m !! _ = _ => change (kept !! k2 = Some e2) end.
      pose proof (lookup_retain (fun _ e => since now (Client.heard_last e) <=? secs (retention a)) heard k2) as H2.
      fold kept in H2. rewrite H2, He2. cbn. by rewrite (proj2 (Z.leb_le _ _)).
    + rewrite lookup_delete_ne by done. rewrite Hkept, He. cbn.
      destruct (Z.leb_spec (since now (Client.heard_last e)) (secs (retention a))); [by left|].
      right. auto.
Qed.

Lemma size_insert_cap {A} (m : gmap string A) k a n :
  (size m <= n)%nat -> (m !! k = None -> size m < n)%nat -> (size (<[k := a]> m) <= n)%nat.
Proof. intros Hs Hn. rewrite map_size_insert. destruct (m !! k); cbn; [done|specialize (Hn eq_refl); lia]. Qed.
End heard_lemmas.

Lemma length_cap_hist hist : (length (cap_hist hist) <= POS_HIST_CAP)%nat.
Proof. unfold cap_hist. rewrite length_drop. lia. Qed.

Lemma length_filter {A} (P : A -> bool) (l : list A) : (length (List.filter P l) <= length l)%nat.
Proof. induction l as [|x l IH]; cbn; [done|]. case_if; cbn; lia. Qed.

Lemma note_speed_hist c p now :
  Client.ac_pos_hist (note_speed c p now) = Client.ac_pos_hist (Client.ac c)
  /\ Client.ac_pos_jumps (note_speed c p now) = Client.ac_pos_jumps (Client.ac c).
Proof. unfold note_speed. repeat case_if; done. Qed.

(** ** Properties *)

(** The panel's log is a ring: whatever lines are pushed, it holds the last hundred of
    all lines since it was cleared, in order, and [recent_logs] shows them newest first. *)
Theorem log_ring (a : AnticheatConfig) (lines : list string) :
  (length (logs a) <= LOG_CAPACITY)%nat ->
  let a' := fold_left push_log lines a in
  logs a' = drop (length (logs a ++ lines) - LOG_CAPACITY) (logs a ++ lines)
  /\ recent_logs a' = take LOG_CAPACITY (rev (logs a ++ lines)).
Proof.
  intros Hl a'. assert (logs a' = drop (length (logs a ++ lines) - LOG_CAPACITY) (logs a ++ lines)) as Hd.
  { subst a'. revert a Hl. induction lines as [|line lines IH]; intros a Hl; cbn [fold_left].
    - rewrite app_nil_r. replace (length (logs a) - LOG_CAPACITY)%nat with 0%nat by lia. done.
    - rewrite IH by (by apply push_log_length). rewrite push_log_drop, drop_drop_last by done.
      by rewrite <-app_assoc. }
  split; [done|]. unfold recent_logs. by rewrite Hd, firstn_rev.
Qed.

Lemma log_ring_witness :
  let a := new true 50 15 30 10 3 5 0 None None "srv" in
  logs (fold_left push_log (replicate 100 "x"%string ++ ["y"%string]) a) = replicate 99 "x"%string ++ ["y"%string].
Proof.
  cbv zeta. rewrite (proj1 (log_ring (new true 50 15 30 10 3 5 0 None None "srv")
    (replicate 100 "x"%string ++ ["y"%string]) ltac:(vm_compute; lia))). reflexivity.
Defined.

(** The keys of the target window do not collide: a channel and a session never share a key, and
    neither do two channels or two sessions. *)
Theorem window_keys_distinct (i j : Z) :
  in_u 32 i -> in_u 32 j ->
  key_channel i <> key_session j
  /\ (key_channel i = key_channel j -> i = j) /\ (key_session i = key_session j -> i = j).
Proof.
  intros Hi Hj.
  assert (forall k, in_u 32 k -> key_channel k = k /\ key_session k = k + 2 ^ 40) as Hk.
  { intros k Hk. unfold key_channel, key_session.
    assert (as_u64 k = k) as -> by (apply as_u64_small; unfold in_u in *; lia). split; [done|].
    rewrite lor_disjoint by (unfold in_u in *; lia). change (Z.shiftl 1 40) with (2 ^ 40). lia. }
  destruct (Hk i Hi) as [-> ->], (Hk j Hj) as [-> ->]. unfold in_u in *. lia.
Qed.

Lemma window_keys_distinct_witness : key_channel 7 <> key_session 7.
Proof. apply (window_keys_distinct 7 7); unfold in_u; lia. Defined.

(** C34.  Recording a speaker keeps the listener's memory within 256 entries, refreshes the
    speaker's own line (time, one more second, and after a reconnection its session, name and address), leaves
    every other line as it was, and forgets a line only to make room for a new speaker: an expired one, or
    the oldest of those that are not. *)
Theorem note_heard_spec `{HashIterLaws} (a : AnticheatConfig) (speaker listener : Client.Client) (now : Z) :
  let heard := Client.ac_heard (Client.ac listener) in
  let heard' := Client.ac_heard (Client.ac (note_heard a speaker listener now)) in
  let key := BanList.name_part (Client.get_name speaker) in
  (size heard <= HEARD_CAP)%nat ->
  (size heard' <= HEARD_CAP)%nat
  /\ heard' !! key = Some (heard_entry (heard !! key) speaker now)
  /\ forall k e, k <> key -> heard !! k = Some e ->
       heard' !! k = Some e
       \/ (heard' !! k = None /\ size heard = HEARD_CAP /\ heard !! key = None
           /\ (secs (retention a) < since now (Client.heard_last e)
               \/ forall k2 e2, heard !! k2 = Some e2 -> since now (Client.heard_last e2) <= secs (retention a) ->
                    Client.heard_last e <= Client.heard_last e2)).
Proof.
  intros heard heard' key Hsz. destruct (make_room_spec a heard key now Hsz) as (Hkey & Hroom & Hle & Hrest).
  subst heard'. cbn. fold key heard. split_and!.
  - apply size_insert_cap; [done|]. rewrite Hkey. done.
  - by rewrite lookup_insert_eq, Hkey.
  - intros k e Hk He. rewrite lookup_insert_ne by done. by apply Hrest.
Qed.

Lemma note_heard_spec_witness :
  let a := new true 50 15 30 10 3 5 0 None None "srv" in
  let l := note_heard (H := canonical_iter) a (Client.sample "[3] Bob" 3) (Client.sample "[4] Eve" 4) 5 in
  Client.ac_heard (Client.ac l) !! "Bob"%string
  = Some (Client.mkHeardEntry 3 "[3] Bob" "10.0.0.1" 5 1).
Proof.
  cbv zeta. etransitivity.
  - apply (@note_heard_spec canonical_iter canonical_iter_laws (new true 50 15 30 10 3 5 0 None None "srv")
      (Client.sample "[3] Bob" 3) (Client.sample "[4] Eve" 4) 5).
    vm_compute. lia.
  - vm_compute. reflexivity.
Defined.

(** Position tracking: at most sixteen places are remembered, those within thirty seconds, and the
    number of returns shown is the number of remembered places marked as returns. *)
Theorem position_history_bounded (a : AnticheatConfig) (c : Client.Client) (p : pos) (now : Z) :
  let s := Client.ac c in
  let s' := Client.ac (note_position a c p now) in
  (length (Client.ac_pos_hist s) <= POS_HIST_CAP)%nat ->
  Client.ac_pos_jumps s = count_returns (Client.ac_pos_hist s) ->
  (length (Client.ac_pos_hist s') <= POS_HIST_CAP)%nat
  /\ Client.ac_pos_jumps s' = count_returns (Client.ac_pos_hist s')
  /\ 0 <= Client.ac_pos_jumps s' <= 16
  /\ (enabled a = true -> Client.ac_has_pos s' = true /\ Client.ac_pos s' = p).
Proof.
  intros s s' Hlen Hj. destruct (note_speed_hist c p now) as [Hh Hjj].
  assert (forall h, (length h <= POS_HIST_CAP)%nat -> 0 <= count_returns h <= 16) as Hcount.
  { intros h Hl. unfold count_returns. pose proof (length_filter Client.anchor_return h).
    unfold POS_HIST_CAP in *. rewrite as_u32_small; [|unfold in_u]; lia. }
  assert ((length (Client.ac_pos_hist s') <= POS_HIST_CAP)%nat
    /\ Client.ac_pos_jumps s' = count_returns (Client.ac_pos_hist s')
    /\ (enabled a = true -> Client.ac_has_pos s' = true /\ Client.ac_pos s' = p)) as (H1 & H2 & H3).
  { subst s' s. unfold note_position. destruct (enabled a); cbn [negb]; [|split_and!; done].
    case_if; [cbn; rewrite Hh, Hjj; split_and!; done|].
    set (moved := match last _ with Some _ => _ | None => _ end).
    destruct moved; cbn; rewrite ?Hh, ?Hjj; split_and!; try done.
    etransitivity; [apply length_filter|apply length_cap_hist]. }
  split_and!; try done; rewrite H2; apply Hcount; done.
Qed.

Lemma position_history_bounded_witness :
  let a := new true 50 15 30 10 3 5 0 None None "srv" in
  let p := (f32_of_Z 1000, f32_of_Z 0, f32_of_Z 0) in
  let s' := Client.ac (note_position a (Client.sample "[3] Bob" 3) p 5) in
  Client.ac_pos_hist s' = [Client.mkPosAnchor 5 p false] /\ Client.ac_pos_jumps s' = 0.
Proof.
  cbv zeta. split; [vm_compute; reflexivity|].
  destruct (position_history_bounded (new true 50 15 30 10 3 5 0 None None "srv") (Client.sample "[3] Bob" 3)
    (f32_of_Z 1000, f32_of_Z 0, f32_of_Z 0) 5) as (_ & H & _); [vm_compute; lia|vm_compute; reflexivity|].
  rewrite H. vm_compute. reflexivity.
Defined.

End Anticheat.
