(* ===== verification/State.v ===== *)
(** The server state: [src/src/state.rs] and [src/src/channel.rs], with the parts of [src/src/client.rs]
    that need the state.

    Shared objects: an [Arc<Client>] is a [ClientRef] into the heap of the state, the value
    in the heap being the client's current fields; a [Weak<Client>] is the same reference, and
    [upgrade] is a lookup in the heap.  [reclaim] drops a client that no map of the state holds any more.
    A channel is held by one map only, so its value is stored in the map.

    The network and the file system are part of the state as logs: what was written to a
    client's stream is in the client, the datagrams sent are in [udp_out]. *)

From stdpp Require Import base gmap strings list.
From Stdlib Require Import ZArith Lia.
From S2P Require Import Prelude Errors Maps Text Voice Messages Crypt Proto Bans Client Anticheat.

(** Sequencing of state changing operations that may fail. *)
Definition seq {S A B} (m : S * Result MumbleError A) (k : S -> A -> S * Result MumbleError B)
    : S * Result MumbleError B :=
  match m with
  | (s, Ok a) => k s a
  | (s, Err e) => (s, Err e)
  end.
Notation "'let!' ( s , x ) := m 'in' k" := (seq m (fun s x => k))
  (at level 10, s name, x name, m at level 100, k at level 200) : rust_scope.

(** Sending a datagram: the environment decides whether it leaves the host within ten milliseconds. *)
Class UdpSocket := udp_send : SocketAddr -> list Z -> Result MumbleError unit.

(** [str::to_lowercase] (the Unicode tables of the standard library). *)
Class Unicode := to_lowercase : string -> string.

Abbreviation ClientRef := nat.

(** ** Channels *)

Module Channel.
Record Channel := mkChannel {
  id : Z;
  name : string;
  temporary : bool;
  listeners : gmap Z ClientRef;
  clients : gmap Z ClientRef;
  channel_state_cache : ChannelStateMsg.ChannelState;
}.

Definition new (id : Z) (parent_id : option Z) (name description : string) (temporary : bool) : Channel := {|
  id := id;
  name := name;
  temporary := temporary;
  listeners := ∅;
  clients := ∅;
  channel_state_cache :=
    {| ChannelStateMsg.channel_id := Some id;
       ChannelStateMsg.parent := parent_id;
       ChannelStateMsg.name := Some name;
       ChannelStateMsg.links := [];
       ChannelStateMsg.description := Some description;
       ChannelStateMsg.links_add := [];
       ChannelStateMsg.links_remove := [];
       ChannelStateMsg.temporary := Some temporary;
       ChannelStateMsg.position := Some (as_i32 id);
       ChannelStateMsg.description_hash := None;
       ChannelStateMsg.max_users := None;
       ChannelStateMsg.is_enter_restricted := None;
       ChannelStateMsg.can_enter := None |};
|}.

Definition get_channel_state (c : Channel) : ChannelStateMsg.ChannelState := channel_state_cache c.

Definition set_clients (c : Channel) (v : gmap Z ClientRef) : Channel :=
  mkChannel (id c) (name c) (temporary c) (listeners c) v (channel_state_cache c).
Definition set_listeners (c : Channel) (v : gmap Z ClientRef) : Channel :=
  mkChannel (id c) (name c) (temporary c) v (clients c) (channel_state_cache c).
End Channel.
Abbreviation Channel := Channel.Channel.

(** ** Server state *)

Module ServerState.

Record CodecState := mkCodecState {
  opus : bool;
  alpha : Z;
  beta : Z;
  prefer_alpha : bool;
}.

Definition default_codec_state : CodecState := mkCodecState true 0 0 false.

Definition get_codec_version (s : CodecState) : CodecVersionMsg.CodecVersion := {|
  CodecVersionMsg.alpha := Some (alpha s);
  CodecVersionMsg.beta := Some (beta s);
  CodecVersionMsg.prefer_alpha := Some (prefer_alpha s);
  CodecVersionMsg.opus := Some (opus s);
|}.

(** [metrics.rs]: the gauges and counters of clients and disconnections, with the labels as keys.  Their 64 bits do not overflow. *)
Record Metrics := mkMetrics {
  CLIENTS_TOTAL : Z;
  DISCONNECT : gmap string Z;
  CRYPT_RESETS : Z;
}.
Definition no_metrics : Metrics := mkMetrics 0 ∅ 0.

Definition CLIENTS_TOTAL_inc (m : Metrics) : Metrics := mkMetrics (CLIENTS_TOTAL m + 1) (DISCONNECT m) (CRYPT_RESETS m).
Definition CLIENTS_TOTAL_dec (m : Metrics) : Metrics := mkMetrics (CLIENTS_TOTAL m - 1) (DISCONNECT m) (CRYPT_RESETS m).
Definition DISCONNECT_inc (label : string) (m : Metrics) : Metrics :=
  mkMetrics (CLIENTS_TOTAL m) (<[label := default 0 (DISCONNECT m !! label) + 1]> (DISCONNECT m)) (CRYPT_RESETS m).
Definition CRYPT_RESETS_inc_by (n : nat) (m : Metrics) : Metrics :=
  mkMetrics (CLIENTS_TOTAL m) (DISCONNECT m) (CRYPT_RESETS m + Z.of_nat n).

Record ServerState := mkServerState {
  remove_positional_data : bool;
  clients : gmap Z ClientRef;
  clients_without_udp : gmap Z ClientRef;
  clients_by_socket : gmap SocketAddr ClientRef;
  channels : gmap Z Channel;
  disconnect_queue : gmap Z DisconnectReason;
  codec_state : CodecState;
  restrict_to_version : option string;
  debug_message_id : Z;
  session_count : Z;
  channel_count : Z;
  active_clients : Z;
  anticheat : Anticheat.AnticheatConfig;
  bans : BanList.BanList;
  heap : gmap ClientRef Client.Client;
  next_ref : ClientRef;
  fs : FileSystem;
  udp_out : list (SocketAddr * list Z);
  metrics : Metrics;
}.

Definition set_remove_positional_data (s : ServerState) (v : bool) : ServerState :=
  mkServerState v (clients s) (clients_without_udp s) (clients_by_socket s) (channels s)
    (disconnect_queue s) (codec_state s) (restrict_to_version s) (debug_message_id s)
    (session_count s) (channel_count s) (active_clients s) (anticheat s) (bans s) (heap s)
    (next_ref s) (fs s) (udp_out s) (metrics s).
Definition set_clients (s : ServerState) (v : gmap Z ClientRef) : ServerState :=
  mkServerState (remove_positional_data s) v (clients_without_udp s) (clients_by_socket s)
    (channels s) (disconnect_queue s) (codec_state s) (restrict_to_version s)
    (debug_message_id s) (session_count s) (channel_count s) (active_clients s) (anticheat s)
    (bans s) (heap s) (next_ref s) (fs s) (udp_out s) (metrics s).
Definition set_clients_without_udp (s : ServerState) (v : gmap Z ClientRef) : ServerState :=
  mkServerState (remove_positional_data s) (clients s) v (clients_by_socket s) (channels s)
    (disconnect_queue s) (codec_state s) (restrict_to_version s) (debug_message_id s)
    (session_count s) (channel_count s) (active_clients s) (anticheat s) (bans s) (heap s)
    (next_ref s) (fs s) (udp_out s) (metrics s).
Definition set_clients_by_socket (s : ServerState) (v : gmap SocketAddr ClientRef) : ServerState :=
  mkServerState (remove_positional_data s) (clients s) (clients_without_udp s) v (channels s)
    (disconnect_queue s) (codec_state s) (restrict_to_version s) (debug_message_id s)
    (session_count s) (channel_count s) (active_clients s) (anticheat s) (bans s) (heap s)
    (next_ref s) (fs s) (udp_out s) (metrics s).
Definition set_channels (s : ServerState) (v : gmap Z Channel) : ServerState :=
  mkServerState (remove_positional_data s) (clients s) (clients_without_udp s)
    (clients_by_socket s) v (disconnect_queue s) (codec_state s) (restrict_to_version s)
    (debug_message_id s) (session_count s) (channel_count s) (active_clients s) (anticheat s)
    (bans s) (heap s) (next_ref s) (fs s) (udp_out s) (metrics s).
Definition set_disconnect_queue (s : ServerState) (v : gmap Z DisconnectReason) : ServerState :=
  mkServerState (remove_positional_data s) (clients s) (clients_without_udp s)
    (clients_by_socket s) (channels s) v (codec_state s) (restrict_to_version s)
    (debug_message_id s) (session_count s) (channel_count s) (active_clients s) (anticheat s)
    (bans s) (heap s) (next_ref s) (fs s) (udp_out s) (metrics s).
Definition set_codec_state (s : ServerState) (v : CodecState) : ServerState :=
  mkServerState (remove_positional_data s) (clients s) (clients_without_udp s)
    (clients_by_socket s) (channels s) (disconnect_queue s) v (restrict_to_version s)
    (debug_message_id s) (session_count s) (channel_count s) (active_clients s) (anticheat s)
    (bans s) (heap s) (next_ref s) (fs s) (udp_out s) (metrics s).
Definition set_restrict_to_version (s : ServerState) (v : option string) : ServerState :=
  mkServerState (remove_positional_data s) (clients s) (clients_without_udp s)
    (clients_by_socket s) (channels s) (disconnect_queue s) (codec_state s) v
    (debug_message_id s) (session_count s) (channel_count s) (active_clients s) (anticheat s)
    (bans s) (heap s) (next_ref s) (fs s) (udp_out s) (metrics s).
Definition set_debug_message_id (s : ServerState) (v : Z) : ServerState :=
  mkServerState (remove_positional_data s) (clients s) (clients_without_udp s)
    (clients_by_socket s) (channels s) (disconnect_queue s) (codec_state s)
    (restrict_to_version s) v (session_count s) (channel_count s) (active_clients s)
    (anticheat s) (bans s) (heap s) (next_ref s) (fs s) (udp_out s) (metrics s).
Definition set_session_count (s : ServerState) (v : Z) : ServerState :=
  mkServerState (remove_positional_data s) (clients s) (clients_without_udp s)
    (clients_by_socket s) (channels s) (disconnect_queue s) (codec_state s)
    (restrict_to_version s) (debug_message_id s) v (channel_count s) (active_clients s)
    (anticheat s) (bans s) (heap s) (next_ref s) (fs s) (udp_out s) (metrics s).
Definition set_channel_count (s : ServerState) (v : Z) : ServerState :=
  mkServerState (remove_positional_data s) (clients s) (clients_without_udp s)
    (clients_by_socket s) (channels s) (disconnect_queue s) (codec_state s)
    (restrict_to_version s) (debug_message_id s) (session_count s) v (active_clients s)
    (anticheat s) (bans s) (heap s) (next_ref s) (fs s) (udp_out s) (metrics s).
Definition set_active_clients (s : ServerState) (v : Z) : ServerState :=
  mkServerState (remove_positional_data s) (clients s) (clients_without_udp s)
    (clients_by_socket s) (channels s) (disconnect_queue s) (codec_state s)
    (restrict_to_version s) (debug_message_id s) (session_count s) (channel_count s) v
    (anticheat s) (bans s) (heap s) (next_ref s) (fs s) (udp_out s) (metrics s).
Definition set_anticheat (s : ServerState) (v : Anticheat.AnticheatConfig) : ServerState :=
  mkServerState (remove_positional_data s) (clients s) (clients_without_udp s)
    (clients_by_socket s) (channels s) (disconnect_queue s) (codec_state s)
    (restrict_to_version s) (debug_message_id s) (session_count s) (channel_count s)
    (active_clients s) v (bans s) (heap s) (next_ref s) (fs s) (udp_out s) (metrics s).
Definition set_bans (s : ServerState) (v : BanList.BanList) : ServerState :=
  mkServerState (remove_positional_data s) (clients s) (clients_without_udp s)
    (clients_by_socket s) (channels s) (disconnect_queue s) (codec_state s)
    (restrict_to_version s) (debug_message_id s) (session_count s) (channel_count s)
    (active_clients s) (anticheat s) v (heap s) (next_ref s) (fs s) (udp_out s) (metrics s).
Definition set_heap (s : ServerState) (v : gmap ClientRef Client.Client) : ServerState :=
  mkServerState (remove_positional_data s) (clients s) (clients_without_udp s)
    (clients_by_socket s) (channels s) (disconnect_queue s) (codec_state s)
    (restrict_to_version s) (debug_message_id s) (session_count s) (channel_count s)
    (active_clients s) (anticheat s) (bans s) v (next_ref s) (fs s) (udp_out s) (metrics s).
Definition set_next_ref (s : ServerState) (v : ClientRef) : ServerState :=
  mkServerState (remove_positional_data s) (clients s) (clients_without_udp s)
    (clients_by_socket s) (channels s) (disconnect_queue s) (codec_state s)
    (restrict_to_version s) (debug_message_id s) (session_count s) (channel_count s)
    (active_clients s) (anticheat s) (bans s) (heap s) v (fs s) (udp_out s) (metrics s).
Definition set_fs (s : ServerState) (v : FileSystem) : ServerState :=
  mkServerState (remove_positional_data s) (clients s) (clients_without_udp s)
    (clients_by_socket s) (channels s) (disconnect_queue s) (codec_state s)
    (restrict_to_version s) (debug_message_id s) (session_count s) (channel_count s)
    (active_clients s) (anticheat s) (bans s) (heap s) (next_ref s) v (udp_out s) (metrics s).
Definition set_udp_out (s : ServerState) (v : list (SocketAddr * list Z)) : ServerState :=
  mkServerState (remove_positional_data s) (clients s) (clients_without_udp s)
    (clients_by_socket s) (channels s) (disconnect_queue s) (codec_state s)
    (restrict_to_version s) (debug_message_id s) (session_count s) (channel_count s)
    (active_clients s) (anticheat s) (bans s) (heap s) (next_ref s) (fs s) v (metrics s).
Definition set_metrics (s : ServerState) (v : Metrics) : ServerState :=
  mkServerState (remove_positional_data s) (clients s) (clients_without_udp s)
    (clients_by_socket s) (channels s) (disconnect_queue s) (codec_state s)
    (restrict_to_version s) (debug_message_id s) (session_count s) (channel_count s)
    (active_clients s) (anticheat s) (bans s) (heap s) (next_ref s) (fs s) (udp_out s) v.

(** [ServerState::new]. *)
Definition new `{Unicode} (remove_positional_data : bool) (restrict_to_version : option string)
    (anticheat : Anticheat.AnticheatConfig) (bans : BanList.BanList) (fs : FileSystem) : ServerState := {|
  remove_positional_data := remove_positional_data;
  clients := ∅;
  clients_without_udp := ∅;
  clients_by_socket := ∅;
  channels := {[ 0 := Channel.new 0 (Some 0) "Root" "Root channel" false ]};
  disconnect_queue := ∅;
  codec_state := default_codec_state;
  restrict_to_version := to_lowercase <$> restrict_to_version;
  debug_message_id := 0;
  session_count := 1;
  channel_count := 1;
  active_clients := 0;
  anticheat := anticheat;
  bans := bans;
  heap := ∅;
  next_ref := 0%nat;
  fs := fs;
  udp_out := [];
  metrics := no_metrics;
|}.

(** Reading and writing a client through a reference. *)
Definition upgrade (st : ServerState) (r : ClientRef) : option Client.Client := heap st !! r.
Definition upd_client (st : ServerState) (r : ClientRef) (f : Client.Client -> Client.Client) : ServerState :=
  set_heap st (alter f r (heap st)).

(** Running a client operation that returns a result on the client behind a reference. *)
Definition on_client {A} (st : ServerState) (r : ClientRef)
    (f : Client.Client -> Client.Client * Result MumbleError A) : ServerState * Result MumbleError A :=
  match heap st !! r with
  | Some c => let '(c', res) := f c in (set_heap st (<[r := c']> (heap st)), res)
  | None => (st, Err UnknownError)
  end.

(** ** Identifiers *)

(** The loop of [get_free_session_id] and [get_free_channel_id]: the id found and the new counter. *)
Fixpoint free_id_fuel {A} (fuel : nat) (used : gmap Z A) (count : Z) : option (Z * Z) :=
  match fuel with
  | O => None
  | S fuel =>
    match used !! count with
    | Some _ => free_id_fuel fuel used (as_u32 (count + 1))
    | None => Some (count, as_u32 (count + 1))
    end
  end.

Definition free_id {A} (used : gmap Z A) (count : Z) : Z * Z :=
  default (count, count) (free_id_fuel (S (size used)) used count).

Definition get_free_session_id (st : ServerState) : ServerState * Z :=
  let '(i, n) := free_id (clients st) (session_count st) in (set_session_count st n, i).
Definition get_free_channel_id (st : ServerState) : ServerState * Z :=
  let '(i, n) := free_id (channels st) (channel_count st) in (set_channel_count st n, i).

(** ** Clients and channels *)

Definition add_client (st : ServerState) (version : VersionMsg.Version)
    (authenticate : AuthenticateMsg.Authenticate) (crypt_state : CryptState) (write : Client.Writer)
    (publisher : Publisher) (peer_ip : string) (now : Z) : ServerState * ClientRef :=
  let '(st, session_id) := get_free_session_id st in
  let client := Client.new version authenticate session_id 0 crypt_state write publisher peer_ip now in
  let r := next_ref st in
  let st := set_next_ref (set_heap st (<[r := client]> (heap st))) (S r) in
  let st := set_metrics st (CLIENTS_TOTAL_inc (metrics st)) in
  let st := set_active_clients st (as_u32 (active_clients st + 1)) in
  let st := set_clients st (insert_new session_id r (clients st)) in
  let st := set_clients_without_udp st (insert_new session_id r (clients_without_udp st)) in
  (st, r).

Definition add_channel (st : ServerState) (state : ChannelStateMsg.ChannelState) : ServerState * Channel :=
  let '(st, channel_id) := get_free_channel_id st in
  let channel := Channel.new channel_id (Some (get_num (ChannelStateMsg.parent state)))
    (get_str (ChannelStateMsg.name state)) (get_str (ChannelStateMsg.description state))
    (get_bool (ChannelStateMsg.temporary state)) in
  (set_channels st (insert_new channel_id channel (channels st)), channel).

Definition set_client_socket (st : ServerState) (r : ClientRef) (addr : SocketAddr) : ServerState :=
  let old := c ← heap st !! r; Client.udp_socket_addr c in
  let st := upd_client st r (fun c => Client.set_udp_socket_addr c (Some addr)) in
  let st := match old with
            | Some existing => set_clients_by_socket st (delete existing (clients_by_socket st))
            | None => st
            end in
  set_clients_by_socket st (insert_new addr r (clients_by_socket st)).

Definition add_client_to_disconnect_queue (st : ServerState) (session_id : Z) (reason : DisconnectReason)
    : ServerState :=
  set_disconnect_queue st (insert_new session_id reason (disconnect_queue st)).

Definition remove_client_by_socket (st : ServerState) (addr : SocketAddr) : ServerState :=
  set_clients_by_socket st (delete addr (clients_by_socket st)).

Definition get_client_by_session_id (st : ServerState) (session_id : Z) : option ClientRef :=
  clients st !! session_id.

Definition get_client_by_socket (st : ServerState) (addr : SocketAddr) : option ClientRef :=
  r ← clients_by_socket st !! addr; _ ← upgrade st r; Some r.

(** [publisher.try_send], dropping the message and queueing the client for disconnection on failure. *)
Definition publish (st : ServerState) (r : ClientRef) (m : ClientMessage) : ServerState :=
  match heap st !! r with
  | None => st
  | Some c =>
    match try_send (Client.publisher c) m with
    | Some p => set_heap st (<[r := Client.set_publisher c p]> (heap st))
    | None => add_client_to_disconnect_queue st (Client.session_id c) ClientMSPCFull
    end
  end.

Section operations.
Context `{HashIter} `{MumbleProto} `{Aes128}.

Definition get_client_by_name (st : ServerState) (name : string) : option ClientRef :=
  snd <$> List.find (fun p => match heap st !! p.2 with
                              | Some c => bool_decide (get_str (AuthenticateMsg.username (Client.authenticate c)) = name)
                              | None => false
                              end) (hash_iter (clients st)).

Definition get_channel_by_channel_id (st : ServerState) (channel_id : Z) : option (Z * Channel) :=
  List.find (fun p => Channel.id p.2 =? channel_id) (hash_iter (channels st)).

Definition get_channel_by_name (st : ServerState) (name : string) : option (Z * Channel) :=
  List.find (fun p => bool_decide (Channel.name p.2 = name)) (hash_iter (channels st)).

Definition broadcast_message {T} `{ProtoMessage T} (st : ServerState) (kind : MessageKind.MessageKind)
    (message : T) : ServerState * Result MumbleError unit :=
  let st := set_debug_message_id st (as_u64 (debug_message_id st + 1)) in
  match message_to_bytes kind message with
  | Err e => (st, Err e)
  | Ok bytes =>
    (fold_left (fun st p => publish st p.2 (SendMessage kind bytes)) (hash_iter (clients st)) st, Ok tt)
  end.

(** Updating the value of a channel in the map. *)
Definition upd_channel (st : ServerState) (k : Z) (f : Channel -> Channel) : ServerState :=
  set_channels st (alter f k (channels st)).

Definition handle_client_left_channel (st : ServerState) (client_session leave_channel_id : Z)
    : ServerState * option Z :=
  let '(st, keep) :=
    match channels st !! leave_channel_id with
    | Some c =>
      let c' := Channel.set_clients c (delete client_session (Channel.clients c)) in
      (set_channels st (<[leave_channel_id := c']> (channels st)),
       negb (Channel.temporary c') || negb (bool_decide (Channel.clients c' = ∅)))
    | None => (st, false)
    end in
  if keep then (st, None) else
  let st := set_channels st (delete leave_channel_id (channels st)) in
  let '(st, _) := broadcast_message st MessageKind.ChannelRemove
                    (ChannelRemoveMsg.mkChannelRemove (Some leave_channel_id)) in
  (st, Some leave_channel_id).

Definition set_client_channel (st : ServerState) (r : ClientRef) (channel_id : Z)
    : ServerState * Result MumbleError unit :=
  match heap st !! r with
  | None => (st, Err UnknownError)
  | Some client =>
    let '(client, leave_channel_id) := Client.join_channel client channel_id in
    let st := set_heap st (<[r := client]> (heap st)) in
    match get_channel_by_channel_id st channel_id with
    | None => (st, Err ChannelDoesntExist)
    | Some (k, _) =>
      let st := upd_channel st k (fun c =>
        Channel.set_clients c (insert_new (Client.session_id client) r (Channel.clients c))) in
      let '(st, _) := broadcast_message st MessageKind.UserState (Client.get_user_state client) in
      match leave_channel_id with
      | Some leave =>
        if leave =? channel_id then (st, Ok tt)
        else (fst (handle_client_left_channel st (Client.session_id client) leave), Ok tt)
      | None => (st, Ok tt)
      end
    end
  end.

(** ** Voice over UDP *)

(** [client.send_voice_packet(packet)]: the datagram, if any, leaves through the server's socket. *)
Definition send_voice_packet `{UdpSocket} (st : ServerState) (r : ClientRef) (packet : VoicePacket ClientBound)
    : ServerState * Result MumbleError unit :=
  match heap st !! r with
  | None => (st, Err UnknownError)
  | Some c =>
    let '(c, datagram, res) := Client.send_voice_packet udp_send c packet in
    let st := set_heap st (<[r := c]> (heap st)) in
    (set_udp_out st (udp_out st ++ option_list datagram), res)
  end.

(** [sync_client_and_channels]: every channel, then every user, until a send fails. *)
Fixpoint send_all {T} `{ProtoMessage T} (st : ServerState) (r : ClientRef) (kind : MessageKind.MessageKind)
    (messages : list T) : ServerState * Result MumbleError unit :=
  match messages with
  | [] => (st, Ok tt)
  | m :: messages =>
    let! (st, u) := on_client st r (fun c => Client.send_message c kind m) in
    send_all st r kind messages
  end.

Definition sync_client_and_channels (st : ServerState) (r : ClientRef) : ServerState * Result MumbleError unit :=
  let weak_clients := (hash_iter (clients st)).*2 in
  let! (st, u) := send_all st r MessageKind.ChannelState
                    (Channel.get_channel_state <$> (hash_iter (channels st)).*2) in
  send_all st r MessageKind.UserState
    (Client.get_user_state <$> omap (fun r' => heap st !! r') weak_clients).

(** The loop of [find_client_with_decrypt] over the clients without a socket. *)
Fixpoint try_decrypt (st : ServerState) (cands : list (Z * ClientRef)) (bytes : list Z) (addr : SocketAddr)
    (now : Z) : ServerState * option (ClientRef * VoicePacket ServerBound) :=
  match cands with
  | [] => (st, None)
  | (_, r) :: cands =>
    match heap st !! r with
    | None => try_decrypt st cands bytes addr now
    | Some c =>
      let '(cs, res) := decrypt ServerBound (Client.crypt_state c) bytes now in
      let st := set_heap st (<[r := Client.set_crypt_state c cs]> (heap st)) in
      match res with
      | Ok (p, _) => (set_client_socket st r addr, Some (r, p))
      | Err _ => try_decrypt st cands bytes addr now
      end
    end
  end.

Definition find_client_with_decrypt (st : ServerState) (bytes : list Z) (addr : SocketAddr) (now : Z)
    : ServerState * option (ClientRef * VoicePacket ServerBound) :=
  let '(st, found) := try_decrypt st (hash_iter (clients_without_udp st)) bytes addr now in
  match found with
  | Some (r, p) =>
    let session_id := default 0 (Client.session_id <$> heap st !! r) in
    (set_clients_without_udp st (delete session_id (clients_without_udp st)), Some (r, p))
  | None => (st, None)
  end.

Definition reset_client_crypt (st : ServerState) (r : ClientRef) (now : Z)
    : ServerState * Result MumbleError unit :=
  match heap st !! r with
  | None => (st, Err UnknownError)
  | Some c =>
    let st := set_clients_without_udp st (insert_new (Client.session_id c) r (clients_without_udp st)) in
    let '(c, address) := Client.remove_udp_socket c in
    let st := set_heap st (<[r := c]> (heap st)) in
    let st := match address with
              | Some a => remove_client_by_socket st a
              | None => st
              end in
    on_client st r (fun c => Client.send_crypt_setup c true now)
  end.

(** ** Disconnection *)

Definition broadcast_client_delete (st : ServerState) (client_id channel_id : Z) : ServerState :=
  let '(st, _) := broadcast_message st MessageKind.UserRemove
    (UserRemoveMsg.mkUserRemove (Some client_id) None (Some "Disconnected"%string) None) in
  fst (handle_client_left_channel st client_id channel_id).

(** The second half of [disconnect], once the client was looked up: it acts only if the
    client is still in the map. *)
Definition disconnect_found (st : ServerState) (client_session : Z) (client : option ClientRef) (reason : DisconnectReason)
    : ServerState :=
  match clients st !! client_session with
  | None => st
  | Some _ =>
    let st := set_clients st (delete client_session (clients st)) in
    match (r ← client; c ← heap st !! r; Some (r, c)) with
    | None => st
    | Some (r, c) =>
      let channel_id := Client.channel_id c in
      let st := set_clients_without_udp st (delete client_session (clients_without_udp st)) in
      let st := set_metrics st (CLIENTS_TOTAL_dec (metrics st)) in
      let st := set_active_clients st (as_u32 (active_clients st - 1)) in
      let st := set_metrics st (DISCONNECT_inc (disconnect_reason_to_string reason) (metrics st)) in
      let st := upd_client st r (fun c => Client.set_write (Client.set_cancelled c true) None) in
      let st := upd_client st r (fun c => Client.set_udp_socket_addr c None) in
      let st := match Client.udp_socket_addr c with
                | Some a => remove_client_by_socket st a
                | None => st
                end in
      let st := broadcast_client_delete st client_session channel_id in
      match get_channel_by_channel_id st channel_id with
      | Some (k, _) => upd_channel st k (fun ch =>
          Channel.set_clients ch (delete client_session (Channel.clients ch)))
      | None => st
      end
    end
  end.

Definition disconnect (st : ServerState) (client_session : Z) (reason : DisconnectReason) : ServerState :=
  disconnect_found st client_session
    (r ← get_client_by_session_id st client_session; _ ← upgrade st r; Some r) reason.
End operations.

(** ** Memory *)

(** Whether a map of the state holds the client alive. *)
Definition held (st : ServerState) (r : ClientRef) : bool :=
  existsb (fun p => bool_decide (p.2 = r)) (map_to_list (clients st))
  || existsb (fun p => existsb (fun q => bool_decide (q.2 = r)) (map_to_list (Channel.clients p.2))
                       || existsb (fun q => bool_decide (q.2 = r)) (map_to_list (Channel.listeners p.2)))
       (map_to_list (channels st)).

(** The last strong reference outside the maps goes away. *)
Definition reclaim (st : ServerState) (r : ClientRef) : ServerState :=
  if held st r then st else set_heap st (delete r (heap st)).

End ServerState.
