(* ===== verification/StateInv.v ===== *)
(** The invariant of the server state and its preservation by the operations of [State.v]. *)

From stdpp Require Import base gmap strings list.
From Stdlib Require Import ZArith Lia.
From S2P Require Import Prelude Errors Maps Text Voice Messages Crypt Proto Bans Client Anticheat State.
Import ServerState.

(** ** The invariant *)

(** A strong reference: the object is there, under its own session id. *)
Definition strong (st : ServerState) (k : Z) (r : ClientRef) : Prop :=
  exists c, heap st !! r = Some c /\ Client.session_id c = k.

(** All disconnections that were counted, whatever their reason. *)
Definition disconnections (m : Metrics) : Z := map_fold (fun _ n total => n + total) 0 (DISCONNECT m).

(** The metrics keep the books: the gauge shows the connected clients, and every client that was ever admitted is connected or was
    counted out once. *)
Definition books (st : ServerState) : Prop :=
  CLIENTS_TOTAL (metrics st) = Z.of_nat (size (clients st))
  /\ Z.of_nat (size (clients st)) + disconnections (metrics st) = Z.of_nat (next_ref st).

Record state_inv (st : ServerState) : Prop := {
  si_clients k r : clients st !! k = Some r -> in_u 32 k /\ strong st k r;
  si_active : active_clients st = as_u32 (Z.of_nat (size (clients st)));
  si_channels k ch : channels st !! k = Some ch -> in_u 32 k /\ Channel.id ch = k;
  si_members k ch s r : channels st !! k = Some ch ->
    Channel.clients ch !! s = Some r \/ Channel.listeners ch !! s = Some r -> strong st s r;
  si_root : exists ch, channels st !! 0 = Some ch /\ Channel.temporary ch = false;
  si_no_udp k r : clients_without_udp st !! k = Some r ->
    (r < next_ref st)%nat /\ forall c, heap st !! r = Some c -> Client.session_id c = k;
  si_socket a r : clients_by_socket st !! a = Some r ->
    (r < next_ref st)%nat /\ forall c, heap st !! r = Some c -> Client.udp_socket_addr c = Some a;
  si_fresh r : is_Some (heap st !! r) -> (r < next_ref st)%nat;
  si_counts : in_u 32 (session_count st) /\ in_u 32 (channel_count st);
  si_books : books st;
}.

(** ** Operations that only touch the contents of clients *)

Definition same_client (c c' : Client.Client) : Prop :=
  Client.identity c' = Client.identity c /\ Client.udp_socket_addr c' = Client.udp_socket_addr c.

Record same_shape (st st' : ServerState) : Prop := {
  ss_clients : clients st' = clients st;
  ss_active : active_clients st' = active_clients st;
  ss_channels : channels st' = channels st;
  ss_no_udp : clients_without_udp st' = clients_without_udp st;
  ss_socket : clients_by_socket st' = clients_by_socket st;
  ss_next : next_ref st' = next_ref st;
  ss_counts : session_count st' = session_count st /\ channel_count st' = channel_count st;
  ss_metrics : CLIENTS_TOTAL (metrics st') = CLIENTS_TOTAL (metrics st) /\ DISCONNECT (metrics st') = DISCONNECT (metrics st);
  ss_heap r : match heap st !! r, heap st' !! r with
              | Some c, Some c' => same_client c c'
              | None, None => True
              | _, _ => False
              end;
}.

#[global] Instance same_client_refl : Reflexive same_client.
Proof. by split. Qed.

#[global] Instance same_shape_preorder : PreOrder same_shape.
Proof.
  split.
  - intros st. split; try done. intros r. by destruct (heap st !! r).
  - intros s1 s2 s3 [A1 A2 A3 A4 A5 A6 [A7 A8] [A9 A10] Ah] [B1 B2 B3 B4 B5 B6 [B7 B8] [B9 B10] Bh].
    split; [congruence|congruence|congruence|congruence|congruence|congruence|split; congruence|split; congruence|].
    intros r. specialize (Ah r). specialize (Bh r).
    destruct (heap s1 !! r), (heap s2 !! r), (heap s3 !! r); try done.
    destruct Ah, Bh. split; congruence.
Qed.

Lemma same_shape_strong st st' k r : same_shape st st' -> strong st k r -> strong st' k r.
Proof.
  intros Hs (c & Hc & Hk). pose proof (ss_heap _ _ Hs r) as Hr. rewrite Hc in Hr.
  destruct (heap st' !! r) as [c'|] eqn:Hc'; [|done]. exists c'. split; [done|].
  unfold Client.session_id in *. destruct Hr as [-> _]. done.
Qed.

Lemma same_shape_back st st' r c' :
  same_shape st st' -> heap st' !! r = Some c' -> exists c, heap st !! r = Some c /\ same_client c c'.
Proof.
  intros Hs Hc'. pose proof (ss_heap _ _ Hs r) as Hr. rewrite Hc' in Hr.
  destruct (heap st !! r) as [c|]; [|done]. eauto.
Qed.

(** The invariant depends on the shape only. *)
Lemma same_shape_inv st st' : same_shape st st' -> state_inv st -> state_inv st'.
Proof.
  intros Hs [Hcl Hact Hch Hmem Hroot Hnu Hso Hfr Hcnt Hbk].
  pose proof Hs as Hs'. destruct Hs as [E1 E2 E3 E4 E5 E6 [E7 E8] [E9 E10] Eh]. split.
  - intros k r. rewrite E1. intros Hk. destruct (Hcl k r Hk). split; [done|]. by eapply same_shape_strong.
  - by rewrite E1, E2.
  - rewrite E3. done.
  - intros k ch s r. rewrite E3. intros Hk Hm. eapply same_shape_strong; [done|]. by eapply Hmem.
  - by rewrite E3.
  - intros k r. rewrite E4, E6. intros Hk. destruct (Hnu k r Hk) as [Hlt Hc]. split; [done|].
    intros c' Hc'. destruct (same_shape_back _ _ _ _ Hs' Hc') as (c & Hc0 & [Hid _]).
    unfold Client.session_id. rewrite Hid. by apply Hc.
  - intros a r. rewrite E5, E6. intros Ha. destruct (Hso a r Ha) as [Hlt Hc]. split; [done|].
    intros c' Hc'. destruct (same_shape_back _ _ _ _ Hs' Hc') as (c & Hc0 & [_ ->]). by apply Hc.
  - intros r [c' Hc']. rewrite E6. destruct (same_shape_back _ _ _ _ Hs' Hc') as (c & Hc0 & _).
    apply Hfr. by eexists.
  - by rewrite E7, E8.
  - unfold books, disconnections in *. by rewrite E1, E6, E9, E10.
Qed.

Lemma set_heap_same st r c c' :
  heap st !! r = Some c -> same_client c c' -> same_shape st (set_heap st (<[r := c']> (heap st))).
Proof.
  intros Hc Hs. split; try done. intros r'. cbn. destruct (decide (r = r')) as [<-|Hr].
  - by rewrite Hc, lookup_insert_eq.
  - rewrite lookup_insert_ne by done. by destruct (heap st !! r').
Qed.

Lemma upd_client_same st r f :
  (forall c, heap st !! r = Some c -> same_client c (f c)) -> same_shape st (upd_client st r f).
Proof.
  intros Hf. split; try done. intros r'. cbn. destruct (decide (r = r')) as [<-|Hr].
  - rewrite lookup_alter_eq. destruct (heap st !! r) as [c|] eqn:Hc; cbn; auto.
  - rewrite lookup_alter_ne by done. by destruct (heap st !! r').
Qed.

Lemma on_client_same {A} st r (f : Client.Client -> Client.Client * Result MumbleError A) :
  (forall c, same_client c (fst (f c))) -> same_shape st (fst (on_client st r f)).
Proof.
  intros Hf. unfold on_client. destruct (heap st !! r) as [c|] eqn:Hc; [|done].
  specialize (Hf c). destruct (f c) as [c' res]. by eapply set_heap_same.
Qed.

Lemma queue_same st s d : same_shape st (add_client_to_disconnect_queue st s d).
Proof. split; try done. intros r. cbn. by destruct (heap st !! r). Qed.

Lemma publish_same st r m : same_shape st (publish st r m).
Proof.
  unfold publish. destruct (heap st !! r) as [c|] eqn:Hc; [|done].
  destruct (try_send _ _); [by eapply set_heap_same|apply queue_same].
Qed.

Lemma publish_all_same st (l : list (Z * ClientRef)) m :
  same_shape st (fold_left (fun st p => publish st p.2 m) l st).
Proof.
  revert st. induction l as [|p l IH]; intros st; [done|]. cbn [fold_left].
  etransitivity; [apply publish_same|apply IH].
Qed.

Lemma broadcast_same `{HashIter} {T} `{ProtoMessage T} st kind (m : T) :
  same_shape st (fst (broadcast_message st kind m)).
Proof.
  unfold broadcast_message. set (st1 := set_debug_message_id _ _).
  assert (same_shape st st1) as H1 by (split; try done; intros r; cbn; by destruct (heap st !! r)).
  destruct (message_to_bytes kind m); cbn [fst]; [|done]. etransitivity; [done|apply publish_all_same].
Qed.

(** ** Free identifiers *)

Lemma free_id_fuel_some {A} fuel (used : gmap Z A) count i n :
  in_u 32 count -> free_id_fuel fuel used count = Some (i, n) ->
  used !! i = None /\ in_u 32 i /\ n = as_u32 (i + 1).
Proof.
  revert count. induction fuel as [|fuel IH]; intros count Hc H; [done|]. cbn in H.
  destruct (used !! count) eqn:Hu; [|by simplify_eq].
  eapply IH; [|done]. apply as_u32_range.
Qed.

Lemma free_id_fuel_none {A} fuel (used : gmap Z A) count :
  in_u 32 count -> free_id_fuel fuel used count = None ->
  forall j, (j < fuel)%nat -> is_Some (used !! as_u32 (count + Z.of_nat j)).
Proof.
  revert count. induction fuel as [|fuel IH]; intros count Hc H j Hj; [lia|]. cbn in H.
  destruct (used !! count) as [a|] eqn:Hu; [|done]. destruct j as [|j].
  - rewrite Z.add_0_r, as_u32_small by done. by eexists.
  - specialize (IH _ (as_u32_range _) H j ltac:(lia)).
    replace (as_u32 (count + Z.of_nat (S j))) with (as_u32 (as_u32 (count + 1) + Z.of_nat j)); [done|].
    unfold as_u32, wrap. rewrite Zplus_mod_idemp_l. f_equal. lia.
Qed.

(** Pigeonhole: distinct keys that are all used number at most the size of the map. *)
Lemma used_keys_le {A} (used : gmap Z A) (l : list Z) :
  NoDup l -> (forall x, x ∈ l -> is_Some (used !! x)) -> (length l <= size used)%nat.
Proof.
  intros Hnd Hin. rewrite <-size_dom. rewrite <-(size_list_to_set (C := gset Z) l) by done.
  apply subseteq_size. intros x Hx. apply elem_of_list_to_set in Hx. by apply elem_of_dom, Hin.
Qed.

(** The search ends within one more step than there are identifiers in use. *)
Lemma free_id_found {A} fuel (used : gmap Z A) count :
  in_u 32 count -> Z.of_nat (size used) < 2 ^ 32 -> (size used < fuel)%nat ->
  is_Some (free_id_fuel fuel used count).
Proof.
  intros Hc Hs Hf. destruct (free_id_fuel fuel used count) eqn:H; [by eexists|]. exfalso.
  pose proof (free_id_fuel_none _ _ _ Hc H) as Hall.
  set (l := (fun j => as_u32 (count + Z.of_nat j)) <$> List.seq 0 (S (size used))).
  assert (length l <= size used)%nat as Hle.
  { apply used_keys_le.
    - apply NoDup_fmap_2_strong; [|apply NoDup_seq]. intros x y Hx Hy Heq.
      apply elem_of_seq in Hx, Hy. revert Heq. range_lia.
    - intros x (j & -> & Hj)%list_elem_of_fmap. apply elem_of_seq in Hj. apply Hall. lia. }
  subst l. rewrite length_fmap, length_seq in Hle. lia.
Qed.

Lemma free_id_spec {A} (used : gmap Z A) count i n :
  in_u 32 count -> Z.of_nat (size used) < 2 ^ 32 -> free_id used count = (i, n) ->
  used !! i = None /\ in_u 32 i /\ n = as_u32 (i + 1).
Proof.
  intros Hc Hs. unfold free_id. destruct (free_id_found (S (size used)) used count Hc Hs) as [[i' n'] H]; [lia|].
  rewrite H. cbn. intros [= -> ->]. by eapply free_id_fuel_some.
Qed.

(** ** Preservation by the operations *)

Lemma strong_heap st st' k r :
  (forall c, heap st !! r = Some c -> exists c', heap st' !! r = Some c' /\ Client.session_id c' = Client.session_id c) ->
  strong st k r -> strong st' k r.
Proof.
  intros Hh (c & Hc & Hk). destruct (Hh c Hc) as (c' & Hc' & Hs). exists c'. split; [done|congruence].
Qed.

Lemma add_client_inv st version auth cs w p ip now :
  state_inv st -> Z.of_nat (size (clients st)) < 2 ^ 32 ->
  let '(st', r) := add_client st version auth cs w p ip now in
  state_inv st' /\ exists c s, heap st' !! r = Some c /\ Client.session_id c = s /\ clients st !! s = None
    /\ clients st' = <[s := r]> (clients st)
    /\ c = Client.new version auth s 0 cs w p ip now.
Proof.
  intros Hinv Hsz. unfold add_client, get_free_session_id.
  destruct (free_id (clients st) (session_count st)) as [s n] eqn:Hid.
  destruct (free_id_spec _ _ _ _ (proj1 (si_counts _ Hinv)) Hsz Hid) as (Hfree & Hs & Hn).
  destruct Hinv as [Hcl Hact Hch Hmem Hroot Hnu Hso Hfr Hcnt Hbk].
  unfold books in Hbk. set (c := Client.new version auth s 0 cs w p ip now). cbn -[insert_new as_u32].
  set (r := next_ref st) in *. clearbody r. assert (heap st !! r = None) as Hr.
  { destruct (heap st !! r) eqn:Hr; [|done]. specialize (Hfr r ltac:(by eexists)). lia. }
  assert (insert_new s r (clients st) = <[s := r]> (clients st)) as Hins by (unfold insert_new; by rewrite Hfree).
  assert (forall r', r' <> r -> <[r := c]> (heap st) !! r' = heap st !! r') as Hne
    by (intros; by rewrite lookup_insert_ne).
  assert (forall r' c', (r' < r)%nat -> <[r := c]> (heap st) !! r' = Some c' -> heap st !! r' = Some c') as Hold
    by (intros r' c' Hlt; rewrite Hne; [done|lia]).
  assert (forall k r', strong st k r' -> exists c', <[r := c]> (heap st) !! r' = Some c' /\ Client.session_id c' = k) as Hst.
  { intros k r' (c' & Hc' & Hk). exists c'. rewrite Hne; [done|congruence]. }
  split.
  - split; cbn -[insert_new as_u32]; rewrite ?Hins.
    + intros k r'. rewrite lookup_insert_Some. intros [[<- <-]|[_ Hk]].
      * split; [done|]. exists c. cbn. by rewrite lookup_insert_eq.
      * destruct (Hcl k r' Hk). split; [done|]. by apply Hst.
    + rewrite Hact, map_size_insert_None by done. rewrite Nat2Z.inj_succ. unfold as_u32, wrap.
      rewrite Zplus_mod_idemp_l. f_equal.
    + done.
    + intros k ch s' r' Hk Hm. by eapply Hst, Hmem.
    + done.
    + intros k r'. rewrite lookup_insert_new. case_decide as Hk; [|].
      * intros [= <-]. subst k. destruct (clients_without_udp st !! s) as [r0|] eqn:H0; cbn.
        -- destruct (Hnu s r0 H0) as [Hlt Hc]. split; [lia|]. intros c' Hc'. by apply Hc, Hold.
        -- split; [lia|]. intros c'. rewrite lookup_insert_eq. by intros [= <-].
      * intros H0. destruct (Hnu k r' H0) as [Hlt Hc]. split; [lia|]. intros c' Hc'. by apply Hc, Hold.
    + intros a r' Ha. destruct (Hso a r' Ha) as [Hlt Hc]. split; [lia|]. intros c' Hc'. by apply Hc, Hold.
    + intros r' [c' Hc']. revert Hc'. rewrite lookup_insert_Some. intros [[<- _]|[_ Hc']]; [lia|].
      specialize (Hfr r' ltac:(by eexists)). lia.
    + split; [rewrite Hn; apply as_u32_range|apply Hcnt].
    + unfold books. cbn -[insert_new]. rewrite map_size_insert_None by done. change (disconnections (CLIENTS_TOTAL_inc (metrics st)))
        with (disconnections (metrics st)). lia.
  - exists c, s. rewrite lookup_insert_eq. by rewrite Hins.
Qed.

(** *** Channels *)

Record channel_ok (st : ServerState) (k : Z) (ch : Channel) : Prop := {
  co_key : in_u 32 k /\ Channel.id ch = k;
  co_members s r : Channel.clients ch !! s = Some r \/ Channel.listeners ch !! s = Some r -> strong st s r;
  co_root : k = 0 -> Channel.temporary ch = false;
}.

Lemma state_inv_channel st k ch : state_inv st -> channels st !! k = Some ch -> channel_ok st k ch.
Proof.
  intros Hinv Hk. split; [by apply (si_channels _ Hinv)|intros s r; by apply (si_members _ Hinv k)|].
  intros ->. destruct (si_root _ Hinv) as (ch0 & H0 & Ht). congruence.
Qed.

Lemma insert_channel_inv st k ch :
  state_inv st -> channel_ok st k ch -> state_inv (set_channels st (<[k := ch]> (channels st))).
Proof.
  intros [Hcl Hact Hch Hmem Hroot Hnu Hso Hfr Hcnt Hbk] [Hk Hm Hr]. split; try done; cbn.
  - intros k' ch'. rewrite lookup_insert_Some. intros [[<- <-]|[_ H']]; [done|by apply Hch].
  - intros k' ch' s r. rewrite lookup_insert_Some. intros [[<- <-]|[_ H']]; [apply Hm|by eapply Hmem].
  - destruct (decide (k = 0)) as [->|Hne]; [exists ch; rewrite lookup_insert_eq; auto|].
    destruct Hroot as (ch0 & H0 & Ht). exists ch0. by rewrite lookup_insert_ne.
Qed.

Lemma delete_channel_inv st k :
  state_inv st -> k <> 0 -> state_inv (set_channels st (delete k (channels st))).
Proof.
  intros [Hcl Hact Hch Hmem Hroot Hnu Hso Hfr Hcnt Hbk] Hk. split; try done; cbn.
  - intros k' ch'. rewrite lookup_delete_Some. intros [_ H']. by apply Hch.
  - intros k' ch' s r. rewrite lookup_delete_Some. intros [_ H']. by eapply Hmem.
  - destruct Hroot as (ch0 & H0 & Ht). exists ch0. by rewrite lookup_delete_ne.
Qed.

(** Changing the members of one channel. *)
Lemma upd_channel_inv st k f :
  state_inv st -> (forall ch, channels st !! k = Some ch -> channel_ok st k (f ch)) ->
  state_inv (upd_channel st k f).
Proof.
  intros Hinv Hf. unfold upd_channel. destruct (channels st !! k) as [ch|] eqn:Hk.
  - replace (alter f k (channels st)) with (<[k := f ch]> (channels st)); [by apply insert_channel_inv, Hf|].
    apply map_eq. intros k'. destruct (decide (k = k')) as [<-|Hne].
    + by rewrite lookup_insert_eq, lookup_alter_eq, Hk.
    + by rewrite lookup_insert_ne, lookup_alter_ne.
  - rewrite alter_id by (intros; congruence). by destruct st.
Qed.

Lemma remove_member_ok st k ch s :
  channel_ok st k ch -> channel_ok st k (Channel.set_clients ch (delete s (Channel.clients ch))).
Proof.
  intros [Hk Hm Hr]. split; cbn; [done| |done].
  intros s' r [H'|H']; apply Hm; [left|by right].
  apply lookup_delete_Some in H' as [_ H']. done.
Qed.

Lemma add_member_ok st k ch s r :
  channel_ok st k ch -> strong st s r ->
  channel_ok st k (Channel.set_clients ch (insert_new s r (Channel.clients ch))).
Proof.
  intros [Hk Hm Hr] Hs. split; cbn; [done| |done].
  intros s' r' [H'|H']; [|by apply Hm; right]. rewrite lookup_insert_new in H'. case_decide; [|by apply Hm; left].
  subst s'. destruct (Channel.clients ch !! s) eqn:H0; cbn in H'; simplify_eq; [|done]. apply Hm. by left.
Qed.

Lemma add_channel_inv st state :
  state_inv st -> Z.of_nat (size (channels st)) < 2 ^ 32 ->
  let '(st', ch) := add_channel st state in
  state_inv st' /\ channels st !! Channel.id ch = None
  /\ channels st' = <[Channel.id ch := ch]> (channels st).
Proof.
  intros Hinv Hsz. unfold add_channel, get_free_channel_id.
  destruct (free_id (channels st) (channel_count st)) as [i n] eqn:Hid.
  destruct (free_id_spec _ _ _ _ (proj2 (si_counts _ Hinv)) Hsz Hid) as (Hfree & Hi & Hn). cbn -[insert_new].
  assert (forall ch, insert_new i ch (channels st) = <[i := ch]> (channels st)) as Hins
    by (intros; unfold insert_new; by rewrite Hfree).
  rewrite Hins. split; [|done].
  assert (state_inv (set_channel_count st n)) as Hinv1.
  { destruct Hinv as [Hcl Hact Hch Hmem Hroot Hnu Hso Hfr Hcnt Hbk]. split; try done. cbn.
    split; [apply Hcnt|rewrite Hn; apply as_u32_range]. }
  apply (insert_channel_inv (set_channel_count st n)); [done|]. split; cbn; [done| |].
  - intros s r [H'|H']; by apply lookup_empty_Some in H'.
  - intros ->. destruct (si_root _ Hinv) as (ch0 & H0 & _). congruence.
Qed.

Section channels.
Context `{HashIter} `{MumbleProto}.

(** Deleting a channel and telling the clients. *)
Lemma left_channel_inv st s leave : state_inv st -> state_inv (fst (handle_client_left_channel st s leave)).
Proof.
  intros Hinv. unfold handle_client_left_channel. destruct (channels st !! leave) as [ch|] eqn:Hch.
  - pose proof (state_inv_channel _ _ _ Hinv Hch) as Hok.
    set (ch' := Channel.set_clients ch _). set (st1 := set_channels st _).
    assert (state_inv st1) as I1 by (apply insert_channel_inv; [done|by apply remove_member_ok]).
    destruct (negb (Channel.temporary ch') || _) eqn:Hkeep; [done|].
    assert (leave <> 0).
    { intros Hz. apply orb_false_iff in Hkeep as [Ht _]. change (Channel.temporary ch') with (Channel.temporary ch) in Ht.
      rewrite (co_root _ _ _ Hok Hz) in Ht. done. }
    set (st2 := set_channels st1 _).
    assert (state_inv st2) as I2 by (by apply delete_channel_inv).
    pose proof (broadcast_same st2 MessageKind.ChannelRemove (ChannelRemoveMsg.mkChannelRemove (Some leave))) as Hb.
    destruct (broadcast_message st2 _ _) as [st3 res]. cbn in *. by eapply same_shape_inv.
  - set (st2 := set_channels st _).
    assert (state_inv st2) as I2.
    { apply delete_channel_inv; [done|]. intros ->. destruct (si_root _ Hinv) as (ch0 & E0 & _). congruence. }
    pose proof (broadcast_same st2 MessageKind.ChannelRemove (ChannelRemoveMsg.mkChannelRemove (Some leave))) as Hb.
    destruct (broadcast_message st2 _ _) as [st3 res]. cbn in *. by eapply same_shape_inv.
Qed.

Lemma find_channel_spec `{!HashIterLaws} st id k ch :
  get_channel_by_channel_id st id = Some (k, ch) -> channels st !! k = Some ch /\ Channel.id ch = id.
Proof.
  intros Hf. apply find_some in Hf as [Hin Hid]. apply list_elem_of_In, elem_of_hash_iter in Hin.
  split; [done|]. cbn in Hid. lia.
Qed.

Lemma find_channel_none `{!HashIterLaws} st id :
  get_channel_by_channel_id st id = None -> forall k ch, channels st !! k = Some ch -> Channel.id ch <> id.
Proof.
  intros Hf k ch Hk Hid. eapply find_none in Hf; [|by apply list_elem_of_In, elem_of_hash_iter].
  cbn in Hf. lia.
Qed.

Lemma join_channel_same c id : same_client c (fst (Client.join_channel c id)).
Proof. unfold Client.join_channel. by case_if. Qed.

Lemma set_client_channel_inv `{!HashIterLaws} st r id :
  state_inv st -> state_inv (fst (set_client_channel st r id)).
Proof.
  intros Hinv. unfold set_client_channel. destruct (heap st !! r) as [c|] eqn:Hc; [|done].
  pose proof (join_channel_same c id) as Hj. destruct (Client.join_channel c id) as [c' leave]. cbn [fst] in Hj.
  set (st1 := set_heap st _).
  assert (state_inv st1) as I1 by (eapply same_shape_inv; [by eapply set_heap_same|done]).
  destruct (get_channel_by_channel_id st1 id) as [[k ch]|] eqn:Hf; [|done].
  apply find_channel_spec in Hf as [Hk Hid]. set (st2 := upd_channel st1 k _).
  assert (state_inv st2) as I2.
  { apply upd_channel_inv; [done|]. intros ch' Hch'. apply add_member_ok; [by apply state_inv_channel|].
    exists c'. split; [|done]. cbn. by rewrite lookup_insert_eq. }
  pose proof (broadcast_same st2 MessageKind.UserState (Client.get_user_state c')) as Hb.
  destruct (broadcast_message st2 _ _) as [st3 res]. cbn [fst] in Hb.
  assert (state_inv st3) as I3 by (by eapply same_shape_inv).
  destruct leave as [leave|]; [|done]. case_if; [done|]. by apply left_channel_inv.
Qed.
End channels.

(** *** Sockets *)

(** Changing the address of one client while no other socket entry refers to it. *)
Lemma set_socket_inv (st : ServerState) (r : ClientRef) (c c' : Client.Client) (m : gmap SocketAddr ClientRef) :
  state_inv st -> heap st !! r = Some c -> Client.identity c' = Client.identity c ->
  (forall a r', m !! a = Some r' ->
     (r' = r /\ Client.udp_socket_addr c' = Some a) \/ (r' <> r /\ clients_by_socket st !! a = Some r')) ->
  state_inv (set_clients_by_socket (set_heap st (<[r := c']> (heap st))) m).
Proof.
  intros [Hcl Hact Hch Hmem Hroot Hnu Hso Hfr Hcnt Hbk] Hc Hid Hm.
  assert (forall r' c1, <[r := c']> (heap st) !! r' = Some c1 -> exists c0, heap st !! r' = Some c0
    /\ Client.session_id c1 = Client.session_id c0) as Hback.
  { intros r' c1. rewrite lookup_insert_Some. intros [[<- <-]|[_ H']]; [|eauto].
    exists c. unfold Client.session_id. by rewrite Hid. }
  set (st' := set_clients_by_socket _ m).
  assert (forall k r', strong st k r' -> strong st' k r') as Hst.
  { intros k r'. apply strong_heap. intros c0 H0. cbn. destruct (decide (r = r')) as [<-|Hne].
    - exists c'. rewrite lookup_insert_eq. split; [done|]. unfold Client.session_id. congruence.
    - exists c0. by rewrite lookup_insert_ne. }
  split; try done; cbn.
  - intros k r' Hk. destruct (Hcl k r' Hk). auto.
  - intros k ch s r' Hk H'. by eapply Hst, Hmem.
  - intros k r' Hk. destruct (Hnu k r' Hk) as [Hlt Hc0]. split; [done|]. intros c1 H'.
    destruct (Hback r' c1 H') as (c0 & H0 & ->). auto.
  - intros a r' Ha. destruct (Hm a r' Ha) as [[-> Ha']|[Hne Ha']].
    + split; [apply Hfr; by eexists|]. intros c1. rewrite lookup_insert_eq. by intros [= <-].
    + destruct (Hso a r' Ha') as [Hlt Hc0]. split; [done|]. intros c1. rewrite lookup_insert_ne by done. auto.
  - intros r' [c1 H']. destruct (Hback r' c1 H') as (c0 & H0 & _). apply Hfr. by eexists.
Qed.

Lemma alter_insert {A} (f : A -> A) (m : gmap nat A) r a :
  m !! r = Some a -> alter f r m = <[r := f a]> m.
Proof.
  intros Hr. apply map_eq. intros r'. destruct (decide (r = r')) as [<-|Hne].
  - by rewrite lookup_insert_eq, lookup_alter_eq, Hr.
  - by rewrite lookup_insert_ne, lookup_alter_ne.
Qed.

Lemma set_client_socket_inv st r addr :
  state_inv st -> is_Some (heap st !! r) -> state_inv (set_client_socket st r addr).
Proof.
  intros Hinv [c Hc]. unfold set_client_socket, upd_client. rewrite Hc. cbn [mbind option_bind].
  rewrite (alter_insert _ _ _ _ Hc). set (c' := Client.set_udp_socket_addr c (Some addr)).
  assert (forall a r', clients_by_socket st !! a = Some r' -> r' = r -> Client.udp_socket_addr c = Some a) as Hr.
  { intros a r' Ha ->. by apply (si_socket _ Hinv a r Ha). }
  destruct (Client.udp_socket_addr c) as [old|] eqn:Hold; cbn -[insert_new].
  - apply (set_socket_inv st r c c'); try done. intros a r'. rewrite lookup_insert_new.
    assert (forall a', delete old (clients_by_socket st) !! a' = Some r' -> r' <> r /\ clients_by_socket st !! a' = Some r') as Hd.
    { intros a' [Hne Ha]%lookup_delete_Some. split; [|done]. intros ->. specialize (Hr a' r Ha eq_refl). congruence. }
    case_decide; [subst a|by right; apply Hd].
    destruct (delete old (clients_by_socket st) !! addr) as [r0|] eqn:H0; cbn; intros [= ->];
      [by right; apply Hd|by left].
  - apply (set_socket_inv st r c c'); try done. intros a r'. rewrite lookup_insert_new.
    assert (forall a', clients_by_socket st !! a' = Some r' -> r' <> r /\ clients_by_socket st !! a' = Some r') as Hd.
    { intros a' Ha. split; [|done]. intros ->. specialize (Hr a' r Ha eq_refl). congruence. }
    case_decide; [subst a|by right; apply Hd].
    destruct (clients_by_socket st !! addr) as [r0|] eqn:H0; cbn; intros [= ->];
      [by right; split; [apply (Hd addr)|]|by left].
Qed.

(** Removing the address from a client and from the socket map. *)
Lemma drop_socket_inv (st : ServerState) (r : ClientRef) (c c' : Client.Client) :
  state_inv st -> heap st !! r = Some c -> Client.identity c' = Client.identity c ->
  Client.udp_socket_addr c' = None ->
  state_inv (match Client.udp_socket_addr c with
             | Some a => remove_client_by_socket (set_heap st (<[r := c']> (heap st))) a
             | None => set_heap st (<[r := c']> (heap st))
             end).
Proof.
  intros Hinv Hc Hid Hnone.
  assert (forall a r', clients_by_socket st !! a = Some r' -> r' = r -> Client.udp_socket_addr c = Some a) as Hr.
  { intros a r' Ha ->. by apply (si_socket _ Hinv a r Ha). }
  destruct (Client.udp_socket_addr c) as [old|] eqn:Hold.
  - apply (set_socket_inv st r c c'); try done. cbn. intros a r' [Hne Ha]%lookup_delete_Some.
    right. split; [|done]. intros ->. specialize (Hr a r Ha eq_refl). congruence.
  - replace (set_heap st _) with (set_clients_by_socket (set_heap st (<[r := c']> (heap st))) (clients_by_socket st))
      by done.
    apply (set_socket_inv st r c c'); try done. intros a r' Ha. right. split; [|done].
    intros ->. specialize (Hr a r Ha eq_refl). congruence.
Qed.

Lemma set_no_udp_inv st m :
  state_inv st ->
  (forall k r, m !! k = Some r -> clients_without_udp st !! k = Some r \/ strong st k r) ->
  state_inv (set_clients_without_udp st m).
Proof.
  intros [Hcl Hact Hch Hmem Hroot Hnu Hso Hfr Hcnt Hbk] Hm. split; try done; cbn.
  intros k r Hk. destruct (Hm k r Hk) as [H'|(c & Hc & Hs)]; [by apply Hnu|].
  split; [apply Hfr; by eexists|]. intros c' Hc'. congruence.
Qed.

Lemma send_same c data : same_client c (fst (Client.send c data)).
Proof. unfold Client.send. case_if; [done|]. destruct (Client.write c); [|done]. by case_if. Qed.

Lemma send_message_same {T} `{ProtoMessage T} c kind (m : T) : same_client c (fst (Client.send_message c kind m)).
Proof. unfold Client.send_message. destruct (message_to_bytes kind m); [apply send_same|done]. Qed.

Lemma send_crypt_setup_same `{MumbleProto} c b now : same_client c (fst (Client.send_crypt_setup c b now)).
Proof.
  unfold Client.send_crypt_setup. cbv zeta. set (c1 := if b then _ else c).
  assert (same_client c c1) as Hc1 by (subst c1; by destruct b).
  destruct (send_message_same c1 MessageKind.CryptSetup (get_crypt_setup (Client.crypt_state c1))) as [I1 I2].
  destruct Hc1. split; congruence.
Qed.

(** *** Voice over UDP *)

Section udp.
Context `{HashIter} `{MumbleProto} `{Aes128}.

Lemma try_decrypt_inv st cands bytes addr now :
  state_inv st ->
  let '(st', found) := try_decrypt st cands bytes addr now in
  state_inv st' /\ clients_without_udp st' = clients_without_udp st
  /\ (forall r p, found = Some (r, p) -> is_Some (heap st' !! r)).
Proof.
  revert st. induction cands as [|[k r] cands IH]; intros st Hinv; cbn; [by split_and!|].
  destruct (heap st !! r) as [c|] eqn:Hc; [|by apply IH].
  destruct (decrypt ServerBound (Client.crypt_state c) bytes now) as [cs res].
  set (st1 := set_heap st _).
  assert (state_inv st1) as I1 by (eapply same_shape_inv; [by eapply set_heap_same|done]).
  assert (heap st1 !! r = Some (Client.set_crypt_state c cs)) as Hr1 by (cbn; by rewrite lookup_insert_eq).
  destruct res as [[p rest]|e]; [|apply (IH st1 I1)].
  split_and!; [apply set_client_socket_inv; [done|by eexists]|unfold set_client_socket; by case_match|].
  intros r' p' [= <- <-]. unfold set_client_socket. case_match; cbn;
    rewrite lookup_alter_eq, lookup_insert_eq; by eexists.
Qed.

Lemma find_client_inv st bytes addr now :
  state_inv st -> state_inv (fst (find_client_with_decrypt st bytes addr now)).
Proof.
  intros Hinv. unfold find_client_with_decrypt.
  pose proof (try_decrypt_inv st (hash_iter (clients_without_udp st)) bytes addr now Hinv) as Ht.
  destruct (try_decrypt _ _ _ _ _) as [st' [[r p]|]]; destruct Ht as (I1 & _ & _); [|done]. cbn [fst].
  apply set_no_udp_inv; [done|]. intros k r' [_ Hk]%lookup_delete_Some. by left.
Qed.

Lemma reset_client_crypt_inv st r now : state_inv st -> state_inv (fst (reset_client_crypt st r now)).
Proof.
  intros Hinv. unfold reset_client_crypt. destruct (heap st !! r) as [c|] eqn:Hc; [|done].
  cbn [Client.remove_udp_socket fst snd].
  set (st1 := set_clients_without_udp st _).
  assert (state_inv st1) as I1.
  { apply set_no_udp_inv; [done|]. intros k r'. rewrite lookup_insert_new. case_decide; [|by left].
    subst k. destruct (clients_without_udp st !! Client.session_id c) eqn:E; cbn; intros [= ->]; [by left|].
    right. by exists c. }
  pose proof (drop_socket_inv st1 r c (Client.set_udp_socket_addr c None) I1 Hc eq_refl eq_refl) as I2.
  set (st2 := match Client.udp_socket_addr c with Some _ => _ | None => _ end) in I2 |- *.
  eapply same_shape_inv; [apply on_client_same; intros; apply send_crypt_setup_same|done].
Qed.

(** *** Disconnection *)

Lemma strong_fun st k1 k2 r : strong st k1 r -> strong st k2 r -> k1 = k2.
Proof. intros (c1 & E1 & <-) (c2 & E2 & <-). congruence. Qed.

Lemma disconnections_inc label m : disconnections (DISCONNECT_inc label m) = disconnections m + 1.
Proof.
  unfold disconnections. cbn. set (total := fun (_ : string) n t => n + t).
  assert (forall k n (d : gmap string Z), d !! k = None -> map_fold total 0 (<[k := n]> d) = n + map_fold total 0 d) as Hins
    by (intros k n d Hk; rewrite map_fold_insert_L; [done|intros; unfold total; lia|done]).
  destruct (DISCONNECT m !! label) as [n|] eqn:Hn; cbn [default].
  - rewrite <-(insert_delete_id (DISCONNECT m) label n Hn), insert_insert_eq, !Hins by apply lookup_delete_eq. unfold id. lia.
  - rewrite Hins by done. lia.
Qed.

Lemma remove_client_inv st s r label :
  state_inv st -> clients st !! s = Some r ->
  state_inv (set_metrics (set_active_clients (set_clients st (delete s (clients st))) (as_u32 (active_clients st - 1)))
    (DISCONNECT_inc label (CLIENTS_TOTAL_dec (metrics st)))).
Proof.
  intros [Hcl Hact Hch Hmem Hroot Hnu Hso Hfr Hcnt Hbk] Hs.
  assert (size (clients st) = S (size (delete s (clients st)))) as Hsz.
  { rewrite map_size_delete_Some by (by eexists).
    assert (size (clients st) <> 0%nat); [|lia]. rewrite map_size_non_empty_iff.
    intros He. rewrite He in Hs. by apply lookup_empty_Some in Hs. }
  split; try done; cbn.
  - intros k r' [_ Hk]%lookup_delete_Some. by apply Hcl.
  - rewrite Hact, Hsz, Nat2Z.inj_succ. unfold as_u32, wrap. rewrite Zminus_mod_idemp_l. f_equal. lia.
  - unfold books in *. cbn -[disconnections]. rewrite disconnections_inc.
    change (disconnections (CLIENTS_TOTAL_dec (metrics st))) with (disconnections (metrics st)). lia.
Qed.

Lemma broadcast_client_delete_inv st s id : state_inv st -> state_inv (broadcast_client_delete st s id).
Proof.
  intros Hinv. unfold broadcast_client_delete.
  pose proof (broadcast_same st MessageKind.UserRemove
    (UserRemoveMsg.mkUserRemove (Some s) None (Some "Disconnected"%string) None)) as Hb.
  destruct (broadcast_message st _ _) as [st1 res]. apply left_channel_inv. by eapply same_shape_inv.
Qed.

Lemma disconnect_found_inv `{!HashIterLaws} st s client reason :
  state_inv st -> (forall r, clients st !! s = Some r -> client = Some r) ->
  state_inv (disconnect_found st s client reason).
Proof.
  intros Hinv Hcl. unfold disconnect_found. destruct (clients st !! s) as [r|] eqn:Hs; [|done].
  rewrite (Hcl r eq_refl). destruct (si_clients _ Hinv s r Hs) as [_ (c & Hc & Hsid)].
  cbn [mbind option_bind heap set_clients]. rewrite Hc. cbn -[as_u32 DISCONNECT_inc CLIENTS_TOTAL_dec].
  set (st1 := set_metrics (set_active_clients _ _) (DISCONNECT_inc _ _)).
  assert (state_inv st1) as I1.
  { pose proof (remove_client_inv st s r (disconnect_reason_to_string reason) Hinv Hs) as I0.
    apply (set_no_udp_inv _ (delete s (clients_without_udp st))) in I0; [done|].
    intros k r' [_ Hk]%lookup_delete_Some. by left. }
  unfold upd_client. rewrite (alter_insert _ _ r c) by done.
  set (c1 := Client.set_write (Client.set_cancelled c true) None).
  set (st2 := set_heap st1 (<[r := c1]> (heap st1))).
  assert (heap st2 !! r = Some c1) as Hc1 by (cbn; by rewrite lookup_insert_eq).
  assert (state_inv st2) as I2 by (eapply same_shape_inv; [by apply (set_heap_same st1 r c c1)|done]).
  rewrite (alter_insert _ _ r c1 Hc1).
  pose proof (drop_socket_inv st2 r c1 (Client.set_udp_socket_addr c1 None) I2 Hc1 eq_refl eq_refl) as I3.
  change (Client.udp_socket_addr c1) with (Client.udp_socket_addr c) in I3.
  set (st3 := match Client.udp_socket_addr c with Some _ => _ | None => _ end) in I3 |- *.
  pose proof (broadcast_client_delete_inv st3 s (Client.channel_id c) I3) as I4.
  set (st4 := broadcast_client_delete st3 s (Client.channel_id c)) in I4 |- *.
  destruct (get_channel_by_channel_id st4 _) as [[k ch]|]; [|done].
  apply upd_channel_inv; [done|]. intros ch' Hch'. by apply remove_member_ok, state_inv_channel.
Qed.

Lemma disconnect_inv `{!HashIterLaws} st s reason : state_inv st -> state_inv (disconnect st s reason).
Proof.
  intros Hinv. apply disconnect_found_inv; [done|]. intros r Hr. unfold get_client_by_session_id, upgrade.
  rewrite Hr. cbn. destruct (si_clients _ Hinv s r Hr) as [_ (c & -> & _)]. done.
Qed.
End udp.

(** *** Memory *)

Lemma held_spec st r :
  held st r = false ->
  (forall k, clients st !! k <> Some r)
  /\ forall k ch s, channels st !! k = Some ch ->
       Channel.clients ch !! s <> Some r /\ Channel.listeners ch !! s <> Some r.
Proof.
  assert (forall (m : gmap Z ClientRef) k, existsb (fun p => bool_decide (p.2 = r)) (map_to_list m) = false ->
    m !! k <> Some r) as Hm.
  { intros m k Hf Hk. apply not_true_iff_false in Hf. apply Hf, existsb_exists. exists (k, r).
    split; [by apply list_elem_of_In, elem_of_map_to_list|by apply bool_decide_eq_true]. }
  unfold held. intros [H1 H2]%orb_false_iff. split; [intros k; by apply Hm|].
  intros k ch s Hk. destruct (existsb (fun q => bool_decide (q.2 = r)) (map_to_list (Channel.clients ch))
    || existsb (fun q => bool_decide (q.2 = r)) (map_to_list (Channel.listeners ch))) eqn:E.
  - exfalso. apply not_true_iff_false in H2. apply H2, existsb_exists. exists (k, ch).
    split; [by apply list_elem_of_In, elem_of_map_to_list|done].
  - apply orb_false_iff in E as [E1 E2]. split; by apply Hm.
Qed.

Lemma reclaim_inv st r : state_inv st -> state_inv (reclaim st r).
Proof.
  intros Hinv. unfold reclaim. destruct (held st r) eqn:Hh; [done|].
  destruct (held_spec st r Hh) as [Hnc Hnm].
  destruct Hinv as [Hcl Hact Hch Hmem Hroot Hnu Hso Hfr Hcnt Hbk].
  assert (forall k r', r' <> r -> strong st k r' -> strong (set_heap st (delete r (heap st))) k r') as Hst.
  { intros k r' Hne. apply strong_heap. intros c Hc. exists c. cbn. by rewrite lookup_delete_ne. }
  split; try done; cbn.
  - intros k r' Hk. destruct (Hcl k r' Hk). split; [done|]. apply Hst; [|done]. intros ->. by apply (Hnc k).
  - intros k ch s r' Hk Hm. apply Hst; [|by eapply Hmem]. intros ->.
    destruct (Hnm k ch s Hk) as [N1 N2]. by destruct Hm.
  - intros k r' Hk. destruct (Hnu k r' Hk) as [Hlt Hc]. split; [done|].
    intros c [_ H']%lookup_delete_Some. auto.
  - intros a r' Ha. destruct (Hso a r' Ha) as [Hlt Hc]. split; [done|].
    intros c [_ H']%lookup_delete_Some. auto.
  - intros r' [c [_ H']%lookup_delete_Some]. apply Hfr. by eexists.
Qed.
