(* ===== verification/StateProps.v ===== *)
(** What the operations of the server state do: identifiers, broadcast, channel moves and disconnection,
    including disconnections that race. *)

From stdpp Require Import base gmap strings list.
From Stdlib Require Import ZArith Lia.
From S2P Require Import Prelude Errors Maps Text Voice Messages Crypt Proto Bans Client Anticheat State StateInv.
Import ServerState.

(** ** Broadcast *)

(** Whether a client would take one more message. *)
Definition accepts (c : Client.Client) : bool :=
  negb (closed (Client.publisher c)) &&
  bool_decide (length (queue (Client.publisher c)) < CHANNEL_CAPACITY)%nat.

Definition delivered (c : Client.Client) (m : ClientMessage) : Client.Client :=
  if accepts c then Client.set_publisher c (mkPublisher (queue (Client.publisher c) ++ [m]) false) else c.

Lemma publish_spec st r m c :
  heap st !! r = Some c ->
  heap (publish st r m) = <[r := delivered c m]> (heap st)
  /\ disconnect_queue (publish st r m) =
       if accepts c then disconnect_queue st
       else insert_new (Client.session_id c) ClientMSPCFull (disconnect_queue st).
Proof.
  intros Hc. unfold publish, delivered, accepts, try_send. rewrite Hc.
  destruct (closed (Client.publisher c)); cbn; [by rewrite insert_id|].
  case_decide as Hl; [by rewrite bool_decide_eq_true_2|].
  rewrite bool_decide_eq_false_2 by done. cbn. by rewrite insert_id.
Qed.

(** Publishing to distinct clients: each gets the message or is queued for disconnection. *)
Lemma publish_all_spec (l : list (Z * ClientRef)) st m :
  NoDup l.*2 -> (forall k r, (k, r) ∈ l -> strong st k r) ->
  let st' := fold_left (fun st p => publish st p.2 m) l st in
  (forall r c, heap st !! r = Some c ->
     heap st' !! r = Some (if bool_decide (r ∈ l.*2) then delivered c m else c))
  /\ (forall s, disconnect_queue st' !! s = disconnect_queue st !! s
        \/ (disconnect_queue st' !! s = Some ClientMSPCFull /\ disconnect_queue st !! s = None
            /\ exists r c, (s, r) ∈ l /\ heap st !! r = Some c /\ accepts c = false))
  /\ (forall r c, r ∈ l.*2 -> heap st !! r = Some c -> accepts c = false ->
        is_Some (disconnect_queue st' !! Client.session_id c)).
Proof.
  revert st. induction l as [|[k r] l IH]; intros st Hnd Hst.
  { cbn. split_and!; [done|auto|]. intros r c Hr. by apply not_elem_of_nil in Hr. }
  apply NoDup_cons in Hnd as [Hr Hnd]. cbn [fold_left]. cbn [fmap list_fmap snd] in Hr.
  destruct (Hst k r ltac:(by left)) as (c0 & Hc0 & Hs0).
  destruct (publish_spec st r m c0 Hc0) as [Hheap Hq]. cbn [snd].
  set (st1 := publish st r m) in *.
  assert (forall k' r', (k', r') ∈ l -> strong st1 k' r') as Hst1.
  { intros k' r' Hin. eapply same_shape_strong; [apply publish_same|]. apply Hst. by right. }
  destruct (IH st1 Hnd Hst1) as (IH1 & IH2 & IH3). clear IH.
  assert (forall r', r' <> r -> heap st1 !! r' = heap st !! r') as Hother
    by (intros; by rewrite Hheap, lookup_insert_ne).
  assert (forall r' c, r' ∈ l.*2 -> heap st !! r' = Some c -> heap st1 !! r' = Some c) as Hin1.
  { intros r' c Hin Hc. rewrite Hother; [done|]. by intros ->. }
  split_and!.
  - intros r' c Hc. destruct (decide (r' = r)) as [->|Hne].
    + simplify_eq. rewrite (IH1 r (delivered c0 m)) by (by rewrite Hheap, lookup_insert_eq).
      rewrite bool_decide_eq_false_2 by done. rewrite bool_decide_eq_true_2; [done|]. cbn. by left.
    + rewrite (IH1 r' c) by (by rewrite Hother). f_equal. cbn [fmap list_fmap snd].
      assert (r' ∈ l.*2 <-> r' ∈ r :: l.*2) as Hiff by (rewrite elem_of_cons; split; [by right|by intros [->|]]).
      by rewrite (bool_decide_ext _ _ Hiff).
  - intros s. destruct (IH2 s) as [Hs|(Hs & Hn & r' & c & Hin & Hc & Ha)].
    + rewrite Hs, Hq. destruct (accepts c0) eqn:Ha; [by left|]. rewrite lookup_insert_new.
      case_decide as Hk; [|by left]. subst s.
      destruct (disconnect_queue st !! Client.session_id c0) eqn:Hd; [by left|].
      right. split_and!; [done|done|]. exists r, c0. rewrite Hs0. split_and!; [by left|done|done].
    + right. assert (disconnect_queue st !! s = None) as Hn0.
      { revert Hn. rewrite Hq. destruct (accepts c0); [done|]. rewrite lookup_insert_new. by case_decide. }
      split_and!; [done|done|]. exists r', c. split_and!; [by right| |done].
      rewrite <-Hother; [done|]. intros ->. apply Hr. apply list_elem_of_fmap. by exists (s, r).
  - intros r' c. cbn [fmap list_fmap snd]. rewrite elem_of_cons. intros Hin Hc Ha.
    destruct (decide (r' = r)) as [->|Hne].
    + simplify_eq. destruct (IH2 (Client.session_id c0)) as [Hs|(Hs & _)]; [|by rewrite Hs].
      rewrite Hs, Hq, Ha, lookup_insert_new, decide_True by done. by eexists.
    + destruct Hin as [->|Hin]; [done|]. apply (IH3 r' c Hin); [|done]. by rewrite Hother.
Qed.

Lemma hash_iter_refs_nodup `{HashIterLaws} st (m : gmap Z ClientRef) :
  (forall k r, m !! k = Some r -> strong st k r) -> NoDup (hash_iter m).*2.
Proof.
  intros Hm. pose proof (NoDup_hash_iter m) as Hnd.
  assert (forall k r, (k, r) ∈ hash_iter m -> strong st k r) as Hs
    by (intros k r Hin; apply Hm; by apply elem_of_hash_iter).
  induction (hash_iter m) as [|[k r] l IH]; [constructor|]. cbn in *.
  apply NoDup_cons in Hnd as [Hk Hnd]. constructor.
  - intros ([k' r'] & Heq & Hin)%list_elem_of_fmap. cbn in Heq. subst r'.
    assert (k = k') as ->.
    { eapply strong_fun; [apply (Hs k r); by left|apply (Hs k' r); by right]. }
    apply Hk, list_elem_of_fmap. by exists (k', r).
  - apply IH; [done|]. intros k' r' Hin. apply Hs. by right.
Qed.

(** Whether a reference is that of a connected client. *)
Definition connected (st : ServerState) (r : ClientRef) (c : Client.Client) : bool :=
  bool_decide (clients st !! Client.session_id c = Some r).

Lemma connected_refs `{HashIterLaws} st r c :
  state_inv st -> heap st !! r = Some c ->
  connected st r c = bool_decide (r ∈ (hash_iter (clients st)).*2).
Proof.
  intros Hinv Hc. apply bool_decide_ext. rewrite list_elem_of_fmap. split.
  - intros Hr. exists (Client.session_id c, r). split; [done|]. by apply elem_of_hash_iter.
  - intros ([k r'] & Heq & Hin). cbn in Heq. subst r'. apply elem_of_hash_iter in Hin.
    destruct (si_clients _ Hinv k r Hin) as [_ (c' & Hc' & <-)]. by simplify_eq.
Qed.

Lemma broadcast_spec `{HashIterLaws} {T} `{ProtoMessage T} st kind (m : T) bytes :
  state_inv st -> message_to_bytes kind m = Ok bytes ->
  let '(st', res) := broadcast_message st kind m in
  res = Ok tt
  /\ (forall r c, heap st !! r = Some c ->
        heap st' !! r = Some (if connected st r c then delivered c (SendMessage kind bytes) else c))
  /\ (forall s, is_Some (disconnect_queue st' !! s) <->
        is_Some (disconnect_queue st !! s)
        \/ exists r c, clients st !! s = Some r /\ heap st !! r = Some c /\ accepts c = false).
Proof.
  intros Hinv Hm. unfold broadcast_message. rewrite Hm. split; [done|].
  set (st1 := set_debug_message_id st _). change (clients st1) with (clients st).
  assert (forall k r, (k, r) ∈ hash_iter (clients st) -> strong st1 k r) as Hst
    by (intros k r Hin; apply (si_clients _ Hinv); by apply elem_of_hash_iter).
  destruct (publish_all_spec (hash_iter (clients st)) st1 (SendMessage kind bytes)) as (P1 & P2 & P3);
    [apply (hash_iter_refs_nodup st1); apply (si_clients _ Hinv)|done|].
  split.
  - intros r c Hc. rewrite (P1 r c Hc). by rewrite (connected_refs st r c Hinv Hc).
  - intros s. split.
    + intros Hs. destruct (P2 s) as [E|(_ & _ & r & c & Hin & Hc & Ha)]; [left; by rewrite E in Hs|].
      right. exists r, c. split; [by apply elem_of_hash_iter|done].
    + intros [Hs|(r & c & Hr & Hc & Ha)].
      * destruct (P2 s) as [E|(E & _)]; rewrite E; [done|by eexists].
      * destruct (si_clients _ Hinv s r Hr) as [_ (c' & Hc' & <-)].
        assert (c' = c) as -> by congruence.
        apply (P3 r c); [|done|done]. apply list_elem_of_fmap. exists (Client.session_id c, r).
        split; [done|]. by apply elem_of_hash_iter.
Qed.

(** ** Channels *)

Section channels.
Context `{HashIterLaws} `{MumbleProto}.

(** The channel map after a client left [leave]. *)
Definition channels_left (chs : gmap Z Channel) (s leave : Z) : gmap Z Channel :=
  match chs !! leave with
  | Some ch =>
    let ch' := Channel.set_clients ch (delete s (Channel.clients ch)) in
    if negb (Channel.temporary ch) || negb (bool_decide (Channel.clients ch' = ∅))
    then <[leave := ch']> chs else delete leave chs
  | None => chs
  end.

Lemma left_channel_spec st s leave :
  let '(st', res) := handle_client_left_channel st s leave in
  channels st' = channels_left (channels st) s leave
  /\ same_shape (set_channels st (channels st')) st'
  /\ res = match channels_left (channels st) s leave !! leave with Some _ => None | None => Some leave end.
Proof.
  unfold handle_client_left_channel, channels_left. destruct (channels st !! leave) as [ch|] eqn:Hch.
  - set (ch' := Channel.set_clients ch _). change (Channel.temporary ch') with (Channel.temporary ch).
    destruct (negb (Channel.temporary ch) || _) eqn:Hkeep.
    + cbn. split; [done|]. split; [done|]. by rewrite lookup_insert_eq.
    + pose proof (broadcast_same (set_channels (set_channels st (<[leave := ch']> (channels st)))
        (delete leave (<[leave := ch']> (channels st)))) MessageKind.ChannelRemove
        (ChannelRemoveMsg.mkChannelRemove (Some leave))) as Hb.
      cbn [channels set_channels] in *. destruct (broadcast_message _ _ _) as [st3 res]. cbn [fst] in Hb.
      assert (channels st3 = delete leave (channels st)) as E
        by (rewrite (ss_channels _ _ Hb); cbn; by rewrite delete_insert_eq).
      split; [done|]. rewrite lookup_delete_eq. split; [|done].
      rewrite E. rewrite delete_insert_eq in Hb. exact Hb.
  - pose proof (broadcast_same (set_channels st (delete leave (channels st))) MessageKind.ChannelRemove
      (ChannelRemoveMsg.mkChannelRemove (Some leave))) as Hb.
    destruct (broadcast_message _ _ _) as [st3 res]. cbn [fst] in Hb.
    assert (channels st3 = channels st) as E by (rewrite (ss_channels _ _ Hb); cbn; by apply delete_id).
    split; [done|]. rewrite Hch. split; [|done]. rewrite E. rewrite delete_id in Hb by done. exact Hb.
Qed.
End channels.

(** ** Clients change only in their queue *)

Definition queue_only (st st' : ServerState) : Prop :=
  forall r c, heap st !! r = Some c -> exists p, heap st' !! r = Some (Client.set_publisher c p).

#[global] Instance queue_only_preorder : PreOrder queue_only.
Proof.
  split.
  - intros st r c Hc. exists (Client.publisher c). rewrite Hc. by destruct c.
  - intros s1 s2 s3 H12 H23 r c Hc. destruct (H12 r c Hc) as [p Hp]. destruct (H23 r _ Hp) as [q Hq]. by exists q.
Qed.

Lemma publish_queue_only st r m : queue_only st (publish st r m).
Proof.
  unfold publish. destruct (heap st !! r) as [c|] eqn:Hc; [|done].
  destruct (try_send _ _) as [p|]; [|intros r' c' Hc'; exists (Client.publisher c'); cbn; rewrite Hc'; by destruct c'].
  intros r' c' Hc'. cbn. destruct (decide (r = r')) as [<-|Hne].
  - rewrite lookup_insert_eq. simplify_eq. by exists p.
  - rewrite lookup_insert_ne, Hc' by done. exists (Client.publisher c'). by destruct c'.
Qed.

Lemma publish_all_queue_only st (l : list (Z * ClientRef)) m :
  queue_only st (fold_left (fun st p => publish st p.2 m) l st).
Proof.
  revert st. induction l as [|p l IH]; intros st; [done|]. cbn [fold_left].
  etransitivity; [apply publish_queue_only|apply IH].
Qed.

Lemma broadcast_queue_only `{HashIter} {T} `{ProtoMessage T} st kind (m : T) :
  queue_only st (fst (broadcast_message st kind m)).
Proof.
  unfold broadcast_message. set (st1 := set_debug_message_id _ _).
  assert (queue_only st st1) as H1 by (intros r c Hc; exists (Client.publisher c); cbn; rewrite Hc; by destruct c).
  destruct (message_to_bytes kind m); cbn [fst]; [|done]. etransitivity; [exact H1|].
  apply publish_all_queue_only.
Qed.

Lemma left_channel_queue_only `{HashIter} `{MumbleProto} st s leave :
  queue_only st (fst (handle_client_left_channel st s leave)).
Proof.
  assert (forall st chs, queue_only st (set_channels st chs)) as Hset
    by (intros st0 chs r c Hc; exists (Client.publisher c); cbn; rewrite Hc; by destruct c).
  assert (forall st, queue_only st (fst (broadcast_message st MessageKind.ChannelRemove
    (ChannelRemoveMsg.mkChannelRemove (Some leave))))) as Hb by (intros; apply broadcast_queue_only).
  unfold handle_client_left_channel. destruct (channels st !! leave) as [ch|].
  - case_if; [apply Hset|].
    match goal with |- context [broadcast_message ?s ?k ?m] => specialize (Hb s); destruct (broadcast_message s k m) as [st3 res] end.
    cbn [fst] in *. etransitivity; [|exact Hb]. etransitivity; [apply Hset|apply Hset].
  - match goal with |- context [broadcast_message ?s ?k ?m] => specialize (Hb s); destruct (broadcast_message s k m) as [st3 res] end.
    cbn [fst] in *. etransitivity; [|exact Hb]. apply Hset.
Qed.

Section moves.
Context `{HashIterLaws} `{MumbleProto}.

Lemma find_channel_some st k ch :
  state_inv st -> channels st !! k = Some ch -> get_channel_by_channel_id st k = Some (k, ch).
Proof.
  intros Hinv Hk. destruct (get_channel_by_channel_id st k) as [[k' ch']|] eqn:Hf.
  - apply find_channel_spec in Hf as [Hk' Hid]. destruct (si_channels _ Hinv k' ch' Hk') as [_ Hid'].
    assert (k' = k) as -> by congruence. by simplify_eq.
  - exfalso. eapply find_channel_none; [done|done|]. by apply (si_channels _ Hinv).
Qed.

(** The channel map after a client with session [s] moved from [old] to [k]. *)
Definition channels_moved (chs : gmap Z Channel) (s : Z) (r : ClientRef) (old k : Z) : gmap Z Channel :=
  let chs := alter (fun ch => Channel.set_clients ch (insert_new s r (Channel.clients ch))) k chs in
  if old =? k then chs else channels_left chs s old.

Lemma set_client_channel_spec st r c k ch :
  state_inv st -> heap st !! r = Some c -> channels st !! k = Some ch ->
  let '(st', res) := set_client_channel st r k in
  res = Ok tt /\ clients st' = clients st
  /\ channels st' = channels_moved (channels st) (Client.session_id c) r (Client.channel_id c) k
  /\ exists p, heap st' !! r = Some (Client.set_publisher (Client.set_channel_id c k) p).
Proof.
  intros Hinv Hc Hk. unfold set_client_channel, channels_moved. rewrite Hc. unfold Client.join_channel.
  set (c' := if k =? Client.channel_id c then (c, None) else _).
  assert (fst c' = Client.set_channel_id c k /\ snd c' = if k =? Client.channel_id c then None else Some (Client.channel_id c)) as [E1 E2].
  { subst c'. destruct (Z.eqb_spec k (Client.channel_id c)) as [->|]; [|done]. by destruct c. }
  destruct c' as [c' leave]. cbn [fst snd] in E1, E2. subst c' leave.
  set (st1 := set_heap st _).
  assert (state_inv st1) as I1 by (eapply same_shape_inv; [by eapply set_heap_same|done]).
  rewrite (find_channel_some st1 k ch I1 Hk). set (st2 := upd_channel st1 k _).
  pose proof (broadcast_same st2 MessageKind.UserState (Client.get_user_state (Client.set_channel_id c k))) as Hb.
  pose proof (broadcast_queue_only st2 MessageKind.UserState (Client.get_user_state (Client.set_channel_id c k))) as Hq.
  destruct (broadcast_message st2 _ _) as [st3 res]. cbn [fst] in Hb, Hq.
  destruct (Hq r (Client.set_channel_id c k)) as [p Hp]; [cbn; by rewrite lookup_insert_eq|].
  rewrite (Z.eqb_sym (Client.channel_id c) k).
  destruct (Z.eqb_spec k (Client.channel_id c)) as [Heq|Hne].
  - split; [done|]. rewrite (ss_clients _ _ Hb), (ss_channels _ _ Hb). split_and!; [done|done|by exists p].
  - rewrite (proj2 (Z.eqb_neq _ _)) by congruence. cbn [fst].
    pose proof (left_channel_spec st3 (Client.session_id c) (Client.channel_id c)) as Hl.
    pose proof (left_channel_queue_only st3 (Client.session_id c) (Client.channel_id c)) as Hlq.
    change (Client.session_id (Client.set_channel_id c k)) with (Client.session_id c).
    destruct (handle_client_left_channel st3 _ _) as [st4 res4]. cbn [fst] in *.
    destruct Hl as (E & Hsame & _). split; [done|].
    split; [by rewrite (ss_clients _ _ Hsame); cbn; rewrite (ss_clients _ _ Hb)|].
    split; [rewrite E, (ss_channels _ _ Hb); done|]. destruct (Hlq r _ Hp) as [q Hq']. by exists q.
Qed.

Lemma set_client_channel_missing st r c k :
  heap st !! r = Some c -> (forall k' ch, channels st !! k' = Some ch -> Channel.id ch <> k) ->
  set_client_channel st r k =
    (set_heap st (<[r := Client.set_channel_id c k]> (heap st)), Err ChannelDoesntExist).
Proof.
  intros Hc Hno. unfold set_client_channel, Client.join_channel. rewrite Hc.
  assert ((if k =? Client.channel_id c then (c, None) else (Client.set_channel_id c k, Some (Client.channel_id c)))
    = (Client.set_channel_id c k, if k =? Client.channel_id c then None else Some (Client.channel_id c))) as ->.
  { destruct (Z.eqb_spec k (Client.channel_id c)) as [->|]; [|done]. by destruct c. }
  set (st1 := set_heap st _).
  destruct (get_channel_by_channel_id st1 k) as [[k' ch]|] eqn:Hf; [|done].
  exfalso. apply find_channel_spec in Hf as [Hk' Hid]. by eapply Hno.
Qed.
End moves.

(** ** Disconnection *)

Section disconnection.
Context `{HashIterLaws} `{MumbleProto} `{Aes128}.

Lemma channels_left_gone chs s k ch : channels_left chs s k !! k = Some ch -> Channel.clients ch !! s = None.
Proof.
  unfold channels_left. destruct (chs !! k) as [ch0|] eqn:Hk; [|congruence]. cbv zeta. case_if.
  - rewrite lookup_insert_eq. intros [= <-]. cbn. by rewrite lookup_delete_eq.
  - by rewrite lookup_delete_eq.
Qed.

Lemma channels_left_other chs s k k' : k' <> k -> channels_left chs s k !! k' = chs !! k'.
Proof.
  intros Hne. unfold channels_left. destruct (chs !! k); [|done]. cbv zeta.
  case_if; [by rewrite lookup_insert_ne|by rewrite lookup_delete_ne].
Qed.

(** Removing once more a member that is gone. *)
Lemma remove_member_again (ch : Channel) s :
  Channel.clients ch !! s = None -> Channel.set_clients ch (delete s (Channel.clients ch)) = ch.
Proof. intros Hn. rewrite delete_id by done. by destruct ch. Qed.

Lemma upd_channel_id st k f ch :
  channels st !! k = Some ch -> f ch = ch -> upd_channel st k f = st.
Proof.
  intros Hk Hf. unfold upd_channel. rewrite alter_id; [by destruct st|]. intros ch' Hch'. congruence.
Qed.

(** The last broadcast and the cleanup of the channel. *)
Lemma broadcast_client_delete_spec st s id :
  let st' := broadcast_client_delete st s id in
  channels st' = channels_left (channels st) s id
  /\ same_shape (set_channels st (channels st')) st' /\ queue_only st st'.
Proof.
  intros st'. subst st'. unfold broadcast_client_delete. set (m := UserRemoveMsg.mkUserRemove _ _ _ _).
  pose proof (broadcast_same st MessageKind.UserRemove m) as Hb.
  pose proof (broadcast_queue_only st MessageKind.UserRemove m) as Hq.
  destruct (broadcast_message st _ m) as [st1 res]. cbn [fst] in *.
  pose proof (left_channel_spec st1 s id) as Hl. pose proof (left_channel_queue_only st1 s id) as Hlq.
  destruct (handle_client_left_channel st1 s id) as [st2 res2]. destruct Hl as (E & Hs & _). cbn [fst] in *.
  rewrite E, (ss_channels _ _ Hb). split; [done|]. split; [|by etransitivity].
  etransitivity; [|exact Hs]. rewrite E, (ss_channels _ _ Hb). by destruct Hb as [? ? ? ? ? ? ? ?].
Qed.

Lemma disconnect_spec st s r c reason :
  state_inv st -> clients st !! s = Some r -> heap st !! r = Some c ->
  let st' := disconnect st s reason in
  clients st' = delete s (clients st)
  /\ clients_without_udp st' = delete s (clients_without_udp st)
  /\ active_clients st' = as_u32 (active_clients st - 1)
  /\ channels st' = channels_left (channels st) s (Client.channel_id c)
  /\ clients_by_socket st' = match Client.udp_socket_addr c with
                             | Some a => delete a (clients_by_socket st)
                             | None => clients_by_socket st
                             end
  /\ exists c', heap st' !! r = Some c' /\ Client.cancelled c' = true /\ Client.write c' = None
       /\ Client.udp_socket_addr c' = None /\ Client.identity c' = Client.identity c.
Proof.
  intros Hinv Hs Hc. unfold disconnect, disconnect_found, get_client_by_session_id, upgrade.
  rewrite Hs. cbn [mbind option_bind heap set_clients]. rewrite Hc. cbn [mbind option_bind heap set_clients].
  rewrite Hc. cbn [mbind option_bind]. cbv beta iota zeta.
  set (c1 := Client.set_udp_socket_addr (Client.set_write (Client.set_cancelled c true) None) None).
  match goal with |- context [broadcast_client_delete ?x s _] => set (st3 := x) end.
  assert (clients st3 = delete s (clients st)
    /\ clients_without_udp st3 = delete s (clients_without_udp st)
    /\ active_clients st3 = as_u32 (active_clients st - 1)
    /\ channels st3 = channels st
    /\ clients_by_socket st3 = match Client.udp_socket_addr c with
                               | Some a => delete a (clients_by_socket st)
                               | None => clients_by_socket st
                               end
    /\ heap st3 !! r = Some c1) as (E1 & E2 & E3 & E4 & E5 & E6).
  { subst st3. destruct (Client.udp_socket_addr c); cbn -[as_u32]; rewrite !lookup_alter_eq, Hc; by split_and!. }
  destruct (broadcast_client_delete_spec st3 s (Client.channel_id c)) as (Ech & Hsame & Hq).
  set (st4 := broadcast_client_delete st3 s (Client.channel_id c)) in *.
  assert (upd_channel st4 (Client.channel_id c) (fun ch =>
    Channel.set_clients ch (delete s (Channel.clients ch))) = st4) as Hid.
  { destruct (channels st4 !! Client.channel_id c) as [ch|] eqn:Hk.
    - eapply upd_channel_id; [done|]. apply remove_member_again. rewrite Ech in Hk. by eapply channels_left_gone.
    - unfold upd_channel. rewrite alter_id by (intros; congruence). by destruct st4. }
  set (st5 := match get_channel_by_channel_id st4 (Client.channel_id c) with Some _ => _ | None => _ end).
  assert (st5 = st4) as ->.
  { subst st5. destruct (get_channel_by_channel_id st4 (Client.channel_id c)) as [[k ch]|] eqn:Hf; [|done].
    apply find_channel_spec in Hf as [Hk Hid'].
    assert (k = Client.channel_id c) as ->; [|done].
    rewrite Ech, E4 in Hk. destruct (decide (k = Client.channel_id c)) as [|Hne]; [done|].
    rewrite channels_left_other in Hk by done. destruct (si_channels _ Hinv k ch Hk). congruence. }
  destruct (Hq r c1 E6) as [p Hp].
  rewrite (ss_clients _ _ Hsame), (ss_no_udp _ _ Hsame), (ss_active _ _ Hsame), (ss_socket _ _ Hsame), Ech, E4.
  cbn [clients clients_without_udp active_clients clients_by_socket set_channels].
  split_and!; try done. by eexists.
Qed.

Lemma disconnect_absent st s reason : clients st !! s = None -> disconnect st s reason = st.
Proof. intros Hs. unfold disconnect, disconnect_found. by rewrite Hs. Qed.
End disconnection.

(** ** Disconnections that race

    [disconnect] runs on several tasks at once: the client's own loop, the clean loop and the
    kick of the panel may all disconnect the same session.  Each call first looks the client up and later
    removes it; other calls may run in between. *)

Inductive Task :=
  | Start (s : Z)
  | Looked (s : Z) (client : option ClientRef)
  | Finished (s : Z).

Definition task_session (t : Task) : Z := match t with Start s | Looked s _ | Finished s => s end.

Section race.
Context `{HashIterLaws} `{MumbleProto} `{Aes128}.

Inductive race_step : ServerState * list Task -> ServerState * list Task -> Prop :=
  | race_lookup st ts i s :
      ts !! i = Some (Start s) ->
      race_step (st, ts)
        (st, <[i := Looked s (r ← get_client_by_session_id st s; _ ← upgrade st r; Some r)]> ts)
  | race_remove st ts i s client reason :
      ts !! i = Some (Looked s client) ->
      race_step (st, ts) (disconnect_found st s client reason, <[i := Finished s]> ts).

Lemma disconnect_found_clients st s client reason : clients (disconnect_found st s client reason) = delete s (clients st).
Proof.
  unfold disconnect_found. destruct (clients st !! s) as [r|] eqn:Hs; [|by rewrite delete_id].
  destruct (r0 ← client; c ← _; Some (r0, c)) as [[r0 c]|]; [|done]. cbv zeta.
  match goal with |- context [broadcast_client_delete ?x s _] => set (st3 := x) end.
  assert (clients st3 = delete s (clients st)) as E by (subst st3; by case_match).
  destruct (broadcast_client_delete_spec st3 s (Client.channel_id c)) as (_ & Hsame & _).
  destruct (get_channel_by_channel_id _ _) as [[k ch]|]; cbn; rewrite (ss_clients _ _ Hsame); exact E.
Qed.

Lemma disconnect_found_active st s r c reason :
  clients st !! s = Some r -> heap st !! r = Some c ->
  active_clients (disconnect_found st s (Some r) reason) = as_u32 (active_clients st - 1).
Proof.
  intros Hs Hc. unfold disconnect_found. rewrite Hs. cbn [mbind option_bind heap set_clients]. rewrite Hc.
  cbn [mbind option_bind]. cbv zeta. match goal with |- context [broadcast_client_delete ?x s _] => set (st3 := x) end.
  assert (active_clients st3 = as_u32 (active_clients st - 1)) as E by (subst st3; by case_match).
  destruct (broadcast_client_delete_spec st3 s (Client.channel_id c)) as (_ & Hsame & _).
  destruct (get_channel_by_channel_id _ _) as [[k ch]|]; cbn -[as_u32]; rewrite (ss_active _ _ Hsame); exact E.
Qed.

Record race_inv (st0 : ServerState) (s : ServerState * list Task) : Prop := {
  ri_state : state_inv s.1;
  ri_sub : clients s.1 ⊆ clients st0;
  ri_looked k client : Looked k client ∈ s.2 -> forall r, clients s.1 !! k = Some r -> client = Some r;
  ri_done k : Finished k ∈ s.2 -> clients s.1 !! k = None;
  ri_only k : is_Some (clients st0 !! k) -> clients s.1 !! k = None -> k ∈ task_session <$> s.2;
}.

Lemma elem_of_insert_list {A} (l : list A) i x y : y ∈ <[i := x]> l -> y = x \/ y ∈ l.
Proof.
  intros (j & Hj)%list_elem_of_lookup. apply list_lookup_insert_Some in Hj as [(_ & -> & _)|[_ Hj]]; [by left|].
  right. apply list_elem_of_lookup. eauto.
Qed.

Lemma sessions_insert (ts : list Task) (i : nat) (t t' : Task) :
  ts !! i = Some t -> task_session t' = task_session t -> task_session <$> <[i := t']> ts = task_session <$> ts.
Proof.
  intros Hi Ht. rewrite list_fmap_insert, Ht. apply list_insert_id. by rewrite list_lookup_fmap, Hi.
Qed.

Lemma race_step_inv st0 s s' : race_step s s' -> race_inv st0 s -> race_inv st0 s'.
Proof.
  intros Hstep [Hst Hsub Hlk Hdone Honly]. destruct Hstep as [st ts i k Hi|st ts i k client reason Hi]; cbn [fst snd] in *.
  - split; cbn [fst snd]; [done|done| | |by erewrite sessions_insert].
    + intros k' client [Heq|Hin]%elem_of_insert_list; [|by eauto]. simplify_eq. intros r Hr.
      unfold get_client_by_session_id, upgrade. rewrite Hr. cbn.
      destruct (si_clients _ Hst k r Hr) as [_ (c & -> & _)]. done.
    + intros k' [Heq|Hin]%elem_of_insert_list; [done|auto].
  - assert (Looked k client ∈ ts) as Hin0 by (apply list_elem_of_lookup; eauto).
    split; cbn [fst snd]; rewrite ?disconnect_found_clients.
    + apply disconnect_found_inv; [done|]. by apply Hlk.
    + etransitivity; [apply delete_subseteq|done].
    + intros k' client' [Heq|Hin]%elem_of_insert_list; [done|]. intros r [_ Hr]%lookup_delete_Some. eauto.
    + intros k' [Heq|Hin]%elem_of_insert_list; [simplify_eq; by rewrite lookup_delete_eq|].
      rewrite lookup_delete_None. right. auto.
    + intros k' Hsome Hnone. erewrite sessions_insert by done.
      apply lookup_delete_None in Hnone as [<-|Hnone]; [|by apply Honly].
      apply list_elem_of_fmap. by exists (Looked k client).
Qed.

Lemma race_reach st0 s s' : rtc race_step s s' -> race_inv st0 s -> race_inv st0 s'.
Proof. induction 1 as [|s1 s2 s3 H12 _ IH]; [done|]. intros Hi. apply IH. by eapply race_step_inv. Qed.
End race.

(** ** Concrete states *)

Lemma new_inv `{Unicode} rp rv ac bl fs : state_inv (new rp rv ac bl fs).
Proof.
  assert (forall A k (v : A), (∅ : gmap Z A) !! k = Some v -> False) as He
    by (intros A k v E; by apply lookup_empty_Some in E).
  split; cbn.
  - intros k r E. by apply He in E.
  - by rewrite map_size_empty.
  - intros k ch E. apply lookup_singleton_Some in E as [<- <-]. split; [unfold in_u; lia|done].
  - intros k ch s r E. apply lookup_singleton_Some in E as [<- <-]. cbn. intros [E|E]; by apply He in E.
  - exists (Channel.new 0 (Some 0) "Root" "Root channel" false). by rewrite lookup_singleton_eq.
  - intros k r E. by apply He in E.
  - intros a r E. by apply lookup_empty_Some in E.
  - intros r [c E]. by apply lookup_empty_Some in E.
  - unfold in_u. lia.
  - done.
Qed.

(** A codec under which every message has the same one-byte body. *)
Definition const_message {T} (default : T) : ProtoMessage T :=
  {| write_to_bytes _ := Some [1]; parse_from_bytes _ := Some default |}.

Definition const_proto : MumbleProto := {|
  proto_version := const_message (VersionMsg.mkVersion None None None None);
  proto_authenticate := const_message (AuthenticateMsg.mkAuthenticate None None [] [] None);
  proto_ping := const_message (PingMsg.mkPing None None None None None None None None None None None);
  proto_server_sync := const_message (ServerSyncMsg.mkServerSync None None None None);
  proto_channel_remove := const_message (ChannelRemoveMsg.mkChannelRemove None);
  proto_channel_state := const_message
    (ChannelStateMsg.mkChannelState None None None [] None [] [] None None None None None None);
  proto_user_remove := const_message (UserRemoveMsg.mkUserRemove None None None None);
  proto_user_state := const_message (Client.get_user_state (Client.sample "x" 1));
  proto_crypt_setup := const_message (CryptSetupMsg.mkCryptSetup None None None);
  proto_voice_target := const_message (VoiceTargetMsg.mkVoiceTarget None []);
  proto_permission_query := const_message (PermissionQueryMsg.mkPermissionQuery None None None);
  proto_codec_version := const_message (CodecVersionMsg.mkCodecVersion None None None None);
  proto_user_stats := const_message (UserStatsMsg.mkUserStats None None [] None None None None None None None
    None None [] None None None None None None);
  proto_server_config := const_message (ServerConfigMsg.mkServerConfig None None None None None None);
|}.

Definition sample_anticheat : Anticheat.AnticheatConfig :=
  Anticheat.new true 50 15 30 10 3 5 0 None None "srv".
Definition empty_server : ServerState :=
  @new (fun s => s) false None sample_anticheat BanList.sample_bans BanList.sample_fs.

Definition join_user (st : ServerState) (username : string) : ServerState * ClientRef :=
  add_client st (VersionMsg.mkVersion (Some 66304) (Some "CitizenFX"%string) None None)
    (AuthenticateMsg.mkAuthenticate (Some username) None [] [] (Some true))
    (default_crypt_state sample_key 0) (Client.mkWriter [] false) (mkPublisher [] false) "10.0.0.1" 0.

(** Two users, references 0 and 1 with sessions 1 and 2, and a temporary channel 1 with the first in it. *)
Definition sample_server : ServerState :=
  let st := fst (join_user (fst (join_user empty_server "[1] Ann")) "[2] Bob") in
  let '(st, ch) := add_channel st (ChannelStateMsg.mkChannelState None (Some 0) (Some "Prox"%string) [] None
    [] [] (Some true) None None None None None) in
  fst (@set_client_channel canonical_iter const_proto st 0%nat (Channel.id ch)).

Lemma join_user_inv st username :
  state_inv st -> Z.of_nat (size (clients st)) < 2 ^ 32 -> state_inv (fst (join_user st username)).
Proof.
  intros Hinv Hs. unfold join_user. set (st' := add_client _ _ _ _ _ _ _ _).
  pose proof (add_client_inv st (VersionMsg.mkVersion (Some 66304) (Some "CitizenFX"%string) None None)
    (AuthenticateMsg.mkAuthenticate (Some username) None [] [] (Some true)) (default_crypt_state sample_key 0)
    (Client.mkWriter [] false) (mkPublisher [] false) "10.0.0.1" 0 Hinv Hs) as H. fold st' in H.
  by destruct st' as [st' r], H.
Qed.

Lemma sample_server_inv : state_inv sample_server.
Proof.
  unfold sample_server. set (st := fst (join_user _ _)).
  assert (state_inv st) as Hinv.
  { apply join_user_inv; [apply join_user_inv; [apply new_inv|vm_compute; reflexivity]|vm_compute; reflexivity]. }
  set (m := ChannelStateMsg.mkChannelState _ _ _ _ _ _ _ _ _ _ _ _ _).
  pose proof (add_channel_inv st m Hinv ltac:(vm_compute; reflexivity)) as Hch.
  destruct (add_channel st m) as [st' ch]. destruct Hch as [Hinv' _].
  apply (@set_client_channel_inv canonical_iter const_proto canonical_iter_laws). done.
Qed.

Lemma free_id_fuel_mono {A} fuel fuel' (used : gmap Z A) count x :
  free_id_fuel fuel used count = Some x -> (fuel <= fuel')%nat -> free_id_fuel fuel' used count = Some x.
Proof.
  revert fuel' count. induction fuel as [|fuel IH]; intros fuel' count Hf Hle; [done|].
  destruct fuel' as [|fuel']; [lia|]. cbn in *. destruct (used !! count); [|done]. apply IH; [done|lia].
Qed.

Lemma channels_left_kept chs s k ch :
  channels_left chs s k !! k = Some ch -> Channel.temporary ch = true -> Channel.clients ch <> ∅.
Proof.
  unfold channels_left. destruct (chs !! k) as [ch0|] eqn:Hk; [|congruence]. cbv zeta.
  destruct (negb (Channel.temporary ch0) || _) eqn:Hkeep; [|by rewrite lookup_delete_eq].
  rewrite lookup_insert_eq. intros [= <-] Ht. cbn in *. rewrite Ht in Hkeep. cbn in Hkeep.
  by apply negb_true_iff, bool_decide_eq_false in Hkeep.
Qed.

Lemma held_member st k ch s r :
  channels st !! k = Some ch -> Channel.clients ch !! s = Some r \/ Channel.listeners ch !! s = Some r ->
  held st r = true.
Proof.
  intros Hk Hm. apply not_false_iff_true. intros Hh. destruct (held_spec st r Hh) as [_ Hn].
  destruct (Hn k ch s Hk). by destruct Hm.
Qed.

(** ** Properties *)

(** Session identifiers: as long as fewer than 2^32 clients are connected the search for a free one
    ends (within one step more than there are clients, even after the counter wrapped around) and the
    identifier it returns fits 32 bits and belongs to no connected client. *)
Theorem session_id_fresh (st : ServerState) (fuel : nat) :
  state_inv st -> Z.of_nat (size (clients st)) < 2 ^ 32 -> (size (clients st) < fuel)%nat ->
  let '(st', i) := get_free_session_id st in
  clients st !! i = None /\ in_u 32 i
  /\ free_id_fuel fuel (clients st) (session_count st) = Some (i, session_count st').
Proof.
  intros Hinv Hsz Hf. unfold get_free_session_id.
  destruct (free_id (clients st) (session_count st)) as [i n] eqn:Hid.
  pose proof (free_id_spec _ _ _ _ (proj1 (si_counts _ Hinv)) Hsz Hid) as (Hfree & Hi & _).
  split_and!; [done|done|]. unfold free_id in Hid.
  destruct (free_id_found (S (size (clients st))) (clients st) (session_count st)
    (proj1 (si_counts _ Hinv)) Hsz) as [x Hx]; [lia|].
  rewrite Hx in Hid. cbn in Hid. subst x. cbn. eapply free_id_fuel_mono; [done|lia].
Qed.

Lemma session_id_fresh_witness :
  let '(st', i) := get_free_session_id sample_server in
  clients sample_server !! i = None /\ in_u 32 i
  /\ free_id_fuel 9 (clients sample_server) (session_count sample_server) = Some (i, session_count st').
Proof.
  apply (session_id_fresh sample_server 9 sample_server_inv); vm_compute; [reflexivity|lia].
Defined.

(** Broadcast: a message that serialises reaches every connected client, and only those, at the end of its
    queue; a client whose queue is full or closed does not block the others, its own queue
    stays as it is and it is scheduled for disconnection.  The iteration order is irrelevant. *)
Theorem broadcast_delivers `{HashIterLaws} {T} `{ProtoMessage T} (st : ServerState)
    (kind : MessageKind.MessageKind) (m : T) (bytes : list Z) :
  state_inv st -> message_to_bytes kind m = Ok bytes ->
  let '(st', res) := broadcast_message st kind m in
  res = Ok tt /\ clients st' = clients st /\ channels st' = channels st
  /\ (forall r c, heap st !! r = Some c ->
        heap st' !! r = Some (if connected st r c then delivered c (SendMessage kind bytes) else c))
  /\ (forall s, is_Some (disconnect_queue st' !! s) <->
        is_Some (disconnect_queue st !! s)
        \/ exists r c, clients st !! s = Some r /\ heap st !! r = Some c /\ accepts c = false).
Proof.
  intros Hinv Hm. pose proof (broadcast_spec st kind m bytes Hinv Hm) as Hs.
  pose proof (broadcast_same st kind m) as Hb. destruct (broadcast_message st kind m) as [st' res].
  destruct Hs as (-> & Hh & Hq). cbn [fst] in Hb.
  split_and!; [done|apply (ss_clients _ _ Hb)|apply (ss_channels _ _ Hb)|exact Hh|exact Hq].
Qed.

Lemma broadcast_delivers_witness :
  let st' := fst (@broadcast_message canonical_iter _ raw_message sample_server MessageKind.UserState [9; 9]) in
  exists c, heap st' !! 1%nat = Some c
    /\ last (queue (Client.publisher c)) = Some (SendMessage MessageKind.UserState [0; 9; 0; 0; 0; 2; 9; 9]).
Proof.
  pose proof (@broadcast_delivers canonical_iter canonical_iter_laws _ raw_message sample_server
    MessageKind.UserState [9; 9] [0; 9; 0; 0; 0; 2; 9; 9] sample_server_inv eq_refl) as H.
  destruct (broadcast_message sample_server MessageKind.UserState [9; 9]) as [st' res]. cbn [fst].
  destruct (heap sample_server !! 1%nat) as [c|] eqn:Hc; [|vm_compute in Hc; discriminate].
  destruct H as (_ & _ & _ & H & _). rewrite (H 1%nat c Hc). eexists. split; [reflexivity|].
  vm_compute in Hc. injection Hc as <-. vm_compute. reflexivity.
Defined.

(** C29.  Moving to a channel: the client ends up in the target channel and records it, it is no longer in the
    channel it left, the channel it left is gone if it was temporary and is now empty, and no
    other channel changes. *)
Theorem join_channel_moves `{HashIterLaws} `{MumbleProto} (st : ServerState) (r : ClientRef)
    (c : Client.Client) (k : Z) (ch : Channel) :
  state_inv st -> heap st !! r = Some c -> channels st !! k = Some ch ->
  Channel.clients ch !! Client.session_id c = None \/ Channel.clients ch !! Client.session_id c = Some r ->
  let '(st', res) := set_client_channel st r k in
  res = Ok tt /\ state_inv st'
  /\ (exists c', heap st' !! r = Some c' /\ Client.channel_id c' = k)
  /\ (exists ch', channels st' !! k = Some ch' /\ Channel.clients ch' !! Client.session_id c = Some r)
  /\ (Client.channel_id c <> k -> forall old, channels st' !! Client.channel_id c = Some old ->
        Channel.clients old !! Client.session_id c = None
        /\ (Channel.temporary old = true -> Channel.clients old <> ∅))
  /\ (forall k', k' <> k -> k' <> Client.channel_id c -> channels st' !! k' = channels st !! k').
Proof.
  intros Hinv Hc Hk Hm. pose proof (set_client_channel_spec st r c k ch Hinv Hc Hk) as Hs.
  pose proof (set_client_channel_inv st r k Hinv) as Hi.
  destruct (set_client_channel st r k) as [st' res]. destruct Hs as (-> & _ & Hchs & p & Hp). cbn [fst] in Hi.
  split_and!; [done|done|by eexists| | |].
  - rewrite Hchs. unfold channels_moved. set (ch' := Channel.set_clients ch (insert_new (Client.session_id c) r (Channel.clients ch))).
    exists ch'. split; [|cbn; rewrite lookup_insert_new, decide_True by done; by destruct Hm as [->| ->]].
    destruct (Z.eqb_spec (Client.channel_id c) k); [|rewrite channels_left_other by congruence];
      by rewrite lookup_alter_eq, Hk.
  - intros Hne old Hold. rewrite Hchs in Hold. unfold channels_moved in Hold.
    rewrite (proj2 (Z.eqb_neq _ _)) in Hold by done.
    split; [by eapply channels_left_gone|by eapply channels_left_kept].
  - intros k' Hk' Hl. rewrite Hchs. unfold channels_moved.
    destruct (Z.eqb_spec (Client.channel_id c) k); [|rewrite channels_left_other by done];
      by rewrite lookup_alter_ne by congruence.
Qed.

Lemma join_channel_moves_witness :
  let '(st', res) := @set_client_channel canonical_iter const_proto sample_server 0%nat 0 in
  res = Ok tt /\ channels st' !! 1 = None.
Proof.
  destruct (heap sample_server !! 0%nat) as [c|] eqn:Hc; [|vm_compute in Hc; discriminate].
  destruct (channels sample_server !! 0) as [ch|] eqn:Hk; [|vm_compute in Hk; discriminate].
  assert (Channel.clients ch !! Client.session_id c = None) as Hm
    by (vm_compute in Hc, Hk; injection Hc as <-; injection Hk as <-; vm_compute; reflexivity).
  pose proof (@join_channel_moves canonical_iter canonical_iter_laws const_proto sample_server 0%nat c 0 ch
    sample_server_inv Hc Hk (or_introl Hm)) as H.
  assert (channels (fst (@set_client_channel canonical_iter const_proto sample_server 0%nat 0)) !! 1 = None) as H1
    by (vm_compute; reflexivity).
  destruct (set_client_channel sample_server 0%nat 0) as [st' res]. split; [apply H|exact H1].
Defined.

(** C18.  Disconnecting a client is complete and idempotent: it is in none of the three client maps any
    more, no datagram is attributed to it, its tasks are cancelled and its stream is closed, it has left its
    channel, the count of clients went down by one, and a second call changes nothing. *)
Theorem disconnect_complete `{HashIterLaws} `{MumbleProto} `{Aes128} (st : ServerState) (s : Z)
    (r : ClientRef) (c : Client.Client) (reason reason' : DisconnectReason) :
  state_inv st -> clients st !! s = Some r -> heap st !! r = Some c ->
  let st' := disconnect st s reason in
  state_inv st'
  /\ clients st' = delete s (clients st)
  /\ clients_without_udp st' !! s = None
  /\ (forall a, get_client_by_socket st' a <> Some r)
  /\ active_clients st' = as_u32 (active_clients st - 1)
  /\ (exists c', heap st' !! r = Some c' /\ Client.cancelled c' = true /\ Client.write c' = None)
  /\ (forall ch, channels st' !! Client.channel_id c = Some ch -> Channel.clients ch !! s = None)
  /\ disconnect st' s reason' = st'.
Proof.
  intros Hinv Hs Hc st'. pose proof (disconnect_inv st s reason Hinv) as Hi.
  destruct (disconnect_spec st s r c reason Hinv Hs Hc) as (E1 & E2 & E3 & E4 & _ & c' & Hc' & F1 & F2 & F3 & _).
  fold st' in Hi, E1, E2, E3, E4, Hc'. split_and!; [done|done| | |done|by eauto| |].
  - by rewrite E2, lookup_delete_eq.
  - intros a Ha. unfold get_client_by_socket, upgrade in Ha.
    destruct (clients_by_socket st' !! a) as [r'|] eqn:Hr'; [|done]. cbn in Ha.
    destruct (heap st' !! r') as [c0|] eqn:Hc0; [|done]. cbn in Ha. injection Ha as ->.
    destruct (si_socket _ Hi a r Hr') as [_ Hu]. specialize (Hu c' Hc'). congruence.
  - intros ch. rewrite E4. apply channels_left_gone.
  - apply disconnect_absent. by rewrite E1, lookup_delete_eq.
Qed.

Lemma disconnect_complete_witness :
  active_clients (@disconnect canonical_iter const_proto sample_server 2 Anticheat) = 1
  /\ clients (@disconnect canonical_iter const_proto sample_server 2 Anticheat)
     = delete 2 (clients sample_server).
Proof.
  destruct (heap sample_server !! 1%nat) as [c|] eqn:Hc; [|vm_compute in Hc; discriminate].
  pose proof (@disconnect_complete canonical_iter canonical_iter_laws const_proto xor_aes sample_server 2 1%nat c
    Anticheat Disconnected sample_server_inv eq_refl Hc) as H.
  split; [vm_compute; reflexivity|]. exact (proj1 (proj2 H)).
Defined.

(** A move to a channel that does not exist fails, but only after the client's channel was overwritten: the
    client stays a member of its old channel, and since [disconnect] looks at the overwritten
    channel, it is still listed there (and its memory held) after it disconnected. *)
Theorem failed_join_strands_member `{HashIterLaws} `{MumbleProto} `{Aes128} (st : ServerState) (s : Z)
    (r : ClientRef) (c : Client.Client) (ch : Channel) (bad : Z) (reason : DisconnectReason) :
  state_inv st -> clients st !! s = Some r -> heap st !! r = Some c ->
  channels st !! Client.channel_id c = Some ch -> Channel.clients ch !! s = Some r ->
  channels st !! bad = None ->
  let '(st1, res) := set_client_channel st r bad in
  res = Err ChannelDoesntExist /\ channels st1 = channels st
  /\ (exists c', heap st1 !! r = Some c' /\ Client.channel_id c' = bad)
  /\ let st2 := disconnect st1 s reason in
     clients st2 !! s = None
     /\ channels st2 !! Client.channel_id c = Some ch /\ Channel.clients ch !! s = Some r
     /\ held st2 r = true.
Proof.
  intros Hinv Hs Hc Hch Hm Hbad. pose proof (set_client_channel_inv st r bad Hinv) as Hi.
  rewrite (set_client_channel_missing st r c bad Hc) in Hi |- *.
  2,3: intros k' ch' Hk' Hid; destruct (si_channels _ Hinv k' ch' Hk') as [_ Hid']; congruence.
  cbn [fst] in Hi. set (st1 := set_heap st _) in *.
  assert (heap st1 !! r = Some (Client.set_channel_id c bad)) as Hc1 by (cbn; by rewrite lookup_insert_eq).
  destruct (disconnect_spec st1 s r _ reason Hi Hs Hc1) as (E1 & _ & _ & E4 & _).
  assert (channels (disconnect st1 s reason) = channels st) as E.
  { rewrite E4. cbn. unfold channels_left. by rewrite Hbad. }
  split_and!; [done|done|by eexists|]. cbv zeta. rewrite E1, E, lookup_delete_eq.
  split_and!; [done|done|done|]. eapply held_member; [by rewrite E|by left].
Qed.

Lemma failed_join_strands_member_witness :
  let '(st1, res) := @set_client_channel canonical_iter const_proto sample_server 0%nat 777 in
  res = Err ChannelDoesntExist
  /\ held (@disconnect canonical_iter const_proto st1 1 Disconnected) 0%nat = true.
Proof.
  destruct (heap sample_server !! 0%nat) as [c|] eqn:Hc; [|vm_compute in Hc; discriminate].
  assert (Client.channel_id c = 1) as Hid by (vm_compute in Hc; injection Hc as <-; reflexivity).
  destruct (channels sample_server !! 1) as [ch|] eqn:Hk; [|vm_compute in Hk; discriminate].
  assert (Channel.clients ch !! 1 = Some 0%nat) as Hm
    by (vm_compute in Hk; injection Hk as <-; vm_compute; reflexivity).
  pose proof (@failed_join_strands_member canonical_iter canonical_iter_laws const_proto xor_aes sample_server
    1 0%nat c ch 777 Disconnected sample_server_inv eq_refl Hc) as H.
  rewrite Hid in H. specialize (H Hk Hm eq_refl).
  destruct (set_client_channel sample_server 0%nat 777) as [st1 res].
  destruct H as (H1 & _ & _ & H2). split; [exact H1|apply H2].
Defined.

(** [disconnect] does not visit the listeners of channels: a client that listened to a channel other than
    its own is still listed as a listener after it disconnected, so its memory is never released and
    voice sent to that channel is still queued for it. *)
Theorem disconnect_keeps_listeners `{HashIterLaws} `{MumbleProto} `{Aes128} (st : ServerState) (s k : Z)
    (r : ClientRef) (c : Client.Client) (ch : Channel) (reason : DisconnectReason) :
  state_inv st -> clients st !! s = Some r -> heap st !! r = Some c ->
  k <> Client.channel_id c -> channels st !! k = Some ch -> Channel.listeners ch !! s = Some r ->
  let st' := disconnect st s reason in
  clients st' !! s = None /\ channels st' !! k = Some ch /\ held st' r = true.
Proof.
  intros Hinv Hs Hc Hne Hk Hl st'.
  destruct (disconnect_spec st s r c reason Hinv Hs Hc) as (E1 & _ & _ & E4 & _). fold st' in E1, E4.
  assert (channels st' !! k = Some ch) as Hk' by (by rewrite E4, channels_left_other).
  split_and!; [by rewrite E1, lookup_delete_eq|done|]. eapply held_member; [done|by right].
Qed.

Definition sample_listening : ServerState :=
  upd_channel sample_server 1 (fun ch => Channel.set_listeners ch {[ 2 := 1%nat ]}).

Lemma disconnect_keeps_listeners_witness :
  let st' := @disconnect canonical_iter const_proto sample_listening 2 Disconnected in
  clients st' !! 2 = None /\ held st' 1%nat = true.
Proof.
  destruct (heap sample_listening !! 1%nat) as [c|] eqn:Hc; [|vm_compute in Hc; discriminate].
  destruct (channels sample_listening !! 1) as [ch|] eqn:Hk; [|vm_compute in Hk; discriminate].
  assert (state_inv sample_listening) as Hinv.
  { apply upd_channel_inv; [exact sample_server_inv|]. intros ch' Hch'.
    destruct (state_inv_channel _ _ _ sample_server_inv Hch') as [H1 H2 H3]. split; [exact H1| |exact H3].
    cbn. intros s r [H|H]; [apply H2; left; exact H|]. apply lookup_singleton_Some in H as [<- <-].
    eexists. split; vm_compute; reflexivity. }
  destruct (@disconnect_keeps_listeners canonical_iter canonical_iter_laws const_proto xor_aes sample_listening
    2 1 1%nat c ch Disconnected Hinv eq_refl Hc) as (H1 & _ & H2).
  - vm_compute in Hc. injection Hc as <-. vm_compute. discriminate.
  - exact Hk.
  - vm_compute in Hk. injection Hk as <-. vm_compute. reflexivity.
  - split; [exact H1|exact H2].
Defined.

(** C22.  Racing disconnections count once: with any number of concurrent [disconnect] calls, for the same or for
    different sessions, interleaved in any way between their lookup and their removal, the client
    counter and the gauge always equal the number of connected clients, every client that is gone was counted as a disconnection once,
    no other client is removed, and
    once all calls returned their sessions are gone. *)
Theorem racing_disconnects_count_once `{HashIterLaws} `{MumbleProto} `{Aes128} (st st' : ServerState)
    (ss : list Z) (ts : list Task) :
  state_inv st -> rtc race_step (st, Start <$> ss) (st', ts) ->
  active_clients st' = as_u32 (Z.of_nat (size (clients st'))) /\ books st'
  /\ (forall k, k ∉ ss -> clients st' !! k = clients st !! k)
  /\ (Forall (fun t => exists s, t = Finished s) ts -> forall k, k ∈ task_session <$> ts -> clients st' !! k = None).
Proof.
  intros Hinv Hr.
  assert (forall s s', rtc race_step s s' -> task_session <$> s'.2 = task_session <$> s.2) as Hss.
  { induction 1 as [|s1 s2 s3 H12 _ IH]; [done|]. rewrite IH. destruct H12; cbn [snd]; by erewrite sessions_insert. }
  destruct (race_reach st _ _ Hr) as [Hi Hsub _ Hdone Honly].
  { split; cbn [fst snd]; [done|done| | |].
    - intros k client (s & Heq & _)%list_elem_of_fmap. done.
    - intros k (s & Heq & _)%list_elem_of_fmap. done.
    - intros k [r Hk] Hn. congruence. }
  cbn [fst snd] in *. split_and!.
  - apply (si_active _ Hi).
  - apply (si_books _ Hi).
  - intros k Hk. destruct (clients st' !! k) as [r|] eqn:Hr'; [by rewrite (lookup_weaken _ _ _ _ Hr' Hsub)|].
    destruct (clients st !! k) as [r|] eqn:Hk'; [|done]. exfalso. apply Hk.
    specialize (Honly k ltac:(by eexists) Hr'). specialize (Hss _ _ Hr). cbn [snd] in Hss.
    by rewrite Hss, <-list_fmap_compose, list_fmap_id in Honly.
  - intros Hall k (t & -> & Hin)%list_elem_of_fmap. rewrite Forall_forall in Hall.
    destruct (Hall t Hin) as [s ->]. by apply Hdone.
Qed.

(** Two tasks look the same session up before either removes it. *)
Lemma racing_disconnects_count_once_witness :
  let st1 := @disconnect_found canonical_iter const_proto sample_server 2 (Some 1%nat) Disconnected in
  let st2 := @disconnect_found canonical_iter const_proto st1 2 (Some 1%nat) Anticheat in
  active_clients st2 = as_u32 (Z.of_nat (size (clients st2))) /\ books st2.
Proof.
  intros st1 st2. destruct (@racing_disconnects_count_once canonical_iter canonical_iter_laws const_proto xor_aes
    sample_server st2 [2; 2] [Finished 2; Finished 2] sample_server_inv) as (H1 & H2 & _); [|split; [exact H1|exact H2]].
  eapply rtc_l; [apply (race_lookup sample_server [Start 2; Start 2] 0 2 eq_refl)|].
  eapply rtc_l; [apply (race_lookup sample_server [Looked 2 (Some 1%nat); Start 2] 1 2 eq_refl)|].
  eapply rtc_l; [apply (race_remove sample_server [Looked 2 (Some 1%nat); Looked 2 (Some 1%nat)] 0 2 (Some 1%nat) Disconnected eq_refl)|].
  eapply rtc_l; [eapply (race_remove _ [Finished 2; Looked 2 (Some 1%nat)] 1 2 (Some 1%nat) Anticheat eq_refl)|].
  apply rtc_refl.
Defined.
