(* ===== verification/Handlers.v ===== *)
(** The message handlers of [src/src/handler/]: one definition per message kind, and the dispatch
    of [handler/mod.rs].  A handler runs on behalf of the client behind the reference [r]; the errors of
    [anyhow] keep the [MumbleError] inside, or [UnknownError] for the ones made on the spot. *)

From stdpp Require Import base gmap strings list.
From Stdlib Require Import ZArith Lia.
From S2P Require Import Prelude Errors Maps Text Voice Float32 Messages Crypt Proto Bans Client Anticheat State.
Import ServerState.

Module Handler.

Section handlers.
Context `{HashIter} `{MumbleProto} `{Aes128} `{UdpSocket}.

Definition MumbleResult : Type := ServerState * Result MumbleError unit.

(** *** [version.rs] and [authenticate.rs] *)

Definition handle_version (st : ServerState) (r : ClientRef) (m : VersionMsg.Version) : MumbleResult := (st, Ok tt).
Definition handle_authenticate (st : ServerState) (r : ClientRef) (m : AuthenticateMsg.Authenticate)
    : MumbleResult := (st, Ok tt).

(** *** [ping.rs] *)

Definition set_remote (cs : CryptState) (g la lo re : Z) : CryptState := {|
  key := key cs; encrypt_nonce := encrypt_nonce cs; decrypt_nonce := decrypt_nonce cs;
  decrypt_history := decrypt_history cs; good := good cs; late := late cs; lost := lost cs;
  resync := resync cs; last_good := last_good cs;
  remote_late := la; remote_good := g; remote_lost := lo; remote_resync := re;
|}.

(** What a ping stores in the client. *)
Definition record_ping (c : Client.Client) (m : PingMsg.Ping) (now : Z) : Client.Client :=
  let c := Client.set_last_tcp_ping c now in
  let c := Client.set_net_stats c
    {| Client.udp_packets := get_num (PingMsg.udp_packets m);
       Client.tcp_packets := get_num (PingMsg.tcp_packets m);
       Client.udp_ping_avg := get_f32 (PingMsg.udp_ping_avg m);
       Client.udp_ping_var := get_f32 (PingMsg.udp_ping_var m);
       Client.tcp_ping_avg := get_f32 (PingMsg.tcp_ping_avg m);
       Client.tcp_ping_var := get_f32 (PingMsg.tcp_ping_var m) |} in
  Client.set_crypt_state c (set_remote (Client.crypt_state c) (get_num (PingMsg.good m))
    (get_num (PingMsg.late m)) (get_num (PingMsg.lost m)) (get_num (PingMsg.resync m))).

(** The answer: the timestamp echoed, with the server's own counters. *)
Definition ping_reply (cs : CryptState) (m : PingMsg.Ping) : PingMsg.Ping := {|
  PingMsg.timestamp := Some (get_num (PingMsg.timestamp m));
  PingMsg.good := Some (good cs);
  PingMsg.late := Some (late cs);
  PingMsg.lost := Some (lost cs);
  PingMsg.resync := Some (resync cs);
  PingMsg.udp_packets := None;
  PingMsg.tcp_packets := None;
  PingMsg.udp_ping_avg := None;
  PingMsg.udp_ping_var := None;
  PingMsg.tcp_ping_avg := None;
  PingMsg.tcp_ping_var := None;
|}.

Definition handle_ping (st : ServerState) (r : ClientRef) (m : PingMsg.Ping) (now : Z) : MumbleResult :=
  on_client st r (fun c =>
    let c := record_ping c m now in
    Client.send_message c MessageKind.Ping (ping_reply (Client.crypt_state c) m)).

(** *** [crypt_setup.rs]: the nonce of the client must have 16 bytes, or [set_decrypt_nonce] panics *)

Definition handle_crypt_setup (st : ServerState) (r : ClientRef) (m : CryptSetupMsg.CryptSetup) (now : Z)
    : Outcome MumbleResult :=
  match heap st !! r with
  | None => Done (st, Err UnknownError)
  | Some c =>
    if has (CryptSetupMsg.client_nonce m) then
      match set_decrypt_nonce (Client.crypt_state c) (get_bytes (CryptSetupMsg.client_nonce m)) with
      | Panic => Panic
      | Done cs => Done (set_heap st (<[r := Client.set_crypt_state c cs]> (heap st)), Ok tt)
      end
    else Done (on_client st r (fun c => Client.send_crypt_setup c false now))
  end.

(** *** [permission_query.rs] *)

Definition PERM_TRAVERSE : Z := 2.
Definition PERM_ENTER : Z := 4.
Definition PERM_SPEAK : Z := 8.
Definition PERM_MUTEDEAFEN : Z := 16.
Definition PERM_MOVE : Z := 32.
Definition PERM_WHISPER : Z := 256.
Definition PERM_TEXTMESSAGE : Z := 512.
Definition PERM_MAKETEMPCHANNEL : Z := 1024.
Definition PERM_LISTEN : Z := 2048.
Definition PERM_KICK : Z := 65536.
Definition PERM_BAN : Z := 131072.
Definition PERM_DEFAULT : Z :=
  foldr Z.lor 0 [PERM_TRAVERSE; PERM_ENTER; PERM_SPEAK; PERM_WHISPER; PERM_TEXTMESSAGE; PERM_MAKETEMPCHANNEL;
    PERM_LISTEN].
Definition PERM_ADMIN : Z := foldr Z.lor 0 [PERM_DEFAULT; PERM_MUTEDEAFEN; PERM_MOVE; PERM_KICK; PERM_BAN].

Definition handle_permission_query (st : ServerState) (r : ClientRef) (m : PermissionQueryMsg.PermissionQuery)
    : MumbleResult :=
  on_client st r (fun c => Client.send_message c MessageKind.PermissionQuery
    {| PermissionQueryMsg.channel_id := Some (get_num (PermissionQueryMsg.channel_id m));
       PermissionQueryMsg.permissions := Some PERM_ADMIN;
       PermissionQueryMsg.flush := None |}).

(** *** [user_stats.rs]: the variance of the UDP pings is stored in the field of the TCP pings, which the last
    assignment then overwrites *)

Definition user_stats_reply (c : Client.Client) : UserStatsMsg.UserStats :=
  let cs := Client.crypt_state c in
  let stats := {| UserStats_StatsMsg.good := Some (remote_good cs);
                  UserStats_StatsMsg.late := Some (remote_late cs);
                  UserStats_StatsMsg.lost := Some (remote_lost cs);
                  UserStats_StatsMsg.resync := Some (remote_resync cs) |} in
  let ns := Client.net_stats c in
  {| UserStatsMsg.session := Some (Client.session_id c);
     UserStatsMsg.stats_only := None;
     UserStatsMsg.certificates := [];
     UserStatsMsg.from_client := Some stats;
     UserStatsMsg.from_server := Some stats;
     UserStatsMsg.udp_packets := Some (Client.udp_packets ns);
     UserStatsMsg.tcp_packets := Some (Client.tcp_packets ns);
     UserStatsMsg.udp_ping_avg := Some (Client.udp_ping_avg ns);
     UserStatsMsg.udp_ping_var := None;
     UserStatsMsg.tcp_ping_avg := Some (Client.tcp_ping_avg ns);
     UserStatsMsg.tcp_ping_var := Some (Client.tcp_ping_var ns);
     UserStatsMsg.version := None;
     UserStatsMsg.celt_versions := [];
     UserStatsMsg.address := None;
     UserStatsMsg.bandwidth := None;
     UserStatsMsg.onlinesecs := None;
     UserStatsMsg.idlesecs := None;
     UserStatsMsg.strong_certificate := None;
     UserStatsMsg.opus := None |}.

Definition handle_user_stats (st : ServerState) (r : ClientRef) (m : UserStatsMsg.UserStats) : MumbleResult :=
  on_client st r (fun c => Client.send_message c MessageKind.UserStats (user_stats_reply c)).

(** *** [user_state.rs] *)

Definition listen_add (s : Z) (r : ClientRef) (st : ServerState) (channel_id : Z) : ServerState :=
  upd_channel st channel_id (fun ch => Channel.set_listeners ch (insert_new s r (Channel.listeners ch))).
Definition listen_remove (s : Z) (st : ServerState) (channel_id : Z) : ServerState :=
  upd_channel st channel_id (fun ch => Channel.set_listeners ch (delete s (Channel.listeners ch))).

Definition handle_user_state (st : ServerState) (r : ClientRef) (m : UserStateMsg.UserState) : MumbleResult :=
  match heap st !! r with
  | None => (st, Err UnknownError)
  | Some c =>
    let session_id := Client.session_id c in
    if negb (get_num (UserStateMsg.session m) =? session_id) then (st, Ok tt) else
    let st := upd_client st r (fun c => Client.update c m) in
    let! (st, u) := if has (UserStateMsg.channel_id m)
                    then set_client_channel st r (get_num (UserStateMsg.channel_id m)) else (st, Ok tt) in
    let st := fold_left (listen_add session_id r) (UserStateMsg.listening_channel_add m) st in
    let st := fold_left (listen_remove session_id) (UserStateMsg.listening_channel_remove m) st in
    (st, Ok tt)
  end.

(** *** [channel_state.rs] *)

(** The checks on a channel a client asks for. *)
Definition may_create (st : ServerState) (m : ChannelStateMsg.ChannelState) : bool :=
  negb (has (ChannelStateMsg.channel_id m))
  && has (ChannelStateMsg.parent m)
  && has (ChannelStateMsg.name m)
  && get_bool (ChannelStateMsg.temporary m)
  && bool_decide (String.length (get_str (ChannelStateMsg.name m)) <= 512)%nat
  && bool_decide (is_Some (channels st !! get_num (ChannelStateMsg.parent m)))
  && match get_channel_by_name st (get_str (ChannelStateMsg.name m)) with Some _ => false | None => true end.

Definition handle_channel_state (st : ServerState) (r : ClientRef) (m : ChannelStateMsg.ChannelState)
    : MumbleResult :=
  if negb (may_create st m) then (st, Ok tt) else
  let '(st, channel) := add_channel st m in
  let '(st, err) := broadcast_message st MessageKind.ChannelState (Channel.get_channel_state channel) in
  let! (st, u) := set_client_channel st r (Channel.id channel) in
  (st, err).

(** *** [voice_target.rs] *)

Definition target_keys (t : VoiceTarget_TargetMsg.VoiceTarget_Target) : list Z :=
  (Anticheat.key_session <$> VoiceTarget_TargetMsg.session t)
  ++ (if has (VoiceTarget_TargetMsg.channel_id t)
      then [Anticheat.key_channel (get_num (VoiceTarget_TargetMsg.channel_id t))] else []).

(** The sets of a voice target after its items were added to empty ones. *)
Definition fill_target (items : list VoiceTarget_TargetMsg.VoiceTarget_Target) : VoiceTarget :=
  fold_left (fun t item =>
      let s := fold_left (fun s x => insert_new x tt s) (VoiceTarget_TargetMsg.session item) (sessions t) in
      let ch := if has (VoiceTarget_TargetMsg.channel_id item)
                then insert_new (get_num (VoiceTarget_TargetMsg.channel_id item)) tt (target_channels t)
                else target_channels t in
      {| sessions := s; target_channels := ch |}) items default_voice_target.

Definition handle_voice_target (st : ServerState) (r : ClientRef) (m : VoiceTargetMsg.VoiceTarget) (now : Z)
    : MumbleResult :=
  let id := get_num (VoiceTargetMsg.id m) in
  if (id <? 1) || (31 <=? id) then (st, Err InvalidVoiceTarget) else
  match (c ← heap st !! r; Client.get_target c (as_u8 id)) with
  | None => (st, Ok tt)
  | Some _ =>
    let t := fill_target (VoiceTargetMsg.targets m) in
    let st := upd_client st r (fun c =>
      Client.set_targets c (<[Client.target_index (as_u8 id) := t]> (Client.targets c))) in
    let keys := VoiceTargetMsg.targets m ≫= target_keys in
    (upd_client st r (fun c => Anticheat.record_targets (anticheat st) c keys now), Ok tt)
  end.

(** *** [voice_packet.rs] *)

(** Copying the entries of a map into the set of listening clients. *)
Definition listen_all (m acc : gmap Z ClientRef) : gmap Z ClientRef :=
  fold_left (fun acc p => insert_new p.1 p.2 acc) (hash_iter m) acc.

Definition listen_session (st : ServerState) (acc : gmap Z ClientRef) (s : Z) : gmap Z ClientRef :=
  match clients st !! s with
  | Some r => insert_new s r acc
  | None => acc
  end.

Definition listen_channel (st : ServerState) (acc : gmap Z ClientRef) (k : Z) : gmap Z ClientRef :=
  match channels st !! k with
  | Some ch => listen_all (Channel.clients ch) (listen_all (Channel.listeners ch) acc)
  | None => acc
  end.

(** The clients a packet for [target] (0 to 30) from client [c] is addressed to. *)
Definition listening_clients (st : ServerState) (c : Client.Client) (target : Z) : gmap Z ClientRef :=
  if target =? 0 then
    match get_channel_by_channel_id st (Client.channel_id c) with
    | Some (_, ch) => listen_all (Channel.clients ch) ∅
    | None => ∅
    end
  else if (1 <=? target) && (target <=? 30) then
    match Client.get_target c target with
    | Some t =>
      let acc := fold_left (listen_session st) (hash_iter (sessions t)).*1 ∅ in
      fold_left (listen_channel st) (hash_iter (target_channels t)).*1 acc
    | None => ∅
    end
  else ∅.

(** One listener: remembered and sent the packet unless it is deaf or gone. *)
Definition deliver (speaker : Client.Client) (packet : VoicePacket ClientBound) (record_heard : bool) (now : Z)
    (acc : ServerState * Z) (p : Z * ClientRef) : ServerState * Z :=
  let '(st, recipients) := acc in
  match heap st !! p.2 with
  | None => (st, recipients)
  | Some cl =>
    if Client.is_deaf cl then (st, recipients) else
    let st := if record_heard
              then set_heap st (<[p.2 := Anticheat.note_heard (anticheat st) speaker cl now]> (heap st)) else st in
    (publish st p.2 (SendVoicePacket packet), as_u32 (recipients + 1))
  end.

(** The position of an audio packet, when it carries one. *)
Definition packet_position (packet : VoicePacket ClientBound) : option Anticheat.pos :=
  match packet with
  | VAudio _ _ _ _ (Some bs) =>
    if decide (12 <= length bs)%nat then
      Some (f32_from_le_bytes (take 4 bs), f32_from_le_bytes (take 4 (drop 4 bs)),
            f32_from_le_bytes (take 4 (drop 8 bs)))
    else None
  | _ => None
  end.

(** Whether this packet is the one of the second that records who spoke to whom. *)
Definition takes_record (st : ServerState) (c : Client.Client) (now : Z) : bool :=
  Anticheat.enabled (anticheat st) && (secs 1 <=? since now (Client.ac_last_heard_rec (Client.ac c))).

Definition handle_voice_packet (st : ServerState) (r : ClientRef) (packet : VoicePacket ClientBound) (now : Z)
    : MumbleResult :=
  let st := match packet_position packet with
            | Some p => upd_client st r (fun c => Anticheat.note_position (anticheat st) c p now)
            | None => st
            end in
  match heap st !! r with
  | None => (st, Err UnknownError)
  | Some client =>
    if Client.is_muted client then (st, Ok tt) else
    match packet with
    | VPing _ => (st, Ok tt)
    | VAudio target session_id _ _ _ =>
      if target =? 31 then
        let! (st, u) := send_voice_packet st r packet in (st, Ok tt)
      else
        let listening := delete session_id (listening_clients st client target) in
        let record_heard := takes_record st client now in
        let st := if record_heard
                  then upd_client st r (fun c => Client.set_ac c (Client.set_ac_last_heard_rec (Client.ac c) now))
                  else st in
        let '(st, recipients) := fold_left (deliver client packet record_heard now) (hash_iter listening) (st, 0) in
        (upd_client st r (fun c => Anticheat.note_emission (anticheat st) c recipients), Ok tt)
    end
  end.

(** *** [mod.rs]: reading one message and dispatching it *)

(** [try_handle]. *)
Definition try_handle {T} `{ProtoMessage T} (handle : T -> Outcome MumbleResult) (st : ServerState) (buf : list Z)
    : Outcome MumbleResult :=
  match parse_from_bytes buf with
  | None => Done (st, Err Parse)
  | Some message => handle message
  end.

Definition dispatch (st : ServerState) (r : ClientRef) (message_kind : MessageKind.MessageKind) (buf : list Z)
    (now : Z) : Outcome MumbleResult :=
  match message_kind with
  | MessageKind.Version => try_handle (fun m => Done (handle_version st r m)) st buf
  | MessageKind.UDPTunnel =>
    match decode_voice_packet ServerBound buf with
    | Err e => Done (st, Err (Decrypt e))
    | Ok (packet, _) =>
      let session_id := default 0 (Client.session_id <$> heap st !! r) in
      Done (handle_voice_packet st r (into_client_bound packet session_id (remove_positional_data st)) now)
    end
  | MessageKind.Authenticate => try_handle (fun m => Done (handle_authenticate st r m)) st buf
  | MessageKind.Ping => try_handle (fun m => Done (handle_ping st r m now)) st buf
  | MessageKind.ChannelState => try_handle (fun m => Done (handle_channel_state st r m)) st buf
  | MessageKind.CryptSetup => try_handle (fun m => handle_crypt_setup st r m now) st buf
  | MessageKind.PermissionQuery => try_handle (fun m => Done (handle_permission_query st r m)) st buf
  | MessageKind.UserState => try_handle (fun m => Done (handle_user_state st r m)) st buf
  | MessageKind.VoiceTarget => try_handle (fun m => Done (handle_voice_target st r m now)) st buf
  | MessageKind.UserStats => try_handle (fun m => Done (handle_user_stats st r m)) st buf
  | _ => Done (st, Err UnknownError)
  end.

(** [handle_stream_read], the kind read from the stream or the read error: the state and
    result, and the rest of the stream. *)
Definition handle_stream_read (st : ServerState) (r : ClientRef) (kind : Result IoError Z) (stream : list Z)
    (now : Z) : Outcome MumbleResult * list Z :=
  match kind with
  | Err e => (Done (st, Err (MumbleIo e)), stream)
  | Ok kind =>
    match read_u32 stream with
    | Err e => (Done (st, Err (MumbleIo e)), [])
    | Ok (size, stream) =>
      match read_exact (Z.to_nat size) stream with
      | Err e => (Done (st, Err (MumbleIo e)), [])
      | Ok (buf, stream) =>
        (match MessageKind.try_from kind with
         | Err e => Done (st, Err e)
         | Ok message_kind => dispatch st r message_kind buf now
         end, stream)
      end
    end
  end.

(** What follows a failed call in either loop of a client: one more bad message; [true] when the loop ends. *)
Definition count_bad (st : ServerState) (r : ClientRef) : ServerState * bool :=
  match heap st !! r with
  | None => (st, true)
  | Some c =>
    (set_heap st (<[r := Client.set_bad_net_count c (as_u32 (Client.bad_net_count c + 1))]> (heap st)),
     20 <? Client.bad_net_count c)
  end.

(** One turn of the reading loop. *)
Definition read_turn (st : ServerState) (r : ClientRef) (stream : list Z) (now : Z)
    : Outcome (ServerState * bool) * list Z :=
  let '(kind, stream) := match read_u16 stream with
                         | Ok (k, stream) => (Ok k, stream)
                         | Err e => (Err e, [])
                         end in
  match handle_stream_read st r kind stream now with
  | (Panic, stream) => (Panic, stream)
  | (Done (st, Ok _), stream) => (Done (st, false), stream)
  | (Done (st, Err _), stream) => (Done (count_bad st r), stream)
  end.

(** The reading loop, for at most [fuel] turns: [true] when the task ended, by cancellation or after too many
    bad messages. *)
Fixpoint read_loop (fuel : nat) (st : ServerState) (r : ClientRef) (stream : list Z) (now : Z)
    : Outcome (ServerState * bool) :=
  match fuel with
  | O => Done (st, false)
  | S fuel =>
    if default true (Client.cancelled <$> heap st !! r) then Done (st, true) else
    match read_turn st r stream now with
    | (Panic, _) => Panic
    | (Done (st, true), _) => Done (st, true)
    | (Done (st, false), stream) => read_loop fuel st r stream now
    end
  end.

(** What the loop that serves the client's queue does with a message: [true] when the loop ends. *)
Definition consume (st : ServerState) (r : ClientRef) (m : ClientMessage) (now : Z) : ServerState * bool :=
  let '(st, res) := match m with
                    | RouteVoicePacket packet => handle_voice_packet st r packet now
                    | SendVoicePacket packet => send_voice_packet st r packet
                    | SendMessage kind payload => on_client st r (fun c => Client.send c payload)
                    end in
  match res with
  | Ok _ => (st, false)
  | Err _ => count_bad st r
  end.

(** The receiver of the queue is closed, or dropped when the task ends. *)
Definition close_queue (st : ServerState) (r : ClientRef) : ServerState :=
  upd_client st r (fun c => Client.set_publisher c (mkPublisher (queue (Client.publisher c)) true)).

Inductive QueueTurn := Served | Waiting | Ended.

(** One turn of the loop that serves the queue.  [select!] takes either of two ready branches: [cancel] is its choice
    when the client is cancelled and a message is there. *)
Definition queue_turn (st : ServerState) (r : ClientRef) (cancel : bool) (now : Z) : ServerState * QueueTurn :=
  match heap st !! r with
  | None => (st, Ended)
  | Some c =>
    if closed (Client.publisher c) then (st, Ended) else
    match recv (Client.publisher c) with
    | None => if Client.cancelled c then (close_queue st r, Ended) else (st, Waiting)
    | Some (m, p) =>
      if Client.cancelled c && cancel then (close_queue st r, Ended) else
      let '(st, ended) := consume (upd_client st r (fun c => Client.set_publisher c p)) r m now in
      if ended then (close_queue st r, Ended) else (st, Served)
    end
  end.

(** The loop, for at most [fuel] turns. *)
Fixpoint queue_loop (fuel : nat) (st : ServerState) (r : ClientRef) (cancel : bool) (now : Z) : ServerState * QueueTurn :=
  match fuel with
  | O => (st, Served)
  | S fuel =>
    match queue_turn st r cancel now with
    | (st, Served) => queue_loop fuel st r cancel now
    | other => other
    end
  end.
End handlers.
End Handler.
