(* ===== verification/HandlerInv.v ===== *)
(** The handlers keep the invariant of the server state. *)

From stdpp Require Import base gmap strings list.
From Stdlib Require Import ZArith Lia.
From S2P Require Import Prelude Errors Maps Text Voice Float32 Messages Crypt Proto Bans Client Anticheat State.
From S2P Require Import StateInv StateProps Handlers.
Import ServerState Handler.

(** ** Client updates that keep identity and address *)

Lemma same_client_trans c1 c2 c3 : same_client c1 c2 -> same_client c2 c3 -> same_client c1 c3.
Proof. intros [A1 A2] [B1 B2]. split; congruence. Qed.

Lemma update_same c m : same_client c (Client.update c m).
Proof. unfold Client.update. repeat case_if; done. Qed.

Lemma note_position_same a c p now : same_client c (Anticheat.note_position a c p now).
Proof. unfold Anticheat.note_position. repeat case_if; done. Qed.

Lemma record_targets_same a c keys now : same_client c (Anticheat.record_targets a c keys now).
Proof. unfold Anticheat.record_targets. by case_if. Qed.

Lemma note_emission_same a c n : same_client c (Anticheat.note_emission a c n).
Proof. unfold Anticheat.note_emission. by case_if. Qed.

Lemma note_heard_same `{HashIter} a s c now : same_client c (Anticheat.note_heard a s c now).
Proof. done. Qed.

#[export] Hint Resolve update_same note_position_same record_targets_same note_emission_same
  note_heard_same send_same send_message_same : rust.

Section handlers.
Context `{HashIterLaws} `{MumbleProto} `{Aes128} `{UdpSocket}.

Lemma upd_client_inv st r f :
  (forall c, same_client c (f c)) -> state_inv st -> state_inv (upd_client st r f).
Proof. intros Hf. apply same_shape_inv, upd_client_same. auto. Qed.

Lemma on_client_inv {A} st r (f : Client.Client -> Client.Client * Result MumbleError A) :
  (forall c, same_client c (fst (f c))) -> state_inv st -> state_inv (fst (on_client st r f)).
Proof. intros Hf. by apply same_shape_inv, on_client_same. Qed.

Lemma send_voice_packet_same st r p : same_shape st (fst (send_voice_packet st r p)).
Proof.
  unfold send_voice_packet. destruct (heap st !! r) as [c|] eqn:Hc; [|done].
  assert (same_client c (fst (fst (Client.send_voice_packet udp_send c p)))) as Hs.
  { unfold Client.send_voice_packet. destruct (Client.udp_socket_addr c) eqn:Ha.
    - destruct (encrypt _ _). done.
    - pose proof (send_same c (get_mumble_buffer MessageKind.UDPTunnel (encode_voice_packet p []))) as Hs.
      unfold Client.send_message_raw. by destruct (Client.send _ _). }
  destruct (Client.send_voice_packet udp_send c p) as [[c' d] res]. cbn [fst] in *.
  etransitivity; [by apply (set_heap_same st r c c')|]. split; try done. intros r'. cbn.
  by destruct (<[r := c']> (heap st) !! r').
Qed.

Lemma ping_inv st r m now : state_inv st -> state_inv (fst (handle_ping st r m now)).
Proof.
  apply on_client_inv. intros c. eapply same_client_trans; [|apply send_message_same]. done.
Qed.

Lemma crypt_setup_inv st r m now st' res :
  state_inv st -> handle_crypt_setup st r m now = Done (st', res) -> state_inv st'.
Proof.
  intros Hinv. unfold handle_crypt_setup. destruct (heap st !! r) as [c|] eqn:Hc; [|by intros [= <- <-]].
  case_if.
  - destruct (set_decrypt_nonce _ _); [|done]. intros [= <- <-].
    eapply same_shape_inv; [by apply (set_heap_same st r c)|done].
  - intros [= Heq]. apply (f_equal fst) in Heq. cbn [fst] in Heq. subst st'.
    apply on_client_inv; [intros; apply send_crypt_setup_same|done].
Qed.

(** *** Listeners *)

Lemma listeners_inv st k f :
  state_inv st ->
  (forall ch s r, channels st !! k = Some ch -> f ch !! s = Some r ->
     Channel.listeners ch !! s = Some r \/ strong st s r) ->
  state_inv (upd_channel st k (fun ch => Channel.set_listeners ch (f ch))).
Proof.
  intros Hinv Hf. apply upd_channel_inv; [done|]. intros ch Hch.
  destruct (state_inv_channel _ _ _ Hinv Hch) as [Hk Hm Hr]. split; cbn; [done| |done].
  intros s r [E|E]; [apply Hm; by left|]. destruct (Hf ch s r Hch E); [apply Hm; by right|done].
Qed.

Lemma listen_add_inv l st s r :
  state_inv st -> strong st s r -> state_inv (fold_left (listen_add s r) l st).
Proof.
  revert st. induction l as [|k l IH]; intros st Hinv Hs; [done|]. cbn [fold_left]. apply IH; [|done].
  apply (listeners_inv st k (fun ch => insert_new s r (Channel.listeners ch))); [done|].
  intros ch s' r' Hch. rewrite lookup_insert_new. case_decide; [subst s'|by left].
  destruct (Channel.listeners ch !! s) eqn:E; cbn; intros [= ->]; [by left|by right].
Qed.

Lemma listen_remove_inv l st s : state_inv st -> state_inv (fold_left (listen_remove s) l st).
Proof.
  revert st. induction l as [|k l IH]; intros st Hinv; [done|]. cbn [fold_left]. apply IH.
  apply (listeners_inv st k (fun ch => delete s (Channel.listeners ch))); [done|].
  intros ch s' r' Hch [_ E]%lookup_delete_Some. by left.
Qed.

(** [set_client_channel] never loses an object. *)
Lemma set_client_channel_strong st r k s r' :
  strong st s r' -> strong (fst (set_client_channel st r k)) s r'.
Proof.
  intros (c0 & Hc0 & Hs0).
  destruct (heap st !! r) as [c|] eqn:Hc; [|unfold set_client_channel; rewrite Hc; by exists c0].
  unfold set_client_channel. rewrite Hc. pose proof (join_channel_same c k) as Hj.
  destruct (Client.join_channel c k) as [c' leave]. cbn [fst] in Hj. set (st1 := set_heap st _).
  assert (strong st1 s r') as I1.
  { eapply same_shape_strong; [by apply (set_heap_same st r c c')|by exists c0]. }
  destruct (get_channel_by_channel_id st1 k) as [[k' ch]|]; [|done]. set (st2 := upd_channel st1 k' _).
  assert (strong st2 s r') as I2 by done.
  pose proof (broadcast_same st2 MessageKind.UserState (Client.get_user_state c')) as Hb.
  destruct (broadcast_message st2 _ _) as [st3 res]. cbn [fst] in Hb.
  assert (strong st3 s r') as I3 by (by eapply same_shape_strong).
  destruct leave as [leave|]; [|done]. case_if; [done|]. cbn [fst].
  pose proof (left_channel_spec st3 (Client.session_id c') leave) as Hl.
  destruct (handle_client_left_channel st3 _ _) as [st4 res4]. destruct Hl as (_ & Hsame & _). cbn [fst].
  by eapply same_shape_strong in Hsame.
Qed.

Lemma user_state_inv st r m : state_inv st -> state_inv (fst (handle_user_state st r m)).
Proof.
  intros Hinv. unfold handle_user_state. destruct (heap st !! r) as [c|] eqn:Hc; [|done].
  case_if; [done|]. set (st1 := upd_client st r _).
  assert (same_shape st st1) as Hs1 by (apply upd_client_same; intros; apply update_same).
  assert (state_inv st1) as I1 by (by eapply same_shape_inv).
  assert (strong st1 (Client.session_id c) r) as S1 by (eapply same_shape_strong; [done|by exists c]).
  set (res := if has (UserStateMsg.channel_id m) then _ else _).
  assert (state_inv (fst res) /\ strong (fst res) (Client.session_id c) r) as [I2 S2].
  { subst res. case_if; [|done]. split; [by apply set_client_channel_inv|by apply set_client_channel_strong]. }
  destruct res as [st2 [u|e]]; cbn [seq fst] in *; [|done].
  by apply listen_remove_inv, listen_add_inv.
Qed.

Lemma channel_state_inv st r m :
  state_inv st -> Z.of_nat (size (channels st)) < 2 ^ 32 -> state_inv (fst (handle_channel_state st r m)).
Proof.
  intros Hinv Hsz. unfold handle_channel_state. case_if; [done|].
  pose proof (add_channel_inv st m Hinv Hsz) as Ha. destruct (add_channel st m) as [st1 ch]. destruct Ha as [I1 _].
  pose proof (broadcast_same st1 MessageKind.ChannelState (Channel.get_channel_state ch)) as Hb.
  destruct (broadcast_message st1 _ _) as [st2 err]. cbn [fst] in Hb.
  assert (state_inv st2) as I2 by (by eapply same_shape_inv).
  pose proof (set_client_channel_inv st2 r (Channel.id ch) I2) as I3.
  by destruct (set_client_channel st2 r (Channel.id ch)) as [st3 [u|e]].
Qed.

Lemma voice_target_inv st r m now : state_inv st -> state_inv (fst (handle_voice_target st r m now)).
Proof.
  intros Hinv. unfold handle_voice_target. case_if; [done|]. destruct (_ ≫= _); [|done]. cbn [fst].
  apply upd_client_inv; [auto with rust|]. by apply upd_client_inv.
Qed.

Lemma deliver_same speaker packet rec now acc p :
  same_shape (fst acc) (fst (deliver speaker packet rec now acc p)).
Proof.
  destruct acc as [st n]. unfold deliver. cbn [fst]. destruct (heap st !! p.2) as [cl|] eqn:Hc; [|done].
  case_if; [done|]. cbn [fst]. destruct rec; [|apply publish_same].
  etransitivity; [|apply publish_same]. by apply (set_heap_same st p.2 cl).
Qed.

Lemma deliver_all_same speaker packet rec now l acc :
  same_shape (fst acc) (fst (fold_left (deliver speaker packet rec now) l acc)).
Proof.
  revert acc. induction l as [|p l IH]; intros acc; [done|]. cbn [fold_left].
  etransitivity; [apply deliver_same|apply IH].
Qed.

Lemma voice_packet_same st r p now : same_shape st (fst (handle_voice_packet st r p now)).
Proof.
  unfold handle_voice_packet. set (st1 := match packet_position p with Some _ => _ | None => st end).
  assert (same_shape st st1) as I1.
  { subst st1. case_match; [|done]. apply upd_client_same. auto with rust. }
  etransitivity; [exact I1|]. clearbody st1. destruct (heap st1 !! r) as [c|] eqn:Hc; [|done].
  case_if; [done|]. destruct p as [ts|target sid seq_num payload pos]; [done|]. case_if.
  - pose proof (send_voice_packet_same st1 r (VAudio target sid seq_num payload pos)) as Hs.
    by destruct (send_voice_packet st1 r _) as [st2 [u|e]].
  - set (st2 := if takes_record st1 c now then _ else _).
    assert (same_shape st1 st2) as I2 by (subst st2; case_if; [by apply upd_client_same|done]).
    etransitivity; [exact I2|]. clearbody st2.
    match goal with |- context [fold_left ?f ?l (st2, 0)] =>
      pose proof (deliver_all_same c (VAudio target sid seq_num payload pos) (takes_record st1 c now) now l (st2, 0)) as Hd;
      destruct (fold_left f l (st2, 0)) as [st3 n] end.
    cbn [fst] in *. etransitivity; [exact Hd|]. apply upd_client_same. auto with rust.
Qed.

(** Whatever a client sends, the dispatch keeps the invariant. *)
Lemma dispatch_inv st r kind buf now st' res :
  state_inv st -> Z.of_nat (size (channels st)) < 2 ^ 32 ->
  dispatch st r kind buf now = Done (st', res) -> state_inv st'.
Proof.
  intros Hinv Hsz. assert (forall x : ServerState * Result MumbleError unit,
    state_inv (fst x) -> Done x = Done (st', res) -> state_inv st') as Hx by (intros x Hi [= ->]; done).
  assert (forall T (P : ProtoMessage T) (h : T -> Outcome (ServerState * Result MumbleError unit)),
    (forall m, h m = Done (st', res) -> state_inv st') -> try_handle h st buf = Done (st', res) -> state_inv st') as Ht.
  { intros T P h Hh. unfold try_handle. destruct (parse_from_bytes buf); [apply Hh|by apply Hx]. }
  destruct kind; cbn [dispatch]; try (by apply Hx);
    try (apply Ht; intros m; first [by apply crypt_setup_inv|apply Hx]).
  - done.
  - destruct (decode_voice_packet ServerBound buf) as [[p rest]|e]; [|by apply Hx].
    apply Hx. by eapply same_shape_inv; [apply voice_packet_same|].
  - done.
  - by apply ping_inv.
  - by apply channel_state_inv.
  - by apply user_state_inv.
  - by apply voice_target_inv.
  - apply on_client_inv; [intros; apply send_message_same|done].
  - apply on_client_inv; [intros; apply send_message_same|done].
Qed.

(** *** No message loses a client *)

Lemma fold_heap {A} (f : ServerState -> A -> ServerState) l st :
  (forall st x, heap (f st x) = heap st) -> heap (fold_left f l st) = heap st.
Proof. intros Hf. revert st. induction l as [|x l IH]; intros st; [done|]. cbn [fold_left]. by rewrite IH. Qed.

Lemma channel_state_strong st r m s r' : strong st s r' -> strong (fst (handle_channel_state st r m)) s r'.
Proof.
  intros Hs. unfold handle_channel_state. case_if; [done|]. destruct (add_channel st m) as [st1 ch] eqn:Ea.
  assert (heap st1 = heap st) as E1 by (unfold add_channel in Ea; destruct (get_free_channel_id st) as [st0 i] eqn:Eg;
    unfold get_free_channel_id in Eg; destruct (free_id _ _); by simplify_eq).
  pose proof (broadcast_same st1 MessageKind.ChannelState (Channel.get_channel_state ch)) as Hb.
  destruct (broadcast_message st1 _ _) as [st2 err]. cbn [fst] in Hb.
  assert (strong (fst (set_client_channel st2 r (Channel.id ch))) s r') as S3
    by (apply set_client_channel_strong; eapply same_shape_strong; [exact Hb|]; unfold strong; by rewrite E1).
  by destruct (set_client_channel st2 r (Channel.id ch)) as [st3 [u|e]].
Qed.

Lemma user_state_strong st r m s r' : strong st s r' -> strong (fst (handle_user_state st r m)) s r'.
Proof.
  intros Hs. unfold handle_user_state. destruct (heap st !! r) as [c|]; [|done]. case_if; [done|].
  set (x := if has _ then set_client_channel _ r _ else _).
  assert (strong (fst x) s r') as Hx.
  { subst x. assert (strong (upd_client st r (fun c => Client.update c m)) s r') as S1
      by (eapply same_shape_strong; [apply upd_client_same; intros; apply update_same|done]).
    case_if; [by apply set_client_channel_strong|done]. }
  destruct x as [st1 [u|e]]; cbn [seq fst] in *; [|done]. unfold strong. by rewrite !fold_heap.
Qed.

Lemma dispatch_strong st r kind buf now st' res s r' :
  dispatch st r kind buf now = Done (st', res) -> strong st s r' -> strong st' s r'.
Proof.
  intros Hd Hs. revert Hd. assert (forall x : ServerState * Result MumbleError unit,
    strong (fst x) s r' -> Done x = Done (st', res) -> strong st' s r') as Hx by (intros x Hi [= ->]; done).
  assert (forall x : ServerState * Result MumbleError unit,
    same_shape st (fst x) -> Done x = Done (st', res) -> strong st' s r') as Hy
    by (intros x Hi; apply Hx; by eapply same_shape_strong).
  assert (forall T (P : ProtoMessage T) (h : T -> Outcome (ServerState * Result MumbleError unit)),
    (forall m, h m = Done (st', res) -> strong st' s r') -> try_handle h st buf = Done (st', res) -> strong st' s r') as Ht.
  { intros T P h Hh. unfold try_handle. destruct (parse_from_bytes buf); [apply Hh|by apply Hx]. }
  destruct kind; cbn [dispatch]; try (by apply Hx); try (apply Ht; intros m); try (by apply Hx).
  - destruct (decode_voice_packet ServerBound buf) as [[p rest]|e]; [|by apply Hx]. apply Hy, voice_packet_same.
  - apply Hy, on_client_same. intros c. eapply same_client_trans; [|apply send_message_same]. done.
  - by apply Hx, channel_state_strong.
  - by apply Hx, user_state_strong.
  - unfold handle_crypt_setup. destruct (heap st !! r) as [c|] eqn:Hc; [|by apply Hx]. case_if.
    + destruct (set_decrypt_nonce _ _); [|done]. by apply Hy, (set_heap_same st r c).
    + apply Hy, on_client_same. intros; apply send_crypt_setup_same.
  - apply Hy. unfold handle_voice_target. case_if; [done|]. destruct (_ ≫= _); [|done]. cbn [fst].
    etransitivity; [|apply upd_client_same; auto with rust]. by apply upd_client_same.
  - apply Hy, on_client_same. intros; apply send_message_same.
  - apply Hy, on_client_same. intros; apply send_message_same.
Qed.
End handlers.
