(* ===== verification/HandlerProps.v ===== *)
(** What the handlers do: routing of voice, channels on request, and the smaller handlers. *)

From stdpp Require Import base gmap strings list.
From Stdlib Require Import ZArith Lia.
From S2P Require Import Prelude Errors Maps Text Voice Float32 Messages Crypt Proto Bans Client Anticheat State.
From S2P Require Import StateInv StateProps Handlers HandlerInv.
Import ServerState Handler.

(** ** Who listens *)

Lemma fold_insert_new (l : list (Z * ClientRef)) (acc : gmap Z ClientRef) s :
  fold_left (fun acc p => insert_new p.1 p.2 acc) l acc !! s =
  match acc !! s with Some r => Some r | None => (list_to_map l : gmap Z ClientRef) !! s end.
Proof.
  revert acc. induction l as [|[k r] l IH]; intros acc; cbn [fold_left list_to_map foldr fst snd].
  - by destruct (acc !! s).
  - rewrite IH, lookup_insert_new. case_decide as Hk.
    + subst k. destruct (acc !! s); cbn; [done|]. unfold curry. cbn. by rewrite lookup_insert_eq.
    + destruct (acc !! s); [done|]. unfold curry. cbn. by rewrite lookup_insert_ne.
Qed.

Section routing.
Context `{HashIterLaws} `{MumbleProto} `{Aes128} `{UdpSocket}.

Lemma listen_all_lookup (m acc : gmap Z ClientRef) s :
  listen_all m acc !! s = match acc !! s with Some r => Some r | None => m !! s end.
Proof.
  unfold listen_all. rewrite fold_insert_new. destruct (acc !! s); [done|].
  destruct (m !! s) as [r|] eqn:Hm.
  - apply elem_of_list_to_map; [apply NoDup_hash_iter|]. by apply elem_of_hash_iter.
  - apply not_elem_of_list_to_map. intros ([k r] & Heq & Hin)%list_elem_of_fmap. cbn in Heq. subst k.
    apply elem_of_hash_iter in Hin. congruence.
Qed.

(** A source of listeners: what it adds to the set. *)
Lemma fold_listen {K} (f : gmap Z ClientRef -> K -> gmap Z ClientRef) (src : K -> Z -> ClientRef -> Prop) :
  (forall acc k s r, f acc k !! s = Some r -> acc !! s = Some r \/ src k s r) ->
  (forall acc k s, is_Some (acc !! s) \/ (exists r, src k s r) -> is_Some (f acc k !! s)) ->
  forall ks acc,
    (forall s r, fold_left f ks acc !! s = Some r -> acc !! s = Some r \/ exists k, k ∈ ks /\ src k s r)
    /\ (forall s, is_Some (acc !! s) \/ (exists k r, k ∈ ks /\ src k s r) -> is_Some (fold_left f ks acc !! s)).
Proof.
  intros Hf1 Hf2 ks. induction ks as [|k ks IH]; intros acc; cbn [fold_left].
  - split; [auto|]. intros s [Hs|(k & r & Hk & _)]; [done|]. by apply not_elem_of_nil in Hk.
  - destruct (IH (f acc k)) as [IH1 IH2]. split.
    + intros s r Hs. destruct (IH1 s r Hs) as [Ha|(k' & Hk' & Hsrc)].
      * destruct (Hf1 _ _ _ _ Ha); [by left|]. right. exists k. split; [by left|done].
      * right. exists k'. split; [by right|done].
    + intros s Hs. apply IH2. destruct Hs as [Ha|(k' & r & [->|Hk']%elem_of_cons & Hsrc)].
      * left. apply Hf2. by left.
      * left. apply Hf2. right. eauto.
      * right. eauto.
Qed.

(** Whom a voice target reaches, by session or by channel. *)
Definition session_source (st : ServerState) (k s : Z) (r : ClientRef) : Prop := k = s /\ clients st !! s = Some r.
Definition channel_source (st : ServerState) (k s : Z) (r : ClientRef) : Prop :=
  exists ch, channels st !! k = Some ch
    /\ (Channel.listeners ch !! s = Some r \/ Channel.clients ch !! s = Some r).

Lemma fold_sessions st ks acc :
  (forall s r, fold_left (listen_session st) ks acc !! s = Some r ->
     acc !! s = Some r \/ exists k, k ∈ ks /\ session_source st k s r)
  /\ (forall s, is_Some (acc !! s) \/ (exists k r, k ∈ ks /\ session_source st k s r) ->
        is_Some (fold_left (listen_session st) ks acc !! s)).
Proof.
  apply fold_listen; clear ks acc; unfold listen_session, session_source.
  - intros acc k s r. destruct (clients st !! k) as [r0|] eqn:Hk; [|by left]. rewrite lookup_insert_new.
    case_decide; [subst k|by left]. destruct (acc !! s); cbn; intros [= ->]; auto.
  - intros acc k s Hs. destruct (clients st !! k) as [r0|] eqn:Hk.
    + rewrite lookup_insert_new. case_decide; [by eexists|]. destruct Hs as [Hs|(r & -> & Hr)]; [done|done].
    + destruct Hs as [Hs|(r & -> & Hr)]; [done|congruence].
Qed.

Lemma fold_channels st ks acc :
  (forall s r, fold_left (listen_channel st) ks acc !! s = Some r ->
     acc !! s = Some r \/ exists k, k ∈ ks /\ channel_source st k s r)
  /\ (forall s, is_Some (acc !! s) \/ (exists k r, k ∈ ks /\ channel_source st k s r) ->
        is_Some (fold_left (listen_channel st) ks acc !! s)).
Proof.
  apply fold_listen; clear ks acc; unfold listen_channel, channel_source.
  - intros acc k s r. destruct (channels st !! k) as [ch|] eqn:Hk; [|by left]. rewrite !listen_all_lookup.
    destruct (acc !! s); [by left|]. destruct (Channel.listeners ch !! s) eqn:Hl; intros [= ?]; subst; right; eauto.
  - intros acc k s Hs. destruct (channels st !! k) as [ch|] eqn:Hk.
    + rewrite !listen_all_lookup. destruct Hs as [[r Hs]|(r & ch' & [= <-] & Hr)]; [by rewrite Hs; eexists|].
      destruct (acc !! s); [by eexists|]. destruct (Channel.listeners ch !! s); [by eexists|].
      destruct Hr as [Hr|Hr]; [done|by rewrite Hr; eexists].
    + by destruct Hs as [Hs|(r & ch' & ? & _)].
Qed.

Lemma elem_of_hash_keys {A} (m : gmap Z A) k : k ∈ (hash_iter m).*1 <-> is_Some (m !! k).
Proof.
  rewrite list_elem_of_fmap. split.
  - intros ([k' a] & -> & Hin). apply elem_of_hash_iter in Hin. by eexists.
  - intros [a Ha]. exists (k, a). split; [done|]. by apply elem_of_hash_iter.
Qed.

(** The clients a packet for [target] is for, connected or not: only the sessions of a voice target are looked up among the
    connected clients. *)
Definition addressed (st : ServerState) (c : Client.Client) (target s : Z) (r : ClientRef) : Prop :=
  if target =? 0 then
    exists ch, channels st !! Client.channel_id c = Some ch /\ Channel.clients ch !! s = Some r
  else 1 <= target <= 30 /\ exists t, Client.get_target c target = Some t
    /\ ((is_Some (sessions t !! s) /\ clients st !! s = Some r)
        \/ exists k, is_Some (target_channels t !! k) /\ channel_source st k s r).

Lemma listening_spec st c target :
  state_inv st ->
  (forall s r, listening_clients st c target !! s = Some r -> addressed st c target s r)
  /\ (forall s r, addressed st c target s r -> is_Some (listening_clients st c target !! s)).
Proof.
  intros Hinv. unfold listening_clients, addressed. destruct (Z.eqb_spec target 0) as [->|Hne].
  - destruct (channels st !! Client.channel_id c) as [ch|] eqn:Hk.
    + rewrite (find_channel_some st _ ch Hinv Hk).
      split; intros s r; rewrite listen_all_lookup, lookup_empty; [eauto|].
      intros (ch' & [= <-] & Hr). rewrite Hr. by eexists.
    + destruct (get_channel_by_channel_id st _) as [[k ch]|] eqn:Hf.
      { apply find_channel_spec in Hf as [Hk' Hid]. destruct (si_channels _ Hinv k ch Hk') as [_ Hid']. congruence. }
      split; intros s r; [intros E; by apply lookup_empty_Some in E|]. intros (ch' & ? & _). done.
  - destruct ((1 <=? target) && (target <=? 30)) eqn:Hr.
    2:{ split; intros s r; [intros E; by apply lookup_empty_Some in E|]. intros [Hr' _]. lia. }
    apply andb_true_iff in Hr as [Hr1 Hr2]. destruct (Client.get_target c target) as [t|] eqn:Ht.
    2:{ split; intros s r; [intros E; by apply lookup_empty_Some in E|]. intros (_ & t & ? & _). done. }
    destruct (fold_sessions st (hash_iter (sessions t)).*1 ∅) as [S1 S2].
    destruct (fold_channels st (hash_iter (target_channels t)).*1
      (fold_left (listen_session st) (hash_iter (sessions t)).*1 ∅)) as [C1 C2]. split.
    + intros s r Hs. split; [lia|]. exists t. split; [done|].
      destruct (C1 s r Hs) as [Hs'|(k & Hk%elem_of_hash_keys & Hsrc)]; [|right; eauto].
      destruct (S1 s r Hs') as [E|(k & Hk%elem_of_hash_keys & -> & Hc)]; [by apply lookup_empty_Some in E|by left].
    + intros s r (_ & t' & [= <-] & Hsrc). apply C2. destruct Hsrc as [[Hk Hc]|(k & Hk & Hsrc)].
      * left. apply S2. right. exists s, r. split; [by apply elem_of_hash_keys|done].
      * right. exists k, r. split; [by apply elem_of_hash_keys|done].
Qed.

Lemma addressed_strong st c target s r : state_inv st -> addressed st c target s r -> strong st s r.
Proof.
  intros Hinv. unfold addressed. case_if.
  - intros (ch & Hch & Hr). eapply (si_members _ Hinv); [done|by left].
  - intros (_ & t & _ & [[_ Hr]|(k & _ & ch & Hch & Hr)]); [by apply (si_clients _ Hinv)|].
    eapply (si_members _ Hinv); [done|]. tauto.
Qed.
End routing.

(** ** Delivery *)

Section delivery.
Context `{HashIterLaws} `{MumbleProto} `{Aes128} `{UdpSocket}.

(** What delivery does to one client, as far as routing is concerned. *)
Record routed (c c' : Client.Client) (p : Publisher) : Prop := {
  rt_pub : Client.publisher c' = p;
  rt_deaf : Client.deaf c' = Client.deaf c;
  rt_id : Client.identity c' = Client.identity c;
}.

Definition after_voice (c : Client.Client) (packet : VoicePacket ClientBound) (addressed : bool) : Publisher :=
  if addressed && negb (Client.deaf c) then Client.publisher (delivered c (SendVoicePacket packet))
  else Client.publisher c.

Lemma deliver_one speaker packet rec now st n p c :
  heap st !! p.2 = Some c ->
  let st' := fst (deliver speaker packet rec now (st, n) p) in
  (exists c', heap st' !! p.2 = Some c' /\ routed c c' (after_voice c packet true))
  /\ (forall r, r <> p.2 -> heap st' !! r = heap st !! r)
  /\ (forall s, is_Some (disconnect_queue st !! s) -> is_Some (disconnect_queue st' !! s))
  /\ (Client.deaf c = false -> accepts c = false -> is_Some (disconnect_queue st' !! Client.session_id c)).
Proof.
  intros Hc. unfold deliver, after_voice, Client.is_deaf. rewrite Hc.
  destruct (Client.deaf c) eqn:Hd; cbn [fst negb andb].
  { split_and!; [by exists c|done|done|done]. }
  set (c1 := if rec then Anticheat.note_heard (anticheat st) speaker c now else c).
  set (st1 := if rec then _ else st).
  assert (st1 = set_heap st (<[p.2 := c1]> (heap st))) as E.
  { subst st1 c1. destruct rec; [done|]. rewrite insert_id by done. by destruct st. }
  assert (Client.publisher c1 = Client.publisher c /\ Client.deaf c1 = Client.deaf c
    /\ Client.identity c1 = Client.identity c) as (Ep & Ed & Ei) by (subst c1; by destruct rec).
  destruct (publish_spec st1 p.2 (SendVoicePacket packet) c1) as [Hh Hq];
    [rewrite E; cbn; by rewrite lookup_insert_eq|].
  assert (accepts c1 = accepts c) as Ea by (unfold accepts; by rewrite Ep).
  assert (disconnect_queue st1 = disconnect_queue st) as Eq by (by rewrite E).
  split_and!.
  - exists (delivered c1 (SendVoicePacket packet)). rewrite Hh, lookup_insert_eq. split; [done|].
    unfold delivered. rewrite Ea, Ep. split; case_if; cbn; congruence.
  - intros r Hr. rewrite Hh, E. cbn. by rewrite !lookup_insert_ne.
  - intros s Hs. rewrite Hq, Ea, Eq. case_if; [done|]. rewrite lookup_insert_new. case_decide; [by eexists|done].
  - intros _ Ha. rewrite Hq, Ea, Ha, lookup_insert_new, decide_True; [by eexists|].
    unfold Client.session_id. by rewrite Ei.
Qed.

Lemma deliver_all speaker packet rec now (l : list (Z * ClientRef)) st n :
  NoDup l.*2 -> (forall k r, (k, r) ∈ l -> strong st k r) ->
  let st' := fst (fold_left (deliver speaker packet rec now) l (st, n)) in
  (forall r c, heap st !! r = Some c ->
     exists c', heap st' !! r = Some c' /\ routed c c' (after_voice c packet (bool_decide (r ∈ l.*2))))
  /\ (forall s, is_Some (disconnect_queue st !! s) -> is_Some (disconnect_queue st' !! s))
  /\ (forall r c, r ∈ l.*2 -> heap st !! r = Some c -> Client.deaf c = false -> accepts c = false ->
        is_Some (disconnect_queue st' !! Client.session_id c)).
Proof.
  revert st n. induction l as [|[k r] l IH]; intros st n Hnd Hst.
  { cbn. split_and!; [|done|intros r c Hr; by apply not_elem_of_nil in Hr].
    intros r c Hc. exists c. split; [done|]. by split. }
  apply NoDup_cons in Hnd as [Hr Hnd]. change ((((k, r) :: l).*2)) with (r :: l.*2) in *. cbn [fold_left].
  destruct (Hst k r ltac:(by left)) as (c0 & Hc0 & _).
  destruct (deliver_one speaker packet rec now st n (k, r) c0 Hc0) as ((c1 & Hc1 & R1) & Hoth & Hmono & Hfull).
  pose proof (deliver_same speaker packet rec now (st, n) (k, r)) as Hsame.
  destruct (deliver speaker packet rec now (st, n) (k, r)) as [st1 n1]. cbn [fst snd] in *.
  destruct (IH st1 n1 Hnd) as (I1 & I2 & I3).
  { intros k' r' Hin. eapply same_shape_strong; [done|]. apply Hst. by right. }
  split_and!.
  - intros r' c Hc. destruct (decide (r' = r)) as [->|Hne].
    + assert (c = c0) as -> by congruence. destruct (I1 r c1 Hc1) as (c2 & Hc2 & R2).
      exists c2. split; [done|]. rewrite bool_decide_eq_true_2 by (by left).
      rewrite bool_decide_eq_false_2 in R2 by done. destruct R1 as [P1 D1 J1], R2 as [P2 D2 J2].
      split; [|congruence|congruence]. rewrite P2. unfold after_voice at 1. cbn. congruence.
    + destruct (I1 r' c) as (c2 & Hc2 & R2); [by rewrite Hoth|]. exists c2. split; [done|].
      assert (r' ∈ l.*2 <-> r' ∈ r :: l.*2) as Hiff by (rewrite elem_of_cons; split; [by right|by intros [->|]]).
      by rewrite <-(bool_decide_ext _ _ Hiff).
  - auto.
  - intros r' c [->|Hin]%elem_of_cons Hc Hd Ha.
    + assert (c = c0) as -> by congruence. auto.
    + apply (I3 r' c); [done| |done|done]. rewrite Hoth; [done|]. by intros ->.
Qed.

(** The listening clients do not depend on what is recorded about positions. *)
Lemma listening_ext st st' c c' target :
  clients st' = clients st -> channels st' = channels st ->
  Client.channel_id c' = Client.channel_id c -> Client.targets c' = Client.targets c ->
  listening_clients st' c' target = listening_clients st c target.
Proof.
  intros E1 E2 E3 E4. unfold listening_clients, get_channel_by_channel_id, Client.get_target.
  rewrite E2, E3, E4. assert (listen_session st' = listen_session st) as -> by (unfold listen_session; by rewrite E1).
  assert (listen_channel st' = listen_channel st) as -> by (unfold listen_channel; by rewrite E2). done.
Qed.

Lemma note_position_routing a c p now :
  let c' := Anticheat.note_position a c p now in
  Client.channel_id c' = Client.channel_id c /\ Client.targets c' = Client.targets c
  /\ Client.publisher c' = Client.publisher c /\ Client.deaf c' = Client.deaf c
  /\ Client.mute c' = Client.mute c /\ Client.identity c' = Client.identity c.
Proof. unfold Anticheat.note_position. repeat case_if; done. Qed.
End delivery.

Definition quiet (st st' : ServerState) : Prop :=
  disconnect_queue st' = disconnect_queue st
  /\ forall r c, heap st !! r = Some c ->
       exists c', heap st' !! r = Some c' /\ routed c c' (Client.publisher c).

#[global] Instance quiet_preorder : PreOrder quiet.
Proof.
  split.
  - intros st. split; [done|]. intros r c Hc. exists c. split; [done|]. by split.
  - intros s1 s2 s3 [Q1 R1] [Q2 R2]. split; [congruence|]. intros r c Hc.
    destruct (R1 r c Hc) as (c1 & Hc1 & [P1 D1 J1]). destruct (R2 r c1 Hc1) as (c2 & Hc2 & [P2 D2 J2]).
    exists c2. split; [done|]. split; congruence.
Qed.

Lemma upd_client_quiet st r f :
  (forall c, heap st !! r = Some c -> routed c (f c) (Client.publisher c)) -> quiet st (upd_client st r f).
Proof.
  intros Hf. split; [done|]. intros r' c Hc. cbn. destruct (decide (r = r')) as [<-|Hne].
  - rewrite lookup_alter_eq, Hc. cbn. eauto.
  - rewrite lookup_alter_ne, Hc by done. exists c. split; [done|]. by split.
Qed.

Section voice.
Context `{HashIterLaws} `{MumbleProto} `{Aes128} `{UdpSocket}.

Lemma note_position_quiet st r p now :
  quiet st (upd_client st r (fun c => Anticheat.note_position (anticheat st) c p now)).
Proof.
  apply upd_client_quiet. intros c _. destruct (note_position_routing (anticheat st) c p now) as (_ & _ & P & D & _ & J).
  by split.
Qed.

Lemma note_emission_quiet st r n :
  quiet st (upd_client st r (fun c => Anticheat.note_emission (anticheat st) c n)).
Proof. apply upd_client_quiet. intros c _. unfold Anticheat.note_emission. by case_if. Qed.

(** The state after the position was recorded, with the sender in it. *)
Lemma position_step st r c packet now :
  heap st !! r = Some c ->
  let st1 := match packet_position packet with
             | Some p => upd_client st r (fun c => Anticheat.note_position (anticheat st) c p now)
             | None => st
             end in
  quiet st st1 /\ same_shape st st1
  /\ exists c1, heap st1 !! r = Some c1 /\ Client.mute c1 = Client.mute c
       /\ Client.channel_id c1 = Client.channel_id c /\ Client.targets c1 = Client.targets c.
Proof.
  intros Hc. cbv zeta. destruct (packet_position packet) as [p|]; [|split_and!; [done|done|by exists c]].
  split; [apply note_position_quiet|]. split; [apply upd_client_same; auto with rust|].
  exists (Anticheat.note_position (anticheat st) c p now). cbn. rewrite lookup_alter_eq, Hc. split; [done|].
  by destruct (note_position_routing (anticheat st) c p now) as (? & ? & _ & _ & ? & _).
Qed.

Lemma refs_of_map st (m : gmap Z ClientRef) r c :
  (forall s r', m !! s = Some r' -> strong st s r') -> heap st !! r = Some c ->
  r ∈ (hash_iter m).*2 <-> m !! Client.session_id c = Some r.
Proof.
  intros Hm Hc. rewrite list_elem_of_fmap. split.
  - intros ([k r'] & -> & Hin). cbn in *. apply elem_of_hash_iter in Hin.
    destruct (Hm _ _ Hin) as (c' & Hc' & <-). by assert (c' = c) as -> by congruence.
  - intros Hr. exists (Client.session_id c, r). split; [done|]. by apply elem_of_hash_iter.
Qed.

Lemma voice_packet_spec st r c target sid sn pl pos now :
  state_inv st -> heap st !! r = Some c -> Client.mute c = false -> target <> 31 ->
  let packet := VAudio (D := ClientBound) target sid sn pl pos in
  let L := delete sid (listening_clients st c target) in
  let '(st', res) := handle_voice_packet st r packet now in
  res = Ok tt
  /\ (forall r' c', heap st !! r' = Some c' ->
        exists c'', heap st' !! r' = Some c''
          /\ Client.publisher c'' = after_voice c' packet (bool_decide (L !! Client.session_id c' = Some r')))
  /\ (forall r' c', heap st !! r' = Some c' -> L !! Client.session_id c' = Some r' -> Client.deaf c' = false ->
        accepts c' = false -> is_Some (disconnect_queue st' !! Client.session_id c')).
Proof.
  intros Hinv Hc Hmute Ht packet L. unfold handle_voice_packet.
  destruct (position_step st r c packet now Hc) as ((Q1 & R1) & S1 & c1 & Hc1 & Hm1 & Hch1 & Ht1).
  set (st1 := match packet_position packet with Some _ => _ | None => st end) in *.
  rewrite Hc1. unfold Client.is_muted. rewrite Hm1, Hmute. subst packet. cbv iota.
  rewrite (proj2 (Z.eqb_neq _ _)) by done.
  rewrite (listening_ext st st1 c c1 target (ss_clients _ _ S1) (ss_channels _ _ S1) Hch1 Ht1). fold L.
  set (packet := VAudio target sid sn pl pos) in *. clearbody st1. set (rec := takes_record st1 c1 now).
  set (st2 := if rec then _ else st1).
  assert (quiet st1 st2 /\ same_shape st1 st2) as [(Q2 & R2) S2].
  { subst st2. destruct rec; [|done]. split; [by apply upd_client_quiet|by apply upd_client_same]. }
  assert (state_inv st2) as I2 by (eapply same_shape_inv; [exact S2|]; by eapply same_shape_inv).
  assert (forall s r', L !! s = Some r' -> strong st s r') as HL.
  { intros s r' [_ Hs]%lookup_delete_Some. destruct (listening_spec st c target Hinv) as [HL _].
    eapply addressed_strong; [done|]. by apply HL. }
  assert (forall s r', L !! s = Some r' -> strong st2 s r') as HL2
    by (intros s r' Hs; eapply same_shape_strong; [exact S2|]; eapply same_shape_strong; [exact S1|]; auto).
  destruct (deliver_all c1 packet rec now (hash_iter L) st2 0) as (D1 & D2 & D3);
    [by apply (hash_iter_refs_nodup st2)|intros k r' Hin; apply HL2; by apply elem_of_hash_iter|].
  destruct (fold_left (deliver c1 packet rec now) (hash_iter L) (st2, 0)) as [st3 n]. cbn [fst] in *.
  destruct (note_emission_quiet st3 r n) as [Q4 R4]. split; [done|].
  assert (forall r' c', heap st !! r' = Some c' -> exists c2, heap st2 !! r' = Some c2
    /\ routed c' c2 (Client.publisher c')) as R12.
  { intros r' c' Hc'. destruct (R1 r' c' Hc') as (a & Ha & [P D J]). destruct (R2 r' a Ha) as (b & Hb & [P' D' J']).
    exists b. split; [done|]. split; congruence. }
  assert (forall r' c', heap st !! r' = Some c' -> r' ∈ (hash_iter L).*2 <-> L !! Client.session_id c' = Some r') as Hiff
    by (intros r' c' Hc'; by apply (refs_of_map st)).
  split.
  - intros r' c' Hc'. destruct (R12 r' c' Hc') as (c2 & Hc2 & [P D J]).
    destruct (D1 r' c2 Hc2) as (c3 & Hc3 & [P3 _ _]). destruct (R4 r' c3 Hc3) as (c4 & Hc4 & [P4 _ _]).
    exists c4. split; [done|]. rewrite P4, P3, (bool_decide_ext _ _ (Hiff r' c' Hc')).
    unfold after_voice, delivered, accepts. rewrite P, D. repeat case_if; cbn; congruence.
  - intros r' c' Hc' Hl Hd Ha. destruct (R12 r' c' Hc') as (c2 & Hc2 & [P D J]). rewrite Q4.
    replace (Client.session_id c') with (Client.session_id c2) by (unfold Client.session_id; by rewrite J).
    apply (D3 r' c2); [by apply (Hiff r' c' Hc')|done|congruence|]. unfold accepts in *. by rewrite P.
Qed.
End voice.

(** ** Channels on request *)

Section creation.
Context `{HashIterLaws} `{MumbleProto} `{Aes128} `{UdpSocket}.

Lemma find_name_none st name :
  get_channel_by_name st name = None -> forall k ch, channels st !! k = Some ch -> Channel.name ch <> name.
Proof.
  intros Hf k ch Hk Hn. eapply find_none in Hf; [|by apply list_elem_of_In, elem_of_hash_iter].
  cbn in Hf. by apply bool_decide_eq_false in Hf.
Qed.

Lemma may_create_name st m :
  may_create st m = true ->
  get_bool (ChannelStateMsg.temporary m) = true
  /\ forall k ch, channels st !! k = Some ch -> Channel.name ch <> get_str (ChannelStateMsg.name m).
Proof.
  unfold may_create. rewrite !andb_true_iff. intros [[[[[[_ _] _] Ht] _] _] Hn]. split; [done|].
  apply find_name_none. by destruct (get_channel_by_name st _).
Qed.
End creation.

(** ** Concrete instances *)

Definition no_udp : UdpSocket := fun _ _ => Ok tt.

Definition sample_voice : VoicePacket ClientBound :=
  VAudio (D := ClientBound) 0 1 7 (Opus [1; 2; 3] false) None.

(** Both users in channel 1. *)
Definition sample_talk : ServerState := fst (@set_client_channel canonical_iter const_proto sample_server 1%nat 1).

Lemma sample_talk_inv : state_inv sample_talk.
Proof. apply (@set_client_channel_inv canonical_iter const_proto canonical_iter_laws), sample_server_inv. Qed.

(** ** Properties *)

(** C11.  Routing of voice: a packet from a client that is not muted, for any target but the loopback, is queued for
    exactly the clients it addresses: the members of the sender's channel for target 0; for a voice target the
    connected sessions it names and the members and the listeners of the channels it names.  A channel may list
    listeners that have disconnected, and packets are queued for them too.  The session the packet carries, the sender's,
    and the deaf are excepted.  Nobody else's queue changes, and one whose queue is full is scheduled for
    disconnection instead of blocking the others. *)
Theorem voice_routing `{HashIterLaws} `{MumbleProto} `{Aes128} `{UdpSocket} (st : ServerState) (r : ClientRef)
    (c : Client.Client) (target sid sn : Z) (pl : VoicePacketPayload) (pos : option (list Z)) (now : Z) :
  state_inv st -> heap st !! r = Some c -> Client.mute c = false -> target <> 31 ->
  let packet := VAudio (D := ClientBound) target sid sn pl pos in
  let L := listening_clients st c target in
  let '(st', res) := handle_voice_packet st r packet now in
  res = Ok tt
  /\ (forall s r', L !! s = Some r' -> addressed st c target s r')
  /\ (forall s r', addressed st c target s r' -> is_Some (L !! s))
  /\ (forall r' c', heap st !! r' = Some c' ->
        let hears := L !! Client.session_id c' = Some r' /\ Client.session_id c' <> sid
                     /\ Client.deaf c' = false in
        exists c'', heap st' !! r' = Some c''
          /\ (hears -> Client.publisher c'' = Client.publisher (delivered c' (SendVoicePacket packet))
                /\ (accepts c' = false -> is_Some (disconnect_queue st' !! Client.session_id c')))
          /\ (~ hears -> Client.publisher c'' = Client.publisher c')).
Proof.
  intros Hinv Hc Hm Ht packet L. pose proof (voice_packet_spec st r c target sid sn pl pos now Hinv Hc Hm Ht) as Hs.
  destruct (listening_spec st c target Hinv) as [HL1 HL2].
  cbv zeta in Hs. fold packet in Hs. destruct (handle_voice_packet st r packet now) as [st' res]. destruct Hs as (-> & S1 & S2).
  split_and!; [done|exact HL1|exact HL2|]. intros r' c' Hc' hears. destruct (S1 r' c' Hc') as (c'' & Hc'' & Hp).
  fold L in Hp, S2. assert (delete sid L !! Client.session_id c' = Some r' <->
    L !! Client.session_id c' = Some r' /\ Client.session_id c' <> sid) as Hdel
    by (rewrite lookup_delete_Some; split; intros [? ?]; done).
  exists c''. split; [done|]. unfold after_voice in Hp. split.
  - intros (Hl & Hne & Hd). split.
    + rewrite bool_decide_eq_true_2, Hd in Hp by (by apply Hdel). done.
    + intros Ha. apply (S2 r' c'); [done|by apply Hdel|done|done].
  - intros Hno. rewrite Hp. case_bool_decide as Hb; [|done].
    destruct (Client.deaf c') eqn:Hd; [done|]. exfalso. apply Hno. apply Hdel in Hb as [? ?]. done.
Qed.

Lemma voice_routing_witness :
  let st' := fst (@handle_voice_packet canonical_iter xor_aes no_udp sample_talk 0%nat sample_voice 0) in
  exists c, heap st' !! 1%nat = Some c
    /\ last (queue (Client.publisher c)) = Some (SendVoicePacket sample_voice).
Proof.
  destruct (heap sample_talk !! 0%nat) as [c|] eqn:Hc; [|vm_compute in Hc; discriminate].
  destruct (heap sample_talk !! 1%nat) as [c1|] eqn:Hc1; [|vm_compute in Hc1; discriminate].
  assert (Client.mute c = false /\ listening_clients (H := canonical_iter) sample_talk c 0 !! 2 = Some 1%nat) as [Hm Hl]
    by (vm_compute in Hc; injection Hc as <-; split; vm_compute; reflexivity).
  assert (Client.session_id c1 = 2 /\ Client.deaf c1 = false
    /\ last (queue (Client.publisher (delivered c1 (SendVoicePacket sample_voice)))) = Some (SendVoicePacket sample_voice))
    as (Hs & Hd & Hq) by (vm_compute in Hc1; injection Hc1 as <-; repeat split; vm_compute; reflexivity).
  pose proof (@voice_routing canonical_iter canonical_iter_laws const_proto xor_aes no_udp sample_talk 0%nat c 0 1 7
    (Opus [1; 2; 3] false) None 0 sample_talk_inv Hc Hm ltac:(discriminate)) as H.
  fold sample_voice in H. cbv zeta in H |- *.
  destruct (handle_voice_packet sample_talk 0%nat sample_voice 0) as [st' res]. cbn [fst].
  destruct H as (_ & _ & _ & H). destruct (H 1%nat c1 Hc1) as (c2 & Hc2 & Hyes & _).
  exists c2. split; [exact Hc2|]. rewrite Hs in Hyes.
  destruct Hyes as [-> _]; [split; [exact Hl|split; [discriminate|exact Hd]]|]. exact Hq.
Defined.

(** A muted client is not heard: whatever packet it sends, by UDP or tunnelled, no queue changes and nobody is
    scheduled for disconnection; only its position is still recorded. *)
Theorem muted_is_silent `{HashIterLaws} `{MumbleProto} `{Aes128} `{UdpSocket} (st : ServerState) (r : ClientRef)
    (c : Client.Client) (packet : VoicePacket ClientBound) (now : Z) :
  heap st !! r = Some c -> Client.mute c = true ->
  let '(st', res) := handle_voice_packet st r packet now in
  res = Ok tt /\ udp_out st' = udp_out st /\ disconnect_queue st' = disconnect_queue st
  /\ (forall r' c', heap st !! r' = Some c' ->
        exists c'', heap st' !! r' = Some c'' /\ Client.publisher c'' = Client.publisher c').
Proof.
  intros Hc Hm. unfold handle_voice_packet.
  destruct (position_step st r c packet now Hc) as ((Q1 & R1) & S1 & c1 & Hc1 & Hm1 & _ & _).
  set (st1 := match packet_position packet with Some _ => _ | None => st end) in *.
  assert (udp_out st1 = udp_out st) as Hu by (subst st1; by destruct (packet_position packet)).
  rewrite Hc1. unfold Client.is_muted. rewrite Hm1, Hm. split_and!; [done|done|done|].
  intros r' c' Hc'. destruct (R1 r' c' Hc') as (c'' & Hc'' & [P _ _]). eauto.
Qed.

Lemma muted_is_silent_witness :
  let st := upd_client sample_talk 0%nat (fun c => Client.set_mute c true) in
  snd (@handle_voice_packet canonical_iter xor_aes no_udp st 0%nat sample_voice 0) = Ok tt.
Proof.
  cbv zeta. set (st := upd_client sample_talk 0%nat (fun c => Client.set_mute c true)).
  destruct (heap st !! 0%nat) as [c|] eqn:Hc; [|vm_compute in Hc; discriminate].
  assert (Client.mute c = true) as Hm by (vm_compute in Hc; injection Hc as <-; reflexivity).
  pose proof (@muted_is_silent canonical_iter canonical_iter_laws const_proto xor_aes no_udp st 0%nat c sample_voice 0 Hc Hm) as H.
  destruct (handle_voice_packet st 0%nat sample_voice 0) as [st' res]. exact (proj1 H).
Defined.

(** C39.  A client can take the server down: a [CryptSetup] message whose nonce is present but does not have 16 bytes
    makes the handler panic, and the release profile aborts on a panic; any other [CryptSetup] is handled. *)
Theorem crypt_setup_panics `{MumbleProto} (st : ServerState) (r : ClientRef) (c : Client.Client)
    (m : CryptSetupMsg.CryptSetup) (now : Z) :
  heap st !! r = Some c ->
  handle_crypt_setup st r m now = Panic <->
  exists nonce, CryptSetupMsg.client_nonce m = Some nonce /\ length nonce <> 16%nat.
Proof.
  intros Hc. unfold handle_crypt_setup, set_decrypt_nonce. rewrite Hc.
  destruct (CryptSetupMsg.client_nonce m) as [nonce|]; cbn [has get_bytes default].
  - change (length (id nonce) =? BLOCK_SIZE)%nat with (length nonce =? 16)%nat.
    destruct (Nat.eqb_spec (length nonce) 16) as [Hl|Hl]; split; intros Hx; try done.
    + destruct Hx as (n & [= <-] & Hn). done.
    + by exists nonce.
  - split; [done|]. by intros (n & ? & _).
Qed.

(** C30.  Creating a channel: a request that passes the checks creates a temporary channel under a free identifier and
    with a name no other channel has, moves the client into it as its only member and
    records it in the client; any other request changes nothing. *)
Theorem channel_creation `{HashIterLaws} `{MumbleProto} `{Aes128} `{UdpSocket} (st : ServerState) (r : ClientRef)
    (c : Client.Client) (m : ChannelStateMsg.ChannelState) :
  state_inv st -> Z.of_nat (size (channels st)) < 2 ^ 32 -> heap st !! r = Some c ->
  let '(st', res) := handle_channel_state st r m in
  if may_create st m then
    exists k ch c', channels st !! k = None /\ channels st' !! k = Some ch
      /\ Channel.name ch = get_str (ChannelStateMsg.name m) /\ Channel.temporary ch = true
      /\ Channel.clients ch = {[ Client.session_id c := r ]}
      /\ (forall k' ch', channels st !! k' = Some ch' -> Channel.name ch' <> Channel.name ch)
      /\ heap st' !! r = Some c' /\ Client.channel_id c' = k
  else st' = st /\ res = Ok tt.
Proof.
  intros Hinv Hsz Hc. unfold handle_channel_state. destruct (may_create st m) eqn:Hmay; cbn [negb]; [|done].
  destruct (may_create_name st m Hmay) as [Htemp Hname].
  pose proof (add_channel_inv st m Hinv Hsz) as Ha.
  assert (Channel.clients (snd (add_channel st m)) = ∅ /\ Channel.name (snd (add_channel st m)) = get_str (ChannelStateMsg.name m)
    /\ Channel.temporary (snd (add_channel st m)) = get_bool (ChannelStateMsg.temporary m)
    /\ heap (fst (add_channel st m)) = heap st) as (E1 & E2 & E3 & E4).
  { unfold add_channel, get_free_channel_id. by destruct (free_id (channels st) (channel_count st)). }
  destruct (add_channel st m) as [st1 ch]. cbn [fst snd] in E1, E2, E3, E4. destruct Ha as (I1 & Hfree & Hchs).
  pose proof (broadcast_same st1 MessageKind.ChannelState (Channel.get_channel_state ch)) as Hb.
  pose proof (broadcast_queue_only st1 MessageKind.ChannelState (Channel.get_channel_state ch)) as Hq.
  destruct (broadcast_message st1 _ _) as [st2 err]. cbn [fst] in Hb, Hq.
  destruct (Hq r c) as [p Hp]; [by rewrite E4|].
  assert (channels st2 !! Channel.id ch = Some ch) as Hk by (rewrite (ss_channels _ _ Hb), Hchs; by rewrite lookup_insert_eq).
  pose proof (set_client_channel_spec st2 r _ (Channel.id ch) ch (same_shape_inv _ _ Hb I1) Hp Hk) as Hs.
  destruct (set_client_channel st2 r (Channel.id ch)) as [st3 res]. destruct Hs as (-> & _ & Hch3 & q & Hc3). cbn [seq].
  exists (Channel.id ch), (Channel.set_clients ch (insert_new (Client.session_id c) r (Channel.clients ch))). eexists.
  cbn [Channel.name Channel.temporary Channel.clients Channel.set_clients].
  rewrite Hc3, E2, E3. split_and!; try done.
  - rewrite Hch3. unfold channels_moved. cbn.
    destruct (Z.eqb_spec (Client.channel_id c) (Channel.id ch)); [|rewrite channels_left_other by congruence];
      by rewrite lookup_alter_eq, Hk.
  - rewrite E1. unfold insert_new. by rewrite lookup_empty.
Qed.

Lemma sample_talk_users : is_Some (heap sample_talk !! 0%nat) /\ is_Some (heap sample_talk !! 1%nat).
Proof. split; vm_compute; by eexists. Qed.

Lemma channel_creation_witness :
  let m := ChannelStateMsg.mkChannelState None (Some 0) (Some "Radio"%string) [] None [] [] (Some true)
    None None None None None in
  let '(st', res) := @handle_channel_state canonical_iter const_proto sample_talk 1%nat m in
  exists ch, channels st' !! 2 = Some ch /\ Channel.clients ch = {[ 2 := 1%nat ]}.
Proof.
  cbv zeta. set (m := ChannelStateMsg.mkChannelState _ _ _ _ _ _ _ _ _ _ _ _ _).
  destruct (proj2 sample_talk_users) as [c Hc].
  assert (Client.session_id c = 2) as Hs by (vm_compute in Hc; injection Hc as <-; reflexivity).
  pose proof (@channel_creation canonical_iter canonical_iter_laws const_proto xor_aes no_udp sample_talk 1%nat c m
    sample_talk_inv ltac:(vm_compute; reflexivity) Hc) as H.
  assert (@may_create canonical_iter sample_talk m = true) as Hmay by (vm_compute; reflexivity).
  assert (channels (fst (@handle_channel_state canonical_iter const_proto sample_talk 1%nat m)) !! 1 <> None
    /\ dom (channels (fst (@handle_channel_state canonical_iter const_proto sample_talk 1%nat m))) = {[ 0; 1; 2 ]}) as [_ Hd]
    by (split; [vm_compute; discriminate|vm_compute; reflexivity]).
  rewrite Hmay in H. destruct (handle_channel_state sample_talk 1%nat m) as [st' res]. cbn [fst] in Hd.
  destruct H as (k & ch & c' & Hfree & Hk & _ & _ & Hcl & _).
  assert (k ∈ dom (channels st')) as Hin by (apply elem_of_dom; by eexists).
  rewrite Hd in Hin. rewrite Hs in Hcl.
  assert (k = 2) as ->; [|by exists ch].
  rewrite !elem_of_union, !elem_of_singleton in Hin. destruct Hin as [[->| ->]|Hin]; [discriminate Hfree..|exact Hin].
Defined.

Lemma crypt_setup_panics_witness :
  @handle_crypt_setup const_proto sample_talk 0%nat (CryptSetupMsg.mkCryptSetup None (Some [1; 2; 3]) None) 0 = Panic.
Proof.
  destruct (proj1 sample_talk_users) as [c Hc].
  apply (@crypt_setup_panics const_proto sample_talk 0%nat c _ 0 Hc). exists [1; 2; 3]. split; [reflexivity|discriminate].
Defined.

(** ** The reading task ends *)

Section reading.
Context `{HashIter} `{MumbleProto} `{Aes128} `{UdpSocket}.

(** A turn takes bytes off the stream. *)
Lemma read_turn_consumes st r stream now :
  stream <> [] -> (length (snd (read_turn st r stream now)) < length stream)%nat.
Proof.
  intros Hne. assert (0 < length stream)%nat as Hpos by (destruct stream; [done|cbn; lia]).
  unfold read_turn. destruct (read_u16 stream) as [[k s1]|] eqn:E1; [|done].
  destruct (read_be_length _ _ _ _ E1) as [? L1]. unfold handle_stream_read.
  destruct (read_u32 s1) as [[size s2]|] eqn:E2; [|done]. destruct (read_be_length _ _ _ _ E2) as [? L2].
  destruct (read_exact (Z.to_nat size) s2) as [[buf s3]|] eqn:E3; [|done].
  destruct (read_exact_length _ _ _ _ E3) as [? L3].
  match goal with |- context [match MessageKind.try_from k with Ok kind => @?f kind | Err e => @?g e end] =>
    destruct (match MessageKind.try_from k with Ok kind => f kind | Err e => g e end) as [[st' [u|e]]|] end; cbn [snd]; lia.
Qed.

Lemma read_turn_closed st r now : read_turn st r [] now = (Done (count_bad st r), []).
Proof. reflexivity. Qed.

(** A client whose stream ended has at most 22 failed reads left. *)
Lemma closed_stream_ends fuel st r now :
  (match heap st !! r with
   | Some c => in_u 32 (Client.bad_net_count c) /\ 22 - Client.bad_net_count c <= Z.of_nat fuel
   | None => True
   end) -> (0 < fuel)%nat -> exists st', read_loop fuel st r [] now = Done (st', true).
Proof.
  revert st. induction fuel as [|fuel IH]; intros st Hc Hpos; [lia|]. cbn [read_loop].
  destruct (heap st !! r) as [c|] eqn:Er; [|by eexists]. cbn [fmap option_fmap option_map default].
  change (id (Client.cancelled c)) with (Client.cancelled c). destruct (Client.cancelled c); [by eexists|].
  rewrite read_turn_closed. unfold count_bad. rewrite Er.
  destruct (Z.ltb_spec 20 (Client.bad_net_count c)) as [Hlt|Hge]; [by eexists|].
  apply IH; cbn [heap set_heap]; [|lia]. rewrite lookup_insert_eq.
  cbn [Client.bad_net_count Client.set_bad_net_count]. pose proof (as_u32_range (Client.bad_net_count c + 1)) as Hr.
  split; [done|]. rewrite as_u32_small by (unfold in_u in *; lia). lia.
Qed.
End reading.

(** The reading task of a client ends: whatever the client sends, in whatever state of the server, the loop over its stream is
    over after at most 24 turns more than the stream has bytes.  It is cancelled, or the stream is used up and the failing
    reads count as bad messages until there are too many; or a message makes the server panic. *)
Theorem reading_ends `{HashIter} `{MumbleProto} `{Aes128} `{UdpSocket} (st : ServerState) (r : ClientRef)
    (stream : list Z) (fuel : nat) (now : Z) :
  (length stream + 24 <= fuel)%nat ->
  read_loop fuel st r stream now = Panic \/ exists st', read_loop fuel st r stream now = Done (st', true).
Proof.
  revert st stream. induction fuel as [|fuel IH]; intros st stream Hf; [lia|].
  destruct stream as [|b stream].
  - right. cbn [length] in Hf. destruct (heap st !! r) as [c|] eqn:Er; [|apply closed_stream_ends; [by rewrite Er|lia]].
    cbn [read_loop]. rewrite Er, read_turn_closed. cbn [fmap option_fmap option_map default].
    destruct (id (Client.cancelled c)); [by eexists|]. unfold count_bad. rewrite Er.
    destruct (20 <? _); [by eexists|]. apply closed_stream_ends; [|lia]. cbn [heap set_heap]. rewrite lookup_insert_eq.
    cbn [Client.bad_net_count Client.set_bad_net_count]. pose proof (as_u32_range (Client.bad_net_count c + 1)) as Hr.
    split; [done|unfold in_u in Hr; lia].
  - cbn [read_loop]. destruct (default true _); [right; by eexists|].
    pose proof (read_turn_consumes st r (b :: stream) now ltac:(done)) as Hl.
    destruct (read_turn st r (b :: stream) now) as [[[st1 [|]]|] rest]; cbn [snd] in Hl; [right; by eexists| |by left].
    apply IH. cbn [length] in *. lia.
Qed.

(** A message that does not parse, a truncated one, and the end of the stream. *)
Lemma reading_ends_witness :
  let stream := [0; 3; 0; 0; 0; 1; 255; 0; 9; 0; 0] in
  exists st', @read_loop canonical_iter const_proto xor_aes no_udp 35 sample_talk 0%nat stream 0 = Done (st', true).
Proof.
  intros stream.
  destruct (@reading_ends canonical_iter const_proto xor_aes no_udp sample_talk 0%nat stream 35 0 ltac:(cbn; lia)) as [E|E];
    [|exact E].
  vm_compute in E. discriminate E.
Defined.
