(* ===== verification/Net.v ===== *)
(** The network front ends and the clean loop: [src/src/server/udp.rs], [src/src/server/tcp.rs], the handshake
    [Client::init] of [src/src/client.rs] and [src/src/clean.rs]. *)

From stdpp Require Import base gmap strings list.
From Stdlib Require Import ZArith Lia.
From S2P Require Import Prelude Errors Maps Text Varint Voice Messages Crypt Proto Bans Client Anticheat State.
From S2P Require Import Handlers.
Import ServerState.

(** [str::contains]. *)
Definition contains (s pattern : string) : bool := match find s pattern with Some _ => true | None => false end.

(** The [regex] crate on the pattern of the sources. *)
Class UsernameRegex := username_regex : string -> bool.

(** ** UDP *)

Module Udp.
Section udp.
Context `{HashIter} `{MumbleProto} `{Aes128} `{UdpSocket}.

(** [socket.send_to]. *)
Definition send_to (st : ServerState) (addr : SocketAddr) (buf : list Z) : ServerState * Result MumbleError unit :=
  (set_udp_out st (udp_out st ++ [(addr, buf)]), udp_send addr buf).

(** The answer to a server list ping. *)
Definition anonymous_pong (st : ServerState) (protocol_version timestamp : Z) : list Z :=
  be_bytes 4 protocol_version ++ le_bytes 8 timestamp ++ be_bytes 4 (active_clients st)
  ++ be_bytes 4 MAX_CLIENTS ++ be_bytes 4 MAX_BANDWIDTH_IN_BITS.

(** Whether a packet that failed to decrypt resets the client's crypt state. *)
Definition restart_crypt (cs : CryptState) (err : DecryptError) (now : Z) : bool :=
  match err with
  | Late => 100 <? late cs
  | Repeat => false
  | _ => true
  end || (5 <? as_secs (since now (last_good cs))).

(** What a decrypted packet does: a ping is echoed, voice goes to the client's own queue. *)
Definition forward (st : ServerState) (r : ClientRef) (packet : VoicePacket ServerBound) (addr : SocketAddr)
    (now : Z) : ServerState :=
  match heap st !! r with
  | None => st
  | Some c =>
    let client_packet := into_client_bound packet (Client.session_id c) (remove_positional_data st) in
    match client_packet with
    | VPing _ =>
      let '(cs, dest) := encrypt (Client.crypt_state c) client_packet in
      let c := Client.set_last_udp_ping (Client.set_crypt_state c cs) now in
      fst (send_to (set_heap st (<[r := c]> (heap st))) addr dest)
    | VAudio _ _ _ _ _ => publish st r (RouteVoicePacket client_packet)
    end
  end.

Definition handle_packet (st : ServerState) (buffer : list Z) (addr : SocketAddr) (protocol_version now : Z)
    : ServerState * Result MumbleError unit :=
  let size := length buffer in
  match buffer with
  | [] | [_] => (st, Err UnknownError)
  | b0 :: rest =>
    let kind := Z.land (Z.shiftr b0 5) 7 in
    if (kind =? 0) && (size =? 12)%nat then
      match read_varint rest with
      | Err e => (st, Err (MumbleIo e))
      | Ok (timestamp, _) => send_to st addr (anonymous_pong st protocol_version timestamp)
      end
    else
      match get_client_by_socket st addr with
      | Some r =>
        match heap st !! r with
        | None => (st, Err UnknownError)
        | Some c =>
          let '(cs, res) := decrypt ServerBound (Client.crypt_state c) buffer now in
          let st := set_heap st (<[r := Client.set_crypt_state c cs]> (heap st)) in
          match res with
          | Ok (packet, _) => (forward st r packet addr now, Ok tt)
          | Err err =>
            if restart_crypt cs err now then (fst (reset_client_crypt st r now), Ok tt) else (st, Ok tt)
          end
        end
      | None =>
        let '(st, found) := find_client_with_decrypt st buffer addr now in
        match found with
        | Some (r, packet) => (forward st r packet addr now, Ok tt)
        | None => (st, Ok tt)
        end
      end
  end.

(** The length of the buffer a datagram is received into; what does not fit is cut off. *)
Definition udp_buffer : nat := 1024.

(** One turn of the receive loop, with what [recv_from] gave, up to the end of the task it spawns for the datagram. *)
Definition udp_server_run (st : ServerState) (received : Result MumbleError (list Z * SocketAddr))
    (protocol_version now : Z) : ServerState :=
  match received with
  | Ok (datagram, addr) => fst (handle_packet st (take udp_buffer datagram) addr protocol_version now)
  | Err _ => st
  end.
End udp.
End Udp.

(** ** The clean loop *)

Module Clean.
Section clean.
Context `{HashIter} `{MumbleProto} `{Aes128}.

(** What one tick decides for one client. *)
Inductive Verdict := Remove (reason : DisconnectReason) | ResetCrypt | Keep.

Definition check_client (c : Client.Client) (now : Z) : Verdict :=
  if closed (Client.publisher c) then Remove LostReceivingChannel
  else if 30 <? as_secs (since now (Client.last_udp_ping c)) then ResetCrypt
  else if 10 <? as_secs (since now (Client.last_tcp_ping c)) then Remove ClientTimedOutTcp
  else if 8000 <? as_millis (since now (last_good (Client.crypt_state c))) then ResetCrypt
  else Keep.

Definition collect (st : ServerState) (now : Z) (acc : gmap Z DisconnectReason * list ClientRef)
    (p : Z * ClientRef) : gmap Z DisconnectReason * list ClientRef :=
  let '(to_remove, to_reset) := acc in
  match heap st !! p.2 with
  | None => acc
  | Some c =>
    match check_client c now with
    | Remove reason => (insert_new (Client.session_id c) reason to_remove, to_reset)
    | ResetCrypt => (to_remove, to_reset ++ [p.2])
    | Keep => acc
    end
  end.

(** The clients whose UDP side is silent, whose resets are counted. *)
Definition udp_silent (st : ServerState) (now : Z) (p : Z * ClientRef) : bool :=
  match heap st !! p.2 with
  | Some c => negb (closed (Client.publisher c)) && (30 <? as_secs (since now (Client.last_udp_ping c)))
  | None => false
  end.
Definition udp_silences (st : ServerState) (now : Z) : nat :=
  length (filter (fun p => udp_silent st now p) (hash_iter (clients st))).

(** The queue of disconnections, read entry by entry. *)
Definition read_queue (st : ServerState) : gmap Z DisconnectReason :=
  fold_left (fun m p => insert_new p.1 p.2 m) (hash_iter (disconnect_queue st)) ∅.

(** The rest of a tick, once the queue was read: the queue is cleared, with what other tasks entered since. *)
Definition clean_rest (st : ServerState) (clients_to_remove : gmap Z DisconnectReason) (now : Z) : ServerState :=
  let st := set_disconnect_queue st ∅ in
  let '(clients_to_remove, clients_to_reset_crypt) :=
    fold_left (collect st now) (hash_iter (clients st)) (clients_to_remove, []) in
  let st := set_metrics st (CRYPT_RESETS_inc_by (udp_silences st now) (metrics st)) in
  let st := fold_left (fun st r => fst (reset_client_crypt st r now)) clients_to_reset_crypt st in
  fold_left (fun st p => disconnect st p.1 p.2) (hash_iter clients_to_remove) st.

Definition clean_run (st : ServerState) (now : Z) : ServerState := clean_rest st (read_queue st) now.
End clean.
End Clean.

(** ** TCP *)

Module Tcp.
Section tcp.
Context `{HashIter} `{MumbleProto} `{Aes128} `{Unicode} `{UsernameRegex}.

(** [Client::init]: the bytes the client sends, the answer bytes, and whether each of the two
    waits ran over its second. *)
Definition init (stream : list Z) (server_version : VersionMsg.Version) (random_key : list Z) (now : Z)
    (timeout1 timeout2 : bool)
    : list Z * Result MumbleError (VersionMsg.Version * AuthenticateMsg.Authenticate * CryptState * list Z) :=
  if timeout1 then ([], Err ClientInitFailed) else
  match expected_message VersionMsg.Version MessageKind.Version stream with
  | Err e => ([], Err e)
  | Ok (version, stream) =>
    let! (out, u) := match send_message MessageKind.Version server_version [] with
                     | Ok out => (out, Ok tt)
                     | Err e => ([], Err e)
                     end in
    if timeout2 then (out, Err ClientInitFailed) else
    match expected_message AuthenticateMsg.Authenticate MessageKind.Authenticate stream with
    | Err e => (out, Err e)
    | Ok (authenticate, stream) =>
      let crypt := default_crypt_state random_key now in
      match send_message MessageKind.CryptSetup (get_crypt_setup crypt) out with
      | Err e => (out, Err e)
      | Ok out => (out, Ok (version, authenticate, crypt, stream))
      end
    end
  end.

(** The check of the accept loop. *)
Definition has_room (st : ServerState) : bool := active_clients st <? MAX_CLIENTS.

(** Whether a version and a name pass the restriction to the official client. *)
Definition official (restrict_to_version : option string) (version_release username : string) : bool :=
  match restrict_to_version with
  | Some restrict_to => contains (to_lowercase version_release) restrict_to && username_regex username
  | None => true
  end.

(** [handle_new_client] up to the start of the client's tasks: the reference of the admitted client. *)
Definition handle_new_client (st : ServerState) (version : VersionMsg.Version)
    (authenticate : AuthenticateMsg.Authenticate) (crypt_state : CryptState) (out : list Z) (peer_ip : string)
    (now now_epoch : Z) : ServerState * Result MumbleError ClientRef :=
  let username := get_str (AuthenticateMsg.username authenticate) in
  if negb (official (restrict_to_version st) (get_str (VersionMsg.release version)) username)
  then (st, Err UnknownError) else
  let np := BanList.name_part username in
  match BanList.is_banned (bans st) peer_ip np with
  | Some _ => (st, Err UnknownError)
  | None =>
    let '(st, r) := add_client st version authenticate crypt_state (Client.mkWriter out false)
                      (mkPublisher [] false) peer_ip now in
    let st := if BanList.is_muted (bans st) peer_ip np
              then upd_client st r (fun c => Client.set_mute c true) else st in
    match heap st !! r with
    | None => (st, Err UnknownError)
    | Some c =>
      let '(a, c) := Anticheat.seed_heard (anticheat st) c now now_epoch in
      (set_heap (set_anticheat st a) (<[r := c]> (heap st)), Ok r)
    end
  end.

(** The first part of [client_run]: what a client is sent before its tasks start, and the announcement. *)
Definition client_run (st : ServerState) (r : ClientRef) : ServerState * Result MumbleError unit :=
  let! (st, u) := on_client st r (fun c =>
    Client.send_message c MessageKind.CodecVersion (get_codec_version (codec_state st))) in
  let! (st, u) := sync_client_and_channels st r in
  let! (st, u) := on_client st r Client.send_my_user_state in
  let! (st, u) := on_client st r Client.send_server_sync in
  let! (st, u) := on_client st r Client.send_server_config in
  match heap st !! r with
  | None => (st, Err UnknownError)
  | Some c => (fst (broadcast_message st MessageKind.UserState (Client.get_user_state c)), Ok tt)
  end.

(** The same between two waits: [client_run] and [sync_client_and_channels] wait at every send, and other tasks run meanwhile.  A
    channel or a user is sent as it is when its turn comes, and not at all if it is gone by then. *)
Inductive GreetItem :=
  | SendCodecVersion
  | CollectLists
  | SendChannel (channel_id : Z)
  | SendUser (user : ClientRef)
  | SendMyUserState
  | SendServerSync
  | SendServerConfig
  | BroadcastUserState.

#[global] Instance GreetItem_eq_dec : EqDecision GreetItem.
Proof. solve_decision. Defined.

(** What a connection has to do before its tasks start. *)
Definition greet_items : list GreetItem :=
  [SendCodecVersion; CollectLists; SendMyUserState; SendServerSync; SendServerConfig; BroadcastUserState].

(** [sync_client_and_channels] up to its first wait: the weak references it collects. *)
Definition weak_lists (st : ServerState) : list GreetItem :=
  (SendChannel <$> (hash_iter (channels st)).*1) ++ (SendUser <$> (hash_iter (clients st)).*2).

(** One item; the items it adds come next. *)
Definition greet_item (st : ServerState) (r : ClientRef) (item : GreetItem)
    : ServerState * Result MumbleError (list GreetItem) :=
  match item with
  | SendCodecVersion =>
    let! (st, u) := on_client st r (fun c =>
      Client.send_message c MessageKind.CodecVersion (get_codec_version (codec_state st))) in (st, Ok [])
  | CollectLists => (st, Ok (weak_lists st))
  | SendChannel channel_id =>
    match channels st !! channel_id with
    | None => (st, Ok [])
    | Some channel =>
      let! (st, u) := on_client st r (fun c =>
        Client.send_message c MessageKind.ChannelState (Channel.get_channel_state channel)) in (st, Ok [])
    end
  | SendUser user =>
    match heap st !! user with
    | None => (st, Ok [])
    | Some user =>
      let! (st, u) := on_client st r (fun c =>
        Client.send_message c MessageKind.UserState (Client.get_user_state user)) in (st, Ok [])
    end
  | SendMyUserState => let! (st, u) := on_client st r Client.send_my_user_state in (st, Ok [])
  | SendServerSync => let! (st, u) := on_client st r Client.send_server_sync in (st, Ok [])
  | SendServerConfig => let! (st, u) := on_client st r Client.send_server_config in (st, Ok [])
  | BroadcastUserState =>
    match heap st !! r with
    | None => (st, Err UnknownError)
    | Some c => (fst (broadcast_message st MessageKind.UserState (Client.get_user_state c)), Ok [])
    end
  end.

(** At most [n] items without any other task in between: what is left to do. *)
Fixpoint greet_run (n : nat) (st : ServerState) (r : ClientRef) (items : list GreetItem)
    : ServerState * Result MumbleError (list GreetItem) :=
  match n, items with
  | S n, item :: items => let! (st, more) := greet_item st r item in greet_run n st r (more ++ items)
  | _, _ => (st, Ok items)
  end.
End tcp.
End Tcp.
