(* ===== verification/Greeting.v ===== *)
(** The greeting of a client ([client_run] of [src/src/server/tcp.rs] up to the start of its tasks): what its parts do to the state,
    stated once for every relation between states, and that the items taken one by one without interruption are [client_run]. *)

From stdpp Require Import base gmap strings list.
From Stdlib Require Import ZArith Lia.
From S2P Require Import Prelude Errors Maps Messages Proto Client State Net.
Import ServerState Tcp.

(** A greeting only sends to one client and broadcasts user states: a preorder these respect relates the states before and after. *)
Section respects.
Context `{HashIter} `{MumbleProto} (Q : ServerState -> ServerState -> Prop) `{!PreOrder Q} (r : ClientRef).
Hypothesis Q_send : forall {T} `{ProtoMessage T} st kind (f : Client.Client -> T),
  Q st (fst (on_client st r (fun c => Client.send_message c kind (f c)))).
Hypothesis Q_broadcast : forall st c, Q st (fst (broadcast_message st MessageKind.UserState (Client.get_user_state c))).

Lemma seq_respects {A B} st (m : ServerState * Result MumbleError A) (k : ServerState -> A -> ServerState * Result MumbleError B) :
  Q st (fst m) -> (forall st' a, Q st' (fst (k st' a))) -> Q st (fst (seq m k)).
Proof. destruct m as [st' [a|e]]; cbn [seq fst]; [|done]. intros K1 K2. etransitivity; [exact K1|apply K2]. Qed.

Lemma send_all_respects {T} `{ProtoMessage T} st kind (l : list T) : Q st (fst (send_all st r kind l)).
Proof.
  revert st. induction l as [|m l IH]; intros st; cbn [send_all]; [done|].
  apply seq_respects; [apply (Q_send st kind (fun _ => m))|intros; apply IH].
Qed.

Lemma client_run_respects st : Q st (fst (client_run st r)).
Proof.
  unfold client_run, sync_client_and_channels.
  repeat (apply seq_respects; [first [apply send_all_respects | apply (Q_send _ _ (fun _ => _)) | apply Q_send
    | apply seq_respects; [apply send_all_respects|intros; apply send_all_respects]]|intros ? _]).
  destruct (heap _ !! r); [apply Q_broadcast|done].
Qed.

Lemma greet_item_respects st item : Q st (fst (greet_item st r item)).
Proof.
  destruct item as [| |k|r'| | | |]; cbn [greet_item]; try case_match; try done; try apply Q_broadcast;
    (apply seq_respects; [first [apply (Q_send _ _ (fun _ => _)) | apply Q_send]|done]).
Qed.
End respects.

(** ** The items one by one *)

Section one_by_one.
Context `{HashIterLaws} `{MumbleProto}.

(** Sending changes no table and no user state. *)
Definition same_views (st st' : ServerState) : Prop :=
  channels st' = channels st /\ clients st' = clients st
  /\ forall r, Client.get_user_state <$> heap st' !! r = Client.get_user_state <$> heap st !! r.

#[local] Instance same_views_preorder : PreOrder same_views.
Proof.
  split; [done|]. intros a b c (E1 & F1 & G1) (E2 & F2 & G2). split_and!; [congruence..|]. intros r. by rewrite G2, G1.
Qed.

Lemma send_views {T} `{ProtoMessage T} st r kind (f : Client.Client -> T) :
  same_views st (fst (on_client st r (fun c => Client.send_message c kind (f c)))).
Proof.
  unfold on_client. destruct (heap st !! r) as [c|] eqn:Hc; [|done]. unfold Client.send_message, Client.send.
  set (x := match message_to_bytes kind (f c) with Ok _ => _ | Err _ => _ end).
  assert (Client.get_user_state (fst x) = Client.get_user_state c) as E by (subst x; by repeat case_match).
  destruct x as [c' res]. cbn [fst] in E. split_and!; [done..|]. intros r'. cbn. destruct (decide (r = r')) as [<-|Hne].
  - rewrite lookup_insert_eq, Hc. cbn. by rewrite E.
  - by rewrite lookup_insert_ne.
Qed.

Lemma greet_run_item n st r item items :
  greet_run (S n) st r (item :: items) = (let! (st, more) := greet_item st r item in greet_run n st r (more ++ items)).
Proof. reflexivity. Qed.

Lemma seq_assoc {A B C} (m : ServerState * Result MumbleError A) (f : ServerState -> A -> ServerState * Result MumbleError B)
    (g : ServerState -> B -> ServerState * Result MumbleError C) :
  seq (seq m f) g = seq m (fun st a => seq (f st a) g).
Proof. by destruct m as [st [a|e]]. Qed.

(** A send, with what was sent known in advance. *)
Lemma greet_send {T} `{ProtoMessage T} n st r kind (f : Client.Client -> T) items (k : ServerState -> ServerState * Result MumbleError (list GreetItem)) :
  (forall st', same_views st st' -> greet_run n st' r items = k st') ->
  seq (let! (st, u) := on_client st r (fun c => Client.send_message c kind (f c)) in (st, Ok [])) (fun st more => greet_run n st r (more ++ items))
  = (let! (st, u) := on_client st r (fun c => Client.send_message c kind (f c)) in k st).
Proof.
  intros Hk. rewrite seq_assoc. cbn [seq app]. pose proof (send_views st r kind f) as Hv.
  destruct (on_client st r _) as [st' [u|e]]; cbn [seq fst] in *; [by apply Hk|done].
Qed.

Lemma greet_channels n st r items (l : list (Z * Channel)) (k : ServerState -> ServerState * Result MumbleError (list GreetItem)) :
  Forall (fun p => channels st !! p.1 = Some p.2) l ->
  (forall st', same_views st st' -> greet_run n st' r items = k st') ->
  greet_run (length l + n) st r ((SendChannel <$> l.*1) ++ items)
  = (let! (st, u) := send_all st r MessageKind.ChannelState (Channel.get_channel_state <$> l.*2) in k st).
Proof.
  revert st. induction l as [|[i ch] l IH]; intros st Hl Hk; [by apply Hk|]. apply Forall_cons in Hl as [Hi Hl]. cbn [fst snd] in Hi.
  cbn [length Nat.add fmap list_fmap app]. rewrite greet_run_item. cbn [greet_item fst snd]. rewrite Hi.
  rewrite (greet_send (length l + n) st r MessageKind.ChannelState (fun _ => Channel.get_channel_state ch) _
    (fun st => seq (send_all st r MessageKind.ChannelState (Channel.get_channel_state <$> l.*2)) (fun st _ => k st)));
    [cbn [send_all]; by rewrite seq_assoc|]. intros st' Hv. apply IH; [by rewrite (proj1 Hv)|]. intros st2 Hv2. apply Hk. by etransitivity.
Qed.

Lemma greet_users n st r items (l : list ClientRef) (k : ServerState -> ServerState * Result MumbleError (list GreetItem)) :
  (forall st', same_views st st' -> greet_run n st' r items = k st') ->
  greet_run (length l + n) st r ((SendUser <$> l) ++ items)
  = (let! (st, u) := send_all st r MessageKind.UserState (omap (fun r' => Client.get_user_state <$> heap st !! r') l) in k st).
Proof.
  revert st. induction l as [|r' l IH]; intros st Hk; [by apply Hk|].
  cbn [length Nat.add fmap list_fmap app omap list_omap]. rewrite greet_run_item. cbn [greet_item].
  destruct (heap st !! r') as [c'|]; cbn [fmap option_fmap option_map].
  2:{ cbn [seq app]. by apply IH. }
  rewrite (greet_send (length l + n) st r MessageKind.UserState (fun _ => Client.get_user_state c') _
    (fun st' => seq (send_all st' r MessageKind.UserState (omap (fun r' => Client.get_user_state <$> heap st !! r') l)) (fun st _ => k st)));
    [cbn [send_all]; by rewrite seq_assoc|].
  intros st' Hv. rewrite (IH st') by (intros st2 Hv2; apply Hk; by etransitivity).
  do 2 f_equal. apply list_omap_ext. clear IH. induction l as [|x l IH']; constructor; [apply Hv|done].
Qed.

Lemma omap_fmap {A B C} (f : A -> option B) (g : B -> C) (l : list A) : g <$> omap f l = omap (fun x => g <$> f x) l.
Proof. induction l as [|x l IH]; [done|]. cbn. destruct (f x); cbn; [f_equal|]; exact IH. Qed.

(** Without interruption, the items in turn are [client_run]: nothing is left to do exactly when it succeeds. *)
Lemma client_run_items st r :
  greet_run (length greet_items + size (channels st) + size (clients st)) st r greet_items
  = (let! (st, u) := client_run st r in (st, Ok [])).
Proof.
  unfold client_run, sync_client_and_channels. set (rest := (4 + 0)%nat).
  replace (length greet_items + size (channels st) + size (clients st))%nat
    with (S (S (length (hash_iter (channels st)) + (length ((hash_iter (clients st)).*2) + rest))))
    by (rewrite length_fmap, !(Permutation_length (hash_iter_perm _)), !length_map_to_list; cbn; lia).
  unfold greet_items. rewrite greet_run_item. cbn [greet_item].
  set (tail := [SendMyUserState; SendServerSync; SendServerConfig; BroadcastUserState]).
  rewrite (greet_send _ st r MessageKind.CodecVersion (fun _ => get_codec_version (codec_state st)) (CollectLists :: tail)
    (fun st' => let! (st, u) := send_all st' r MessageKind.ChannelState (Channel.get_channel_state <$> (hash_iter (channels st')).*2) in
      let! (st, u) := send_all st r MessageKind.UserState
        (Client.get_user_state <$> omap (fun r' => heap st !! r') (hash_iter (clients st')).*2) in greet_run rest st r tail)).
  - destruct (on_client st r _) as [st1 [u1|e]]; cbn [seq]; [|done]. destruct (send_all st1 r _ _) as [st2 [u2|e]]; cbn [seq]; [|done].
    destruct (send_all st2 r _ _) as [st3 [u3|e]]; cbn [seq]; [|done]. unfold tail, rest. cbn [Nat.add].
    rewrite greet_run_item. cbn [greet_item]. destruct (on_client st3 r _) as [st4 [u4|e]]; cbn [seq app]; [|done].
    rewrite greet_run_item. cbn [greet_item]. destruct (on_client st4 r _) as [st5 [u5|e]]; cbn [seq app]; [|done].
    rewrite greet_run_item. cbn [greet_item]. destruct (on_client st5 r _) as [st6 [u6|e]]; cbn [seq app]; [|done].
    rewrite greet_run_item. cbn [greet_item]. by destruct (heap st6 !! r).
  - intros st1 (E1 & E2 & _). rewrite greet_run_item. cbn [greet_item seq]. unfold weak_lists. rewrite <-app_assoc, E1, E2.
    apply greet_channels.
    { apply Forall_forall. intros [k ch] Hk. rewrite hash_iter_perm in Hk. rewrite E1. by apply elem_of_map_to_list in Hk. }
    intros st2 Hv2. rewrite omap_fmap. by apply greet_users.
Qed.
End one_by_one.
