(* ===== verification/NetProps.v ===== *)
(** Properties of the network front ends and of the clean loop. *)

From stdpp Require Import base gmap strings list.
From Stdlib Require Import ZArith Lia.
From S2P Require Import Prelude Errors Maps Text Varint Voice Messages Crypt Proto Bans Client Anticheat State.
From S2P Require Import StateInv StateProps Handlers HandlerInv HandlerProps Net Greeting.
Import ServerState Handler Udp Clean Tcp.

(** ** Preservation *)

Section preservation.
Context `{HashIterLaws} `{MumbleProto} `{Aes128} `{UdpSocket} `{Unicode} `{UsernameRegex}.

Lemma forward_inv st r p addr now : state_inv st -> state_inv (forward st r p addr now).
Proof.
  intros Hinv. unfold forward. destruct (heap st !! r) as [c|] eqn:Hc; [|done].
  destruct (into_client_bound _ _ _) eqn:Hp.
  - destruct (encrypt _ _) as [cs dest]. cbn [fst send_to].
    eapply same_shape_inv; [|done].
    etransitivity; [by apply (set_heap_same st r c (Client.set_last_udp_ping (Client.set_crypt_state c cs) now))|].
    split; try done. intros r'. cbn. by destruct (<[r := _]> (heap st) !! r').
  - eapply same_shape_inv; [apply publish_same|done].
Qed.

Lemma handle_packet_inv st buffer addr v now : state_inv st -> state_inv (fst (handle_packet st buffer addr v now)).
Proof.
  intros Hinv. unfold handle_packet. destruct buffer as [|b0 [|b1 rest]]; [done|done|]. case_if.
  - destruct (read_varint _) as [[ts rest']|]; [|done]. eapply same_shape_inv; [|done].
    split; try done. intros r. cbn. by destruct (heap st !! r).
  - destruct (get_client_by_socket st addr) as [r|].
    + destruct (heap st !! r) as [c|] eqn:Hc; [|done].
      destruct (decrypt ServerBound _ _ _) as [cs [[p rest']|err]].
      * apply forward_inv. eapply same_shape_inv; [by apply (set_heap_same st r c)|done].
      * set (st1 := set_heap st _).
        assert (state_inv st1) as I1 by (eapply same_shape_inv; [by apply (set_heap_same st r c)|done]).
        case_if; [by apply reset_client_crypt_inv|done].
    + pose proof (find_client_inv st (b0 :: b1 :: rest) addr now Hinv) as I1.
      destruct (find_client_with_decrypt _ _ _ _) as [st1 [[r p]|]]; [by apply forward_inv|done].
Qed.

Lemma udp_inv st received v now : state_inv st -> state_inv (udp_server_run st received v now).
Proof. destruct received as [[dg addr]|e]; [apply handle_packet_inv|done]. Qed.

Lemma fold_inv {A} (f : ServerState -> A -> ServerState) l st :
  (forall st x, state_inv st -> state_inv (f st x)) -> state_inv st -> state_inv (fold_left f l st).
Proof. intros Hf. revert st. induction l as [|x l IH]; intros st Hi; [done|]. cbn. auto. Qed.

Lemma resets_same st n : same_shape st (set_metrics st (CRYPT_RESETS_inc_by n (metrics st))).
Proof. split; try done. intros r. cbn. by destruct (heap st !! r). Qed.

Lemma clean_rest_inv st q now : state_inv st -> state_inv (clean_rest st q now).
Proof.
  intros Hinv. unfold clean_rest. set (st1 := set_disconnect_queue st ∅).
  assert (state_inv st1) as I1.
  { eapply same_shape_inv; [|done]. split; try done. intros r. cbn. by destruct (heap st !! r). }
  destruct (fold_left (collect st1 now) _ _) as [to_remove to_reset].
  apply fold_inv; [intros; by apply disconnect_inv|].
  apply fold_inv; [intros; by apply reset_client_crypt_inv|]. by eapply same_shape_inv; [apply resets_same|].
Qed.

Lemma clean_run_inv st now : state_inv st -> state_inv (clean_run st now).
Proof. apply clean_rest_inv. Qed.

Lemma new_client_inv st version auth cs out ip now epoch :
  state_inv st -> Z.of_nat (size (clients st)) < 2 ^ 32 ->
  state_inv (fst (handle_new_client st version auth cs out ip now epoch)).
Proof.
  intros Hinv Hsz. unfold handle_new_client. case_if; [done|]. destruct (BanList.is_banned _ _ _); [done|].
  pose proof (add_client_inv st version auth cs (Client.mkWriter out false) (mkPublisher [] false) ip now Hinv Hsz) as Ha.
  destruct (add_client st _ _ _ _ _ _ _) as [st1 r]. destruct Ha as [I1 _].
  set (st2 := if BanList.is_muted _ _ _ then _ else st1).
  assert (state_inv st2) as I2 by (subst st2; case_if; [by apply upd_client_inv|done]).
  destruct (heap st2 !! r) as [c|] eqn:Hc; [|done].
  assert (same_client c (snd (Anticheat.seed_heard (anticheat st2) c now epoch))) as Hs
    by (unfold Anticheat.seed_heard; by case_match).
  destruct (Anticheat.seed_heard _ _ _ _) as [a c']. cbn [fst snd] in *.
  eapply same_shape_inv; [|exact I2]. etransitivity; [by apply (set_heap_same st2 r c c')|].
  split; try done. intros r'. cbn. by destruct (<[r := c']> (heap st2) !! r').
Qed.

Lemma client_run_same st r : same_shape st (fst (client_run st r)).
Proof. apply client_run_respects; [apply _|intros; apply on_client_same; intros; apply send_message_same|intros; apply broadcast_same]. Qed.

Lemma greet_item_same st r item : same_shape st (fst (greet_item st r item)).
Proof. apply greet_item_respects; [apply _|intros; apply on_client_same; intros; apply send_message_same|intros; apply broadcast_same]. Qed.

Lemma greet_item_inv st r item : state_inv st -> state_inv (fst (greet_item st r item)).
Proof. apply same_shape_inv, greet_item_same. Qed.

Lemma count_bad_same st r : same_shape st (fst (count_bad st r)).
Proof. unfold count_bad. destruct (heap st !! r) as [c|] eqn:Hc; [|done]. by apply (set_heap_same st r c). Qed.

Lemma consume_same st r m now : same_shape st (fst (consume st r m now)).
Proof.
  unfold consume. set (x := match m with RouteVoicePacket _ => _ | SendVoicePacket _ => _ | SendMessage _ _ => _ end).
  assert (same_shape st (fst x)) as K1 by (subst x; destruct m;
    [apply voice_packet_same|apply send_voice_packet_same|apply on_client_same; intros; apply send_same]).
  destruct x as [st1 [u|e]]; [done|]. etransitivity; [exact K1|apply count_bad_same].
Qed.

Lemma set_publisher_same st r p : same_shape st (upd_client st r (fun c => Client.set_publisher c (p c))).
Proof. by apply upd_client_same. Qed.

Lemma queue_turn_same st r cancel now : same_shape st (fst (queue_turn st r cancel now)).
Proof.
  unfold queue_turn. destruct (heap st !! r) as [c|]; [|done]. destruct (closed _); [done|].
  destruct (recv _) as [[m p]|]; [|destruct (Client.cancelled c); [apply set_publisher_same|done]].
  destruct (Client.cancelled c && cancel); [apply set_publisher_same|].
  pose proof (consume_same (upd_client st r (fun c => Client.set_publisher c p)) r m now) as K2.
  assert (same_shape st (fst (consume (upd_client st r (fun c => Client.set_publisher c p)) r m now))) as K3
    by (etransitivity; [apply (set_publisher_same st r (fun _ => p))|exact K2]).
  destruct (consume _ _ _ _) as [st1 ended]. cbn [fst] in *. destruct ended; [|done].
  etransitivity; [exact K3|apply set_publisher_same].
Qed.

Lemma queue_turn_inv st r cancel now : state_inv st -> state_inv (fst (queue_turn st r cancel now)).
Proof. apply same_shape_inv, queue_turn_same. Qed.

End preservation.

(** ** Clean loop *)

Section clean_lemmas.
Context `{HashIterLaws} `{MumbleProto} `{Aes128}.

Lemma fold_insert_all {A} (m : gmap Z A) :
  fold_left (fun m p => insert_new p.1 p.2 m) (hash_iter m) ∅ = m.
Proof.
  assert (forall (l : list (Z * A)) (acc : gmap Z A) s, fold_left (fun acc p => insert_new p.1 p.2 acc) l acc !! s =
    match acc !! s with Some r => Some r | None => (list_to_map l : gmap Z A) !! s end) as Hf.
  { induction l as [|[k r] l IH]; intros acc s; cbn [fold_left list_to_map foldr fst snd].
    - by destruct (acc !! s).
    - rewrite IH, lookup_insert_new. unfold curry. cbn. case_decide as Hk.
      + subst k. destruct (acc !! s); cbn; [done|]. by rewrite lookup_insert_eq.
      + destruct (acc !! s); [done|]. by rewrite lookup_insert_ne. }
  apply map_eq. intros s. rewrite Hf, lookup_empty. destruct (m !! s) as [a|] eqn:Hm.
  - apply elem_of_list_to_map; [apply NoDup_hash_iter|]. by apply elem_of_hash_iter.
  - apply not_elem_of_list_to_map. intros ([k r] & Heq & Hin)%list_elem_of_fmap. cbn in Heq. subst k.
    apply elem_of_hash_iter in Hin. congruence.
Qed.

(** What the tick collects: who is removed, who is reset. *)
Lemma collect_spec st now (l : list (Z * ClientRef)) acc :
  let '(rm, rs) := fold_left (collect st now) l acc in
  (forall s, is_Some (rm !! s) <-> is_Some (acc.1 !! s)
     \/ exists k r c reason, (k, r) ∈ l /\ heap st !! r = Some c /\ Client.session_id c = s
          /\ check_client c now = Remove reason)
  /\ (forall r, r ∈ rs <-> r ∈ acc.2
     \/ exists k c, (k, r) ∈ l /\ heap st !! r = Some c /\ check_client c now = ResetCrypt).
Proof.
  revert acc. induction l as [|[k r] l IH]; intros [rm rs]; cbn [fold_left fst snd].
  { split; intros x; (split; [by left|]); intros [Hx|Hx]; try done.
    - destruct Hx as (? & ? & ? & ? & Hin & _). by apply not_elem_of_nil in Hin.
    - destruct Hx as (? & ? & Hin & _). by apply not_elem_of_nil in Hin. }
  specialize (IH (collect st now (rm, rs) (k, r))).
  destruct (fold_left (collect st now) l _) as [rm' rs']. destruct IH as [I1 I2].
  unfold collect in I1, I2. cbn [snd] in I1, I2.
  split; intros x; [rewrite I1|rewrite I2]; clear I1 I2; setoid_rewrite elem_of_cons;
    (destruct (heap st !! r) as [c|] eqn:Hc; [destruct (check_client c now) as [reason| |] eqn:Hv|]); cbn [fst snd].
  - rewrite lookup_insert_new. case_decide as Hs.
    + split; [|intros _; left; by eexists]. intros _. right. exists k, r, c, reason. auto.
    + split; (intros [Hx|(k' & r' & c' & re & Hin & Hr)]; [by left|]).
      * right. exists k', r', c', re. auto.
      * destruct Hin as [[= -> ->]|Hin]; [|right; eauto 10]. destruct Hr as (Hr & Hs' & _). congruence.
  - split; (intros [Hx|(k' & r' & c' & re & Hin & Hr)]; [by left|]); [right; exists k', r', c', re; auto|].
    destruct Hin as [[= -> ->]|Hin]; [|right; eauto 10]. destruct Hr as (Hr & _ & Hv'). congruence.
  - split; (intros [Hx|(k' & r' & c' & re & Hin & Hr)]; [by left|]); [right; exists k', r', c', re; auto|].
    destruct Hin as [[= -> ->]|Hin]; [|right; eauto 10]. destruct Hr as (Hr & _ & Hv'). congruence.
  - split; (intros [Hx|(k' & r' & c' & re & Hin & Hr)]; [by left|]); [right; exists k', r', c', re; auto|].
    destruct Hin as [[= -> ->]|Hin]; [|right; eauto 10]. destruct Hr as (Hr & _ & Hv'). congruence.
  - split; (intros [Hx|(k' & c' & Hin & Hr)]; [by left|]); [right; exists k', c'; auto|].
    destruct Hin as [[= -> ->]|Hin]; [|right; eauto 10]. destruct Hr as (Hr & Hv'). congruence.
  - rewrite elem_of_app, list_elem_of_singleton. split.
    + intros [[Hx| ->]|(k' & c' & Hin & Hr)]; [by left|right; exists k, c; auto|right; exists k', c'; auto].
    + intros [Hx|(k' & c' & Hin & Hr)]; [by left; left|].
      destruct Hin as [[= -> ->]|Hin]; [by left; right|right; eauto 10].
  - split; (intros [Hx|(k' & c' & Hin & Hr)]; [by left|]); [right; exists k', c'; auto|].
    destruct Hin as [[= -> ->]|Hin]; [|right; eauto 10]. destruct Hr as (Hr & Hv'). congruence.
  - split; (intros [Hx|(k' & c' & Hin & Hr)]; [by left|]); [right; exists k', c'; auto|].
    destruct Hin as [[= -> ->]|Hin]; [|right; eauto 10]. destruct Hr as (Hr & Hv'). congruence.
Qed.

Lemma reset_clients st r now : clients (fst (reset_client_crypt st r now)) = clients st.
Proof.
  unfold reset_client_crypt. destruct (heap st !! r) as [c|]; [|done]. cbn [Client.remove_udp_socket].
  unfold on_client. destruct (Client.udp_socket_addr c); cbn; rewrite lookup_insert_eq;
    by destruct (Client.send_crypt_setup _ _ _).
Qed.

Lemma disconnect_all_clients (l : list (Z * DisconnectReason)) st :
  clients (fold_left (fun st p => disconnect st p.1 p.2) l st) = foldr (fun k m => delete k m) (clients st) (rev l.*1).
Proof.
  revert st. induction l as [|[k reason] l IH]; intros st; [done|]. cbn [fold_left].
  rewrite IH. unfold disconnect. rewrite disconnect_found_clients. cbn. by rewrite foldr_app.
Qed.

Lemma lookup_foldr_delete {A} (ks : list Z) (m : gmap Z A) k :
  foldr (fun k m => delete k m) m ks !! k = if bool_decide (k ∈ ks) then None else m !! k.
Proof.
  induction ks as [|k' ks IH]; cbn; [done|]. destruct (decide (k' = k)) as [->|Hne].
  - rewrite lookup_delete_eq, bool_decide_eq_true_2; [done|by left].
  - rewrite lookup_delete_ne, IH by done. assert (k ∈ ks <-> k ∈ k' :: ks) as Hiff
      by (rewrite elem_of_cons; split; [by right|by intros [->|]]).
    by rewrite (bool_decide_ext _ _ Hiff).
Qed.
End clean_lemmas.

(** ** The clean loop *)

(** Who a tick drops, in nanoseconds of silence: a client nobody reads for any more, and one whose
    TCP pings stopped eleven seconds ago while its last UDP ping is less than thirty-one seconds old. *)
Definition dropped (c : Client.Client) (now : Z) : Prop :=
  closed (Client.publisher c) = true
  \/ (now - Client.last_udp_ping c < secs 31 /\ secs 11 <= now - Client.last_tcp_ping c).

Lemma check_client_removes c now : dropped c now <-> exists reason, check_client c now = Remove reason.
Proof.
  unfold dropped, check_client, as_secs, since, secs. split.
  - intros [->|[Hu Ht]]; [by eexists|]. destruct (closed _); [by eexists|].
    rewrite (proj2 (Z.ltb_ge _ _)) by (Z.div_mod_to_equations; lia).
    rewrite (proj2 (Z.ltb_lt _ _)) by (Z.div_mod_to_equations; lia). by eexists.
  - destruct (closed _); [by left|]. intros [reason Hv]. right.
    destruct (Z.ltb_spec 30 (Z.max 0 (now - Client.last_udp_ping c) / 1000000000)); [done|].
    destruct (Z.ltb_spec 10 (Z.max 0 (now - Client.last_tcp_ping c) / 1000000000)); [|by case_match].
    Z.div_mod_to_equations; lia.
Qed.

Lemma reset_all_clients `{HashIterLaws} `{MumbleProto} (l : list ClientRef) st now :
  clients (fold_left (fun st r => fst (reset_client_crypt st r now)) l st) = clients st.
Proof. revert st. induction l as [|r l IH]; intros st; [done|]. cbn [fold_left]. by rewrite IH, reset_clients. Qed.

(** An entry that the queue does not hold and that is not dropped survives the tick: the shared half of
    the two properties below. *)
Lemma clean_rest_clients `{HashIterLaws} `{MumbleProto} `{Aes128} (st : ServerState) (q : gmap Z DisconnectReason) (now s : Z) :
  state_inv st ->
  clients (clean_rest st q now) !! s =
    match clients st !! s with
    | Some r => match q !! s, heap st !! r with
                | None, Some c => match check_client c now with Remove _ => None | _ => Some r end
                | _, _ => None
                end
    | None => None
    end.
Proof.
  intros Hinv. unfold clean_rest. set (st1 := set_disconnect_queue st ∅).
  pose proof (collect_spec st1 now (hash_iter (clients st1)) (q, [])) as Hcol.
  destruct (fold_left (collect st1 now) _ _) as [rm rs]. destruct Hcol as [Hrm _]. cbn [fst] in Hrm.
  specialize (Hrm s). rewrite disconnect_all_clients, lookup_foldr_delete, reset_all_clients.
  assert (s ∈ rev (hash_iter rm).*1 <-> is_Some (rm !! s)) as Hiff.
  { rewrite list_elem_of_In, <-in_rev, <-list_elem_of_In, list_elem_of_fmap. split.
    - intros ([k a] & -> & Hin%elem_of_hash_iter). by eexists.
    - intros [a Ha]. exists (s, a). split; [done|by apply elem_of_hash_iter]. }
  rewrite (bool_decide_ext _ _ Hiff). change (clients st1) with (clients st) in *.
  destruct (clients st !! s) as [r|] eqn:Hs; [|by destruct (bool_decide _)].
  destruct (si_clients _ Hinv s r Hs) as [_ (c & Hc & Hid)]. rewrite Hc.
  destruct (q !! s) eqn:Hq; [by rewrite bool_decide_eq_true_2 by (apply Hrm; left; by eexists)|].
  destruct (check_client c now) as [reason| |] eqn:Hv.
  1: { rewrite bool_decide_eq_true_2; [done|]. apply Hrm. right. exists s, r, c, reason.
       split_and!; [by apply elem_of_hash_iter|done..]. }
  all: rewrite bool_decide_eq_false_2; [done|]; rewrite Hrm;
    intros [[? [=]]|(k & r' & c' & reason & Hin%elem_of_hash_iter & Hc' & Hs' & Hv')];
    destruct (si_clients _ Hinv k r' Hin) as [_ (c1 & Hc1 & Hid')]; change (heap st !! r' = Some c') in Hc';
    assert (k = s) as -> by congruence; congruence.
Qed.

Lemma clean_run_clients `{HashIterLaws} `{MumbleProto} `{Aes128} (st : ServerState) (now s : Z) :
  state_inv st ->
  clients (clean_run st now) !! s =
    match clients st !! s with
    | Some r => match disconnect_queue st !! s, heap st !! r with
                | None, Some c => match check_client c now with Remove _ => None | _ => Some r end
                | _, _ => None
                end
    | None => None
    end.
Proof. intros Hinv. unfold clean_run. rewrite clean_rest_clients by done. unfold read_queue. by rewrite fold_insert_all. Qed.

(** C21.  One tick of the clean loop removes exactly the clients that are queued for disconnection, those whose message queue is
    closed, and those that sent no TCP ping for eleven seconds while their last UDP ping is less than thirty-one seconds old; every
    other client, one that is silent on both for longer included, stays connected under the same session, and the count of clients
    follows. *)
Theorem clean_tick_exact `{HashIterLaws} `{MumbleProto} `{Aes128} (st : ServerState) (now : Z) :
  state_inv st ->
  let st' := clean_run st now in
  state_inv st'
  /\ (forall s r c, clients st !! s = Some r -> heap st !! r = Some c ->
        (is_Some (disconnect_queue st !! s) \/ dropped c now -> clients st' !! s = None)
        /\ (disconnect_queue st !! s = None -> ~ dropped c now -> clients st' !! s = Some r))
  /\ (forall s, clients st !! s = None -> clients st' !! s = None).
Proof.
  intros Hinv st'. split; [by apply clean_run_inv|]. unfold st'. split.
  - intros s r c Hs Hc. rewrite clean_run_clients, Hs, Hc, check_client_removes by done. split.
    + intros [[q ->]|[reason ->]]; [done|]. by destruct (disconnect_queue st !! s).
    + intros -> Hn. destruct (check_client c now) as [reason| |] eqn:Hv; [|done..]. destruct Hn. eauto.
  - intros s Hs. by rewrite clean_run_clients, Hs.
Qed.

(** A tick at the instant [secs 12]: the first client stopped pinging, the second pinged at [secs 11]. *)
Definition sample_silent : ServerState :=
  upd_client sample_server 1%nat (fun c => Client.set_last_tcp_ping c (secs 11)).

Lemma sample_silent_inv : state_inv sample_silent.
Proof. by apply upd_client_inv, sample_server_inv. Qed.

Lemma clean_tick_exact_witness :
  let st' := @clean_run canonical_iter const_proto sample_silent (secs 12) in
  clients st' !! 1 = None /\ clients st' !! 2 = Some 1%nat.
Proof.
  destruct (@clean_tick_exact canonical_iter canonical_iter_laws const_proto xor_aes sample_silent (secs 12)
    sample_silent_inv) as (_ & H & _).
  destruct (heap sample_silent !! 0%nat) as [c0|] eqn:Hc0; [|vm_compute in Hc0; discriminate].
  destruct (heap sample_silent !! 1%nat) as [c1|] eqn:Hc1; [|vm_compute in Hc1; discriminate].
  split.
  - apply (H 1 0%nat c0 eq_refl Hc0). right. right. vm_compute in Hc0. injection Hc0 as <-.
    split; vm_compute; [reflexivity|discriminate].
  - apply (H 2 1%nat c1 eq_refl Hc1); [reflexivity|]. vm_compute in Hc1. injection Hc1 as <-.
    intros [Hd|[_ Hd]]; vm_compute in Hd; [discriminate|apply Hd; reflexivity].
Defined.



(** ** Admission *)

Lemma seed_heard_frame `{HashIter} a c now epoch :
  let c' := snd (Anticheat.seed_heard a c now epoch) in
  Client.identity c' = Client.identity c /\ Client.mute c' = Client.mute c /\ Client.deaf c' = Client.deaf c
  /\ Client.channel_id c' = Client.channel_id c /\ Client.crypt_state c' = Client.crypt_state c.
Proof. unfold Anticheat.seed_heard. by case_match. Qed.

Lemma add_client_frame st version auth cs w p ip now :
  let '(st', r) := add_client st version auth cs w p ip now in
  r = next_ref st /\ active_clients st' = as_u32 (active_clients st + 1) /\ channels st' = channels st
  /\ bans st' = bans st /\ anticheat st' = anticheat st /\ (forall r', r' <> r -> heap st' !! r' = heap st !! r').
Proof.
  unfold add_client, get_free_session_id. destruct (free_id _ _). cbn -[insert_new as_u32].
  split_and!; try done. intros r' Hr. by rewrite lookup_insert_ne.
Qed.

Lemma new_client_spec `{HashIterLaws} `{Unicode} `{UsernameRegex} (st : ServerState)
    (version : VersionMsg.Version) (auth : AuthenticateMsg.Authenticate) (cs : CryptState) (out : list Z)
    (ip : string) (now epoch : Z) :
  state_inv st -> Z.of_nat (size (clients st)) < 2 ^ 32 ->
  let username := get_str (AuthenticateMsg.username auth) in
  let ok := official (restrict_to_version st) (get_str (VersionMsg.release version)) username in
  let banned := BanList.is_banned (bans st) ip (BanList.name_part username) in
  let '(st', res) := handle_new_client st version auth cs out ip now epoch in
  (ok = false \/ banned <> None -> st' = st /\ res = Err UnknownError)
  /\ (ok = true -> banned = None ->
      exists r s c, res = Ok r /\ heap st !! r = None /\ clients st !! s = None
      /\ clients st' = <[s := r]> (clients st) /\ heap st' !! r = Some c
      /\ Client.session_id c = s /\ Client.get_name c = username /\ Client.peer_ip c = ip
      /\ Client.mute c = BanList.is_muted (bans st) ip (BanList.name_part username)
      /\ Client.deaf c = false /\ Client.channel_id c = 0 /\ Client.crypt_state c = cs
      /\ active_clients st' = as_u32 (active_clients st + 1) /\ channels st' = channels st
      /\ (forall r', r' <> r -> heap st' !! r' = heap st !! r') /\ state_inv st').
Proof.
  intros Hinv Hsz username ok banned. subst ok banned.
  pose proof (new_client_inv st version auth cs out ip now epoch Hinv Hsz) as Hi. revert Hi.
  unfold handle_new_client. fold username. destruct (official _ _ _); cbn [negb]; [|by split].
  destruct (BanList.is_banned _ _ _) as [reason|]; [by split; [split|]|].
  pose proof (add_client_inv st version auth cs (Client.mkWriter out false) (mkPublisher [] false) ip now Hinv Hsz) as Ha.
  pose proof (add_client_frame st version auth cs (Client.mkWriter out false) (mkPublisher [] false) ip now) as Hadd.
  destruct (add_client st _ _ _ _ _ _ _) as [st1 r]. destruct Hadd as (-> & Hact & Hch & Hb & _ & Hne).
  destruct Ha as (I1 & c & s & Hc & Hs & Hf & Hcl & ->). rewrite Hb.
  set (st2 := if BanList.is_muted _ _ _ then _ else st1).
  set (muted := BanList.is_muted (bans st) ip (BanList.name_part username)) in *.
  set (c0 := Client.new _ _ _ _ _ _ _ _ _) in *.
  assert (heap st2 !! next_ref st = Some (if muted then Client.set_mute c0 true else c0)
    /\ clients st2 = clients st1 /\ active_clients st2 = active_clients st1 /\ channels st2 = channels st1
    /\ (forall r', r' <> next_ref st -> heap st2 !! r' = heap st1 !! r')) as (Hc2 & D1 & D2 & D3 & D4).
  { subst st2. destruct muted; [|by rewrite Hc]. cbn. rewrite lookup_alter_eq, Hc. split_and!; try done.
    intros r' Hr. by rewrite lookup_alter_ne. }
  rewrite Hc2. set (c1 := if muted then _ else c0) in *.
  pose proof (seed_heard_frame (anticheat st2) c1 now epoch) as Hsh.
  destruct (Anticheat.seed_heard _ _ _ _) as [a c2]. cbn [fst snd] in *. intros Hi.
  split; [by intros [|]|]. intros _ _. exists (next_ref st), s, c2.
  destruct Hsh as (F1 & F2 & F3 & F4 & F5). cbn -[as_u32]. rewrite lookup_insert_eq, D1, Hcl, D2, Hact, D3, Hch.
  assert (heap st !! next_ref st = None) as Hnone.
  { destruct (heap st !! next_ref st) eqn:Hr; [|done]. pose proof (si_fresh _ Hinv _ ltac:(by eexists)). lia. }
  assert (Client.identity c2 = Client.identity c0) as F0 by (rewrite F1; subst c1; by destruct muted).
  unfold Client.session_id, Client.get_name, Client.peer_ip. rewrite F0, F2, F3, F4, F5. subst c1.
  split_and!; try done; try by destruct muted.
  intros r' Hr. rewrite lookup_insert_ne by done. rewrite D4, Hne; done.
Qed.

(** C20.  Admission: an unofficial client, when a release is required, and a banned address or name are
    refused without a trace in the state; every other client is admitted under a session nobody has, in
    the root channel, muted exactly when a mute is on record for it, and nobody else is touched. *)
Theorem admission `{HashIterLaws} `{Unicode} `{UsernameRegex} (st : ServerState)
    (version : VersionMsg.Version) (auth : AuthenticateMsg.Authenticate) (cs : CryptState) (out : list Z)
    (ip : string) (now epoch : Z) :
  state_inv st -> Z.of_nat (size (clients st)) < 2 ^ 32 ->
  let username := get_str (AuthenticateMsg.username auth) in
  let ok := official (restrict_to_version st) (get_str (VersionMsg.release version)) username in
  let banned := BanList.is_banned (bans st) ip (BanList.name_part username) in
  let '(st', res) := handle_new_client st version auth cs out ip now epoch in
  (ok = false \/ banned <> None -> st' = st /\ res = Err UnknownError)
  /\ (ok = true -> banned = None ->
      exists r s c, res = Ok r /\ heap st !! r = None /\ clients st !! s = None
      /\ clients st' = <[s := r]> (clients st) /\ heap st' !! r = Some c
      /\ Client.session_id c = s /\ Client.get_name c = username /\ Client.peer_ip c = ip
      /\ Client.mute c = BanList.is_muted (bans st) ip (BanList.name_part username)
      /\ Client.deaf c = false /\ Client.channel_id c = 0 /\ Client.crypt_state c = cs
      /\ active_clients st' = as_u32 (active_clients st + 1) /\ channels st' = channels st
      /\ (forall r', r' <> r -> heap st' !! r' = heap st !! r') /\ state_inv st').
Proof. apply new_client_spec. Qed.

Lemma set_bans_inv st b : state_inv st -> state_inv (set_bans st b).
Proof.
  intros Hinv. eapply same_shape_inv; [|exact Hinv]. split; try done. intros r. cbn. by destruct (heap st !! r).
Qed.

(** A player muted for good reconnects with another address. *)
Definition mute_on_record : ServerState :=
  set_bans sample_server
    (@BanList.add bits_json BanList.sample_bans BanList.sample_fs "mute" (Some "10.0.0.9"%string)
       (Some "Eve"%string) "[9] Eve" "noise" 0).1.

Lemma admission_witness :
  let st' := fst (@handle_new_client canonical_iter (fun s => s) (fun _ => true) mute_on_record
    (VersionMsg.mkVersion None (Some "CitizenFX"%string) None None)
    (AuthenticateMsg.mkAuthenticate (Some "[12] eve"%string) None [] [] None)
    (default_crypt_state sample_key 0) [] "192.168.3.3" 0 0) in
  exists s r c, clients mute_on_record !! s = None /\ clients st' !! s = Some r
    /\ heap st' !! r = Some c /\ Client.mute c = true.
Proof.
  assert (state_inv mute_on_record) as Hinv by (apply set_bans_inv, sample_server_inv).
  pose proof (@admission canonical_iter canonical_iter_laws (fun s => s) (fun _ => true) mute_on_record
    (VersionMsg.mkVersion None (Some "CitizenFX"%string) None None)
    (AuthenticateMsg.mkAuthenticate (Some "[12] eve"%string) None [] [] None)
    (default_crypt_state sample_key 0) [] "192.168.3.3" 0 0 Hinv ltac:(vm_compute; reflexivity)) as H.
  cbv zeta in H |- *. destruct (handle_new_client _ _ _ _ _ _ _ _) as [st' res]. cbn [fst].
  destruct (proj2 H eq_refl ltac:(vm_compute; reflexivity)) as (r & s & c & _ & _ & Hs & Hcl & Hc & _ & _ & _ & Hm & _).
  exists s, r, c. split; [exact Hs|]. split; [rewrite Hcl; apply lookup_insert_eq|]. split; [exact Hc|].
  rewrite Hm. vm_compute. reflexivity.
Defined.

(** ** Datagrams *)

Lemma set_heap_id st r (c : Client.Client) :
  heap st !! r = Some c -> set_heap st (<[r := Client.set_crypt_state c (Client.crypt_state c)]> (heap st)) = st.
Proof.
  intros Hc. assert (Client.set_crypt_state c (Client.crypt_state c) = c) as -> by (by destruct c).
  rewrite insert_id by done. by destruct st.
Qed.

(** The verdicts under which a datagram is not the client's. *)
Definition refused (res : Result DecryptError (VoicePacket ServerBound * list Z)) : Prop :=
  match res with Err (Repeat | Late | Mac) => True | _ => False end.

Lemma decrypt_refused `{Aes128} cs buf now :
  refused (snd (decrypt ServerBound cs buf now)) -> fst (decrypt ServerBound cs buf now) = cs.
Proof.
  pose proof (decrypt_refusal (D := ServerBound) cs buf now) as Hk.
  destruct (decrypt ServerBound cs buf now) as [cs' [|[]]]; cbn; try done.
Qed.

Lemma try_decrypt_refused `{HashIter} `{Aes128} st l buf addr now :
  (forall k r c, (k, r) ∈ l -> heap st !! r = Some c ->
     refused (snd (decrypt ServerBound (Client.crypt_state c) buf now))) ->
  try_decrypt st l buf addr now = (st, None).
Proof.
  induction l as [|[k r] l IH]; intros Hl; [done|]. cbn [try_decrypt].
  assert (try_decrypt st l buf addr now = (st, None)) as IH' by (apply IH; intros k' r' c' Hin; apply (Hl k'); by right).
  destruct (heap st !! r) as [c|] eqn:Hc; [|done].
  pose proof (Hl k r c ltac:(by left) Hc) as Hr. pose proof (decrypt_refused _ _ _ Hr) as Hs.
  destruct (decrypt ServerBound _ buf now) as [cs [[p rest]|e]]; [done|]. cbn [fst] in Hs. subst cs.
  by rewrite set_heap_id.
Qed.

(** Datagrams that are nobody's: one that comes from an unknown address and that every client without a
    UDP address refuses, and a repeated or late one from a known address that was heard less than six
    seconds ago and has at most a hundred late packets, change nothing in the server and are not answered. *)
Theorem refused_datagram_ignored `{HashIterLaws} `{MumbleProto} `{Aes128} `{UdpSocket} (st : ServerState)
    (buf : list Z) (addr : SocketAddr) (version now : Z) :
  (2 <= length buf)%nat -> ~ (Z.land (Z.shiftr (nth 0 buf 0) 5) 7 = 0 /\ length buf = 12%nat) ->
  match get_client_by_socket st addr with
  | None => forall k r c, clients_without_udp st !! k = Some r -> heap st !! r = Some c ->
      refused (snd (decrypt ServerBound (Client.crypt_state c) buf now))
  | Some r => exists c, heap st !! r = Some c /\ now - last_good (Client.crypt_state c) < secs 6
      /\ late (Client.crypt_state c) <= 100
      /\ snd (decrypt ServerBound (Client.crypt_state c) buf now) ∈ [Err Late; Err Repeat]
  end ->
  handle_packet st buf addr version now = (st, Ok tt).
Proof.
  intros Hlen Hping Hr. unfold handle_packet. destruct buf as [|b0 [|b1 rest]]; [cbn in Hlen; lia..|].
  assert ((Z.land (Z.shiftr b0 5) 7 =? 0) && (length (b0 :: b1 :: rest) =? 12)%nat = false) as ->.
  { destruct (Z.eqb_spec (Z.land (Z.shiftr b0 5) 7) 0); [|done]. apply Nat.eqb_neq. intros E. by apply Hping. }
  set (buf := b0 :: b1 :: rest) in *. clearbody buf. destruct (get_client_by_socket st addr) as [r|].
  - destruct Hr as (c & Hc & Hg & Hl & Hd). rewrite Hc.
    assert (refused (snd (decrypt ServerBound (Client.crypt_state c) buf now))) as Hrf
      by (rewrite !elem_of_cons in Hd; by destruct Hd as [->|[->|[]%not_elem_of_nil]]).
    pose proof (decrypt_refused _ _ _ Hrf) as Hs.
    destruct (decrypt ServerBound _ buf now) as [cs res]. cbn [fst snd] in *. subst cs. rewrite set_heap_id by done.
    assert (forall e, e = Late \/ e = Repeat -> restart_crypt (Client.crypt_state c) e now = false) as Hn.
    { intros e He. unfold restart_crypt, as_secs, since, secs in *. rewrite orb_false_iff. split.
      - destruct He as [->| ->]; [apply Z.ltb_ge; lia|done].
      - apply Z.ltb_ge. Z.div_mod_to_equations; lia. }
    rewrite !elem_of_cons in Hd. destruct Hd as [->|[->|[]%not_elem_of_nil]]; rewrite Hn; auto.
  - unfold find_client_with_decrypt. rewrite try_decrypt_refused; [done|].
    intros k r c Hin%elem_of_hash_iter Hc. by apply (Hr k r c).
Qed.

(** The condition on unknown addresses, as a check. *)
Definition refused_by_all `{Aes128} (st : ServerState) (buf : list Z) (now : Z) : bool :=
  forallb (fun p : Z * ClientRef =>
    match heap st !! p.2 with
    | Some c => match snd (decrypt ServerBound (Client.crypt_state c) buf now) with
                | Err (Repeat | Late | Mac) => true
                | _ => false
                end
    | None => true
    end) (map_to_list (clients_without_udp st)).

Lemma refused_by_all_spec `{Aes128} st buf now k r c :
  refused_by_all st buf now = true -> clients_without_udp st !! k = Some r -> heap st !! r = Some c ->
  refused (snd (decrypt ServerBound (Client.crypt_state c) buf now)).
Proof.
  unfold refused_by_all. rewrite forallb_forall. intros Hall Hk Hc.
  specialize (Hall (k, r) ltac:(by apply list_elem_of_In, elem_of_map_to_list)). cbn [snd] in Hall.
  rewrite Hc in Hall. by destruct (snd _) as [|[]].
Qed.

Lemma refused_datagram_ignored_witness :
  @handle_packet canonical_iter const_proto xor_aes no_udp sample_server [255; 1; 2; 3; 4; 5; 6] ("10.0.0.66"%string, 4000) 0 7
  = (sample_server, Ok tt).
Proof.
  assert (get_client_by_socket sample_server ("10.0.0.66"%string, 4000) = None) as Hn by (vm_compute; reflexivity).
  assert (@refused_by_all xor_aes sample_server [255; 1; 2; 3; 4; 5; 6] 7 = true) as Hr by (vm_compute; reflexivity).
  apply (@refused_datagram_ignored canonical_iter canonical_iter_laws const_proto xor_aes no_udp).
  - cbn. lia.
  - intros [_ Hl]. discriminate Hl.
  - rewrite Hn. intros k r c. apply refused_by_all_spec, Hr.
Defined.

(** ** The greeting *)

(** Appending to the stream of a client. *)
Definition push_bytes (b : list Z) (c : Client.Client) : Client.Client :=
  match Client.write c with
  | Some w => Client.set_write c (Some (Client.mkWriter (Client.sent w ++ b) (Client.broken w)))
  | None => c
  end.
Definition wrote (st : ServerState) (r : ClientRef) (b : list Z) : ServerState := upd_client st r (push_bytes b).

(** A client whose stream takes bytes. *)
Definition healthy (st : ServerState) (r : ClientRef) (c : Client.Client) : Prop :=
  heap st !! r = Some c /\ Client.cancelled c = false
  /\ exists w, Client.write c = Some w /\ Client.broken w = false.

(** The frames of a list of messages, in order. *)
Fixpoint frames {T} `{ProtoMessage T} (kind : MessageKind.MessageKind) (l : list T) : Result MumbleError (list Z) :=
  match l with
  | [] => Ok []
  | m :: l => let? b := message_to_bytes kind m in let? bs := frames kind l in Ok (b ++ bs)
  end.

(** What a new client must read, in this order. *)
Definition greeting `{HashIter} `{MumbleProto} (st : ServerState) (c : Client.Client) : Result MumbleError (list Z) :=
  let? codec := message_to_bytes MessageKind.CodecVersion (get_codec_version (codec_state st)) in
  let? chans := frames MessageKind.ChannelState (Channel.get_channel_state <$> (hash_iter (channels st)).*2) in
  let? users := frames MessageKind.UserState
                  (Client.get_user_state <$> omap (fun r => heap st !! r) (hash_iter (clients st)).*2) in
  let? me := message_to_bytes MessageKind.UserState (Client.get_user_state c) in
  let? sync := message_to_bytes MessageKind.ServerSync
    (ServerSyncMsg.mkServerSync (Some (Client.session_id c)) (Some MAX_BANDWIDTH_IN_BITS)
       (Some "SoZ Mumble Server"%string) None) in
  let? config := message_to_bytes MessageKind.ServerConfig
    (ServerConfigMsg.mkServerConfig None None (Some false) (Some 0) (Some 0) None) in
  Ok (codec ++ chans ++ users ++ me ++ sync ++ config).

Lemma healthy_push st r c b : healthy st r c -> healthy (wrote st r b) r (push_bytes b c).
Proof.
  intros (Hc & Ho & w & Hw & Hb). unfold healthy, wrote, push_bytes. cbn. rewrite lookup_alter_eq, Hc, Hw. cbn.
  rewrite Hw. split_and!; try done. by eexists.
Qed.

Lemma wrote_wrote st r b1 b2 : wrote (wrote st r b1) r b2 = wrote st r (b1 ++ b2).
Proof.
  unfold wrote, upd_client, set_heap. cbn. f_equal. apply map_eq. intros r'. destruct (decide (r = r')) as [<-|Hr].
  - rewrite !lookup_alter_eq. destruct (heap st !! r) as [c|]; [|done]. cbn. f_equal. unfold push_bytes.
    destruct (Client.write c) as [w|] eqn:Hw; cbn; rewrite ?Hw; [|done]. by rewrite <-app_assoc.
  - by rewrite !lookup_alter_ne.
Qed.

Lemma push_state b c : Client.get_user_state (push_bytes b c) = Client.get_user_state c
  /\ Client.session_id (push_bytes b c) = Client.session_id c.
Proof. unfold push_bytes. by destruct (Client.write c). Qed.

Lemma lookup_wrote st r b r' :
  heap (wrote st r b) !! r' = if decide (r' = r) then push_bytes b <$> heap st !! r' else heap st !! r'.
Proof. unfold wrote. cbn. case_decide as Hr; [subst; by rewrite lookup_alter_eq|by rewrite lookup_alter_ne]. Qed.

Lemma wrote_users st r b (l : list ClientRef) :
  Client.get_user_state <$> omap (fun r' => heap (wrote st r b) !! r') l
  = Client.get_user_state <$> omap (fun r' => heap st !! r') l.
Proof.
  induction l as [|r' l IH]; [done|]. cbn [omap list_omap]. rewrite lookup_wrote.
  destruct (heap st !! r') as [c|]; case_decide; try apply IH; change (fmap (M := option) ?f (Some c)) with (Some (f c));
    rewrite !fmap_cons, ?(proj1 (push_state b c)); f_equal; apply IH.
Qed.

Lemma send_frame {T} `{ProtoMessage T} st r c kind (f : Client.Client -> T) b :
  healthy st r c -> message_to_bytes kind (f c) = Ok b ->
  on_client st r (fun c => Client.send_message c kind (f c)) = (wrote st r b, Ok tt).
Proof.
  intros (Hc & Ho & w & Hw & Hb) Hm. unfold on_client, Client.send_message, Client.send. rewrite Hc, Hm, Ho, Hw, Hb.
  f_equal. unfold wrote, upd_client. f_equal. apply map_eq. intros r'. destruct (decide (r = r')) as [<-|Hr].
  - rewrite lookup_insert_eq, lookup_alter_eq, Hc. cbn. unfold push_bytes. by rewrite Hw, Hb.
  - by rewrite lookup_insert_ne, lookup_alter_ne.
Qed.

Lemma send_frames {T} `{ProtoMessage T} st r c kind (l : list T) b :
  healthy st r c -> frames kind l = Ok b -> send_all st r kind l = (wrote st r b, Ok tt).
Proof.
  revert st c b. induction l as [|m l IH]; intros st c b Hc Hf.
  - injection Hf as <-. cbn [send_all]. f_equal. unfold wrote, upd_client, push_bytes.
    destruct Hc as (Hc & _ & w & Hw & _). destruct st. unfold set_heap. cbn in *. f_equal. apply map_eq. intros r'.
    destruct (decide (r = r')) as [<-|Hr]; [|by rewrite lookup_alter_ne].
    rewrite lookup_alter_eq, Hc. cbn. f_equal. rewrite Hw, app_nil_r. destruct c, w. cbn in *. by subst.
  - cbn [frames] in Hf. destruct (message_to_bytes kind m) as [b1|] eqn:Hm; [|done].
    cbn [result_bind] in Hf. destruct (frames kind l) as [b2|] eqn:Hl; [|done]. injection Hf as <-.
    cbn [send_all]. rewrite (send_frame st r c kind (fun _ => m) b1 Hc Hm). cbn [seq].
    rewrite (IH _ _ b2 (healthy_push _ _ _ b1 Hc) eq_refl). by rewrite wrote_wrote.
Qed.

(** C25.  The greeting: a client whose stream is up is sent the codec, every channel, every user (itself included), its own
    state, the synchronisation message and the server configuration, in this order and nothing
    else, and its arrival is then queued for every connected client. *)
Theorem greeting_order `{HashIterLaws} `{MumbleProto} (st : ServerState) (r : ClientRef) (c : Client.Client)
    (bytes me : list Z) :
  state_inv st -> healthy st r c -> greeting st c = Ok bytes ->
  message_to_bytes MessageKind.UserState (Client.get_user_state c) = Ok me ->
  let '(st', res) := client_run st r in
  res = Ok tt
  /\ forall r' c', heap st !! r' = Some c' ->
       let c1 := if decide (r' = r) then push_bytes bytes c' else c' in
       heap st' !! r' = Some (if connected st r' c' then delivered c1 (SendMessage MessageKind.UserState me) else c1).
Proof.
  intros Hinv Hc Hg Hme. unfold greeting in Hg.
  destruct (message_to_bytes MessageKind.CodecVersion _) as [codec|] eqn:E1; [|done]. cbn [result_bind] in Hg.
  destruct (frames MessageKind.ChannelState _) as [chans|] eqn:E2; [|done]. cbn [result_bind] in Hg.
  destruct (frames MessageKind.UserState _) as [users|] eqn:E3; [|done]. cbn [result_bind] in Hg.
  rewrite Hme in Hg. cbn [result_bind] in Hg.
  destruct (message_to_bytes MessageKind.ServerSync _) as [sync|] eqn:E5; [|done]. cbn [result_bind] in Hg.
  destruct (message_to_bytes MessageKind.ServerConfig _) as [config|] eqn:E6; [|done]. injection Hg as <-.
  assert (client_run st r =
    let st5 := wrote st r (codec ++ chans ++ users ++ me ++ sync ++ config) in
    (fst (broadcast_message st5 MessageKind.UserState (Client.get_user_state c)), Ok tt)) as ->.
  { unfold client_run. rewrite (send_frame st r c _ (fun _ => _) codec Hc E1). cbn [seq].
    unfold sync_client_and_channels.
    change (channels (wrote st r codec)) with (channels st). change (clients (wrote st r codec)) with (clients st).
    apply healthy_push with (b := codec) in Hc as K1.
    rewrite (send_frames (wrote st r codec) r _ _ _ chans K1 E2). cbn [seq].
    apply healthy_push with (b := chans) in K1 as K2.
    rewrite !wrote_users. rewrite (send_frames _ r _ _ _ users K2 E3). cbn [seq].
    apply healthy_push with (b := users) in K2 as K3.
    unfold Client.send_my_user_state, Client.send_server_sync, Client.send_server_config.
    rewrite (send_frame _ r _ _ Client.get_user_state me K3) by (by rewrite !(proj1 (push_state _ _))). cbn [seq].
    apply healthy_push with (b := me) in K3 as K4.
    rewrite (send_frame _ r _ _ (fun c => ServerSyncMsg.mkServerSync (Some (Client.session_id c)) _ _ _) sync K4)
      by (by rewrite !(proj2 (push_state _ _))). cbn [seq].
    apply healthy_push with (b := sync) in K4 as K5.
    rewrite (send_frame _ r _ _ (fun _ => _) config K5 E6). cbn [seq].
    apply healthy_push with (b := config) in K5 as K6.
    rewrite (proj1 K6), !(proj1 (push_state _ _)), !wrote_wrote, <-?app_assoc. done. }
  cbv zeta. set (bytes := codec ++ _). split; [done|]. intros r' c' Hc'.
  assert (state_inv (wrote st r bytes)) as I1
    by (apply upd_client_inv; [intros c0; unfold push_bytes; by destruct (Client.write c0)|done]).
  pose proof (broadcast_spec (wrote st r bytes) MessageKind.UserState _ me I1 Hme) as Hb.
  destruct (broadcast_message (wrote st r bytes) _ _) as [st' res]. cbn [fst]. destruct Hb as (_ & Hb & _).
  specialize (Hb r' (if decide (r' = r) then push_bytes bytes c' else c')). rewrite Hb.
  - case_decide; [|done]. unfold connected. by rewrite (proj2 (push_state _ _)).
  - rewrite lookup_wrote, Hc'. by case_decide.
Qed.

Lemma greeting_order_witness :
  let '(st', res) := @client_run canonical_iter const_proto sample_server 1%nat in
  res = Ok tt /\ exists c w, heap st' !! 1%nat = Some c /\ Client.write c = Some w /\ length (Client.sent w) = 56%nat.
Proof.
  destruct (heap sample_server !! 1%nat) as [c|] eqn:Hc; [|vm_compute in Hc; discriminate].
  assert (Client.cancelled c = false /\ Client.write c = Some (Client.mkWriter [] false)
    /\ exists bytes, @greeting canonical_iter const_proto sample_server c = Ok bytes /\ length bytes = 56%nat)
    as (Ho & Hw & bytes & Hg & Hl)
    by (vm_compute in Hc; injection Hc as <-; split; [reflexivity|split; [reflexivity|]];
        eexists; split; [vm_compute; reflexivity|reflexivity]).
  pose proof (@greeting_order canonical_iter canonical_iter_laws const_proto sample_server 1%nat c bytes
    [0; 9; 0; 0; 0; 1; 1] sample_server_inv
    (conj Hc (conj Ho (ex_intro _ _ (conj Hw eq_refl)))) Hg eq_refl) as H.
  destruct (client_run sample_server 1%nat) as [st' res]. destruct H as [H1 H2]. split; [exact H1|].
  specialize (H2 1%nat c Hc). cbv zeta in H2. rewrite decide_True in H2 by reflexivity.
  eexists; eexists; split; [exact H2|]. unfold delivered, push_bytes. rewrite Hw.
  destruct (connected sample_server 1%nat c); try destruct (accepts _); (split; [cbn; reflexivity|cbn [Client.sent app]; exact Hl]).
Defined.
