(* ===== verification/Delivery.v ===== *)
(** Paths that cross several components: the queue of a client down to its stream, the handshake over real
    protobuf bytes, and a voice packet from the microphone of one player to the ear of another. *)

From stdpp Require Import base gmap strings list.
From Stdlib Require Import ZArith Lia.
From S2P Require Import Prelude Errors Maps Text Varint Voice Float32 Messages Wire WireFormat Codec Crypt Proto CodecProps.
From S2P Require Import Bans Client Anticheat State StateInv StateProps Handlers HandlerInv HandlerProps Net NetProps.
Import ServerState Handler Udp Tcp.

(** ** The queue of a client *)

Lemma insert_alter (m : gmap ClientRef Client.Client) r f c : <[r := c]> (alter f r m) = <[r := c]> m.
Proof.
  apply map_eq. intros r'. destruct (decide (r = r')) as [<-|Hne]; [by rewrite !lookup_insert_eq|].
  by rewrite !lookup_insert_ne, lookup_alter_ne.
Qed.

Lemma set_heap_same_entry st r c : heap st !! r = Some c -> set_heap st (<[r := c]> (heap st)) = st.
Proof. intros Hc. rewrite insert_id by done. by destruct st. Qed.

Section queue.
Context `{HashIter} `{Aes128} `{UdpSocket}.

(** A connected client that can be written to, with [q] in its queue and [out] on its stream. *)
Definition serving (c : Client.Client) (q : list ClientMessage) (out : list Z) : Client.Client :=
  Client.set_write (Client.set_publisher c (mkPublisher q false)) (Some (Client.mkWriter out false)).

Lemma queue_turn_message st r c k payload q out cancel now :
  Client.cancelled c = false -> heap st !! r = Some (serving c (SendMessage k payload :: q) out) ->
  queue_turn st r cancel now =
  (set_heap st (<[r := serving c q (out ++ payload)]> (heap st)), Served).
Proof.
  intros Hx Hc. unfold queue_turn. rewrite Hc. cbn [serving Client.publisher Client.set_write Client.set_publisher closed recv queue].
  unfold consume, on_client, upd_client. cbn [Client.cancelled Client.set_write Client.set_publisher serving].
  rewrite Hx. cbn [andb heap set_heap]. rewrite lookup_alter_eq, Hc. cbn [fmap option_fmap option_map].
  unfold Client.send. cbn [Client.cancelled Client.set_write Client.set_publisher serving Client.write]. rewrite Hx. cbn.
  rewrite insert_alter. done.
Qed.
End queue.

(** The messages queued for a client reach its stream: whatever was queued, the loop that serves the queue
    writes every payload, each once and in the order in which they were queued, and then waits with an empty queue; no other
    client is touched. *)
Theorem queue_in_order `{HashIter} `{Aes128} `{UdpSocket} (st : ServerState) (r : ClientRef)
    (c : Client.Client) (l : list (MessageKind.MessageKind * list Z)) (out : list Z) (cancel : bool) (now : Z) (fuel : nat) :
  Client.cancelled c = false -> heap st !! r = Some (serving c (uncurry SendMessage <$> l) out) ->
  (length l < fuel)%nat ->
  queue_loop fuel st r cancel now =
  (set_heap st (<[r := serving c [] (out ++ concat l.*2)]> (heap st)), Waiting).
Proof.
  intros Hx. revert st out fuel. induction l as [|[k payload] l IH]; intros st out [|fuel] Hc Hf; try (cbn in Hf; lia).
  - cbn [queue_loop]. unfold queue_turn. rewrite Hc. cbn. rewrite Hx, app_nil_r. by rewrite set_heap_same_entry.
  - cbn [queue_loop]. rewrite (queue_turn_message st r c k payload (uncurry SendMessage <$> l) out) by done.
    rewrite (IH _ (out ++ payload)); [|apply (lookup_insert_eq (heap st))|cbn in Hf; lia]. cbn. rewrite <-app_assoc. by rewrite insert_insert_eq.
Qed.

Lemma queue_in_order_witness :
  let c := Client.sample "[1] Ann" 1 in
  let st := set_heap empty_server
    {[ 0%nat := serving c [SendMessage MessageKind.Ping [1; 2]; SendMessage MessageKind.UserState [3]] [] ]} in
  @queue_loop canonical_iter xor_aes no_udp 3 st 0%nat true 0
  = (set_heap st (<[0%nat := serving c [] [1; 2; 3]]> (heap st)), Waiting).
Proof.
  intros c st.
  apply (@queue_in_order canonical_iter xor_aes no_udp st 0%nat c
    [(MessageKind.Ping, [1; 2]); (MessageKind.UserState, [3])] [] true 0 3); [reflexivity..|cbn; lia].
Defined.

(** ** The handshake *)

(** The codecs of [mumble.rs] over a protobuf runtime. *)
Definition mumble_proto `{Runtime} : MumbleProto := {|
  proto_version := message_proto; proto_authenticate := message_proto; proto_ping := message_proto;
  proto_server_sync := message_proto; proto_channel_remove := message_proto;
  proto_channel_state := message_proto; proto_user_remove := message_proto;
  proto_user_state := message_proto; proto_crypt_setup := message_proto;
  proto_voice_target := message_proto; proto_permission_query := message_proto;
  proto_codec_version := message_proto; proto_user_stats := message_proto;
  proto_server_config := message_proto;
|}.

(** [f] is the frame of [m], small enough for its length field. *)
Definition framed {T} `{ProtoMessageLaws T} (kind : MessageKind.MessageKind) (m : T) (f : list Z) : Prop :=
  message_ok m /\ message_to_bytes kind m = Ok f /\ short f.

(** C14.  The handshake: a client that sends its version and its credentials, with up to ten voice packets
    tunnelled before each, is answered with the server's version and the crypt set-up, and the server ends with exactly
    what the client sent, a fresh crypt state and the rest of the stream unread.  The client reads back what
    the server meant: the key, and nonces that put both directions in step. *)
Theorem handshake `{M : MumbleProto} `{L1 : !ProtoMessageLaws VersionMsg.Version}
    `{L2 : !ProtoMessageLaws AuthenticateMsg.Authenticate} `{L3 : !ProtoMessageLaws CryptSetupMsg.CryptSetup}
    (server_version version : VersionMsg.Version) (auth : AuthenticateMsg.Authenticate)
    (voice1 voice2 : list (list Z)) (f1 f2 g1 g2 rest random_key : list Z) (now : Z) :
  let crypt := default_crypt_state random_key now in
  let setup := get_crypt_setup crypt in
  Forall short voice1 -> (length voice1 <= 10)%nat -> Forall short voice2 -> (length voice2 <= 10)%nat ->
  framed MessageKind.Version version f1 -> framed MessageKind.Authenticate auth f2 ->
  framed MessageKind.Version server_version g1 -> framed MessageKind.CryptSetup setup g2 ->
  init (tunnelled voice1 ++ f1 ++ tunnelled voice2 ++ f2 ++ rest) server_version random_key now false false
    = (g1 ++ g2, Ok (version, auth, crypt, rest))
  /\ expected_message VersionMsg.Version MessageKind.Version (g1 ++ g2) = Ok (server_version, g2)
  /\ expected_message CryptSetupMsg.CryptSetup MessageKind.CryptSetup g2 = Ok (setup, [])
  /\ get_bytes (CryptSetupMsg.key setup) = key crypt
  /\ from_le_bytes (get_bytes (CryptSetupMsg.client_nonce setup)) = decrypt_nonce crypt
  /\ from_le_bytes (get_bytes (CryptSetupMsg.server_nonce setup)) = encrypt_nonce crypt.
Proof.
  intros crypt setup Hv1 Hl1 Hv2 Hl2 (O1 & F1 & S1) (O2 & F2 & S2) (O3 & G1 & T1) (O4 & G2 & T2).
  split_and!.
  - unfold init. rewrite (expected_message_app _ version f1) by done.
    unfold send_message. rewrite G1. cbn [result_bind app].
    rewrite (expected_message_app _ auth f2) by done. fold crypt. fold setup. by rewrite G2.
  - apply (expected_message_app MessageKind.Version server_version g1 [] g2); try done. cbn; lia.
  - rewrite <- (app_nil_r g2). apply (expected_message_app MessageKind.CryptSetup setup g2 [] []); try done. cbn; lia.
  - done.
  - vm_compute. reflexivity.
  - vm_compute. reflexivity.
Qed.

Section sample_handshake.
#[local] Existing Instance wire_format.

Definition sample_hello : VersionMsg.Version :=
  VersionMsg.mkVersion (Some 66304) (Some "CitizenFX"%string) (Some "Windows"%string) None.
Definition sample_login : AuthenticateMsg.Authenticate :=
  AuthenticateMsg.mkAuthenticate (Some "[12] eve"%string) None [] [-2147483637] (Some true).
Definition sample_setup : CryptSetupMsg.CryptSetup := get_crypt_setup (default_crypt_state sample_key 0).
Definition frame_of {T} `{ProtoMessage T} (kind : MessageKind.MessageKind) (m : T) : list Z :=
  match message_to_bytes kind m with Ok f => f | Err _ => [] end.

Lemma sample_hello_framed : framed MessageKind.Version sample_hello (frame_of MessageKind.Version sample_hello).
Proof.
  split; [split|split; vm_compute; reflexivity]; [|vm_compute; reflexivity].
  cbn. unfold VersionCodec.message_ok, u32, utf8, in_u. cbn. repeat split; lia || done.
Qed.

Lemma sample_login_framed :
  framed MessageKind.Authenticate sample_login (frame_of MessageKind.Authenticate sample_login).
Proof.
  split; [split|split; vm_compute; reflexivity]; [|vm_compute; reflexivity].
  cbn. unfold AuthenticateCodec.message_ok, i32, utf8. cbn. repeat (split || constructor); lia || done.
Qed.

Lemma sample_setup_framed : framed MessageKind.CryptSetup sample_setup (frame_of MessageKind.CryptSetup sample_setup).
Proof.
  split; [split|split; vm_compute; reflexivity]; [|vm_compute; reflexivity].
  cbn. unfold CryptSetupCodec.message_ok, byte_string. cbn.
  repeat split; apply bytes_okb_spec; vm_compute; reflexivity.
Qed.
End sample_handshake.

Lemma handshake_witness :
  let hello := @frame_of _ (@message_proto wire_format _ _) MessageKind.Version sample_hello in
  let login := @frame_of _ (@message_proto wire_format _ _) MessageKind.Authenticate sample_login in
  let setup := @frame_of _ (@message_proto wire_format _ _) MessageKind.CryptSetup sample_setup in
  @init (@mumble_proto wire_format) (tunnelled [[1; 2]] ++ hello ++ tunnelled [] ++ login ++ [7])
    sample_hello sample_key 0 false false
  = (hello ++ setup, Ok (sample_hello, sample_login, default_crypt_state sample_key 0, [7])).
Proof.
  cbv zeta.
  apply (@handshake (@mumble_proto wire_format) message_proto_laws message_proto_laws message_proto_laws
    sample_hello sample_hello sample_login [[1; 2]] [] _ _ _ _ [7] sample_key 0);
    [repeat constructor|cbn; lia|constructor|cbn; lia|apply sample_hello_framed|apply sample_login_framed
    |apply sample_hello_framed|apply sample_setup_framed].
Defined.

(** ** Voice from end to end *)

(** The first test of [handle_packet]: the datagram is taken for a server list ping. *)
Definition list_ping (datagram : list Z) : Prop :=
  length datagram = 12%nat /\ Z.land (Z.shiftr (hd 0 datagram) 5) 7 = 0.

(** [receiver] decrypts what [sender] encrypts next: the same key, and a nonce at most 127 packets behind. *)
Definition in_step (sender receiver : CryptState) : Prop :=
  block_ok (key sender) /\ key receiver = key sender
  /\ exists d, 1 <= d < 128 /\ as_u128 (encrypt_nonce sender + 1) = as_u128 (decrypt_nonce receiver + d).

Lemma in_step_decrypt `{Aes128Laws} {D} `{VoicePacketDstLaws D} sender receiver (p : VoicePacket D) now :
  in_step sender receiver -> packet_ok p -> exists st', decrypt D receiver (snd (encrypt sender p)) now = (st', Ok (p, [])).
Proof.
  intros (Hk & Hkey & d & Hd & Hn) Hp. eexists. by apply decrypt_encrypt_aux.
Qed.

(** A client whose tasks run and whose queue is empty. *)
Definition idle (c : Client.Client) : Prop :=
  Client.cancelled c = false /\ Client.publisher c = mkPublisher [] false.

(** No client is lost, and each is afterwards related by [R] to what it was. *)
Definition each_client (R : relation Client.Client) (st st' : ServerState) : Prop :=
  forall r c, heap st !! r = Some c -> exists c', heap st' !! r = Some c' /\ R c c'.

#[global] Instance each_client_preorder R `{!PreOrder R} : PreOrder (each_client R).
Proof.
  split.
  - intros st r c Hc. exists c. by split.
  - intros s1 s2 s3 K1 K2 r c Hc. destruct (K1 r c Hc) as (c1 & Hc1 & R1). destruct (K2 r c1 Hc1) as (c2 & Hc2 & R2).
    exists c2. split; [done|by etransitivity].
Qed.

(** What holds of the parts of a client that the voice path does not write, [R] ignoring the queue and what
    the anticheat records. *)
Section contents.
Context (R : relation Client.Client) `{!PreOrder R}.
Context (Rrefl : forall c, R c c) (Rqueue : forall c p, R c (Client.set_publisher c p)) (Rrecord : forall c a, R c (Client.set_ac c a)).
Context `{HashIter} `{Aes128} `{UdpSocket}.

Lemma insert_keeps st r c c1 :
  heap st !! r = Some c -> R c c1 -> each_client R st (set_heap st (<[r := c1]> (heap st))).
Proof.
  intros Hc Hl r' c' Hc'. cbn. destruct (decide (r = r')) as [<-|Hne].
  - rewrite lookup_insert_eq. exists c1. split; [done|]. by simplify_eq.
  - rewrite lookup_insert_ne by done. by exists c'.
Qed.

Lemma upd_client_keeps st r f : (forall c, R c (f c)) -> each_client R st (upd_client st r f).
Proof.
  intros Hf r' c' Hc'. cbn. destruct (decide (r = r')) as [<-|Hne].
  - rewrite lookup_alter_eq, Hc'. cbn. eauto.
  - rewrite lookup_alter_ne by done. by exists c'.
Qed.

Lemma publish_keeps st r m : each_client R st (publish st r m).
Proof.
  unfold publish. destruct (heap st !! r) as [c|] eqn:Hc; [|done]. destruct (try_send _ m); [by apply (insert_keeps st r c)|].
  intros r' c' Hc'. by exists c'.
Qed.

Lemma deliver_keeps speaker packet rec now l st n :
  each_client R st (fst (fold_left (deliver speaker packet rec now) l (st, n))).
Proof.
  revert st n. induction l as [|[k r] l IH]; intros st n; [done|]. cbn [fold_left].
  assert (each_client R st (fst (deliver speaker packet rec now (st, n) (k, r)))) as Hd.
  { unfold deliver. cbn [snd]. destruct (heap st !! r) as [c|] eqn:Hc; [|done]. case_if; [done|]. cbn [fst].
    destruct rec; [|apply publish_keeps].
    etransitivity; [|apply publish_keeps]. apply (insert_keeps st r c); [done|apply Rrecord]. }
  destruct (deliver _ _ _ _ _ _) as [st1 n1]. etransitivity; [exact Hd|apply IH].
Qed.

Lemma send_voice_packet_keeps st r packet :
  (forall c, R c (fst (fst (Client.send_voice_packet udp_send c packet)))) ->
  each_client R st (fst (send_voice_packet st r packet)).
Proof.
  intros Hs. unfold send_voice_packet. destruct (heap st !! r) as [c|] eqn:Hc; [|done]. specialize (Hs c).
  destruct (Client.send_voice_packet _ c packet) as [[c1 dg] res]. cbn [fst] in *.
  exact (insert_keeps st r c c1 Hc Hs).
Qed.

(** The loopback target 31 also sends to the speaker. *)
Lemma voice_packet_keeps st r (packet : VoicePacket ClientBound) now :
  (match packet with VAudio target _ _ _ _ => target <> 31 | VPing _ => True end
   \/ forall c, R c (fst (fst (Client.send_voice_packet udp_send c packet)))) ->
  each_client R st (fst (handle_voice_packet st r packet now)).
Proof.
  intros Hp. unfold handle_voice_packet. set (st1 := match packet_position _ with Some _ => _ | None => st end).
  assert (each_client R st st1) as K1.
  { subst st1. destruct (packet_position packet); [|reflexivity]. apply upd_client_keeps. intros c. unfold Anticheat.note_position. repeat case_if; auto. }
  clearbody st1. destruct (heap st1 !! r) as [c|]; [|done]. case_if; [done|].
  destruct packet as [ts|target sid sn pl pos]; [done|]. destruct (Z.eqb_spec target 31) as [Ht|Ht].
  - destruct Hp as [Hp|Hp]; [done|].
    pose proof (send_voice_packet_keeps st1 r _ Hp) as K2. etransitivity; [exact K1|].
    by destruct (send_voice_packet st1 r _) as [st2 [u|e]].
  - set (st2 := if takes_record st1 c now then _ else st1).
    assert (each_client R st1 st2) as K2 by (subst st2; case_if; [by apply upd_client_keeps|done]). clearbody st2.
    match goal with |- context [fold_left (deliver ?c0 ?pk ?b ?t) ?l (st2, 0)] =>
      pose proof (deliver_keeps c0 pk b t l st2 0) as K3; destruct (fold_left (deliver c0 pk b t) l (st2, 0)) as [st3 n] end.
    cbn [fst] in *. do 2 (etransitivity; [eassumption|]). etransitivity; [exact K3|].
    apply upd_client_keeps. intros c'. unfold Anticheat.note_emission. case_if; auto.
Qed.
End contents.

(** What the routing of a packet leaves alone in every client. *)
Record same_line (c c' : Client.Client) : Prop := {
  sl_crypt : Client.crypt_state c' = Client.crypt_state c;
  sl_addr : Client.udp_socket_addr c' = Client.udp_socket_addr c;
  sl_cancel : Client.cancelled c' = Client.cancelled c;
}.
#[global] Instance same_line_preorder : PreOrder same_line.
Proof. split; [by split|]. intros a b c [] []. split; congruence. Qed.

Section path.
Context `{HashIterLaws} `{MumbleProto} `{Aes128Laws} `{UdpSocket}.

(** A datagram of a known client that decrypts to speech is queued for routing. *)
Lemma speech_arrives st r c addr sender (p : VoicePacket ServerBound) v now :
  get_client_by_socket st addr = Some r -> heap st !! r = Some c -> idle c ->
  in_step sender (Client.crypt_state c) -> packet_ok p ->
  let packet := into_client_bound p (Client.session_id c) (remove_positional_data st) in
  (match p with VAudio _ _ _ _ _ => True | VPing _ => False end) ->
  let datagram := snd (encrypt sender p) in
  ~ list_ping datagram -> (length datagram <= udp_buffer)%nat ->
  exists cs, udp_server_run st (Ok (datagram, addr)) v now =
    set_heap st (<[r := Client.set_publisher (Client.set_crypt_state c cs)
                          (mkPublisher [RouteVoicePacket packet] false)]> (heap st)).
Proof.
  intros Hr Hc [Hx Hq] Hstep Hp packet Ha datagram Hn Hfit. unfold udp_server_run. rewrite take_ge by exact Hfit.
  destruct (in_step_decrypt sender (Client.crypt_state c) p now Hstep Hp) as [cs Hd]. fold datagram in Hd. exists cs.
  assert (4 <= length datagram)%nat as Hlen.
  { subst datagram. unfold encrypt. destruct (ocb_encrypt _ _). cbn [snd]. rewrite !length_app, length_take, length_be_bytes. cbn. lia. }
  clearbody datagram. unfold handle_packet. destruct datagram as [|b0 [|b1 dg]]; [cbn in Hlen; lia..|].
  assert ((Z.land (Z.shiftr b0 5) 7 =? 0) && (length (b0 :: b1 :: dg) =? 12)%nat = false) as ->.
  { apply not_true_iff_false. intros [Hk%Z.eqb_eq Hl%Nat.eqb_eq]%andb_prop. by apply Hn. }
  rewrite Hr, Hc, Hd. cbn [fst]. unfold forward. cbn [heap set_heap]. rewrite lookup_insert_eq.
  change (Client.session_id (Client.set_crypt_state c cs)) with (Client.session_id c). cbn [remove_positional_data set_heap].
  fold packet. assert (exists t s n pl pos, packet = VAudio t s n pl pos) as (t & s & n & pl & pos & Hpk)
    by (subst packet; destruct p; [done|cbn; eauto 10]).
  rewrite Hpk. rewrite <- Hpk. unfold publish. cbn [heap set_heap]. rewrite lookup_insert_eq.
  cbn [Client.publisher Client.set_crypt_state]. rewrite Hq. cbn. rewrite decide_True by (unfold CHANNEL_CAPACITY; lia). by rewrite insert_insert_eq.
Qed.

(** The only message of an idle client's queue is routed. *)
Lemma route_turn st r c packet now st' :
  Client.cancelled c = false -> heap st !! r = Some (Client.set_publisher c (mkPublisher [RouteVoicePacket packet] false)) ->
  handle_voice_packet (set_heap st (<[r := Client.set_publisher c (mkPublisher [] false)]> (heap st))) r packet now = (st', Ok tt) ->
  queue_turn st r false now = (st', Served).
Proof.
  intros Hx Hc Hh. unfold queue_turn. rewrite Hc. cbn [Client.publisher Client.set_publisher closed recv queue].
  rewrite andb_false_r. unfold consume. unfold upd_client.
  assert (alter (fun c0 => Client.set_publisher c0 (mkPublisher [] false)) r (heap st) =
    <[r := Client.set_publisher c (mkPublisher [] false)]> (heap st)) as E.
  { apply map_eq. intros r'. destruct (decide (r = r')) as [<-|Hne];
      [by rewrite lookup_alter_eq, lookup_insert_eq, Hc|by rewrite lookup_alter_ne, lookup_insert_ne]. }
  rewrite E. cbn [closed]. by rewrite Hh.
Qed.

(** A voice packet at the head of the queue of a client with a socket leaves as a datagram for it. *)
Lemma send_turn st r c packet q addr now :
  Client.cancelled c = false -> Client.udp_socket_addr c = Some addr -> heap st !! r = Some c ->
  Client.publisher c = mkPublisher (SendVoicePacket packet :: q) false ->
  last (udp_out (fst (queue_turn st r false now))) = Some (addr, snd (encrypt (Client.crypt_state c) packet)).
Proof.
  intros Hx Ha Hc Hq. unfold queue_turn. rewrite Hc, Hq. cbn [closed recv queue]. rewrite andb_false_r.
  unfold consume, send_voice_packet, upd_client. cbn [heap set_heap]. rewrite lookup_alter_eq, Hc. cbn [fmap option_fmap option_map].
  unfold Client.send_voice_packet. cbn [Client.udp_socket_addr Client.set_publisher]. rewrite Ha.
  cbn [Client.crypt_state Client.set_publisher]. destruct (encrypt (Client.crypt_state c) packet) as [cs dg]. cbn [snd].
  destruct (udp_send addr dg); [cbn; by rewrite last_snoc|].
  unfold count_bad. cbn [heap set_heap set_udp_out]. rewrite lookup_insert_eq. case_if; cbn; by rewrite last_snoc.
Qed.
End path.

(** C10.  Speech crosses the server: a packet that a connected, unmuted player encrypts and sends from its known
    address arrives; after one turn of the speaker's queue and one turn of the listener's, the server has sent
    to the address of each addressed, connected, hearing client a datagram that this client decrypts to the very
    packet, stamped with the speaker's session and stripped of the position when so configured.  The datagram must fit the
    receive buffer and must not look like a server list ping, which the server tests first. *)
Theorem voice_end_to_end `{HashIterLaws} `{MumbleProto} `{Aes128Laws} `{UdpSocket} (st : ServerState)
    (r r' : ClientRef) (c c' : Client.Client) (addr addr' : SocketAddr) (speaker listener : CryptState)
    (target sn : Z) (pl : VoicePacketPayload) (pos : option (list Z)) (v now : Z) :
  let p := VAudio (D := ServerBound) target tt sn pl pos in
  let packet := into_client_bound p (Client.session_id c) (remove_positional_data st) in
  let datagram := snd (encrypt speaker p) in
  state_inv st ->
  get_client_by_socket st addr = Some r -> heap st !! r = Some c -> clients st !! Client.session_id c = Some r ->
  Client.mute c = false -> idle c -> in_step speaker (Client.crypt_state c) ->
  packet_ok p -> target <> 31 -> ~ list_ping datagram -> (length datagram <= udp_buffer)%nat ->
  heap st !! r' = Some c' -> listening_clients st c target !! Client.session_id c' = Some r' ->
  Client.session_id c' <> Client.session_id c -> Client.deaf c' = false -> idle c' ->
  Client.udp_socket_addr c' = Some addr' -> in_step (Client.crypt_state c') listener ->
  let st1 := udp_server_run st (Ok (datagram, addr)) v now in
  let st2 := fst (queue_turn st1 r false now) in
  let st3 := fst (queue_turn st2 r' false now) in
  exists heard, last (udp_out st3) = Some (addr', heard)
    /\ snd (decrypt ClientBound listener heard now) = Ok (packet, []).
Proof.
  intros p packet datagram Hinv Hr Hc Hcl Hm Hidle Hstep Hp Ht Hn Hfit Hc' HL Hs Hd [Hx' Hq'] Ha' Hstep' st1 st2 st3.
  assert (r <> r') as Hne by (intros ->; congruence).
  destruct (speech_arrives st r c addr speaker p v now Hr Hc Hidle Hstep Hp I Hn Hfit) as [cs E1]. fold datagram packet in E1.
  fold st1 in E1. set (c1 := Client.set_crypt_state c cs) in *. set (c2 := Client.set_publisher c1 (mkPublisher [] false)).
  set (st1' := set_heap st (<[r := c2]> (heap st))).
  assert (same_shape st st1') as Hsh by (by apply (set_heap_same st r c)).
  assert (state_inv st1') as Hinv' by (by eapply same_shape_inv).
  assert (heap st1' !! r = Some c2) as Hc2 by apply (lookup_insert_eq (heap st)).
  assert (heap st1' !! r' = Some c') as Hc1' by (cbn; by rewrite lookup_insert_ne).
  assert (listening_clients st1' c2 target = listening_clients st c target) as EL by (by apply listening_ext).
  pose proof (voice_packet_spec st1' r c2 target (Client.session_id c) sn pl
    (if remove_positional_data st then None else pos) now Hinv' Hc2 Hm Ht) as Hv.
  pose proof (voice_packet_keeps same_line (fun c => reflexivity c) ltac:(done) ltac:(done) st1' r packet now (or_introl Ht)) as Hlines.
  cbv zeta in Hv. rewrite EL in Hv. 
  match type of Hv with context [handle_voice_packet _ _ ?pk _] => change pk with packet in Hv end.
  destruct (handle_voice_packet st1' r packet now) as [st2' res] eqn:Eh. destruct Hv as (-> & Hv & _). cbn [fst] in Hlines.
  assert (st2 = st2') as E2.
  { subst st2. rewrite (route_turn st1 r c1 packet now st2'); [done|apply Hidle|..]; rewrite E1; cbn [heap set_heap].
    - apply (lookup_insert_eq (heap st)).
    - rewrite insert_insert_eq. exact Eh. }
  destruct (Hv r' c' Hc1') as (c'' & Hc'' & Hpub). destruct (Hlines r' c' Hc1') as (x & Hx & [L1 L2 L3]).
  rewrite Hc'' in Hx. injection Hx as <-.
  rewrite bool_decide_eq_true_2 in Hpub by (by rewrite lookup_delete_ne).
  unfold after_voice, delivered, accepts in Hpub. rewrite Hd, Hq' in Hpub. cbn in Hpub.
  rewrite bool_decide_eq_true_2 in Hpub by (unfold CHANNEL_CAPACITY; lia). cbn in Hpub.
  destruct (in_step_decrypt (Client.crypt_state c') listener packet now Hstep') as [cs' Hdec].
  { apply into_client_bound_ok; [done|]. by apply (si_clients _ Hinv _ _ Hcl). }
  exists (snd (encrypt (Client.crypt_state c') packet)). rewrite Hdec. split; [|done].
  subst st3. rewrite E2, <-L1. eapply send_turn; [congruence|congruence|exact Hc''|exact Hpub].
Qed.

(** Both users of [sample_talk] with a UDP address and nothing left to serve. *)
Definition served (st : ServerState) (r : ClientRef) : ServerState :=
  upd_client st r (fun c => Client.set_publisher c (mkPublisher [] false)).
Definition sample_call : ServerState :=
  set_client_socket (set_client_socket (served (served sample_talk 0%nat) 1%nat) 0%nat ("10.0.0.1"%string, 4000))
    1%nat ("10.0.0.2"%string, 4000).

Lemma sample_call_inv : state_inv sample_call.
Proof.
  assert (forall st r, state_inv st -> state_inv (served st r)) as Hs
    by (intros st r Hi; eapply same_shape_inv; [by apply upd_client_same|exact Hi]).
  do 2 (apply set_client_socket_inv; [|vm_compute; by eexists]). do 2 apply Hs. apply sample_talk_inv.
Qed.

(** The crypt states of the players: the nonces the server announced. *)
Definition sample_speaker : CryptState := with_encrypt_nonce (default_crypt_state sample_key 0) (2 ^ 127).
Definition sample_listener : CryptState := with_decrypt_nonce (default_crypt_state sample_key 0) 0.

Lemma sample_in_step (s r : CryptState) :
  key s = sample_key -> key r = sample_key -> as_u128 (encrypt_nonce s + 1) = as_u128 (decrypt_nonce r + 1) -> in_step s r.
Proof.
  intros K1 K2 E. split_and!; [rewrite K1; exact sample_key_ok|congruence|]. exists 1. split; [lia|done].
Qed.

Lemma voice_end_to_end_witness :
  let p := VAudio (D := ServerBound) 0 tt 7 (Opus [1; 2; 3] false) None in
  let datagram := snd (@encrypt xor_aes ServerBound _ sample_speaker p) in
  let st1 := @udp_server_run canonical_iter const_proto xor_aes no_udp sample_call
               (Ok (datagram, ("10.0.0.1"%string, 4000))) 66304 0 in
  let st2 := fst (@queue_turn canonical_iter xor_aes no_udp st1 0%nat false 0) in
  let st3 := fst (@queue_turn canonical_iter xor_aes no_udp st2 1%nat false 0) in
  exists heard, last (udp_out st3) = Some (("10.0.0.2"%string, 4000), heard)
    /\ snd (@decrypt xor_aes ClientBound _ sample_listener heard 0)
       = Ok (VAudio (D := ClientBound) 0 1 7 (Opus [1; 2; 3] false) None, []).
Proof.
  destruct (heap sample_call !! 0%nat) as [c|] eqn:Hc; [|vm_compute in Hc; discriminate].
  destruct (heap sample_call !! 1%nat) as [c'|] eqn:Hc'; [|vm_compute in Hc'; discriminate].
  assert (Client.session_id c = 1 /\ Client.mute c = false /\ idle c /\ Client.crypt_state c = default_crypt_state sample_key 0
    /\ @listening_clients canonical_iter sample_call c 0 !! 2 = Some 1%nat) as (Es & Hm & Hi & Ek & HL)
    by (vm_compute in Hc; injection Hc as <-; repeat split; vm_compute; reflexivity).
  assert (Client.session_id c' = 2 /\ Client.deaf c' = false /\ idle c' /\ Client.crypt_state c' = default_crypt_state sample_key 0
    /\ Client.udp_socket_addr c' = Some ("10.0.0.2"%string, 4000)) as (Es' & Hd & Hi' & Ek' & Ha)
    by (vm_compute in Hc'; injection Hc' as <-; repeat split; vm_compute; reflexivity).
  pose proof (@voice_end_to_end canonical_iter canonical_iter_laws const_proto xor_aes xor_aes_laws no_udp sample_call
    0%nat 1%nat c c' ("10.0.0.1"%string, 4000) ("10.0.0.2"%string, 4000) sample_speaker sample_listener 0 7
    (Opus [1; 2; 3] false) None 66304 0) as T. cbv zeta in T. rewrite Es in T. apply T; clear T.
  - exact sample_call_inv.
  - vm_compute. reflexivity.
  - exact Hc.
  - vm_compute. reflexivity.
  - exact Hm.
  - exact Hi.
  - rewrite Ek. by apply sample_in_step.
  - cbn. unfold in_u. repeat split; try lia; apply bytes_okb_spec; reflexivity.
  - discriminate.
  - intros [Hl _]. vm_compute in Hl. discriminate.
  - apply Nat.leb_le. vm_compute. reflexivity.
  - exact Hc'.
  - rewrite Es'. exact HL.
  - rewrite Es'. discriminate.
  - exact Hd.
  - exact Hi'.
  - exact Ha.
  - rewrite Ek'. by apply sample_in_step.
Defined.

(** C40.  A flaw of the order of tests in [handle_packet]: an encrypted datagram of 12 bytes whose nonce byte is below 32 is taken
    for a server list ping, whoever sent it.  It is answered as a ping or dropped; the speech in it reaches nobody and the
    crypt state of its sender does not advance. *)
Theorem speech_taken_for_ping `{HashIter} `{MumbleProto} `{Aes128} `{UdpSocket} (st : ServerState) (addr : SocketAddr)
    (sender : CryptState) (p : VoicePacket ServerBound) (v now : Z) :
  let datagram := snd (encrypt sender p) in
  list_ping datagram ->
  let st' := fst (handle_packet st datagram addr v now) in
  st' = st \/ exists timestamp, st' = set_udp_out st (udp_out st ++ [(addr, anonymous_pong st v timestamp)]).
Proof.
  intros datagram [Hl Hk]. clearbody datagram. cbv zeta. unfold handle_packet.
  destruct datagram as [|b0 [|b1 dg]]; [by left..|]. cbn [hd] in Hk. rewrite Hk, Hl. cbn [Z.eqb Nat.eqb andb].
  destruct (read_varint (b1 :: dg)) as [[timestamp rest]|e]; [right; by exists timestamp|by left].
Qed.

(** Eight bytes of speech. *)
Definition sample_murmur : VoicePacket ServerBound :=
  VAudio (D := ServerBound) 0 tt 7 (Opus [1; 2; 3; 4; 5] false) None.

Lemma speech_taken_for_ping_witness :
  let datagram := snd (@encrypt xor_aes ServerBound _ sample_speaker sample_murmur) in
  let st' := fst (@handle_packet canonical_iter const_proto xor_aes no_udp sample_call datagram
                    ("10.0.0.1"%string, 4000) 66304 0) in
  st' = sample_call \/ exists timestamp,
    st' = set_udp_out sample_call
      (udp_out sample_call ++ [(("10.0.0.1"%string, 4000), anonymous_pong sample_call 66304 timestamp)]).
Proof.
  cbv zeta. apply (@speech_taken_for_ping canonical_iter const_proto xor_aes no_udp sample_call ("10.0.0.1"%string, 4000)
    sample_speaker sample_murmur 66304 0).
  split; vm_compute; reflexivity.
Defined.
