(* ===== verification/Sampler.v ===== *)
(** The periodic evaluation of the anticheat: [sample], [flag], [run_sampler] and [flush_heard] of
    [src/src/anticheat.rs].

    The evaluation runs at one instant [now] (monotonic) and [epoch] (wall clock).  A message to
    the Discord webhook is an output, returned beside the state. *)

From stdpp Require Import base gmap strings list pretty.
From Stdlib Require Import ZArith Lia.
From S2P Require Import Prelude Errors Maps Text Float32 Calendar Bans Client Anticheat State.
Import ServerState.

Module Sampler.

(** ** The snapshot *)

Section snapshot.
Context `{HashIter}.

(** [chan_members.entry(cid).or_default().push(s)]. *)
Definition push_member (cid : Z) (m : gmap Z (list Z)) (s : Z) : gmap Z (list Z) :=
  <[cid := default [] (m !! cid) ++ [s]]> m.

(** [*listen_count.entry(s).or_default() += 1]. *)
Definition count_listen (n : gmap Z Z) (s : Z) : gmap Z Z := <[s := as_u32 (default 0 (n !! s) + 1)]> n.

Definition scan_channel (acc : gmap Z (list Z) * gmap Z Z) (p : Z * Channel) : gmap Z (list Z) * gmap Z Z :=
  let '(members, listens) := acc in
  let ch := p.2 in
  let members := fold_left (fun m q => push_member (Channel.id ch) m q.1) (hash_iter (Channel.clients ch)) members in
  fold_left (fun acc q => (push_member (Channel.id ch) acc.1 q.1, count_listen acc.2 q.1))
    (hash_iter (Channel.listeners ch)) (members, listens).

(** Members per channel, and number of channels listened to per session. *)
Definition scan_channels (st : ServerState) : gmap Z (list Z) * gmap Z Z :=
  fold_left scan_channel (hash_iter (channels st)) (∅, ∅).

Record Snap := mkSnap {
  snap_ref : ClientRef;
  snap_session : Z;
  snap_chan : Z;
  snap_chans : gset Z;
  snap_sesss : gset Z;
}.

(** The channels and the sessions that the targets of a client name. *)
Definition snap_of (r : ClientRef) (c : Client.Client) : Snap :=
  {| snap_ref := r;
     snap_session := Client.session_id c;
     snap_chan := Client.channel_id c;
     snap_chans := fold_left (fun acc slot => acc ∪ dom (target_channels slot)) (Client.targets c) ∅;
     snap_sesss := fold_left (fun acc slot => acc ∪ dom (sessions slot)) (Client.targets c) ∅ |}.

Definition take_snaps (st : ServerState) : list Snap := omap (fun p => snap_of p.2 <$> heap st !! p.2) (hash_iter (clients st)).

Definition index_sessions (snaps : list Snap) : gmap Z nat :=
  snd (fold_left (fun acc s => (S acc.1, <[snap_session s := acc.1]> acc.2)) snaps (0%nat, ∅)).

(** The position of a client, if it emitted one recently. *)
Definition fresh_pos (now : Z) (c : Client.Client) : option Anticheat.pos :=
  if Client.ac_has_pos (Client.ac c) && (since now (Client.ac_last_pos_time (Client.ac c)) <=? Anticheat.POS_FRESH)
  then Some (Client.ac_pos (Client.ac c)) else None.

(** What the evaluation of every client reads. *)
Record Env := mkEnv {
  env_members : gmap Z (list Z);
  env_listens : gmap Z Z;
  env_snaps : list Snap;
  env_index : gmap Z nat;
  env_pos : list (option Anticheat.pos);
}.

Definition make_env (st : ServerState) (now : Z) : Env :=
  let '(members, listens) := scan_channels st in
  let snaps := take_snaps st in
  {| env_members := members;
     env_listens := listens;
     env_snaps := snaps;
     env_index := index_sessions snaps;
     env_pos := (fun s => c ← heap st !! snap_ref s; fresh_pos now c) <$> snaps |}.
End snapshot.

(** ** Evaluation of one client *)

(** Sessions reached through channels, and in all; the client itself is never counted. *)
Definition reached_chan (env : Env) (s : Snap) : gset Z :=
  list_to_set (List.filter (fun x => negb (x =? snap_session s))
    (elements (snap_chans s) ≫= fun ch => default [] (env_members env !! ch))).
Definition reached (env : Env) (s : Snap) : gset Z :=
  list_to_set (List.filter (fun x => negb (x =? snap_session s)) (elements (snap_sesss s))) ∪ reached_chan env s.

(** Whether the reached session targets the client back. *)
Definition targets_back (env : Env) (s : Snap) (x : Z) : bool :=
  match env_index env !! x ≫= fun i => env_snaps env !! i with
  | Some o => bool_decide (snap_session s ∈ snap_sesss o) || bool_decide (snap_chan s ∈ snap_chans o)
  | None => false
  end.

(** 255 when nobody is reached. *)
Definition mutuality_of (env : Env) (s : Snap) : Z :=
  let r := reached env s in
  if bool_decide (r = ∅) then 255 else
  let mutual := as_u32 (Z.of_nat (length (List.filter (targets_back env s) (elements r)))) in
  as_u32 (mutual * 100) / Z.max (as_u32 (Z.of_nat (size r))) 1.

(** Distances of the targets in channels that have a fresh position. *)
Definition target_distances (env : Env) (s : Snap) (me : Anticheat.pos) : list f32 :=
  omap (fun x => q ← (i ← env_index env !! x; mjoin (env_pos env !! i)); Some (Anticheat.dist2 me q))
    (elements (reached_chan env s)).

(** Targets out of reach of the client's position, among those with a fresh position. *)
Definition far_targets (a : Anticheat.AnticheatConfig) (env : Env) (my_idx : nat) (s : Snap) : Z * Z :=
  match mjoin (env_pos env !! my_idx) with
  | Some me =>
    let d := f32_of_Z (Anticheat.pos_far_dist a) in
    let ds := target_distances env s me in
    (as_u32 (Z.of_nat (length (List.filter (fun d2 => f32_lt (f32_mul d d) d2) ds))), as_u32 (Z.of_nat (length ds)))
  | None => (0, 0)
  end.

Record Reading := mkReading {
  reach_instant : Z;
  window_reach : Z;
  mutuality : Z;
  listens : Z;
  far : Z;
  fresh_total : Z;
  pos_osc : Z;
}.

Definition reach (rd : Reading) : Z := Z.max (reach_instant rd) (window_reach rd).

(** The two expiries of the evaluation. *)
Definition expire_window (a : Anticheat.AnticheatConfig) (now : Z) (c : Client.Client) : gmap Z Z :=
  retain (fun _ t => since now t <=? secs (Z.max (Anticheat.window_secs a) 1)) (Client.ac_window (Client.ac c)).

Definition read_client (a : Anticheat.AnticheatConfig) (env : Env) (now : Z) (my_idx : nat) (s : Snap)
    (c : Client.Client) : Reading :=
  let '(far, fresh_total) := far_targets a env my_idx s in
  {| reach_instant := as_u32 (Z.of_nat (size (reached env s)));
     window_reach := as_u32 (Z.of_nat (size (expire_window a now c)));
     mutuality := mutuality_of env s;
     listens := default 0 (env_listens env !! snap_session s);
     far := far;
     fresh_total := fresh_total;
     pos_osc := Anticheat.count_returns (Anticheat.fresh_anchors now (Client.ac_pos_hist (Client.ac c))) |}.

(** What the evaluation stores in the client. *)
Definition store_reading (a : Anticheat.AnticheatConfig) (now : Z) (rd : Reading) (c : Client.Client) : Client.Client :=
  let s := Client.set_ac_window (Client.ac c) (expire_window a now c) in
  let s := Client.set_ac_far_targets s (far rd) in
  let s := Client.set_ac_pos_hist s (Anticheat.fresh_anchors now (Client.ac_pos_hist s)) in
  let s := Client.set_ac_pos_jumps s (pos_osc rd) in
  let s := Client.set_ac_reach_instant s (reach_instant rd) in
  let s := Client.set_ac_reach_window s (window_reach rd) in
  let s := Client.set_ac_mutuality s (mutuality rd) in
  Client.set_ac c (Client.set_ac_listen_count s (listens rd)).

(** *** Suspicion *)

Definition low_mutuality (a : Anticheat.AnticheatConfig) (rd : Reading) : bool :=
  negb (mutuality rd =? 255) && (mutuality rd <=? Anticheat.mutuality_max_pct a).
Definition high_reach (a : Anticheat.AnticheatConfig) (active : Z) (rd : Reading) : bool :=
  (Anticheat.min_recipients a <=? reach rd)
  && (as_u64 (active * Anticheat.threshold_pct a) <=? as_u64 (reach rd * 100)).
Definition talk_cheat (a : Anticheat.AnticheatConfig) (active : Z) (rd : Reading) : bool :=
  high_reach a active rd && low_mutuality a rd.
Definition spy (a : Anticheat.AnticheatConfig) (rd : Reading) : bool :=
  (0 <? Anticheat.listen_max a) && (Anticheat.listen_max a <? listens rd).
Definition pos_spoof (a : Anticheat.AnticheatConfig) (rd : Reading) : bool :=
  (0 <? Anticheat.pos_osc_max a) && (Anticheat.pos_osc_max a <=? pos_osc rd).
Definition pos_far_cheat (a : Anticheat.AnticheatConfig) (rd : Reading) : bool :=
  (0 <? Anticheat.pos_far_min a) && (Anticheat.pos_far_min a <=? far rd)
  && (as_u32 (fresh_total rd * Z.max (Z.min (Anticheat.pos_far_pct a) 100) 1) <=? as_u32 (far rd * 100))
  && low_mutuality a rd.

Definition suspicious (a : Anticheat.AnticheatConfig) (active : Z) (rd : Reading) : bool :=
  talk_cheat a active rd || spy a rd || pos_spoof a rd || pos_far_cheat a rd.

(** [parts.join(" + ")]. *)
Definition reason_of (a : Anticheat.AnticheatConfig) (active : Z) (rd : Reading) : string :=
  String.concat " + "
    ((if talk_cheat a active rd then ["talk map-wide (mutualité faible)"%string] else [])
     ++ (if spy a rd then ["listen map-wide (espionnage)"%string] else [])
     ++ (if pos_spoof a rd then ["spoof position (oscillation multi-lieux)"%string] else [])
     ++ (if pos_far_cheat a rd then ["cibles hors de portée (position incohérente)"%string] else [])).

(** ** Sanctions *)

(** The embed sent to the webhook: its variable parts. *)
Record Embed := mkEmbed {
  timestamp : string;
  field_player : string;
  field_client : string;
  field_reason : string;
  field_reach : string;
  field_score : string;
  field_action : string;
  field_date : string;
  field_server : string;
}.

Definition WEBHOOK_COOLDOWN : Z := secs 60.

(** [Display] of an unsigned integer. *)
Definition show (n : Z) : string := pretty n.

Definition mut_s (rd : Reading) : string := if mutuality rd =? 255 then "n/a" else show (mutuality rd) +:+ "%".

Definition make_embed (a : Anticheat.AnticheatConfig) (c : Client.Client) (rd : Reading) (active : Z)
    (reason : string) (epoch : Z) : Embed :=
  let exempt := Client.ac_exempt (Client.ac c) in
  {| timestamp := iso8601_now epoch;
     field_player := Client.get_name c;
     field_client := Client.id_version_release (Client.identity c);
     field_reason := reason;
     field_reach := show (reach rd) +:+ "/" +:+ show active +:+ " joueurs, mut " +:+ mut_s rd;
     field_score := show (listens rd) +:+ " / " +:+ show (Client.ac_score (Client.ac c));
     field_action := Anticheat.action_name (Anticheat.action a) +:+ (if exempt then " (exempt)" else "");
     field_date := match find (iso8601_now epoch) "T" with
                   | Some pos => String.substring 0 pos (iso8601_now epoch)
                   | None => iso8601_now epoch
                   end +:+ " " +:+ hms_now epoch;
     field_server := match Anticheat.panel_url a with
                     | Some p => "[Ouvrir le panel](" +:+ p +:+ ")" +:+ of_bytes [10] +:+ "`"
                                 +:+ Anticheat.server_label a +:+ "`"
                     | None => "`" +:+ Anticheat.server_label a +:+ "`"
                     end |}.

(** The line of the log ring. *)
Definition log_line (a : Anticheat.AnticheatConfig) (c : Client.Client) (rd : Reading) (active : Z)
    (reason : string) (epoch : Z) : string :=
  hms_now epoch +:+ " " +:+ Client.get_name c +:+ " — " +:+ reason +:+ " — reach " +:+ show (reach rd)
  +:+ "/" +:+ show active +:+ ", mut " +:+ mut_s rd +:+ ", listens " +:+ show (listens rd)
  +:+ " (score " +:+ show (Client.ac_score (Client.ac c)) +:+ ") → "
  +:+ (if Client.ac_exempt (Client.ac c) then "exempt" else Anticheat.action_name (Anticheat.action a)).

Section flagging.
Context `{SerdeJson (list BanList.BanEntry)}.

(** The action of the configuration on a client that is not exempt. *)
Definition punish (st : ServerState) (r : ClientRef) (c : Client.Client) (reason : string) (epoch : Z) : ServerState :=
  let action := Anticheat.action (anticheat st) in
  if action =? Anticheat.ACTION_MUTE then upd_client st r (fun c => Client.set_mute c true)
  else if action =? Anticheat.ACTION_KICK then
    add_client_to_disconnect_queue st (Client.session_id c) Anticheat
  else if action =? Anticheat.ACTION_BAN then
    let '(bl, f) := BanList.add (bans st) (fs st) "ban" (Some (Client.peer_ip c))
                      (Some (BanList.name_part (Client.get_name c))) (Client.get_name c)
                      ("ban auto anticheat : " +:+ reason) epoch in
    add_client_to_disconnect_queue (set_fs (set_bans st bl) f) (Client.session_id c) Anticheat
  else st.

Definition flag (st : ServerState) (r : ClientRef) (rd : Reading) (active : Z) (reason : string) (now epoch : Z)
    : ServerState * list (string * Embed) :=
  match heap st !! r with
  | None => (st, [])
  | Some c =>
    if since now (Client.ac_last_flag (Client.ac c)) <? Anticheat.FLAG_COOLDOWN then (st, []) else
    let s := Client.set_ac_last_flag (Client.ac c) now in
    let c := Client.set_ac c (Client.set_ac_flags s (as_u32 (Client.ac_flags s + 1))) in
    let a := Anticheat.push_log (anticheat st) (log_line (anticheat st) c rd active reason epoch) in
    let '(c, posts) :=
      match Anticheat.webhook a with
      | Some url =>
        if WEBHOOK_COOLDOWN <=? since now (Client.ac_last_webhook (Client.ac c))
        then (Client.set_ac c (Client.set_ac_last_webhook (Client.ac c) now),
              [(url, make_embed a c rd active reason epoch)])
        else (c, [])
      | None => (c, [])
      end in
    let st := set_anticheat (set_heap st (<[r := c]> (heap st))) a in
    if Client.ac_exempt (Client.ac c) then (st, posts) else (punish st r c reason epoch, posts)
  end.

(** ** The evaluation *)

(** Strikes of one client and what follows from them. *)
Definition strike (st : ServerState) (r : ClientRef) (rd : Reading) (active : Z) (now epoch : Z)
    : ServerState * list (string * Embed) :=
  match heap st !! r with
  | None => (st, [])
  | Some c =>
    let a := anticheat st in
    let s := Client.ac c in
    if suspicious a active rd then
      let strikes := as_u32 (Client.ac_strikes s + 1) in
      let c := Client.set_ac c (Client.set_ac_strikes s strikes) in
      if Z.max (Anticheat.strikes_required a) 1 <=? strikes then
        let metric := Z.max (Z.max (Z.max (reach rd) (listens rd)) (far rd)) (pos_osc rd) in
        let s := Client.ac c in
        let c := Client.set_ac c (Client.set_ac_score s (as_u64 (Client.ac_score s + metric))) in
        flag (set_heap st (<[r := c]> (heap st))) r rd active (reason_of a active rd) now epoch
      else (set_heap st (<[r := c]> (heap st)), [])
    else
      let c := if 0 <? Client.ac_strikes s
               then Client.set_ac c (Client.set_ac_strikes s (Client.ac_strikes s - 1)) else c in
      (set_heap st (<[r := c]> (heap st)), [])
  end.

Definition evaluate (env : Env) (now epoch : Z) (acc : ServerState * list (string * Embed)) (p : nat * Snap)
    : ServerState * list (string * Embed) :=
  let '(st, posts) := acc in
  let '(my_idx, s) := p in
  match heap st !! snap_ref s with
  | None => acc
  | Some c =>
    let rd := read_client (anticheat st) env now my_idx s c in
    let st := set_heap st (<[snap_ref s := store_reading (anticheat st) now rd c]> (heap st)) in
    let active := as_u32 (Z.of_nat (length (env_snaps env))) in
    let '(st, more) := strike st (snap_ref s) rd active now epoch in
    (st, posts ++ more)
  end.

Definition sample `{HashIter} (st : ServerState) (now epoch : Z) : ServerState * list (string * Embed) :=
  if negb (Anticheat.enabled (anticheat st)) then (st, []) else
  let env := make_env st now in
  fold_left (evaluate env now epoch) (imap pair (env_snaps env)) (st, []).
End flagging.

(** ** The snapshot on disk *)

Section flushing.
Context `{HashIter} `{SerdeJson Anticheat.PersistedHeard}.

(** [Path::with_extension("tmp")] on a path that ends in a file name: the part from the last dot of the name is replaced,
    unless that dot comes first. *)
Fixpoint strip_extension (rev_path : list Z) : option (list Z) :=
  match rev_path with
  | [] => None
  | b :: rest =>
    if b =? 47 then None
    else if b =? 46 then
      match rest with
      | [] => None
      | b' :: _ => if b' =? 47 then None else Some (rev rest)
      end
    else strip_extension rest
  end.
Definition with_extension_tmp (path : string) : string :=
  of_bytes (default (as_bytes path) (strip_extension (rev (as_bytes path)))) +:+ ".tmp".

Example with_extension_sample :
  with_extension_tmp "/data/heard.json" = "/data/heard.tmp"%string /\ with_extension_tmp "x.d/heard" = "x.d/heard.tmp"%string.
Proof. split; reflexivity. Qed.

(** [fs::rename] onto a writable path. *)
Definition rename_file (f : FileSystem) (from to : string) : FileSystem :=
  match read_file f from with
  | Some data =>
    if writable f to then
      {| files := fun p => if bool_decide (p = to) then Some data
                           else if bool_decide (p = from) then None else files f p;
         writable := writable f |}
    else f
  | None => f
  end.

(** The lists of one client that are still worth keeping. *)
Definition persist_entry (now now_epoch : Z) (e : Client.HeardEntry) : Anticheat.PersistedHeardEntry :=
  Anticheat.mkPersistedHeardEntry (Client.heard_session_id e) (Client.heard_name e) (Client.heard_ip e)
    (Z.max 0 (now_epoch - as_secs (since now (Client.heard_last e)))) (Client.heard_secs_total e).
Definition persist_client (a : Anticheat.AnticheatConfig) (now now_epoch : Z) (c : Client.Client)
    : gmap string Anticheat.PersistedHeardEntry :=
  persist_entry now now_epoch
    <$> retain (fun _ e => as_secs (since now (Client.heard_last e)) <=? Anticheat.retention a)
          (Client.ac_heard (Client.ac c)).

Definition persist_all (st : ServerState) (now now_epoch : Z) : Anticheat.PersistedHeard :=
  let out := fold_left (fun out p =>
    match heap st !! p.2 with
    | Some c =>
      let lists := persist_client (anticheat st) now now_epoch c in
      if bool_decide (lists = ∅) then out else <[BanList.name_part (Client.get_name c) := lists]> out
    | None => out
    end) (hash_iter (clients st)) ∅ in
  fold_left (fun out p => insert_new p.1 p.2 out) (hash_iter (Anticheat.heard_seed (anticheat st))) out.

(** A failed write leaves the rename out. *)
Definition flush_heard (st : ServerState) (now now_epoch : Z) : ServerState :=
  match Anticheat.heard_file (anticheat st) with
  | None => st
  | Some path =>
    if negb (Anticheat.enabled (anticheat st)) then st else
    let json := to_json (persist_all st now now_epoch) in
    let tmp := with_extension_tmp path in
    if writable (fs st) tmp then set_fs st (rename_file (write_file (fs st) tmp json) tmp path)
    else st
  end.

(** One turn of [run_sampler], with its tick counter. *)
Definition run_sampler `{SerdeJson (list BanList.BanEntry)} (st : ServerState) (ticks now epoch : Z)
    : ServerState * Z * list (string * Embed) :=
  let '(st, posts) := sample st now epoch in
  let ticks := as_u32 (ticks + 1) in
  let st := if ticks mod Anticheat.HEARD_FLUSH_EVERY =? 0 then flush_heard st now epoch else st in
  (st, ticks, posts).
End flushing.
End Sampler.
