(* ===== verification/SamplerProps.v ===== *)
(** Properties of the periodic evaluation: what it measures, whom it spares, what it may do. *)

From stdpp Require Import base gmap strings list pretty.
From Stdlib Require Import ZArith Lia.
From S2P Require Import Prelude Errors Maps Text Float32 Voice Messages Crypt Proto Calendar Bans Client Anticheat.
From S2P Require Import State StateInv StateProps Handlers HandlerInv HandlerProps Sampler.
Import ServerState Sampler.

(** ** The snapshot *)

Section snapshot_lemmas.
Context `{HashIterLaws}.

Lemma push_members_spec cid l m k x :
  x ∈ default [] (fold_left (push_member cid) l m !! k) <-> x ∈ default [] (m !! k) \/ (k = cid /\ x ∈ l).
Proof.
  revert m. induction l as [|y l IH]; intros m; cbn [fold_left].
  - split; [by left|]. intros [Hx|[_ Hx]]; [done|by apply not_elem_of_nil in Hx].
  - rewrite IH. unfold push_member. destruct (decide (k = cid)) as [->|Hk].
    + rewrite lookup_insert_eq. cbn. unfold id. rewrite elem_of_app, list_elem_of_singleton, elem_of_cons. tauto.
    + rewrite lookup_insert_ne by congruence. tauto.
Qed.

Lemma fold_left_fmap {A B C} (f : C -> B -> C) (g : A -> B) l c :
  fold_left (fun c a => f c (g a)) l c = fold_left f (g <$> l) c.
Proof. revert c. induction l as [|a l IH]; intros c; [done|]. apply IH. Qed.

Lemma fold_left_pair {A B C} (f : A -> C -> A) (g : B -> C -> B) l a b :
  fold_left (fun acc c => (f acc.1 c, g acc.2 c)) l (a, b) = (fold_left f l a, fold_left g l b).
Proof. revert a b. induction l as [|c l IH]; intros a b; [done|]. apply IH. Qed.

Lemma scan_channel_split m n p :
  scan_channel (m, n) p =
  (fold_left (push_member (Channel.id p.2)) ((hash_iter (Channel.clients p.2)).*1 ++ (hash_iter (Channel.listeners p.2)).*1) m,
   fold_left count_listen (hash_iter (Channel.listeners p.2)).*1 n).
Proof.
  unfold scan_channel.
  rewrite (fold_left_pair (fun m q => push_member (Channel.id p.2) m q.1) (fun n q => count_listen n q.1)).
  by rewrite !(fold_left_fmap _ fst), fold_left_app.
Qed.

Lemma elem_of_keys {A} (m : gmap Z A) x : x ∈ (hash_iter m).*1 <-> is_Some (m !! x).
Proof.
  rewrite list_elem_of_fmap. split.
  - intros ([k a] & -> & Hin%elem_of_hash_iter). by eexists.
  - intros [a Ha]. exists (x, a). split; [done|by apply elem_of_hash_iter].
Qed.

(** The sessions a channel reaches. *)
Definition present (ch : Channel) (x : Z) : Prop :=
  is_Some (Channel.clients ch !! x) \/ is_Some (Channel.listeners ch !! x).

Lemma scan_members_spec (l : list (Z * Channel)) acc k x :
  x ∈ default [] ((fold_left scan_channel l acc).1 !! k) <->
  x ∈ default [] (acc.1 !! k) \/ exists p, p ∈ l /\ Channel.id p.2 = k /\ present p.2 x.
Proof.
  revert acc. induction l as [|p l IH]; intros [m n]; cbn [fold_left].
  - split; [by left|]. intros [Hx|(p & Hp & _)]; [done|by apply not_elem_of_nil in Hp].
  - rewrite IH, scan_channel_split. cbn [fst]. rewrite push_members_spec, elem_of_app, !elem_of_keys.
    setoid_rewrite elem_of_cons. unfold present. split.
    + intros [[Hx|[-> Hx]]|(q & Hq & Hr)]; [by left|right; by exists p; auto|right; exists q; auto].
    + intros [Hx|(q & [->|Hq] & <- & Hr)]; [by left; left|left; right; auto|right; exists q; auto].
Qed.

Lemma count_listen_ne n s x : x <> s -> count_listen n s !! x = n !! x.
Proof. intros Hne. unfold count_listen. by rewrite lookup_insert_ne. Qed.

Lemma count_listens_spec l n x :
  NoDup l ->
  default 0 (fold_left count_listen l n !! x) =
  if bool_decide (x ∈ l) then as_u32 (default 0 (n !! x) + 1) else default 0 (n !! x).
Proof.
  revert n. induction l as [|s l IH]; intros n Hnd; [done|]. apply NoDup_cons in Hnd as [Hs Hnd].
  cbn [fold_left]. rewrite IH by done. destruct (decide (x = s)) as [->|Hx].
  - rewrite bool_decide_eq_false_2, bool_decide_eq_true_2 by (done || by left). unfold count_listen.
    by rewrite lookup_insert_eq.
  - rewrite count_listen_ne by done. assert (x ∈ l <-> x ∈ s :: l) as Hiff
      by (rewrite elem_of_cons; split; [by right|by intros [->|]]).
    by rewrite (bool_decide_ext _ _ Hiff).
Qed.

Definition listening_to (x : Z) (p : Z * Channel) : bool := bool_decide (is_Some (Channel.listeners p.2 !! x)).

Lemma scan_listens_spec (l : list (Z * Channel)) acc x :
  default 0 (acc.2 !! x) = as_u32 (default 0 (acc.2 !! x)) ->
  default 0 ((fold_left scan_channel l acc).2 !! x) =
  as_u32 (default 0 (acc.2 !! x) + Z.of_nat (length (List.filter (listening_to x) l))).
Proof.
  revert acc. induction l as [|p l IH]; intros [m n] Hu; cbn [fold_left List.filter length snd] in *.
  - by rewrite Z.add_0_r.
  - rewrite scan_channel_split. pose proof (NoDup_hash_iter (Channel.listeners p.2)) as Hnd.
    pose proof (count_listens_spec _ n x Hnd) as Hc.
    assert (x ∈ (hash_iter (Channel.listeners p.2)).*1 <-> is_Some (Channel.listeners p.2 !! x)) as Hiff by apply elem_of_keys.
    rewrite (bool_decide_ext _ _ Hiff) in Hc. fold (listening_to x p) in Hc.
    rewrite IH; cbn [snd]; rewrite Hc; destruct (listening_to x p); cbn [length]; try done.
    + unfold as_u32, wrap. rewrite Zplus_mod_idemp_l. f_equal. lia.
    + unfold as_u32, wrap. by rewrite Zmod_mod.
Qed.

Lemma take_snaps_spec st s :
  s ∈ take_snaps st <->
  exists k r c, clients st !! k = Some r /\ heap st !! r = Some c /\ s = snap_of r c.
Proof.
  unfold take_snaps. rewrite list_elem_of_omap. split.
  - intros ([k r] & Hin%elem_of_hash_iter & Hs). cbn in Hs. apply fmap_Some in Hs as (c & Hc & ->). eauto 6.
  - intros (k & r & c & Hk & Hc & ->). exists (k, r). split; [by apply elem_of_hash_iter|]. cbn. by rewrite Hc.
Qed.

Lemma index_sessions_spec (l : list Snap) (n : nat) (m : gmap Z nat) (x : Z) :
  let res := (fold_left (fun acc s => (S acc.1, <[snap_session s := acc.1]> acc.2)) l (n, m)).2 in
  (is_Some (m !! x) \/ x ∈ snap_session <$> l -> is_Some (res !! x))
  /\ (forall i, res !! x = Some i ->
        m !! x = Some i \/ exists j s, l !! j = Some s /\ snap_session s = x /\ i = (n + j)%nat).
Proof.
  revert n m. induction l as [|s l IH]; intros n m; cbn [fold_left fmap list_fmap fst snd].
  - split; [|by left]. intros [Hx|Hx]; [done|by apply not_elem_of_nil in Hx].
  - specialize (IH (S n) (<[snap_session s := n]> m)). destruct IH as [I1 I2]. split.
    + rewrite elem_of_cons. intros Hx. apply I1. destruct (decide (snap_session s = x)) as [->|Hne].
      * left. rewrite lookup_insert_eq. by eexists.
      * rewrite lookup_insert_ne by done. destruct Hx as [Hx|[Hx|Hx]]; [by left|congruence|by right].
    + intros i Hi. destruct (I2 i Hi) as [Hm|(j & s' & Hj & Hs' & ->)].
      * destruct (decide (snap_session s = x)) as [Hx|Hne].
        -- subst x. rewrite lookup_insert_eq in Hm. injection Hm as <-. right. exists 0%nat, s. split; [done|]. split; [done|lia].
        -- rewrite lookup_insert_ne in Hm by done. by left.
      * right. exists (S j), s'. split; [done|]. split; [done|lia].
Qed.

(** The snapshot found under a session is the one of the client connected under it. *)
Lemma index_lookup st x :
  state_inv st ->
  match index_sessions (take_snaps st) !! x ≫= fun i => take_snaps st !! i with
  | Some o => exists r c, clients st !! x = Some r /\ heap st !! r = Some c /\ o = snap_of r c
  | None => clients st !! x = None
  end.
Proof.
  intros Hinv. unfold index_sessions. destruct (index_sessions_spec (take_snaps st) 0 ∅ x) as [I1 I2].
  destruct (snd _ !! x) as [i|]; cbn.
  - destruct (I2 i eq_refl) as [[=]|(j & s & Hj & Hs & ->)]. cbn. rewrite Hj.
    apply list_elem_of_lookup_2, take_snaps_spec in Hj as (k & r & c & Hk & Hc & ->).
    destruct (si_clients _ Hinv k r Hk) as [_ (c' & Hc' & Hid)]. cbn in Hs.
    assert (k = x) as -> by congruence. eauto.
  - destruct (clients st !! x) as [r|] eqn:Hr; [|done]. destruct (si_clients _ Hinv x r Hr) as [_ (c & Hc & Hid)].
    assert (is_Some (None (A := nat))) as [? [=]]. apply I1. right.
    apply list_elem_of_fmap. exists (snap_of r c). split; [done|]. apply take_snaps_spec. eauto 6.
Qed.

Lemma fold_union_dom {A} (f : VoiceTarget -> gmap Z A) (l : list VoiceTarget) (acc : gset Z) x :
  x ∈ fold_left (fun acc slot => acc ∪ dom (f slot)) l acc <->
  x ∈ acc \/ exists slot, slot ∈ l /\ is_Some (f slot !! x).
Proof.
  revert acc. induction l as [|t l IH]; intros acc; cbn [fold_left].
  - split; [by left|]. intros [Hx|(t & Ht & _)]; [done|by apply not_elem_of_nil in Ht].
  - rewrite IH, elem_of_union, elem_of_dom. setoid_rewrite elem_of_cons. split.
    + intros [[Hx|Hx]|(t' & Ht & Hx)]; [by left|right; exists t; auto|right; exists t'; auto].
    + intros [Hx|(t' & [->|Ht] & Hx)]; [by left; left|by left; right|right; exists t'; auto].
Qed.
End snapshot_lemmas.

(** ** What the evaluation measures *)

(** [x] is a session that the targets of [c] reach: named by a slot, or in a channel that a slot names. *)
Definition aimed_at (st : ServerState) (c : Client.Client) (x : Z) : Prop :=
  exists slot, slot ∈ Client.targets c
  /\ (is_Some (sessions slot !! x)
      \/ exists k ch, is_Some (target_channels slot !! k) /\ channels st !! k = Some ch /\ present ch x).

(** The client connected under [x] has [c], or the channel of [c], in one of its targets. *)
Definition aims_back (st : ServerState) (c : Client.Client) (x : Z) : Prop :=
  exists r o slot, clients st !! x = Some r /\ heap st !! r = Some o /\ slot ∈ Client.targets o
  /\ (is_Some (sessions slot !! Client.session_id c) \/ is_Some (target_channels slot !! Client.channel_id c)).

Section measures.
Context `{HashIterLaws}.

Lemma make_env_eq st now :
  make_env st now = {|
    env_members := (scan_channels st).1;
    env_listens := (scan_channels st).2;
    env_snaps := take_snaps st;
    env_index := index_sessions (take_snaps st);
    env_pos := (fun s => c ← heap st !! snap_ref s; fresh_pos now c) <$> take_snaps st |}.
Proof. unfold make_env. by destruct (scan_channels st). Qed.

Lemma members_spec st now k x :
  state_inv st ->
  x ∈ default [] (env_members (make_env st now) !! k) <-> exists ch, channels st !! k = Some ch /\ present ch x.
Proof.
  intros Hinv. rewrite make_env_eq. cbn [env_members]. unfold scan_channels. rewrite scan_members_spec. split.
  - intros [Hx|([k' ch] & Hin%elem_of_hash_iter & Hid & Hp)]; [by apply not_elem_of_nil in Hx|].
    destruct (si_channels _ Hinv k' ch Hin) as [_ Hk]. cbn in *. subst. eauto.
  - intros (ch & Hch & Hp). right. exists (k, ch). split; [by apply elem_of_hash_iter|].
    split; [apply (si_channels _ Hinv k ch Hch)|done].
Qed.

Lemma reached_spec st now r c x :
  state_inv st ->
  x ∈ reached (make_env st now) (snap_of r c) <-> x <> Client.session_id c /\ aimed_at st c x.
Proof.
  intros Hinv. unfold reached, reached_chan, aimed_at. cbn [snap_session snap_sesss snap_chans snap_of].
  rewrite elem_of_union, !elem_of_list_to_set, !list_elem_of_In, !filter_In, <-!list_elem_of_In.
  rewrite elem_of_elements, fold_union_dom, negb_true_iff, Z.eqb_neq, list_elem_of_bind.
  setoid_rewrite elem_of_elements. setoid_rewrite fold_union_dom. setoid_rewrite members_spec; [|done]. split.
  - intros [[[Hx|(t & Ht & Hx)] Hne]|[(k & (ch & Hk & Hp) & [Hx|(t & Ht & Hx)]) Hne]];
      try by apply elem_of_empty in Hx.
    + eauto.
    + split; [done|]. exists t. split; [done|right]. eauto.
  - intros (Hne & t & Ht & [Hx|(k & ch & Hk & Hch & Hp)]); [left|right]; (split; [|done]).
    + right. eauto.
    + exists k. split; [eauto|]. right. eauto.
Qed.

Lemma targets_back_spec st now r c x :
  state_inv st -> targets_back (make_env st now) (snap_of r c) x = true <-> aims_back st c x.
Proof.
  intros Hinv. unfold targets_back, aims_back. rewrite make_env_eq. cbn [env_index env_snaps].
  pose proof (index_lookup st x Hinv) as Hi. destruct (_ ≫= _) as [o|].
  - destruct Hi as (r' & c' & Hr & Hc & ->). cbn [snap_session snap_chan snap_sesss snap_chans snap_of].
    rewrite orb_true_iff, !bool_decide_eq_true, !fold_union_dom. split.
    + intros [[Hx|(t & Ht & Hx)]|[Hx|(t & Ht & Hx)]]; try by apply elem_of_empty in Hx.
      all: exists r', c', t; auto.
    + intros (r'' & o & t & Hr' & Ho & Ht & Hx). assert (r'' = r') as -> by congruence.
      assert (o = c') as -> by congruence. destruct Hx as [Hx|Hx]; [left|right]; right; eauto.
  - split; [done|]. intros (r' & o & t & Hr & _). congruence.
Qed.
End measures.

Lemma size_filter_elements (P : Z -> bool) (X Y : gset Z) :
  (forall x, x ∈ Y <-> x ∈ X /\ P x = true) -> length (List.filter P (elements X)) = size Y.
Proof.
  intros HY. assert (Y = list_to_set (List.filter P (elements X))) as ->.
  { apply set_eq. intros x. rewrite HY, elem_of_list_to_set, !list_elem_of_In, filter_In, <-list_elem_of_In.
    by rewrite elem_of_elements. }
  symmetry. apply size_list_to_set. apply NoDup_ListNoDup, List.NoDup_filter, NoDup_ListNoDup, NoDup_elements.
Qed.

Lemma read_exact `{HashIterLaws} st r c i now (X Y : gset Z) :
  state_inv st ->
  (forall x, x ∈ X <-> x <> Client.session_id c /\ aimed_at st c x) ->
  (forall x, x ∈ Y <-> x ∈ X /\ aims_back st c x) ->
  Z.of_nat (size X) * 100 < 2 ^ 32 ->
  let rd := read_client (anticheat st) (make_env st now) now i (snap_of r c) c in
  reach_instant rd = Z.of_nat (size X)
  /\ mutuality rd = (if decide (X = ∅) then 255 else Z.of_nat (size Y) * 100 / Z.of_nat (size X)).
Proof.
  intros Hinv HX HY Hsz rd.
  assert (reached (make_env st now) (snap_of r c) = X) as HR.
  { apply set_eq. intros x. rewrite HX. by apply reached_spec. }
  assert (length (List.filter (targets_back (make_env st now) (snap_of r c)) (elements X)) = size Y) as HB.
  { apply size_filter_elements. intros x. by rewrite HY, targets_back_spec. }
  assert (size Y <= size X)%nat as Hle by (apply subseteq_size; intros x Hx%HY; apply Hx).
  unfold rd, read_client. destruct (far_targets _ _ _ _) as [fa fr]. cbn [reach_instant mutuality listens].
  unfold mutuality_of. rewrite HR, HB. split.
  - apply as_u32_small. unfold in_u. lia.
  - case_bool_decide as He; [by rewrite decide_True|]. rewrite decide_False by done.
    assert (size X <> 0%nat) as Hnz by (rewrite size_empty_iff; set_solver).
    rewrite !as_u32_small by (unfold in_u; rewrite ?as_u32_small by (unfold in_u; lia); lia). f_equal. lia.
Qed.

(** C23.  The evaluation measures what it says: for a connected client, [reach_instant] is the number of distinct other
    sessions its voice targets reach, through sessions or through the members and listeners of channels;
    [mutuality] is the integer percentage of those whose own targets reach it back, 255 when it reaches
    nobody; [listens] is the number of channels it listens to. *)
Theorem reading_exact `{HashIterLaws} (st : ServerState) (s : Z) (r : ClientRef) (c : Client.Client)
    (i : nat) (now : Z) (X Y : gset Z) :
  state_inv st -> clients st !! s = Some r -> heap st !! r = Some c ->
  (forall x, x ∈ X <-> x <> Client.session_id c /\ aimed_at st c x) ->
  (forall x, x ∈ Y <-> x ∈ X /\ aims_back st c x) ->
  Z.of_nat (size X) * 100 < 2 ^ 32 ->
  let rd := read_client (anticheat st) (make_env st now) now i (snap_of r c) c in
  reach_instant rd = Z.of_nat (size X)
  /\ mutuality rd = (if decide (X = ∅) then 255 else Z.of_nat (size Y) * 100 / Z.of_nat (size X))
  /\ listens rd = as_u32 (Z.of_nat (length (List.filter (listening_to s) (hash_iter (channels st))))).
Proof.
  intros Hinv Hs Hc HX HY Hsz rd. destruct (si_clients _ Hinv s r Hs) as [_ (c' & Hc' & Hid)].
  assert (c' = c) as -> by congruence.
  destruct (read_exact st r c i now X Y Hinv HX HY Hsz) as [E1 E2]. split; [exact E1|]. split; [exact E2|].
  unfold rd, read_client. destruct (far_targets _ _ _ _) as [fa fr]. cbn [listens].
  rewrite make_env_eq. cbn [env_listens snap_session snap_of]. rewrite Hid. unfold scan_channels.
  by rewrite scan_listens_spec.
Qed.

(** ** What the evaluation may do to a client *)

(** The cooldown passed and the client is not exempt. *)
Definition punishable (now : Z) (c : Client.Client) : bool :=
  (Anticheat.FLAG_COOLDOWN <=? since now (Client.ac_last_flag (Client.ac c))) && negb (Client.ac_exempt (Client.ac c)).

(** What this tick reads of the client is suspicious: one of the four detectors fires. *)
Definition suspect (a : Anticheat.AnticheatConfig) (env : Env) (now : Z) (i : nat) (s : Snap) (c : Client.Client) : bool :=
  suspicious a (as_u32 (Z.of_nat (length (env_snaps env)))) (read_client a env now i s c).

(** The count of strikes after a tick: one more when the client is suspect, one less, never below zero, when it is not.  A tick
    that clears the client does not reset the count. *)
Definition struck (suspected : bool) (n : Z) : Z := if suspected then as_u32 (n + 1) else if 0 <? n then n - 1 else n.

(** Three strikes after two suspect ticks, a clear one and two suspect ones. *)
Example struck_not_consecutive : fold_left (fun n b => struck b n) [true; true; false; true; true] 0 = 3.
Proof. reflexivity. Qed.

(** The client is suspect, this tick brings its strikes to the number that the configuration asks for (at least one), its
    cooldown passed and it is not exempt.  The suspect ticks need not follow one another. *)
Definition guilty (a : Anticheat.AnticheatConfig) (env : Env) (now : Z) (i : nat) (s : Snap) (c : Client.Client) : bool :=
  suspect a env now i s c
  && (Z.max (Anticheat.strikes_required a) 1 <=? as_u32 (Client.ac_strikes (Client.ac c) + 1))
  && punishable now c.

Definition kicks (a : Anticheat.AnticheatConfig) : bool :=
  (Anticheat.action a =? Anticheat.ACTION_KICK) || (Anticheat.action a =? Anticheat.ACTION_BAN).

(** The entry an automatic ban adds. *)
Definition auto_ban (c : Client.Client) (e : BanList.BanEntry) : Prop :=
  BanList.kind e = "ban"%string /\ BanList.ip e = Some (Client.peer_ip c)
  /\ BanList.name e = Some (BanList.name_part (Client.get_name c)).

(** How one client's turn changes the state, [hit] telling whether it is sanctioned and [n] how many strikes it has then. *)
Record sanctioned (st st' : ServerState) (r : ClientRef) (c : Client.Client) (hit : bool) (n : Z) : Prop := {
  sa_heap : exists c', heap st' = <[r := c']> (heap st) /\ same_client c c'
    /\ Client.mute c' = Client.mute c || (hit && (Anticheat.action (anticheat st) =? Anticheat.ACTION_MUTE))
    /\ Client.ac_strikes (Client.ac c') = n;
  sa_queue : disconnect_queue st' =
    if hit && kicks (anticheat st) then insert_new (Client.session_id c) Anticheat (disconnect_queue st)
    else disconnect_queue st;
  sa_bans : if hit && (Anticheat.action (anticheat st) =? Anticheat.ACTION_BAN)
            then exists e, auto_ban c e /\ BanList.bans (bans st') = BanList.bans (bans st) ++ [e]
            else bans st' = bans st;
  sa_config : exists l, anticheat st' = Anticheat.set_logs (anticheat st) l;
  sa_shape : clients st' = clients st /\ active_clients st' = active_clients st /\ channels st' = channels st
    /\ clients_without_udp st' = clients_without_udp st /\ clients_by_socket st' = clients_by_socket st
    /\ next_ref st' = next_ref st /\ session_count st' = session_count st /\ channel_count st' = channel_count st
    /\ metrics st' = metrics st;
}.

Section sanctions.
Context `{SerdeJson (list BanList.BanEntry)}.

(** Storing a client whose sanction-relevant fields are the same, before or instead of the sanction. *)
Lemma sanctioned_store st st' r c c1 hit n :
  heap st !! r = Some c -> same_client c c1 -> Client.mute c1 = Client.mute c ->
  sanctioned (set_heap st (<[r := c1]> (heap st))) st' r c1 hit n -> sanctioned st st' r c hit n.
Proof.
  intros Hc [Hid Hu] Hm [(c' & E & [Hid' Hu'] & Hm' & Hn) Hq Hb Hcf Hsh].
  assert (Client.session_id c1 = Client.session_id c) as Hs by (unfold Client.session_id; congruence).
  split; cbn in *.
  - exists c'. rewrite E, insert_insert_eq. split; [done|]. split; [split; congruence|]. split; [by rewrite Hm', Hm|done].
  - by rewrite Hq, Hs.
  - revert Hb. destruct (hit && (Anticheat.action (anticheat st) =? Anticheat.ACTION_BAN)); [|tauto]. intros (e & (K1 & K2 & K3) & K4). exists e. split; [|done].
    unfold auto_ban, Client.peer_ip, Client.get_name in *. rewrite Hid in *. done.
  - done.
  - done.
Qed.

Lemma sanctioned_none st r c c1 :
  heap st !! r = Some c -> same_client c c1 -> Client.mute c1 = Client.mute c ->
  sanctioned st (set_heap st (<[r := c1]> (heap st))) r c false (Client.ac_strikes (Client.ac c1)).
Proof.
  intros Hc Hs Hm. split; try done.
  - exists c1. by rewrite Hm, orb_false_r.
  - exists (Anticheat.logs (anticheat st)). cbn. by destruct (anticheat st).
Qed.

Lemma punish_spec st r c reason epoch :
  heap st !! r = Some c -> sanctioned st (punish st r c reason epoch) r c true (Client.ac_strikes (Client.ac c)).
Proof.
  intros Hc. assert (<[r := c]> (heap st) = heap st) as Hid by (by apply insert_id).
  assert (exists l, anticheat st = Anticheat.set_logs (anticheat st) l) as Hl
    by (exists (Anticheat.logs (anticheat st)); by destruct (anticheat st)).
  unfold punish, kicks. destruct (Z.eqb_spec (Anticheat.action (anticheat st)) Anticheat.ACTION_MUTE) as [Ea|Ea].
  { split; unfold kicks; rewrite ?Ea; try done. exists (Client.set_mute c true). cbn. split; [|by rewrite orb_true_r].
    apply map_eq. intros r'. destruct (decide (r = r')) as [<-|Hr].
    - by rewrite lookup_alter_eq, Hc, lookup_insert_eq.
    - by rewrite lookup_alter_ne, lookup_insert_ne. }
  assert ((Anticheat.action (anticheat st) =? Anticheat.ACTION_MUTE) = false) as Em by (by apply Z.eqb_neq).
  destruct (Z.eqb_spec (Anticheat.action (anticheat st)) Anticheat.ACTION_KICK) as [Ek|Ek];
    [|destruct (Z.eqb_spec (Anticheat.action (anticheat st)) Anticheat.ACTION_BAN) as [Eb|Eb]].
  - split; unfold kicks; rewrite ?Em, ?Ek; try done. exists c. cbn. by rewrite Hid, orb_false_r.
  - split; unfold kicks; rewrite ?Em, ?Eb; try done; [exists c; cbn; by rewrite Hid, orb_false_r|].
    cbn. eexists. by split; [|done].
  - apply Z.eqb_neq in Ek, Eb.
    split; unfold kicks; rewrite ?Em, ?Ek, ?Eb; try done. exists c. by rewrite Hid, orb_false_r.
Qed.

Lemma flag_spec st r c rd active reason now epoch :
  heap st !! r = Some c ->
  sanctioned st (fst (flag st r rd active reason now epoch)) r c (punishable now c) (Client.ac_strikes (Client.ac c)).
Proof.
  intros Hc. unfold flag, punishable. rewrite Hc, (Z.leb_antisym _ Anticheat.FLAG_COOLDOWN).
  destruct (since now _ <? _); cbn [negb andb fst].
  { pose proof (sanctioned_none st r c c Hc (reflexivity c) eq_refl) as Hs.
    rewrite insert_id in Hs by done. destruct st. exact Hs. }
  set (c1 := Client.set_ac c (Client.set_ac_flags _ _)). set (a := Anticheat.push_log _ _).
  set (hook := match Anticheat.webhook a with Some _ => _ | None => _ end).
  assert (same_client c hook.1 /\ Client.mute hook.1 = Client.mute c
    /\ Client.ac_exempt (Client.ac hook.1) = Client.ac_exempt (Client.ac c)
    /\ Client.ac_strikes (Client.ac hook.1) = Client.ac_strikes (Client.ac c)) as (K1 & K2 & K3 & K4)
    by (subst hook; by destruct (Anticheat.webhook a); [case_if|]).
  destruct hook as [c2 posts]. cbn [fst] in *. rewrite K3, <-K4.
  set (st1 := set_anticheat (set_heap st (<[r := c2]> (heap st))) a).
  assert (forall st' hit n, sanctioned st1 st' r c2 hit n -> sanctioned st st' r c hit n) as Hback.
  { intros st' hit n [B1 B2 B3 [l B4] B5]. eapply sanctioned_store; [done|exact K1|exact K2|].
    split; [exact B1|exact B2|exact B3| |exact B5]. exists l. rewrite B4. cbn. unfold a, Anticheat.push_log. by destruct (anticheat st). }
  destruct (Client.ac_exempt (Client.ac c)); cbn [negb fst]; apply Hback.
  - pose proof (sanctioned_none st1 r c2 c2 ltac:(cbn; by rewrite lookup_insert_eq) (reflexivity c2) eq_refl) as Hs.
    rewrite insert_id in Hs by (cbn; by rewrite lookup_insert_eq). exact Hs.
  - apply punish_spec. cbn. by rewrite lookup_insert_eq.
Qed.

Lemma strike_spec st r c rd active now epoch :
  heap st !! r = Some c ->
  sanctioned st (fst (strike st r rd active now epoch)) r c
    (suspicious (anticheat st) active rd
     && (Z.max (Anticheat.strikes_required (anticheat st)) 1 <=? as_u32 (Client.ac_strikes (Client.ac c) + 1))
     && punishable now c)
    (struck (suspicious (anticheat st) active rd) (Client.ac_strikes (Client.ac c))).
Proof.
  intros Hc. unfold strike, struck. rewrite Hc. destruct (suspicious _ _ _); [destruct (_ <=? _)|]; cbn [andb].
  - set (c1 := Client.set_ac _ _). eapply (sanctioned_store _ _ _ _ c1); [done|done|done|].
    apply (flag_spec (set_heap st (<[r := c1]> (heap st))) r c1). cbn. by rewrite lookup_insert_eq.
  - set (c1 := Client.set_ac _ _). by apply (sanctioned_none st r c c1).
  - case_if; by apply (sanctioned_none st r c).
Qed.

Lemma evaluate_spec env now epoch st posts i r c :
  heap st !! r = Some c ->
  sanctioned st (fst (evaluate env now epoch (st, posts) (i, snap_of r c))) r c
    (guilty (anticheat st) env now i (snap_of r c) c)
    (struck (suspect (anticheat st) env now i (snap_of r c) c) (Client.ac_strikes (Client.ac c))).
Proof.
  intros Hc. cbn [evaluate]. change (snap_ref (snap_of r c)) with r. rewrite Hc. cbv zeta.
  set (rd := read_client _ _ _ _ _ _). set (c1 := store_reading _ _ _ _).
  pose proof (strike_spec (set_heap st (<[r := c1]> (heap st))) r c1 rd
    (as_u32 (Z.of_nat (length (env_snaps env)))) now epoch ltac:(cbn; by rewrite lookup_insert_eq)) as Hs.
  destruct (strike _ _ _ _ _ _) as [st' more]. cbn [fst] in *.
  eapply (sanctioned_store _ _ _ _ c1); [done|done|done|]. exact Hs.
Qed.

(** A turn reads the configuration but not its log. *)
Lemma suspect_logs a l env now i s c : suspect (Anticheat.set_logs a l) env now i s c = suspect a env now i s c.
Proof. by destruct a. Qed.
Lemma guilty_logs a l env now i s c : guilty (Anticheat.set_logs a l) env now i s c = guilty a env now i s c.
Proof. by destruct a. Qed.

Definition turns (st : ServerState) (L : list (nat * Snap)) : Prop :=
  NoDup (snap_ref ∘ snd <$> L)
  /\ forall i s, (i, s) ∈ L -> exists c, heap st !! snap_ref s = Some c /\ s = snap_of (snap_ref s) c.

(** The clients of [L] that are guilty, as the state was before their turn. *)
Definition convicted (env : Env) (now : Z) (st : ServerState) (L : list (nat * Snap)) (r : ClientRef)
    (c : Client.Client) : Prop :=
  heap st !! r = Some c
  /\ exists i, (i, snap_of r c) ∈ L /\ guilty (anticheat st) env now i (snap_of r c) c = true.

Record outcome (env : Env) (now : Z) (st st' : ServerState) (L : list (nat * Snap)) : Prop := {
  oc_heap r c : heap st !! r = Some c -> exists c', heap st' !! r = Some c' /\ same_client c c'
    /\ (Client.mute c' = true <-> Client.mute c = true
        \/ (Anticheat.action (anticheat st) = Anticheat.ACTION_MUTE /\ convicted env now st L r c))
    /\ (forall i, (i, snap_of r c) ∈ L -> Client.ac_strikes (Client.ac c') =
          struck (suspect (anticheat st) env now i (snap_of r c) c) (Client.ac_strikes (Client.ac c)))
    /\ ((forall i, (i, snap_of r c) ∉ L) -> Client.ac_strikes (Client.ac c') = Client.ac_strikes (Client.ac c));
  oc_queue x : is_Some (disconnect_queue st' !! x) <-> is_Some (disconnect_queue st !! x)
    \/ (kicks (anticheat st) = true /\ exists r c, convicted env now st L r c /\ Client.session_id c = x);
  oc_bans e : e ∈ BanList.bans (bans st') -> e ∈ BanList.bans (bans st)
    \/ (Anticheat.action (anticheat st) = Anticheat.ACTION_BAN
        /\ exists r c, convicted env now st L r c /\ auto_ban c e);
  oc_banned r c : convicted env now st L r c -> Anticheat.action (anticheat st) = Anticheat.ACTION_BAN ->
    exists e, e ∈ BanList.bans (bans st') /\ auto_ban c e;
  oc_kept e : e ∈ BanList.bans (bans st) -> e ∈ BanList.bans (bans st');
}.

Lemma outcome_nil env now st : outcome env now st st [].
Proof.
  assert (forall r c, ~ convicted env now st [] r c) as Hn by (intros r c (_ & i & Hin & _); by apply not_elem_of_nil in Hin).
  split.
  - intros r c Hc. exists c. split; [done|]. split; [done|]. split; [split; [by left|]; intros [Hm|[_ []%Hn]]; done|].
    split; [|done]. by intros i ?%not_elem_of_nil.
  - intros x. split; [by left|]. intros [Hx|(_ & r & c & []%Hn & _)]; done.
  - by left.
  - intros r c []%Hn.
  - done.
Qed.

Lemma turns_cons st st1 i0 r0 c0 hit n L :
  turns st ((i0, snap_of r0 c0) :: L) -> sanctioned st st1 r0 c0 hit n ->
  turns st1 L /\ forall i s, (i, s) ∈ L -> snap_ref s <> r0 /\ heap st1 !! snap_ref s = heap st !! snap_ref s.
Proof.
  intros [Hnd HL] [(c' & E & _) _ _ _ _]. rewrite fmap_cons in Hnd. apply NoDup_cons in Hnd as [Hn Hnd].
  assert (forall i s, (i, s) ∈ L -> snap_ref s <> r0 /\ heap st1 !! snap_ref s = heap st !! snap_ref s) as Hne.
  { intros i s Hin. assert (snap_ref s <> r0) as Hr.
    { intros E1. apply Hn. apply list_elem_of_fmap. exists (i, s). cbn. by split. }
    split; [done|]. by rewrite E, lookup_insert_ne. }
  split; [|done]. split; [done|]. intros i s Hin. rewrite (proj2 (Hne i s Hin)). apply (HL i). by right.
Qed.

Lemma convicted_cons env now st st1 i0 r0 c0 n L r c :
  turns st ((i0, snap_of r0 c0) :: L) -> heap st !! r0 = Some c0 ->
  sanctioned st st1 r0 c0 (guilty (anticheat st) env now i0 (snap_of r0 c0) c0) n ->
  convicted env now st ((i0, snap_of r0 c0) :: L) r c <->
  (r = r0 /\ c = c0 /\ guilty (anticheat st) env now i0 (snap_of r0 c0) c0 = true) \/ convicted env now st1 L r c.
Proof.
  intros Ht Hc0 Hs. destruct (turns_cons _ _ _ _ _ _ _ _ Ht Hs) as [_ Hne]. destruct (sa_config _ _ _ _ _ _ Hs) as [l El].
  unfold convicted. rewrite El. setoid_rewrite guilty_logs. split.
  - intros (Hc & i & Hin & Hg). apply elem_of_cons in Hin as [Heq|Hin].
    + left. pose proof (f_equal fst Heq) as Ei. pose proof (f_equal (snap_ref ∘ snd) Heq) as Er. cbn in Ei, Er. subst i r.
      assert (c = c0) as -> by congruence. done.
    + right. destruct (Hne i _ Hin) as [_ E]. cbn in E. split; [by rewrite E|eauto].
  - intros [(-> & -> & Hg)|(Hc & i & Hin & Hg)].
    + split; [done|]. exists i0. split; [by left|done].
    + destruct (Hne i _ Hin) as [_ E]. cbn in E. split; [by rewrite <-E|]. exists i. split; [by right|done].
Qed.

Lemma outcome_cons env now st st1 st' i0 r0 c0 L :
  turns st ((i0, snap_of r0 c0) :: L) -> heap st !! r0 = Some c0 ->
  sanctioned st st1 r0 c0 (guilty (anticheat st) env now i0 (snap_of r0 c0) c0)
    (struck (suspect (anticheat st) env now i0 (snap_of r0 c0) c0) (Client.ac_strikes (Client.ac c0))) ->
  outcome env now st1 st' L -> outcome env now st st' ((i0, snap_of r0 c0) :: L).
Proof.
  intros Ht Hc0 Hs [O1 O2 O3 O4 O5].
  pose proof (fun r c => convicted_cons env now st st1 i0 r0 c0 _ L r c Ht Hc0 Hs) as Hcv.
  destruct (turns_cons _ _ _ _ _ _ _ _ Ht Hs) as [_ Hne].
  set (g := guilty _ _ _ _ _ _) in *. clearbody g. destruct Hs as [(c1 & E1 & Hsame & Hm1 & Hn1) Eq Eb [l El] _].
  assert (Anticheat.action (anticheat st1) = Anticheat.action (anticheat st)) as Ea by (by rewrite El).
  assert (kicks (anticheat st1) = kicks (anticheat st)) as Ek by (by rewrite El). rewrite Ea, ?Ek in *.
  assert (forall P, (exists r c, convicted env now st ((i0, snap_of r0 c0) :: L) r c /\ P c)
    <-> (g = true /\ P c0) \/ exists r c, convicted env now st1 L r c /\ P c) as Hex.
  { intros P. setoid_rewrite Hcv. split.
    - intros (r & c & [(-> & -> & Hg)|Hc] & HP); [by left|right; eauto].
    - intros [[Hg HP]|(r & c & Hc & HP)]; [exists r0, c0; auto|exists r, c; auto]. }
  split.
  - intros r c Hc. destruct (decide (r = r0)) as [->|Hr].
    + assert (c = c0) as -> by congruence. destruct (O1 r0 c1) as (c' & Hc' & Hs' & Hm' & _ & Hi'); [by rewrite E1, lookup_insert_eq|].
      exists c'. split; [done|]. split; [destruct Hsame, Hs'; split; congruence|].
      rewrite Hi' by (intros i Hin; by destruct (Hne i _ Hin)). split; [rewrite Hm', Hm1, Hcv|].
      2:{ split; [|intros Hno; by destruct (Hno i0); left]. intros i [Heq|Hin]%elem_of_cons; [|by destruct (Hne i _ Hin)].
          pose proof (f_equal fst Heq) as Ei. cbn in Ei. by subst i. }
      rewrite orb_true_iff, andb_true_iff, Z.eqb_eq.
      assert (~ convicted env now st1 L r0 c0 /\ ~ convicted env now st1 L r0 c1) as [N0 N1]
        by (split; intros (_ & i & Hin & _); by destruct (Hne i _ Hin)).
      intuition auto.
    + destruct (O1 r c) as (c' & Hc' & Hs' & Hm' & Hn' & Hi'); [by rewrite E1, lookup_insert_ne|].
      exists c'. split; [done|]. split; [done|]. split; [rewrite Hm', Hcv; tauto|]. rewrite El in Hn'. split.
      * intros i [Heq|Hin]%elem_of_cons; [by pose proof (f_equal (snap_ref ∘ snd) Heq)|]. rewrite (Hn' i Hin). by rewrite suspect_logs.
      * intros Hno. apply Hi'. intros i Hin. apply (Hno i). by right.
  - intros x. rewrite O2, Eq, (Hex (fun c => Client.session_id c = x)).
    destruct g, (kicks _); cbn [andb]; try (intuition congruence).
    rewrite lookup_insert_new. case_decide as Hx; [|tauto]. split; [tauto|]. intros _. left. by eexists.
  - intros e He. rewrite (Hex (fun c => auto_ban c e)). apply O3 in He as [He|He]; [|tauto].
    destruct g, (Z.eqb_spec (Anticheat.action (anticheat st)) Anticheat.ACTION_BAN); cbn [andb] in Eb; rewrite ?Eb in He; auto.
    destruct Eb as (e1 & Ha & Eb). rewrite Eb in He. apply elem_of_app in He as [He| ->%list_elem_of_singleton]; [by left|].
    auto.
  - intros r c [(-> & -> & ->)|Hcv']%Hcv Eb'; [|by apply (O4 r c)].
    rewrite Eb' in Eb. cbn in Eb. destruct Eb as (e & Ha & Eb). exists e. split; [|done]. apply O5. rewrite Eb.
    apply elem_of_app. right. by left.
  - intros e He. apply O5. revert Eb.
    destruct (g && (Anticheat.action (anticheat st) =? Anticheat.ACTION_BAN)); [|by intros ->]. intros (e0 & _ & ->). apply elem_of_app. by left.
Qed.

Lemma evaluate_all_spec env now epoch L st posts :
  turns st L -> outcome env now st (fst (fold_left (evaluate env now epoch) L (st, posts))) L.
Proof.
  revert st posts. induction L as [|[i0 s0] L IH]; intros st posts Ht; [apply outcome_nil|].
  destruct (proj2 Ht i0 s0 ltac:(by left)) as (c0 & Hc0 & E). set (r0 := snap_ref s0) in *. rewrite E in Ht |- *. clear E.
  pose proof (evaluate_spec env now epoch st posts i0 r0 c0 Hc0) as Hs. cbn [fold_left].
  destruct (evaluate env now epoch (st, posts) _) as [st1 posts1]. cbn [fst] in Hs.
  eapply outcome_cons; [done|done|exact Hs|]. apply IH. by eapply turns_cons.
Qed.
End sanctions.

(** ** The whole evaluation *)

Lemma sanctioned_same st st' r c hit n : heap st !! r = Some c -> sanctioned st st' r c hit n -> same_shape st st'.
Proof.
  intros Hc [(c' & E & Hs & _) _ _ _ (E1 & E2 & E3 & E4 & E5 & E6 & E7 & E8 & E9)]. split; try done; [by rewrite E9|].
  intros r'. rewrite E. destruct (decide (r = r')) as [<-|Hr].
  - by rewrite Hc, lookup_insert_eq.
  - rewrite lookup_insert_ne by done. by destruct (heap st !! r').
Qed.

Section evaluation.
Context `{HashIterLaws} `{SerdeJson (list BanList.BanEntry)}.

Lemma take_snaps_turns st : state_inv st -> turns st (imap pair (take_snaps st)).
Proof.
  intros Hinv. assert (snap_ref <$> take_snaps st = (hash_iter (clients st)).*2) as Hrefs.
  { unfold take_snaps. assert (forall p, p ∈ hash_iter (clients st) -> is_Some (heap st !! p.2)) as Hall.
    { intros [k r] Hin%elem_of_hash_iter. destruct (si_clients _ Hinv k r Hin) as [_ (c & Hc & _)]. by eexists. }
    induction (hash_iter (clients st)) as [|[k r] l IH]; [done|]. cbn -[fmap].
    destruct (Hall (k, r) ltac:(by left)) as [c Hc]. cbn in Hc. rewrite Hc. cbn. f_equal.
    apply IH. intros p Hp. apply Hall. by right. }
  assert (snap_ref ∘ snd <$> imap pair (take_snaps st) = snap_ref <$> take_snaps st) as Himap.
  { rewrite fmap_imap. generalize (take_snaps st). intros l.
    apply list_eq. intros i. rewrite list_lookup_imap, list_lookup_fmap. by destruct (l !! i). }
  split.
  - rewrite Himap, Hrefs. apply (hash_iter_refs_nodup st). apply (si_clients _ Hinv).
  - intros i s Hin. apply elem_of_lookup_imap in Hin as (j & x & [= -> ->] & Hj).
    apply list_elem_of_lookup_2, take_snaps_spec in Hj as (k & r & c & _ & Hc & ->). by exists c.
Qed.

Lemma evaluate_all_same env now epoch L st posts :
  turns st L -> same_shape st (fst (fold_left (evaluate env now epoch) L (st, posts))).
Proof.
  revert st posts. induction L as [|[i0 s0] L IH]; intros st posts Ht; [done|].
  destruct (proj2 Ht i0 s0 ltac:(by left)) as (c0 & Hc0 & E). set (r0 := snap_ref s0) in *. rewrite E in Ht |- *. clear E.
  pose proof (evaluate_spec env now epoch st posts i0 r0 c0 Hc0) as Hs. cbn [fold_left].
  destruct (evaluate env now epoch (st, posts) _) as [st1 posts1]. cbn [fst] in Hs.
  etransitivity; [by eapply sanctioned_same|]. apply IH. by eapply turns_cons.
Qed.

Lemma sample_inv st now epoch : state_inv st -> state_inv (fst (sample st now epoch)).
Proof.
  intros Hinv. unfold sample. case_if; [done|]. eapply same_shape_inv; [|done].
  apply evaluate_all_same. rewrite make_env_eq. by apply take_snaps_turns.
Qed.

End evaluation.

(** C17.  Sanctions fall on the guilty and on nobody else: in one evaluation, a client is muted, queued for
    disconnection or banned exactly when the configured action says so and it is suspect in this reading, its strikes
    reach the configured number with this tick, its cooldown passed and it is not exempt; nobody is ever unmuted,
    dequeued or unbanned, and every new ban names a guilty client's address and name.  The strikes of every evaluated
    client go up by one when it is suspect and down by one, not below zero, when it is not, so that the suspect ticks
    that lead to a sanction need not be consecutive; the strikes of the others stay. *)
Theorem sample_sanctions_guilty `{HashIterLaws} `{SerdeJson (list BanList.BanEntry)} (st : ServerState) (now epoch : Z) :
  state_inv st -> Anticheat.enabled (anticheat st) = true ->
  let st' := fst (sample st now epoch) in
  let condemned r c := exists i, env_snaps (make_env st now) !! i = Some (snap_of r c) /\ heap st !! r = Some c
                         /\ guilty (anticheat st) (make_env st now) now i (snap_of r c) c = true in
  (forall r c, heap st !! r = Some c -> exists c', heap st' !! r = Some c'
     /\ (Client.mute c' = true <-> Client.mute c = true
         \/ (Anticheat.action (anticheat st) = Anticheat.ACTION_MUTE /\ condemned r c))
     /\ (forall i, env_snaps (make_env st now) !! i = Some (snap_of r c) -> Client.ac_strikes (Client.ac c') =
           struck (suspect (anticheat st) (make_env st now) now i (snap_of r c) c) (Client.ac_strikes (Client.ac c)))
     /\ ((forall i, env_snaps (make_env st now) !! i <> Some (snap_of r c)) ->
           Client.ac_strikes (Client.ac c') = Client.ac_strikes (Client.ac c)))
  /\ (forall s, is_Some (disconnect_queue st' !! s) <-> is_Some (disconnect_queue st !! s)
      \/ (kicks (anticheat st) = true /\ exists r c, condemned r c /\ Client.session_id c = s))
  /\ (forall e, e ∈ BanList.bans (bans st) -> e ∈ BanList.bans (bans st'))
  /\ (forall e, e ∈ BanList.bans (bans st') -> e ∈ BanList.bans (bans st)
      \/ (Anticheat.action (anticheat st) = Anticheat.ACTION_BAN /\ exists r c, condemned r c /\ auto_ban c e))
  /\ (forall r c, condemned r c -> Anticheat.action (anticheat st) = Anticheat.ACTION_BAN ->
      exists e, e ∈ BanList.bans (bans st') /\ auto_ban c e).
Proof.
  intros Hinv Hen st' condemned.
  assert (forall r c, convicted (make_env st now) now st (imap pair (env_snaps (make_env st now))) r c <-> condemned r c) as Hiff.
  { intros r c. unfold convicted, condemned. split.
    - intros (Hc & i & Hin & Hg). apply elem_of_lookup_imap in Hin as (j & x & [= <- <-] & Hj). eauto.
    - intros (i & Hi & Hc & Hg). split; [done|]. exists i. split; [|done]. by apply (elem_of_lookup_imap_2 pair). }
  assert (outcome (make_env st now) now st st' (imap pair (env_snaps (make_env st now)))) as [O1 O2 O3 O4 O5].
  { unfold st', sample. rewrite Hen. cbn [negb]. apply evaluate_all_spec. rewrite make_env_eq. by apply take_snaps_turns. }
  setoid_rewrite Hiff in O1. setoid_rewrite Hiff in O2. setoid_rewrite Hiff in O3. setoid_rewrite Hiff in O4.
  split_and!; [|done..]. intros r c Hc. destruct (O1 r c Hc) as (c' & Hc' & _ & Hm & Hn & Hi). exists c'. split_and!; [done..| |].
  - intros i Hi'. apply Hn. by apply (elem_of_lookup_imap_2 pair).
  - intros Hno. apply Hi. intros i Hin. apply elem_of_lookup_imap in Hin as (j & x & [= <- <-] & Hj). by apply (Hno i).
Qed.

(** The first user of the sample has the second in a target and is not targeted back; one strike is enough. *)
Definition sample_cheat : ServerState :=
  let a := Anticheat.set_action (Anticheat.set_strikes_required (Anticheat.set_min_recipients sample_anticheat 1) 1)
             Anticheat.ACTION_MUTE in
  upd_client (set_anticheat sample_server a) 0%nat (fun c =>
    Client.set_targets c (<[0%nat := mkVoiceTarget {[ 2 := tt ]} ∅]> (Client.targets c))).

Lemma set_anticheat_inv st a : state_inv st -> state_inv (set_anticheat st a).
Proof.
  intros Hinv. eapply same_shape_inv; [|exact Hinv]. split; try done. intros r. cbn. by destruct (heap st !! r).
Qed.

Lemma sample_cheat_inv : state_inv sample_cheat.
Proof. apply upd_client_inv; [done|]. apply set_anticheat_inv, sample_server_inv. Qed.

Lemma sample_sanctions_guilty_witness :
  exists c, heap (fst (@sample bits_json canonical_iter sample_cheat (secs 10) 0)) !! 0%nat = Some c
    /\ Client.mute c = true /\ Client.ac_strikes (Client.ac c) = 1.
Proof.
  destruct (heap sample_cheat !! 0%nat) as [c|] eqn:Hc; [|vm_compute in Hc; discriminate].
  destruct (@sample_sanctions_guilty canonical_iter canonical_iter_laws bits_json sample_cheat (secs 10) 0
    sample_cheat_inv eq_refl) as (H1 & _).
  destruct (H1 0%nat c Hc) as (c' & Hc' & Hm & Hn & _). exists c'. split; [exact Hc'|].
  assert (env_snaps (@make_env canonical_iter sample_cheat (secs 10)) !! 1%nat = Some (snap_of 0%nat c)
    /\ suspect (anticheat sample_cheat) (@make_env canonical_iter sample_cheat (secs 10)) (secs 10) 1 (snap_of 0%nat c) c = true
    /\ guilty (anticheat sample_cheat) (@make_env canonical_iter sample_cheat (secs 10)) (secs 10) 1 (snap_of 0%nat c) c = true
    /\ Client.ac_strikes (Client.ac c) = 0) as (K1 & K2 & K3 & K4)
    by (vm_compute in Hc; injection Hc as <-; split_and!; vm_compute; reflexivity).
  split; [|rewrite (Hn 1%nat K1), K2, K4; reflexivity].
  apply Hm. right. split; [reflexivity|]. exists 1%nat. split; [exact K1|]. split; [exact Hc|exact K3].
Defined.

Lemma reading_exact_witness :
  exists rd, reach_instant rd = 1 /\ mutuality rd = 0 /\ listens rd = 0.
Proof.
  destruct (heap sample_cheat !! 0%nat) as [c|] eqn:Hc; [|vm_compute in Hc; discriminate].
  set (env := @make_env canonical_iter sample_cheat 0).
  set (X := reached env (snap_of 0%nat c)).
  set (Y := list_to_set (List.filter (targets_back env (snap_of 0%nat c)) (elements X)) : gset Z).
  pose proof (@reading_exact canonical_iter canonical_iter_laws sample_cheat 1 0%nat c 0%nat 0 X Y
    sample_cheat_inv eq_refl Hc) as H.
  assert (size X = 1%nat /\ size Y = 0%nat /\ bool_decide (X = ∅) = false) as (E1 & E2 & E3)
    by (subst X Y env; vm_compute in Hc; injection Hc as <-; vm_compute; auto).
  exists (read_client (anticheat sample_cheat) env 0 0 (snap_of 0%nat c) c).
  destruct H as (H1 & H2 & H3).
  - intros x. apply (@reached_spec canonical_iter canonical_iter_laws), sample_cheat_inv.
  - intros x. unfold Y. rewrite elem_of_list_to_set, list_elem_of_In, filter_In, <-list_elem_of_In, elem_of_elements.
    unfold env. rewrite (@targets_back_spec canonical_iter canonical_iter_laws sample_cheat 0 0%nat c x sample_cheat_inv).
    reflexivity.
  - rewrite E1. reflexivity.
  - fold env in H1, H2, H3. rewrite H1, H2, H3, E1, E2. apply bool_decide_eq_false in E3. rewrite decide_False by exact E3.
    split; [reflexivity|]. split; [reflexivity|]. vm_compute. reflexivity.
Defined.

(** ** The crowd *)

(** C32.  A crowd is not a cheat: a client whose every target aims back at it is never suspected of talking
    map-wide nor of out of reach targets, whatever its reach, as long as the configured
    mutuality is below a hundred. *)
Theorem crowd_is_innocent `{HashIterLaws} (st : ServerState) (s : Z) (r : ClientRef) (c : Client.Client)
    (i : nat) (now active : Z) (X : gset Z) :
  state_inv st -> clients st !! s = Some r -> heap st !! r = Some c ->
  (forall x, x ∈ X <-> x <> Client.session_id c /\ aimed_at st c x) ->
  (forall x, x ∈ X -> aims_back st c x) ->
  Z.of_nat (size X) * 100 < 2 ^ 32 -> Anticheat.mutuality_max_pct (anticheat st) < 100 ->
  let rd := read_client (anticheat st) (make_env st now) now i (snap_of r c) c in
  talk_cheat (anticheat st) active rd = false /\ pos_far_cheat (anticheat st) rd = false.
Proof.
  intros Hinv Hs Hc HX Hb Hsz Hmax rd.
  assert (low_mutuality (anticheat st) rd = false) as Hlow.
  { unfold low_mutuality. assert (mutuality rd = if decide (X = ∅) then 255 else 100) as ->.
    { assert (forall x, x ∈ X <-> x ∈ X /\ aims_back st c x) as HY by (intros x; split; [auto|tauto]).
      destruct (read_exact st r c i now X X Hinv HX HY Hsz) as [_ E]. fold rd in E. rewrite E. case_decide; [done|].
      assert (size X <> 0%nat) by (rewrite size_empty_iff; set_solver). rewrite Z.mul_comm, Z.div_mul; lia. }
    case_decide; [done|]. cbn. apply Z.leb_gt. lia. }
  unfold talk_cheat, pos_far_cheat. by rewrite Hlow, !andb_false_r.
Qed.

(** Both users of the sample target each other. *)
Definition sample_crowd : ServerState :=
  upd_client sample_cheat 1%nat (fun c =>
    Client.set_targets c (<[3%nat := mkVoiceTarget {[ 1 := tt ]} ∅]> (Client.targets c))).

Lemma crowd_is_innocent_witness :
  exists rd, talk_cheat (anticheat sample_crowd) 2 rd = false /\ reach_instant rd = 1.
Proof.
  assert (state_inv sample_crowd) as Hinv by (apply upd_client_inv; [split; reflexivity|apply sample_cheat_inv]).
  destruct (heap sample_crowd !! 0%nat) as [c|] eqn:Hc; [|vm_compute in Hc; discriminate].
  set (env := @make_env canonical_iter sample_crowd 0). set (X := reached env (snap_of 0%nat c)).
  assert (size X = 1%nat /\ forallb (targets_back env (snap_of 0%nat c)) (elements X) = true
    /\ reach_instant (read_client (anticheat sample_crowd) env 0 0 (snap_of 0%nat c) c) = 1) as (E1 & E2 & E3)
    by (subst X env; vm_compute in Hc; injection Hc as <-; vm_compute; auto).
  exists (read_client (anticheat sample_crowd) env 0 0 (snap_of 0%nat c) c). split; [|exact E3].
  apply (@crowd_is_innocent canonical_iter canonical_iter_laws sample_crowd 1 0%nat c 0%nat 0 2 X Hinv eq_refl Hc).
  - intros x. apply (@reached_spec canonical_iter canonical_iter_laws), Hinv.
  - intros x Hx. apply (@targets_back_spec canonical_iter canonical_iter_laws sample_crowd 0 0%nat c x Hinv).
    rewrite forallb_forall in E2. apply E2, list_elem_of_In, elem_of_elements, Hx.
  - rewrite E1. reflexivity.
  - reflexivity.
Defined.

(** ** The memory of speakers on disk *)

Section persistence.
Context `{HashIterLaws}.

Lemma fold_insert_new_keeps {K A} `{Countable K} (l : list (K * A)) (acc : gmap K A) k a :
  acc !! k = Some a -> fold_left (fun m p => insert_new p.1 p.2 m) l acc !! k = Some a.
Proof.
  revert acc. induction l as [|[k' a'] l IH]; intros acc Ha; [done|]. apply IH. rewrite lookup_insert_new.
  cbn. case_decide as Hk; [subst; by rewrite Ha|done].
Qed.

Lemma fold_insert_new_fresh {K A B} `{Countable K} (f : A -> B) (m : gmap K A) (acc : gmap K B) k a :
  acc !! k = None -> m !! k = Some a ->
  fold_left (fun h p => insert_new p.1 (f p.2) h) (hash_iter m) acc !! k = Some (f a).
Proof.
  intros Hn Ha. assert (forall l (acc : gmap K B), NoDup l.*1 -> (k, a) ∈ l -> acc !! k = None ->
    fold_left (fun h p => insert_new p.1 (f p.2) h) l acc !! k = Some (f a)) as Hgen.
  { clear acc Hn. induction l as [|[k' a'] l IH]; intros acc Hnd Hin Hn; [by apply not_elem_of_nil in Hin|].
    apply NoDup_cons in Hnd as [Hk' Hnd]. apply elem_of_cons in Hin as [[= <- <-]|Hin]; cbn [fold_left fst snd].
    - assert (forall l (acc : gmap K B), acc !! k = Some (f a) ->
        fold_left (fun h p => insert_new p.1 (f p.2) h) l acc !! k = Some (f a)) as Hkeep.
      { clear. induction l as [|[k' a'] l IH]; intros acc Ha; [done|]. apply IH. rewrite lookup_insert_new.
        cbn. case_decide as Hk; [subst; by rewrite Ha|done]. }
      apply Hkeep. rewrite lookup_insert_new, decide_True by done. by rewrite Hn.
    - apply IH; [done|done|]. rewrite lookup_insert_new, decide_False; [done|]. intros ->.
      apply Hk', list_elem_of_fmap. by exists (k, a). }
  apply Hgen; [apply NoDup_hash_iter|by apply elem_of_hash_iter|done].
Qed.

(** The list of a client with a name of its own is on record under that name. *)
Lemma persist_all_own st now epoch s r c :
  clients st !! s = Some r -> heap st !! r = Some c ->
  (forall s' r' c', clients st !! s' = Some r' -> heap st !! r' = Some c' ->
     BanList.name_part (Client.get_name c') = BanList.name_part (Client.get_name c) -> r' = r) ->
  persist_client (anticheat st) now epoch c <> ∅ ->
  persist_all st now epoch !! BanList.name_part (Client.get_name c) = Some (persist_client (anticheat st) now epoch c).
Proof.
  intros Hs Hc Huniq Hne. unfold persist_all. apply fold_insert_new_keeps.
  set (step := fun out p => _). set (key := BanList.name_part (Client.get_name c)).
  set (lists := persist_client (anticheat st) now epoch c) in *.
  assert (forall l acc, (forall p, p ∈ l -> clients st !! p.1 = Some p.2) ->
    acc !! key = Some lists \/ (s, r) ∈ l -> fold_left step l acc !! key = Some lists) as Hgen.
  { induction l as [|[k r'] l IH]; intros acc Hl Hin; [destruct Hin as [Hin|Hin]; [done|by apply not_elem_of_nil in Hin]|].
    cbn [fold_left]. apply IH; [intros p Hp; apply Hl; by right|]. rewrite elem_of_cons in Hin. unfold step. cbn [snd].
    assert (acc !! key = Some lists \/ r' = r \/ (s, r) ∈ l) as [Ha|[->|Hin']]
      by (destruct Hin as [Hin|[[= <- <-]|Hin]]; auto).
    - left. destruct (heap st !! r') as [c'|] eqn:Hc'; [|done]. case_bool_decide; [done|].
      destruct (decide (BanList.name_part (Client.get_name c') = key)) as [E|E]; [|by rewrite lookup_insert_ne].
      assert (r' = r) as -> by (eapply Huniq; [apply (Hl (k, r')); by left|done|done]).
      assert (c' = c) as -> by congruence. by rewrite lookup_insert_eq.
    - left. rewrite Hc. fold lists. rewrite bool_decide_eq_false_2 by done. by rewrite lookup_insert_eq.
    - by right. }
  apply Hgen; [|right; by apply elem_of_hash_iter]. intros [k r'] Hp. by apply elem_of_hash_iter in Hp.
Qed.
End persistence.

(** An entry through the file: its age on the wall clock, when that is past the epoch and the platform can tell the instant. *)
Lemma revive_persisted e now epoch now2 epoch2 :
  let age := as_secs (since now (Client.heard_last e)) in
  age <= epoch -> secs (- 2 ^ 63) <= now2 - secs (Z.max 0 (age + (epoch2 - epoch))) ->
  Anticheat.revive now2 epoch2 (persist_entry now epoch e)
  = Client.mkHeardEntry (Client.heard_session_id e) (Client.heard_name e) (Client.heard_ip e)
      (now2 - secs (Z.max 0 (age + (epoch2 - epoch)))) (Client.heard_secs_total e).
Proof.
  intros age Hage Hleast. unfold Anticheat.revive, persist_entry. cbn -[secs]. fold age.
  replace (Z.max 0 (epoch2 - Z.max 0 (epoch - age))) with (Z.max 0 (age + (epoch2 - epoch))) by lia.
  by rewrite (proj2 (Z.leb_le _ _) Hleast).
Qed.


#[global] Instance PersistedHeardEntry_eq_dec : EqDecision Anticheat.PersistedHeardEntry.
Proof. solve_decision. Defined.
#[global] Instance PersistedHeardEntry_countable : Countable Anticheat.PersistedHeardEntry.
Proof.
  apply (inj_countable' (fun e => (Anticheat.p_session_id e, Anticheat.p_name e, Anticheat.p_ip e,
      Anticheat.p_epoch e, Anticheat.p_secs e))
    (fun '(s, n, i, t, d) => Anticheat.mkPersistedHeardEntry s n i t d)). by intros [].
Defined.

Definition heard_json : SerdeJson Anticheat.PersistedHeard :=
  @bits_json (gmap string (gmap string Anticheat.PersistedHeardEntry)) _ _.

(** Bob spoke to Ann for five seconds, a minute before the snapshot; the server is back a minute later. *)
Definition sample_entry : Client.HeardEntry := Client.mkHeardEntry 2 "[2] Bob" "10.0.0.1" 0 5.
Definition sample_heard : ServerState :=
  upd_client (set_anticheat sample_server (Anticheat.set_heard_file sample_anticheat (Some "heard.json"%string))) 0%nat
    (fun c => Client.set_ac c (Client.set_ac_heard (Client.ac c) {[ "Bob"%string := sample_entry ]})).

