(* ===== verification/Http.v ===== *)
(** The HTTP API: the endpoints of [src/src/http/anticheat.rs], [mute.rs], [deaf.rs] and [status.rs], the routes of
    [mod.rs] and the authentication of [axum_auth_wrapper.rs].

    Routing, header parsing and JSON are the work of axum and serde: a request is already decoded, one
    constructor per route, and a response is the value before it is serialised. *)

From stdpp Require Import base gmap strings list sorting pretty.
From Stdlib Require Import ZArith Lia.
From S2P Require Import Prelude Errors Maps Text Float32 Crypt Messages Bans Client Anticheat State.
Import ServerState.

Module Http.

Definition IP_REDACTED : string := "xx.xx.xx.xx".

Inductive StatusCode := OK | BAD_REQUEST | UNAUTHORIZED | NOT_FOUND.

(** ** Responses *)

Record AnticheatClient := mkAnticheatClient {
  c_session_id : Z;
  c_name : string;
  c_ip : string;
  c_version : string;
  c_release : string;
  c_os : string;
  c_channel_id : Z;
  c_reach_instant : Z;
  c_reach_window : Z;
  c_mutuality : Z;
  c_listens : Z;
  c_has_pos : bool;
  c_pos : f32 * f32 * f32;
  c_pos_jumps : Z;
  c_max_speed : f32;
  c_far_targets : Z;
  c_score : Z;
  c_flags : Z;
  c_muted : bool;
  c_exempt : bool;
}.

Record AnticheatStatus := mkAnticheatStatus {
  s_enabled : bool;
  s_threshold_pct : Z;
  s_min_recipients : Z;
  s_mutuality_max_pct : Z;
  s_window_secs : Z;
  s_strikes_required : Z;
  s_listen_max : Z;
  s_pos_osc_dist : Z;
  s_pos_osc_max : Z;
  s_pos_far_dist : Z;
  s_pos_far_min : Z;
  s_pos_far_pct : Z;
  s_heard_secs : Z;
  s_server_label : string;
  s_hide_ips : bool;
  s_action : string;
  s_webhook : option string;
  s_panel_url : option string;
  s_connected : Z;
  s_clients : list AnticheatClient;
  s_logs : list string;
  s_bans : list BanList.BanEntry;
}.

Record HeardItem := mkHeardItem {
  i_session_id : Z;
  i_name : string;
  i_ip : string;
  i_ago_secs : Z;
  i_secs : Z;
}.

Record HeardResponse := mkHeardResponse {
  h_session_id : Z;
  h_name : string;
  h_retention_secs : Z;
  h_heard : list HeardItem;
}.

Record MumbleTarget := mkMumbleTarget {
  t_sessions : gset Z;
  t_channels : gset Z;
}.

Record MumbleClient := mkMumbleClient {
  m_name : string;
  m_session_id : Z;
  m_channel : option string;
  m_mute : bool;
  m_good : Z;
  m_late : Z;
  m_lost : Z;
  m_resync : Z;
  m_last_good_duration : Z;
  m_targets : list MumbleTarget;
}.

(** ** Views *)

(** The order of [clients.sort_unstable_by]: score, then window, both decreasing.  Which of two equal
    elements comes first is not specified by the library; the model keeps their order. *)
Definition by_score (x y : AnticheatClient) : Prop :=
  c_score y < c_score x \/ (c_score x = c_score y /\ c_reach_window y <= c_reach_window x).
#[global] Instance by_score_dec : RelDecision by_score.
Proof. intros x y. unfold by_score. apply _. Defined.

Definition by_ago (x y : HeardItem) : Prop := i_ago_secs x <= i_ago_secs y.
#[global] Instance by_ago_dec : RelDecision by_ago.
Proof. intros x y. unfold by_ago. apply _. Defined.

Definition client_view (hide_ips : bool) (c : Client.Client) : AnticheatClient :=
  let s := Client.ac c in
  {| c_session_id := Client.session_id c;
     c_name := Client.get_name c;
     c_ip := if hide_ips then IP_REDACTED else Client.peer_ip c;
     c_version := Client.id_version_str (Client.identity c);
     c_release := Client.id_version_release (Client.identity c);
     c_os := Client.id_version_os (Client.identity c);
     c_channel_id := Client.channel_id c;
     c_reach_instant := Client.ac_reach_instant s;
     c_reach_window := Client.ac_reach_window s;
     c_mutuality := Client.ac_mutuality s;
     c_listens := Client.ac_listen_count s;
     c_has_pos := Client.ac_has_pos s;
     c_pos := Client.ac_pos s;
     c_pos_jumps := Client.ac_pos_jumps s;
     c_max_speed := Client.ac_max_speed s;
     c_far_targets := Client.ac_far_targets s;
     c_score := Client.ac_score s;
     c_flags := Client.ac_flags s;
     c_muted := Client.is_muted c;
     c_exempt := Client.ac_exempt s |}.

(** [b.ip = Some(IP_REDACTED)] where there is an address. *)
Definition redact (b : BanList.BanEntry) : BanList.BanEntry :=
  BanList.mkBanEntry (BanList.id b) (BanList.kind b) ((fun _ => IP_REDACTED) <$> BanList.ip b) (BanList.name b)
    (BanList.display b) (BanList.reason b) (BanList.at_ b).

Section views.
Context `{HashIter}.

Definition get_anticheat (st : ServerState) : AnticheatStatus :=
  let ac := anticheat st in
  let hide_ips := Anticheat.hide_ips ac in
  let clients := client_view hide_ips <$> omap (fun p => heap st !! p.2) (hash_iter (clients st)) in
  let bans := BanList.list_ (bans st) in
  {| s_enabled := Anticheat.enabled ac;
     s_threshold_pct := Anticheat.threshold_pct ac;
     s_min_recipients := Anticheat.min_recipients ac;
     s_mutuality_max_pct := Anticheat.mutuality_max_pct ac;
     s_window_secs := Anticheat.window_secs ac;
     s_strikes_required := Anticheat.strikes_required ac;
     s_listen_max := Anticheat.listen_max ac;
     s_pos_osc_dist := Anticheat.pos_osc_dist ac;
     s_pos_osc_max := Anticheat.pos_osc_max ac;
     s_pos_far_dist := Anticheat.pos_far_dist ac;
     s_pos_far_min := Anticheat.pos_far_min ac;
     s_pos_far_pct := Anticheat.pos_far_pct ac;
     s_heard_secs := Anticheat.heard_secs ac;
     s_server_label := Anticheat.server_label ac;
     s_hide_ips := hide_ips;
     s_action := Anticheat.action_name (Anticheat.action ac);
     s_webhook := Anticheat.webhook ac;
     s_panel_url := Anticheat.panel_url ac;
     s_connected := active_clients st;
     s_clients := merge_sort by_score clients;
     s_logs := Anticheat.recent_logs ac;
     s_bans := if hide_ips then redact <$> bans else bans |}.

Definition heard_item (hide_ips : bool) (now : Z) (e : Client.HeardEntry) : HeardItem :=
  {| i_session_id := Client.heard_session_id e;
     i_name := Client.heard_name e;
     i_ip := if hide_ips then IP_REDACTED else Client.heard_ip e;
     i_ago_secs := as_secs (since now (Client.heard_last e));
     i_secs := Client.heard_secs_total e |}.

(** The list is expired before it is shown. *)
Definition get_heard (st : ServerState) (session_id now : Z) : ServerState * Result StatusCode HeardResponse :=
  match r ← clients st !! session_id; c ← heap st !! r; Some (r, c) with
  | None => (st, Err NOT_FOUND)
  | Some (r, c) =>
    let hide_ips := Anticheat.hide_ips (anticheat st) in
    let h := retain (fun _ e => since now (Client.heard_last e) <=? secs (Anticheat.retention (anticheat st)))
               (Client.ac_heard (Client.ac c)) in
    (upd_client st r (fun c => Client.set_ac c (Client.set_ac_heard (Client.ac c) h)),
     Ok {| h_session_id := session_id;
           h_name := Client.get_name c;
           h_retention_secs := Anticheat.heard_secs (anticheat st);
           h_heard := merge_sort by_ago (heard_item hide_ips now <$> (hash_iter h).*2) |})
  end.

Definition status_of (st : ServerState) (c : Client.Client) (now : Z) : MumbleClient :=
  let crypt := Client.crypt_state c in
  {| m_name := Client.get_name c;
     m_session_id := Client.session_id c;
     m_channel := Channel.name <$> channels st !! Client.channel_id c;
     m_mute := Client.is_muted c;
     m_good := good crypt;
     m_late := late crypt;
     m_lost := lost crypt;
     m_resync := resync crypt;
     m_last_good_duration := as_millis (since now (last_good crypt));
     m_targets := (fun t => mkMumbleTarget (dom (sessions t)) (dom (target_channels t))) <$> Client.targets c |}.

Definition get_status (st : ServerState) (now : Z) : gmap Z MumbleClient :=
  fold_left (fun out p => match heap st !! p.2 with
                          | Some c => <[Client.session_id c := status_of st c now]> out
                          | None => out
                          end) (hash_iter (clients st)) ∅.

(** ** Actions *)

Record ConfigUpdate := mkConfigUpdate {
  u_enabled : option bool;
  u_threshold_pct : option Z;
  u_min_recipients : option Z;
  u_mutuality_max_pct : option Z;
  u_window_secs : option Z;
  u_strikes_required : option Z;
  u_listen_max : option Z;
  u_pos_osc_dist : option Z;
  u_pos_osc_max : option Z;
  u_pos_far_dist : option Z;
  u_pos_far_min : option Z;
  u_pos_far_pct : option Z;
  u_heard_secs : option Z;
  u_action : option string;
  u_webhook : option string;
  u_panel_url : option string;
}.

(** [if let Some(v) = field { store }]. *)
Definition on_some {A B} (v : option A) (f : B -> A -> B) (b : B) : B :=
  match v with Some a => f b a | None => b end.

(** [if w.trim().is_empty() { None } else { Some(w) }]. *)
Definition trimmed (w : string) : option string := if is_empty (trim w) then None else Some w.

Definition update_config (ac : Anticheat.AnticheatConfig) (u : ConfigUpdate) : Anticheat.AnticheatConfig :=
  let ac := on_some (u_enabled u) Anticheat.set_enabled ac in
  let ac := on_some (u_threshold_pct u) (fun ac v => Anticheat.set_threshold_pct ac (Anticheat.clamp v 1 100)) ac in
  let ac := on_some (u_min_recipients u) Anticheat.set_min_recipients ac in
  let ac := on_some (u_mutuality_max_pct u) (fun ac v => Anticheat.set_mutuality_max_pct ac (Z.min v 100)) ac in
  let ac := on_some (u_window_secs u) (fun ac v => Anticheat.set_window_secs ac (Z.max v 1)) ac in
  let ac := on_some (u_strikes_required u) (fun ac v => Anticheat.set_strikes_required ac (Z.max v 1)) ac in
  let ac := on_some (u_listen_max u) Anticheat.set_listen_max ac in
  let ac := on_some (u_pos_osc_dist u)
              (fun ac v => Anticheat.set_pos_osc_dist ac (if v =? 0 then 0 else Z.max v 50)) ac in
  let ac := on_some (u_pos_osc_max u) Anticheat.set_pos_osc_max ac in
  let ac := on_some (u_pos_far_dist u) (fun ac v => Anticheat.set_pos_far_dist ac (Z.max v 100)) ac in
  let ac := on_some (u_pos_far_min u) Anticheat.set_pos_far_min ac in
  let ac := on_some (u_pos_far_pct u) (fun ac v => Anticheat.set_pos_far_pct ac (Anticheat.clamp v 1 100)) ac in
  let ac := on_some (u_heard_secs u) (fun ac v => Anticheat.set_heard_secs ac (Anticheat.clamp v 10 7200)) ac in
  let ac := on_some (u_action u) (fun ac v => Anticheat.set_action ac (Anticheat.parse_action v)) ac in
  let ac := on_some (u_webhook u) (fun ac v => Anticheat.set_webhook ac (trimmed v)) ac in
  on_some (u_panel_url u) (fun ac v => Anticheat.set_panel_url ac (trimmed v)) ac.

Definition post_anticheat_config (st : ServerState) (u : ConfigUpdate) : ServerState * StatusCode :=
  (set_anticheat st (update_config (anticheat st) u), OK).

Definition reset_client_counters (c : Client.Client) : Client.Client :=
  let s := Client.set_ac_score (Client.ac c) 0 in
  let s := Client.set_ac_flags s 0 in
  let s := Client.set_ac_max_recipients s 0 in
  let s := Client.set_ac_strikes s 0 in
  let s := Client.set_ac_window s ∅ in
  let s := Client.set_ac_pos_jumps s 0 in
  let s := Client.set_ac_max_speed s f32_zero in
  let s := Client.set_ac_pos_hist s [] in
  let s := Client.set_ac_far_targets s 0 in
  Client.set_ac c (Client.set_ac_heard s ∅).

Definition set_exempt (b : bool) (c : Client.Client) : Client.Client :=
  Client.set_ac c (Client.set_ac_exempt (Client.ac c) b).

Section bans.
Context `{SerdeJson (list BanList.BanEntry)}.

(** [state.server.bans.add(..)] and the other two operations on the list, with its file. *)
Definition add_ban (st : ServerState) (kind : string) (c : Client.Client) (reason : string) (epoch : Z) : ServerState :=
  let '(bl, f) := BanList.add (bans st) (fs st) kind (Some (Client.peer_ip c))
                    (Some (BanList.name_part (Client.get_name c))) (Client.get_name c) reason epoch in
  set_fs (set_bans st bl) f.
Definition remove_ban (st : ServerState) (id : Z) : ServerState :=
  let '(bl, f) := BanList.remove (bans st) (fs st) id in set_fs (set_bans st bl) f.
Definition remove_matching_bans (st : ServerState) (c : Client.Client) (kind : string) : ServerState :=
  let '(bl, f) := BanList.remove_matching (bans st) (fs st) (Client.peer_ip c)
                    (BanList.name_part (Client.get_name c)) kind in
  set_fs (set_bans st bl) f.

Definition post_anticheat_user (st : ServerState) (user action : string) (epoch : Z) : ServerState * StatusCode :=
  match r ← get_client_by_name st user; c ← heap st !! r; Some (r, c) with
  | None => (st, NOT_FOUND)
  | Some (r, c) =>
    if bool_decide (action = "block"%string) then
      let st := upd_client st r (set_exempt false) in
      let st := add_ban st "mute" c "mute manuel" epoch in
      (upd_client st r (fun c => Client.set_mute c true), OK)
    else if bool_decide (action = "unblock"%string) then
      let st := remove_matching_bans st c "mute" in
      let st := upd_client st r (set_exempt true) in
      (upd_client st r (fun c => Client.set_mute c false), OK)
    else if bool_decide (action = "kick"%string) then
      (add_client_to_disconnect_queue st (Client.session_id c) Anticheat, OK)
    else if bool_decide (action = "reset"%string) then
      (upd_client st r reset_client_counters, OK)
    else if bool_decide (action = "ban"%string) then
      let st := add_ban st "ban" c "banni via panel" epoch in
      (add_client_to_disconnect_queue st (Client.session_id c) Anticheat, OK)
    else (st, BAD_REQUEST)
  end.

Definition post_anticheat_unban (st : ServerState) (id : Z) : ServerState * StatusCode := (remove_ban st id, OK).
End bans.

Definition post_heard_clear (st : ServerState) (session_id : Z) : ServerState * StatusCode :=
  match clients st !! session_id with
  | None => (st, NOT_FOUND)
  | Some r => (upd_client st r (fun c => Client.set_ac c (Client.set_ac_heard (Client.ac c) ∅)), OK)
  end.

Definition post_anticheat_clear (st : ServerState) : ServerState * StatusCode :=
  let st := fold_left (fun st p => upd_client st p.2 reset_client_counters) (hash_iter (clients st)) st in
  (set_anticheat st (Anticheat.clear_logs (anticheat st)), OK).

Definition post_mute (st : ServerState) (mute : bool) (user : string) : ServerState * StatusCode :=
  match get_client_by_name st user with
  | Some r => (upd_client st r (fun c => Client.set_mute c mute), OK)
  | None => (st, NOT_FOUND)
  end.
Definition get_mute (st : ServerState) (user : string) : Result StatusCode (bool * string) :=
  match r ← get_client_by_name st user; heap st !! r with
  | Some c => Ok (Client.is_muted c, user)
  | None => Err NOT_FOUND
  end.

Definition post_deaf (st : ServerState) (deaf : bool) (user : string) : ServerState * StatusCode :=
  match get_client_by_name st user with
  | Some r => (upd_client st r (fun c => Client.set_deaf c deaf), OK)
  | None => (st, NOT_FOUND)
  end.
Definition get_deaf (st : ServerState) (user : string) : Result StatusCode (bool * string) :=
  match r ← get_client_by_name st user; heap st !! r with
  | Some c => Ok (Client.is_deaf c, user)
  | None => Err NOT_FOUND
  end.
End views.

(** ** Routes *)

Record AuthState := mkAuthState { username : string; password : option string }.

Inductive Request :=
  | GetAnticheat
  | PostAnticheatClear
  | PostAnticheatConfig (update : ConfigUpdate)
  | GetHeard (session_id : Z)
  | PostHeardClear (session_id : Z)
  | PostAnticheatUser (user action : string)
  | PostAnticheatUnban (id : Z)
  | PostDeaf (deaf : bool) (user : string)
  | GetDeaf (player_id : string)
  | GetMetrics
  | PostMute (mute : bool) (user : string)
  | GetMute (player_id : string)
  | GetPanel
  | GetStatus.

(** A body, or a bare status.  The page and the text of the metrics are not modelled. *)
Inductive Response :=
  | Code (code : StatusCode)
  | JsonAnticheat (body : AnticheatStatus)
  | JsonHeard (body : HeardResponse)
  | JsonFlag (flag : bool) (user : string)
  | JsonStatus (body : gmap Z MumbleClient)
  | TextMetrics
  | HtmlPanel.

Section router.
Context `{HashIter} `{SerdeJson (list BanList.BanEntry)}.

Definition code (p : ServerState * StatusCode) : ServerState * Response := (p.1, Code p.2).
Definition respond {A} (body : A -> Response) (r : Result StatusCode A) : Response :=
  match r with Ok a => body a | Err c => Code c end.

Definition route (st : ServerState) (req : Request) (now epoch : Z) : ServerState * Response :=
  match req with
  | GetAnticheat => (st, JsonAnticheat (get_anticheat st))
  | PostAnticheatClear => code (post_anticheat_clear st)
  | PostAnticheatConfig u => code (post_anticheat_config st u)
  | GetHeard s => let '(st, r) := get_heard st s now in (st, respond JsonHeard r)
  | PostHeardClear s => code (post_heard_clear st s)
  | PostAnticheatUser user action => code (post_anticheat_user st user action epoch)
  | PostAnticheatUnban id => code (post_anticheat_unban st id)
  | PostDeaf b user => code (post_deaf st b user)
  | GetDeaf user => (st, respond (fun p => JsonFlag p.1 p.2) (get_deaf st user))
  | GetMetrics => (st, TextMetrics)
  | PostMute b user => code (post_mute st b user)
  | GetMute user => (st, respond (fun p => JsonFlag p.1 p.2) (get_mute st user))
  | GetPanel => (st, HtmlPanel)
  | GetStatus => (st, JsonStatus (get_status st now))
  end.

(** [auth_basic]: the credentials of the header, if it could be read; the password may be absent from it. *)
Definition auth_basic (auth_state : AuthState) (auth : option (string * option string)) (st : ServerState)
    (req : Request) (now epoch : Z) : ServerState * Response :=
  match password auth_state with
  | None => (st, Code UNAUTHORIZED)
  | Some _ =>
    match auth with
    | Some (id, pw) =>
      if bool_decide (id = username auth_state) && bool_decide (pw = password auth_state)
      then route st req now epoch else (st, Code UNAUTHORIZED)
    | None => (st, Code UNAUTHORIZED)
    end
  end.

(** [create_http_server]: no password, no server. *)
Definition create_http_server (username : string) (password : option string)
    : option (option (string * option string) -> ServerState -> Request -> Z -> Z -> ServerState * Response) :=
  match password with
  | None => None
  | Some _ => Some (auth_basic (mkAuthState username password))
  end.
End router.
End Http.
