(* ===== verification/HttpProps.v ===== *)
(** Properties of the HTTP API. *)

From stdpp Require Import base gmap strings list sorting.
From Stdlib Require Import ZArith Lia.
From S2P Require Import Prelude Errors Maps Text Float32 Calendar Voice Messages Crypt Proto Bans Client Anticheat State.
From S2P Require Import StateInv StateProps Handlers HandlerInv HandlerProps Http.
Import ServerState Http.

(** ** Preservation of the state invariant *)

Lemma set_anticheat_same st a : same_shape st (set_anticheat st a).
Proof. split; try done. intros r. cbn. by destruct (heap st !! r). Qed.

Lemma set_bans_fs_same st b f : same_shape st (set_fs (set_bans st b) f).
Proof. split; try done. intros r. cbn. by destruct (heap st !! r). Qed.

Section preservation.
Context `{HashIter} `{SerdeJson (list BanList.BanEntry)}.

Lemma post_user_same st user action epoch : same_shape st (fst (post_anticheat_user st user action epoch)).
Proof.
  assert (forall st r f, (forall c, same_client c (f c)) -> same_shape st (upd_client st r f)) as Hu
    by (intros; apply upd_client_same; auto).
  unfold post_anticheat_user. destruct (_ ≫= _) as [[r c]|]; [|done].
  repeat case_bool_decide; cbn [fst]; [| |apply queue_same|by apply Hu| |done].
  - etransitivity; [|by apply Hu]. etransitivity; [by apply (Hu st r (set_exempt false))|apply set_bans_fs_same].
  - etransitivity; [|by apply Hu]. etransitivity; [|by apply Hu]. apply set_bans_fs_same.
  - etransitivity; [apply set_bans_fs_same|apply queue_same].
Qed.

Lemma route_same st req now epoch : same_shape st (fst (route st req now epoch)).
Proof.
  assert (forall st r f, (forall c, same_client c (f c)) -> same_shape st (upd_client st r f)) as Hu
    by (intros; apply upd_client_same; auto).
  destruct req; cbn [route code fst]; try done.
  - unfold post_anticheat_clear. cbn [fst]. etransitivity; [|apply set_anticheat_same].
    generalize (hash_iter (clients st)). intros l. clear -Hu. revert st. induction l as [|p l IH]; intros st; [done|].
    cbn [fold_left]. etransitivity; [by apply (Hu st p.2 reset_client_counters)|apply IH].
  - apply set_anticheat_same.
  - unfold get_heard. destruct (_ ≫= _) as [[r c]|]; [by apply Hu|done].
  - unfold post_heard_clear. case_match; [by apply Hu|done].
  - apply post_user_same.
  - apply set_bans_fs_same.
  - unfold post_deaf. case_match; [by apply Hu|done].
  - unfold post_mute. case_match; [by apply Hu|done].
Qed.

Lemma auth_basic_same a auth st req now epoch : same_shape st (fst (auth_basic a auth st req now epoch)).
Proof. unfold auth_basic. repeat case_match; try done. apply route_same. Qed.
End preservation.

(** ** Configuration *)

(** The ranges within which the evaluation works. *)
Record config_ok (a : Anticheat.AnticheatConfig) : Prop := {
  ok_threshold : 1 <= Anticheat.threshold_pct a <= 100;
  ok_mutuality : Anticheat.mutuality_max_pct a <= 100;
  ok_window : 1 <= Anticheat.window_secs a;
  ok_strikes : 1 <= Anticheat.strikes_required a;
  ok_osc : Anticheat.pos_osc_dist a = 0 \/ 50 <= Anticheat.pos_osc_dist a;
  ok_far : 100 <= Anticheat.pos_far_dist a;
  ok_far_pct : 1 <= Anticheat.pos_far_pct a <= 100;
  ok_heard : 10 <= Anticheat.heard_secs a <= 7200;
  ok_action : Anticheat.action a ∈ [Anticheat.ACTION_LOG; Anticheat.ACTION_MUTE; Anticheat.ACTION_KICK; Anticheat.ACTION_BAN];
}.

(** What no request may change. *)
Definition same_fixed (a a' : Anticheat.AnticheatConfig) : Prop :=
  Anticheat.hide_ips a' = Anticheat.hide_ips a /\ Anticheat.heard_file a' = Anticheat.heard_file a
  /\ Anticheat.heard_seed a' = Anticheat.heard_seed a /\ Anticheat.server_label a' = Anticheat.server_label a.

#[global] Instance same_fixed_preorder : PreOrder same_fixed.
Proof. split; [by intros a|]. intros a b c (A1 & A2 & A3 & A4) (B1 & B2 & B3 & B4). unfold same_fixed. split_and!; congruence. Qed.

(** One store of the update keeps the fixed fields and the ranges. *)
Definition keeps (a a' : Anticheat.AnticheatConfig) : Prop := same_fixed a a' /\ (config_ok a -> config_ok a').

#[global] Instance keeps_preorder : PreOrder keeps.
Proof.
  split; [by intros a|]. intros a b c [A1 A2] [B1 B2]. split; [by etransitivity|auto].
Qed.

Lemma parse_action_ok s :
  Anticheat.parse_action s ∈ [Anticheat.ACTION_LOG; Anticheat.ACTION_MUTE; Anticheat.ACTION_KICK; Anticheat.ACTION_BAN].
Proof. unfold Anticheat.parse_action. rewrite !elem_of_cons. repeat case_bool_decide; auto. Qed.

Lemma keeps_on_some {A} (a0 a : Anticheat.AnticheatConfig) (v : option A) f :
  (forall b x, keeps b (f b x)) -> keeps a0 a -> keeps a0 (on_some v f a).
Proof. intros Hf Ha. destruct v; cbn; [|done]. etransitivity; [exact Ha|apply Hf]. Qed.

Ltac keep_field :=
  apply keeps_on_some;
  [intros b v; split; [by destruct b|]; intros []; split; cbn in *; unfold Anticheat.clamp in *;
   first [done|lia|by apply parse_action_ok|destruct (Z.eqb_spec v 0); [by left|right; lia]]|].

Lemma update_config_keeps a u : keeps a (update_config a u).
Proof. unfold update_config. cbv zeta. repeat keep_field. reflexivity. Qed.

Lemma route_keeps `{HashIter} `{SerdeJson (list BanList.BanEntry)} st req now epoch :
  keeps (anticheat st) (anticheat (fst (route st req now epoch))).
Proof.
  destruct req; cbn [route code fst]; try done.
  - unfold post_anticheat_clear. cbn [fst]. set (st1 := fold_left _ _ _).
    assert (anticheat st1 = anticheat st) as E.
    { subst st1. generalize (hash_iter (clients st)). intros l. revert st.
      induction l as [|p l IH]; intros st; [done|]. cbn. by rewrite IH. }
    cbn. rewrite E. split; [by destruct (anticheat st)|]. by intros [].
  - apply update_config_keeps.
  - unfold get_heard. by destruct (_ ≫= _) as [[r c]|].
  - unfold post_heard_clear. by case_match.
  - unfold post_anticheat_user. destruct (_ ≫= _) as [[r c]|]; [|done]. by repeat case_bool_decide.
  - unfold post_deaf. by case_match.
  - unfold post_mute. by case_match.
Qed.

Definition run_requests `{HashIter} `{SerdeJson (list BanList.BanEntry)} (st : ServerState) (now epoch : Z)
    (reqs : list Request) : ServerState :=
  fold_left (fun st req => fst (route st req now epoch)) reqs st.

(** No sequence of requests can put the anticheat out of order: every percentage, window, distance, retention and action
    stays in the range the evaluation works with, and the masking of addresses, fixed at start, cannot be
    turned off. *)
Theorem api_keeps_config `{HashIter} `{SerdeJson (list BanList.BanEntry)} (st : ServerState) (now epoch : Z)
    (reqs : list Request) :
  config_ok (anticheat st) ->
  let a := anticheat (run_requests st now epoch reqs) in
  config_ok a /\ Anticheat.hide_ips a = Anticheat.hide_ips (anticheat st)
  /\ Anticheat.heard_file a = Anticheat.heard_file (anticheat st).
Proof.
  intros Hok a. assert (keeps (anticheat st) a) as [(E1 & E2 & _) Hk].
  { subst a. clear Hok. unfold run_requests. revert st. induction reqs as [|req reqs IH]; intros st; [done|].
    cbn. etransitivity; [apply (route_keeps st req now epoch)|apply IH]. }
  auto.
Qed.

Definition sample_update : ConfigUpdate :=
  mkConfigUpdate (Some false) (Some 0) None (Some 300) (Some 0) (Some 0) None (Some 3) None (Some 1) None (Some 0)
    (Some 1000000) (Some "banish"%string) (Some " "%string) None.

Lemma api_keeps_config_witness :
  config_ok (anticheat (@run_requests canonical_iter bits_json sample_server 0 0
    [PostAnticheatConfig sample_update; GetStatus; PostAnticheatUser "[2] Bob" "ban"])).
Proof.
  apply (@api_keeps_config canonical_iter bits_json).
  split; vm_compute; try (split; discriminate); try discriminate; [right; discriminate|]. left.
Defined.

(** ** Masked addresses *)

Definition erase_identity (i : Client.ClientIdentity) : Client.ClientIdentity :=
  Client.mkClientIdentity (Client.id_name i) (Client.id_log_name i) (Client.id_authenticate i) (Client.id_session_id i)
    "" (Client.id_version_release i) (Client.id_version_str i) (Client.id_version_os i).
Definition erase_entry (e : Client.HeardEntry) : Client.HeardEntry :=
  Client.mkHeardEntry (Client.heard_session_id e) (Client.heard_name e) "" (Client.heard_last e) (Client.heard_secs_total e).
Definition erase_client (c : Client.Client) : Client.Client :=
  let c := Client.set_identity c (erase_identity (Client.identity c)) in
  Client.set_ac c (Client.set_ac_heard (Client.ac c) (erase_entry <$> Client.ac_heard (Client.ac c))).
Definition erase_ban (b : BanList.BanEntry) : BanList.BanEntry :=
  BanList.mkBanEntry (BanList.id b) (BanList.kind b) ((fun _ => EmptyString) <$> BanList.ip b) (BanList.name b)
    (BanList.display b) (BanList.reason b) (BanList.at_ b).

(** The state with every address a response could carry replaced by the empty string. *)
Definition erase_ips (st : ServerState) : ServerState :=
  set_bans (set_heap st (erase_client <$> heap st))
    (BanList.mkBanList (erase_ban <$> BanList.bans (bans st)) (BanList.next_id (bans st)) (BanList.file (bans st))).

(** Equal responses, the order of speakers heard at the same second left open. *)
Definition same_response (x y : Response) : Prop :=
  match x, y with
  | JsonHeard a, JsonHeard b =>
    h_session_id a = h_session_id b /\ h_name a = h_name b /\ h_retention_secs a = h_retention_secs b
    /\ h_heard a ≡ₚ h_heard b
  | _, _ => x = y
  end.

#[global] Instance same_response_equiv : Equivalence same_response.
Proof.
  split.
  - intros []; cbn; split_and?; done.
  - intros [] []; cbn; try done. intros (A1 & A2 & A3 & A4). split_and!; done.
  - intros [] [] []; cbn; try done; try congruence. intros (A1 & A2 & A3 & A4) (B1 & B2 & B3 & B4).
    split_and!; [congruence..|by etransitivity].
Qed.

Section masked.
Context `{HashIterLaws} `{SerdeJson (list BanList.BanEntry)}.

Lemma erase_heap st r : heap (erase_ips st) !! r = erase_client <$> heap st !! r.
Proof. apply lookup_fmap. Qed.

Lemma erase_by_name st user : get_client_by_name (erase_ips st) user = get_client_by_name st user.
Proof.
  unfold get_client_by_name. change (clients (erase_ips st)) with (clients st). f_equal.
  induction (hash_iter (clients st)) as [|p l IH]; [done|]. cbn [List.find]. rewrite erase_heap, IH.
  by destruct (heap st !! p.2).
Qed.

Lemma erase_anticheat st : Anticheat.hide_ips (anticheat st) = true -> get_anticheat (erase_ips st) = get_anticheat st.
Proof.
  intros Hh. unfold get_anticheat. change (anticheat (erase_ips st)) with (anticheat st).
  change (clients (erase_ips st)) with (clients st). change (active_clients (erase_ips st)) with (active_clients st).
  rewrite Hh. f_equal.
  - f_equal. induction (hash_iter (clients st)) as [|p l IH]; [done|]. cbn [omap list_omap]. rewrite erase_heap.
    destruct (heap st !! p.2) as [c|]; [|apply IH]. change (erase_client <$> Some c) with (Some (erase_client c)).
    rewrite !fmap_cons. f_equal. apply IH.
  - cbn. rewrite <-list_fmap_compose. apply list_fmap_ext. intros i b _. unfold compose, redact, erase_ban. cbn.
    by destruct (BanList.ip b).
Qed.

Lemma retain_fmap {K A B} `{Countable K} (f : A -> B) (keep : K -> A -> bool) (keep' : K -> B -> bool) (m : gmap K A) :
  (forall k a, keep' k (f a) = keep k a) -> retain keep' (f <$> m) = f <$> retain keep m.
Proof.
  intros Hk. apply map_eq. intros k. rewrite lookup_retain, !lookup_fmap, lookup_retain.
  destruct (m !! k) as [a|]; cbn; [|done]. rewrite Hk. by destruct (keep k a).
Qed.

Lemma erase_heard st s now :
  Anticheat.hide_ips (anticheat st) = true ->
  same_response (respond JsonHeard (snd (get_heard (erase_ips st) s now))) (respond JsonHeard (snd (get_heard st s now))).
Proof.
  intros Hh. unfold get_heard. change (clients (erase_ips st)) with (clients st).
  change (anticheat (erase_ips st)) with (anticheat st). destruct (clients st !! s) as [r|]; [|done].
  cbn [mbind option_bind]. rewrite erase_heap. destruct (heap st !! r) as [c|]; cbn; [|done]. split_and!; [done|done|done|].
  rewrite !merge_sort_Permutation, Hh.
  erewrite (retain_fmap erase_entry); [|by intros]. rewrite !hash_iter_perm, map_to_list_fmap.
  rewrite <-!list_fmap_compose. done.
Qed.

Lemma erase_status st now : get_status (erase_ips st) now = get_status st now.
Proof.
  unfold get_status. change (clients (erase_ips st)) with (clients st). generalize (hash_iter (clients st)).
  intros l. generalize (∅ : gmap Z MumbleClient). induction l as [|p l IH]; intros out; [done|]. cbn [fold_left].
  rewrite IH, erase_heap. by destruct (heap st !! p.2).
Qed.

Lemma erase_user st user action epoch :
  snd (post_anticheat_user (erase_ips st) user action epoch) = snd (post_anticheat_user st user action epoch).
Proof.
  unfold post_anticheat_user. rewrite erase_by_name. destruct (get_client_by_name st user) as [r|]; [|done].
  cbn [mbind option_bind].
  rewrite erase_heap. destruct (heap st !! r); [|done]. cbn. by repeat case_bool_decide.
Qed.

Lemma erase_response st req now epoch :
  Anticheat.hide_ips (anticheat st) = true ->
  same_response (snd (route (erase_ips st) req now epoch)) (snd (route st req now epoch)).
Proof.
  intros Hh. destruct req; cbn [route code snd]; try reflexivity.
  - by rewrite erase_anticheat.
  - pose proof (erase_heard st session_id now Hh) as He.
    destruct (get_heard (erase_ips st) _ _), (get_heard st _ _). exact He.
  - unfold post_heard_clear. change (clients (erase_ips st)) with (clients st). by destruct (clients st !! session_id).
  - by rewrite erase_user.
  - unfold post_deaf. rewrite erase_by_name. by case_match.
  - unfold get_deaf. rewrite erase_by_name. destruct (get_client_by_name st player_id) as [r|]; [|done].
    cbn [mbind option_bind]. rewrite erase_heap. by destruct (heap st !! r).
  - unfold post_mute. rewrite erase_by_name. by case_match.
  - unfold get_mute. rewrite erase_by_name. destruct (get_client_by_name st player_id) as [r|]; [|done].
    cbn [mbind option_bind]. rewrite erase_heap. by destruct (heap st !! r).
  - by rewrite erase_status.
Qed.
End masked.

(** C19.  With the addresses masked no response depends on an address: two states that differ only in the addresses of
    clients, of remembered speakers and of the ban list answer every request alike. *)
Theorem masked_addresses_never_leave `{HashIterLaws} `{SerdeJson (list BanList.BanEntry)} (st1 st2 : ServerState)
    (req : Request) (now epoch : Z) :
  Anticheat.hide_ips (anticheat st1) = true -> erase_ips st1 = erase_ips st2 ->
  same_response (snd (route st1 req now epoch)) (snd (route st2 req now epoch)).
Proof.
  intros Hh He. etransitivity; [symmetry; by apply erase_response|]. rewrite He. apply erase_response.
  change (anticheat st2) with (anticheat (erase_ips st2)). by rewrite <-He.
Qed.

(** The sample server with the addresses masked, and the same with another address for the first user. *)
Definition sample_masked : ServerState := set_anticheat sample_server (Anticheat.set_hide_ips sample_anticheat true).
Definition move_client (ip : string) (c : Client.Client) : Client.Client :=
  let i := Client.identity c in
  Client.set_identity c
    (Client.mkClientIdentity (Client.id_name i) (Client.id_log_name i) (Client.id_authenticate i) (Client.id_session_id i)
       ip (Client.id_version_release i) (Client.id_version_str i) (Client.id_version_os i)).
Definition sample_masked_elsewhere : ServerState := upd_client sample_masked 0%nat (move_client "203.0.113.7").

Lemma erase_ips_move st r ip : erase_ips (upd_client st r (move_client ip)) = erase_ips st.
Proof.
  assert (erase_client <$> alter (move_client ip) r (heap st) = erase_client <$> heap st) as He.
  { apply map_eq. intros r'. rewrite !lookup_fmap. destruct (decide (r = r')) as [<-|Hr].
    - rewrite lookup_alter_eq. by destruct (heap st !! r).
    - by rewrite lookup_alter_ne. }
  unfold erase_ips, upd_client. cbn [heap set_heap bans]. rewrite He. done.
Qed.

Lemma masked_addresses_never_leave_witness :
  @get_anticheat canonical_iter sample_masked_elsewhere = @get_anticheat canonical_iter sample_masked
  /\ (Client.peer_ip <$> heap sample_masked_elsewhere !! 0%nat) <> (Client.peer_ip <$> heap sample_masked !! 0%nat).
Proof.
  split; [|vm_compute; discriminate].
  pose proof (@masked_addresses_never_leave canonical_iter canonical_iter_laws bits_json sample_masked_elsewhere
    sample_masked GetAnticheat 0 0 eq_refl (erase_ips_move _ _ _)) as H.
  cbn [same_response route snd] in H. 
  exact (f_equal (fun x => match x with JsonAnticheat b => b | _ => get_anticheat (H := canonical_iter) sample_masked end) H).
Defined.

(** Access control: the server only exists with a password, and a request whose credentials are missing,
    unreadable or wrong gets the challenge and changes nothing. *)
Theorem api_requires_password `{HashIter} `{SerdeJson (list BanList.BanEntry)} (user : string)
    (pw : option string) (st : ServerState) (req : Request) (now epoch : Z) (auth : option (string * option string)) :
  match create_http_server user pw with
  | None => pw = None
  | Some server =>
    exists p, pw = Some p
    /\ server auth st req now epoch =
       if decide (auth = Some (user, Some p)) then route st req now epoch else (st, Code UNAUTHORIZED)
  end.
Proof.
  unfold create_http_server. destruct pw as [p|]; [|done]. exists p. split; [done|]. unfold auth_basic. cbn.
  destruct auth as [[id pw]|]; [|by rewrite decide_False]. repeat case_bool_decide; cbn; subst; case_decide; naive_solver.
Qed.
