(* ===== verification/System.v ===== *)
(** The whole server: the tasks that share the state, as a step relation, and what holds in every state it can reach.

    A step is what one task does between two waits: a connection whose handshake is done is admitted (the accept loop tested the
    capacity earlier, when other connections may still have been in their handshakes), a client's task greets
    it, reads one message or serves one queued message, the UDP loop receives a datagram, the clean loop ticks, with
    a queue it read some time before, or resets a crypt state, the sampler ticks, an HTTP request is served, the tasks of a client end, a session is disconnected, and a client that no
    map refers to is freed.  The network adds one step: a stream breaks.  Steps of different tasks interleave in any order. *)

From stdpp Require Import base gmap strings list.
From Stdlib Require Import ZArith Lia.
From S2P Require Import Prelude Errors Maps Text Varint Voice Float32 Messages Crypt Proto Calendar Bans Client Anticheat.
From S2P Require Import State StateInv StateProps Handlers HandlerInv HandlerProps Net Greeting NetProps Sampler SamplerProps Http HttpProps.
Import ServerState Handler Udp Clean Tcp Sampler Http.

(** ** Who changes the ban list and the configuration: the sampler and the HTTP API alone *)

Definition same_policy (st st' : ServerState) : Prop := bans st' = bans st /\ anticheat st' = anticheat st.
#[global] Instance same_policy_preorder : PreOrder same_policy.
Proof. split; [done|]. intros a b c [E1 E2] [F1 F2]. split; congruence. Qed.

(** Who changes the set of connected clients: admission and disconnection alone. *)
Definition same_core (st st' : ServerState) : Prop :=
  same_policy st st' /\ clients st' = clients st /\ active_clients st' = active_clients st.
#[global] Instance same_core_preorder : PreOrder same_core.
Proof. split; [done|]. intros a b c (P1 & E1 & F1) (P2 & E2 & F2). split; [by etransitivity|split; congruence]. Qed.

(** Who changes the channels: moves, requests for channels and disconnections. *)
Definition same_tables (st st' : ServerState) : Prop := same_core st st' /\ channels st' = channels st.
#[global] Instance same_tables_preorder : PreOrder same_tables.
Proof. split; [done|]. intros a b c [P1 E1] [P2 E2]. split; [by etransitivity|congruence]. Qed.

Lemma tables_core st st' : same_tables st st' -> same_core st st'.
Proof. by intros []. Qed.

Lemma core_policy st st' : same_core st st' -> same_policy st st'.
Proof. by intros []. Qed.

Lemma fold_same_policy {A} (f : ServerState -> A -> ServerState) l st :
  (forall st x, same_policy st (f st x)) -> same_policy st (fold_left f l st).
Proof. intros Hf. revert st. induction l as [|x l IH]; intros st; [done|]. cbn. etransitivity; [apply Hf|apply IH]. Qed.

Lemma fold_same_core {A} (f : ServerState -> A -> ServerState) l st :
  (forall st x, same_core st (f st x)) -> same_core st (fold_left f l st).
Proof. intros Hf. revert st. induction l as [|x l IH]; intros st; [done|]. cbn. etransitivity; [apply Hf|apply IH]. Qed.

Lemma fold_same_tables {A} (f : ServerState -> A -> ServerState) l st :
  (forall st x, same_tables st (f st x)) -> same_tables st (fold_left f l st).
Proof. intros Hf. revert st. induction l as [|x l IH]; intros st; [done|]. cbn. etransitivity; [apply Hf|apply IH]. Qed.

Section frames.
Context `{HashIter} `{MumbleProto} `{Aes128} `{UdpSocket} `{Unicode} `{UsernameRegex}.

Lemma publish_tables st r m : same_tables st (publish st r m).
Proof. unfold publish. by repeat case_match. Qed.

Lemma broadcast_tables {T} `{ProtoMessage T} st kind (m : T) : same_tables st (fst (broadcast_message st kind m)).
Proof.
  unfold broadcast_message. destruct (message_to_bytes kind m); [|done]. cbn [fst].
  etransitivity; [|apply fold_same_tables; intros; apply publish_tables]. done.
Qed.

Lemma on_client_tables {A} st r (f : Client.Client -> Client.Client * Result MumbleError A) :
  same_tables st (fst (on_client st r f)).
Proof. unfold on_client. destruct (heap st !! r) as [c|]; [|done]. by destruct (f c). Qed.

Lemma left_channel_core st s leave : same_core st (fst (handle_client_left_channel st s leave)).
Proof.
  unfold handle_client_left_channel. set (x := match channels st !! leave with Some _ => _ | None => _ end).
  assert (same_core st x.1) as Hx by (subst x; by case_match). destruct x as [st1 keep]. cbn [fst] in Hx.
  destruct keep; [done|]. pose proof (tables_core _ _ (broadcast_tables (set_channels st1 (delete leave (channels st1))) MessageKind.ChannelRemove
    (ChannelRemoveMsg.mkChannelRemove (Some leave)))) as Hb.
  destruct (broadcast_message _ _ _) as [st2 res]. cbn [fst] in *. etransitivity; [exact Hx|exact Hb].
Qed.

Lemma set_client_channel_core st r k : same_core st (fst (set_client_channel st r k)).
Proof.
  unfold set_client_channel. destruct (heap st !! r) as [c|]; [|done].
  destruct (Client.join_channel c k) as [c1 leave]. destruct (get_channel_by_channel_id _ k) as [[k' ch]|]; [|done].
  match goal with |- context [broadcast_message ?s ?kd ?m] =>
    pose proof (tables_core _ _ (broadcast_tables s kd m)) as Hb; destruct (broadcast_message s kd m) as [st1 res] end.
  cbn [fst] in *. destruct leave as [leave|]; [|exact Hb]. case_if; [exact Hb|]. cbn [fst].
  etransitivity; [exact Hb|apply left_channel_core].
Qed.

Lemma send_voice_packet_tables st r p : same_tables st (fst (send_voice_packet st r p)).
Proof.
  unfold send_voice_packet. destruct (heap st !! r) as [c|]; [|done].
  by destruct (Client.send_voice_packet udp_send c p) as [[c1 d] res].
Qed.

Lemma reset_client_crypt_tables st r now : same_tables st (fst (reset_client_crypt st r now)).
Proof.
  unfold reset_client_crypt. destruct (heap st !! r) as [c|]; [|done]. cbn [Client.remove_udp_socket].
  etransitivity; [|apply on_client_tables]. by destruct (Client.udp_socket_addr c).
Qed.

Lemma disconnect_policy st s reason : same_policy st (disconnect st s reason).
Proof.
  unfold disconnect. generalize (r ← get_client_by_session_id st s; _ ← upgrade st r; Some r). intros client.
  unfold disconnect_found. destruct (clients st !! s); [|done]. destruct (client ≫= _) as [[r c]|]; [|done].
  set (st1 := match Client.udp_socket_addr c with Some _ => _ | None => _ end).
  assert (same_policy st st1) as K1 by (subst st1; by destruct (Client.udp_socket_addr c)). clearbody st1.
  assert (same_policy st1 (broadcast_client_delete st1 s (Client.channel_id c))) as Hd.
  { unfold broadcast_client_delete. set (m := UserRemoveMsg.mkUserRemove _ _ _ _).
    pose proof (tables_core _ _ (broadcast_tables st1 MessageKind.UserRemove m)) as Hb. destruct (broadcast_message st1 _ m) as [st2 res].
    etransitivity; [exact (core_policy _ _ Hb)|apply core_policy, left_channel_core]. }
  etransitivity; [exact K1|]. etransitivity; [exact Hd|].
  by destruct (get_channel_by_channel_id _ _) as [[k ch]|].
Qed.

Lemma clean_rest_policy st q now : same_policy st (clean_rest st q now).
Proof.
  unfold clean_rest. destruct (fold_left (collect _ now) _ _) as [rm rs].
  etransitivity; [|apply fold_same_policy; intros; apply disconnect_policy].
  etransitivity; [|apply (fold_same_policy (fun st r => fst (reset_client_crypt st r now))); intros; apply core_policy, tables_core, reset_client_crypt_tables].
  done.
Qed.

Lemma try_decrypt_tables l st buf addr now : same_tables st (fst (try_decrypt st l buf addr now)).
Proof.
  revert st. induction l as [|[k r] l IH]; intros st; [done|]. cbn [try_decrypt].
  destruct (heap st !! r) as [c|]; [|apply IH]. destruct (decrypt ServerBound _ buf now) as [cs [[p rest]|e]].
  - unfold set_client_socket. cbn [fst]. by destruct (_ ≫= _).
  - etransitivity; [|apply IH]. done.
Qed.

Lemma forward_tables st r p addr now : same_tables st (forward st r p addr now).
Proof.
  unfold forward. destruct (heap st !! r) as [c|]; [|done]. destruct (into_client_bound _ _ _); [|apply publish_tables].
  by destruct (encrypt _ _).
Qed.

Lemma handle_packet_tables st buf addr v now : same_tables st (fst (handle_packet st buf addr v now)).
Proof.
  unfold handle_packet. destruct buf as [|b0 [|b1 rest]]; [done|done|]. case_if.
  - by destruct (read_varint _) as [[ts rest']|].
  - destruct (get_client_by_socket st addr) as [r|].
    + destruct (heap st !! r) as [c|]; [|done]. destruct (decrypt ServerBound _ _ _) as [cs [[p rest']|err]]; cbn [fst].
      * etransitivity; [|apply forward_tables]. done.
      * case_if; [|done]. cbn [fst]. etransitivity; [|apply reset_client_crypt_tables]. done.
    + unfold find_client_with_decrypt.
      pose proof (try_decrypt_tables (hash_iter (clients_without_udp st)) st (b0 :: b1 :: rest) addr now) as Ht.
      destruct (try_decrypt _ _ _ _ _) as [st1 [[r p]|]]; [|exact Ht].
      etransitivity; [exact Ht|]. cbn [fst]. etransitivity; [|apply forward_tables]. done.
Qed.

Lemma udp_tables st received v now : same_tables st (udp_server_run st received v now).
Proof. destruct received as [[dg addr]|e]; [apply handle_packet_tables|done]. Qed.

(** An admission takes the list of the player out of the lists waiting for their owner. *)
Lemma new_client_policy st version auth cs out ip now epoch :
  let st' := fst (handle_new_client st version auth cs out ip now epoch) in
  bans st' = bans st /\ exists seed, anticheat st' = Anticheat.set_heard_seed (anticheat st) seed.
Proof.
  assert (exists seed, anticheat st = Anticheat.set_heard_seed (anticheat st) seed) as Hid
    by (exists (Anticheat.heard_seed (anticheat st)); by destruct (anticheat st)).
  unfold handle_new_client. case_if; [done|]. destruct (BanList.is_banned _ _ _); [done|].
  pose proof (add_client_frame st version auth cs (Client.mkWriter out false) (mkPublisher [] false) ip now) as Ha.
  destruct (add_client st _ _ _ _ _ _ _) as [st1 r]. destruct Ha as (_ & _ & _ & Hb & Ha & _).
  set (st2 := if BanList.is_muted _ _ _ then _ else st1). assert (same_policy st st2) as [K1 K2] by (subst st2; by case_if).
  destruct (heap st2 !! r) as [c|]; [|cbn; by rewrite K1, K2]. rewrite <-K2.
  unfold Anticheat.seed_heard. destruct (Anticheat.heard_seed (anticheat st2) !! _); cbn; (split; [done|]).
  - by eexists.
  - by rewrite K2.
Qed.

Lemma client_run_tables st r : same_tables st (fst (client_run st r)).
Proof. apply client_run_respects; [apply _|intros; apply on_client_tables|intros; apply broadcast_tables]. Qed.

Lemma greet_item_tables st r item : same_tables st (fst (greet_item st r item)).
Proof. apply greet_item_respects; [apply _|intros; apply on_client_tables|intros; apply broadcast_tables]. Qed.

Lemma voice_packet_tables st r p now : same_tables st (fst (handle_voice_packet st r p now)).
Proof.
  unfold handle_voice_packet. set (st1 := match packet_position p with Some _ => _ | None => _ end).
  assert (same_tables st st1) as K1 by (subst st1; by case_match). clearbody st1.
  destruct (heap st1 !! r) as [c|]; [|done]. case_if; [done|]. destruct p as [|target s k q pos]; [done|]. case_if.
  - pose proof (send_voice_packet_tables st1 r (VAudio target s k q pos)) as Hs.
    destruct (send_voice_packet st1 r _) as [st2 [u|e]]; cbn [seq fst] in *; by etransitivity.
  - set (st2 := if takes_record st1 c now then _ else st1).
    assert (same_tables st1 st2) as K2 by (subst st2; by case_if).
    assert (forall l acc, same_tables acc.1 (fold_left (deliver c (VAudio target s k q pos) (takes_record st1 c now) now) l acc).1) as Hd.
    { induction l as [|x l IH]; intros [sa n]; [done|]. cbn [fold_left]. etransitivity; [|apply IH]. cbn [fst].
      unfold deliver. destruct (heap sa !! x.2); [|done]. case_if; [done|]. cbn [fst].
      etransitivity; [|apply publish_tables]. by case_if. }
    set (l := hash_iter _). specialize (Hd l (st2, 0)). destruct (fold_left _ l (st2, 0)) as [st3 n]. cbn [fst] in *.
    etransitivity; [exact K1|]. by etransitivity; [exact K2|].
Qed.

Lemma dispatch_core st r kind buf now st' res :
  dispatch st r kind buf now = Done (st', res) -> same_core st st'.
Proof.
  assert (forall x : ServerState * Result MumbleError unit,
    same_core st (fst x) -> Done x = Done (st', res) -> same_core st st') as Hx by (intros x Hi [= ->]; done).
  assert (forall T (P : ProtoMessage T) (h : T -> Outcome (ServerState * Result MumbleError unit)),
    (forall m, h m = Done (st', res) -> same_core st st') -> try_handle h st buf = Done (st', res) -> same_core st st') as Ht.
  { intros T P h Hh. unfold try_handle. destruct (parse_from_bytes buf); [apply Hh|by apply Hx]. }
  destruct kind; cbn [dispatch]; try (by apply Hx); try (apply Ht; intros m; try apply Hx); try apply tables_core, on_client_tables; try done.
  - destruct (decode_voice_packet ServerBound buf) as [[p rest]|e]; [|by apply Hx]. apply Hx, tables_core, voice_packet_tables.
  - unfold handle_channel_state. case_if; [done|]. destruct (add_channel st m) as [st1 ch] eqn:Ea.
    assert (same_core st st1) as K1 by (unfold add_channel in Ea; destruct (get_free_channel_id st) as [st0 i] eqn:Eg;
      unfold get_free_channel_id in Eg; destruct (free_id _ _); by simplify_eq).
    pose proof (tables_core _ _ (broadcast_tables st1 MessageKind.ChannelState (Channel.get_channel_state ch))) as Hb.
    destruct (broadcast_message st1 _ _) as [st2 err]. cbn [fst] in Hb.
    pose proof (set_client_channel_core st2 r (Channel.id ch)) as Hc.
    destruct (set_client_channel st2 r _) as [st3 [u|e]]; cbn [seq fst] in *; etransitivity; eauto; by etransitivity.
  - unfold handle_user_state. destruct (heap st !! r) as [c|]; [|done]. case_if; [done|].
    set (x := if has _ then set_client_channel _ r _ else _).
    assert (same_core st x.1) as Hx' by (subst x; case_if; [etransitivity; [|apply set_client_channel_core]; done|done]).
    destruct x as [st1 [u|e]]; cbn [seq fst] in *; [|done]. etransitivity; [exact Hx'|].
    etransitivity; [|apply fold_same_core; by intros]. apply fold_same_core. by intros.
  - unfold handle_crypt_setup. destruct (heap st !! r) as [c|]; [|by apply Hx]. case_if.
    + destruct (set_decrypt_nonce _ _); [by apply Hx|done].
    + apply Hx, tables_core, on_client_tables.
  - unfold handle_voice_target. case_if; [done|]. by destruct (_ ≫= _).
Qed.

Lemma count_bad_tables st r : same_tables st (fst (count_bad st r)).
Proof. unfold count_bad. by destruct (heap st !! r). Qed.

Lemma consume_tables st r m now : same_tables st (fst (consume st r m now)).
Proof.
  unfold consume. set (x := match m with RouteVoicePacket _ => _ | SendVoicePacket _ => _ | SendMessage _ _ => _ end).
  assert (same_tables st (fst x)) as Hx by (subst x; destruct m;
    [apply voice_packet_tables|apply send_voice_packet_tables|apply on_client_tables]).
  destruct x as [st1 [u|e]]; [done|]. etransitivity; [exact Hx|apply count_bad_tables].
Qed.

Lemma upd_client_tables st r f : same_tables st (upd_client st r f).
Proof. done. Qed.

Lemma queue_turn_tables st r cancel now : same_tables st (fst (queue_turn st r cancel now)).
Proof.
  unfold queue_turn. destruct (heap st !! r) as [c|]; [|done]. destruct (closed _); [done|].
  destruct (recv _) as [[m p]|]; [|destruct (Client.cancelled c); [apply upd_client_tables|done]].
  destruct (Client.cancelled c && cancel); [apply upd_client_tables|].
  pose proof (consume_tables (upd_client st r (fun c => Client.set_publisher c p)) r m now) as Hc.
  destruct (consume _ _ _ _) as [st1 [|]]; cbn [fst] in *.
  - etransitivity; [etransitivity; [apply upd_client_tables|exact Hc]|apply upd_client_tables].
  - etransitivity; [apply upd_client_tables|exact Hc].
Qed.
End frames.

(** ** Steps *)

Section steps.
Context `{HashIterLaws} `{MumbleProto} `{Aes128} `{UdpSocket} `{Unicode} `{UsernameRegex}
  `{SerdeJson (list BanList.BanEntry)} `{SerdeJson Anticheat.PersistedHeard}.

(** The stream of a client breaks: what is written from now on fails. *)
Definition break_stream (st : ServerState) (r : ClientRef) : ServerState :=
  upd_client st r (fun c =>
    Client.set_write c ((fun w => Client.mkWriter (Client.sent w) true) <$> Client.write c)).

(** The steps, the HTTP requests that reach the server being restricted to [allowed].  The counts are bounded by
    the session and channel ids, which have 32 bits.  A message on which the server panics ends it, and is no step. *)
Inductive server_step (allowed : Request -> Prop) : ServerState -> ServerState -> Prop :=
  | step_connect st version auth cs out ip now epoch :
      Z.of_nat (size (clients st)) < 2 ^ 32 ->
      server_step allowed st (fst (handle_new_client st version auth cs out ip now epoch))
  | step_greet st r item : server_step allowed st (fst (greet_item st r item))
  | step_message st r kind buf now st' res :
      Z.of_nat (size (channels st)) < 2 ^ 32 ->
      dispatch st r kind buf now = Done (st', res) -> server_step allowed st st'
  | step_bad st r : server_step allowed st (fst (count_bad st r))
  | step_queue st r cancel now : server_step allowed st (fst (queue_turn st r cancel now))
  | step_udp st received v now : server_step allowed st (udp_server_run st received v now)
  | step_clean st q now : server_step allowed st (clean_rest st q now)
  | step_reset st r now : server_step allowed st (fst (reset_client_crypt st r now))
  | step_disconnect st s reason : server_step allowed st (disconnect st s reason)
  | step_sampler st ticks now epoch : server_step allowed st (fst (fst (run_sampler st ticks now epoch)))
  | step_http st a auth req now epoch :
      allowed req -> server_step allowed st (fst (auth_basic a auth st req now epoch))
  | step_reclaim st r : server_step allowed st (reclaim st r)
  | step_end st r : server_step allowed st (close_queue st r)
  | step_break st r : server_step allowed st (break_stream st r).

(** A greeting that nothing interrupts is a sequence of steps. *)
Lemma greet_run_steps allowed n st r items : rtc (server_step allowed) st (fst (greet_run n st r items)).
Proof.
  revert st items. induction n as [|n IH]; intros st [|item items]; [done..|]. rewrite greet_run_item.
  pose proof (step_greet allowed st r item) as Hs. destruct (greet_item st r item) as [st' [more|e]]; cbn [seq fst] in *.
  - eapply rtc_l; [exact Hs|apply IH].
  - by apply rtc_once.
Qed.

Lemma client_run_steps allowed st r : rtc (server_step allowed) st (fst (client_run st r)).
Proof.
  pose proof (greet_run_steps allowed (length greet_items + size (channels st) + size (clients st)) st r greet_items) as Hs.
  rewrite client_run_items in Hs. by destruct (client_run st r) as [st' [u|e]].
Qed.

Lemma flush_heard_same st now epoch : same_shape st (flush_heard st now epoch).
Proof.
  unfold flush_heard. repeat case_match; try done. split; try done. intros r. cbn. by destruct (heap st !! r).
Qed.

Lemma run_sampler_inv st ticks now epoch : state_inv st -> state_inv (fst (fst (run_sampler st ticks now epoch))).
Proof.
  intros Hinv. unfold run_sampler. pose proof (sample_inv st now epoch Hinv) as Hs.
  destruct (sample st now epoch) as [st1 posts]. cbn [fst] in *.
  case_if; [|done]. by eapply same_shape_inv; [apply flush_heard_same|].
Qed.

Lemma step_inv allowed st st' : server_step allowed st st' -> state_inv st -> state_inv st'.
Proof.
  destruct 1; intros Hinv.
  - by apply new_client_inv.
  - by apply greet_item_inv.
  - by eapply dispatch_inv.
  - eapply same_shape_inv; [apply count_bad_same|done].
  - by apply queue_turn_inv.
  - by apply udp_inv.
  - by apply clean_rest_inv.
  - by apply reset_client_crypt_inv.
  - by apply disconnect_inv.
  - by apply run_sampler_inv.
  - eapply same_shape_inv; [apply auth_basic_same|done].
  - by apply reclaim_inv.
  - eapply same_shape_inv; [by apply upd_client_same|done].
  - eapply same_shape_inv; [by apply upd_client_same|done].
Qed.

(** ** Entries of the ban list *)

Definition keeps_entry (e : BanList.BanEntry) (st st' : ServerState) : Prop :=
  e ∈ BanList.bans (bans st) -> e ∈ BanList.bans (bans st').

Lemma same_policy_keeps e st st' : same_policy st st' -> keeps_entry e st st'.
Proof. intros [Hs _] He. by rewrite Hs. Qed.

(** A request does not remove the ban with this id; nothing but such a request could. *)
Definition not_unban (id : Z) (req : Request) : Prop := req <> PostAnticheatUnban id.

Lemma route_keeps_ban e st req now epoch :
  BanList.kind e = "ban"%string -> not_unban (BanList.id e) req -> keeps_entry e st (fst (route st req now epoch)).
Proof.
  intros Hk Hn He.
  assert (forall keep, keep e = true -> e ∈ BanList.bans (BanList.retain (bans st) keep)) as Hr.
  { intros keep Hkeep. apply list_elem_of_In, filter_In. split; [by apply list_elem_of_In|done]. }
  destruct req; cbn [route code fst]; try done.
  - unfold post_anticheat_clear. cbn. revert He. generalize (hash_iter (clients st)). intros l. revert st Hr.
    induction l as [|p l IH]; intros st Hr He; [done|]. cbn [fold_left]. apply IH; [exact Hr|done].
  - unfold get_heard. by destruct (_ ≫= _) as [[r c]|].
  - unfold post_heard_clear. by case_match.
  - unfold post_anticheat_user. destruct (_ ≫= _) as [[r c]|]; [|done].
    repeat case_bool_decide; try done; cbn; try (apply elem_of_app; by left).
    apply Hr. unfold BanList.is_kind. by rewrite Hk.
  - cbn. apply Hr. rewrite negb_true_iff. apply Z.eqb_neq. intros E. apply Hn. by rewrite E.
  - unfold post_deaf. by case_match.
  - unfold post_mute. by case_match.
Qed.

Lemma sample_keeps_ban e st now epoch : state_inv st -> keeps_entry e st (fst (sample st now epoch)).
Proof.
  intros Hinv He. unfold sample. case_if; [done|].
  assert (turns st (imap pair (env_snaps (make_env st now)))) as Ht by (rewrite make_env_eq; by apply take_snaps_turns).
  by apply (oc_kept _ _ _ _ _ (evaluate_all_spec (make_env st now) now epoch _ st [] Ht)).
Qed.

Lemma step_keeps_ban e st st' :
  BanList.kind e = "ban"%string -> server_step (not_unban (BanList.id e)) st st' -> state_inv st -> keeps_entry e st st'.
Proof.
  intros Hk. destruct 1; intros Hinv.
  - intros He. by rewrite (proj1 (new_client_policy _ _ _ _ _ _ _ _)).
  - apply same_policy_keeps, core_policy, tables_core, greet_item_tables.
  - by eapply same_policy_keeps, core_policy, dispatch_core.
  - apply same_policy_keeps, core_policy, tables_core, count_bad_tables.
  - apply same_policy_keeps, core_policy, tables_core, queue_turn_tables.
  - apply same_policy_keeps, core_policy, tables_core, udp_tables.
  - apply same_policy_keeps, clean_rest_policy.
  - apply same_policy_keeps, core_policy, tables_core, reset_client_crypt_tables.
  - apply same_policy_keeps, disconnect_policy.
  - intros He. unfold run_sampler. pose proof (sample_keeps_ban e st now epoch Hinv He) as Hs.
    destruct (sample st now epoch) as [st1 posts]. cbn [fst] in *. case_if; [|done].
    unfold flush_heard. by repeat case_match.
  - unfold auth_basic. repeat case_match; try (by intros ?). by apply route_keeps_ban.
  - unfold reclaim. intros He. by case_if.
  - by intros ?.
  - by intros ?.
Qed.

Lemma reach_keeps_ban e st st' :
  BanList.kind e = "ban"%string -> rtc (server_step (not_unban (BanList.id e))) st st' ->
  state_inv st -> e ∈ BanList.bans (bans st) -> state_inv st' /\ e ∈ BanList.bans (bans st').
Proof.
  intros Hk. induction 1 as [st|st1 st2 st3 H12 _ IH]; intros Hinv He; [done|].
  apply IH; [by eapply step_inv|by eapply step_keeps_ban].
Qed.

Lemma by_name_connected st user r c :
  state_inv st -> get_client_by_name st user = Some r -> heap st !! r = Some c ->
  clients st !! Client.session_id c = Some r.
Proof.
  intros Hinv Hu Hc. unfold get_client_by_name in Hu. apply fmap_Some in Hu as ([k r'] & Hf & ->). cbn in Hc.
  apply find_some in Hf as [Hin _]. apply list_elem_of_In, elem_of_hash_iter in Hin.
  destruct (si_clients _ Hinv k r' Hin) as [_ (c' & Hc' & <-)]. cbn. congruence.
Qed.
End steps.

(** ** Configuration *)

Section configuration.
Context `{HashIterLaws} `{MumbleProto} `{Aes128} `{UdpSocket} `{Unicode} `{UsernameRegex}
  `{SerdeJson (list BanList.BanEntry)} `{SerdeJson Anticheat.PersistedHeard}.

Lemma evaluate_all_config env now epoch L st posts :
  turns st L -> exists l, anticheat (fst (fold_left (evaluate env now epoch) L (st, posts))) = Anticheat.set_logs (anticheat st) l.
Proof.
  revert st posts. induction L as [|[i0 s0] L IH]; intros st posts Ht.
  { exists (Anticheat.logs (anticheat st)). cbn. by destruct (anticheat st). }
  destruct (proj2 Ht i0 s0 ltac:(by left)) as (c0 & Hc0 & E). set (r0 := snap_ref s0) in *. rewrite E in Ht |- *. clear E.
  pose proof (evaluate_spec env now epoch st posts i0 r0 c0 Hc0) as Hs. cbn [fold_left].
  destruct (evaluate env now epoch (st, posts) _) as [st1 posts1]. cbn [fst] in Hs.
  destruct (IH st1 posts1 ltac:(by eapply turns_cons)) as [l ->]. destruct (sa_config _ _ _ _ _ _ Hs) as [l' ->]. by exists l.
Qed.

Lemma config_ok_logs a l : config_ok a -> config_ok (Anticheat.set_logs a l).
Proof. by intros []. Qed.

Lemma step_config allowed st st' :
  server_step allowed st st' -> state_inv st -> config_ok (anticheat st) ->
  config_ok (anticheat st') /\ Anticheat.hide_ips (anticheat st') = Anticheat.hide_ips (anticheat st).
Proof.
  assert (forall st st', same_policy st st' -> config_ok (anticheat st) ->
    config_ok (anticheat st') /\ Anticheat.hide_ips (anticheat st') = Anticheat.hide_ips (anticheat st)) as Hp
    by (intros s s' [_ ->]; done).
  destruct 1; intros Hinv Hok; try (by apply Hp).
  - destruct (new_client_policy st version auth cs out ip now epoch) as [_ [seed ->]]. split; [by destruct Hok|done].
  - apply Hp, Hok. apply core_policy, tables_core, greet_item_tables.
  - apply Hp, Hok. by eapply core_policy, dispatch_core.
  - apply Hp, Hok. apply core_policy, tables_core, count_bad_tables.
  - apply Hp, Hok. apply core_policy, tables_core, queue_turn_tables.
  - apply Hp, Hok. apply core_policy, tables_core, udp_tables.
  - apply Hp, Hok. apply clean_rest_policy.
  - apply Hp, Hok. apply core_policy, tables_core, reset_client_crypt_tables.
  - apply Hp, Hok. apply disconnect_policy.
  - assert (exists l, anticheat (fst (sample st now epoch)) = Anticheat.set_logs (anticheat st) l) as [l El].
    { unfold sample. case_if; [exists (Anticheat.logs (anticheat st)); cbn; by destruct (anticheat st)|].
      apply evaluate_all_config. rewrite make_env_eq. by apply take_snaps_turns. }
    unfold run_sampler. destruct (sample st now epoch) as [st1 posts]. cbn [fst] in *.
    assert (anticheat (if as_u32 (ticks + 1) mod Anticheat.HEARD_FLUSH_EVERY =? 0 then flush_heard st1 now epoch else st1)
      = anticheat st1) as -> by (case_if; [unfold flush_heard; by repeat case_match|done]).
    rewrite El. split; [by apply config_ok_logs|done].
  - assert (keeps (anticheat st) (anticheat (fst (auth_basic a auth st req now epoch)))) as [(E & _) Hk]
      by (unfold auth_basic; repeat case_match; try done; apply route_keeps). auto.
  - apply Hp, Hok. unfold reclaim. by case_if.
Qed.
End configuration.

(** ** Start: [main] of [src/src/main.rs] *)

(** The command line, less what only concerns sockets, certificates and logging. *)
Record Args := mkArgs {
  listen : string;
  http_user : string;
  http_password : option string;
  strip_mumble_position : bool;
  restrict_version : option string;
  anticheat_on : bool;
  anticheat_threshold_pct : Z;
  anticheat_min_recipients : Z;
  anticheat_mutuality_max_pct : Z;
  anticheat_window_secs : Z;
  anticheat_strikes : Z;
  anticheat_listen_max : Z;
  anticheat_action : string;
  ban_file : option string;
  anticheat_webhook : option string;
  anticheat_panel_url : option string;
  server_name : option string;
  panel_hide_ips : bool;
}.

(** [Path::new(bf).parent().join("heard.json")] on a path that ends in a file name: the name is replaced. *)
Fixpoint drop_name (rev_path : list Z) : list Z :=
  match rev_path with
  | [] => []
  | b :: rest => if b =? 47 then rev rev_path else drop_name rest
  end.
Definition heard_path (bf : string) : string := of_bytes (drop_name (rev (as_bytes bf))) +:+ "heard.json".

Example heard_path_sample : heard_path "/data/bans.json" = "/data/heard.json"%string.
Proof. reflexivity. Qed.

Definition start `{Unicode} `{SerdeJson (list BanList.BanEntry)} `{SerdeJson Anticheat.PersistedHeard}
    (args : Args) (f : FileSystem) (epoch : Z) : ServerState :=
  let label := match server_name args with
               | Some s => if is_empty (trim s) then listen args else s
               | None => listen args
               end in
  let ac := Anticheat.new (anticheat_on args) (anticheat_threshold_pct args) (anticheat_min_recipients args)
    (anticheat_mutuality_max_pct args) (anticheat_window_secs args) (anticheat_strikes args) (anticheat_listen_max args)
    (Anticheat.parse_action (anticheat_action args)) (anticheat_webhook args) (anticheat_panel_url args) label in
  let ac := Anticheat.set_hide_ips ac (panel_hide_ips args) in
  let bl := BanList.load f (ban_file args) in
  let ac := match ban_file args with
            | Some bf => if anticheat_on args then Anticheat.init_heard_persistence ac f (heard_path bf) epoch else ac
            | None => ac
            end in
  new (strip_mumble_position args) (restrict_version args) ac bl f.

(** The protocol version the server announces, 1.4.0, over TCP and in its answers to server list pings. *)
Definition version : Z := Z.lor (Z.lor (Z.shiftl 1 16) (Z.shiftl 4 8)) 0.

(** The [Version] message of the server, from the target's family and name and the package version. *)
Definition server_version (FAMILY OS VERSION : string) : VersionMsg.Version :=
  VersionMsg.mkVersion (Some version) (Some VERSION) (Some FAMILY) (Some OS).

Lemma start_config `{Unicode} `{SerdeJson (list BanList.BanEntry)} `{SerdeJson Anticheat.PersistedHeard} args f epoch :
  config_ok (anticheat (start args f epoch))
  /\ Anticheat.hide_ips (anticheat (start args f epoch)) = panel_hide_ips args.
Proof.
  assert (forall a path, config_ok a -> config_ok (Anticheat.init_heard_persistence a f path epoch)
    /\ Anticheat.hide_ips (Anticheat.init_heard_persistence a f path epoch) = Anticheat.hide_ips a) as Hinit
    by (intros a path Hok; unfold Anticheat.init_heard_persistence; case_match; (split; [by destruct Hok|done])).
  unfold start. cbn [anticheat new]. set (ac := Anticheat.set_hide_ips _ _).
  assert (config_ok ac) as Hok.
  { split; cbn; unfold Anticheat.clamp; try lia; apply parse_action_ok. }
  destruct (ban_file args) as [bf|]; [|done]. destruct (anticheat_on args); [|done].
  destruct (Hinit ac (heard_path bf) Hok) as [H1' ->]. done.
Qed.

(** ** The whole system *)

(** C1.  Every state the server can reach from its start, by any interleaving of its tasks, on any command line and whatever
    clients, datagrams and requests it gets, satisfies the invariant: each connected session has a live client that
    bears its id, the count of clients is the number of connected sessions, channels are under their own ids and list
    live clients, the root channel exists and is permanent, no address leads to a client that does not have
    it, and every client ever admitted is connected and shown by the gauge of clients, or was counted as a disconnection once; the configuration is in range, and addresses are masked exactly if the command line says so. *)
Theorem reachable_states_sound `{HashIterLaws} `{MumbleProto} `{Aes128} `{UdpSocket} `{Unicode} `{UsernameRegex}
    `{SerdeJson (list BanList.BanEntry)} `{SerdeJson Anticheat.PersistedHeard} (args : Args) (f : FileSystem) (epoch : Z)
    (st : ServerState) :
  rtc (server_step (fun _ => True)) (start args f epoch) st ->
  state_inv st /\ config_ok (anticheat st) /\ Anticheat.hide_ips (anticheat st) = panel_hide_ips args.
Proof.
  intros Hr. destruct (start_config args f epoch) as [Hok Hh].
  assert (forall s s', rtc (server_step (fun _ => True)) s s' -> state_inv s -> config_ok (anticheat s) ->
    state_inv s' /\ config_ok (anticheat s') /\ Anticheat.hide_ips (anticheat s') = Anticheat.hide_ips (anticheat s)) as Hs.
  { induction 1 as [|s1 s2 s3 H12 _ IH]; [done|]. intros Hi Hc. destruct (step_config _ _ _ H12 Hi Hc) as [Hc2 <-].
    apply IH; [by eapply step_inv|done]. }
  rewrite <-Hh. by apply Hs; [exact Hr|apply new_inv|].
Qed.

Definition sample_args : Args :=
  mkArgs "0.0.0.0:64738" "admin" None false (Some "CitizenFX"%string) true 250 15 30 10 0 25 "mute"
    (Some "/data/bans.json"%string) None None (Some " "%string) true.

(** A client connects, is greeted, and a tick passes. *)
Lemma reachable_states_sound_witness :
  exists st, size (clients st) = 1%nat /\ Anticheat.threshold_pct (anticheat st) = 100 /\ state_inv st.
Proof.
  set (proto := const_proto). set (lower := (fun s => s) : Unicode). set (regex := (fun _ => true) : UsernameRegex).
  set (st0 := @start lower bits_json heard_json sample_args BanList.sample_fs 0).
  set (st1 := fst (@handle_new_client canonical_iter lower regex st0
    (VersionMsg.mkVersion None (Some "CitizenFX"%string) None None)
    (AuthenticateMsg.mkAuthenticate (Some "[12] eve"%string) None [] [] None)
    (default_crypt_state sample_key 0) [] "192.168.3.3" 0 0)).
  set (st2 := fst (@client_run canonical_iter proto st1 0%nat)).
  set (st3 := @clean_run canonical_iter proto st2 50).
  exists st3. split; [vm_compute; reflexivity|]. split; [vm_compute; reflexivity|].
  apply (@reachable_states_sound canonical_iter canonical_iter_laws proto xor_aes no_udp lower regex bits_json heard_json
    sample_args BanList.sample_fs 0).
  eapply rtc_l; [eapply (step_connect _ st0); vm_compute; reflexivity|].
  etransitivity; [apply (@client_run_steps canonical_iter canonical_iter_laws proto _ _ _ _ _ _ _ st1 0%nat)|].
  eapply rtc_l; [apply (step_clean _ st2 (@read_queue canonical_iter st2) 50)|]. apply rtc_refl.
Defined.

(** C3.  A player banned from the panel stays out: the next tick disconnects it, and in every state the server
    reaches from then on, whatever its tasks do and whatever requests it serves except the one that lifts
    this very ban, a connection from the player's address, or under its name in any letter case, is refused. *)
Theorem banned_player_stays_out `{HashIterLaws} `{MumbleProto} `{Aes128} `{UdpSocket} `{Unicode} `{UsernameRegex}
    `{SerdeJson (list BanList.BanEntry)} `{SerdeJson Anticheat.PersistedHeard} (st : ServerState) (user : string)
    (r : ClientRef) (c : Client.Client) (now epoch : Z) :
  state_inv st -> get_client_by_name st user = Some r -> heap st !! r = Some c ->
  let st1 := fst (post_anticheat_user st user "ban" epoch) in
  clients (clean_run st1 now) !! Client.session_id c = None
  /\ forall st2, rtc (server_step (not_unban (BanList.next_id (bans st)))) st1 st2 ->
     forall version auth cs out ip t epoch2,
       let np := BanList.name_part (get_str (AuthenticateMsg.username auth)) in
       let own := BanList.name_part (Client.get_name c) in
       ip = Client.peer_ip c \/ (own <> EmptyString /\ eq_ignore_ascii_case own np = true) ->
       handle_new_client st2 version auth cs out ip t epoch2 = (st2, Err UnknownError).
Proof.
  intros Hinv Hu Hc st1. pose proof (by_name_connected st user r c Hinv Hu Hc) as Hs.
  assert (state_inv st1) as I1 by (eapply same_shape_inv; [apply post_user_same|done]).
  set (e := BanList.mkBanEntry (BanList.next_id (bans st)) "ban" (Some (Client.peer_ip c))
    (Some (BanList.name_part (Client.get_name c))) (Client.get_name c) "banni via panel" (hms_now epoch)).
  assert (e ∈ BanList.bans (bans st1) /\ clients st1 = clients st
    /\ is_Some (disconnect_queue st1 !! Client.session_id c)) as (He & Ecl & Hq).
  { unfold st1, post_anticheat_user. rewrite Hu. cbn [mbind option_bind]. rewrite Hc. cbn [mbind option_bind].
    split_and!; [cbn; apply elem_of_app; right; by left|done|].
    change (is_Some (insert_new (Client.session_id c) Anticheat (disconnect_queue st) !! Client.session_id c)). rewrite lookup_insert_new, decide_True by done. by eexists. }
  split.
  - rewrite clean_run_clients, Ecl, Hs by done. destruct Hq as [x ->]. done.
  - intros st2 Hr version auth cs out ip t epoch2 np own Hm.
    destruct (reach_keeps_ban e st1 st2 eq_refl Hr I1 He) as [_ He2].
    assert (is_Some (BanList.is_banned (bans st2) ip np)) as [reason Hban].
    { apply BanList.is_banned_spec. exists e. split; [done|]. split; [done|].
      by apply (BanList.entry_matches_spec e (Client.peer_ip c) own). }
    unfold handle_new_client. case_if; [done|]. fold np. by rewrite Hban.
Qed.

(** Bob is banned; he comes back from elsewhere under his name in capitals, after a tick. *)
Lemma banned_player_stays_out_witness :
  let st1 := fst (@post_anticheat_user canonical_iter bits_json sample_server "[2] Bob" "ban" 0) in
  let st2 := @clean_run canonical_iter const_proto st1 50 in
  @handle_new_client canonical_iter (fun s => s) (fun _ => true) st2 (VersionMsg.mkVersion None None None None)
    (AuthenticateMsg.mkAuthenticate (Some "[77] BOB"%string) None [] [] None)
    (default_crypt_state sample_key 0) [] "198.51.100.4" 60 0
  = (st2, Err UnknownError).
Proof.
  destruct (heap sample_server !! 1%nat) as [c|] eqn:Hc; [|vm_compute in Hc; discriminate].
  assert (@get_client_by_name canonical_iter sample_server "[2] Bob" = Some 1%nat) as Hu by (vm_compute; reflexivity).
  destruct (@banned_player_stays_out canonical_iter canonical_iter_laws const_proto xor_aes no_udp (fun s => s) (fun _ => true)
    bits_json heard_json sample_server "[2] Bob" 1%nat c 50 0 sample_server_inv Hu Hc) as [_ H].
  assert (Client.get_name c = "[2] Bob"%string) as Hn by (vm_compute in Hc; injection Hc as <-; reflexivity).
  cbv zeta. apply H.
  - eapply rtc_l; [unfold clean_run; apply step_clean|]. apply rtc_refl.
  - right. rewrite Hn. split; [vm_compute; discriminate|vm_compute; reflexivity].
Defined.
