(* ===== verification/Frames.v ===== *)
(** What the operations of the server do to each client, for any relation on clients that the few primitive writes respect: a queued
    message, bytes written to the stream, a closed queue, a cancellation, and updates of the other fields. *)

From stdpp Require Import base gmap strings list.
From Stdlib Require Import ZArith Lia.
From S2P Require Import Prelude Errors Maps Text Varint Voice Float32 Messages Crypt Proto Calendar Bans Client Anticheat.
From S2P Require Import State StateInv StateProps Handlers HandlerInv HandlerProps Net Greeting NetProps Sampler SamplerProps Http HttpProps.
From S2P Require Import System.
Import ServerState Handler Udp Clean Tcp Sampler Http.

(** The identity, the queue, the stream, the cancellation, the count of bad messages and the channel are the same. *)
Definition quiet (c c' : Client.Client) : Prop :=
  Client.identity c' = Client.identity c /\ Client.publisher c' = Client.publisher c /\ Client.write c' = Client.write c
  /\ Client.cancelled c' = Client.cancelled c /\ Client.bad_net_count c' = Client.bad_net_count c
  /\ Client.channel_id c' = Client.channel_id c.

(** The relations the primitive writes respect. *)
Class ClientFrame (R : relation Client.Client) := {
  frame_preorder :: PreOrder R;
  frame_quiet c c' : quiet c c' -> R c c';
  frame_queue c m p : try_send (Client.publisher c) m = Some p -> R c (Client.set_publisher c p);
  frame_send c data : R c (fst (Client.send c data));
  frame_close c : R c (Client.set_publisher c (mkPublisher (queue (Client.publisher c)) true));
  frame_cancel c : R c (Client.set_write (Client.set_cancelled c true) None);
}.

(** The relations that a move to another channel respects too. *)
Class MovingFrame (R : relation Client.Client) := {
  moving_frame :: ClientFrame R;
  frame_move c k : R c (Client.set_channel_id c k);
}.

(** The same clients, each related to what it was. *)
Definition frames (R : relation Client.Client) (st st' : ServerState) : Prop :=
  next_ref st' = next_ref st /\ forall r, option_Forall2 R (heap st !! r) (heap st' !! r).

Section frames.
Context {R : relation Client.Client} `{!ClientFrame R}.

#[global] Instance frames_preorder : PreOrder (frames R).
Proof.
  split; [by split|]. intros s1 s2 s3 [N1 L1] [N2 L2]. split; [congruence|]. intros r. etransitivity; [apply L1|apply L2].
Qed.

Lemma frames_heap st st' : next_ref st' = next_ref st -> heap st' = heap st -> frames R st st'.
Proof. intros Hn Hh. split; [done|]. intros r. by rewrite Hh. Qed.

Lemma fold_frames {A} (f : ServerState -> A -> ServerState) l st :
  (forall st x, frames R st (f st x)) -> frames R st (fold_left f l st).
Proof. intros Hf. revert st. induction l as [|x l IH]; intros st; [done|]. cbn. etransitivity; [apply Hf|apply IH]. Qed.

Lemma insert_frames st r c c' : heap st !! r = Some c -> R c c' -> frames R st (set_heap st (<[r := c']> (heap st))).
Proof.
  intros Hc Hs. split; [done|]. intros r'. cbn. destruct (decide (r = r')) as [<-|Hne].
  - rewrite lookup_insert_eq, Hc. by constructor.
  - by rewrite lookup_insert_ne.
Qed.

Lemma alter_frames st r f : (forall c, R c (f c)) -> frames R st (upd_client st r f).
Proof.
  intros Hf. split; [done|]. intros r'. cbn. destruct (decide (r = r')) as [<-|Hne].
  - rewrite lookup_alter_eq. destruct (heap st !! r); by constructor.
  - by rewrite lookup_alter_ne.
Qed.

(** An update that keeps the queue, the stream and the cancellation. *)
Lemma quiet_frames st r f : (forall c, quiet c (f c)) -> frames R st (upd_client st r f).
Proof. intros Hf. apply alter_frames. intros c. by apply frame_quiet. Qed.

Context `{HashIter} `{MumbleProto} `{Aes128} `{UdpSocket} `{Unicode} `{UsernameRegex}
  `{SerdeJson (list BanList.BanEntry)} `{SerdeJson Anticheat.PersistedHeard}.

Lemma message_frame {T} `{ProtoMessage T} c kind (m : T) : R c (fst (Client.send_message c kind m)).
Proof. unfold Client.send_message. destruct (message_to_bytes kind m); [apply frame_send|done]. Qed.

Lemma voice_frame c p : R c (fst (fst (Client.send_voice_packet udp_send c p))).
Proof.
  unfold Client.send_voice_packet. destruct (Client.udp_socket_addr c).
  - destruct (encrypt _ _). by apply frame_quiet.
  - pose proof (frame_send c (get_mumble_buffer MessageKind.UDPTunnel (encode_voice_packet p []))) as Hs.
    unfold Client.send_message_raw. by destruct (Client.send c _).
Qed.

Lemma publish_frames st r m : frames R st (publish st r m).
Proof.
  unfold publish. destruct (heap st !! r) as [c|] eqn:Hc; [|done]. destruct (try_send _ m) as [p|] eqn:Ep; [|done].
  eapply insert_frames; [done|by eapply frame_queue].
Qed.

Lemma broadcast_frames {T} `{ProtoMessage T} st kind (m : T) : frames R st (fst (broadcast_message st kind m)).
Proof.
  unfold broadcast_message. destruct (message_to_bytes kind m); [|done]. cbn [fst].
  etransitivity; [|apply fold_frames; intros; apply publish_frames]. done.
Qed.

Lemma on_client_frames {A} st r (f : Client.Client -> Client.Client * Result MumbleError A) :
  (forall c, R c (fst (f c))) -> frames R st (fst (on_client st r f)).
Proof.
  intros Hf. unfold on_client. destruct (heap st !! r) as [c|] eqn:Hc; [|done]. specialize (Hf c).
  destruct (f c) as [c' res]. by apply (insert_frames st r c).
Qed.

Lemma left_channel_frames st s leave : frames R st (fst (handle_client_left_channel st s leave)).
Proof.
  unfold handle_client_left_channel. set (x := match channels st !! leave with Some _ => _ | None => _ end).
  assert (frames R st x.1) as Hx by (subst x; by case_match). destruct x as [st1 keep]. cbn [fst] in Hx.
  destruct keep; [done|]. set (st2 := set_channels st1 _). pose proof (broadcast_frames st2 MessageKind.ChannelRemove
    (ChannelRemoveMsg.mkChannelRemove (Some leave))) as Hb.
  destruct (broadcast_message _ _ _) as [st3 res]. etransitivity; [exact Hx|exact Hb].
Qed.

(** A move, once the client has its new channel. *)
Lemma set_client_channel_rest st r c k :
  heap st !! r = Some c ->
  frames R (set_heap st (<[r := Client.set_channel_id c k]> (heap st))) (fst (set_client_channel st r k)).
Proof.
  intros Hc. unfold set_client_channel. rewrite Hc. unfold Client.join_channel.
  set (x := if k =? Client.channel_id c then (c, None) else _).
  assert (fst x = Client.set_channel_id c k) as E1 by (subst x; destruct (Z.eqb_spec k (Client.channel_id c)) as [->|]; [by destruct c|done]).
  destruct x as [c1 leave]. cbn [fst] in E1. subst c1. set (st0 := set_heap st _).
  destruct (get_channel_by_channel_id _ k) as [[k' ch]|]; [|done].
  match goal with |- context [broadcast_message ?s ?kd ?m] =>
    pose proof (broadcast_frames s kd m) as Hb; destruct (broadcast_message s kd m) as [st1 res] end.
  assert (frames R st0 st1) as K2 by exact Hb. destruct leave as [leave|]; [|done]. case_if; [done|].
  etransitivity; [exact K2|apply left_channel_frames].
Qed.

Lemma send_voice_packet_frames st r p : frames R st (fst (send_voice_packet st r p)).
Proof.
  unfold send_voice_packet. destruct (heap st !! r) as [c|] eqn:Hc; [|done]. pose proof (voice_frame c p) as Hs.
  destruct (Client.send_voice_packet udp_send c p) as [[c1 d] res]. exact (insert_frames st r c c1 Hc Hs).
Qed.

Lemma crypt_setup_frame c reset now : R c (fst (Client.send_crypt_setup c reset now)).
Proof. unfold Client.send_crypt_setup. etransitivity; [|apply message_frame]. case_if; [by apply frame_quiet|done]. Qed.

Lemma reset_client_crypt_frames st r now : frames R st (fst (reset_client_crypt st r now)).
Proof.
  unfold reset_client_crypt. destruct (heap st !! r) as [c|] eqn:Hc; [|done]. cbn [Client.remove_udp_socket].
  etransitivity; [|apply on_client_frames; intros; apply crypt_setup_frame].
  set (st1 := set_heap _ _). assert (frames R st st1) as K1.
  { apply (insert_frames (set_clients_without_udp st _) r c); [done|by apply frame_quiet]. }
  etransitivity; [exact K1|]. by destruct (Client.udp_socket_addr c).
Qed.

Lemma disconnect_frames st s reason : frames R st (disconnect st s reason).
Proof.
  unfold disconnect. generalize (r ← get_client_by_session_id st s; _ ← upgrade st r; Some r). intros client.
  unfold disconnect_found. destruct (clients st !! s); [|done]. destruct (client ≫= _) as [[r c]|]; [|done].
  set (st1 := upd_client _ r (fun c => Client.set_write _ None)). assert (frames R st st1) as K1.
  { subst st1. etransitivity; [|apply alter_frames; intros c'; apply frame_cancel]. done. }
  set (st2 := upd_client st1 r _). assert (frames R st1 st2) as K2 by (by apply quiet_frames).
  set (st3 := match Client.udp_socket_addr c with Some _ => _ | None => _ end).
  assert (frames R st2 st3) as K3 by (subst st3; by destruct (Client.udp_socket_addr c)).
  assert (frames R st3 (broadcast_client_delete st3 s (Client.channel_id c))) as K4.
  { unfold broadcast_client_delete. set (m := UserRemoveMsg.mkUserRemove _ _ _ _).
    pose proof (broadcast_frames st3 MessageKind.UserRemove m) as Hb. destruct (broadcast_message st3 _ m) as [st4 res].
    etransitivity; [exact Hb|apply left_channel_frames]. }
  do 4 (etransitivity; [eassumption|]). by destruct (get_channel_by_channel_id _ _) as [[k ch]|].
Qed.

Lemma clean_rest_frames st q now : frames R st (clean_rest st q now).
Proof.
  unfold clean_rest. destruct (fold_left (collect _ now) _ _) as [rm rs].
  etransitivity; [|apply fold_frames; intros; apply disconnect_frames].
  etransitivity; [|apply (fold_frames (fun st r => fst (reset_client_crypt st r now))); intros; apply reset_client_crypt_frames].
  done.
Qed.

Lemma crypt_frames st r c cs : heap st !! r = Some c -> frames R st (set_heap st (<[r := Client.set_crypt_state c cs]> (heap st))).
Proof. intros Hc. apply (insert_frames st r c); [done|by apply frame_quiet]. Qed.

Lemma try_decrypt_frames l st buf addr now : frames R st (fst (try_decrypt st l buf addr now)).
Proof.
  revert st. induction l as [|[k r] l IH]; intros st; [done|]. cbn [try_decrypt].
  destruct (heap st !! r) as [c|] eqn:Hc; [|apply IH]. destruct (decrypt ServerBound _ buf now) as [cs [[p rest]|e]].
  - etransitivity; [by apply (crypt_frames st r c cs)|]. unfold set_client_socket. cbn [fst].
    set (st1 := set_heap st _). set (st2 := upd_client st1 r _). assert (frames R st1 st2) as K2 by (by apply quiet_frames).
    etransitivity; [exact K2|]. by destruct (_ ≫= _).
  - etransitivity; [by apply (crypt_frames st r c cs)|apply IH].
Qed.

Lemma forward_frames st r p addr now : frames R st (forward st r p addr now).
Proof.
  unfold forward. destruct (heap st !! r) as [c|] eqn:Hc; [|done]. destruct (into_client_bound _ _ _); [|apply publish_frames].
  destruct (encrypt _ _) as [cs dg]. 
  assert (R c (Client.set_last_udp_ping (Client.set_crypt_state c cs) now)) as Hq by (by apply frame_quiet).
  exact (insert_frames st r c _ Hc Hq).
Qed.

Lemma udp_frames st received v now : frames R st (udp_server_run st received v now).
Proof.
  destruct received as [[dg addr]|e]; [|done]. unfold udp_server_run. generalize (take udp_buffer dg). intros buf.
  unfold handle_packet. destruct buf as [|b0 [|b1 rest]]; [done|done|]. case_if.
  - by destruct (read_varint _) as [[ts rest']|].
  - destruct (get_client_by_socket st addr) as [r|].
    + destruct (heap st !! r) as [c|] eqn:Hc; [|done].
      destruct (decrypt ServerBound _ _ _) as [cs [[p rest']|err]]; cbn [fst].
      * etransitivity; [by apply (crypt_frames st r c cs)|apply forward_frames].
      * case_if; [|by apply (crypt_frames st r c cs)]. cbn [fst].
        etransitivity; [by apply (crypt_frames st r c cs)|apply reset_client_crypt_frames].
    + unfold find_client_with_decrypt.
      pose proof (try_decrypt_frames (hash_iter (clients_without_udp st)) st (b0 :: b1 :: rest) addr now) as Ht.
      destruct (try_decrypt _ _ _ _ _) as [st1 [[r p]|]]; [|exact Ht].
      etransitivity; [exact Ht|]. cbn [fst]. etransitivity; [|apply forward_frames]. done.
Qed.

Lemma client_run_frames st r : frames R st (fst (client_run st r)).
Proof. apply client_run_respects; [apply _|intros; apply on_client_frames; intros; apply message_frame|intros; apply broadcast_frames]. Qed.

Lemma greet_item_frames st r item : frames R st (fst (greet_item st r item)).
Proof. apply greet_item_respects; [apply _|intros; apply on_client_frames; intros; apply message_frame|intros; apply broadcast_frames]. Qed.

Lemma deliver_frames speaker packet rec now acc p : frames R acc.1 (deliver speaker packet rec now acc p).1.
Proof.
  destruct acc as [st n]. unfold deliver. destruct (heap st !! p.2) as [c|] eqn:Hc; [|done]. case_if; [done|]. cbn [fst].
  etransitivity; [|apply publish_frames]. case_if; [|done]. apply (insert_frames st p.2 c); [done|by apply frame_quiet].
Qed.

Lemma voice_packet_frames st r p now : frames R st (fst (handle_voice_packet st r p now)).
Proof.
  unfold handle_voice_packet. set (st1 := match packet_position p with Some _ => _ | None => _ end).
  assert (frames R st st1) as K1.
  { subst st1. destruct (packet_position p); [|done]. apply quiet_frames. intros c. unfold Anticheat.note_position. by repeat case_if. }
  clearbody st1. destruct (heap st1 !! r) as [c|]; [|done]. case_if; [done|]. destruct p as [|target s k q pos]; [done|]. case_if.
  - pose proof (send_voice_packet_frames st1 r (VAudio target s k q pos)) as Hs.
    destruct (send_voice_packet st1 r _) as [st2 [u|e]]; cbn [seq fst] in *; by etransitivity.
  - set (st2 := if takes_record st1 c now then _ else st1).
    assert (frames R st1 st2) as K2 by (subst st2; case_if; [by apply quiet_frames|done]).
    assert (forall l acc, frames R acc.1 (fold_left (deliver c (VAudio target s k q pos) (takes_record st1 c now) now) l acc).1) as Hd.
    { induction l as [|x l IH]; intros acc; [done|]. cbn [fold_left]. etransitivity; [apply deliver_frames|apply IH]. }
    set (l := hash_iter _). specialize (Hd l (st2, 0)). destruct (fold_left _ l (st2, 0)) as [st3 n]. cbn [fst] in *.
    do 3 (etransitivity; [eassumption|]). apply quiet_frames. intros c'. unfold Anticheat.note_emission. by case_if.
Qed.

(** The messages that move nobody. *)
Lemma dispatch_still_frames st r kind buf now st' res :
  kind <> MessageKind.ChannelState -> kind <> MessageKind.UserState ->
  dispatch st r kind buf now = Done (st', res) -> frames R st st'.
Proof.
  intros Hk1 Hk2. assert (forall x : ServerState * Result MumbleError unit,
    frames R st (fst x) -> Done x = Done (st', res) -> frames R st st') as Hx by (intros x Hi [= ->]; done).
  assert (forall T (P : ProtoMessage T) (h : T -> Outcome (ServerState * Result MumbleError unit)),
    (forall m, h m = Done (st', res) -> frames R st st') -> try_handle h st buf = Done (st', res) -> frames R st st') as Ht.
  { intros T P h Hh. unfold try_handle. destruct (parse_from_bytes buf); [apply Hh|by apply Hx]. }
  destruct kind; cbn [dispatch]; try (by apply Hx); try (apply Ht; intros m; try apply Hx); try done.
  - destruct (decode_voice_packet ServerBound buf) as [[p rest]|e]; [|by apply Hx]. apply Hx, voice_packet_frames.
  - apply on_client_frames. intros c. etransitivity; [|apply message_frame]. by apply frame_quiet.
  - unfold handle_crypt_setup. destruct (heap st !! r) as [c|] eqn:Hc; [|by apply Hx]. case_if.
    + destruct (set_decrypt_nonce _ _) as [cs|]; [|done]. by apply Hx, (crypt_frames st r c cs).
    + apply Hx, on_client_frames. intros; apply crypt_setup_frame.
  - unfold handle_voice_target. case_if; [done|]. destruct (_ ≫= _); [|done].
    cbn [fst]. set (st1 := upd_client st r _). assert (frames R st st1) as K1 by (by apply quiet_frames). etransitivity; [exact K1|].
    apply quiet_frames. intros c'. unfold Anticheat.record_targets. by case_if.
  - apply on_client_frames. intros; apply message_frame.
  - apply on_client_frames. intros; apply message_frame.
Qed.

Lemma count_bad_frames st r : (forall c n, R c (Client.set_bad_net_count c n)) -> frames R st (fst (count_bad st r)).
Proof.
  intros Hb. unfold count_bad. destruct (heap st !! r) as [c|] eqn:Hc; [|done]. by apply (insert_frames st r c).
Qed.

Lemma close_frames st r : frames R st (close_queue st r).
Proof. apply alter_frames, frame_close. Qed.

(** What the queue task does with a message, before it counts failures. *)
Definition act (st : ServerState) (r : ClientRef) (m : ClientMessage) (now : Z) : ServerState * Result MumbleError unit :=
  match m with
  | RouteVoicePacket packet => handle_voice_packet st r packet now
  | SendVoicePacket packet => send_voice_packet st r packet
  | SendMessage kind payload => on_client st r (fun c => Client.send c payload)
  end.

Lemma consume_act st r m now :
  consume st r m now = match act st r m now with (st', Ok _) => (st', false) | (st', Err _) => count_bad st' r end.
Proof. unfold consume, act. by destruct m. Qed.

Lemma act_frames st r m now : frames R st (fst (act st r m now)).
Proof.
  destruct m as [p|p|k payload]; [apply voice_packet_frames|apply send_voice_packet_frames|].
  apply on_client_frames. intros c. apply frame_send.
Qed.

Lemma consume_frames st r m now : (forall c n, R c (Client.set_bad_net_count c n)) -> frames R st (fst (consume st r m now)).
Proof.
  intros Hb. rewrite consume_act. pose proof (act_frames st r m now) as Hx. destruct (act st r m now) as [st1 [u|e]]; [done|].
  etransitivity; [exact Hx|by apply count_bad_frames].
Qed.
(** An entry of the heap is written with what the anticheat records. *)
Lemma record_frames st r c a : heap st !! r = Some c -> frames R st (set_heap st (<[r := Client.set_ac c a]> (heap st))).
Proof. intros Hc. apply (insert_frames st r c); [done|by apply frame_quiet]. Qed.

Lemma punish_frames st r c reason epoch : frames R st (punish st r c reason epoch).
Proof.
  unfold punish. case_if; [by apply quiet_frames|]. case_if; [by apply frames_heap|]. case_if; [|done].
  destruct (BanList.add _ _ _ _ _ _ _ _). by apply frames_heap.
Qed.

Lemma flag_frames st r rd active reason now epoch : frames R st (fst (flag st r rd active reason now epoch)).
Proof.
  unfold flag. destruct (heap st !! r) as [c|] eqn:Hc; [|done]. case_if; [done|].
  set (c1 := Client.set_ac c _). set (a := Anticheat.push_log _ _).
  assert (forall c2 (posts : list (string * Embed)), quiet c1 c2 -> frames R st (fst (let st0 := set_anticheat (set_heap st (<[r := c2]> (heap st))) a in
    if Client.ac_exempt (Client.ac c2) then (st0, posts) else (punish st0 r c2 reason epoch, posts)))) as Hp.
  { intros c2 posts (Ep & Ew & Ec). cbv zeta.
    assert (frames R st (set_anticheat (set_heap st (<[r := c2]> (heap st))) a)) as K1.
    { etransitivity; [apply (insert_frames st r c c2 Hc); by apply frame_quiet|by apply frames_heap]. }
    case_if; [exact K1|]. etransitivity; [exact K1|apply punish_frames]. }
  destruct (Anticheat.webhook a) as [url|]; [|by apply Hp]. case_if; by apply Hp.
Qed.

Lemma strike_frames st r rd active now epoch : frames R st (fst (strike st r rd active now epoch)).
Proof.
  unfold strike. destruct (heap st !! r) as [c|] eqn:Hc; [|done]. case_if.
  - case_if; [|by apply record_frames]. set (c1 := Client.set_ac _ (Client.set_ac_score _ _)).
    etransitivity; [|apply flag_frames]. apply (insert_frames st r c c1); [done|by apply frame_quiet].
  - apply (insert_frames st r c); [done|]. apply frame_quiet. by case_if.
Qed.

Lemma evaluate_frames env now epoch acc p : frames R acc.1 (evaluate env now epoch acc p).1.
Proof.
  destruct acc as [st posts], p as [i sn]. unfold evaluate. destruct (heap st !! snap_ref sn) as [c|] eqn:Hc; [|done].
  set (st1 := set_heap st _). assert (frames R st st1) as K1.
  { apply (insert_frames st (snap_ref sn) c); [done|]. by apply frame_quiet. }
  pose proof (strike_frames st1 (snap_ref sn) (read_client (anticheat st) env now i sn c)
    (as_u32 (Z.of_nat (length (env_snaps env)))) now epoch) as Hs.
  destruct (strike _ _ _ _ _ _) as [st2 more]. etransitivity; [exact K1|exact Hs].
Qed.

Lemma run_sampler_frames st ticks now epoch : frames R st (fst (fst (run_sampler st ticks now epoch))).
Proof.
  assert (frames R st (fst (sample st now epoch))) as Hs.
  { unfold sample. case_if; [done|]. generalize (make_env st now). intros env.
    assert (forall l acc, frames R acc.1 (fold_left (evaluate env now epoch) l acc).1) as Hf.
    { induction l as [|x l IH]; intros acc; [done|]. cbn [fold_left]. etransitivity; [apply evaluate_frames|apply IH]. }
    apply (Hf _ (st, [])). }
  unfold run_sampler. destruct (sample st now epoch) as [st1 posts]. cbn [fst] in *. etransitivity; [exact Hs|].
  case_if; [|done]. unfold flush_heard. repeat case_match; try done; by apply frames_heap.
Qed.

Lemma post_user_frames st user action epoch : frames R st (fst (post_anticheat_user st user action epoch)).
Proof.
  assert (forall st kind c reason, frames R st (add_ban st kind c reason epoch)) as Ha
    by (intros; unfold add_ban; destruct (BanList.add _ _ _ _ _ _ _ _); by apply frames_heap).
  unfold post_anticheat_user. destruct (_ ≫= _) as [[r c]|]; [|done].
  repeat case_bool_decide; cbn [fst]; [| |by apply frames_heap|by apply quiet_frames| |done].
  - etransitivity; [|by apply quiet_frames]. etransitivity; [|apply Ha]. by apply quiet_frames.
  - etransitivity; [|by apply quiet_frames]. etransitivity; [|by apply quiet_frames].
    unfold remove_matching_bans. destruct (BanList.remove_matching _ _ _ _ _). by apply frames_heap.
  - etransitivity; [apply (Ha st "ban"%string c "banni via panel"%string)|by apply frames_heap].
Qed.

Lemma auth_basic_frames a auth st req now epoch : frames R st (fst (auth_basic a auth st req now epoch)).
Proof.
  unfold auth_basic. destruct (password a); [|done]. destruct auth as [[id pw]|]; [|done]. case_if; [|done].
  destruct req; cbn [route code fst]; try done; try (by apply frames_heap).
  - unfold post_anticheat_clear. cbn [fst]. etransitivity; [|by apply frames_heap].
    apply (fold_frames (fun st p => upd_client st p.2 reset_client_counters)). intros; by apply quiet_frames.
  - unfold get_heard. destruct (_ ≫= _) as [[r c]|]; [by apply quiet_frames|done].
  - unfold post_heard_clear. case_match; [by apply quiet_frames|done].
  - apply post_user_frames.
  - unfold post_deaf. case_match; [by apply quiet_frames|done].
  - unfold post_mute. case_match; [by apply quiet_frames|done].
Qed.
End frames.

Section moving_frames.
Context {R : relation Client.Client} `{!MovingFrame R}.
Context `{HashIter} `{MumbleProto} `{Aes128} `{UdpSocket}.

Lemma set_client_channel_frames st r k : frames R st (fst (set_client_channel st r k)).
Proof.
  destruct (heap st !! r) as [c|] eqn:Hc; [|unfold set_client_channel; by rewrite Hc].
  etransitivity; [|by apply (set_client_channel_rest st r c k)]. apply (insert_frames st r c); [done|apply frame_move].
Qed.

Lemma channel_state_frames st r m : frames R st (fst (handle_channel_state st r m)).
Proof.
  unfold handle_channel_state. case_if; [done|]. destruct (add_channel st m) as [st1 ch] eqn:Ea.
  assert (frames R st st1) as K1 by (unfold add_channel in Ea; destruct (get_free_channel_id st) as [st0 i] eqn:Eg;
    unfold get_free_channel_id in Eg; destruct (free_id _ _); by simplify_eq).
  pose proof (broadcast_frames st1 MessageKind.ChannelState (Channel.get_channel_state ch)) as Hb.
  destruct (broadcast_message st1 _ _) as [st2 err]. cbn [fst] in Hb.
  pose proof (set_client_channel_frames st2 r (Channel.id ch)) as Hc.
  destruct (set_client_channel st2 r _) as [st3 [u|e]]; cbn [seq fst] in *; etransitivity; eauto; by etransitivity.
Qed.

Lemma user_state_frames st r m : frames R st (fst (handle_user_state st r m)).
Proof.
  unfold handle_user_state. destruct (heap st !! r) as [c|]; [|done]. case_if; [done|].
  set (st0 := upd_client st r _). assert (frames R st st0) as K0
    by (apply quiet_frames; intros c'; unfold Client.update; by repeat case_if).
  set (x := if has _ then set_client_channel _ r _ else _).
  assert (frames R st x.1) as Hx' by (subst x; case_if; [etransitivity; [exact K0|apply set_client_channel_frames]|done]).
  destruct x as [st1 [u|e]]; cbn [seq fst] in *; [|done]. etransitivity; [exact Hx'|].
  etransitivity; [|apply fold_frames; by intros]. apply fold_frames. by intros.
Qed.

Lemma dispatch_frames st r kind buf now st' res : dispatch st r kind buf now = Done (st', res) -> frames R st st'.
Proof.
  intros Hd. destruct (decide (kind = MessageKind.ChannelState)) as [->|K1];
    [|destruct (decide (kind = MessageKind.UserState)) as [->|K2]; [|by eapply dispatch_still_frames]];
    cbn [dispatch] in Hd; unfold try_handle in Hd; (destruct (parse_from_bytes buf) as [m|]; [|by simplify_eq]);
    injection Hd as Hd; rewrite <- (f_equal fst Hd : fst _ = st').
  - apply channel_state_frames.
  - apply user_state_frames.
Qed.
End moving_frames.

Lemma frames_lookup R st st' r c : frames R st st' -> heap st !! r = Some c -> exists c', heap st' !! r = Some c' /\ R c c'.
Proof. intros [_ Hf] Hc. specialize (Hf r). rewrite Hc in Hf. inversion_clear Hf. eauto. Qed.

(** ** One client through the steps of the server *)

(** Relations that respect the counting of bad messages and a broken stream too. *)
Class TaskFrame (R : relation Client.Client) := {
  task_frame :: MovingFrame R;
  frame_bad c n : R c (Client.set_bad_net_count c n);
  frame_break c : R c (Client.set_write c ((fun w => Client.mkWriter (Client.sent w) true) <$> Client.write c));
}.

(** If client [r] is there afterwards, it was there before, and [R] relates it to what it was. *)
Definition follows (R : relation Client.Client) (r : ClientRef) (st st' : ServerState) : Prop :=
  (next_ref st <= next_ref st')%nat /\ forall c', (r < next_ref st)%nat -> heap st' !! r = Some c' ->
    exists c, heap st !! r = Some c /\ R c c'.

Lemma frames_follows R r st st' : frames R st st' -> follows R r st st'.
Proof.
  intros [Hn Hl]. split; [by rewrite Hn|]. intros c' _ Hc'. specialize (Hl r). rewrite Hc' in Hl. inversion_clear Hl. eauto.
Qed.

Section follows.
Context {R : relation Client.Client} `{!TaskFrame R}.
Context `{HashIterLaws} `{MumbleProto} `{Aes128} `{UdpSocket} `{Unicode} `{UsernameRegex}
  `{SerdeJson (list BanList.BanEntry)} `{SerdeJson Anticheat.PersistedHeard}.

#[global] Instance follows_preorder r : PreOrder (follows R r).
Proof.
  split; [intros st; by apply frames_follows|]. intros st1 st2 st3 [N1 O1] [N2 O2]. split; [lia|]. intros c3 Hr Hc3.
  destruct (O2 c3 ltac:(lia) Hc3) as (c2 & Hc2 & S2). destruct (O1 c2 Hr Hc2) as (c1 & Hc1 & S1). exists c1. split; [done|by etransitivity].
Qed.

(** The queue of another client: this one is only written to. *)
Lemma other_turn_follows st r r' cancel now : r <> r' -> follows R r st (fst (queue_turn st r' cancel now)).
Proof.
  intros Hne. unfold queue_turn. destruct (heap st !! r') as [c|]; [|done]. case_if; [done|].
  destruct (recv _) as [[m p]|]; [|case_if; [apply frames_follows, close_frames|done]].
  case_if; [apply frames_follows, close_frames|]. set (st1 := upd_client st r' _).
  assert (follows R r st st1) as K1.
  { split; [apply Nat.le_refl|]. intros c' _. cbn. rewrite lookup_alter_ne by done. intros Hc'. by exists c'. }
  pose proof (consume_frames st1 r' m now frame_bad) as Hl. destruct (consume st1 r' m now) as [st2 ended]. cbn [fst] in Hl.
  etransitivity; [exact K1|]. apply frames_follows. destruct ended; [|done]. etransitivity; [exact Hl|apply close_frames].
Qed.

Lemma new_client_follows st r version auth cs out ip now epoch :
  follows R r st (fst (handle_new_client st version auth cs out ip now epoch)).
Proof.
  unfold handle_new_client. case_if; [done|]. destruct (BanList.is_banned _ _ _); [done|].
  unfold add_client, get_free_session_id. destruct (free_id _ _) as [i n].
  set (w := Client.mkWriter out false). set (p := mkPublisher [] false). cbn [fst].
  set (st1 := set_clients_without_udp _ _). set (r0 := next_ref (set_session_count st n)).
  assert (follows R r st st1) as K1.
  { split; [cbn; lia|]. intros c' Hr. cbn. rewrite lookup_insert_ne by (cbn in *; lia). intros Hc'. by exists c'. }
  set (st2 := if BanList.is_muted _ _ _ then _ else st1).
  assert (frames R st1 st2) as K2 by (subst st2; case_if; [by apply quiet_frames|done]).
  destruct (heap st2 !! r0) as [c|] eqn:Hc; [|etransitivity; [exact K1|by apply frames_follows]].
  destruct (Anticheat.seed_heard _ c _ _) as [a c1] eqn:Es. cbn [fst].
  etransitivity; [exact K1|]. apply frames_follows. etransitivity; [exact K2|].
  apply (insert_frames (set_anticheat st2 a) r0 c); [done|]. apply frame_quiet. unfold Anticheat.seed_heard in Es.
  case_match; by simplify_eq.
Qed.

(** A step of the server is a turn of the queue task of client [r], or it follows the relation. *)
Lemma step_follows allowed r st st' :
  server_step allowed st st' -> (exists cancel now, st' = fst (queue_turn st r cancel now)) \/ follows R r st st'.
Proof.
  destruct 1 as [| |? ? ? ? ? ? ? ? Hd| |st r' cancel now| | | | | | |st r'|st r'|st r'];
    [right|right|right|right|destruct (decide (r = r')) as [<-|Hne]; [left; eauto|right]|right..].
  - apply new_client_follows.
  - apply frames_follows, greet_item_frames.
  - by eapply frames_follows, dispatch_frames.
  - apply frames_follows, count_bad_frames, frame_bad.
  - by apply other_turn_follows.
  - apply frames_follows, udp_frames.
  - apply frames_follows, clean_rest_frames.
  - apply frames_follows, reset_client_crypt_frames.
  - apply frames_follows, disconnect_frames.
  - apply frames_follows, run_sampler_frames.
  - apply frames_follows, auth_basic_frames.
  - unfold reclaim. case_if; [done|]. split; [apply Nat.le_refl|]. intros c' _. cbn.
    destruct (decide (r = r')) as [<-|Hne]; [by rewrite lookup_delete_eq|rewrite lookup_delete_ne by done]. intros Hc'. by exists c'.
  - apply frames_follows, close_frames.
  - apply frames_follows, alter_frames. intros c. apply frame_break.
Qed.
End follows.

(** ** Who a client is, and its count of bad messages: only its own two tasks change the count *)

Definition steady (c c' : Client.Client) : Prop :=
  Client.identity c' = Client.identity c /\ Client.bad_net_count c' = Client.bad_net_count c.

#[global] Instance steady_frame : MovingFrame steady.
Proof.
  split; [split|].
  - split; [done|]. intros a b c [] []. split; congruence.
  - intros c c' (Hi & _ & _ & _ & Hb & _). done.
  - done.
  - intros c data. unfold Client.send. by repeat case_match.
  - done.
  - done.
  - done.
Qed.

(** ** Who a client is, and the channel it takes itself to be in: only a move changes the channel *)

Definition settled (c c' : Client.Client) : Prop :=
  Client.identity c' = Client.identity c /\ Client.channel_id c' = Client.channel_id c.

#[global] Instance settled_frame : ClientFrame settled.
Proof.
  split.
  - split; [done|]. intros a b c [] []. split; congruence.
  - intros c c' (Hi & _ & _ & _ & _ & Hc). done.
  - done.
  - intros c data. unfold Client.send. by repeat case_match.
  - done.
  - done.
Qed.
