(* ===== verification/Connection.v ===== *)
(** The life of one connection: [handle_new_client] and [client_run] of [src/src/server/tcp.rs] from the accepted stream to
    the final [disconnect], with the two tasks of [MessageHandler::handle] under any scheduling.  The stream is all that the client
    sends before it hangs up; a client that stays connected and goes on sending is in Lifecycle. *)

From stdpp Require Import base gmap strings list.
From Stdlib Require Import ZArith Lia.
From S2P Require Import Prelude Errors Maps Text Varint Voice Float32 Messages Crypt Proto Calendar Bans Client Anticheat.
From S2P Require Import State StateInv StateProps Handlers HandlerInv HandlerProps Net Greeting NetProps Wire WireFormat Codec CodecProps Delivery.
From S2P Require Import Sampler SamplerProps Http HttpProps System Frames.
Import ServerState Handler Udp Clean Tcp.

(** ** The code *)

(** Which of the two tasks of a client runs next, the one that reads its stream or the one that serves its queue, with the
    choice of its [select!] between a cancellation and the stream or the queue. *)
Inductive TaskTurn :=
  | ReadTurn (cancel : bool)
  | ServeTurn (cancel : bool).

(** What the network gives for one accepted stream: the address of its peer, the results of setting the socket options, and the
    TLS handshake: [None] when it takes more than five seconds, else the bytes the client will send over it. *)
Record TcpStream := mkTcpStream {
  peer_addr : Result MumbleError SocketAddr;
  set_nodelay : Result MumbleError unit;
  set_linger : Result MumbleError unit;
  set_tcp_keepalive : Result MumbleError unit;
  tls_accept : option (Result MumbleError (list Z)) }.

(** The bytes a stream can deliver. *)
Definition sent (accepted : Result MumbleError TcpStream) : list Z :=
  match accepted with
  | Ok tcp_stream => match tls_accept tcp_stream with Some (Ok stream) => stream | _ => [] end
  | Err _ => []
  end.

Section code.
Context `{HashIter} `{MumbleProto} `{Aes128} `{UdpSocket} `{Unicode} `{UsernameRegex}.

(** One turn of a task of the client: the bytes left on the stream, or [None] when the task ends.  [join_next] then returns, the
    other task is shut down, and the receiving end of the queue is dropped. *)
Definition task_turn (st : ServerState) (r : ClientRef) (stream : list Z) (turn : TaskTurn) (now : Z)
    : Outcome (ServerState * option (list Z)) :=
  match turn with
  | ReadTurn cancel =>
    if default true (Client.cancelled <$> heap st !! r) && cancel then Done (close_queue st r, None) else
    match read_turn st r stream now with
    | (Panic, _) => Panic
    | (Done (st, true), _) => Done (close_queue st r, None)
    | (Done (st, false), stream) => Done (st, Some stream)
    end
  | ServeTurn cancel =>
    match queue_turn st r cancel now with
    | (st, Ended) => Done (close_queue st r, None)
    | (st, _) => Done (st, Some stream)
    end
  end.

(** The tasks of a client, turn by turn, each at its instant, until one of them ends ([true]). *)
Fixpoint serve (schedule : list (TaskTurn * Z)) (st : ServerState) (r : ClientRef) (stream : list Z)
    : Outcome (ServerState * bool) :=
  match schedule with
  | [] => Done (st, false)
  | (turn, now) :: schedule =>
    match task_turn st r stream turn now with
    | Panic => Panic
    | Done (st, None) => Done (st, true)
    | Done (st, Some stream) => serve schedule st r stream
    end
  end.

(** [handle_new_client]: a connection that passed the accept loop and TLS, with the bytes the client sends.  [false] when the
    schedule is used up while the client is still served. *)
Definition connection (st : ServerState) (stream : list Z) (peer_ip : string) (server_version : VersionMsg.Version)
    (random_key : list Z) (timeout1 timeout2 : bool) (now epoch : Z) (schedule : list (TaskTurn * Z))
    : Outcome (ServerState * bool) :=
  match init stream server_version random_key now timeout1 timeout2 with
  | (_, Err _) => Done (st, true)
  | (out, Ok (version, authenticate, crypt_state, stream)) =>
    match handle_new_client st version authenticate crypt_state out peer_ip now epoch with
    | (st, Err _) => Done (st, true)
    | (st, Ok r) =>
      let session_id := default 0 (Client.session_id <$> heap st !! r) in
      match (match client_run st r with
             | (st, Err _) => Done (close_queue st r, true)
             | (st, Ok _) => serve schedule st r stream
             end) with
      | Panic => Panic
      | Done (st, false) => Done (st, false)
      | Done (st, true) => Done (disconnect st session_id Disconnected, true)
      end
    end
  end.

(** What the task spawned for an accepted stream does first: three socket options, whose failure is unwrapped, and TLS. *)
Definition handle_accept_tls_stream (tcp_stream : TcpStream) : Outcome (Result MumbleError (list Z)) :=
  match set_nodelay tcp_stream, set_linger tcp_stream, set_tcp_keepalive tcp_stream with
  | Ok _, Ok _, Ok _ =>
    Done match tls_accept tcp_stream with
         | Some res => res
         | None => Err UnknownError
         end
  | _, _, _ => Panic
  end.

(** One turn of the accept loop, and the task it spawns up to its end. *)
Definition create_tcp_server (st : ServerState) (accepted : Result MumbleError TcpStream)
    (server_version : VersionMsg.Version) (random_key : list Z) (timeout1 timeout2 : bool) (now epoch : Z)
    (schedule : list (TaskTurn * Z)) : Outcome (ServerState * bool) :=
  match accepted with
  | Err _ => Done (st, true)
  | Ok tcp_stream =>
    match peer_addr tcp_stream with
    | Err _ => Done (st, true)
    | Ok addr =>
      if negb (has_room st) then Done (st, true) else
      match handle_accept_tls_stream tcp_stream with
      | Panic => Panic
      | Done (Err _) => Done (st, true)
      | Done (Ok tls_stream) =>
        connection st tls_stream addr.1 server_version random_key timeout1 timeout2 now epoch schedule
      end
    end
  end.
End code.

#[global] Instance QueueTurn_eq_dec : EqDecision QueueTurn.
Proof. solve_decision. Defined.

(** How often the reading task runs. *)
Fixpoint read_turns (schedule : list (TaskTurn * Z)) : nat :=
  match schedule with
  | [] => 0
  | (ReadTurn _, _) :: schedule => S (read_turns schedule)
  | (ServeTurn _, _) :: schedule => read_turns schedule
  end.

(** ** What the tasks of a client leave alone *)

Section connection.
Context `{HashIterLaws} `{MumbleProto} `{Aes128} `{UdpSocket} `{Unicode} `{UsernameRegex}.

(** The clients, their number, the ban list and the configuration are the same, and no client is lost. *)
Definition no_trace (st st' : ServerState) : Prop :=
  same_core st st' /\ forall s r, strong st s r -> strong st' s r.
#[global] Instance no_trace_preorder : PreOrder no_trace.
Proof. split; [done|]. intros a b c [C1 S1] [C2 S2]. split; [by etransitivity|eauto]. Qed.

Lemma shape_no_trace st st' : same_tables st st' -> same_shape st st' -> no_trace st st'.
Proof. intros Hc Hs. split; [by apply tables_core|]. intros s r. by apply same_shape_strong. Qed.

Lemma close_queue_no_trace st r : no_trace st (close_queue st r).
Proof. apply shape_no_trace; [apply upd_client_tables|by apply upd_client_same]. Qed.

Lemma count_bad_no_trace st r : no_trace st (fst (count_bad st r)).
Proof. apply shape_no_trace; [apply count_bad_tables|apply count_bad_same]. Qed.

Lemma read_turn_no_trace st r stream now st' e rest :
  read_turn st r stream now = (Done (st', e), rest) -> no_trace st st'.
Proof.
  unfold read_turn. destruct (match read_u16 stream with Ok _ => _ | Err _ => _ end) as [kind s1].
  destruct (handle_stream_read st r kind s1 now) as [[[st1 res]|] s2] eqn:Eh; [|done].
  assert (no_trace st st1) as K1.
  { unfold handle_stream_read in Eh. destruct kind as [k|]; [|by simplify_eq].
    destruct (read_u32 s1) as [[size s3]|]; [|by simplify_eq]. destruct (Proto.read_exact _ s3) as [[buf s4]|]; [|by simplify_eq].
    destruct (MessageKind.try_from k) as [kind|]; [|by simplify_eq]. injection Eh as Ed _.
    split; [by eapply dispatch_core|]. intros s' r'. by eapply dispatch_strong. }
  destruct res as [u|err]; [by intros [= <- _ _]|]. pose proof (count_bad_no_trace st1 r) as K2.
  destruct (count_bad st1 r) as [st2 b]. intros [= <- _ _]. by etransitivity.
Qed.

Lemma queue_turn_no_trace st r cancel now : no_trace st (fst (queue_turn st r cancel now)).
Proof.
  split; [apply tables_core, queue_turn_tables|]. intros s r'. apply same_shape_strong, queue_turn_same.
Qed.

Lemma task_turn_no_trace st r stream turn now st' left :
  task_turn st r stream turn now = Done (st', left) -> no_trace st st'.
Proof.
  unfold task_turn. destruct turn as [cancel|cancel].
  - case_if; [intros [= <- _]; apply close_queue_no_trace|].
    destruct (read_turn st r stream now) as [[[st1 [|]]|] rest] eqn:Er; [| |done]; apply read_turn_no_trace in Er; intros [= <- _];
      [|done]. etransitivity; [exact Er|apply close_queue_no_trace].
  - pose proof (queue_turn_no_trace st r cancel now) as Hq. destruct (queue_turn st r cancel now) as [st1 t]. cbn [fst] in Hq.
    destruct t; intros [= <- _]; [done..|]. etransitivity; [exact Hq|apply close_queue_no_trace].
Qed.

Lemma serve_no_trace schedule st r stream st' over :
  serve schedule st r stream = Done (st', over) -> no_trace st st'.
Proof.
  revert st stream. induction schedule as [|[turn now] schedule IH]; intros st stream; cbn [serve]; [by intros [= <- _]|].
  destruct (task_turn st r stream turn now) as [[st1 [rest|]]|] eqn:Et; [| |done]; apply task_turn_no_trace in Et.
  - intros Hs. etransitivity; [exact Et|by eapply IH].
  - by intros [= <- _].
Qed.

(** ** The tasks end *)

(** After a turn that does not end the task, the client is the same, and its count of bad messages has not fallen: it is the same,
    or one more and at most 21. *)
Definition tolerated (c c' : Client.Client) : Prop :=
  Client.identity c' = Client.identity c
  /\ (Client.bad_net_count c' = Client.bad_net_count c
     \/ (Client.bad_net_count c <= 20 /\ Client.bad_net_count c' = as_u32 (Client.bad_net_count c + 1))).

Lemma count_bad_tolerated st r c st' :
  heap st !! r = Some c -> count_bad st r = (st', false) ->
  exists c', heap st' !! r = Some c' /\ Client.identity c' = Client.identity c
    /\ Client.bad_net_count c <= 20 /\ Client.bad_net_count c' = as_u32 (Client.bad_net_count c + 1).
Proof.
  intros Hc. unfold count_bad. rewrite Hc. destruct (Z.ltb_spec 20 (Client.bad_net_count c)); [done|]. intros [= <-].
  cbn [heap set_heap]. rewrite lookup_insert_eq. eexists. split; [done|]. by split; [|split].
Qed.

Lemma queue_turn_tolerated st r cancel now st' t c :
  queue_turn st r cancel now = (st', t) -> t <> Ended -> heap st !! r = Some c ->
  exists c', heap st' !! r = Some c' /\ tolerated c c'.
Proof.
  intros Hq Ht Hc. unfold queue_turn in Hq. rewrite Hc in Hq. destruct (closed _); [by simplify_eq|].
  destruct (recv _) as [[m p]|].
  2:{ destruct (Client.cancelled c); simplify_eq. exists c. split; [done|]. split; [done|by left]. }
  destruct (Client.cancelled c && cancel); [by simplify_eq|]. rewrite consume_act in Hq. set (st1 := upd_client st r _) in Hq.
  assert (frames steady st st1) as K1 by (by apply alter_frames).
  pose proof (act_frames (R := steady) st1 r m now) as K2.
  destruct (act st1 r m now) as [st2 res]. cbn [fst] in K2.
  destruct (frames_lookup _ _ _ r c (transitivity K1 K2) Hc) as (c2 & Hc2 & Hi & Hb).
  destruct res as [u|e]; [simplify_eq; exists c2; split; [done|]; split; [done|by left]|].
  destruct (count_bad st2 r) as [st3 [|]] eqn:Eb; simplify_eq.
  destruct (count_bad_tolerated _ _ _ _ Hc2 Eb) as (c' & Hc' & Hi' & Hle & Hb'). exists c'. split; [done|].
  split; [congruence|]. right. by rewrite <-Hb.
Qed.

Lemma read_turn_tolerated st r stream now st' rest c :
  read_turn st r stream now = (Done (st', false), rest) -> heap st !! r = Some c ->
  exists c', heap st' !! r = Some c' /\ tolerated c c'
    /\ (stream = [] -> Client.bad_net_count c <= 20 /\ Client.bad_net_count c' = as_u32 (Client.bad_net_count c + 1)).
Proof.
  intros Hr Hc. destruct (decide (stream = [])) as [->|Hne].
  - rewrite read_turn_closed in Hr. destruct (count_bad st r) as [st1 b] eqn:Eb. simplify_eq.
    destruct (count_bad_tolerated _ _ _ _ Hc Eb) as (c' & Hc' & Hi' & Hle & Hb'). exists c'. split; [done|]. split; [|done].
    split; [done|by right].
  - unfold read_turn in Hr. destruct (match read_u16 stream with Ok _ => _ | Err _ => _ end) as [kind s1].
    destruct (handle_stream_read st r kind s1 now) as [[[st1 res]|] s2] eqn:Eh; [|done].
    assert (frames steady st st1) as K1.
    { unfold handle_stream_read in Eh. destruct kind as [k|]; [|by simplify_eq].
      destruct (read_u32 s1) as [[size s3]|]; [|by simplify_eq]. destruct (Proto.read_exact _ s3) as [[buf s4]|]; [|by simplify_eq].
      destruct (MessageKind.try_from k) as [kind|]; [|by simplify_eq]. injection Eh as Ed _. by eapply dispatch_frames. }
    destruct (frames_lookup _ _ _ r c K1 Hc) as (c1 & Hc1 & Hi & Hb).
    destruct res as [u|err]; [simplify_eq; exists c1; split; [done|]; split; [|done]; split; [done|by left]|].
    destruct (count_bad st1 r) as [st2 b] eqn:Eb. simplify_eq.
    destruct (count_bad_tolerated _ _ _ _ Hc1 Eb) as (c' & Hc' & Hi' & Hle & Hb'). exists c'. split; [done|]. split; [|done].
    split; [congruence|]. right. by rewrite <-Hb.
Qed.

(** How many turns the reading task can still have: one for each byte, and one for each bad message it may still count. *)
Definition turns_left (stream : list Z) (c : Client.Client) : nat := length stream + Z.to_nat (22 - Client.bad_net_count c).

Definition is_read (turn : TaskTurn) : bool := match turn with ReadTurn _ => true | ServeTurn _ => false end.

Lemma task_turn_decreases st r stream turn now st' rest c :
  task_turn st r stream turn now = Done (st', Some rest) -> heap st !! r = Some c -> 0 <= Client.bad_net_count c ->
  exists c', heap st' !! r = Some c' /\ Client.identity c' = Client.identity c /\ 0 <= Client.bad_net_count c'
    /\ (turns_left rest c' <= turns_left stream c)%nat
    /\ (is_read turn = true -> turns_left rest c' < turns_left stream c)%nat.
Proof.
  intros Ht Hc Hb. assert (forall c', tolerated c c' ->
    0 <= Client.bad_net_count c' /\ (Z.to_nat (22 - Client.bad_net_count c') <= Z.to_nat (22 - Client.bad_net_count c))%nat) as Htol.
  { intros c' [_ [->|[Hle ->]]]; [done|]. rewrite as_u32_small by (unfold in_u; lia). lia. }
  unfold turns_left. unfold task_turn in Ht. destruct turn as [cancel|cancel]; cbn [is_read].
  - destruct (_ && cancel); [done|]. destruct (read_turn st r stream now) as [[[st1 [|]]|] rest1] eqn:Er; simplify_eq.
    destruct (read_turn_tolerated _ _ _ _ _ _ _ Er Hc) as (c' & Hc' & Hto & Hempty). destruct (Htol c' Hto) as [Hb' Hg].
    exists c'. split; [done|]. split; [apply Hto|]. split; [done|].
    assert (length rest + Z.to_nat (22 - Client.bad_net_count c') < length stream + Z.to_nat (22 - Client.bad_net_count c))%nat; [|lia].
    destruct (decide (stream = [])) as [->|Hne].
    + rewrite read_turn_closed in Er. assert (rest = []) as -> by congruence.
      destruct (Hempty eq_refl) as [Hle ->]. rewrite as_u32_small by (unfold in_u; lia). cbn. lia.
    + pose proof (read_turn_consumes st r stream now Hne) as Hl. rewrite Er in Hl. cbn [snd] in Hl. lia.
  - destruct (queue_turn st r cancel now) as [st1 t] eqn:Eq. destruct (decide (t = Ended)) as [->|Hne]; [done|].
    assert (st1 = st' /\ stream = rest) as [-> ->] by (destruct t; by simplify_eq).
    destruct (queue_turn_tolerated _ _ _ _ _ _ _ Eq Hne Hc) as (c' & Hc' & Hto). destruct (Htol c' Hto) as [Hb' Hg].
    exists c'. split; [done|]. split; [apply Hto|]. split; [done|]. split; [lia|done].
Qed.

Lemma serve_ends schedule st r stream c :
  heap st !! r = Some c -> 0 <= Client.bad_net_count c -> (turns_left stream c < read_turns schedule)%nat ->
  serve schedule st r stream = Panic \/ exists st', serve schedule st r stream = Done (st', true).
Proof.
  revert st stream c. induction schedule as [|[turn now] schedule IH]; intros st stream c Hc Hb Hn; [cbn in Hn; lia|].
  cbn [serve]. destruct (task_turn st r stream turn now) as [[st1 [rest|]]|] eqn:Et; [|right; by eexists|by left].
  destruct (task_turn_decreases _ _ _ _ _ _ _ _ Et Hc Hb) as (c' & Hc' & _ & Hb' & Hle & Hlt).
  apply (IH st1 rest c' Hc' Hb'). destruct turn; cbn [read_turns is_read] in *; [specialize (Hlt eq_refl)|]; lia.
Qed.

(** A client starts with no bad message counted. *)
Lemma new_client_bad st version auth cs out ip now epoch st' r c :
  handle_new_client st version auth cs out ip now epoch = (st', Ok r) -> heap st' !! r = Some c -> Client.bad_net_count c = 0.
Proof.
  unfold handle_new_client. case_if; [done|]. destruct (BanList.is_banned _ _ _); [done|].
  unfold add_client, get_free_session_id. destruct (free_id _ _) as [i n]. cbn [fst].
  set (r0 := next_ref _). set (st1 := set_clients_without_udp _ _). set (st2 := if BanList.is_muted _ _ _ then _ else st1).
  assert (exists c0, heap st2 !! r0 = Some c0 /\ Client.bad_net_count c0 = 0) as (c0 & Hc0 & Hb).
  { assert (heap st1 !! r0 = Some (Client.new version auth i 0 cs (Client.mkWriter out false) (mkPublisher [] false) ip now)) as Hnew
      by apply (lookup_insert_eq (heap st)).
    subst st2. case_if; [|by eexists]. cbn [heap upd_client set_heap]. rewrite lookup_alter_eq, Hnew. by eexists. }
  rewrite Hc0. destruct (Anticheat.seed_heard _ c0 _ _) as [a c1] eqn:Es. intros [= <- <-]. cbn [heap set_heap].
  rewrite lookup_insert_eq. intros [= <-]. unfold Anticheat.seed_heard in Es. case_match; by simplify_eq.
Qed.

Lemma new_client_ref st version auth cs out ip now epoch st' r :
  handle_new_client st version auth cs out ip now epoch = (st', Ok r) -> r = next_ref st.
Proof.
  unfold handle_new_client. case_if; [done|]. destruct (BanList.is_banned _ _ _); [done|].
  unfold add_client, get_free_session_id. destruct (free_id _ _) as [i n]. cbn [fst].
  set (st2 := if BanList.is_muted _ _ _ then _ else _). destruct (heap st2 !! _); [|done].
  destruct (Anticheat.seed_heard _ _ _ _). by intros [= _ <-].
Qed.

(** The outcomes of an admission: refused without a trace, or a fresh client. *)
Lemma new_client_cases st version auth cs out ip now epoch st' res :
  state_inv st -> Z.of_nat (size (clients st)) < 2 ^ 32 ->
  handle_new_client st version auth cs out ip now epoch = (st', res) ->
  match res with
  | Err _ => st' = st
  | Ok r => exists c, r = next_ref st /\ heap st !! r = None /\ heap st' !! r = Some c
      /\ Client.bad_net_count c = 0 /\ clients st !! Client.session_id c = None
      /\ clients st' = <[Client.session_id c := r]> (clients st) /\ active_clients st' = as_u32 (active_clients st + 1)
      /\ (forall r', r' <> r -> heap st' !! r' = heap st !! r') /\ state_inv st'
  end.
Proof.
  intros Hinv Hsz Hn. pose proof (new_client_spec st version auth cs out ip now epoch Hinv Hsz) as Ha. cbv zeta in Ha.
  rewrite Hn in Ha. destruct Ha as [Hno Hyes].
  destruct (official _ _ _); [|by destruct (Hno (or_introl eq_refl)) as [-> ->]].
  destruct (BanList.is_banned _ _ _) as [reason|]; [by destruct (Hno ltac:(by right)) as [-> ->]|].
  destruct (Hyes eq_refl eq_refl) as (r & s & c & -> & Hf & Hfree & Hcl & Hc & <- & _ & _ & _ & _ & _ & _ & Hact & _ & Hoth & I1).
  exists c. split_and!; try done; [by eapply new_client_ref|by eapply new_client_bad].
Qed.

Lemma init_length stream v k now t1 t2 out version auth cs rest :
  init stream v k now t1 t2 = (out, Ok (version, auth, cs, rest)) -> (length rest <= length stream)%nat.
Proof.
  unfold init. destruct t1; [done|].
  destruct (expected_message VersionMsg.Version _ stream) as [[m1 s1]|] eqn:E1; [|done]. apply expected_message_length in E1.
  destruct (send_message MessageKind.Version v []) as [o1|]; cbn [seq]; [|done]. destruct t2; [done|].
  destruct (expected_message AuthenticateMsg.Authenticate _ s1) as [[m2 s2]|] eqn:E2; [|done]. apply expected_message_length in E2.
  destruct (send_message MessageKind.CryptSetup _ o1); [|done]. intros [= _ _ _ _ <-]. lia.
Qed.

Lemma client_run_no_trace st r s : state_inv st -> clients st !! s = Some r ->
  same_core st (fst (client_run st r)) /\ strong (fst (client_run st r)) s r.
Proof.
  intros Hinv Hs. pose proof (tables_core _ _ (client_run_tables st r)) as Hc. split; [exact Hc|].
  destruct Hc as (_ & Hc & _). rewrite <- Hc in Hs. by apply (si_clients _ (same_shape_inv _ _ (client_run_same st r) Hinv)).
Qed.

(** The end of a connection: the client that was admitted is taken out again. *)
Lemma disconnect_no_trace st st1 st2 s r :
  in_u 32 (active_clients st) -> clients st !! s = None -> clients st1 = <[s := r]> (clients st) ->
  active_clients st1 = as_u32 (active_clients st + 1) -> same_core st1 st2 -> strong st2 s r ->
  let st' := disconnect st2 s Disconnected in
  clients st' = clients st /\ active_clients st' = active_clients st /\ bans st' = bans st1.
Proof.
  intros Ha Hf Hc Hn (Hp & Ec & En) (c & Hr & _) st'. pose proof (disconnect_policy st2 s Disconnected) as [Hb _].
  assert (clients st2 !! s = Some r) as Hs by (rewrite Ec, Hc; apply lookup_insert_eq).
  split_and!.
  - unfold st', disconnect. by rewrite disconnect_found_clients, Ec, Hc, delete_insert_id.
  - unfold st', disconnect, get_client_by_session_id, upgrade. rewrite Hs. cbn [mbind option_bind]. rewrite Hr.
    cbn [mbind option_bind]. rewrite (disconnect_found_active _ _ _ _ _ Hs Hr), En, Hn.
    unfold as_u32, wrap. rewrite Zminus_mod_idemp_l, Z.add_simpl_r. by apply as_u32_small.
  - fold st' in Hb. destruct Hp as [Hp _]. congruence.
Qed.
(** The part of a connection after the accept loop. *)
Lemma connection_ends st stream peer_ip server_version random_key timeout1 timeout2 now epoch schedule :
  state_inv st -> Z.of_nat (size (clients st)) < 2 ^ 32 -> (length stream + 24 <= read_turns schedule)%nat ->
  let outcome := connection st stream peer_ip server_version random_key timeout1 timeout2 now epoch schedule in
  outcome = Panic
  \/ exists st', outcome = Done (st', true) /\ clients st' = clients st /\ active_clients st' = active_clients st
       /\ bans st' = bans st.
Proof.
  intros Hinv Hsz Hn outcome. subst outcome. unfold connection.
  destruct (init _ _ _ _ _ _) as [out [[[[version auth] cs] rest]|e]] eqn:Ei; [|right; eauto]. apply init_length in Ei.
  pose proof (new_client_policy st version auth cs out peer_ip now epoch) as [Hb _].
  destruct (handle_new_client _ _ _ _ _ _ _ _) as [st1 res] eqn:En. cbn [fst] in Hb.
  pose proof (new_client_cases _ _ _ _ _ _ _ _ _ _ Hinv Hsz En) as Hcases. destruct res as [r|e]; [|subst st1; right; eauto].
  destruct Hcases as (c & _ & _ & Hc & Hzero & Hfree & Hcl & Hact & _ & I1). set (s := Client.session_id c) in *.
  rewrite Hc. cbn [fmap option_fmap option_map default]. change (id (Client.session_id c)) with s.
  assert (clients st1 !! s = Some r) as Hsr by (rewrite Hcl; apply lookup_insert_eq).
  assert (in_u 32 (active_clients st)) as Hu by (rewrite (si_active _ Hinv); apply as_u32_range).
  destruct (frames_lookup _ _ _ r c (client_run_frames (R := steady) st1 r) Hc) as (c2 & Hc2 & _ & Hb2).
  destruct (client_run_no_trace st1 r s I1 Hsr) as [C1 S1]. destruct (client_run st1 r) as [st2 [u|e]]; cbn [fst] in *.
  - destruct (serve_ends schedule st2 r rest c2 Hc2 ltac:(lia)) as [->|[st3 Hserve]];
      [unfold turns_left; rewrite Hb2, Hzero; lia|by left|right]. rewrite Hserve. destruct (serve_no_trace _ _ _ _ _ _ Hserve) as [C2 S2]. eexists. split; [done|]. rewrite <- Hb.
    eapply disconnect_no_trace; eauto; by etransitivity.
  - right. destruct (close_queue_no_trace st2 r) as [C2 S2]. eexists. split; [done|]. rewrite <- Hb.
    eapply disconnect_no_trace; eauto; by etransitivity.
Qed.
End connection.

(** ** The property *)


(** A player connects with the protobuf encoding of [WireFormat], sends a malformed message and hangs up; the queue is served now and
    then. *)
Definition sample_visit : list Z :=
  @frame_of _ (@message_proto wire_format _ _) MessageKind.Version sample_hello
  ++ @frame_of _ (@message_proto wire_format _ _) MessageKind.Authenticate sample_login
  ++ [0; 3; 0; 0; 0; 1; 255].
Definition sample_schedule : list (TaskTurn * Z) :=
  concat (replicate 120 [(ReadTurn false, 1); (ServeTurn false, 2)]).
Definition sample_stream : Result MumbleError TcpStream :=
  Ok (mkTcpStream (Ok ("10.0.0.9"%string, 50000)) (Ok tt) (Ok tt) (Ok tt) (Some (Ok sample_visit))).
Definition sample_connection : Outcome (ServerState * bool) :=
  @create_tcp_server canonical_iter (@mumble_proto wire_format) xor_aes no_udp (fun s => s) (fun _ => true)
    sample_server sample_stream (server_version "unix" "linux" "0.1.0") sample_key false false 0 0 sample_schedule.

