(* ===== verification/Flaws.v ===== *)
(** Behaviours of the whole server that its code does not intend, each stated as it is and proved: the limit on the number of
    clients can be overrun, a kick can be lost to the clean loop, and a mute can be lifted by its target. *)

From stdpp Require Import base gmap strings list.
From Stdlib Require Import ZArith Lia.
From S2P Require Import Prelude Errors Maps Text Varint Voice Float32 Messages Crypt Proto Calendar Bans Client Anticheat.
From S2P Require Import State StateInv StateProps Handlers HandlerInv HandlerProps Net Greeting NetProps Wire WireFormat Codec CodecProps Delivery.
From S2P Require Import Sampler SamplerProps Http HttpProps System.
Import ServerState Handler Udp Clean Tcp Sampler Http.

(** ** The limit on the number of clients *)

(** A connection past TLS and its handshake, that waits to be admitted. *)
Record Arrival := mkArrival {
  a_version : VersionMsg.Version;
  a_authenticate : AuthenticateMsg.Authenticate;
  a_crypt : CryptState;
  a_out : list Z;
  a_ip : string;
  a_now : Z;
  a_epoch : Z }.

Section capacity.
Context `{HashIterLaws} `{Unicode} `{UsernameRegex}.

Definition admit_arrival (st : ServerState) (a : Arrival) : ServerState :=
  fst (handle_new_client st (a_version a) (a_authenticate a) (a_crypt a) (a_out a) (a_ip a) (a_now a) (a_epoch a)).

(** Neither the restriction to the official client nor the ban list refuses it. *)
Definition welcome (st : ServerState) (a : Arrival) : Prop :=
  let username := get_str (AuthenticateMsg.username (a_authenticate a)) in
  official (restrict_to_version st) (get_str (VersionMsg.release (a_version a))) username = true
  /\ BanList.is_banned (bans st) (a_ip a) (BanList.name_part username) = None.

(** The accept loop tests the number of clients and spawns a task; the task admits its client later. *)
Inductive lobby_step : ServerState * list Arrival -> ServerState * list Arrival -> Prop :=
  | lobby_accept st waiting a : has_room st = true -> lobby_step (st, waiting) (st, waiting ++ [a])
  | lobby_admit st before a after :
      lobby_step (st, before ++ a :: after) (admit_arrival st a, before ++ after).

Lemma lobby_accepts st waiting arrivals :
  has_room st = true -> rtc lobby_step (st, waiting) (st, waiting ++ arrivals).
Proof.
  intros Hr. revert waiting. induction arrivals as [|a l IH]; intros w; [by rewrite app_nil_r|].
  eapply rtc_l; [by apply lobby_accept|]. specialize (IH (w ++ [a])). by rewrite <-app_assoc in IH.
Qed.

Lemma lobby_admits st arrivals : rtc lobby_step (st, arrivals) (fold_left admit_arrival arrivals st, []).
Proof.
  revert st. induction arrivals as [|a l IH]; intros st; [done|]. cbn [fold_left].
  eapply rtc_l; [apply (lobby_admit st [] a l)|apply IH].
Qed.

Lemma new_client_restrict st version auth cs out ip now epoch :
  restrict_to_version (fst (handle_new_client st version auth cs out ip now epoch)) = restrict_to_version st.
Proof.
  unfold handle_new_client. case_if; [done|]. destruct (BanList.is_banned _ _ _); [done|].
  unfold add_client, get_free_session_id. destruct (free_id _ _). cbn -[insert_new as_u32 Anticheat.seed_heard].
  case_match; [|by case_match]. destruct (Anticheat.seed_heard _ _ _ _). cbn. by case_match.
Qed.

(** Admitting a crowd, one by one. *)
Lemma admit_all st arrivals :
  state_inv st -> Z.of_nat (size (clients st) + length arrivals) < 2 ^ 32 -> Forall (welcome st) arrivals ->
  let st' := fold_left admit_arrival arrivals st in
  state_inv st' /\ size (clients st') = (size (clients st) + length arrivals)%nat
  /\ bans st' = bans st /\ restrict_to_version st' = restrict_to_version st.
Proof.
  revert st. induction arrivals as [|a l IH]; intros st Hinv Hsz Hw; cbn [fold_left length] in *; [by rewrite Nat.add_0_r|].
  inversion_clear Hw as [|? ? [W1 W2] Hl].
  pose proof (new_client_spec st (a_version a) (a_authenticate a) (a_crypt a) (a_out a) (a_ip a) (a_now a) (a_epoch a) Hinv ltac:(lia)) as Ha.
  pose proof (new_client_policy st (a_version a) (a_authenticate a) (a_crypt a) (a_out a) (a_ip a) (a_now a) (a_epoch a)) as [Hb _].
  pose proof (new_client_restrict st (a_version a) (a_authenticate a) (a_crypt a) (a_out a) (a_ip a) (a_now a) (a_epoch a)) as Hr.
  cbv zeta in Ha. destruct (handle_new_client _ _ _ _ _ _ _ _) as [st1 res] eqn:E. cbn [fst] in *. destruct Ha as [_ Ha].
  replace (admit_arrival st a) with st1 by (unfold admit_arrival; by rewrite E).
  destruct (Ha W1 W2) as (r & s & c & _ & _ & Hf & Hcl & _ & _ & _ & _ & _ & _ & _ & _ & _ & _ & _ & I1).
  assert (size (clients st1) = S (size (clients st))) as Hs by (rewrite Hcl; by apply map_size_insert_None).
  destruct (IH st1 I1) as (I2 & S2 & B2 & R2); [lia|..].
  - eapply Forall_impl; [exact Hl|]. intros y [X1 X2]. split; by rewrite ?Hr, ?Hb.
  - split_and!; [done|lia|congruence|congruence].
Qed.
End capacity.

(** C37.  The limit on the number of clients does not hold: the accept loop tests it when a stream arrives, the client is
    counted only after TLS and the handshake.  While a single place is free, any number of connections can be accepted, and all of them
    are then admitted. *)
Theorem capacity_race `{HashIterLaws} `{Unicode} `{UsernameRegex} (st : ServerState) (arrivals : list Arrival) :
  state_inv st -> has_room st = true -> Forall (welcome st) arrivals ->
  Z.of_nat (size (clients st) + length arrivals) < 2 ^ 32 ->
  exists st', rtc lobby_step (st, []) (st', []) /\ state_inv st'
    /\ active_clients st' = active_clients st + Z.of_nat (length arrivals).
Proof.
  intros Hinv Hroom Hw Hsz. destruct (admit_all st arrivals Hinv Hsz Hw) as (I1 & S1 & _).
  exists (fold_left admit_arrival arrivals st). split_and!; [|done|].
  - etransitivity; [by apply (lobby_accepts st [] arrivals)|apply lobby_admits].
  - rewrite (si_active _ I1), (si_active _ Hinv), S1, !as_u32_small by (unfold in_u; lia). lia.
Qed.

Definition sample_arrival : Arrival :=
  mkArrival (VersionMsg.mkVersion None None None None) (AuthenticateMsg.mkAuthenticate (Some "[12] Eve"%string) None [] [] None)
    (default_crypt_state sample_key 0) [] "192.168.3.3" 0 0.

(** A server with one place left takes three. *)
Lemma capacity_race_witness :
  exists st st', active_clients st = MAX_CLIENTS - 1 /\ active_clients st' = MAX_CLIENTS + 2
    /\ rtc (@lobby_step canonical_iter (fun s => s) (fun _ => true)) (st, []) (st', []).
Proof.
  set (lower := (fun s => s) : Unicode). set (regex := (fun _ => true) : UsernameRegex).
  assert (forall n, Forall (@welcome lower regex sample_server) (replicate n sample_arrival)) as Hw
    by (intros n; apply Forall_replicate; split; vm_compute; reflexivity).
  assert (size (clients sample_server) = 2%nat) as H2 by (vm_compute; reflexivity).
  destruct (@admit_all canonical_iter canonical_iter_laws lower regex sample_server (replicate 4093 sample_arrival)
    sample_server_inv ltac:(rewrite H2, length_replicate; lia) (Hw 4093%nat)) as (I1 & S1 & B1 & R1).
  set (st := fold_left _ _ _) in *. clearbody st. rewrite H2, length_replicate in S1.
  assert (active_clients st = MAX_CLIENTS - 1) as Ha by (rewrite (si_active _ I1), S1; vm_compute; reflexivity).
  destruct (@capacity_race canonical_iter canonical_iter_laws lower regex st (replicate 3 sample_arrival)) as (st' & Hl & _ & E).
  - exact I1.
  - unfold has_room. rewrite Ha. vm_compute. reflexivity.
  - eapply Forall_impl; [exact (Hw 3%nat)|]. intros x [X1 X2]. unfold welcome. rewrite R1, B1. split; [exact X1|exact X2].
  - rewrite S1, length_replicate. vm_compute. reflexivity.
  - exists st, st'. split; [exact Ha|]. split; [rewrite E, Ha, length_replicate; vm_compute; reflexivity|exact Hl].
Defined.

(** ** A race between the clean loop and the API *)

(** A tick that finds nothing to do, over a state whose queue holds entries entered after it was read. *)
Lemma idle_clean_rest `{HashIterLaws} `{MumbleProto} `{Aes128} st now :
  (forall s r c, clients st !! s = Some r -> heap st !! r = Some c -> check_client c now = Keep) ->
  clean_rest st ∅ now = set_disconnect_queue st ∅.
Proof.
  intros Hk. unfold clean_rest. set (st1 := set_disconnect_queue st ∅).
  assert (forall l, (forall p, p ∈ l -> clients st !! p.1 = Some p.2) -> fold_left (collect st1 now) l (∅, []) = (∅, [])) as Hf.
  { induction l as [|p l IH]; intros Hl; [done|]. cbn [fold_left].
    assert (collect st1 now (∅, []) p = (∅, [])) as ->; [|apply IH; intros q Hq; apply Hl; by right].
    unfold collect. cbn [heap st1 set_disconnect_queue]. destruct (heap st !! p.2) as [c|] eqn:Hc; [|done].
    by rewrite (Hk p.1 p.2 c (Hl p ltac:(by left)) Hc). }
  rewrite Hf by (intros [s r] Hp; by apply elem_of_hash_iter in Hp).
  assert (udp_silences st1 now = 0%nat) as ->.
  { unfold udp_silences. apply length_zero_iff_nil, filter_none. apply Forall_forall. intros [s r] Hp%elem_of_hash_iter.
    unfold udp_silent. cbn [snd heap st1 set_disconnect_queue]. destruct (heap st !! r) as [c|] eqn:Hc; [|by intros ?].
    specialize (Hk s r c Hp Hc). revert Hk. unfold check_client. destruct (closed (Client.publisher c)); [by intros _ ?|].
    destruct (30 <? _); [done|by intros _ ?]. }
  replace (set_metrics st1 (CRYPT_RESETS_inc_by 0 (metrics st1))) with st1
    by (unfold CRYPT_RESETS_inc_by, st1; destruct st as [? ? ? ? ? ? ? ? ? ? ? ? ? ? ? ? ? ? []]; cbn; by rewrite Z.add_0_r).
  cbn [fold_left]. destruct (hash_iter ∅) as [|[s reason] l] eqn:E; [done|].
  assert ((s, reason) ∈ hash_iter (∅ : gmap Z DisconnectReason)) as Hin by (rewrite E; by left).
  apply elem_of_hash_iter in Hin. by rewrite lookup_empty in Hin.
Qed.

(** C38.  A kick can be lost: when an administrator's request to kick a client is served after the clean loop read the queue of
    disconnections and before it clears it, the request is answered with success and the tick leaves the server exactly as it was
    before the request, the client connected and nothing queued; a tick that starts after the request drops the client. *)
Theorem kick_lost `{HashIterLaws} `{MumbleProto} `{Aes128} `{SerdeJson (list BanList.BanEntry)} (st : ServerState)
    (user : string) (r : ClientRef) (c : Client.Client) (now epoch : Z) :
  state_inv st -> get_client_by_name st user = Some r -> heap st !! r = Some c ->
  disconnect_queue st = ∅ ->
  (forall s r c, clients st !! s = Some r -> heap st !! r = Some c -> check_client c now = Keep) ->
  let '(st1, code) := post_anticheat_user st user "kick" epoch in
  code = OK /\ clean_rest st1 (read_queue st) now = st
  /\ clients (clean_run st1 now) !! Client.session_id c = None.
Proof.
  intros Hinv Hu Hc Hq Hk. pose proof (by_name_connected st user r c Hinv Hu Hc) as Hs.
  unfold post_anticheat_user. rewrite Hu. cbn [mbind option_bind]. rewrite Hc. cbn [mbind option_bind]. cbn -[clean_rest clean_run add_client_to_disconnect_queue].
  split; [done|]. set (st1 := add_client_to_disconnect_queue st _ _). unfold read_queue. rewrite fold_insert_all, Hq. split.
  - rewrite idle_clean_rest by exact Hk. subst st1. destruct st; cbn in *. by subst.
  - assert (state_inv st1) as I1 by (eapply same_shape_inv; [|exact Hinv]; split; try done; intros r'; cbn; by destruct (heap st !! r')).
    rewrite clean_run_clients by done. change (clients st1) with (clients st). rewrite Hs.
    change (disconnect_queue st1) with (insert_new (Client.session_id c) Anticheat (disconnect_queue st)).
    by rewrite lookup_insert_new, Hq, decide_True by done.
Qed.

Lemma kick_lost_witness :
  let st1 := fst (@post_anticheat_user canonical_iter bits_json sample_server "[2] Bob" "kick" 0) in
  @clean_rest canonical_iter const_proto st1 (@read_queue canonical_iter sample_server) 0 = sample_server.
Proof.
  destruct (heap sample_server !! 1%nat) as [c|] eqn:Hc; [|vm_compute in Hc; discriminate].
  assert (@get_client_by_name canonical_iter sample_server "[2] Bob" = Some 1%nat) as Hu by (vm_compute; reflexivity).
  assert (forallb (fun p => match check_client p.2 0 with Keep => true | _ => false end) (map_to_list (heap sample_server)) = true)
    as Hb by (vm_compute; reflexivity).
  assert (forall r c, heap sample_server !! r = Some c -> check_client c 0 = Keep) as Hk.
  { intros r' c' H'%elem_of_map_to_list%list_elem_of_In. pose proof (proj1 (forallb_forall _ _) Hb _ H') as E. cbn [snd] in E.
    destruct (check_client c' 0); [discriminate E|discriminate E|reflexivity]. }
  pose proof (@kick_lost canonical_iter canonical_iter_laws const_proto xor_aes bits_json sample_server "[2] Bob" 1%nat c 0 0
    sample_server_inv Hu Hc ltac:(vm_compute; reflexivity) (fun s r c _ H => Hk r c H)) as T.
  destruct (post_anticheat_user _ _ _ _) as [st1 code]. apply T.
Defined.

(** ** A mute that its target can lift *)

(** C36.  A mute does not hold against its target: a player muted for good from the panel, whose address and name are on the mute
    list, lifts the mute by sending a [UserState] message about itself that says so; the mute list still has the entry. *)
Theorem mute_evaded `{HashIterLaws} `{MumbleProto} `{Aes128} `{UdpSocket} `{SerdeJson (list BanList.BanEntry)} (st : ServerState)
    (user : string) (r : ClientRef) (c : Client.Client) (m : UserStateMsg.UserState) (buf : list Z) (now epoch : Z) :
  get_client_by_name st user = Some r -> heap st !! r = Some c ->
  parse_from_bytes buf = Some m -> UserStateMsg.session m = Some (Client.session_id c) ->
  UserStateMsg.mute m = Some false -> UserStateMsg.channel_id m = None ->
  UserStateMsg.listening_channel_add m = [] -> UserStateMsg.listening_channel_remove m = [] ->
  let '(st1, code) := post_anticheat_user st user "block" epoch in
  code = OK /\ (exists c1, heap st1 !! r = Some c1 /\ Client.mute c1 = true)
  /\ exists st2 c2, dispatch st1 r MessageKind.UserState buf now = Done (st2, Ok tt)
     /\ heap st2 !! r = Some c2 /\ Client.mute c2 = false
     /\ BanList.is_muted (bans st2) (Client.peer_ip c) (BanList.name_part (Client.get_name c)) = true.
Proof.
  intros Hu Hc Hp Hs Hm Hch Ha Hr. unfold post_anticheat_user. rewrite Hu. cbn [mbind option_bind]. rewrite Hc.
  cbn [mbind option_bind]. rewrite bool_decide_eq_true_2 by done. unfold add_ban.
  destruct (BanList.add _ _ "mute" _ _ _ _ _) as [bl f'] eqn:Eb. cbn [fst snd].
  set (st1 := upd_client _ r (fun c => Client.set_mute c true)).
  set (c1 := Client.set_mute (set_exempt false c) true).
  assert (heap st1 !! r = Some c1) as Hc1 by (cbn; by rewrite lookup_alter_eq, lookup_alter_eq, Hc).
  split; [done|]. split; [by exists c1|]. cbn [dispatch]. unfold try_handle. rewrite Hp. unfold handle_user_state. rewrite Hc1, Hs, Hch, Ha, Hr.
  change (get_num (Some (Client.session_id c))) with (Client.session_id c). change (Client.session_id c1) with (Client.session_id c).
  rewrite Z.eqb_refl. cbn [negb has seq fold_left]. do 2 eexists. split; [done|]. split; [cbn [heap upd_client set_heap]; by rewrite lookup_alter_eq, Hc1|].
  split; [unfold Client.update; rewrite Hm; cbn [has]; by case_if|].
  change (bans (upd_client st1 r (fun c0 => Client.update c0 m))) with bl.
  apply BanList.is_muted_spec. injection Eb as <- _. eexists. split; [cbn; apply elem_of_app; right; by left|]. split; [done|].
  by eapply BanList.entry_matches_spec; [..|left].
Qed.

(** Bob is muted and writes the message that unmutes him. *)
Definition unmute_me : UserStateMsg.UserState :=
  {| UserStateMsg.session := Some 2; UserStateMsg.actor := None; UserStateMsg.name := None; UserStateMsg.user_id := None;
     UserStateMsg.channel_id := None; UserStateMsg.mute := Some false; UserStateMsg.deaf := None; UserStateMsg.suppress := None;
     UserStateMsg.self_mute := None; UserStateMsg.self_deaf := None; UserStateMsg.texture := None;
     UserStateMsg.plugin_context := None; UserStateMsg.plugin_identity := None; UserStateMsg.comment := None;
     UserStateMsg.hash := None; UserStateMsg.comment_hash := None; UserStateMsg.texture_hash := None;
     UserStateMsg.priority_speaker := None; UserStateMsg.recording := None; UserStateMsg.temporary_access_tokens := [];
     UserStateMsg.listening_channel_add := []; UserStateMsg.listening_channel_remove := [] |}.
Definition unmute_bytes : list Z :=
  default [] (@write_to_bytes _ (@proto_user_state (@mumble_proto wire_format)) unmute_me).

Lemma mute_evaded_witness :
  let '(st1, code) := @post_anticheat_user canonical_iter bits_json sample_server "[2] Bob" "block" 0 in
  code = OK /\ exists st2 c2,
    @dispatch canonical_iter (@mumble_proto wire_format) xor_aes no_udp st1 1%nat MessageKind.UserState unmute_bytes 0 = Done (st2, Ok tt)
    /\ heap st2 !! 1%nat = Some c2 /\ Client.mute c2 = false.
Proof.
  destruct (heap sample_server !! 1%nat) as [c|] eqn:Hc; [|vm_compute in Hc; discriminate].
  assert (@get_client_by_name canonical_iter sample_server "[2] Bob" = Some 1%nat) as Hu by (vm_compute; reflexivity).
  assert (UserStateMsg.session unmute_me = Some (Client.session_id c)) as Hs
    by (vm_compute in Hc; injection Hc as <-; reflexivity).
  pose proof (@mute_evaded canonical_iter canonical_iter_laws (@mumble_proto wire_format) xor_aes no_udp bits_json sample_server
    "[2] Bob" 1%nat c unmute_me unmute_bytes 0 0 Hu Hc ltac:(vm_compute; reflexivity) Hs eq_refl eq_refl eq_refl eq_refl) as T.
  destruct (post_anticheat_user _ _ _ _) as [st1 code]. destruct T as (Hok & _ & st2 & c2 & Hd & Hc2 & Hm & _).
  split; [exact Hok|]. exists st2, c2. split; [exact Hd|]. split; [exact Hc2|exact Hm].
Defined.
