(* ===== verification/Queues.v ===== *)
(** The queues of the clients under any interleaving of the server's tasks: nothing that was queued for a client is lost or
    reordered while its connection lives, each message that leaves the queue has the effect its kind asks for, and enough turns of the
    queue task deal with everything. *)

From stdpp Require Import base gmap strings list sorting.
From Stdlib Require Import ZArith Lia.
From S2P Require Import Prelude Errors Maps Text Varint Voice Float32 Messages Crypt Proto Calendar Bans Client Anticheat.
From S2P Require Import State StateInv StateProps Handlers HandlerInv HandlerProps Net Greeting NetProps Sampler SamplerProps Http HttpProps.
From S2P Require Import Delivery System Frames.
Import ServerState Handler Udp Clean Tcp Sampler Http.

(** ** One client *)

(** The connection of a client lives: no task asked it to end, its queue is served, its stream can be written to. *)
Definition alive (c : Client.Client) : Prop :=
  Client.cancelled c = false /\ closed (Client.publisher c) = false
  /\ exists w, Client.write c = Some w /\ Client.broken w = false.

Definition written (c : Client.Client) : list Z :=
  match Client.write c with Some w => Client.sent w | None => [] end.

Definition waiting (c : Client.Client) : list ClientMessage := queue (Client.publisher c).

(** The frames among the queued messages. *)
Definition payloads (q : list ClientMessage) : list (list Z) :=
  omap (fun m => match m with SendMessage _ payload => Some payload | _ => None end) q.

(** From [c] to [c'] at least [n] messages were taken from the queue, or all; they were taken from its head, the others
    are still there in their order, ahead of newer ones; and what was written since consists of whole frames, among them those
    taken, in their order. *)
Definition served (n : nat) (c c' : Client.Client) : Prop :=
  alive c' -> alive c /\ exists k chunks, (n `min` length (waiting c) <= k <= length (waiting c))%nat
    /\ drop k (waiting c) `prefix_of` waiting c'
    /\ written c' = written c ++ concat chunks
    /\ payloads (take k (waiting c)) `sublist_of` chunks.

Lemma payloads_app q1 q2 : payloads (q1 ++ q2) = payloads q1 ++ payloads q2.
Proof. apply omap_app. Qed.

Lemma served_trans n m c1 c2 c3 : served n c1 c2 -> served m c2 c3 -> served (n + m) c1 c3.
Proof.
  intros S1 S2 A3. destruct (S2 A3) as (A2 & k2 & ch2 & K2 & [e2 E2] & W2 & P2).
  destruct (S1 A2) as (A1 & k1 & ch1 & K1 & [e1 E1] & W1 & P1). split; [done|].
  assert (length (waiting c2) = length (waiting c1) - k1 + length e1)%nat as Hl by (by rewrite E1, length_app, length_drop).
  exists ((k1 + k2) `min` length (waiting c1))%nat, (ch1 ++ ch2). split_and!; [lia|lia|..].
  - destruct (decide (k1 + k2 <= length (waiting c1))%nat) as [Hk|Hk].
    + rewrite Nat.min_l by done. exists (e1 ++ e2). rewrite <- drop_drop, E2, E1, drop_app_le, app_assoc by (rewrite length_drop; lia). done.
    + rewrite Nat.min_r, drop_all by lia. apply prefix_nil.
  - rewrite W2, W1, concat_app. by rewrite app_assoc.
  - set (k := ((k1 + k2) `min` length (waiting c1))%nat).
    replace (take k (waiting c1)) with (take k1 (waiting c1) ++ take (k - k1) (drop k1 (waiting c1))).
    2:{ rewrite <- (take_drop k1 (waiting c1)) at 3. rewrite take_app_ge by (rewrite length_take; lia).
        f_equal. f_equal. rewrite length_take. lia. }
    rewrite payloads_app. apply sublist_app; [done|]. etransitivity; [|exact P2].
    assert (take (k - k1) (drop k1 (waiting c1)) `prefix_of` take k2 (waiting c2)) as [x ->].
    { rewrite E1. destruct (decide (k1 + k2 <= length (waiting c1))%nat) as [Hk|Hk].
      - rewrite take_app_le by (rewrite length_drop; lia). subst k. by replace (_ - k1)%nat with k2 by lia.
      - rewrite take_ge by (rewrite length_drop; lia). rewrite take_app_ge by (rewrite length_drop; lia). by eexists. }
    rewrite payloads_app. by apply sublist_inserts_r.
Qed.

Lemma served_weaken n m c c' : (m <= n)%nat -> served n c c' -> served m c c'.
Proof.
  intros Hle Hs A. destruct (Hs A) as (A1 & k & chunks & K1 & Hrest). split; [done|]. exists k, chunks. split; [lia|done].
Qed.

Lemma same_served c c' :
  Client.publisher c' = Client.publisher c -> Client.write c' = Client.write c -> Client.cancelled c' = Client.cancelled c ->
  served 0 c c'.
Proof.
  intros Ep Ew Ec A. unfold alive, waiting, written in *. rewrite Ep, Ew, Ec in *. split; [done|].
  exists 0%nat, []. cbn. split_and!; [lia|lia|done|by rewrite app_nil_r|done].
Qed.

#[global] Instance served_preorder : PreOrder (served 0).
Proof. split; [intros c; by apply same_served|]. intros a b c. apply (served_trans 0 0). Qed.

Lemma queued_served c m p : try_send (Client.publisher c) m = Some p -> served 0 c (Client.set_publisher c p).
Proof.
  unfold try_send. destruct (closed (Client.publisher c)) eqn:Ec; [done|]. case_decide; [|done]. intros [= <-] (A1 & A2 & A3).
  split; [done|]. exists 0%nat, []. cbn. split_and!; [lia|lia|by eexists|by rewrite app_nil_r|done].
Qed.

Lemma sent_served c data : served 0 c (fst (Client.send c data)).
Proof.
  unfold Client.send. destruct (Client.cancelled c) eqn:Ec; [done|]. destruct (Client.write c) as [w|] eqn:Ew; [|done].
  destruct (Client.broken w) eqn:Eb; [done|]. intros (A1 & A2 & A3). split; [split_and!; [done|done|by exists w]|].
  exists 0%nat, [data]. unfold written. cbn. rewrite Ew. split_and!; [lia|lia|done|by rewrite app_nil_r|apply sublist_nil_l].
Qed.

#[global] Instance served_frame : TaskFrame (served 0).
Proof.
  split; [split; [split|]|..].
  - apply _.
  - intros c c' (_ & Ep & Ew & Ec & _). by apply same_served.
  - apply queued_served.
  - apply sent_served.
  - intros c (_ & A & _). done.
  - intros c (A & _). done.
  - intros c k. by apply same_served.
  - intros c n. by apply same_served.
  - intros c (_ & _ & w & Ew & Eb). cbn in Ew. destruct (Client.write c); cbn in Ew; by simplify_eq.
Qed.

(** Nothing leaves the queue of a client but through its own task, and nothing leaves its stream. *)
Definition appends (c c' : Client.Client) : Prop :=
  alive c' -> alive c /\ waiting c `prefix_of` waiting c' /\ written c `prefix_of` written c'.

#[global] Instance appends_frame : TaskFrame appends.
Proof.
  split; [split; [split|]|..].
  - split; [by intros c A|]. intros a b c K1 K2 A. destruct (K2 A) as (A2 & P2 & W2). destruct (K1 A2) as (A1 & P1 & W1).
    split_and!; [done|by etransitivity..].
  - intros c c' (_ & Ep & Ew & Ec & _) A. unfold alive, waiting, written in *. by rewrite Ep, Ew, Ec in *.
  - intros c m p. unfold try_send. destruct (closed (Client.publisher c)) eqn:Ec; [done|]. case_decide; [|done].
    intros [= <-] (A1 & A2 & A3). split_and!; [done|by eexists|done].
  - intros c data A. unfold Client.send in *. destruct (Client.cancelled c) eqn:Ec; [done|].
    destruct (Client.write c) as [w|] eqn:Ew; [|done]. destruct (Client.broken w) eqn:Eb; [done|].
    destruct A as (A1 & A2 & A3). split; [split_and!; [done|done|by exists w]|split; [done|]]. unfold written. cbn. rewrite Ew. by eexists.
  - intros c (_ & A & _). done.
  - intros c (A & _). done.
  - by intros c k A.
  - by intros c n A.
  - intros c (_ & _ & w & Ew & Eb). cbn in Ew. destruct (Client.write c); cbn in Ew; by simplify_eq.
Qed.

(** The turn of the queue's own task takes the head of the queue. *)
Lemma taken_served c m q c' :
  Client.publisher c = mkPublisher (m :: q) false -> (forall k payload, m <> SendMessage k payload) ->
  served 0 (Client.set_publisher c (mkPublisher q false)) c' -> served 1 c c'.
Proof.
  intros Hq Hm Hs A. destruct (Hs A) as ((A1 & _ & A3) & k & chunks & K1 & P1 & W1 & L1). cbn in A1, A3. unfold waiting in *.
  rewrite Hq. cbn [queue Client.publisher Client.set_publisher] in *.
  split; [split_and!; [done|by rewrite Hq|done]|]. exists (S k), chunks. cbn [length]. split_and!; [lia|lia|done|done|].
  cbn. destruct m as [| |k' payload]; try done. by destruct (Hm k' payload).
Qed.

Lemma frame_served c k payload q :
  Client.publisher c = mkPublisher (SendMessage k payload :: q) false -> alive c ->
  served 1 c (fst (Client.send (Client.set_publisher c (mkPublisher q false)) payload))
  /\ snd (Client.send (Client.set_publisher c (mkPublisher q false)) payload) = Ok tt.
Proof.
  intros Hq A. destruct A as (A1 & A2 & w & Ew & Eb). unfold Client.send. cbn [Client.cancelled Client.set_publisher Client.write].
  rewrite A1, Ew, Eb. split; [|done]. intros _. split; [split_and!; [done|done|by exists w]|].
  unfold waiting, written. rewrite Hq, Ew. exists 1%nat, [payload]. cbn. split_and!; [lia|lia|done|by rewrite app_nil_r|done].
Qed.

(** ** One client through the steps of the server *)

(** If client [r] is there afterwards, it was there before, and [n] turns of its queue lie between. *)
Definition onward (r : ClientRef) (n : nat) : ServerState -> ServerState -> Prop := follows (served n) r.

Lemma onward_trans r n m st1 st2 st3 : onward r n st1 st2 -> onward r m st2 st3 -> onward r (n + m) st1 st3.
Proof.
  intros [N1 O1] [N2 O2]. split; [lia|]. intros c3 Hr H3. destruct (O2 c3 ltac:(lia) H3) as (c2 & H2 & S2).
  destruct (O1 c2 Hr H2) as (c1 & H1 & S1). exists c1. split; [done|by eapply served_trans].
Qed.

Lemma frames_onward r st st' : frames (served 0) st st' -> onward r 0 st st'.
Proof. apply frames_follows. Qed.

Lemma onward_weaken r n m st st' : (m <= n)%nat -> onward r n st st' -> onward r m st st'.
Proof.
  intros Hle [Hn Ho]. split; [done|]. intros c' Hr Hc'. destruct (Ho c' Hr Hc') as (c & Hc & Hs). exists c. split; [done|].
  by eapply served_weaken.
Qed.

(** A client that is not alive stays so while its queue and stream are untouched. *)
Lemma dead_served n c c' : ~ alive c' -> served n c c'.
Proof. by intros Hd ?. Qed.

Section onward.
Context `{HashIterLaws} `{MumbleProto} `{Aes128} `{UdpSocket} `{Unicode} `{UsernameRegex}
  `{SerdeJson (list BanList.BanEntry)} `{SerdeJson Anticheat.PersistedHeard}.

Lemma closed_onward r n st : onward r n st (close_queue st r).
Proof.
  split; [apply Nat.le_refl|]. intros c' _. cbn. rewrite lookup_alter_eq. destruct (heap st !! r) as [c|] eqn:Hc; [|done]. intros [= <-].
  exists c. split; [done|]. apply dead_served. intros (_ & A & _). done.
Qed.

(** A queued frame goes to the stream, or the connection is over. *)
Lemma consume_frame st r c k payload q now :
  heap st !! r = Some c -> Client.publisher c = mkPublisher (SendMessage k payload :: q) false ->
  onward r 1 st (fst (consume (upd_client st r (fun c => Client.set_publisher c (mkPublisher q false))) r (SendMessage k payload) now)).
Proof.
  intros Hc Hq. unfold consume, on_client. cbn [heap upd_client set_heap]. rewrite lookup_alter_eq, Hc. cbn [fmap option_fmap option_map].
  set (c1 := Client.set_publisher c (mkPublisher q false)). destruct (Client.send c1 payload) as [c2 res] eqn:E.
  assert (alive c -> served 1 c c2 /\ res = Ok tt) as Hlive.
  { intros A. destruct (frame_served c k payload q Hq A) as [Hs Hr]. fold c1 in Hs, Hr. rewrite E in Hs, Hr. done. }
  assert (alive c2 -> alive c) as Hback.
  { pose proof (sent_served c1 payload) as Hs. rewrite E in Hs. intros A. destruct (Hs A) as ((A1 & _ & A3) & _).
    split_and!; [exact A1|by rewrite Hq|exact A3]. }
  assert (served 1 c c2) as H12 by (intros A; exact (proj1 (Hlive (Hback A)) A)).
  destruct res as [u|e]; cbn [fst].
  - split; [apply Nat.le_refl|]. intros c' _. cbn. rewrite lookup_insert_eq. intros [= <-]. by exists c.
  - unfold count_bad. cbn [heap set_heap]. rewrite lookup_insert_eq. split; [apply Nat.le_refl|]. intros c' _. cbn.
    rewrite lookup_insert_eq. intros [= <-]. exists c. split; [done|]. intros A. apply H12. exact A.
Qed.

Lemma consume_voice st r c m q now :
  heap st !! r = Some c -> Client.publisher c = mkPublisher (m :: q) false -> (forall k payload, m <> SendMessage k payload) ->
  onward r 1 st (fst (consume (upd_client st r (fun c => Client.set_publisher c (mkPublisher q false))) r m now)).
Proof.
  intros Hc Hq Hm. set (st1 := upd_client st r _). destruct (consume_frames (R := served 0) st1 r m now frame_bad) as [Hn Hl].
  split; [rewrite Hn; apply Nat.le_refl|]. intros c' _ Hc'. specialize (Hl r). rewrite Hc' in Hl. cbn in Hl.
  rewrite lookup_alter_eq, Hc in Hl. inversion_clear Hl. exists c. split; [done|]. by eapply taken_served.
Qed.

Lemma queue_turn_onward st r cancel now : onward r 1 st (fst (queue_turn st r cancel now)).
Proof.
  unfold queue_turn. destruct (heap st !! r) as [c|] eqn:Hc.
  2:{ split; [apply Nat.le_refl|]. intros c' _. cbn. by rewrite Hc. }
  destruct (Client.publisher c) as [q cl] eqn:Hq. cbn [closed]. destruct cl.
  { split; [apply Nat.le_refl|]. intros c' _. cbn. rewrite Hc. intros [= <-]. exists c. split; [done|]. apply dead_served.
    intros (_ & A & _). by rewrite Hq in A. }
  destruct q as [|m q]; cbn [recv queue closed].
  - destruct (Client.cancelled c); [apply closed_onward|]. split; [apply Nat.le_refl|]. intros c' _. cbn. rewrite Hc. intros [= <-].
    exists c. split; [done|]. intros A. split; [done|]. exists 0%nat, []. unfold waiting. rewrite Hq. cbn.
    split_and!; [lia|lia|done|by rewrite app_nil_r|done].
  - destruct (Client.cancelled c && cancel); [apply closed_onward|].
    set (st1 := upd_client st r _). assert (onward r 1 st (fst (consume st1 r m now))) as Hm.
    { destruct m as [p|p|k payload]; [by eapply consume_voice..|by apply (consume_frame st r c)]. }
    destruct (consume st1 r m now) as [st2 ended]. destruct ended; [|done]. cbn [fst] in *.
    apply (onward_trans r 1 0 st st2); [done|apply closed_onward].
Qed.

(** Every step of the server keeps the queue and the stream of every client, up to what [served] allows. *)
Lemma step_onward allowed r st st' : server_step allowed st st' -> onward r 0 st st'.
Proof.
  intros Hs. destruct (step_follows (R := served 0) allowed r st st' Hs) as [(cancel & now & ->)|Hf]; [|done].
  apply (onward_weaken r 1); [lia|]. apply queue_turn_onward.
Qed.

(** ** What becomes of a message *)

(** A voice packet for client [c] leaves as an encrypted datagram to its address, or in a frame on its stream when it has none. *)
Definition voiced (packet : VoicePacket ClientBound) (st : ServerState) (c : Client.Client) (st' : ServerState) (c' : Client.Client) : Prop :=
  match Client.udp_socket_addr c with
  | Some addr => udp_out st' = udp_out st ++ [(addr, snd (encrypt (Client.crypt_state c) packet))] /\ written c' = written c
  | None => udp_out st' = udp_out st
      /\ written c' = written c ++ get_mumble_buffer MessageKind.UDPTunnel (encode_voice_packet packet [])
  end.

(** A voice packet of client [c] is queued for the others it is addressed to, the deaf excepted, and for nobody if [c] is muted. *)
Definition routed_on (r : ClientRef) (packet : VoicePacket ClientBound) (target sid : Z) (st : ServerState) (c : Client.Client)
    (st' : ServerState) : Prop :=
  forall r1 c1, r1 <> r -> heap st !! r1 = Some c1 -> exists c2, heap st' !! r1 = Some c2
    /\ Client.publisher c2 = after_voice c1 packet (negb (Client.mute c)
         && bool_decide (delete sid (listening_clients st c target) !! Client.session_id c1 = Some r1)).

(** What the turn that takes [m] from the queue of client [r] does with it. *)
Definition effect (r : ClientRef) (m : ClientMessage) (st : ServerState) (c : Client.Client) (st' : ServerState) (c' : Client.Client) : Prop :=
  match m with
  | SendMessage _ payload => udp_out st' = udp_out st /\ written c' = written c ++ payload
  | SendVoicePacket packet => voiced packet st c st' c'
  | RouteVoicePacket (VPing _) => udp_out st' = udp_out st /\ written c' = written c
  | RouteVoicePacket (VAudio target sid _ _ _ as packet) =>
    if (target =? 31) && negb (Client.mute c) then voiced packet st c st' c' else routed_on r packet target sid st c st'
  end.

(** The message [m] was at the head of the queue of client [r], and its turn came between the two states. *)
Definition handled (r : ClientRef) (m : ClientMessage) (st st' : ServerState) : Prop :=
  exists c c', heap st !! r = Some c /\ heap st' !! r = Some c' /\ head (waiting c) = Some m /\ effect r m st c st' c'.

Lemma send_voice_effect st r c packet :
  heap st !! r = Some c -> alive c -> exists c', heap (fst (send_voice_packet st r packet)) !! r = Some c'
    /\ voiced packet st c (fst (send_voice_packet st r packet)) c'.
Proof.
  intros Hc (Hx & _ & w & Ew & Eb). unfold send_voice_packet, voiced, Client.send_voice_packet. rewrite Hc.
  destruct (Client.udp_socket_addr c) as [addr|].
  - destruct (encrypt (Client.crypt_state c) packet) as [cs dg]. cbn. rewrite lookup_insert_eq. by eexists.
  - unfold Client.send_message_raw, Client.send. rewrite Hx, Ew, Eb. cbn. rewrite lookup_insert_eq. eexists. split; [done|].
    rewrite app_nil_r. split; [done|]. unfold written. cbn. by rewrite Ew.
Qed.

(** The position of the speaker is recorded in it, and nothing else that matters here changes. *)
Lemma position_written st r c packet now :
  heap st !! r = Some c ->
  let st1 := match packet_position packet with
             | Some p => upd_client st r (fun c => Anticheat.note_position (anticheat st) c p now)
             | None => st
             end in
  udp_out st1 = udp_out st /\ exists c1, heap st1 !! r = Some c1 /\ Client.mute c1 = Client.mute c /\ (alive c -> alive c1)
    /\ written c1 = written c /\ Client.udp_socket_addr c1 = Client.udp_socket_addr c /\ Client.crypt_state c1 = Client.crypt_state c.
Proof.
  intros Hc. destruct (packet_position packet) as [p|]; cbn; [|split; [done|]; by exists c]. split; [done|].
  rewrite lookup_alter_eq, Hc. eexists. split; [done|]. unfold Anticheat.note_position. by repeat case_if.
Qed.

Lemma route_effect st r c packet now :
  state_inv st -> heap st !! r = Some c -> alive c ->
  exists c', heap (fst (handle_voice_packet st r packet now)) !! r = Some c'
    /\ effect r (RouteVoicePacket packet) st c (fst (handle_voice_packet st r packet now)) c'.
Proof.
  intros Hinv Hc A. destruct (position_written st r c packet now Hc) as (Hu & c1 & Hc1 & Hm1 & A1 & W1 & U1 & K1).
  assert (exists c', heap (fst (handle_voice_packet st r packet now)) !! r = Some c') as [c' Hc'].
  { destruct (frames_lookup _ _ _ r c (voice_packet_frames (R := appends) st r packet now) Hc) as (c' & Hc' & _). by exists c'. }
  exists c'. split; [exact Hc'|]. revert Hc'. destruct (Client.mute c) eqn:Hm.
  - pose proof (muted_is_silent st r c packet now Hc Hm) as Hs. unfold handle_voice_packet in *.
    rewrite Hc1 in *. unfold Client.is_muted in *. rewrite Hm1 in *. cbn [fst]. intros Hc'. simplify_eq. unfold effect.
    destruct packet as [|target sid sn pl pos]; [done|]. rewrite Hm, andb_false_r. intros r1 c2 Hne Hr1.
    destruct Hs as (_ & _ & _ & Hs). destruct (Hs r1 c2 Hr1) as (c3 & Hc3 & Hp). exists c3. split; [exact Hc3|].
    rewrite Hp, Hm. done.
  - destruct packet as [ts|target sid sn pl pos]; cbn [effect].
    + unfold handle_voice_packet. cbn. rewrite Hc. unfold Client.is_muted. rewrite Hm. cbn. intros ?. by simplify_eq.
    + rewrite Hm. cbn [negb]. rewrite andb_true_r. destruct (Z.eqb_spec target 31) as [->|Ht].
      * unfold handle_voice_packet. rewrite Hc1. unfold Client.is_muted. rewrite Hm1. cbn [Z.eqb Pos.eqb].
        set (packet := VAudio 31 sid sn pl pos) in *. set (st1 := match packet_position packet with Some _ => _ | None => st end) in *.
        destruct (send_voice_effect st1 r c1 packet Hc1 (A1 A)) as (c2 & Hc2 & Hv).
        destruct (send_voice_packet st1 r packet) as [st2 [u|e]]; cbn [seq fst] in *; intros Hc'; simplify_eq;
          unfold voiced in *; by rewrite U1, K1, W1, Hu in Hv.
      * intros _ r1 c2 Hne Hr1. pose proof (voice_packet_spec st r c target sid sn pl pos now Hinv Hc Hm Ht) as Hs.
        cbv zeta in Hs. destruct (handle_voice_packet st r _ now) as [st' res]. destruct Hs as (_ & Hs & _).
        destruct (Hs r1 c2 Hr1) as (c3 & Hc3 & Hp). exists c3. split; [done|]. rewrite Hp, Hm. done.
Qed.

Lemma act_effect st r c m now :
  state_inv st -> heap st !! r = Some c -> alive c ->
  exists c', heap (fst (act st r m now)) !! r = Some c' /\ effect r m st c (fst (act st r m now)) c'.
Proof.
  intros Hinv Hc A. destruct m as [packet|packet|k payload]; cbn [act].
  - by apply route_effect.
  - by apply send_voice_effect.
  - destruct A as (Hx & _ & w & Ew & Eb). unfold on_client. rewrite Hc. unfold Client.send. rewrite Hx, Ew, Eb. cbn.
    rewrite lookup_insert_eq. eexists. split; [done|]. split; [done|]. unfold written. cbn. by rewrite Ew.
Qed.

(** The count of bad messages is not part of the effect. *)
Lemma count_bad_effect st0 c0 st r m c :
  heap st !! r = Some c -> effect r m st0 c0 st c ->
  exists c', heap (fst (count_bad st r)) !! r = Some c' /\ effect r m st0 c0 (fst (count_bad st r)) c'.
Proof.
  intros Hc He. unfold count_bad. rewrite Hc. cbn. rewrite lookup_insert_eq. eexists. split; [done|].
  assert (forall packet target sid, routed_on r packet target sid st0 c0 st ->
    routed_on r packet target sid st0 c0 (set_heap st (<[r := Client.set_bad_net_count c (as_u32 (Client.bad_net_count c + 1))]> (heap st)))) as Hr.
  { intros packet target sid Hr r1 c1 Hne Hx1. destruct (Hr r1 c1 Hne Hx1) as (c2 & Hx2 & Hp). exists c2. split; [|done].
    cbn. by rewrite lookup_insert_ne. }
  destruct m as [[ts|target sid sn pl pos]|packet|k payload]; cbn [effect] in *; [done| |done|done].
  destruct (_ && _); [done|by apply Hr].
Qed.

(** A turn of the queue task takes the head of the queue and deals with it. *)
Lemma turn_handled st r c m q cancel now c' :
  state_inv st -> heap st !! r = Some c -> waiting c = m :: q ->
  heap (fst (queue_turn st r cancel now)) !! r = Some c' -> alive c' ->
  handled r m st (fst (queue_turn st r cancel now)) /\ q `prefix_of` waiting c' /\ written c `prefix_of` written c'.
Proof.
  intros Hinv Hc Hq Hc' A'. assert (alive c) as A.
  { destruct (queue_turn_onward st r cancel now) as [_ Ho].
    destruct (Ho c' ltac:(apply (si_fresh _ Hinv); by eexists) Hc') as (c0 & Hc0 & Hs). simplify_eq. by destruct (Hs A'). }
  pose proof A as (Hx & Hcl & w & Ew & Eb). unfold queue_turn in *. rewrite Hc in *. rewrite Hcl in *.
  unfold waiting in Hq. unfold recv in *. rewrite Hq in *. rewrite Hx in *. cbn [andb] in *. set (p := mkPublisher q _) in *.
  set (st1 := upd_client st r _) in *. set (c1 := Client.set_publisher c p).
  assert (heap st1 !! r = Some c1) as Hc1 by (cbn; by rewrite lookup_alter_eq, Hc).
  assert (alive c1) as A1 by (split_and!; [exact Hx|exact Hcl|by exists w]).
  assert (state_inv st1) as I1 by (by apply upd_client_inv).
  rewrite consume_act in *. pose proof (act_frames (R := appends) st1 r m now) as Hf.
  destruct (act_effect st1 r c1 m now I1 Hc1 A1) as (c2 & Hc2 & He). destruct (act st1 r m now) as [st2 res]. cbn [fst] in *.
  destruct (frames_lookup _ _ _ r c1 Hf Hc1) as (c2' & Hc2' & Ha). simplify_eq.
  assert (forall st3 c3, heap st3 !! r = Some c3 -> effect r m st1 c1 st3 c3 -> handled r m st st3) as Hback.
  { intros st3 c3 Hc3 He3. exists c, c3. split; [done|]. split; [done|]. split; [unfold waiting; by rewrite Hq|].
    destruct m as [[ts|target sid sn pl pos]|packet|k payload]; cbn [effect] in *; [done| |done|done].
    destruct (_ && _); [done|]. intros r1 x Hne Hr1. apply (He3 r1 x Hne). cbn. by rewrite lookup_alter_ne. }
  destruct res as [u|e]; cbn [fst] in *.
  - simplify_eq. split; [by eapply Hback|]. exact (proj2 (Ha A')).
  - destruct (count_bad_effect st1 c1 st2 r m c2 Hc2 He) as (c3 & Hc3 & He3). pose proof Hc3 as Hc3'.
    unfold count_bad in Hc3', Hc', Hc3, He3. unfold count_bad. rewrite Hc2 in *. cbn [fst] in *. cbn [heap set_heap] in Hc3'.
    rewrite lookup_insert_eq in Hc3'. simplify_eq. destruct (20 <? _).
    + exfalso. cbn in Hc'. rewrite lookup_alter_eq, lookup_insert_eq in Hc'. cbn in Hc'. simplify_eq. by destruct A' as (_ & ? & _).
    + cbn [fst] in *. rewrite Hc3 in Hc'. simplify_eq. split; [by eapply Hback|]. exact (proj2 (Ha A')).
Qed.

(** ** Executions *)

(** At every instant one step of the server, or none. *)
Definition execution (allowed : Request -> Prop) (e : nat -> ServerState) : Prop :=
  forall i, e (S i) = e i \/ server_step allowed (e i) (e (S i)).

(** The queue task of client [r] gets a turn again and again. *)
Definition fair_to (r : ClientRef) (e : nat -> ServerState) : Prop :=
  forall i, exists j cancel now, (i <= j)%nat /\ e (S j) = fst (queue_turn (e j) r cancel now).

Lemma execution_inv allowed e i : execution allowed e -> state_inv (e 0%nat) -> state_inv (e i).
Proof. intros He I0. induction i as [|i IH]; [done|]. destruct (He i) as [->|Hs]; [done|by eapply step_inv]. Qed.

Lemma execution_onward allowed e r i j : execution allowed e -> (i <= j)%nat -> onward r 0 (e i) (e j).
Proof.
  intros He. induction 1 as [|j Hij IH]; [by apply frames_onward|]. apply (onward_trans r 0 0 _ (e j)); [done|].
  destruct (He j) as [->|Hs]; [by apply frames_onward|by eapply step_onward].
Qed.

Lemma fair_onward allowed e r n i : execution allowed e -> fair_to r e -> exists j, (i <= j)%nat /\ onward r n (e i) (e j).
Proof.
  intros He Hf. induction n as [|n [j [Hij IH]]]; [exists i; split; [done|by apply frames_onward]|].
  destruct (Hf j) as (k & cancel & now & Hjk & Ek). exists (S k). split; [lia|].
  replace (S n) with (n + (0 + 1))%nat by lia. eapply onward_trans; [exact IH|]. eapply onward_trans; [by eapply execution_onward|].
  rewrite Ek. apply queue_turn_onward.
Qed.
(** The messages [ms] had their turns one after the other, between the instants [i] and [j]. *)
Definition dealt_with (r : ClientRef) (e : nat -> ServerState) (i j : nat) (ms : list ClientMessage) (ts : list nat) : Prop :=
  StronglySorted lt ts /\ Forall (fun t => i <= t < j)%nat ts /\ Forall2 (fun t m => handled r m (e t) (e (S t))) ts ms.

Lemma dealt_later r e i j j' ms ts : (j <= j')%nat -> dealt_with r e i j ms ts -> dealt_with r e i j' ms ts.
Proof. intros Hj (Hs & Hb & Hf). split_and!; [done| |done]. eapply Forall_impl; [exact Hb|]. cbn. lia. Qed.

Lemma dealt_next r e i j ms ts m :
  (i <= j)%nat -> dealt_with r e i j ms ts -> handled r m (e j) (e (S j)) -> dealt_with r e i (S j) (ms ++ [m]) (ts ++ [j]).
Proof.
  intros Hij (Hs & Hb & Hf) Hm. rewrite Forall_forall in Hb. split_and!.
  - apply StronglySorted_app_2; [|done|by repeat constructor]. intros x y Hx ->%list_elem_of_singleton. apply (Hb x Hx).
  - apply Forall_app. split; [|by repeat constructor]. apply Forall_forall. intros x Hx. specialize (Hb x Hx). cbn in *. lia.
  - apply Forall2_app; [done|by repeat constructor].
Qed.

(** The stream grew, and the frames of the messages [ms] are on it, whole and in their order. *)
Definition on_stream (ms : list ClientMessage) (c c' : Client.Client) : Prop :=
  exists chunks, written c' = written c ++ concat chunks /\ payloads ms `sublist_of` chunks.

Lemma on_stream_later ms c c1 c2 : written c1 `prefix_of` written c2 -> on_stream ms c c1 -> on_stream ms c c2.
Proof.
  intros [x Ex] (chunks & E & Hp). exists (chunks ++ [x]). split; [|by apply sublist_inserts_r].
  by rewrite Ex, E, concat_app, <-app_assoc; cbn; rewrite app_nil_r.
Qed.

Lemma on_stream_next r st st' ms m c c1 c2 :
  heap st !! r = Some c1 -> heap st' !! r = Some c2 -> handled r m st st' -> written c1 `prefix_of` written c2 ->
  on_stream ms c c1 -> on_stream (ms ++ [m]) c c2.
Proof.
  intros Hc1 Hc2 (a & b & Ha & Hb & _ & He) Hw Hs. simplify_eq. unfold on_stream. rewrite payloads_app.
  destruct m as [packet|packet|k payload]; [by rewrite app_nil_r; eapply on_stream_later..|].
  destruct Hs as (chunks & E & Hp). destruct He as [_ He]. exists (chunks ++ [payload]). split; [|by apply sublist_app].
  by rewrite He, E, concat_app, <-app_assoc; cbn; rewrite app_nil_r.
Qed.

(** At the instant [j], at least [n] of the messages that waited at the instant [i] were dealt with, from the head and in
    their order, and the others are still there, ahead of newer ones; if the connection lives. *)
Definition progress (r : ClientRef) (e : nat -> ServerState) (i : nat) (c : Client.Client) (n j : nat) : Prop :=
  forall c', heap (e j) !! r = Some c' -> alive c' -> exists k ts, (n <= k <= length (waiting c))%nat
    /\ drop k (waiting c) `prefix_of` waiting c' /\ dealt_with r e i j (take k (waiting c)) ts
    /\ on_stream (take k (waiting c)) c c'.

(** One more turn of the queue task. *)
Lemma progress_turn r e i c n j cancel now :
  state_inv (e j) -> (i <= j)%nat -> e (S j) = fst (queue_turn (e j) r cancel now) -> (n < length (waiting c))%nat ->
  progress r e i c n j -> progress r e i c (S n) (S j).
Proof.
  intros Ij Hij Ej Hn Hp c' Hc' A'. rewrite Ej in Hc'. destruct (queue_turn_onward (e j) r cancel now) as [Hnext Ho].
  destruct (decide (r < next_ref (e j))%nat) as [Hr|Hr].
  2:{ exfalso. unfold queue_turn in Hc'. destruct (heap (e j) !! r) as [c0|] eqn:Hc0; [|cbn in Hc'; congruence].
      apply Hr, (si_fresh _ Ij). by eexists. }
  destruct (Ho c' Hr Hc') as (cj & Hcj & Hs). destruct (Hs A') as (Aj & _ & chunks & _ & _ & Eg & _).
  assert (written cj `prefix_of` written c') as Hgrow by (by eexists). destruct (Hp cj Hcj Aj) as (k & ts & Hk & [x Hx] & Hd & Hw).
  destruct (waiting cj) as [|m q] eqn:Hq.
  - symmetry in Hx. apply app_nil in Hx as [Hx _]. assert (length (waiting c) <= k)%nat as Hlen
      by (apply (f_equal length) in Hx; rewrite length_drop in Hx; cbn in Hx; lia).
    exists k, ts. split_and!; [lia|lia|rewrite Hx; apply prefix_nil|eapply dealt_later; [|exact Hd]; lia|by eapply on_stream_later].
  - destruct (turn_handled (e j) r cj m q cancel now c' Ij Hcj Hq Hc' A') as (Hm & Hpre & _). rewrite <- Ej in Hm.
    destruct (drop k (waiting c)) as [|m' rest] eqn:Hdrop.
    + assert (length (waiting c) <= k)%nat as Hlen by (apply (f_equal length) in Hdrop; rewrite length_drop in Hdrop; cbn in Hdrop; lia).
      exists k, ts. split_and!; [lia|lia|rewrite Hdrop; apply prefix_nil|eapply dealt_later; [|exact Hd]; lia|by eapply on_stream_later].
    + cbn in Hx. injection Hx as <- ->. assert (waiting c !! k = Some m) as Hl.
      { rewrite <- (Nat.add_0_r k), <- lookup_drop, Hdrop. done. }
      pose proof (lookup_lt_Some _ _ _ Hl) as Hlt. exists (S k), (ts ++ [j]). split_and!; [lia|lia|..].
      * rewrite (drop_S _ _ _ Hl) in Hdrop. injection Hdrop as Hdrop. rewrite Hdrop. etransitivity; [|exact Hpre]. by eexists.
      * rewrite (take_S_r _ _ _ Hl). by apply dealt_next.
      * rewrite (take_S_r _ _ _ Hl). eapply (on_stream_next r (e j) (e (S j))); [exact Hcj|rewrite Ej; exact Hc'|exact Hm|exact Hgrow|exact Hw].
Qed.

(** Any other step. *)
Lemma progress_weaken r e i c n m j : (m <= n)%nat -> progress r e i c n j -> progress r e i c m j.
Proof. intros Hm Hp c' Hc' A'. destruct (Hp c' Hc' A') as (k & ts & Hk & Hrest). exists k, ts. split; [lia|done]. Qed.

Lemma progress_step allowed r e i c n j :
  state_inv (e j) -> execution allowed e -> (i <= j)%nat -> (r < next_ref (e j))%nat ->
  progress r e i c n j -> progress r e i c n (S j).
Proof.
  intros Ij He Hij Hr Hp. assert (e (S j) = e j \/ follows appends r (e j) (e (S j))
    \/ exists cancel now, e (S j) = fst (queue_turn (e j) r cancel now)) as [Ej|[[_ Ho]|(cancel & now & Ej)]].
  { destruct (He j) as [->|Hs]; [by left|]. destruct (step_follows (R := appends) _ r _ _ Hs); auto. }
  - intros c' Hc' A'. rewrite Ej in Hc'. destruct (Hp c' Hc' A') as (k & ts & Hk & Hpre & Hd & Hw). exists k, ts.
    split_and!; [lia|lia|done|eapply dealt_later; [|exact Hd]; lia|done].
  - intros c' Hc' A'. destruct (Ho c' Hr Hc') as (cj & Hcj & Ha). destruct (Ha A') as (Aj & Hpre' & Hgrow).
    destruct (Hp cj Hcj Aj) as (k & ts & Hk & Hpre & Hd & Hw). exists k, ts. split_and!; [lia|lia|by etransitivity|eapply dealt_later; [|exact Hd]; lia|by eapply on_stream_later].
  - destruct (decide (n < length (waiting c))%nat) as [Hn|Hn]; [eapply progress_weaken; [|by eapply progress_turn]; lia|].
    intros c' Hc' A'. destruct (queue_turn_onward (e j) r cancel now) as [_ Ho]. rewrite <- Ej in Ho.
    destruct (Ho c' Hr Hc') as (cj & Hcj & Hs). destruct (Hs A') as (Aj & _ & chunks & _ & _ & Eg & _).
  assert (written cj `prefix_of` written c') as Hgrow by (by eexists). destruct (Hp cj Hcj Aj) as (k & ts & Hk & Hpre & Hd & Hw).
    exists k, ts. assert (k = length (waiting c)) as -> by lia. split_and!; [lia|lia|rewrite drop_all; apply prefix_nil|eapply dealt_later; [|exact Hd]; lia|by eapply on_stream_later].
Qed.

Lemma progress_later allowed r e i c n j j' :
  execution allowed e -> state_inv (e 0%nat) -> (i <= j)%nat -> (r < next_ref (e j))%nat -> (j <= j')%nat ->
  progress r e i c n j -> progress r e i c n j'.
Proof.
  intros He I0 Hij Hr Hj Hp. assert (progress r e i c n j' /\ (r < next_ref (e j'))%nat) as [? _]; [|done].
  induction Hj as [|j' Hj' [IH Hr']]; [done|]. split.
  - eapply progress_step; [by eapply execution_inv|done|lia|done|done].
  - destruct (execution_onward allowed e r j' (S j') He ltac:(lia)) as [Hn _]. lia.
Qed.

Lemma progress_start r e i c : heap (e i) !! r = Some c -> progress r e i c 0 i.
Proof.
  intros Hc c' Hc' A'. simplify_eq. exists 0%nat, []. split_and!; [lia|lia|done|split_and!; by constructor|].
  exists []. by rewrite app_nil_r.
Qed.

Lemma fair_progress allowed r e i c n :
  execution allowed e -> state_inv (e 0%nat) -> fair_to r e -> heap (e i) !! r = Some c -> (n <= length (waiting c))%nat ->
  exists j, (i <= j)%nat /\ progress r e i c n j.
Proof.
  intros He I0 Hf Hc. assert (r < next_ref (e i))%nat as Hr by (apply (si_fresh _ (execution_inv allowed e i He I0)); by eexists).
  induction n as [|n IH]; intros Hn; [exists i; split; [done|by apply progress_start]|].
  destruct (IH ltac:(lia)) as (j & Hij & Hp). destruct (Hf j) as (k & cancel & now & Hjk & Ek). exists (S k). split; [lia|].
  destruct (execution_onward allowed e r i j He Hij) as [Hn' _].
  eapply progress_turn; [by eapply execution_inv|lia|exact Ek|lia|]. eapply (progress_later allowed _ _ _ _ _ j); [done|done|done|lia|done|done].
Qed.

(** Everything that waits is served, or the connection ends. *)
Lemma fair_served allowed e r c i :
  execution allowed e -> state_inv (e 0%nat) -> fair_to r e -> heap (e i) !! r = Some c ->
  exists j, (i <= j)%nat /\ forall c', heap (e j) !! r = Some c' -> served (length (waiting c)) c c'.
Proof.
  intros He I0 Hf Hc. destruct (fair_onward allowed e r (length (waiting c)) i He Hf) as (j & Hij & _ & Ho). exists j. split; [done|].
  intros c' Hc'. assert (r < next_ref (e i))%nat as Hr
    by (apply (si_fresh _ (execution_inv allowed e i He I0)); by eexists).
  destruct (Ho c' Hr Hc') as (c0 & Hc0 & Hs). by simplify_eq.
Qed.
End onward.

(** C6.  Nothing queued for a client is lost, and everything has its turn: in every execution of the server, from start-up and under
    any interleaving of its tasks, what waits in a client's queue at some instant leaves it from the head only and is never reordered
    or overtaken by what is queued later.  Each message that left had a turn of its own, in the order of the
    queue, and that turn did with it what its kind asks for: the bytes of a protocol message went to the client's stream; a voice packet
    for the client went to its address as an encrypted datagram, or in a frame on its stream when it has no address; a voice packet of
    the client was queued for the clients it is addressed to.  The protocol messages are on the stream one after the other and each in
    one piece.  All this as long as the connection lives; and if the task that serves the queue gets its turn again and again, then
    at some later instant everything that waited was dealt with, unless the connection ended before. *)
Theorem queues_drain `{HashIterLaws} `{MumbleProto} `{Aes128} `{UdpSocket} `{Unicode} `{UsernameRegex}
    `{SerdeJson (list BanList.BanEntry)} `{SerdeJson Anticheat.PersistedHeard} (args : Args) (f : FileSystem) (epoch : Z)
    (e : nat -> ServerState) (r : ClientRef) (c : Client.Client) (i : nat) :
  e 0%nat = start args f epoch -> execution (fun _ => True) e -> heap (e i) !! r = Some c ->
  (forall j c', (i <= j)%nat -> heap (e j) !! r = Some c' -> alive c' ->
    exists k ts, (k <= length (waiting c))%nat /\ drop k (waiting c) `prefix_of` waiting c'
      /\ dealt_with r e i j (take k (waiting c)) ts /\ on_stream (take k (waiting c)) c c')
  /\ (fair_to r e -> exists j, (i <= j)%nat /\ forall c', heap (e j) !! r = Some c' -> alive c' ->
    exists ts, dealt_with r e i j (waiting c) ts /\ on_stream (waiting c) c c').
Proof.
  intros E0 He Hc. assert (state_inv (e 0%nat)) as I0 by (rewrite E0; apply new_inv).
  assert (r < next_ref (e i))%nat as Hr by (apply (si_fresh _ (execution_inv _ e i He I0)); by eexists). split.
  - intros j c' Hij Hc' A. pose proof (progress_start r e i c Hc) as Hp.
    destruct (progress_later _ r e i c 0 i j He I0 (le_n i) Hr Hij Hp c' Hc' A) as (k & ts & [_ Hk] & Hrest). by exists k, ts.
  - intros Hf. destruct (fair_progress _ r e i c (length (waiting c)) He I0 Hf Hc (le_n _)) as (j & Hij & Hp). exists j. split; [done|].
    intros c' Hc' A. destruct (Hp c' Hc' A) as (k & ts & Hk & _ & Hd & Hs). exists ts. rewrite take_ge in Hd, Hs by lia. done.
Qed.

(** ** Sample executions *)

(** The given turns, and then one turn for ever. *)
Definition play (turns : list (ServerState -> ServerState)) (last : ServerState -> ServerState) (st : ServerState) (i : nat)
    : ServerState :=
  Nat.iter (i - length turns) last (fold_left (fun st f => f st) (take i turns) st).

Lemma play_next turns last st i : play turns last st (S i) = default last (turns !! i) (play turns last st i).
Proof.
  unfold play. destruct (turns !! i) as [f|] eqn:Hf; cbn [default].
  - apply lookup_lt_Some in Hf as Hl. rewrite (take_S_r _ _ _ Hf), fold_left_app.
    by replace (S i - length turns)%nat with 0%nat by lia; replace (i - length turns)%nat with 0%nat by lia.
  - apply lookup_ge_None in Hf. rewrite !take_ge by lia. by replace (S i - length turns)%nat with (S (i - length turns)) by lia.
Qed.

Lemma play_after turns last st i : play turns last st (S (length turns + i)) = last (play turns last st (length turns + i)).
Proof. rewrite play_next. rewrite lookup_ge_None_2 by lia. done. Qed.

Lemma play_execution `{HashIter} `{MumbleProto} `{Aes128} `{UdpSocket} `{Unicode} `{UsernameRegex}
    `{SerdeJson (list BanList.BanEntry)} `{SerdeJson Anticheat.PersistedHeard} turns last st :
  (forall i f, turns !! i = Some f -> server_step (fun _ => True) (play turns last st i) (f (play turns last st i))) ->
  (forall st, server_step (fun _ => True) st (last st)) -> execution (fun _ => True) (play turns last st).
Proof. intros Ht Hl i. right. rewrite play_next. destruct (turns !! i) as [f|] eqn:Hf; [by apply Ht|apply Hl]. Qed.

Section sample_queue.
#[local] Existing Instances canonical_iter const_proto xor_aes no_udp bits_json heard_json.
Let lower : Unicode := fun s => s.
Let any_name : UsernameRegex := fun _ => true.
#[local] Existing Instances lower any_name.

(** A client connects, is greeted, and its queue is served for ever after: its own announcement was waiting. *)
Definition sample_connect (name : string) (st : ServerState) : ServerState :=
  fst (handle_new_client st (VersionMsg.mkVersion None (Some "CitizenFX"%string) None None)
    (AuthenticateMsg.mkAuthenticate (Some name) None [] [] None) (default_crypt_state sample_key 0) [] "192.168.3.3" 0 0).
Definition sample_turns : list (ServerState -> ServerState) :=
  sample_connect "[12] eve"
  :: ((fun item st => fst (greet_item st 0%nat item)) <$>
      [SendCodecVersion; CollectLists; SendChannel 0; SendUser 0; SendMyUserState; SendServerSync; SendServerConfig; BroadcastUserState]).
Definition sample_execution : nat -> ServerState :=
  play sample_turns (fun st => fst (queue_turn st 0%nat false 7)) (start sample_args BanList.sample_fs 0).

Lemma queues_drain_witness :
  exists c, heap (sample_execution 9) !! 0%nat = Some c /\ length (waiting c) = 1%nat
  /\ exists j, (9 <= j)%nat /\ forall c', heap (sample_execution j) !! 0%nat = Some c' -> alive c' ->
    exists ts, dealt_with 0%nat sample_execution 9 j (waiting c) ts /\ on_stream (waiting c) c c'.
Proof.
  destruct (heap (sample_execution 9) !! 0%nat) as [c|] eqn:Hc; [|vm_compute in Hc; discriminate].
  exists c. split; [reflexivity|]. split; [vm_compute in Hc; injection Hc as <-; reflexivity|].
  apply (@queues_drain canonical_iter canonical_iter_laws const_proto xor_aes no_udp lower any_name
    bits_json heard_json sample_args BanList.sample_fs 0 sample_execution 0%nat c 9).
  - reflexivity.
  - apply play_execution; [|intros; apply step_queue]. intros i f. destruct i as [|i]; [intros [= <-]; by apply step_connect|].
    intros Hf. apply list_lookup_fmap_Some in Hf as (item & -> & _). apply step_greet.
  - exact Hc.
  - intros i. exists (9 + i)%nat, false, 7. split; [lia|]. exact (play_after sample_turns _ _ i).
Defined.
End sample_queue.
