(* ===== verification/Lifecycle.v ===== *)
(** All connections together: each accepted connection goes through its greeting, its service and its end ([src/src/server/tcp.rs])
    while the tasks of the other connections, the UDP loop, the clean loop, the sampler and the HTTP API interleave with it in any
    order.  A client can go on sending for as long as it likes.  No client outlives its connection, and under a fair schedule the
    connection of a client that hangs up or is cancelled ends. *)

From stdpp Require Import base gmap strings list.
From Stdlib Require Import ZArith Lia.
From S2P Require Import Prelude Errors Maps Text Varint Voice Float32 Messages Crypt Proto Calendar Bans Client Anticheat.
From S2P Require Import State StateInv StateProps Handlers HandlerInv HandlerProps Net Greeting NetProps Wire WireFormat Codec CodecProps Delivery.
From S2P Require Import Sampler SamplerProps Http HttpProps System Frames Connection Queues.
Import ServerState Handler Udp Clean Tcp Sampler Http.

(** ** The code *)

(** What came in on the stream of a connection and was not read yet, and whether the client has hung up.  Until then it can go on
    sending, for as long as it likes. *)
Record Input := mkInput {
  unread : list Z;
  ended : bool;
}.

(** Where the task of a connection is: in [client_run] with items of the greeting to go, in it with the client's tasks running, and
    after it, with the session of the client and what its stream has received. *)
Inductive Phase :=
  | Greeting (session : Z) (items : list GreetItem) (input : Input)
  | Serving (session : Z) (input : Input)
  | Leaving (session : Z).

(** What the network does to a stream: more bytes arrive, or the client hangs up.  Nothing arrives after that. *)
Inductive NetEvent :=
  | Arrives (bytes : list Z)
  | HangsUp.

Definition receive (ev : NetEvent) (i : Input) : Input :=
  if ended i then i else
  match ev with
  | Arrives bytes => mkInput (unread i ++ bytes) false
  | HangsUp => mkInput (unread i) true
  end.

Definition phase_receive (ev : NetEvent) (p : Phase) : Phase :=
  match p with
  | Greeting s items i => Greeting s items (receive ev i)
  | Serving s i => Serving s (receive ev i)
  | Leaving s => Leaving s
  end.

(** The first message on the stream is there to its last byte. *)
Definition whole_message (bytes : list Z) : bool :=
  match read_u16 bytes with
  | Err _ => false
  | Ok (_, rest) => match read_u32 rest with Err _ => false | Ok (size, rest) => (Z.to_nat size <=? length rest)%nat end
  end.

Definition session_of (p : Phase) : Z :=
  match p with Greeting s _ _ | Serving s _ | Leaving s => s end.

(** The server and its connections, by the client each of them admitted. *)
Record World := mkWorld {
  server : ServerState;
  conns : gmap ClientRef Phase;
}.

Section world.
Context `{HashIterLaws} `{MumbleProto} `{Aes128} `{UdpSocket} `{Unicode} `{UsernameRegex}
  `{SerdeJson (list BanList.BanEntry)} `{SerdeJson Anticheat.PersistedHeard}.

(** The reading task waits: the message it reads is not there yet, the client has not hung up, and the [select!] does not take a
    cancellation.  (Once it has read the kind of a message the task does not look at the cancellation any more; that it may is harmless
    here, since nothing below relies on a reading task that is cancelled.) *)
Definition waits (st : ServerState) (r : ClientRef) (i : Input) (turn : TaskTurn) : bool :=
  match turn with
  | ReadTurn cancel => negb (ended i || whole_message (unread i)) && negb (default true (Client.cancelled <$> heap st !! r) && cancel)
  | ServeTurn _ => false
  end.

(** One turn of a connection: the rest of [handle_new_client] once the client is admitted. *)
Definition conn_turn (w : World) (r : ClientRef) (turn : TaskTurn) (now : Z) : Outcome World :=
  match conns w !! r with
  | None => Done w
  | Some (Greeting s [] i) => Done (mkWorld (server w) (<[r := Serving s i]> (conns w)))
  | Some (Greeting s (item :: items) i) =>
    match greet_item (server w) r item with
    | (st, Ok more) => Done (mkWorld st (<[r := Greeting s (more ++ items) i]> (conns w)))
    | (st, Err _) => Done (mkWorld (close_queue st r) (<[r := Leaving s]> (conns w)))
    end
  | Some (Serving s i) =>
    if waits (server w) r i turn then Done w else
    match task_turn (server w) r (unread i) turn now with
    | Panic => Panic
    | Done (st, Some rest) => Done (mkWorld st (<[r := Serving s (mkInput rest (ended i))]> (conns w)))
    | Done (st, None) => Done (mkWorld st (<[r := Leaving s]> (conns w)))
    end
  | Some (Leaving s) => Done (mkWorld (disconnect (server w) s Disconnected) (delete r (conns w)))
  end.

(** The steps of the tasks that belong to no connection, and of the network. *)
Inductive other_step : ServerState -> ServerState -> Prop :=
  | other_udp st received v now : other_step st (udp_server_run st received v now)
  | other_clean st q now : other_step st (clean_rest st q now)
  | other_reset st r now : other_step st (fst (reset_client_crypt st r now))
  | other_sampler st ticks now epoch : other_step st (fst (fst (run_sampler st ticks now epoch)))
  | other_http st a auth req now epoch : other_step st (fst (auth_basic a auth st req now epoch))
  | other_break st r : other_step st (break_stream st r).

(** A connection that passed its handshake is admitted; something happens on the stream of a connection; a connection takes a turn;
    another task takes a step; a client that neither a map nor a connection refers to is freed. *)
Inductive world_step : World -> World -> Prop :=
  | world_admit w bytes server_version key timeout1 timeout2 out version auth cs stream ip now epoch st r c :
      Z.of_nat (size (clients (server w))) < 2 ^ 32 ->
      init bytes server_version key now timeout1 timeout2 = (out, Ok (version, auth, cs, stream)) ->
      handle_new_client (server w) version auth cs out ip now epoch = (st, Ok r) -> heap st !! r = Some c ->
      world_step w (mkWorld st (<[r := Greeting (Client.session_id c) greet_items (mkInput stream false)]> (conns w)))
  | world_net w r p ev : conns w !! r = Some p -> world_step w (mkWorld (server w) (<[r := phase_receive ev p]> (conns w)))
  | world_turn w r turn now w' :
      Z.of_nat (size (channels (server w))) < 2 ^ 32 -> conn_turn w r turn now = Done w' -> world_step w w'
  | world_other w st' : other_step (server w) st' -> world_step w (mkWorld st' (conns w))
  | world_reclaim w r : conns w !! r = None -> world_step w (mkWorld (reclaim (server w) r) (conns w)).

(** ** The steps are steps of the server *)

Lemma other_server_step st st' : other_step st st' -> server_step (fun _ => True) st st'.
Proof. by destruct 1; constructor. Qed.

Lemma read_turn_steps st r stream now st' e rest :
  Z.of_nat (size (channels st)) < 2 ^ 32 -> read_turn st r stream now = (Done (st', e), rest) ->
  rtc (server_step (fun _ => True)) st st'.
Proof.
  intros Hsz. unfold read_turn. destruct (match read_u16 stream with Ok _ => _ | Err _ => _ end) as [kind s1].
  destruct (handle_stream_read st r kind s1 now) as [[[st1 res]|] s2] eqn:Eh; [|done].
  assert (rtc (server_step (fun _ => True)) st st1) as K1.
  { unfold handle_stream_read in Eh. destruct kind as [k|]; [|by simplify_eq].
    destruct (read_u32 s1) as [[size s3]|]; [|by simplify_eq]. destruct (Proto.read_exact _ s3) as [[buf s4]|]; [|by simplify_eq].
    destruct (MessageKind.try_from k) as [kind|]; [|by simplify_eq]. injection Eh as Ed _. eapply rtc_once, step_message; [|exact Ed].
    done. }
  destruct res as [u|err]; [by intros [= <- _ _]|]. pose proof (step_bad (fun _ => True) st1 r) as K2.
  destruct (count_bad st1 r) as [st2 b]. intros [= <- _ _]. by eapply rtc_r.
Qed.

Lemma task_turn_steps st r stream turn now st' left :
  Z.of_nat (size (channels st)) < 2 ^ 32 -> task_turn st r stream turn now = Done (st', left) ->
  rtc (server_step (fun _ => True)) st st'.
Proof.
  intros Hsz. unfold task_turn. destruct turn as [cancel|cancel].
  - case_if; [intros [= <- _]; eapply rtc_once, step_end|].
    destruct (read_turn st r stream now) as [[[st1 [|]]|] rest] eqn:Er; [| |done]; apply read_turn_steps in Er; try done; intros [= <- _];
      [|done]. eapply rtc_r; [exact Er|apply step_end].
  - pose proof (step_queue (fun _ => True) st r cancel now) as Hq. destruct (queue_turn st r cancel now) as [st1 t]. cbn [fst] in Hq.
    destruct t; intros [= <- _]; [by apply rtc_once..|]. eapply rtc_l; [exact Hq|apply rtc_once, step_end].
Qed.

(** Every step of the connections and of the other tasks is a run of [server_step], so what holds of the latter holds here. *)
Lemma world_server_steps w w' : world_step w w' -> rtc (server_step (fun _ => True)) (server w) (server w').
Proof.
  destruct 1 as [w bytes sv key t1 t2 out version auth cs stream ip now epoch st r c Hsz _ Hn _|w r p ev _|w r turn now w' Hsz Ht|w st' Ho|w r _].
  - pose proof (step_connect (fun _ => True) (server w) version auth cs out ip now epoch Hsz) as Hs. rewrite Hn in Hs. by apply rtc_once.
  - done.
  - unfold conn_turn in Ht. destruct (conns w !! r) as [[s [|item items] i|s i|s]|]; [by simplify_eq| | | |by simplify_eq].
    + pose proof (step_greet (fun _ => True) (server w) r item) as Hg.
      destruct (greet_item (server w) r item) as [st [more|e]]; simplify_eq; cbn [fst server] in *.
      * by apply rtc_once.
      * eapply rtc_l; [exact Hg|apply rtc_once, step_end].
    + destruct (waits _ _ _ _); [by simplify_eq|].
      destruct (task_turn (server w) r (unread i) turn now) as [[st [rest|]]|] eqn:Et; simplify_eq; cbn [server]; by eapply task_turn_steps.
    + simplify_eq. cbn [server]. apply rtc_once, step_disconnect.
  - apply rtc_once. by apply other_server_step.
  - apply rtc_once, step_reclaim.
Qed.

(** ** The invariant *)

(** While its tasks run, the count of bad messages is a count. *)
Definition counting (p : Phase) (c : Client.Client) : Prop :=
  match p with Leaving _ => True | _ => 0 <= Client.bad_net_count c end.

Record world_inv (w : World) : Prop := {
  wi_state : state_inv (server w);
  wi_clients s r : clients (server w) !! s = Some r -> exists p, conns w !! r = Some p /\ session_of p = s;
  wi_conns r p : conns w !! r = Some p ->
    exists c, heap (server w) !! r = Some c /\ Client.session_id c = session_of p /\ counting p c;
}.

(** Client [r] is still there, the same and with the same count. *)
Definition known (r : ClientRef) (st st' : ServerState) : Prop :=
  forall c, heap st !! r = Some c -> exists c', heap st' !! r = Some c' /\ steady c c'.

#[global] Instance known_preorder r : PreOrder (known r).
Proof.
  split; [intros st c Hc; by exists c|]. intros s1 s2 s3 K1 K2 c Hc. destruct (K1 c Hc) as (c1 & Hc1 & S1).
  destruct (K2 c1 Hc1) as (c2 & Hc2 & S2). exists c2. split; [done|by etransitivity].
Qed.

Lemma frames_known r st st' : frames steady st st' -> known r st st'.
Proof. intros Hf c Hc. by eapply frames_lookup. Qed.

(** No client is added to the map of the connected ones. *)
Definition shrinks (st st' : ServerState) : Prop :=
  forall s r, clients st' !! s = Some r -> clients st !! s = Some r.
#[global] Instance shrinks_preorder : PreOrder shrinks.
Proof. split; [by intros st s r|]. intros a b c K1 K2 s r Hs. by apply K1, K2. Qed.

Lemma core_shrinks st st' : same_core st st' -> shrinks st st'.
Proof. intros (_ & Hc & _) s r. by rewrite Hc. Qed.

Lemma disconnect_shrinks st s reason : shrinks st (disconnect st s reason).
Proof. intros s' r. unfold disconnect. rewrite disconnect_found_clients. by intros [_ ?]%lookup_delete_Some. Qed.

Lemma other_step_keeps st st' : other_step st st' -> state_inv st -> frames steady st st' /\ shrinks st st'.
Proof.
  destruct 1 as [st received v now|st q now|st r now|st ticks now epoch|st a auth req now epoch|st r]; intros Hinv.
  - split; [apply udp_frames|apply core_shrinks, tables_core, udp_tables].
  - split; [apply clean_rest_frames|]. intros s r. rewrite clean_rest_clients by done. by repeat case_match.
  - split; [apply reset_client_crypt_frames|apply core_shrinks, tables_core, reset_client_crypt_tables].
  - split; [apply run_sampler_frames|]. unfold run_sampler. assert (same_shape st (fst (sample st now epoch))) as Hs.
    { unfold sample. case_if; [done|]. apply evaluate_all_same. rewrite make_env_eq. by apply take_snaps_turns. }
    destruct (sample st now epoch) as [st1 posts]. cbn [fst] in *. apply ss_clients in Hs. intros s r. rewrite <- Hs.
    case_if; [|done]. unfold flush_heard. by repeat case_match.
  - split; [apply auth_basic_frames|]. intros s r. by rewrite (ss_clients _ _ (auth_basic_same a auth st req now epoch)).
  - split; [by apply alter_frames|]. apply core_shrinks, tables_core, upd_client_tables.
Qed.

(** What the tasks of client [r] do to another client. *)
Lemma count_bad_known r r' st : r <> r' -> known r' st (fst (count_bad st r)).
Proof.
  intros Hne c Hc. unfold count_bad. destruct (heap st !! r); cbn; [rewrite lookup_insert_ne by done|]; by exists c.
Qed.

Lemma read_turn_known r r' st stream now st' e rest :
  r <> r' -> read_turn st r stream now = (Done (st', e), rest) -> known r' st st'.
Proof.
  intros Hne. unfold read_turn. destruct (match read_u16 stream with Ok _ => _ | Err _ => _ end) as [kind s1].
  destruct (handle_stream_read st r kind s1 now) as [[[st1 res]|] s2] eqn:Eh; [|done].
  assert (known r' st st1) as K1.
  { unfold handle_stream_read in Eh. destruct kind as [k|]; [|by simplify_eq].
    destruct (read_u32 s1) as [[size s3]|]; [|by simplify_eq]. destruct (Proto.read_exact _ s3) as [[buf s4]|]; [|by simplify_eq].
    destruct (MessageKind.try_from k) as [kind|]; [|by simplify_eq]. injection Eh as Ed _. by eapply frames_known, dispatch_frames. }
  destruct res as [u|err]; [by intros [= <- _ _]|]. pose proof (count_bad_known r r' st1 Hne) as K2.
  destruct (count_bad st1 r) as [st2 b]. intros [= <- _ _]. by etransitivity.
Qed.

Lemma close_known r r' st : known r' st (close_queue st r).
Proof. apply frames_known, close_frames. Qed.

Lemma queue_turn_known r r' st cancel now : r <> r' -> known r' st (fst (queue_turn st r cancel now)).
Proof.
  intros Hne. unfold queue_turn. destruct (heap st !! r) as [c|]; [|done]. case_if; [done|].
  destruct (recv _) as [[m p]|]; [|case_if; [apply close_known|done]]. case_if; [apply close_known|].
  set (st1 := upd_client st r _). assert (known r' st st1) as K1 by (by apply frames_known, alter_frames).
  assert (known r' st1 (fst (consume st1 r m now))) as K2.
  { rewrite consume_act. pose proof (frames_known r' _ _ (act_frames st1 r m now)) as Ka.
    destruct (act st1 r m now) as [st2 [u|e]]; [done|]. etransitivity; [exact Ka|by apply count_bad_known]. }
  destruct (consume st1 r m now) as [st2 ended]. cbn [fst] in K2. etransitivity; [exact K1|]. destruct ended; [|done].
  etransitivity; [exact K2|apply close_known].
Qed.

Lemma task_turn_known r r' st stream turn now st' left :
  r <> r' -> task_turn st r stream turn now = Done (st', left) -> known r' st st'.
Proof.
  intros Hne. unfold task_turn. destruct turn as [cancel|cancel].
  - case_if; [intros [= <- _]; apply close_known|].
    destruct (read_turn st r stream now) as [[[st1 [|]]|] rest] eqn:Er; [| |done]; apply (read_turn_known r r') in Er; try done;
      intros [= <- _]; [|done]. etransitivity; [exact Er|apply close_known].
  - pose proof (queue_turn_known r r' st cancel now Hne) as Hq. destruct (queue_turn st r cancel now) as [st1 t]. cbn [fst] in Hq.
    destruct t; intros [= <- _]; [done..|]. etransitivity; [exact Hq|apply close_known].
Qed.

Lemma steady_counting p c c' : steady c c' -> counting p c -> counting p c'.
Proof. intros [_ Hb]. unfold counting. by rewrite Hb. Qed.

Lemma steady_session c c' : steady c c' -> Client.session_id c' = Client.session_id c.
Proof. intros [Hi _]. unfold Client.session_id. by rewrite Hi. Qed.

(** A step of one connection. *)
Lemma inv_update w r p p' st' :
  world_inv w -> state_inv st' -> shrinks (server w) st' -> (forall r', r' <> r -> known r' (server w) st') ->
  conns w !! r = Some p -> session_of p' = session_of p ->
  (exists c, heap st' !! r = Some c /\ Client.session_id c = session_of p' /\ counting p' c) ->
  world_inv (mkWorld st' (<[r := p']> (conns w))).
Proof.
  intros [Wi Wc Wn] Hi Hs Hk Hp Hse Hown. split; cbn [server conns]; [done|..].
  - intros s r' Hr'. destruct (Wc s r' (Hs s r' Hr')) as (p0 & Hp0 & Hs0). destruct (decide (r = r')) as [<-|Hne].
    + exists p'. rewrite lookup_insert_eq. split; [done|]. by simplify_eq.
    + exists p0. by rewrite lookup_insert_ne.
  - intros r' p0. destruct (decide (r = r')) as [<-|Hne]; [rewrite lookup_insert_eq; by intros [= <-]|rewrite lookup_insert_ne by done].
    intros Hp0. destruct (Wn r' p0 Hp0) as (c & Hc & Hse0 & Hco). destruct (Hk r' (not_eq_sym Hne) c Hc) as (c' & Hc' & Hst). exists c'.
    split; [done|]. split; [by rewrite (steady_session _ _ Hst)|by eapply steady_counting].
Qed.

(** A step of a task that belongs to no connection. *)
Lemma inv_other w st' :
  world_inv w -> state_inv st' -> shrinks (server w) st' -> (forall r p, conns w !! r = Some p -> known r (server w) st') ->
  world_inv (mkWorld st' (conns w)).
Proof.
  intros [Wi Wc Wn] Hi Hs Hk. split; cbn [server conns]; [done|..].
  - intros s r Hr. by apply Wc, Hs.
  - intros r p Hp. destruct (Wn r p Hp) as (c & Hc & Hse & Hco). destruct (Hk r p Hp c Hc) as (c' & Hc' & Hst). exists c'.
    split; [done|]. split; [by rewrite (steady_session _ _ Hst)|by eapply steady_counting].
Qed.

Lemma conn_turn_inv w r turn now w' :
  world_inv w -> state_inv (server w') -> conn_turn w r turn now = Done w' -> world_inv w'.
Proof.
  intros W Hi. unfold conn_turn. destruct (conns w !! r) as [p|] eqn:Hp; [|by intros [= <-]].
  destruct (wi_conns _ W r p Hp) as (c & Hc & Hse & Hco). destruct p as [s [|item items] i|s i|s].
  - intros [= <-]. eapply inv_update; [done|done|done|done|exact Hp|done|]. by exists c.
  - pose proof (greet_item_frames (R := steady) (server w) r item) as Hf.
    pose proof (core_shrinks _ _ (tables_core _ _ (greet_item_tables (server w) r item))) as Hs.
    destruct (greet_item (server w) r item) as [st [more|e]]; cbn [fst] in *; intros [= <-]; (eapply inv_update; [done|done|..|exact Hp|done|]).
    + done.
    + intros r' _. by apply frames_known.
    + destruct (frames_lookup _ _ _ r c Hf Hc) as (c' & Hc' & Hst). exists c'. split; [done|].
      split; [by rewrite (steady_session _ _ Hst)|by apply (steady_counting (Greeting s items i) c)].
    + etransitivity; [exact Hs|]. apply core_shrinks, tables_core, upd_client_tables.
    + intros r' _. etransitivity; [by apply frames_known|apply close_known].
    + destruct (frames_lookup _ _ _ r c (transitivity Hf (close_frames st r)) Hc) as (c' & Hc' & Hst). exists c'.
      split; [done|]. split; [by rewrite (steady_session _ _ Hst)|done].
  - destruct (waits _ _ _ _); [by intros [= <-]|].
    destruct (task_turn (server w) r (unread i) turn now) as [[st left]|] eqn:Et; [|done].
    pose proof (task_turn_no_trace _ _ _ _ _ _ _ Et) as [Hcore Hstrong].
    destruct left as [rest|]; intros [= <-]; (eapply inv_update; [done|done|by apply core_shrinks| |exact Hp|done|]);
      try (intros r' Hne; by eapply task_turn_known).
    + destruct (task_turn_decreases _ _ _ _ _ _ _ _ Et Hc Hco) as (c' & Hc' & Hid & Hb & _). exists c'. split; [done|].
      split; [unfold Client.session_id in *; by rewrite Hid|done].
    + destruct (Hstrong s r) as (c' & Hc' & Hs'); [by exists c|]. by exists c'.
  - intros [= <-]. destruct W as [Wi Wc Wn]. split; cbn [server conns]; [done|..].
    + intros s' r' Hr'. destruct (Wc s' r' (disconnect_shrinks _ _ _ _ _ Hr')) as (p0 & Hp0 & Hs0). exists p0. split; [|done].
      rewrite lookup_delete_ne; [done|]. intros <-. assert (s' = s) as -> by (rewrite Hp in Hp0; by simplify_eq).
      unfold disconnect in Hr'. by rewrite disconnect_found_clients, lookup_delete_eq in Hr'.
    + intros r' p0 [Hne Hp0]%lookup_delete_Some. destruct (Wn r' p0 Hp0) as (c0 & Hc0 & Hse0 & Hco0).
      destruct (frames_lookup _ _ _ r' c0 (disconnect_frames (R := steady) (server w) s Disconnected) Hc0) as (c' & Hc' & Hst).
      exists c'. split; [done|]. split; [by rewrite (steady_session _ _ Hst)|by eapply steady_counting].
Qed.

Lemma admit_inv w st r c stream version auth cs out ip now epoch :
  world_inv w -> Z.of_nat (size (clients (server w))) < 2 ^ 32 ->
  handle_new_client (server w) version auth cs out ip now epoch = (st, Ok r) -> heap st !! r = Some c ->
  conns w !! r = None /\ world_inv (mkWorld st (<[r := Greeting (Client.session_id c) greet_items (mkInput stream false)]> (conns w))).
Proof.
  intros W Hsz Hn Hc. destruct (new_client_cases _ _ _ _ _ _ _ _ _ _ (wi_state _ W) Hsz Hn)
    as (c0 & _ & Hfree & Hc0 & Hz & _ & Hcl & _ & Hoth & I1). assert (c0 = c) as -> by congruence.
  assert (conns w !! r = None) as Hnone.
  { destruct (conns w !! r) as [p|] eqn:Hp; [|done]. destruct (wi_conns _ W r p Hp) as (x & Hx & _). congruence. }
  split; [done|]. destruct W as [Wi Wc Wn]. split; cbn [server conns]; [done|..].
  - intros s' r'. rewrite Hcl. intros [[<- <-]|[Hne Hr']]%lookup_insert_Some; [rewrite lookup_insert_eq; by eexists|].
    destruct (Wc s' r' Hr') as (p & Hp & Hs'). exists p. rewrite lookup_insert_ne; [done|]. intros <-. congruence.
  - intros r' p. intros [[<- <-]|[Hne Hp]]%lookup_insert_Some.
    + exists c. split; [done|]. split; [done|]. cbn. by rewrite Hz.
    + destruct (Wn r' p Hp) as (c' & Hc' & Hrest). exists c'. split; [by rewrite Hoth|done].
Qed.

(** What arrives on a stream concerns its connection only. *)
Lemma phase_receive_session ev p : session_of (phase_receive ev p) = session_of p.
Proof. by destruct p. Qed.

Lemma net_inv w r p ev : world_inv w -> conns w !! r = Some p -> world_inv (mkWorld (server w) (<[r := phase_receive ev p]> (conns w))).
Proof.
  intros W Hp. eapply inv_update; [done|by destruct W|done|done|exact Hp|apply phase_receive_session|].
  destruct (wi_conns _ W r p Hp) as (c & Hc & Hse & Hco). exists c. split; [done|]. rewrite phase_receive_session. by destruct p.
Qed.

Lemma world_step_inv w w' : world_step w w' -> world_inv w -> world_inv w'.
Proof.
  intros Hstep W. assert (state_inv (server w')) as Hi.
  { pose proof (wi_state _ W) as Hi. induction (world_server_steps _ _ Hstep) as [|x y z Hxy _ IH]; [done|]. apply IH. by eapply step_inv. }
  destruct Hstep as [w bytes sv key t1 t2 out version auth cs stream ip now epoch st r c Hsz _ Hn Hc|w r p ev Hp|w r turn now w' Hsz Ht|w st' Ho|w r Hr].
  - by eapply admit_inv.
  - by apply net_inv.
  - by eapply conn_turn_inv.
  - destruct (other_step_keeps _ _ Ho (wi_state _ W)) as [Hf Hs]. apply inv_other; [done..|]. intros r p _. by apply frames_known.
  - apply inv_other; [done|done| |].
    + intros s r'. unfold reclaim. by case_if.
    + intros r' p Hp c Hc. exists c. split; [|done]. unfold reclaim. case_if; [done|]. cbn. rewrite lookup_delete_ne by congruence. done.
Qed.

(** ** How long a connection can last *)

(** The turns of its reading task a connection can still take once the client has hung up and the lists of its greeting are
    collected. *)
Definition phase_turns (p : Phase) (c : Client.Client) : nat :=
  match p with
  | Greeting _ items i => length items + turns_left (unread i) c + 3
  | Serving _ i => turns_left (unread i) c + 2
  | Leaving _ => 1
  end.

Definition remaining (r : ClientRef) (w : World) : nat :=
  match conns w !! r, heap (server w) !! r with
  | Some p, Some c => phase_turns p c
  | _, _ => 0
  end.

(** The turns a connection takes when its client is cancelled, whatever is on its stream. *)
Definition rounds (r : ClientRef) (w : World) : nat :=
  match conns w !! r with
  | Some (Greeting _ items _) => length items + 3
  | Some (Serving _ _) => 2
  | Some (Leaving _) => 1
  | None => 0
  end.

Definition collects (item : GreetItem) : bool := match item with CollectLists => true | _ => false end.

(** The lists still to be collected, whose length is not known before. *)
Definition lists_left (r : ClientRef) (w : World) : nat :=
  match conns w !! r with Some (Greeting _ items _) => length (filter (fun i => collects i) items) | _ => 0 end.

(** One of them was collected, or none and the measure [m] has not grown; it is less if [b]. *)
Definition closer (m : ClientRef -> World -> nat) (b : bool) (r : ClientRef) (w w' : World) : Prop :=
  (lists_left r w' < lists_left r w)%nat
  \/ lists_left r w' = lists_left r w /\ (if b then m r w' < m r w else m r w' <= m r w)%nat.

Lemma closer_refl m r w : closer m false r w w.
Proof. right. lia. Qed.
Lemma closer_trans m r w1 w2 w3 : closer m false r w1 w2 -> closer m false r w2 w3 -> closer m false r w1 w3.
Proof. unfold closer. lia. Qed.
Lemma closer_weaken m b r w w' : closer m b r w w' -> closer m false r w w'.
Proof. unfold closer. destruct b; lia. Qed.

Lemma rounds_none r w : rounds r w = 0%nat <-> conns w !! r = None.
Proof. unfold rounds. destruct (conns w !! r) as [[]|]; split; try done; lia. Qed.

Lemma steady_turns stream c c' : steady c c' -> turns_left stream c' = turns_left stream c.
Proof. intros [_ Hb]. unfold turns_left. by rewrite Hb. Qed.

(** The connection of [r] is where it was, and its client too. *)
Lemma known_closer w w' r :
  world_inv w -> conns w' !! r = conns w !! r -> (forall p, conns w !! r = Some p -> known r (server w) (server w')) ->
  closer remaining false r w w' /\ closer rounds false r w w'.
Proof.
  intros W Hp Hk. unfold closer, lists_left, remaining, rounds. rewrite Hp. split; [|right; lia]. right. split; [done|].
  destruct (conns w !! r) as [p|] eqn:Hpr; [|done].
  destruct (wi_conns _ W r p Hpr) as (c & Hc & _). destruct (Hk p eq_refl c Hc) as (c' & Hc' & Hst). rewrite Hc, Hc'.
  destruct p as [s items i|s i|s]; cbn [phase_turns]; by rewrite ?(steady_turns (unread i) _ _ Hst).
Qed.

(** Collecting the lists adds no further list. *)
Lemma greet_item_lists st r item st' more :
  greet_item st r item = (st', Ok more) -> filter (fun i => collects i) more = [] /\ (collects item = false -> more = []).
Proof.
  assert (forall T (m : ServerState * Result MumbleError T), (let! (st, u) := m in (st, Ok [])) = (st', Ok more) -> more = []) as Hs
    by (intros T [s [u|e]] E; by injection E).
  destruct item as [| |k|r'| | | |]; cbn [greet_item collects].
  2:{ intros [= <- <-]. split; [|done]. unfold weak_lists. apply filter_none, Forall_app.
      split; apply Forall_fmap, Forall_true; by intros ? ?. }
  all: try case_match; intros E; try apply Hs in E; by simplify_eq.
Qed.

(** The client has hung up, or its connection does not listen any more. *)
Definition hung_up (r : ClientRef) (w : World) : Prop :=
  match conns w !! r with Some (Greeting _ _ i) | Some (Serving _ i) => ended i = true | _ => True end.

(** The server has cancelled the client. *)
Definition cancelled_client (r : ClientRef) (w : World) : Prop :=
  forall c, heap (server w) !! r = Some c -> Client.cancelled c = true.

(** After the client hung up, a turn of the reading task brings the end closer. *)
Lemma conn_turn_closer w r turn now w' :
  world_inv w -> conn_turn w r turn now = Done w' -> is_Some (conns w !! r) -> hung_up r w -> closer remaining (is_read turn) r w w'.
Proof.
  intros W Ht [p Hp] Hh. destruct (wi_conns _ W r p Hp) as (c & Hc & _ & Hco). revert Ht. unfold hung_up in Hh. rewrite Hp in Hh.
  assert (remaining r w = phase_turns p c) as E by (unfold remaining; by rewrite Hp, Hc).
  unfold conn_turn, closer. rewrite Hp, E. unfold lists_left, remaining. rewrite Hp. clear E.
  destruct p as [s [|item items] i|s i|s]; cbn [phase_turns].
  - intros [= <-]. cbn [server conns]. rewrite lookup_insert_eq, Hc. cbn [phase_turns]. right. split; [done|]. cbn [length]. destruct (is_read turn); lia.
  - pose proof (greet_item_frames (R := steady) (server w) r item) as Hf. destruct (frames_lookup _ _ _ r c Hf Hc) as (c' & Hc' & Hst).
    destruct (greet_item (server w) r item) as [st [more|e]] eqn:Eg; intros [= <-]; cbn [server conns fst] in *; rewrite lookup_insert_eq.
    + rewrite Hc'. cbn [phase_turns]. rewrite (steady_turns (unread i) _ _ Hst). destruct (greet_item_lists _ _ _ _ _ Eg) as [Hl Hm].
      rewrite filter_app, Hl. cbn [app]. rewrite filter_cons. destruct (collects item); [left; by apply Nat.lt_succ_diag_r|].
      right. rewrite (Hm eq_refl). split; [done|]. cbn [app length]. destruct (is_read turn); lia.
    + destruct (length (filter _ _)); [right; split; [done|]|left; lia].
      destruct (heap (close_queue st r) !! r); cbn [phase_turns]; destruct (is_read turn); lia.
  - assert (waits (server w) r i turn = false) as -> by (unfold waits; rewrite Hh; by destruct turn).
    destruct (task_turn (server w) r (unread i) turn now) as [[st [rest|]]|] eqn:Et; intros [= <-]; cbn [server conns];
      rewrite lookup_insert_eq; right; (split; [done|]).
    + destruct (task_turn_decreases _ _ _ _ _ _ _ _ Et Hc Hco) as (c' & Hc' & _ & _ & Hle & Hlt). rewrite Hc'. cbn [phase_turns unread].
      destruct (is_read turn); [specialize (Hlt eq_refl)|]; lia.
    + destruct (heap st !! r); cbn [phase_turns]; destruct (is_read turn); lia.
  - intros [= <-]. cbn [server conns]. rewrite lookup_delete_eq. right. destruct (is_read turn); lia.
Qed.

(** The queue task of a cancelled client, when its [select!] takes the cancellation. *)
Definition takes_cancel (turn : TaskTurn) : bool := match turn with ServeTurn cancel => cancel | ReadTurn _ => false end.

Lemma cancelled_turn st r c now : heap st !! r = Some c -> Client.cancelled c = true -> snd (queue_turn st r true now) = Ended.
Proof.
  intros Hc Hx. unfold queue_turn. rewrite Hc. destruct (closed _); [done|]. destruct (recv _) as [[m p]|]; by rewrite Hx.
Qed.

(** No turn takes a connection back, and after a cancellation a turn of the queue task brings the end closer. *)
Lemma conn_turn_rounds w r turn now w' :
  conn_turn w r turn now = Done w' -> is_Some (conns w !! r) ->
  closer rounds false r w w'
  /\ (world_inv w -> takes_cancel turn = true -> cancelled_client r w -> closer rounds true r w w').
Proof.
  intros Ht [p Hp]. revert Ht. unfold conn_turn, closer, lists_left, rounds. rewrite Hp. destruct p as [s [|item items] i|s i|s].
  - intros [= <-]. cbn [server conns]. rewrite lookup_insert_eq. cbn [length filter]. split; [|intros _ _ _]; right; (split; [done|]); lia.
  - destruct (greet_item (server w) r item) as [st [more|e]] eqn:Eg; intros [= <-]; cbn [server conns]; rewrite lookup_insert_eq.
    + destruct (greet_item_lists _ _ _ _ _ Eg) as [Hl Hm]. rewrite filter_app, Hl. cbn [app]. rewrite filter_cons.
      destruct (collects item); [split; [|intros _ _ _]; left; by apply Nat.lt_succ_diag_r|].
      rewrite (Hm eq_refl). cbn [app length]. split; [|intros _ _ _]; right; (split; [done|]); lia.
    + destruct (length (filter _ _)); (split; [|intros _ _ _]); [right; (split; [done|]); lia..|left; lia|left; lia].
  - destruct (waits _ _ _ _) eqn:Ew.
    { intros [= <-]. rewrite Hp. split; [right; lia|]. intros _ Htc _. destruct turn; [by cbn in Htc|by cbn in Ew]. }
    destruct (task_turn _ _ _ _ _) as [[st [rest|]]|] eqn:Et; intros [= <-]; cbn [server conns]; rewrite lookup_insert_eq;
      (split; [right; lia|]); [|intros _ _ _; right; lia].
    intros W Htc Hx. exfalso. destruct (wi_conns _ W r _ Hp) as (c & Hc & _). destruct turn as [|[|]]; try done. cbn [task_turn] in Et.
    pose proof (cancelled_turn (server w) r c now Hc (Hx c Hc)) as Hend. destruct (queue_turn _ _ _ _) as [st1 t]. cbn [snd] in Hend. by subst t.
  - intros [= <-]. cbn [server conns]. rewrite lookup_delete_eq. split; [|intros _ _ _]; right; lia.
Qed.

(** A turn of another connection. *)
Lemma conn_turn_other w r0 r turn now w' :
  r0 <> r -> conn_turn w r0 turn now = Done w' -> conns w' !! r = conns w !! r /\ known r (server w) (server w').
Proof.
  intros Hne. unfold conn_turn. destruct (conns w !! r0) as [[s [|item items] i|s i|s]|].
  - intros [= <-]. cbn [server conns]. by rewrite lookup_insert_ne.
  - pose proof (greet_item_frames (R := steady) (server w) r0 item) as Hf.
    destruct (greet_item _ _ _) as [st [more|e]]; intros [= <-]; cbn [server conns fst] in *; rewrite lookup_insert_ne by done; (split; [done|]).
    + by apply frames_known.
    + etransitivity; [by apply frames_known|apply close_known].
  - destruct (waits _ _ _ _); [by intros [= <-]|].
    destruct (task_turn _ _ _ _ _) as [[st [rest|]]|] eqn:Et; intros [= <-]; cbn [server conns]; rewrite lookup_insert_ne by done;
      (split; [done|by eapply task_turn_known]).
  - intros [= <-]. cbn [server conns]. rewrite lookup_delete_ne by done. split; [done|]. apply frames_known, disconnect_frames.
  - by intros [= <-].
Qed.

(** A step that is neither a turn of the connection of [r] nor an event on its stream. *)
Lemma world_step_apart w w' r :
  world_inv w -> world_step w w' -> (r < next_ref (server w))%nat ->
  (conns w' !! r = conns w !! r /\ forall p, conns w !! r = Some p -> known r (server w) (server w'))
  \/ (exists turn now, conn_turn w r turn now = Done w')
  \/ (exists p ev, conns w !! r = Some p /\ w' = mkWorld (server w) (<[r := phase_receive ev p]> (conns w))).
Proof.
  intros W Hs Hr.
  destruct Hs as [w bytes sv key t1 t2 out version auth cs stream ip now epoch st r0 c Hsz _ Hn Hc|w r0 p ev Hp|w r0 turn now w' Hsz Ht|w st' Ho|w r0 Hr0].
  - left. destruct (new_client_cases _ _ _ _ _ _ _ _ _ _ (wi_state _ W) Hsz Hn) as (c0 & Er & _ & _ & _ & _ & _ & _ & Hoth & _).
    cbn [server conns]. rewrite lookup_insert_ne by lia. split; [done|]. intros p _ c1 Hc1. exists c1. by rewrite Hoth by lia.
  - destruct (decide (r0 = r)) as [->|Hne]; [right; right; eauto|]. left. cbn [server conns]. by rewrite lookup_insert_ne.
  - destruct (decide (r0 = r)) as [->|Hne]; [right; left; eauto|]. left.
    destruct (conn_turn_other w r0 r turn now w' Hne Ht) as [K1 K2]. by split.
  - left. split; [done|]. intros p _. apply frames_known, (other_step_keeps _ _ Ho (wi_state _ W)).
  - left. split; [done|]. intros p Hp c Hc. exists c. split; [|done]. cbn [server]. unfold reclaim.
    case_if; [done|]. cbn. rewrite lookup_delete_ne by congruence. done.
Qed.

Lemma conn_turn_none w r turn now w' : conns w !! r = None -> conn_turn w r turn now = Done w' -> w' = w.
Proof. intros Hp. unfold conn_turn. rewrite Hp. by intros [= <-]. Qed.

Lemma world_step_rounds w w' r :
  world_inv w -> world_step w w' -> (r < next_ref (server w))%nat -> closer rounds false r w w'.
Proof.
  intros W Hs Hr. destruct (world_step_apart w w' r W Hs Hr) as [[K1 K2]|[(turn & now & Ht)|(p & ev & Hp & ->)]].
  - by apply known_closer.
  - destruct (conns w !! r) as [p|] eqn:Hp; [by apply (conn_turn_rounds w r turn now w' Ht)|].
    rewrite (conn_turn_none _ _ _ _ _ Hp Ht). apply closer_refl.
  - right. unfold lists_left, rounds. cbn [conns]. rewrite lookup_insert_eq, Hp. destruct p; cbn; lia.
Qed.

Lemma hung_up_receive ev p :
  (match p with Greeting _ _ i | Serving _ i => ended i = true | Leaving _ => True end) -> phase_receive ev p = p.
Proof. destruct p as [s items i|s i|s]; cbn; [intros E; unfold receive; by rewrite E..|done]. Qed.

(** A client that hung up stays so. *)
Lemma conn_turn_hung w r turn now w' : conn_turn w r turn now = Done w' -> hung_up r w -> hung_up r w'.
Proof.
  unfold hung_up, conn_turn. destruct (conns w !! r) as [[s [|item items] i|s i|s]|] eqn:Hp.
  - intros [= <-]. cbn. by rewrite lookup_insert_eq.
  - destruct (greet_item _ _ _) as [st [more|e]]; intros [= <-]; cbn; by rewrite lookup_insert_eq.
  - destruct (waits _ _ _ _); [intros [= <-]; by rewrite Hp|].
    destruct (task_turn _ _ _ _ _) as [[st [rest|]]|]; intros [= <-]; cbn; by rewrite lookup_insert_eq.
  - intros [= <-]. cbn. by rewrite lookup_delete_eq.
  - intros [= <-]. by rewrite Hp.
Qed.

Lemma world_step_hung w w' r :
  world_inv w -> world_step w w' -> (r < next_ref (server w))%nat -> hung_up r w -> closer remaining false r w w' /\ hung_up r w'.
Proof.
  intros W Hs Hr Hh. destruct (world_step_apart w w' r W Hs Hr) as [[K1 K2]|[(turn & now & Ht)|(p & ev & Hp & ->)]].
  - split; [by apply known_closer|]. unfold hung_up. by rewrite K1.
  - split; [|by eapply conn_turn_hung]. destruct (conns w !! r) as [p|] eqn:Hp.
    + eapply closer_weaken, (conn_turn_closer w r turn now w' W Ht); [by rewrite Hp|done].
    + rewrite (conn_turn_none _ _ _ _ _ Hp Ht). apply closer_refl.
  - pose proof Hh as Hh'. unfold hung_up in Hh'. rewrite Hp in Hh'. rewrite (hung_up_receive ev p) by (by destruct p).
    rewrite insert_id by done. destruct w. split; [apply closer_refl|done].
Qed.

(** A cancelled client stays cancelled. *)
Definition stays_cancelled (c c' : Client.Client) : Prop := Client.cancelled c = true -> Client.cancelled c' = true.

#[global] Instance stays_cancelled_frame : TaskFrame stays_cancelled.
Proof.
  split; [split; [split|]|..].
  - split; [intros c Hx; exact Hx|]. intros a b c K1 K2 Hx. auto.
  - intros c c' (_ & _ & _ & E & _) Hx. congruence.
  - intros c m p _ Hx. exact Hx.
  - intros c data Hx. unfold Client.send. by rewrite Hx.
  - intros c Hx. exact Hx.
  - intros c Hx. reflexivity.
  - intros c k Hx. exact Hx.
  - intros c n Hx. exact Hx.
  - intros c Hx. exact Hx.
Qed.

Lemma own_turn_cancelled st r cancel now : frames stays_cancelled st (fst (queue_turn st r cancel now)).
Proof.
  unfold queue_turn. destruct (heap st !! r) as [c|] eqn:Hc; [|done]. case_if; [done|].
  destruct (recv _) as [[m p]|]; [|case_if; [apply close_frames|done]]. case_if; [apply close_frames|]. set (st1 := upd_client st r _).
  assert (frames stays_cancelled st st1) as K1 by (apply alter_frames; intros c0 Hx; exact Hx).
  pose proof (consume_frames (R := stays_cancelled) st1 r m now frame_bad) as K2. destruct (consume st1 r m now) as [st2 ended]. cbn [fst] in K2.
  etransitivity; [exact K1|]. destruct ended; [|done]. etransitivity; [exact K2|apply close_frames].
Qed.

Lemma run_cancelled st st' r : rtc (server_step (fun _ => True)) st st' -> follows stays_cancelled r st st'.
Proof.
  induction 1 as [|x y z Hxy _ IH]; [done|]. etransitivity; [|exact IH].
  destruct (step_follows (R := stays_cancelled) _ r _ _ Hxy) as [(cancel & now & ->)|]; [|done]. apply frames_follows, own_turn_cancelled.
Qed.

Lemma world_step_cancelled w w' r :
  world_step w w' -> (r < next_ref (server w))%nat -> cancelled_client r w -> cancelled_client r w'.
Proof.
  intros Hs Hr Hx c' Hc'. destruct (run_cancelled _ _ r (world_server_steps _ _ Hs)) as [_ Ho].
  destruct (Ho c' Hr Hc') as (c & Hc & Hst). by apply Hst, Hx.
Qed.

(** ** Executions *)

Definition world_execution (e : nat -> World) : Prop :=
  forall i, e (S i) = e i \/ world_step (e i) (e (S i)).

(** The connection of client [r] gets a turn of its reading task again and again, as long as it lasts. *)
Definition fair_reader (r : ClientRef) (e : nat -> World) : Prop :=
  forall i, exists j cancel now, (i <= j)%nat /\ conn_turn (e j) r (ReadTurn cancel) now = Done (e (S j)).

(** Its queue task gets a turn again and again in which the [select!] takes a cancellation that is there. *)
Definition fair_canceller (r : ClientRef) (e : nat -> World) : Prop :=
  forall i, exists j now, (i <= j)%nat /\ conn_turn (e j) r (ServeTurn true) now = Done (e (S j)).

Lemma start_world_inv args f epoch : world_inv (mkWorld (start args f epoch) ∅).
Proof. split; cbn [server conns]; [apply new_inv|by intros ? ?|by intros ? ?]. Qed.

Lemma world_execution_inv e i : world_execution e -> world_inv (e 0%nat) -> world_inv (e i).
Proof. intros He I0. induction i as [|i IH]; [done|]. destruct (He i) as [->|Hs]; [done|by eapply world_step_inv]. Qed.

Lemma world_step_next w w' : world_step w w' -> (next_ref (server w) <= next_ref (server w'))%nat.
Proof.
  intros Hs. induction (world_server_steps _ _ Hs) as [|x y z Hxy _ IH]; [done|].
  destruct (step_onward _ 0%nat _ _ Hxy) as [Hn _]. lia.
Qed.

(** Fair termination: a measure that no step increases and that some turn, taken again and again, decreases. *)
Section runs_out.
Context (r : ClientRef) (m : ClientRef -> World -> nat) (P : World -> Prop) (strict : TaskTurn -> bool) (e : nat -> World).
Hypothesis He : world_execution e.
Hypothesis I0 : world_inv (e 0%nat).
Hypothesis Hfair : forall i, exists j turn now, (i <= j)%nat /\ strict turn = true /\ conn_turn (e j) r turn now = Done (e (S j)).
Hypothesis Hstep : forall w w', world_inv w -> world_step w w' -> (r < next_ref (server w))%nat -> P w -> closer m false r w w' /\ P w'.
Hypothesis Hturn : forall w turn now w', world_inv w -> conn_turn w r turn now = Done w' -> is_Some (conns w !! r) ->
  strict turn = true -> P w -> closer m true r w w'.

Lemma execution_closer i j :
  (r < next_ref (server (e i)))%nat -> P (e i) -> (i <= j)%nat ->
  (r < next_ref (server (e j)))%nat /\ closer m false r (e i) (e j) /\ P (e j).
Proof.
  intros Hr HP. induction 1 as [|j Hij (Hn & IH & HPj)]; [split; [done|]; split; [apply closer_refl|done]|].
  destruct (He j) as [->|Hs]; [done|]. pose proof (world_step_next _ _ Hs) as Hn'. split; [lia|].
  destruct (Hstep (e j) (e (S j)) (world_execution_inv e j He I0) Hs Hn HPj) as [Hc HP']. split; [|done]. by eapply closer_trans.
Qed.

Lemma closer_runs_out k n i :
  (r < next_ref (server (e i)))%nat -> P (e i) -> (lists_left r (e i) <= k)%nat -> (m r (e i) <= n)%nat ->
  exists j, (i <= j)%nat /\ conns (e j) !! r = None.
Proof.
  revert n i. induction k as [k IHk] using lt_wf_ind. induction n as [n IHn] using lt_wf_ind. intros i Hr HP Hk Hn.
  destruct (Hfair i) as (j & turn & now & Hij & Hstrict & Ht). destruct (execution_closer i j Hr HP Hij) as (Hrj & Hc1 & HPj).
  pose proof (world_execution_inv e j He I0) as Wj. destruct (conns (e j) !! r) as [p|] eqn:Hp; [|by exists j].
  pose proof (Hturn _ _ _ _ Wj Ht ltac:(by eexists) Hstrict HPj) as Hc2.
  destruct (execution_closer j (S j) Hrj HPj ltac:(lia)) as (Hrs & _ & HPs). unfold closer in Hc1, Hc2.
  destruct (decide (lists_left r (e (S j)) < k)%nat) as [Hlt|Hge].
  - destruct (IHk _ Hlt _ (S j) Hrs HPs (le_n _) (le_n _)) as (x & Hx & Hz). exists x. split; [lia|done].
  - destruct (IHn (m r (e (S j))) ltac:(lia) (S j) Hrs HPs ltac:(lia) (le_n _)) as (x & Hx & Hz). exists x. split; [lia|done].
Qed.
End runs_out.

(** A connection that ended does not come back. *)
Lemma gone_stays e r j k :
  world_execution e -> world_inv (e 0%nat) -> (r < next_ref (server (e j)))%nat -> conns (e j) !! r = None -> (j <= k)%nat ->
  conns (e k) !! r = None.
Proof.
  intros He I0 Hr Hn Hjk.
  destruct (execution_closer r rounds (fun _ => True) e He I0) with (i := j) (j := k) as (_ & Hc & _); try done.
  { intros w w' W Hs Hr' _. split; [by apply world_step_rounds|done]. }
  apply rounds_none. apply rounds_none in Hn as Hz. unfold closer, lists_left in Hc. rewrite Hn in Hc. lia.
Qed.

(** From some instant on the connection of [r] is over, and [r] is in no entry of the map of clients. *)
Definition ends (r : ClientRef) (e : nat -> World) (i : nat) : Prop :=
  exists j, (i <= j)%nat /\ forall k, (j <= k)%nat -> conns (e k) !! r = None /\ forall s, clients (server (e k)) !! s <> Some r.

Lemma gone_ends e r i j :
  world_execution e -> world_inv (e 0%nat) -> (r < next_ref (server (e j)))%nat -> (i <= j)%nat -> conns (e j) !! r = None -> ends r e i.
Proof.
  intros He I0 Hr Hij Hn. exists j. split; [done|]. intros k Hjk.
  assert (conns (e k) !! r = None) as Hnone by (by eapply gone_stays). split; [done|].
  intros s Hs. destruct (wi_clients _ (world_execution_inv e k He I0) s r Hs) as (p' & Hp' & _). congruence.
Qed.
End world.

(** ** The properties *)

(** C5.  No client outlives its connection: in every state the server reaches, under any interleaving of its connections, of their tasks and
    of the other tasks, each connected client belongs to a connection that has not ended; when all connections
    have ended, the server has no client and counts none, its gauge of clients shows zero, and it has counted as many disconnections
    as it ever admitted clients. *)
Theorem no_ghost_clients `{HashIterLaws} `{MumbleProto} `{Aes128} `{UdpSocket} `{Unicode} `{UsernameRegex}
    `{SerdeJson (list BanList.BanEntry)} `{SerdeJson Anticheat.PersistedHeard} (args : Args) (f : FileSystem) (epoch : Z) (w : World) :
  rtc world_step (mkWorld (start args f epoch) ∅) w ->
  (forall s r, clients (server w) !! s = Some r -> exists p, conns w !! r = Some p /\ session_of p = s)
  /\ (conns w = ∅ -> clients (server w) = ∅ /\ active_clients (server w) = 0 /\ CLIENTS_TOTAL (metrics (server w)) = 0
      /\ disconnections (metrics (server w)) = Z.of_nat (next_ref (server w))).
Proof.
  intros Hr. assert (world_inv w) as W.
  { pose proof (start_world_inv args f epoch) as W. induction Hr as [|x y z Hxy _ IH]; [done|]. apply IH. by eapply world_step_inv. }
  split; [apply (wi_clients _ W)|]. intros He. assert (clients (server w) = ∅) as Hc.
  { apply map_eq. intros s. rewrite lookup_empty. destruct (clients (server w) !! s) as [r|] eqn:Hs; [|done].
    destruct (wi_clients _ W s r Hs) as (p & Hp & _). by rewrite He, lookup_empty in Hp. }
  destruct (si_books _ (wi_state _ W)) as [B1 B2]. rewrite Hc, map_size_empty in B1, B2.
  split_and!; [done|by rewrite (si_active _ (wi_state _ W)), Hc|done|lia].
Qed.

(** C8.  Connections end when they should: in every execution of the server from start-up, whatever the other connections and tasks do
    and however they interleave, the connection of a client that hangs up at some instant ends, and so does the connection of a
    client that the server cancels at some instant (a kick, a ban, a timeout, a full queue), whatever this client goes on sending and for how long; from
    some instant on its client is in no entry of the map of clients.  In the first case the reading task must get its turn again
    and again, in the second the queue task a turn that takes the cancellation.  A client that does neither may stay for ever. *)
Theorem connections_end `{HashIterLaws} `{MumbleProto} `{Aes128} `{UdpSocket} `{Unicode} `{UsernameRegex}
    `{SerdeJson (list BanList.BanEntry)} `{SerdeJson Anticheat.PersistedHeard} (args : Args) (f : FileSystem) (epoch : Z)
    (e : nat -> World) (r : ClientRef) (p : Phase) (i : nat) :
  e 0%nat = mkWorld (start args f epoch) ∅ -> world_execution e -> conns (e i) !! r = Some p ->
  (forall j, (i <= j)%nat -> hung_up r (e j) -> fair_reader r e -> ends r e i)
  /\ (forall j, (i <= j)%nat -> cancelled_client r (e j) -> fair_canceller r e -> ends r e i).
Proof.
  intros E0 He Hp. assert (world_inv (e 0%nat)) as I0 by (rewrite E0; apply start_world_inv).
  assert (forall j, (i <= j)%nat -> (r < next_ref (server (e j)))%nat) as Hr.
  { destruct (wi_conns _ (world_execution_inv e i He I0) r p Hp) as (c & Hc & _).
    assert (r < next_ref (server (e i)))%nat as Hr by (apply (si_fresh _ (wi_state _ (world_execution_inv e i He I0))); by eexists).
    induction 1 as [|j Hij IH]; [done|]. destruct (He j) as [->|Hs]; [done|]. pose proof (world_step_next _ _ Hs). lia. }
  split; intros j Hij Hj Hf.
  - destruct (closer_runs_out r remaining (hung_up r) is_read e He I0) with (k := lists_left r (e j)) (n := remaining r (e j)) (i := j)
      as (k & Hjk & Hn); eauto using world_step_hung, conn_turn_closer.
    + intros x. destruct (Hf x) as (y & cancel & now & Hxy & Ht). by exists y, (ReadTurn cancel), now.
    + intros w turn now w' W Ht Hs Hread Hh. rewrite <- Hread. by eapply conn_turn_closer.
    + eapply (gone_ends e r i k); [done|done|apply Hr; lia|lia|done].
  - destruct (closer_runs_out r rounds (cancelled_client r) takes_cancel e He I0) with (k := lists_left r (e j)) (n := rounds r (e j)) (i := j)
      as (k & Hjk & Hn); eauto.
    + intros x. destruct (Hf x) as (y & now & Hxy & Ht). by exists y, (ServeTurn true), now.
    + intros w w' W Hs Hr' Hx. split; [by apply world_step_rounds|by eapply world_step_cancelled].
    + intros w turn now w' W Ht Hs Htc Hx. by apply (conn_turn_rounds w r turn now w' Ht Hs).
    + eapply (gone_ends e r i k); [done|done|apply Hr; lia|lia|done].
Qed.

(** ** A sample run *)

Section sample_run.
Let sample_proto : MumbleProto := @mumble_proto wire_format.
Let lower : Unicode := fun s => s.
Let any_name : UsernameRegex := fun _ => true.
#[local] Existing Instances canonical_iter sample_proto xor_aes no_udp lower any_name bits_json heard_json.

(** The visit of [sample_visit] to a server that was just started: the handshake, the admission, and the client hangs up. *)
Definition sample_open : World := mkWorld (start sample_args BanList.sample_fs 0) ∅.
Definition sample_init := init sample_visit (server_version "unix" "linux" "0.1.0") sample_key 0 false false.
Definition sample_admitted : option World :=
  match sample_init with
  | (out, Ok (version, auth, cs, stream)) =>
    match handle_new_client (server sample_open) version auth cs out "10.0.0.9" 0 0 with
    | (st, Ok r) => c ← heap st !! r; Some (mkWorld st (<[r := Greeting (Client.session_id c) greet_items (mkInput stream false)]> ∅))
    | _ => None
    end
  | _ => None
  end.

(** The connection is served by its reading task alone; it ends within forty turns. *)
Definition sample_step (w : World) : World :=
  match conn_turn w 0%nat (ReadTurn false) 5 with Done w' => w' | Panic => w end.
Definition sample_entered : World := default sample_open sample_admitted.
Definition sample_hung_up : World :=
  match conns sample_entered !! 0%nat with
  | Some p => mkWorld (server sample_entered) (<[0%nat := phase_receive HangsUp p]> (conns sample_entered))
  | None => sample_entered
  end.
Definition sample_after (n : nat) : World := Nat.iter n sample_step sample_hung_up.
Definition sample_worlds (i : nat) : World := match i with O => sample_open | 1%nat => sample_entered | S (S n) => sample_after n end.

Definition turn_ok (w : World) : bool :=
  match conn_turn w 0%nat (ReadTurn false) 5 with
  | Done _ => Z.of_nat (size (channels (server w))) <? 2 ^ 32
  | Panic => false
  end.

Fixpoint turns_ok (n : nat) (w : World) : bool :=
  match n with O => true | S n => turn_ok w && turns_ok n (sample_step w) end.

Lemma turns_ok_spec n w k : turns_ok n w = true -> (k < n)%nat -> turn_ok (Nat.iter k sample_step w) = true.
Proof.
  revert w k. induction n as [|n IH]; intros w k; [lia|]. cbn [turns_ok]. intros [Hw Hn]%andb_prop Hk.
  destruct k as [|k]; [done|]. rewrite Nat.iter_succ_r. apply IH; [done|lia].
Qed.

Lemma sample_turns : turns_ok 40 (sample_after 0) = true.
Proof. vm_compute. reflexivity. Qed.

Lemma sample_gone : conns (sample_after 40) = ∅ /\ Z.of_nat (size (channels (server (sample_after 40)))) < 2 ^ 32.
Proof. split; vm_compute; reflexivity. Qed.

Lemma sample_after_S n : sample_after (S n) = sample_step (sample_after n).
Proof. reflexivity. Qed.

(** A world without the connection does not change. *)
Lemma sample_idle w : conns w = ∅ -> conn_turn w 0%nat (ReadTurn false) 5 = Done w.
Proof. intros He. unfold conn_turn. by rewrite He, lookup_empty. Qed.

Lemma sample_stays n : sample_after (n + 40) = sample_after 40.
Proof.
  pose proof (sample_idle _ (proj1 sample_gone)) as E. induction n as [|n IH]; [exact eq_refl|].
  change (S n + 40)%nat with (S (n + 40)). rewrite sample_after_S, IH. unfold sample_step. rewrite E. exact eq_refl.
Qed.

Lemma sample_turn n :
  conn_turn (sample_after n) 0%nat (ReadTurn false) 5 = Done (sample_after (S n))
  /\ Z.of_nat (size (channels (server (sample_after n)))) < 2 ^ 32.
Proof.
  rewrite sample_after_S. destruct (decide (n < 40)%nat) as [Hn|Hn].
  - pose proof (turns_ok_spec 40 (sample_after 0) n sample_turns Hn) as Hok. change (Nat.iter n _ _) with (sample_after n) in Hok.
    revert Hok. unfold turn_ok, sample_step. generalize (sample_after n). intros w Hok.
    destruct (conn_turn w _ _ _); [|discriminate Hok]. split; [exact eq_refl|]. by apply Z.ltb_lt in Hok.
  - replace n with ((n - 40) + 40)%nat by lia. rewrite sample_stays. pose proof sample_gone as [Hg Hs]. revert Hg Hs.
    generalize (sample_after 40). intros w Hg Hs. unfold sample_step. rewrite (sample_idle w Hg). by split.
Qed.

Lemma sample_admits : world_step sample_open sample_entered.
Proof.
  unfold sample_entered, sample_admitted.
  destruct sample_init as [out [[[[version auth] cs] stream]|e]] eqn:Ei; [|vm_compute in Ei; discriminate].
  destruct (handle_new_client (server sample_open) version auth cs out "10.0.0.9" 0 0) as [st [r|e]] eqn:En.
  - destruct (heap st !! r) as [c|] eqn:Hc; cbn [mbind option_bind default].
    + by eapply (world_admit sample_open); [vm_compute; reflexivity|exact Ei|exact En|].
    + assert (match sample_admitted with Some _ => true | None => false end = true) as Hs by (vm_compute; reflexivity).
      unfold sample_admitted in Hs. rewrite Ei, En, Hc in Hs. discriminate Hs.
  - assert (match sample_admitted with Some _ => true | None => false end = true) as Hs by (vm_compute; reflexivity).
    unfold sample_admitted in Hs. rewrite Ei, En in Hs. discriminate Hs.
Qed.

Lemma sample_hangs_up : world_step sample_entered (sample_after 0).
Proof.
  assert (is_Some (conns sample_entered !! 0%nat)) as [p Hp] by (vm_compute; by eexists).
  unfold sample_after. cbn [Nat.iter]. unfold sample_hung_up. revert Hp. generalize sample_entered. intros w Hp. rewrite Hp.
  exact (world_net w 0%nat p HangsUp Hp).
Qed.

Lemma sample_world_execution : world_execution sample_worlds.
Proof.
  intros [|[|n]]; right; [apply sample_admits|apply sample_hangs_up|]. destruct (sample_turn n) as [Ht Hs]. exact (world_turn (sample_after n) 0%nat (ReadTurn false) 5 _ Hs Ht).
Qed.

Lemma sample_reach n : rtc world_step sample_open (sample_after n).
Proof.
  induction n as [|n IH]; [eapply rtc_l; [apply sample_admits|apply rtc_once, sample_hangs_up]|]. eapply rtc_r; [exact IH|]. destruct (sample_turn n) as [Ht Hs].
  exact (world_turn (sample_after n) 0%nat (ReadTurn false) 5 _ Hs Ht).
Qed.

(** After the visit the server is empty. *)
Lemma no_ghost_clients_witness :
  size (conns (sample_after 0)) = 1%nat /\ clients (server (sample_after 40)) = ∅ /\ active_clients (server (sample_after 40)) = 0
  /\ CLIENTS_TOTAL (metrics (server (sample_after 40))) = 0
  /\ disconnections (metrics (server (sample_after 40))) = Z.of_nat (next_ref (server (sample_after 40))).
Proof.
  split; [vm_compute; reflexivity|].
  destruct (@no_ghost_clients canonical_iter canonical_iter_laws sample_proto xor_aes no_udp lower any_name bits_json heard_json
    sample_args BanList.sample_fs 0 (sample_after 40) (sample_reach 40)) as [_ Hempty].
  apply Hempty. exact (proj1 sample_gone).
Defined.

Lemma connections_end_witness : is_Some (conns (sample_worlds 1) !! 0%nat) /\ ends 0%nat sample_worlds 1.
Proof.
  destruct (conns (sample_worlds 1) !! 0%nat) as [p|] eqn:Hp; [|vm_compute in Hp; discriminate Hp]. split; [by eexists|].
  destruct (@connections_end canonical_iter canonical_iter_laws sample_proto xor_aes no_udp lower any_name bits_json heard_json
    sample_args BanList.sample_fs 0 sample_worlds 0%nat p 1 eq_refl sample_world_execution Hp) as [Hend _].
  apply (Hend 2%nat); [lia| |].
  - vm_compute. reflexivity.
  - intros i. exists (S (S i)), false, 5. split; [lia|]. exact (proj1 (sample_turn i)).
Defined.
End sample_run.
