(* ===== verification/Rooms.v ===== *)
(** What the server promises about users and channels, without its maps, sockets, queues and memory: an abstract machine of visits and
    rooms driven by events, and the proof that every step of the server and of its connections is at most one of these events, or the
    departures of a tick of the clean loop.  The properties of the rooms are proved on the abstract machine and hold of the server through
    the refinement. *)

From stdpp Require Import base gmap strings list relations.
From Stdlib Require Import ZArith Lia.
From S2P Require Import Prelude Errors Maps Text Varint Voice Float32 Messages Crypt Proto Calendar Bans Client Anticheat.
From S2P Require Import Wire WireFormat Codec CodecProps Delivery.
From S2P Require Import State StateInv StateProps Handlers HandlerInv HandlerProps Net Greeting NetProps Sampler SamplerProps Http HttpProps System.
From S2P Require Import Frames Connection Queues Lifecycle.
Import ServerState Handler Udp Clean Tcp Sampler Http.

(** ** The specification *)

Record Room := mkRoom {
  room_name : string;
  room_temporary : bool;
  room_members : gset Z;
}.

(** One client from its admission on: its session, and the room it takes itself to be in. *)
Record Visit := mkVisit {
  who : Z;
  place : Z;
}.

(** The visits that are remembered, those of the connected users by session, and the rooms. *)
Record Rooms := mkRooms {
  visits : gmap ClientRef Visit;
  users : gmap Z ClientRef;
  rooms : gmap Z Room;
}.

Inductive Event :=
  | Arrived (v : ClientRef) (s : Z)
  | Moved (v : ClientRef) (k : Z)
  | Created (v : ClientRef) (k : Z) (name : string)
  | Departed (s : Z)
  | Forgotten (v : ClientRef).

Definition with_members (rm : Room) (m : gset Z) : Room := mkRoom (room_name rm) (room_temporary rm) m.

(** A user joins a room, and leaves one; a temporary room goes with its last member. *)
Definition join (rs : gmap Z Room) (s k : Z) : gmap Z Room :=
  alter (fun rm => with_members rm (room_members rm ∪ {[ s ]})) k rs.
Definition leave (rs : gmap Z Room) (s k : Z) : gmap Z Room :=
  match rs !! k with
  | None => rs
  | Some rm =>
    if room_temporary rm && bool_decide (room_members rm ∖ {[ s ]} = ∅) then delete k rs
    else <[k := with_members rm (room_members rm ∖ {[ s ]})]> rs
  end.

(** A move to a room that is not there only confuses the visitor: it stays a member of the room it was in, and forgets it. *)
Definition move (R : Rooms) (v : ClientRef) (k : Z) : Rooms :=
  match visits R !! v with
  | None => R
  | Some x =>
    mkRooms (<[v := mkVisit (who x) k]> (visits R)) (users R)
      match rooms R !! k with
      | None => rooms R
      | Some _ => if place x =? k then join (rooms R) (who x) k else leave (join (rooms R) (who x) k) (who x) (place x)
      end
  end.

Definition opened (R : Rooms) (k : Z) (name : string) : Rooms :=
  mkRooms (visits R) (users R) (<[k := mkRoom name true ∅]> (rooms R)).

(** An id nobody uses, a name nobody uses. *)
Definition may_open (R : Rooms) (k : Z) (name : string) : Prop :=
  rooms R !! k = None /\ in_u 32 k /\ (String.length name <= 512)%nat
  /\ forall k' rm, rooms R !! k' = Some rm -> room_name rm <> name.

(** When an event can happen, and what it does: nothing is left open. *)
Definition may (R : Rooms) (e : Event) : Prop :=
  match e with
  | Arrived v s => visits R !! v = None /\ users R !! s = None /\ in_u 32 s
  | Moved v _ => is_Some (visits R !! v)
  | Created v k name => is_Some (visits R !! v) /\ may_open R k name
  | Departed s => is_Some (users R !! s)
  | Forgotten v => forall s, users R !! s <> Some v
  end.

Definition happen (R : Rooms) (e : Event) : Rooms :=
  match e with
  | Arrived v s => mkRooms (<[v := mkVisit s 0]> (visits R)) (<[s := v]> (users R)) (rooms R)
  | Moved v k => move R v k
  | Created v k name => move (opened R k name) v k
  | Departed s =>
    mkRooms (visits R) (delete s (users R))
      match v ← users R !! s; visits R !! v with Some x => leave (rooms R) s (place x) | None => rooms R end
  | Forgotten v => mkRooms (delete v (visits R)) (users R) (rooms R)
  end.

Fixpoint room_run (es : list Event) (R R' : Rooms) : Prop :=
  match es with
  | [] => R' = R
  | e :: es => may R e /\ room_run es (happen R e) R'
  end.

Lemma room_run_app es1 es2 R1 R2 R3 : room_run es1 R1 R2 -> room_run es2 R2 R3 -> room_run (es1 ++ es2) R1 R3.
Proof. revert R1. induction es1 as [|e es1 IH]; intros R1; cbn; [by intros ->|]. intros [Hm Hr] H2. split; [done|by apply IH]. Qed.

(** *** What the machine keeps *)

(** The root room is there for good, every other room is temporary, and no two rooms have one name. *)
Record rooms_ok (R : Rooms) : Prop := {
  rk_root : exists rm, rooms R !! 0 = Some rm /\ room_temporary rm = false /\ room_name rm = "Root"%string;
  rk_temporary k rm : rooms R !! k = Some rm -> k <> 0 -> room_temporary rm = true;
  rk_names k k' rm rm' : rooms R !! k = Some rm -> rooms R !! k' = Some rm' -> room_name rm = room_name rm' -> k = k';
  rk_ids k rm : rooms R !! k = Some rm -> in_u 32 k /\ (String.length (room_name rm) <= 512)%nat;
}.

(** Nothing but members changes, or a temporary room goes. *)
Definition rooms_kept (rs rs' : gmap Z Room) : Prop :=
  forall k, match rs !! k, rs' !! k with
            | Some rm, Some rm' => room_name rm' = room_name rm /\ room_temporary rm' = room_temporary rm
            | Some rm, None => room_temporary rm = true
            | None, Some _ => False
            | None, None => True
            end.

#[global] Instance rooms_kept_preorder : PreOrder rooms_kept.
Proof.
  split; [intros rs k; by destruct (rs !! k)|]. intros a b c K1 K2 k. specialize (K1 k). specialize (K2 k).
  destruct (a !! k), (b !! k), (c !! k); try done; [destruct K1, K2; split; congruence|destruct K1; congruence].
Qed.

Lemma join_kept rs s k : rooms_kept rs (join rs s k).
Proof.
  intros k'. unfold join. destruct (decide (k = k')) as [<-|Hne]; [rewrite lookup_alter_eq; by destruct (rs !! k)|].
  rewrite lookup_alter_ne by done. by destruct (rs !! k').
Qed.

Lemma leave_kept rs s k : rooms_kept rs (leave rs s k).
Proof.
  unfold leave. destruct (rs !! k) as [rm|] eqn:Hk; [|done]. intros k'. destruct (room_temporary rm && _) eqn:E.
  - destruct (decide (k = k')) as [<-|Hne]; [rewrite lookup_delete_eq, Hk; by apply andb_prop in E as [? _]|].
    rewrite lookup_delete_ne by done. by destruct (rs !! k').
  - destruct (decide (k = k')) as [<-|Hne]; [by rewrite lookup_insert_eq, Hk|]. rewrite lookup_insert_ne by done. by destruct (rs !! k').
Qed.

Lemma move_kept R v k : rooms_kept (rooms R) (rooms (move R v k)).
Proof.
  unfold move. destruct (visits R !! v) as [x|]; [|done]. cbn. destruct (rooms R !! k); [|done].
  case_if; [apply join_kept|]. etransitivity; [apply join_kept|apply leave_kept].
Qed.

Lemma rooms_ok_kept R R' : rooms_kept (rooms R) (rooms R') -> rooms_ok R -> rooms_ok R'.
Proof.
  intros K [(rm0 & H0 & Ht0 & Hn0) H1 H2 H3].
  assert (forall k x, rooms R' !! k = Some x -> exists y, rooms R !! k = Some y
    /\ room_name x = room_name y /\ room_temporary x = room_temporary y) as Hback.
  { intros k x Hx. specialize (K k). rewrite Hx in K. destruct (rooms R !! k); [|done]. by eexists. }
  split.
  - specialize (K 0). rewrite H0 in K. destruct (rooms R' !! 0) as [rm|]; [|congruence]. exists rm. destruct K. split_and!; congruence.
  - intros k x (y & Hy & _ & ->)%Hback Hne. eauto.
  - intros k k' x x' (y & Hy & E1 & _)%Hback (y' & Hy' & E2 & _)%Hback E. eapply H2; [done..|congruence].
  - intros k x (y & Hy & -> & _)%Hback. eauto.
Qed.

Lemma rooms_ok_opened R k name : may_open R k name -> rooms_ok R -> rooms_ok (opened R k name).
Proof.
  intros (Hk & Hu & Hl & Hn) [(rm0 & H0 & Ht0 & Hn0) H1 H2 H3]. split; cbn.
  - exists rm0. rewrite lookup_insert_ne; [done|]. intros ->. congruence.
  - intros k' rm [[<- <-]|[_ Hx]]%lookup_insert_Some; [done|eauto].
  - intros a b x y [[<- <-]|[Ha Hx]]%lookup_insert_Some [[<- <-]|[Hb Hy]]%lookup_insert_Some; cbn; intros E;
      [done|by edestruct Hn|by edestruct Hn|eauto].
  - intros k' rm [[<- <-]|[_ Hx]]%lookup_insert_Some; [done|eauto].
Qed.

Lemma rooms_ok_happen R e : may R e -> rooms_ok R -> rooms_ok (happen R e).
Proof.
  destruct e as [v s|v k|v k name|s|v]; cbn [may happen]; intros Hm Hok.
  - by destruct Hok.
  - eapply rooms_ok_kept; [apply move_kept|done].
  - eapply rooms_ok_kept; [apply move_kept|]. apply rooms_ok_opened; [apply Hm|done].
  - eapply rooms_ok_kept; [|exact Hok]. cbn. case_match; [apply leave_kept|done].
  - by destruct Hok.
Qed.

Lemma rooms_ok_run es R R' : room_run es R R' -> rooms_ok R -> rooms_ok R'.
Proof. revert R. induction es as [|e es IH]; intros R; cbn; [by intros ->|]. intros [Hm Hr] Hok. eapply IH; [done|by apply rooms_ok_happen]. Qed.

(** No temporary room is empty. *)
Definition lived_in (rs : gmap Z Room) : Prop :=
  forall k rm, rs !! k = Some rm -> room_temporary rm = true -> room_members rm <> ∅.

Lemma lived_leave rs s k : lived_in rs -> lived_in (leave rs s k).
Proof.
  intros Hl. unfold leave. destruct (rs !! k) as [rm|] eqn:Hk; [|done]. destruct (room_temporary rm && _) eqn:E; intros k' x.
  - intros [_ Hx]%lookup_delete_Some. eauto.
  - intros [[<- <-]|[_ Hx]]%lookup_insert_Some; [|eauto]. cbn. intros Ht He. rewrite Ht in E. cbn in E.
    by rewrite bool_decide_eq_true_2 in E.
Qed.

(** A member that joins makes up for an empty room. *)
Lemma lived_join rs s k :
  (forall k' rm, rs !! k' = Some rm -> room_temporary rm = true -> k' <> k -> room_members rm <> ∅) -> lived_in (join rs s k).
Proof.
  intros Hl k' x. unfold join. destruct (decide (k = k')) as [<-|Hne].
  - rewrite lookup_alter_eq. intros (rm & Hk & ->)%fmap_Some. cbn. set_solver.
  - rewrite lookup_alter_ne by done. eauto.
Qed.

Lemma lived_move R v k :
  is_Some (visits R !! v) -> is_Some (rooms R !! k) ->
  (forall k' rm, rooms R !! k' = Some rm -> room_temporary rm = true -> k' <> k -> room_members rm <> ∅) -> lived_in (rooms (move R v k)).
Proof.
  intros [x Hx] [rm Hk] Hl. unfold move. rewrite Hx. cbn. rewrite Hk. case_if; [|apply lived_leave]; by apply lived_join.
Qed.

Lemma lived_happen R e : may R e -> lived_in (rooms R) -> lived_in (rooms (happen R e)).
Proof.
  destruct e as [v s|v k|v k name|s|v]; cbn [may happen]; intros Hm Hl; [done| | | |done].
  - destruct (rooms R !! k) as [rm|] eqn:Hk; [apply lived_move; [done|by eexists|eauto]|].
    unfold move. destruct (visits R !! v); [|done]. cbn. by rewrite Hk.
  - apply lived_move; [apply Hm|cbn; rewrite lookup_insert_eq; by eexists|]. cbn. intros k' rm [[<- _]|[_ Hx]]%lookup_insert_Some; [done|eauto].
  - cbn. case_match; [by apply lived_leave|done].
Qed.

Lemma lived_run es R R' : room_run es R R' -> lived_in (rooms R) -> lived_in (rooms R').
Proof. revert R. induction es as [|e es IH]; intros R; cbn; [by intros ->|]. intros [Hm Hr] Hl. eapply IH; [done|by apply lived_happen]. Qed.

(** ** The abstraction *)

Definition room_of (ch : Channel) : Room := mkRoom (Channel.name ch) (Channel.temporary ch) (dom (Channel.clients ch)).
Definition visit_of (c : Client.Client) : Visit := mkVisit (Client.session_id c) (Client.channel_id c).
Definition abs (st : ServerState) : Rooms := mkRooms (visit_of <$> heap st) (clients st) (room_of <$> channels st).

Lemma settled_visits st st' : frames settled st st' -> visit_of <$> heap st' = visit_of <$> heap st.
Proof.
  intros [_ Hf]. apply map_eq. intros r. rewrite !lookup_fmap. specialize (Hf r). destruct Hf as [c c' [Hi Hc]|]; [|done].
  cbn. unfold visit_of, Client.session_id. by rewrite Hi, Hc.
Qed.

(** The same users and channels, and nobody moved. *)
Lemma same_abs st st' : clients st' = clients st -> channels st' = channels st -> frames settled st st' -> abs st' = abs st.
Proof. intros E1 E2 Hf. unfold abs. by rewrite E1, E2, (settled_visits _ _ Hf). Qed.

Lemma tables_abs st st' : same_tables st st' -> frames settled st st' -> abs st' = abs st.
Proof. intros [(_ & E1 & _) E2]. by apply same_abs. Qed.

Lemma dom_insert_new {A} (s : Z) (r : A) (m : gmap Z A) : dom (insert_new s r m) = dom m ∪ {[ s ]}.
Proof.
  apply set_eq. intros k. rewrite elem_of_union, elem_of_singleton, !elem_of_dom, lookup_insert_new.
  case_decide as E; [subst k|by split; [left|intros [?|?]]].
  split; [by right|]. intros _. destruct (m !! s); by eexists.
Qed.

(** Leaving and joining a channel. *)
Lemma channels_left_rooms chs s k : room_of <$> channels_left chs s k = leave (room_of <$> chs) s k.
Proof.
  unfold channels_left, leave. rewrite lookup_fmap. destruct (chs !! k) as [ch|] eqn:Hk; [|done]. cbn.
  rewrite <- dom_delete_L. rewrite (bool_decide_ext (dom (delete s (Channel.clients ch)) = ∅) (delete s (Channel.clients ch) = ∅)) by apply dom_empty_iff_L.
  destruct (Channel.temporary ch); cbn; [|by rewrite fmap_insert].
  destruct (bool_decide _); cbn; [by rewrite fmap_delete|by rewrite fmap_insert].
Qed.

Lemma channels_joined_rooms chs s r k :
  room_of <$> alter (fun ch => Channel.set_clients ch (insert_new s r (Channel.clients ch))) k chs = join (room_of <$> chs) s k.
Proof.
  apply map_eq. intros k'. unfold join. rewrite lookup_fmap. destruct (decide (k = k')) as [<-|Hne].
  - rewrite !lookup_alter_eq, lookup_fmap. destruct (chs !! k) as [ch|]; [|done]. cbn. unfold room_of, with_members. cbn. by rewrite dom_insert_new.
  - by rewrite !lookup_alter_ne, lookup_fmap by done.
Qed.

(** ** The operations *)

Section operations.
Context `{HashIterLaws} `{MumbleProto} `{Aes128} `{UdpSocket} `{Unicode} `{UsernameRegex}
  `{SerdeJson (list BanList.BanEntry)} `{SerdeJson Anticheat.PersistedHeard}.

Lemma shape_abs st st' : same_shape st st' -> frames settled st st' -> abs st' = abs st.
Proof. intros Hs. apply same_abs; apply Hs. Qed.

(** A move of the server, whether its channel is there or not, is a move of the machine. *)
Lemma set_client_channel_abs st r k :
  state_inv st -> is_Some (heap st !! r) -> abs (fst (set_client_channel st r k)) = move (abs st) r k.
Proof.
  intros Hinv [c Hc]. pose proof (settled_visits _ _ (set_client_channel_rest (R := settled) st r c k Hc)) as Hv.
  cbn [heap set_heap] in Hv. rewrite fmap_insert in Hv.
  unfold move. cbn [visits users rooms abs]. rewrite !lookup_fmap, Hc. cbn [fmap option_fmap option_map visit_of who place].
  change (visit_of (Client.set_channel_id c k)) with (mkVisit (Client.session_id c) k) in Hv.
  destruct (channels st !! k) as [ch|] eqn:Hk.
  - pose proof (set_client_channel_spec st r c k ch Hinv Hc Hk) as Hs.
    destruct (set_client_channel st r k) as [st' res]. destruct Hs as (_ & E1 & E2 & _). cbn [fst] in *.
    unfold abs. rewrite E1, E2, Hv. f_equal. unfold channels_moved. cbn. case_if; [apply channels_joined_rooms|].
    by rewrite channels_left_rooms, channels_joined_rooms.
  - assert (forall k' ch, channels st !! k' = Some ch -> Channel.id ch <> k) as Hno
      by (intros k' ch Hk' Hid; destruct (si_channels _ Hinv k' ch Hk') as [_ Hid']; congruence).
    rewrite (set_client_channel_missing st r c k Hc Hno) in Hv |- *.
    unfold abs. cbn [fst heap clients channels set_heap] in *. rewrite Hv. done.
Qed.

Lemma disconnect_abs st s reason :
  state_inv st -> is_Some (clients st !! s) -> abs (disconnect st s reason) = happen (abs st) (Departed s).
Proof.
  intros Hinv [r Hs]. destruct (si_clients _ Hinv s r Hs) as [_ (c & Hc & _)].
  destruct (disconnect_spec st s r c reason Hinv Hs Hc) as (E1 & _ & _ & E2 & _).
  unfold abs. rewrite E1, E2, (settled_visits _ _ (disconnect_frames (R := settled) st s reason)). cbn. rewrite Hs. cbn.
  by rewrite lookup_fmap, Hc, channels_left_rooms.
Qed.

(** One departure, or none. *)
Lemma disconnect_events st s reason : state_inv st ->
  abs (disconnect st s reason) = abs st \/ room_run [Departed s] (abs st) (abs (disconnect st s reason)).
Proof.
  intros Hinv. destruct (clients st !! s) as [r|] eqn:Hs; [|left; by rewrite disconnect_absent]. right. cbn.
  assert (is_Some (clients st !! s)) as Hs' by (by eexists). split; [done|]. by apply disconnect_abs.
Qed.

Lemma departures st l : state_inv st -> exists ss,
  room_run (Departed <$> ss) (abs st) (abs (fold_left (fun st (p : Z * DisconnectReason) => disconnect st p.1 p.2) l st)).
Proof.
  revert st. induction l as [|[s reason] l IH]; intros st Hinv; [by exists []|]. cbn [fold_left fst snd].
  destruct (IH _ (disconnect_inv st s reason Hinv)) as [ss Hss]. destruct (disconnect_events st s reason Hinv) as [E|E].
  - exists ss. by rewrite <- E.
  - exists (s :: ss). rewrite fmap_cons. exact (room_run_app [Departed s] _ _ _ _ E Hss).
Qed.

Lemma clean_rest_events st q now : state_inv st -> exists ss, room_run (Departed <$> ss) (abs st) (abs (clean_rest st q now)).
Proof.
  intros Hinv. unfold clean_rest. destruct (fold_left (collect _ now) _ _) as [rm rs].
  set (st0 := set_metrics (set_disconnect_queue st ∅) _).
  assert (state_inv st0) as I0 by (eapply same_shape_inv; [|exact Hinv]; split; try done; intros r; cbn; by destruct (heap st !! r)).
  set (st1 := fold_left _ rs st0).
  assert (state_inv st1 /\ abs st1 = abs st0) as [I1 E1].
  { subst st1. clearbody st0. revert st0 I0. induction rs as [|r rs IH]; intros st0 I0; [done|]. cbn [fold_left].
    destruct (IH _ (reset_client_crypt_inv st0 r now I0)) as [Hi E]. split; [exact Hi|]. rewrite E.
    apply tables_abs; [apply reset_client_crypt_tables|apply reset_client_crypt_frames]. }
  change (abs st) with (abs st0). rewrite <- E1. by apply departures.
Qed.

(** An admission is an arrival under a session nobody has, of a visit that is new. *)
Lemma new_client_events st version auth cs out ip now epoch st' res :
  state_inv st -> Z.of_nat (size (clients st)) < 2 ^ 32 ->
  handle_new_client st version auth cs out ip now epoch = (st', res) ->
  match res with
  | Err _ => st' = st
  | Ok r => exists s, room_run [Arrived r s] (abs st) (abs st')
  end.
Proof.
  intros Hinv Hsz Hn. pose proof (new_client_spec st version auth cs out ip now epoch Hinv Hsz) as Ha. cbv zeta in Ha.
  rewrite Hn in Ha. destruct Ha as [Hno Hyes].
  destruct (official _ _ _); [|by destruct (Hno (or_introl eq_refl)) as [-> ->]].
  destruct (BanList.is_banned _ _ _) as [reason|]; [by destruct (Hno ltac:(by right)) as [-> ->]|].
  destruct (Hyes eq_refl eq_refl) as (r & s & c & -> & Hf & Hfree & Hcl & Hc & Hs & _ & _ & _ & _ & Hch & _ & _ & Echs & Hoth & I1).
  exists s. cbn. split.
  - rewrite lookup_fmap, Hf. split_and!; [done|done|]. apply (si_clients _ I1 s r). rewrite Hcl. apply lookup_insert_eq.
  - unfold abs. rewrite Hcl, Echs. f_equal. apply map_eq. intros r'. rewrite lookup_fmap. destruct (decide (r = r')) as [<-|Hne].
    + rewrite lookup_insert_eq, Hc. cbn. unfold visit_of. by rewrite Hs, Hch.
    + by rewrite lookup_insert_ne, Hoth, lookup_fmap by done.
Qed.

(** *** Messages *)

(** Listening to a channel does not enter its room. *)
Lemma upd_listeners_abs st k f : abs (upd_channel st k (fun ch => Channel.set_listeners ch (f ch))) = abs st.
Proof.
  unfold abs. cbn. f_equal. apply map_eq. intros k'. rewrite !lookup_fmap.
  destruct (decide (k = k')) as [<-|Hne]; [|by rewrite lookup_alter_ne]. rewrite lookup_alter_eq.
  by destruct (channels st !! k).
Qed.

(** The events of a message that client [r] sends: it moves, or creates a room and moves there. *)
Definition own (r : ClientRef) (e : Event) : Prop :=
  match e with Moved v _ | Created v _ _ => v = r | _ => False end.

Definition at_most_own (r : ClientRef) (R R' : Rooms) : Prop :=
  R' = R \/ exists e, own r e /\ room_run [e] R R'.

Lemma user_state_events st r m : state_inv st -> at_most_own r (abs st) (abs (fst (handle_user_state st r m))).
Proof.
  intros Hinv. unfold handle_user_state. destruct (heap st !! r) as [c|] eqn:Hc; [|by left]. case_if; [by left|].
  set (st1 := upd_client st r _).
  assert (same_shape st st1) as S1 by (apply upd_client_same; intros; apply update_same).
  assert (frames settled st st1) as F1 by (apply quiet_frames; intros c'; unfold Client.update; by repeat case_if).
  set (x := if has _ then set_client_channel st1 r _ else _).
  assert (at_most_own r (abs st) (abs (fst x))) as Hx.
  { subst x. rewrite <- (shape_abs st st1 S1 F1). case_if; [|by left]. right. exists (Moved r (get_num (UserStateMsg.channel_id m))). split; [done|].
    assert (is_Some (heap st1 !! r)) as Hr by (cbn; rewrite lookup_alter_eq, Hc; by eexists).
    assert (is_Some (visits (abs st1) !! r)) as Hv by (cbn [visits abs]; rewrite lookup_fmap; destruct Hr as [c' ->]; by eexists). split; [exact Hv|].
    apply set_client_channel_abs; [by eapply same_shape_inv|done]. }
  destruct x as [st2 [u|e]]; cbn [seq fst] in *; [|done].
  replace (abs (fold_left _ _ _)) with (abs st2); [exact Hx|]. symmetry.
  transitivity (abs (fold_left (listen_add (Client.session_id c) r) (UserStateMsg.listening_channel_add m) st2)).
  - generalize (fold_left (listen_add (Client.session_id c) r) (UserStateMsg.listening_channel_add m) st2). clear.
    induction (UserStateMsg.listening_channel_remove m) as [|k l IH]; intros st; [done|]. cbn [fold_left]. rewrite IH. apply upd_listeners_abs.
  - clear Hx. revert st2. induction (UserStateMsg.listening_channel_add m) as [|k l IH]; intros st2; [done|]. cbn [fold_left].
    rewrite IH. apply upd_listeners_abs.
Qed.

Lemma add_channel_abs st m :
  state_inv st -> Z.of_nat (size (channels st)) < 2 ^ 32 -> may_create st m = true ->
  let '(st1, ch) := add_channel st m in
  may_open (abs st) (Channel.id ch) (get_str (ChannelStateMsg.name m))
  /\ abs st1 = opened (abs st) (Channel.id ch) (get_str (ChannelStateMsg.name m)).
Proof.
  intros Hinv Hsz Hm. pose proof (add_channel_inv st m Hinv Hsz) as Ha.
  assert (clients (fst (add_channel st m)) = clients st /\ heap (fst (add_channel st m)) = heap st
    /\ room_of (snd (add_channel st m)) = mkRoom (get_str (ChannelStateMsg.name m)) (get_bool (ChannelStateMsg.temporary m)) ∅) as (E1 & E0 & E2).
  { unfold add_channel, get_free_channel_id. destruct (free_id _ _). split_and!; [done|done|].
    unfold room_of. cbn [snd Channel.name Channel.temporary Channel.clients Channel.new]. by rewrite dom_empty_L. }
  destruct (add_channel st m) as [st' ch]. destruct Ha as (I1 & Hf & E3). cbn [fst snd] in *.
  unfold may_create in Hm. rewrite !andb_true_iff in Hm. destruct Hm as [[[[[[_ _] _] Ht] Hl] _] Hn]. rewrite Ht in E2. split.
  - apply bool_decide_eq_true in Hl. split_and!; [cbn; by rewrite lookup_fmap, Hf| |exact Hl|].
    + apply (si_channels _ I1 (Channel.id ch) ch). rewrite E3. apply lookup_insert_eq.
    + intros k' rm. cbn. rewrite lookup_fmap. intros (ch' & Hk' & ->)%fmap_Some. cbn.
      eapply find_name_none; [|done]. by destruct (get_channel_by_name st _).
  - unfold abs, opened. cbn. by rewrite E1, E0, E3, fmap_insert, E2.
Qed.

(** A message of a client that is not there opens a room that nobody enters; the tasks of the server hold their client, so this
    does not occur among the connections. *)
Lemma channel_state_events st r m :
  state_inv st -> Z.of_nat (size (channels st)) < 2 ^ 32 ->
  at_most_own r (abs st) (abs (fst (handle_channel_state st r m)))
  \/ (heap st !! r = None /\ exists k name, may_open (abs st) k name /\ abs (fst (handle_channel_state st r m)) = opened (abs st) k name).
Proof.
  intros Hinv Hsz. unfold handle_channel_state. destruct (may_create st m) eqn:Hm; [|by left; left]. cbn [negb].
  pose proof (add_channel_inv st m Hinv Hsz) as Ha. pose proof (add_channel_abs st m Hinv Hsz Hm) as Hs.
  assert (heap (fst (add_channel st m)) = heap st) as E0 by (unfold add_channel, get_free_channel_id; by destruct (free_id _ _)).
  destruct (add_channel st m) as [st1 ch]. destruct Ha as [I1 _]. destruct Hs as [Hmay E1]. cbn [fst] in E0.
  pose proof (broadcast_same st1 MessageKind.ChannelState (Channel.get_channel_state ch)) as Hb.
  pose proof (broadcast_frames (R := settled) st1 MessageKind.ChannelState (Channel.get_channel_state ch)) as Hf.
  destruct (broadcast_message st1 _ _) as [st2 err]. cbn [fst] in Hb, Hf. pose proof (shape_abs _ _ Hb Hf) as E2.
  assert (state_inv st2) as I2 by (by eapply same_shape_inv).
  replace (abs (fst (let! (st0, u) := set_client_channel st2 r (Channel.id ch) in (st0, err)))) with (abs (fst (set_client_channel st2 r (Channel.id ch))))
    by (by destruct (set_client_channel st2 r (Channel.id ch)) as [st3 [u|e]]).
  destruct (heap st !! r) as [c|] eqn:Hc.
  - left. right. exists (Created r (Channel.id ch) (get_str (ChannelStateMsg.name m))). split; [done|]. cbn. split.
    + split; [|done]. rewrite lookup_fmap, Hc. by eexists.
    + rewrite set_client_channel_abs, E2, E1; [done|done|]. rewrite <- E0 in Hc.
      destruct (frames_lookup _ _ _ r c Hf Hc) as (c' & -> & _). by eexists.
  - right. split; [done|]. eexists _, _. split; [exact Hmay|]. assert (heap st2 !! r = None) as Hn.
    { rewrite <- E0 in Hc. destruct Hf as [_ Hf]. specialize (Hf r). rewrite Hc in Hf. by inversion Hf. }
    unfold set_client_channel. rewrite Hn. cbn [fst]. by rewrite E2, E1.
Qed.

Lemma dispatch_still_tables st r kind buf now st' res :
  kind <> MessageKind.ChannelState -> kind <> MessageKind.UserState ->
  dispatch st r kind buf now = Done (st', res) -> same_tables st st'.
Proof.
  intros Hk1 Hk2. assert (forall x : ServerState * Result MumbleError unit,
    same_tables st (fst x) -> Done x = Done (st', res) -> same_tables st st') as Hx by (intros x Hi [= ->]; done).
  assert (forall T (P : ProtoMessage T) (h : T -> Outcome (ServerState * Result MumbleError unit)),
    (forall m, h m = Done (st', res) -> same_tables st st') -> try_handle h st buf = Done (st', res) -> same_tables st st') as Ht.
  { intros T P h Hh. unfold try_handle. destruct (parse_from_bytes buf); [apply Hh|by apply Hx]. }
  destruct kind; cbn [dispatch]; try (by apply Hx); try (apply Ht; intros m); try (apply Hx, on_client_tables); try (by apply Hx); try done.
  - destruct (decode_voice_packet ServerBound buf) as [[p rest]|e]; [|by apply Hx].
    apply Hx, voice_packet_tables.
  - unfold handle_crypt_setup. destruct (heap st !! r) as [c|]; [|by apply Hx]. case_if.
    + destruct (set_decrypt_nonce _ _); [by apply Hx|done].
    + apply Hx, on_client_tables.
  - apply Hx. unfold handle_voice_target. case_if; [done|]. by destruct (_ ≫= _).
Qed.

Lemma dispatch_events st r kind buf now st' res :
  state_inv st -> Z.of_nat (size (channels st)) < 2 ^ 32 -> dispatch st r kind buf now = Done (st', res) ->
  at_most_own r (abs st) (abs st')
  \/ (heap st !! r = None /\ exists k name, may_open (abs st) k name /\ abs st' = opened (abs st) k name).
Proof.
  intros Hinv Hsz Hd. destruct (decide (kind = MessageKind.ChannelState)) as [->|K1];
    [|destruct (decide (kind = MessageKind.UserState)) as [->|K2]];
    [cbn [dispatch] in Hd; unfold try_handle in Hd; (destruct (parse_from_bytes buf) as [m|]; [|left; left; by simplify_eq]);
     injection Hd as Hd; rewrite <- (f_equal fst Hd : fst _ = st')..|].
  - by apply channel_state_events.
  - left. by apply user_state_events.
  - left. left. apply tables_abs; [by eapply dispatch_still_tables|by eapply dispatch_still_frames].
Qed.

(** *** The tasks of a client *)

Lemma bad_settled c n : settled c (Client.set_bad_net_count c n).
Proof. done. Qed.

Lemma count_bad_abs st r : abs (fst (count_bad st r)) = abs st.
Proof. apply tables_abs; [apply count_bad_tables|apply count_bad_frames, bad_settled]. Qed.

Lemma close_queue_abs st r : abs (close_queue st r) = abs st.
Proof. apply tables_abs; [apply upd_client_tables|apply close_frames]. Qed.

Lemma queue_turn_abs st r cancel now : abs (fst (queue_turn st r cancel now)) = abs st.
Proof.
  apply tables_abs; [apply queue_turn_tables|]. unfold queue_turn. destruct (heap st !! r) as [c|]; [|done]. case_if; [done|].
  destruct (recv _) as [[m p]|]; [|case_if; [apply close_frames|done]]. case_if; [apply close_frames|]. set (st1 := upd_client st r _).
  assert (frames settled st st1) as K1 by (by apply alter_frames).
  pose proof (consume_frames (R := settled) st1 r m now bad_settled) as K2. destruct (consume st1 r m now) as [st2 ended]. cbn [fst] in K2.
  etransitivity; [exact K1|]. destruct ended; [|done]. etransitivity; [exact K2|apply close_frames].
Qed.

Lemma read_turn_events st r stream now st' e rest :
  state_inv st -> Z.of_nat (size (channels st)) < 2 ^ 32 -> is_Some (heap st !! r) ->
  read_turn st r stream now = (Done (st', e), rest) -> at_most_own r (abs st) (abs st').
Proof.
  intros Hinv Hsz Hr. unfold read_turn. destruct (match read_u16 stream with Ok _ => _ | Err _ => _ end) as [kind s1].
  destruct (handle_stream_read st r kind s1 now) as [[[st1 res]|] s2] eqn:Eh; [|done].
  assert (at_most_own r (abs st) (abs st1)) as K1.
  { unfold handle_stream_read in Eh. destruct kind as [k|]; [|left; by simplify_eq].
    destruct (read_u32 s1) as [[size s3]|]; [|left; by simplify_eq]. destruct (Proto.read_exact _ s3) as [[buf s4]|]; [|left; by simplify_eq].
    destruct (MessageKind.try_from k) as [kind|]; [|left; by simplify_eq]. injection Eh as Ed _.
    destruct (dispatch_events st r kind buf now st1 res Hinv Hsz Ed) as [|[Hn _]]; [done|]. rewrite Hn in Hr. by destruct Hr. }
  destruct res as [u|err]; [by intros [= <- _ _]|]. pose proof (count_bad_abs st1 r) as K2.
  destruct (count_bad st1 r) as [st2 b]. intros [= <- _ _]. cbn [fst] in K2. by rewrite K2.
Qed.

Lemma task_turn_events st r stream turn now st' left :
  state_inv st -> Z.of_nat (size (channels st)) < 2 ^ 32 -> is_Some (heap st !! r) ->
  task_turn st r stream turn now = Done (st', left) -> at_most_own r (abs st) (abs st').
Proof.
  intros Hinv Hsz Hr. unfold task_turn. destruct turn as [cancel|cancel].
  - case_if; [intros [= <- _]; left; apply close_queue_abs|].
    destruct (read_turn st r stream now) as [[[st1 [|]]|] rest] eqn:Er; [| |done]; apply read_turn_events in Er; try done;
      intros [= <- _]; [|done]. by rewrite close_queue_abs.
  - pose proof (queue_turn_abs st r cancel now) as Hq. destruct (queue_turn st r cancel now) as [st1 t]. cbn [fst] in Hq.
    intros Ht. left. destruct t; injection Ht as <- _; [done..|]. by rewrite close_queue_abs.
Qed.

(** A turn of a connection: its client moves or creates a room, or, at the end, its session departs. *)
Lemma conn_turn_events w r p turn now w' :
  world_inv w -> Z.of_nat (size (channels (server w))) < 2 ^ 32 -> conns w !! r = Some p -> conn_turn w r turn now = Done w' ->
  abs (server w') = abs (server w)
  \/ exists e, (own r e \/ e = Departed (session_of p)) /\ room_run [e] (abs (server w)) (abs (server w')).
Proof.
  intros W Hsz Hp. destruct (wi_conns _ W r p Hp) as (c & Hc & _). unfold conn_turn. rewrite Hp. destruct p as [s [|item items] i|s i|s].
  - intros [= <-]. by left.
  - assert (abs (fst (greet_item (server w) r item)) = abs (server w)) as E
      by (apply tables_abs; [apply greet_item_tables|apply greet_item_frames]).
    destruct (greet_item (server w) r item) as [st [more|err]]; intros [= <-]; left; cbn [server fst] in *; [done|by rewrite close_queue_abs].
  - destruct (waits _ _ _ _); [intros [= <-]; by left|].
    destruct (task_turn (server w) r (unread i) turn now) as [[st left]|] eqn:Et; [|done].
    apply task_turn_events in Et as [E|(e & Ho & Hr)]; [| |by destruct W|done|by eexists]; intros Hw'; assert (server w' = st) as -> by (by destruct left; simplify_eq);
      [by left|]. right. exists e. split; [by left|done].
  - intros [= <-]. cbn [server]. destruct (disconnect_events (server w) s Disconnected (wi_state _ W)) as [|Hr]; [by left|].
    right. exists (Departed s). split; [by right|done].
Qed.

(** *** The other tasks *)

Lemma auth_basic_abs a auth st req now epoch : abs (fst (auth_basic a auth st req now epoch)) = abs st.
Proof. apply shape_abs; [apply auth_basic_same|apply auth_basic_frames]. Qed.

Lemma run_sampler_abs st ticks now epoch : state_inv st -> abs (fst (fst (run_sampler st ticks now epoch))) = abs st.
Proof.
  intros Hinv. apply shape_abs; [|apply run_sampler_frames]. unfold run_sampler. assert (same_shape st (fst (sample st now epoch))) as Hs.
  { unfold sample. case_if; [done|]. apply evaluate_all_same. rewrite make_env_eq. by apply take_snaps_turns. }
  destruct (sample st now epoch) as [st1 posts]. cbn [fst] in *. etransitivity; [exact Hs|]. case_if; [apply flush_heard_same|done].
Qed.

Lemma udp_abs st received v now : abs (udp_server_run st received v now) = abs st.
Proof. apply tables_abs; [apply udp_tables|apply udp_frames]. Qed.

Lemma reset_abs st r now : abs (fst (reset_client_crypt st r now)) = abs st.
Proof. apply tables_abs; [apply reset_client_crypt_tables|apply reset_client_crypt_frames]. Qed.

Lemma break_abs st r : abs (break_stream st r) = abs st.
Proof. apply tables_abs; [apply upd_client_tables|by apply alter_frames]. Qed.

Lemma other_step_events st st' : other_step st st' -> state_inv st -> exists ss, room_run (Departed <$> ss) (abs st) (abs st').
Proof.
  destruct 1; intros Hinv; [exists []|by apply clean_rest_events|exists []..].
  - apply udp_abs.
  - apply reset_abs.
  - by apply run_sampler_abs.
  - apply auth_basic_abs.
  - apply break_abs.
Qed.

Lemma reclaim_events st r : abs (reclaim st r) = abs st \/ room_run [Forgotten r] (abs st) (abs (reclaim st r)).
Proof.
  unfold reclaim. destruct (held st r) eqn:Hh; [by left|]. right. cbn. split; [|unfold abs; cbn; by rewrite fmap_delete].
  intros s Hs. unfold held in Hh. apply orb_false_iff in Hh as [Hh _].
  assert (existsb (fun p : Z * ClientRef => bool_decide (p.2 = r)) (map_to_list (clients st)) = true); [|congruence].
  apply existsb_exists. exists (s, r). split; [|by apply bool_decide_eq_true_2]. by apply list_elem_of_In, elem_of_map_to_list.
Qed.

(** *** Every step *)

(** What a step of the server does to the rooms: events of the machine, or the room of a client that is not there. *)
Lemma step_rooms_ok allowed st st' : server_step allowed st st' -> state_inv st -> rooms_ok (abs st) -> rooms_ok (abs st').
Proof.
  assert (forall es R R', room_run es R R' -> rooms_ok R -> rooms_ok R') as Hrun by apply rooms_ok_run.
  destruct 1 as [st version auth cs out ip now epoch Hsz| |st r kind buf now st' res Hsz Hd| | | | | | | | | | |]; intros Hinv Hok.
  - destruct (handle_new_client st version auth cs out ip now epoch) as [st' [r|e]] eqn:En;
      pose proof (new_client_events _ _ _ _ _ _ _ _ _ _ Hinv Hsz En) as He; cbv iota in He; [|by subst].
    destruct He as [s He]. exact (Hrun _ _ _ He Hok).
  - rewrite (tables_abs st); [done|apply greet_item_tables|apply greet_item_frames].
  - destruct (dispatch_events _ _ _ _ _ _ _ Hinv Hsz Hd) as [[->|(e & _ & He)]|(_ & k & name & Hm & ->)]; [done|exact (Hrun _ _ _ He Hok)|].
    by apply rooms_ok_opened.
  - by rewrite count_bad_abs.
  - by rewrite queue_turn_abs.
  - by rewrite udp_abs.
  - destruct (clean_rest_events st q now Hinv) as [ss He]. exact (Hrun _ _ _ He Hok).
  - by rewrite reset_abs.
  - destruct (disconnect_events st s reason Hinv) as [->|He]; [done|exact (Hrun _ _ _ He Hok)].
  - by rewrite run_sampler_abs.
  - by rewrite auth_basic_abs.
  - destruct (reclaim_events st r) as [->|He]; [done|exact (Hrun _ _ _ He Hok)].
  - by rewrite close_queue_abs.
  - by rewrite break_abs.
Qed.

(** The events of one step of the connections and of the other tasks. *)
Definition step_events (w w' : World) (es : list Event) : Prop :=
  es = []
  \/ (exists r s, conns w !! r = None /\ is_Some (conns w' !! r) /\ es = [Arrived r s])
  \/ (exists r p e, conns w !! r = Some p /\ (own r e \/ e = Departed (session_of p)) /\ es = [e])
  \/ (exists ss, conns w' = conns w /\ es = Departed <$> ss)
  \/ (exists r, conns w !! r = None /\ es = [Forgotten r]).

Lemma world_step_events w w' :
  world_step w w' -> world_inv w -> exists es, step_events w w' es /\ room_run es (abs (server w)) (abs (server w')).
Proof.
  intros Hs W. destruct Hs as [w bytes sv key t1 t2 out version auth cs stream ip now epoch st r c Hsz _ Hn Hc|w r p ev Hp|w r turn now w' Hsz Ht|w st' Ho|w r Hr].
  - destruct (new_client_events _ _ _ _ _ _ _ _ _ _ (wi_state _ W) Hsz Hn) as [s He]. exists [Arrived r s]. split; [|exact He].
    right. left. exists r, s. split; [|split; [|done]]; [|cbn; rewrite lookup_insert_eq; by eexists].
    destruct (admit_inv w st r c stream version auth cs out ip now epoch W Hsz Hn Hc) as [? _]. done.
  - exists []. split; [by left|done].
  - destruct (conns w !! r) as [p|] eqn:Hp; [|exists []; rewrite (conn_turn_none _ _ _ _ _ Hp Ht); split; [by left|done]].
    destruct (conn_turn_events w r p turn now w' W Hsz Hp Ht) as [E|(e & He & Hr)]; [exists []; split; [by left|done]|].
    exists [e]. split; [|done]. right. right. left. by exists r, p, e.
  - destruct (other_step_events _ _ Ho (wi_state _ W)) as [ss He]. exists (Departed <$> ss). split; [|done]. do 3 right. left. by exists ss.
  - destruct (reclaim_events (server w) r) as [E|E]; [exists []; split; [by left|done]|]. exists [Forgotten r]. split; [|done].
    do 4 right. by exists r.
Qed.
End operations.

(** The machine as the server starts it: nobody, and the root room. *)
Definition initial_rooms : Rooms := mkRooms ∅ ∅ {[ 0 := mkRoom "Root" false ∅ ]}.

Lemma initial_rooms_ok : rooms_ok initial_rooms.
Proof.
  split; cbn.
  - eexists. by rewrite lookup_singleton_eq.
  - intros k rm [<- _]%lookup_singleton_Some. done.
  - intros k k' rm rm' [<- _]%lookup_singleton_Some [<- _]%lookup_singleton_Some. done.
  - intros k rm [<- <-]%lookup_singleton_Some. cbn. unfold in_u. lia.
Qed.

Lemma initial_lived : lived_in (rooms initial_rooms).
Proof. intros k rm. cbn. intros [<- <-]%lookup_singleton_Some. done. Qed.

Section runs.
Context `{HashIterLaws} `{MumbleProto} `{Aes128} `{UdpSocket} `{Unicode} `{UsernameRegex}
  `{SerdeJson (list BanList.BanEntry)} `{SerdeJson Anticheat.PersistedHeard}.

Lemma start_rooms args f epoch : abs (start args f epoch) = initial_rooms.
Proof. unfold abs, start, initial_rooms. cbn. rewrite fmap_empty, map_fmap_singleton. unfold room_of. cbn. by rewrite dom_empty_L. Qed.

Lemma reachable_rooms_ok args f epoch st :
  rtc (server_step (fun _ => True)) (start args f epoch) st -> rooms_ok (abs st).
Proof.
  intros Hr. assert (state_inv (start args f epoch) /\ rooms_ok (abs (start args f epoch))) as Hi
    by (rewrite start_rooms; split; [apply new_inv|apply initial_rooms_ok]).
  induction Hr as [|x y z Hxy _ IH]; [by destruct Hi|]. apply IH. destruct Hi as [Ix Ox]. split; [by eapply step_inv|by eapply step_rooms_ok].
Qed.

Lemma world_run_events w w' :
  rtc world_step w w' -> world_inv w -> world_inv w' /\ exists es, room_run es (abs (server w)) (abs (server w')).
Proof.
  induction 1 as [w|w1 w2 w3 Hs _ IH]; intros W; [split; [done|by exists []]|].
  destruct (world_step_events w1 w2 Hs W) as (es1 & _ & R1). destruct (IH (world_step_inv _ _ Hs W)) as (W3 & es2 & R2).
  split; [done|]. exists (es1 ++ es2). by eapply room_run_app.
Qed.
End runs.

(** ** Properties *)



(** ** A run *)

(** With the wire format of [WireFormat]: a client connects, is greeted, and asks for a temporary channel under the root. *)
Definition den_request : ChannelStateMsg.ChannelState :=
  ChannelStateMsg.mkChannelState None (Some 0) (Some "den"%string) [] None [] [] (Some true) None None None None None.

Definition den_start : ServerState :=
  @start (fun s => s) bits_json heard_json sample_args BanList.sample_fs 0.
Definition den_joined : ServerState :=
  fst (@handle_new_client canonical_iter (fun s => s) (fun _ => true) den_start
    (VersionMsg.mkVersion None (Some "CitizenFX"%string) None None)
    (AuthenticateMsg.mkAuthenticate (Some "[12] eve"%string) None [] [] None)
    (default_crypt_state sample_key 0) [] "192.168.3.3" 0 0).
Definition den_greeted : ServerState := fst (@client_run canonical_iter (@mumble_proto wire_format) den_joined 0%nat).
Definition den_bytes : list Z := default [] (@write_to_bytes _ (@message_proto wire_format _ _) den_request).
Definition den_created : ServerState :=
  match @dispatch canonical_iter (@mumble_proto wire_format) xor_aes no_udp den_greeted 0%nat MessageKind.ChannelState
          den_bytes 5 with
  | Done (st, _) => st
  | _ => den_greeted
  end.

Lemma den_reached :
  rtc (@server_step canonical_iter (@mumble_proto wire_format) xor_aes no_udp (fun s => s) (fun _ => true) bits_json heard_json
    (fun _ => True)) den_start den_created.
Proof.
  eapply rtc_l; [eapply (step_connect _ den_start); vm_compute; reflexivity|].
  etransitivity; [apply (@client_run_steps canonical_iter canonical_iter_laws (@mumble_proto wire_format) _ _ _ _ _ _ _ den_joined 0%nat)|].
  eapply rtc_l; [|apply rtc_refl].
  eapply (step_message _ den_greeted 0%nat MessageKind.ChannelState
    den_bytes 5);
    vm_compute; reflexivity.
Qed.

(** The same over a connection: the handshake, the greeting item by item, and the request as a frame on the stream. *)
Section den_visit.
Let sample_proto : MumbleProto := @mumble_proto wire_format.
Let lower : Unicode := fun s => s.
Let any_name : UsernameRegex := fun _ => true.
#[local] Existing Instances canonical_iter sample_proto xor_aes no_udp lower any_name bits_json heard_json.

Definition den_visit : list Z :=
  frame_of MessageKind.Version sample_hello ++ frame_of MessageKind.Authenticate sample_login ++ frame_of MessageKind.ChannelState den_request.
Definition den_init := init den_visit (server_version "unix" "linux" "0.1.0") sample_key 0 false false.
Definition den_admitted : option World :=
  match den_init with
  | (out, Ok (version, auth, cs, stream)) =>
    match handle_new_client (server sample_open) version auth cs out "10.0.0.9" 0 0 with
    | (st, Ok r) => c ← heap st !! r; Some (mkWorld st (<[r := Greeting (Client.session_id c) greet_items (mkInput stream false)]> ∅))
    | _ => None
    end
  | _ => None
  end.
Definition den_after (n : nat) : World := Nat.iter n sample_step (default sample_open den_admitted).

Lemma den_admits : world_step sample_open (den_after 0).
Proof.
  assert (match den_admitted with Some _ => true | None => false end = true) as Hs by (vm_compute; reflexivity). revert Hs.
  unfold den_after, den_admitted. cbn [Nat.iter]. destruct den_init as [out [[[[version auth] cs] stream]|e]] eqn:Ei; [|discriminate].
  destruct (handle_new_client (server sample_open) version auth cs out "10.0.0.9" 0 0) as [st [r|e]] eqn:En; [|discriminate].
  destruct (heap st !! r) as [c|] eqn:Hc; cbn [mbind option_bind default]; [|discriminate]. intros _.
  by eapply (world_admit sample_open); [vm_compute; reflexivity|exact Ei|exact En|].
Qed.

Lemma den_turns : turns_ok 10 (den_after 0) = true.
Proof. vm_compute. reflexivity. Qed.

Lemma den_reach n : (n <= 10)%nat -> rtc world_step sample_open (den_after n).
Proof.
  induction n as [|n IH]; intros Hn; [apply rtc_once, den_admits|]. eapply rtc_r; [apply IH; lia|].
  pose proof (turns_ok_spec 10 (den_after 0) n den_turns ltac:(lia)) as Hok. change (Nat.iter n sample_step (den_after 0)) with (den_after n) in Hok.
  change (den_after (S n)) with (sample_step (den_after n)). revert Hok. generalize (den_after n). intros w. unfold turn_ok, sample_step.
  destruct (conn_turn w _ _ _) as [w'|] eqn:Et; [|discriminate]. intros Hs%Z.ltb_lt. by eapply world_turn.
Qed.

End den_visit.

