(* ===== verification/Announce.v ===== *)
(** What one player does, every other player learns: from a message read from a player's stream, through the state and the queues, to the
    streams of the others. *)

From stdpp Require Import base gmap strings list.
From Stdlib Require Import ZArith Lia.
From S2P Require Import Prelude Errors Maps Text Varint Voice Float32 Messages Crypt Proto Calendar Bans Client Anticheat.
From S2P Require Import State StateInv StateProps Handlers HandlerInv HandlerProps Net Greeting NetProps Wire WireFormat Codec CodecProps Delivery.
From S2P Require Import Sampler SamplerProps Http HttpProps System Frames Queues.
Import ServerState Handler Udp Clean Tcp Sampler Http.

(** ** Messages that wait *)

(** [message] waits in the queue of client [r], unless its connection is over. *)
Definition told (r : ClientRef) (message : ClientMessage) (st : ServerState) : Prop :=
  exists c, heap st !! r = Some c /\ (alive c -> message ∈ waiting c).

Lemma told_frames r message st st' : frames appends st st' -> told r message st -> told r message st'.
Proof.
  intros Hf (c & Hc & Hm). destruct (frames_lookup _ _ _ r c Hf Hc) as (c' & Hc' & Ha). exists c'. split; [done|].
  intros A. destruct (Ha A) as (A0 & [x E] & _). rewrite E. apply elem_of_app. left. by apply Hm.
Qed.

Section announce.
Context `{HashIterLaws} `{MumbleProto} `{Aes128} `{UdpSocket} `{Unicode} `{UsernameRegex}
  `{SerdeJson (list BanList.BanEntry)} `{SerdeJson Anticheat.PersistedHeard}.

(** A client of the map whose queue has room. *)
Definition reachable_client (st : ServerState) (r : ClientRef) : Prop :=
  exists c, heap st !! r = Some c /\ clients st !! Client.session_id c = Some r /\ accepts c = true.

Lemma broadcast_told {T} `{ProtoMessage T} st kind (m : T) bytes r :
  state_inv st -> message_to_bytes kind m = Ok bytes -> reachable_client st r ->
  told r (SendMessage kind bytes) (fst (broadcast_message st kind m)).
Proof.
  intros Hinv Hm (c & Hc & Hs & Ha). pose proof (broadcast_spec st kind m bytes Hinv Hm) as Hb.
  destruct (broadcast_message st kind m) as [st' res]. destruct Hb as (_ & Hh & _). eexists. split; [by apply Hh|].
  unfold connected, delivered. rewrite bool_decide_eq_true_2, Ha by done. intros _. unfold waiting. cbn. apply elem_of_app. right. by left.
Qed.

Lemma set_client_channel_told st r c k ch bytes r' :
  state_inv st -> heap st !! r = Some c -> channels st !! k = Some ch ->
  message_to_bytes MessageKind.UserState (Client.get_user_state (Client.set_channel_id c k)) = Ok bytes ->
  reachable_client st r' ->
  told r' (SendMessage MessageKind.UserState bytes) (fst (set_client_channel st r k)).
Proof.
  intros Hinv Hc Hk Hm (c' & Hc' & Hs' & Ha'). unfold set_client_channel. rewrite Hc. unfold Client.join_channel.
  set (x := if k =? Client.channel_id c then (c, None) else _).
  assert (fst x = Client.set_channel_id c k) as E1 by (subst x; destruct (Z.eqb_spec k (Client.channel_id c)) as [->|]; [by destruct c|done]).
  destruct x as [c1 leave]. cbn [fst] in E1. subst c1. set (st1 := set_heap st _).
  assert (state_inv st1) as I1 by (eapply same_shape_inv; [by eapply set_heap_same|done]).
  rewrite (find_channel_some st1 k ch I1 Hk). set (st2 := upd_channel st1 k _).
  assert (state_inv st2) as I2.
  { apply upd_channel_inv; [done|]. intros ch' Hch'. apply add_member_ok; [by apply state_inv_channel|].
    exists (Client.set_channel_id c k). split; [|done]. cbn. by rewrite lookup_insert_eq. }
  assert (reachable_client st2 r') as R2.
  { unfold reachable_client. cbn [heap clients upd_channel set_channels st2 st1 set_heap]. destruct (decide (r = r')) as [<-|Hne].
    - rewrite lookup_insert_eq. eexists. split; [done|]. assert (c' = c) as -> by congruence. done.
    - rewrite lookup_insert_ne by done. by exists c'. }
  pose proof (broadcast_told st2 MessageKind.UserState _ bytes r' I2 Hm R2) as Ht.
  destruct (broadcast_message st2 _ _) as [st3 res]. cbn [fst] in Ht. destruct leave as [leave|]; [|done]. case_if; [done|].
  eapply told_frames; [|exact Ht]. apply left_channel_frames.
Qed.

Lemma user_state_told st r c m k ch bytes r' :
  state_inv st -> heap st !! r = Some c -> UserStateMsg.session m = Some (Client.session_id c) ->
  UserStateMsg.channel_id m = Some k -> channels st !! k = Some ch ->
  message_to_bytes MessageKind.UserState (Client.get_user_state (Client.set_channel_id c k)) = Ok bytes ->
  reachable_client st r' -> told r' (SendMessage MessageKind.UserState bytes) (fst (handle_user_state st r m)).
Proof.
  intros Hinv Hc Hse Hch Hk Hm (c' & Hc' & Hs' & Ha'). unfold handle_user_state. rewrite Hc, Hse, Hch.
  change (get_num (Some (Client.session_id c))) with (Client.session_id c). rewrite Z.eqb_refl. cbn [negb has].
  change (get_num (Some k)) with k. set (st0 := upd_client st r _).
  assert (same_shape st st0) as Hsh by (apply upd_client_same; intros x; unfold Client.update; by repeat case_if).
  assert (state_inv st0) as I0 by (by eapply same_shape_inv).
  assert (heap st0 !! r = Some (Client.update c m)) as Hc0 by (cbn; by rewrite lookup_alter_eq, Hc).
  assert (reachable_client st0 r') as R0.
  { unfold reachable_client. cbn [heap clients upd_client set_heap st0]. destruct (decide (r = r')) as [<-|Hne].
    - rewrite lookup_alter_eq, Hc. eexists. split; [done|]. assert (c' = c) as -> by congruence. unfold Client.update. by repeat case_if.
    - rewrite lookup_alter_ne by done. by exists c'. }
  assert (message_to_bytes MessageKind.UserState (Client.get_user_state (Client.set_channel_id (Client.update c m) k)) = Ok bytes) as Hm0
    by (rewrite <-Hm; f_equal; unfold Client.update; by repeat case_if).
  pose proof (set_client_channel_told st0 r _ k ch bytes r' I0 Hc0 Hk Hm0 R0) as Ht.
  destruct (set_client_channel st0 r k) as [st1 [u|e]]; cbn [seq fst] in *; [|done]. eapply told_frames; [|exact Ht].
  etransitivity; [|apply fold_frames; intros; by apply frames_heap]. apply fold_frames. intros; by apply frames_heap.
Qed.
End announce.

(** C7.  Everyone learns of a move: when a player's request to move to an existing channel is read, in any execution of the server
    from start-up, then every client connected at that moment whose queue has room and is served again and again, the player itself
    included, finds on its stream the frame that announces the player in its new channel, whole and after all
    that was written before; unless its own connection ends first. *)
Theorem moves_announced `{HashIterLaws} `{MumbleProto} `{Aes128} `{UdpSocket} `{Unicode} `{UsernameRegex}
    `{SerdeJson (list BanList.BanEntry)} `{SerdeJson Anticheat.PersistedHeard} (args : Args) (f : FileSystem) (epoch : Z)
    (e : nat -> ServerState) (i : nat) (r r' : ClientRef) (c c' : Client.Client) (m : UserStateMsg.UserState) (k : Z) (ch : Channel)
    (buf bytes : list Z) (now : Z) (res : Result MumbleError unit) :
  e 0%nat = start args f epoch -> execution (fun _ => True) e -> fair_to r' e ->
  dispatch (e i) r MessageKind.UserState buf now = Done (e (S i), res) ->
  heap (e i) !! r = Some c -> parse_from_bytes buf = Some m -> UserStateMsg.session m = Some (Client.session_id c) ->
  UserStateMsg.channel_id m = Some k -> channels (e i) !! k = Some ch ->
  message_to_bytes MessageKind.UserState (Client.get_user_state (Client.set_channel_id c k)) = Ok bytes ->
  heap (e i) !! r' = Some c' -> clients (e i) !! Client.session_id c' = Some r' -> accepts c' = true ->
  exists j, (i < j)%nat /\ forall c'', heap (e j) !! r' = Some c'' -> alive c'' ->
    exists chunks, written c'' = written c' ++ concat chunks /\ bytes ∈ chunks.
Proof.
  intros E0 He Hf Hd Hc Hp Hse Hch Hk Hm Hc' Hs' Ha'. assert (state_inv (e 0%nat)) as I0 by (rewrite E0; apply new_inv).
  pose proof (execution_inv _ e i He I0) as Ii. assert (told r' (SendMessage MessageKind.UserState bytes) (e (S i))) as (c1 & Hc1 & Ht).
  { cbn [dispatch] in Hd. unfold try_handle in Hd. rewrite Hp in Hd. injection Hd as Hd.
    rewrite <- (f_equal fst Hd : fst _ = e (S i)). by eapply user_state_told; [..|exists c']. }
  destruct (fair_served _ e r' c1 (S i) He I0 Hf Hc1) as (j & Hij & Hj). exists j. split; [lia|]. intros c'' Hc'' A.
  destruct (Hj c'' Hc'' A) as (A1 & n & chunks & K1 & _ & W1 & P1). rewrite take_ge in P1 by lia.
  assert (r' < next_ref (e i))%nat as Hr by (apply (si_fresh _ Ii); by eexists).
  destruct (execution_onward _ e r' i (S i) He ltac:(lia)) as [_ Ho]. destruct (Ho c1 Hr Hc1) as (c0 & Hc0 & Hs0).
  assert (c0 = c') as -> by congruence. destruct (Hs0 A1) as (_ & _ & chunks0 & _ & _ & W0 & _).
  exists (chunks0 ++ chunks). split; [rewrite W1, W0, concat_app; by rewrite app_assoc|]. apply elem_of_app. right.
  eapply elem_of_sublist; [|exact P1]. apply list_elem_of_omap. exists (SendMessage MessageKind.UserState bytes). split; [by apply Ht|done].
Qed.

(** ** Eve and Bob connect, Bob opens a channel, and Eve follows him there *)

Section sample_meeting.
Let sample_proto : MumbleProto := @mumble_proto wire_format.
Let lower : Unicode := fun s => s.
Let any_name : UsernameRegex := fun _ => true.
#[local] Existing Instances canonical_iter sample_proto xor_aes no_udp lower any_name bits_json heard_json.

Definition sample_join (name : string) (st : ServerState) : ServerState :=
  fst (handle_new_client st (VersionMsg.mkVersion None (Some "CitizenFX"%string) None None)
    (AuthenticateMsg.mkAuthenticate (Some name) None [] [] None) (default_crypt_state sample_key 0) [] "192.168.3.3" 0 0).
Definition sample_channel : list Z :=
  default [] (write_to_bytes (ChannelStateMsg.mkChannelState None (Some 0) (Some "Lobby"%string) [] None [] [] (Some true) None None
    None None None)).
Definition sample_move : UserStateMsg.UserState :=
  UserStateMsg.mkUserState (Some 1) None None None (Some 1) None None None None None None None None None None None None None None
    [] [] [].
Definition sample_move_bytes : list Z := default [] (write_to_bytes sample_move).
Definition sample_read (r : ClientRef) (kind : MessageKind.MessageKind) (buf : list Z) (st : ServerState) : ServerState :=
  match dispatch st r kind buf 5 with Done (st', _) => st' | Panic => st end.

(** A turn of the sample, as data. *)
Inductive SampleTurn :=
  | Join (name : string)
  | Greet (r : ClientRef) (item : GreetItem)
  | Read (r : ClientRef) (kind : MessageKind.MessageKind) (buf : list Z).

Definition sample_do (t : SampleTurn) (st : ServerState) : ServerState :=
  match t with
  | Join name => sample_join name st
  | Greet r item => fst (greet_item st r item)
  | Read r kind buf => sample_read r kind buf st
  end.

(** The ids suffice, and the server does not panic. *)
Definition sample_may (t : SampleTurn) (st : ServerState) : bool :=
  match t with
  | Join _ => Z.of_nat (size (clients st)) <? 2 ^ 32
  | Greet _ _ => true
  | Read r kind buf =>
    (Z.of_nat (size (channels st)) <? 2 ^ 32) && match dispatch st r kind buf 5 with Done _ => true | Panic => false end
  end.
Fixpoint sample_may_all (ts : list SampleTurn) (st : ServerState) : bool :=
  match ts with [] => true | t :: ts => sample_may t st && sample_may_all ts (sample_do t st) end.

Lemma sample_read_done r kind buf st :
  sample_may (Read r kind buf) st = true -> exists res, dispatch st r kind buf 5 = Done (sample_read r kind buf st, res).
Proof. cbn. unfold sample_read. intros [_ K2]%andb_prop. destruct (dispatch _ _ _ _ _) as [[st' res]|]; [by eexists|done]. Qed.

Lemma sample_do_step t st : sample_may t st = true -> server_step (fun _ => True) st (sample_do t st).
Proof.
  destruct t as [name|r item|r kind buf]; intros K; cbn [sample_do].
  - apply step_connect. by apply Z.ltb_lt in K.
  - apply step_greet.
  - destruct (sample_read_done r kind buf st K) as [res Hd]. eapply step_message; [|exact Hd].
    cbn in K. apply andb_prop in K as [K1 _]. by apply Z.ltb_lt in K1.
Qed.

Lemma sample_play_step ts last st i t :
  sample_may_all ts st = true -> ts !! i = Some t -> sample_may t (play (sample_do <$> ts) last st i) = true.
Proof.
  revert st i. induction ts as [|t0 ts IH]; intros st i; [done|]. cbn [sample_may_all]. intros [K1 K2]%andb_prop.
  destruct i as [|i]; [by intros [= <-]|]. intros Hi. exact (IH (sample_do t0 st) i K2 Hi).
Qed.

Lemma sample_play_next ts last st i t :
  ts !! i = Some t -> play (sample_do <$> ts) last st (S i) = sample_do t (play (sample_do <$> ts) last st i).
Proof. intros Ht. rewrite play_next, list_lookup_fmap, Ht. done. Qed.

Lemma sample_play_execution ts r st :
  sample_may_all ts st = true -> execution (fun _ => True) (play (sample_do <$> ts) (fun st => fst (queue_turn st r false 7)) st).
Proof.
  intros Hok. apply play_execution; [|intros; apply step_queue]. intros i f (t & -> & Ht)%list_lookup_fmap_Some.
  by apply sample_do_step, sample_play_step.
Qed.

Definition sample_greeting (r : ClientRef) (users : list ClientRef) : list SampleTurn :=
  Greet r <$> [SendCodecVersion; CollectLists; SendChannel 0] ++ (SendUser <$> users)
    ++ [SendMyUserState; SendServerSync; SendServerConfig; BroadcastUserState].
Definition sample_script : list SampleTurn :=
  Join "[12] eve" :: sample_greeting 0 [0%nat] ++ Join "[13] bob" :: sample_greeting 1 [0%nat; 1%nat]
  ++ [Read 1 MessageKind.ChannelState sample_channel; Read 0 MessageKind.UserState sample_move_bytes].
Definition sample_meeting : nat -> ServerState :=
  play (sample_do <$> sample_script) (fun st => fst (queue_turn st 1%nat false 7)) (start sample_args BanList.sample_fs 0).

Lemma sample_meeting_move : sample_meeting 21 = sample_read 0 MessageKind.UserState sample_move_bytes (sample_meeting 20).
Proof.
  unfold sample_meeting. generalize (start sample_args BanList.sample_fs 0). intros st.
  assert (sample_script !! 20%nat = Some (Read 0 MessageKind.UserState sample_move_bytes)) as Hs by reflexivity.
  revert Hs. generalize sample_script. intros ts Hs. rewrite (sample_play_next ts _ _ 20 _ Hs). reflexivity.
Qed.

(** The announcement that Bob finds on his stream. *)
Definition sample_announcement : list Z :=
  [0; 9; 0; 0; 0; 16; 8; 1; 26; 8; 91; 49; 50; 93; 32; 101; 118; 101; 32; 1; 40; 1].

Lemma moves_announced_witness :
  exists bob, heap (sample_meeting 20) !! 1%nat = Some bob /\ Client.channel_id bob = 1
  /\ exists j, (20 < j)%nat /\ forall bob', heap (sample_meeting j) !! 1%nat = Some bob' -> alive bob' ->
    exists chunks, written bob' = written bob ++ concat chunks /\ sample_announcement ∈ chunks.
Proof.
  destruct (heap (sample_meeting 20) !! 0%nat) as [eve|] eqn:He; [|vm_compute in He; discriminate].
  destruct (heap (sample_meeting 20) !! 1%nat) as [bob|] eqn:Hb; [|vm_compute in Hb; discriminate].
  destruct (channels (sample_meeting 20) !! 1) as [lobby|] eqn:Hl; [|vm_compute in Hl; discriminate].
  destruct (sample_read_done 0%nat MessageKind.UserState sample_move_bytes (sample_meeting 20)) as [res Hd]; [vm_compute; reflexivity|].
  assert (Client.session_id eve = 1) as Hse by (apply (found_fact _ _ _ _ He); vm_compute; reflexivity).
  assert (message_to_bytes MessageKind.UserState (Client.get_user_state (Client.set_channel_id eve 1)) = Ok sample_announcement) as Hm
    by (apply (found_fact _ _ (fun c => message_to_bytes MessageKind.UserState (Client.get_user_state (Client.set_channel_id c 1))) _ He);
        vm_compute; reflexivity).
  assert ((Client.session_id bob, Client.channel_id bob, accepts bob) = (2, 1, true)) as [= Hs2 Hc2 Ha2]
    by (apply (found_fact _ _ (fun c => (Client.session_id c, Client.channel_id c, accepts c)) _ Hb); vm_compute; reflexivity).
  exists bob. split; [exact eq_refl|]. split; [exact Hc2|].
  apply (@moves_announced canonical_iter canonical_iter_laws sample_proto xor_aes no_udp lower any_name bits_json heard_json
    sample_args BanList.sample_fs 0 sample_meeting 20 0%nat 1%nat eve bob sample_move 1 lobby sample_move_bytes sample_announcement 5 res).
  - exact eq_refl.
  - apply sample_play_execution. vm_compute. reflexivity.
  - intros i. exists (21 + i)%nat, false, 7. split; [lia|]. exact (play_after (sample_do <$> sample_script) _ _ i).
  - rewrite sample_meeting_move. exact Hd.
  - exact He.
  - vm_compute. reflexivity.
  - rewrite Hse. exact eq_refl.
  - exact eq_refl.
  - exact Hl.
  - exact Hm.
  - exact Hb.
  - rewrite Hs2. vm_compute. reflexivity.
  - exact Ha2.
Defined.
End sample_meeting.
