(* ===== verification/Roster.v ===== *)
(** Everybody knows everybody: connections are greeted while others come, go, move and are greeted themselves, and yet no two
    greeted clients miss each other. *)

From stdpp Require Import base gmap strings list.
From Stdlib Require Import ZArith Lia.
From S2P Require Import Prelude Errors Maps Text Varint Voice Float32 Messages Crypt Proto Calendar Bans Client Anticheat.
From S2P Require Import State StateInv StateProps Handlers HandlerInv HandlerProps Net Greeting NetProps Wire WireFormat Codec CodecProps Delivery.
From S2P Require Import Sampler SamplerProps Http HttpProps System Frames Connection Queues Lifecycle.
Import ServerState Handler Udp Clean Tcp Sampler Http.

(** ** What a client knows of another *)

(** On the stream of [c], or in its queue, is a frame that tells the session and the name of [user] and a channel it was in. *)
Definition learned `{MumbleProto} (c user : Client.Client) : Prop :=
  exists k bytes, message_to_bytes MessageKind.UserState (Client.get_user_state (Client.set_channel_id user k)) = Ok bytes
    /\ (SendMessage MessageKind.UserState bytes ∈ waiting c \/ exists before after, written c = before ++ bytes ++ after).

Lemma concat_elem {A} (x : list A) (ls : list (list A)) : x ∈ ls -> exists before after, concat ls = before ++ x ++ after.
Proof.
  intros (l1 & l2 & ->)%list_elem_of_split. exists (concat l1), (concat l2). by rewrite concat_app.
Qed.

(** It is not forgotten, whatever happens to the two clients while the one that knows is alive. *)
Lemma learned_served `{MumbleProto} c c' user user' :
  served 0 c c' -> alive c' -> Client.identity user' = Client.identity user -> learned c user -> learned c' user'.
Proof.
  intros Hs A Hi (k & bytes & Hm & Hk). exists k, bytes.
  assert (Client.get_user_state (Client.set_channel_id user' k) = Client.get_user_state (Client.set_channel_id user k)) as ->
    by (unfold Client.get_user_state, Client.session_id, Client.get_name; cbn; by rewrite Hi).
  split; [done|]. destruct (Hs A) as (_ & n & chunks & _ & [x Hx] & Hw & Hp). destruct Hk as [Hq|(a & b & Hab)].
  - rewrite <-(take_drop n (waiting c)) in Hq. apply elem_of_app in Hq as [Hq|Hq].
    + right. assert (bytes ∈ chunks) as Hb by (eapply elem_of_sublist; [|exact Hp]; apply list_elem_of_omap; by eexists).
      destruct (concat_elem _ _ Hb) as (a & b & E). exists (written c ++ a), b. by rewrite Hw, E, app_assoc.
    + left. rewrite Hx. apply elem_of_app. by left.
  - right. exists a, (b ++ concat chunks). by rewrite Hw, Hab, <-!app_assoc.
Qed.

(** ** How far a connection is *)

(** The items of the greeting to go. *)
Definition items_of (p : Phase) : list GreetItem := match p with Greeting _ items _ => items | _ => [] end.

(** The connection has not failed. *)
Definition live (p : Phase) : Prop := match p with Leaving _ => False | _ => True end.

Section roster.
Context `{HashIterLaws} `{MumbleProto} `{Aes128} `{UdpSocket} `{Unicode} `{UsernameRegex}
  `{SerdeJson (list BanList.BanEntry)} `{SerdeJson Anticheat.PersistedHeard}.

(** A connection whose client is in the map of clients. *)
Definition online (w : World) (r : ClientRef) (p : Phase) (c : Client.Client) : Prop :=
  conns w !! r = Some p /\ live p /\ heap (server w) !! r = Some c /\ clients (server w) !! Client.session_id c = Some r.

(** The queues have room, and the user states can be written. *)
Definition orderly (w : World) : Prop :=
  forall r c, is_Some (conns w !! r) -> heap (server w) !! r = Some c ->
    (alive c -> length (waiting c) < CHANNEL_CAPACITY)%nat
    /\ exists bytes, message_to_bytes MessageKind.UserState (Client.get_user_state c) = Ok bytes.

(** Nothing of the greeting of [r] was done, or its next item. *)
Definition advances (w w' : World) (r : ClientRef) (p p' : Phase) : Prop :=
  items_of p' = items_of p
  \/ exists item items more, items_of p = item :: items /\ items_of p' = more ++ items
      /\ greet_item (server w) r item = (server w', Ok more).

Lemma known_back w w' r p p' c' :
  world_inv w -> conns w !! r = Some p -> known r (server w) (server w') -> heap (server w') !! r = Some c' ->
  live p -> advances w w' r p p' ->
  exists p c, conns w !! r = Some p /\ live p /\ heap (server w) !! r = Some c /\ Client.identity c' = Client.identity c
    /\ advances w w' r p p'.
Proof.
  intros W Hp Hk Hc' Hl Ha. destruct (wi_conns _ W r p Hp) as (c & Hc & _). destruct (Hk c Hc) as (c1 & Hc1 & [Hi _]).
  exists p, c. by simplify_eq.
Qed.

Lemma turn_back w w' r turn now p' c' :
  world_inv w -> conn_turn w r turn now = Done w' -> conns w' !! r = Some p' -> live p' -> heap (server w') !! r = Some c' ->
  exists p c, conns w !! r = Some p /\ live p /\ heap (server w) !! r = Some c /\ Client.identity c' = Client.identity c
    /\ advances w w' r p p'.
Proof.
  intros W. unfold conn_turn. destruct (conns w !! r) as [p|] eqn:Hp; [|intros [= <-]; congruence].
  destruct (wi_conns _ W r p Hp) as (c & Hc & _ & Hco). destruct p as [s [|item items] stream|s stream|s].
  - intros [= <-]. cbn [server conns]. rewrite lookup_insert_eq. intros [= <-] _ Hc'. simplify_eq.
    eexists _, c. split_and!; [done..|by left].
  - pose proof (greet_item_frames (R := steady) (server w) r item) as Hf.
    destruct (greet_item (server w) r item) as [st [more|e]] eqn:Eg; intros [= <-]; cbn [server conns fst] in *;
      rewrite lookup_insert_eq; intros [= <-] Hl Hc'; [|done].
    rewrite <-Hp. eapply (known_back w (mkWorld st _)); [done|exact Hp|by apply frames_known|done|done|]. right. by exists item, items, more.
  - destruct (waits _ _ _ _).
    { intros [= <-] Hp' Hl Hc'. rewrite Hp in Hp'. simplify_eq. eexists _, c. split_and!; [done..|by left]. }
    destruct (task_turn (server w) r (unread stream) turn now) as [[st [rest|]]|] eqn:Et; intros [= <-]; cbn [server conns];
      rewrite lookup_insert_eq; intros [= <-] Hl Hc'; [|done].
    destruct (task_turn_decreases _ _ _ _ _ _ _ _ Et Hc Hco) as (c1 & Hc1 & Hid & _). simplify_eq.
    eexists _, c. split_and!; [done..|by left].
  - intros [= <-]. cbn [conns]. by rewrite lookup_delete_eq.
Qed.

(** A connection that is there after a step is new, or was there and is at most one item further. *)
Lemma conn_back w w' r p' c' :
  world_inv w -> world_step w w' -> conns w' !! r = Some p' -> live p' -> heap (server w') !! r = Some c' ->
  items_of p' = greet_items
  \/ exists p c, conns w !! r = Some p /\ live p /\ heap (server w) !! r = Some c /\ Client.identity c' = Client.identity c
      /\ advances w w' r p p'.
Proof.
  intros W Hs. destruct Hs as [w bytes sv key t1 t2 out version auth cs stream ip now epoch st r0 c Hsz _ Hn Hc|w r0 p0 ev Hp0|w r0 turn now w' Hsz Ht|w st' Ho|w r0 Hr0];
    cbn [server conns] in *.
  - intros [[<- <-]|[Hne Hp]]%lookup_insert_Some Hl Hc'; [by left|]. right.
    destruct (new_client_cases _ _ _ _ _ _ _ _ _ _ (wi_state _ W) Hsz Hn) as (c0 & _ & _ & _ & _ & _ & _ & _ & Hoth & _).
    rewrite Hoth in Hc' by done. exists p', c'. split_and!; [done..|by left].
  - intros [[<- <-]|[Hne Hp]]%lookup_insert_Some Hl Hc'; right.
    + exists p0, c'. split_and!; [done|by destruct p0|done|done|left; by destruct p0].
    + exists p', c'. split_and!; [done..|by left].
  - intros Hp Hl Hc'. right. destruct (decide (r0 = r)) as [->|Hne]; [by eapply turn_back|].
    destruct (conn_turn_other w r0 r turn now w' Hne Ht) as [K1 K2]. rewrite K1 in Hp. eapply known_back; [done..|by left].
  - intros Hp Hl Hc'. right. eapply (known_back w (mkWorld st' _)); [done|done| |done|done|by left].
    apply frames_known, (other_step_keeps _ _ Ho (wi_state _ W)).
  - intros Hp Hl Hc'. right. eapply (known_back w (mkWorld (reclaim (server w) r0) _)); [done|done| |done|done|by left].
    intros c Hc. exists c. split; [|done]. cbn [server]. unfold reclaim. case_if; [done|]. cbn. by rewrite lookup_delete_ne by congruence.
Qed.
(** No client that was connected comes back to the map. *)
Lemma turn_shrinks w r turn now w' : conn_turn w r turn now = Done w' -> shrinks (server w) (server w').
Proof.
  unfold conn_turn. destruct (conns w !! r) as [[s [|item items] stream|s stream|s]|]; [by intros [= <-]|..|by intros [= <-]].
  - pose proof (core_shrinks _ _ (tables_core _ _ (greet_item_tables (server w) r item))) as Hs.
    destruct (greet_item (server w) r item) as [st [more|e]]; intros [= <-]; [done|].
    etransitivity; [exact Hs|apply core_shrinks, tables_core, upd_client_tables].
  - destruct (waits _ _ _ _); [by intros [= <-]|].
    destruct (task_turn (server w) r (unread stream) turn now) as [[st left]|] eqn:Et; [|done].
    pose proof (core_shrinks _ _ (proj1 (task_turn_no_trace _ _ _ _ _ _ _ Et))) as Hs. by destruct left; intros [= <-].
  - intros [= <-]. apply disconnect_shrinks.
Qed.

Lemma clients_back w w' s r :
  world_inv w -> world_step w w' -> is_Some (conns w !! r) -> clients (server w') !! s = Some r -> clients (server w) !! s = Some r.
Proof.
  intros W Hs Hp. destruct Hs as [w bytes sv key t1 t2 out version auth cs stream ip now epoch st r0 c Hsz _ Hn Hc|w r0 p0 ev Hp0|w r0 turn now w' Hsz Ht|w st' Ho|w r0 Hr0];
    cbn [server] in *.
  - destruct (new_client_cases _ _ _ _ _ _ _ _ _ _ (wi_state _ W) Hsz Hn) as (c0 & _ & Hno & _ & _ & _ & -> & _).
    intros [[_ ->]|[_ ?]]%lookup_insert_Some; [|done]. destruct Hp as [p Hp]. destruct (wi_conns _ W _ _ Hp) as (x & Hx & _). congruence.
  - done.
  - by apply (turn_shrinks _ _ _ _ _ Ht).
  - by apply (other_step_keeps _ _ Ho (wi_state _ W)).
  - unfold reclaim. by case_if.
Qed.

Lemma world_step_onward w w' r : world_step w w' -> onward r 0 (server w) (server w').
Proof.
  intros Hs. induction (world_server_steps _ _ Hs) as [st|x y z Hxy _ IH]; [by apply frames_onward|].
  eapply (onward_trans r 0 0); [by eapply step_onward|exact IH].
Qed.

Lemma online_back w w' r p' c' :
  world_inv w -> world_step w w' -> online w' r p' c' ->
  items_of p' = greet_items
  \/ exists p c, online w r p c /\ served 0 c c' /\ Client.identity c' = Client.identity c /\ advances w w' r p p'.
Proof.
  intros W Hs (Hp' & Hl' & Hc' & Hm'). destruct (conn_back w w' r p' c' W Hs Hp' Hl' Hc') as [|(p & c & Hp & Hl & Hc & Hi & Ha)]; [by left|].
  right. exists p, c. assert (Client.session_id c' = Client.session_id c) as Es by (unfold Client.session_id; by rewrite Hi).
  split_and!; [split_and!; [done..|]| |done|done].
  - rewrite <-Es. by eapply clients_back.
  - destruct (world_step_onward w w' r Hs) as [_ Ho].
    assert (r < next_ref (server w))%nat as Hr by (apply (si_fresh _ (wi_state _ W)); by eexists).
    destruct (Ho c' Hr Hc') as (c0 & Hc0 & Hsv). by simplify_eq.
Qed.

(** ** The two ways to learn of a client *)

(** A broadcast reaches whoever is in the map. *)
Lemma learned_broadcast w w' r1 r2 p1 c1 c1' c2 more :
  world_inv w -> orderly w -> online w r1 p1 c1 -> served 0 c1 c1' -> alive c1' -> heap (server w') !! r1 = Some c1' ->
  is_Some (conns w !! r2) -> heap (server w) !! r2 = Some c2 ->
  greet_item (server w) r2 BroadcastUserState = (server w', Ok more) -> learned c1' c2.
Proof.
  intros W Ho (Hp1 & _ & Hc1 & Hm1) Hs A Hc1' Hp2 Hc2. cbn [greet_item]. rewrite Hc2. intros [= Ew _].
  destruct (Ho r2 c2 Hp2 Hc2) as [_ [bytes Hb]]. destruct (Ho r1 c1 ltac:(by eexists) Hc1) as [Hroom _].
  destruct (Hs A) as (A1 & _). pose proof (broadcast_spec (server w) MessageKind.UserState _ bytes (wi_state _ W) Hb) as Hspec.
  destruct (broadcast_message _ _ _) as [st res]. cbn [fst] in Ew. subst st. destruct Hspec as (_ & Hh & _).
  rewrite (Hh r1 c1 Hc1) in Hc1'. injection Hc1' as <-. unfold connected. rewrite bool_decide_eq_true_2 by done.
  assert (accepts c1 = true) as Ha.
  { unfold accepts. pose proof (proj1 (proj2 A1)) as Ec. rewrite Ec. apply bool_decide_eq_true_2. by apply Hroom. }
  exists (Client.channel_id c2), bytes. split; [by destruct c2|]. left. unfold delivered. rewrite Ha. unfold waiting. cbn.
  apply elem_of_app. right. by left.
Qed.

(** The greeting sends the user itself. *)
Lemma learned_sent w w' r1 r2 c1 c1' c2 more :
  heap (server w) !! r1 = Some c1 -> heap (server w') !! r1 = Some c1' -> heap (server w) !! r2 = Some c2 ->
  greet_item (server w) r1 (SendUser r2) = (server w', Ok more) -> learned c1' c2.
Proof.
  intros Hc1 Hc1' Hc2. cbn [greet_item]. rewrite Hc2. unfold on_client. rewrite Hc1. unfold Client.send_message.
  destruct (message_to_bytes _ _) as [bytes|e] eqn:Hb; [|done]. unfold Client.send. case_if; [done|].
  destruct (Client.write c1) as [x|] eqn:Hx; [|done]. case_if; [done|]. cbn [seq]. intros [= Ew _].
  rewrite <-Ew in Hc1'. cbn in Hc1'. rewrite lookup_insert_eq in Hc1'. injection Hc1' as <-.
  exists (Client.channel_id c2), bytes. split; [by destruct c2|]. right. exists (Client.sent x), []. unfold written. cbn. by rewrite app_nil_r.
Qed.

(** ** The invariant *)

(** A client that has collected its list of users knows every announced client that it has not still to be sent. *)
Definition roster (w : World) : Prop :=
  forall r1 r2 p1 p2 c1 c2, online w r1 p1 c1 -> online w r2 p2 c2 -> alive c1 ->
    CollectLists ∉ items_of p1 -> SendUser r2 ∉ items_of p1 -> BroadcastUserState ∉ items_of p2 -> learned c1 c2.

Lemma collected_users st s r : clients st !! s = Some r -> SendUser r ∈ weak_lists st.
Proof.
  intros Hs. apply elem_of_app. right. apply list_elem_of_fmap. exists r. split; [done|]. apply list_elem_of_fmap. exists (s, r).
  split; [done|]. rewrite hash_iter_perm. by apply elem_of_map_to_list.
Qed.

Lemma step_roster w w' : world_inv w -> orderly w -> world_step w w' -> roster w -> roster w'.
Proof.
  intros W Ho Hs Hr r1 r2 p1' p2' c1' c2' On1 On2 A Hcol Huser Hann.
  destruct (online_back w w' r1 p1' c1' W Hs On1) as [E1|(p1 & c1 & O1 & S1 & I1 & Adv1)].
  { destruct Hcol. rewrite E1. by do 1 right; left. }
  destruct (online_back w w' r2 p2' c2' W Hs On2) as [E2|(p2 & c2 & O2 & S2 & I2 & Adv2)].
  { destruct Hann. rewrite E2. by do 5 right; left. }
  destruct (S1 A) as [A1 _].
  assert (forall c, learned c1' c -> c = c2 -> learned c1' c2') as Hown.
  { intros c Hl ->. by eapply (learned_served c1' c1'). }
  assert (BroadcastUserState ∉ items_of p2 -> learned c1' c2') as Hold.
  { intros Hann2. destruct Adv1 as [E|(item & items & more & E & E' & Eg)].
    - eapply learned_served; [exact S1|exact A|exact I2|]. rewrite E in Hcol, Huser. by apply (Hr r1 r2 p1 p2).
    - destruct (greet_item_lists _ _ _ _ _ Eg) as [_ Hmore]. rewrite E' in Hcol, Huser.
      destruct (decide (collects item = true)) as [Hci|Hci].
      + destruct item; try done. cbn [greet_item] in Eg. injection Eg as _ <-. destruct Huser. apply elem_of_app. left.
        by eapply collected_users, O2.
      + rewrite (Hmore (not_true_is_false _ Hci)) in *. cbn [app] in *. destruct (decide (item = SendUser r2)) as [->|Hne].
        * eapply Hown; [|reflexivity]. eapply (learned_sent w w' r1 r2 c1); [apply O1|apply On1|apply O2|exact Eg].
        * eapply learned_served; [exact S1|exact A|exact I2|]. apply (Hr r1 r2 p1 p2); [done..| | |done];
            rewrite E; intros [Hx|Hx]%elem_of_cons; [by rewrite <-Hx in Hci|done|done|done]. }
  destruct Adv2 as [E|(item & items & more & E & E' & Eg)]; [apply Hold; by rewrite <-E|].
  destruct (decide (item = BroadcastUserState)) as [->|Hne].
  - eapply Hown; [|reflexivity]. eapply (learned_broadcast w w' r1 r2 p1 c1 c1' c2); [done..|apply On1|eexists; apply O2|apply O2|exact Eg].
  - apply Hold. rewrite E. intros [Hx|Hx]%elem_of_cons; [done|]. destruct Hann. rewrite E'. apply elem_of_app. by right.
Qed.
End roster.

(** C4.  Everybody knows everybody: in every state the server reaches from start-up, under any interleaving of its connections, item by
    item of their greetings, with each other and with the other tasks, as long as no client's queue is full and user states can be
    written: of any two clients that are connected and whose greeting is complete, each was sent, or has in its queue, a
    user state with the session and the name of the other, if its own connection lives. *)
Theorem everyone_known `{HashIterLaws} `{MumbleProto} `{Aes128} `{UdpSocket} `{Unicode} `{UsernameRegex}
    `{SerdeJson (list BanList.BanEntry)} `{SerdeJson Anticheat.PersistedHeard} (args : Args) (f : FileSystem) (epoch : Z) (w : World)
    (r1 r2 : ClientRef) (s1 s2 : Z) (stream1 stream2 : Input) (c1 c2 : Client.Client) :
  rtc (fun w w' => orderly w /\ world_step w w') (mkWorld (start args f epoch) ∅) w ->
  conns w !! r1 = Some (Serving s1 stream1) -> heap (server w) !! r1 = Some c1 -> clients (server w) !! s1 = Some r1 ->
  conns w !! r2 = Some (Serving s2 stream2) -> heap (server w) !! r2 = Some c2 -> clients (server w) !! s2 = Some r2 ->
  alive c1 -> learned c1 c2.
Proof.
  intros Hr Hp1 Hc1 Hm1 Hp2 Hc2 Hm2 A. assert (world_inv w /\ roster w) as [W R].
  { assert (world_inv (mkWorld (start args f epoch) ∅) /\ roster (mkWorld (start args f epoch) ∅)) as Hi
      by (split; [apply start_world_inv|by intros ? ? ? ? ? ? [? _]]).
    clear Hp1 Hc1 Hm1 Hp2 Hc2 Hm2. induction Hr as [|x y z [Ho Hxy] _ IH]; [done|]. apply IH. destruct Hi as [Wx Rx]. split; [by eapply world_step_inv|by eapply step_roster]. }
  assert (forall r s stream c, conns w !! r = Some (Serving s stream) -> heap (server w) !! r = Some c ->
    clients (server w) !! s = Some r -> online w r (Serving s stream) c) as Hon.
  { intros r s stream c Hp Hc Hm. destruct (wi_conns _ W r _ Hp) as (c' & Hc' & Hs & _). cbn in Hs. simplify_eq. done. }
  apply (R r1 r2 (Serving s1 stream1) (Serving s2 stream2)); [by apply Hon..|done| | |]; apply not_elem_of_nil.
Qed.

(** ** Two greetings that overlap *)

Section sample_overlap.
Let sample_proto : MumbleProto := @mumble_proto wire_format.
Let lower : Unicode := fun s => s.
Let any_name : UsernameRegex := fun _ => true.
#[local] Existing Instances canonical_iter sample_proto xor_aes no_udp lower any_name bits_json heard_json.

(** A player connects, or a connection takes a turn. *)
Inductive WorldTurn := Visit (name : string) | Turn (r : ClientRef).

Definition sample_hail (name : string) : list Z :=
  frame_of MessageKind.Version sample_hello
  ++ frame_of MessageKind.Authenticate (AuthenticateMsg.mkAuthenticate (Some name) None [] [] None).

Definition world_do (t : WorldTurn) (w : World) : option World :=
  match t with
  | Visit name =>
    match init (sample_hail name) (server_version "unix" "linux" "0.1.0") sample_key 0 false false with
    | (out, Ok (version, auth, cs, stream)) =>
      match handle_new_client (server w) version auth cs out "10.0.0.9" 0 0 with
      | (st, Ok r) => c ← heap st !! r; Some (mkWorld st (<[r := Greeting (Client.session_id c) greet_items (mkInput stream false)]> (conns w)))
      | _ => None
      end
    | _ => None
    end
  | Turn r => match conn_turn w r (ReadTurn false) 5 with Done w' => Some w' | Panic => None end
  end.

(** The hypotheses on a state, computed. *)
Definition client_orderly (c : Client.Client) : bool :=
  bool_decide (length (waiting c) < CHANNEL_CAPACITY)%nat
  && match message_to_bytes MessageKind.UserState (Client.get_user_state c) with Ok _ => true | Err _ => false end.
Definition world_orderly (w : World) : bool :=
  (Z.of_nat (size (clients (server w))) <? 2 ^ 32) && (Z.of_nat (size (channels (server w))) <? 2 ^ 32)
  && forallb (fun p => match heap (server w) !! p.1 with Some c => client_orderly c | None => true end) (map_to_list (conns w)).

Fixpoint world_play (ts : list WorldTurn) (w : World) : option World :=
  match ts with
  | [] => Some w
  | t :: ts => if world_orderly w then w' ← world_do t w; world_play ts w' else None
  end.

Lemma world_orderly_spec w : world_orderly w = true ->
  Z.of_nat (size (clients (server w))) < 2 ^ 32 /\ Z.of_nat (size (channels (server w))) < 2 ^ 32 /\ orderly w.
Proof.
  unfold world_orderly. intros [[K1%Z.ltb_lt K2%Z.ltb_lt]%andb_prop K3]%andb_prop. split_and!; [done..|]. intros r c [p Hp] Hc.
  rewrite forallb_forall in K3. specialize (K3 (r, p)). cbn in K3. rewrite Hc in K3.
  assert (client_orderly c = true) as K4 by (apply K3, list_elem_of_In, elem_of_map_to_list, Hp). unfold client_orderly in K4.
  apply andb_prop in K4 as [K5 K6]. split; [intros _; by apply bool_decide_eq_true in K5|].
  destruct (message_to_bytes _ _) as [bytes|e]; [by eexists|done].
Qed.

Lemma world_do_step t w w' :
  Z.of_nat (size (clients (server w))) < 2 ^ 32 -> Z.of_nat (size (channels (server w))) < 2 ^ 32 ->
  world_do t w = Some w' -> world_step w w'.
Proof.
  intros K1 K2. destruct t as [name|r]; cbn [world_do].
  - destruct (init _ _ _ _ _ _) as [out [[[[version auth] cs] stream]|e]] eqn:Ei; [|done].
    destruct (handle_new_client _ _ _ _ _ _ _ _) as [st [r|e]] eqn:En; [|done].
    destruct (heap st !! r) as [c|] eqn:Hc; [|done]. intros [= <-]. by eapply world_admit.
  - destruct (conn_turn _ _ _ _) as [w1|] eqn:Et; [|done]. intros [= <-]. by eapply world_turn.
Qed.

Lemma world_play_reach ts w w' : world_play ts w = Some w' -> rtc (fun w w' => orderly w /\ world_step w w') w w'.
Proof.
  revert w. induction ts as [|t ts IH]; intros w; cbn [world_play]; [by intros [= <-]|].
  destruct (world_orderly w) eqn:Ho; [|done]. apply world_orderly_spec in Ho as (K1 & K2 & Ho).
  destruct (world_do t w) as [w1|] eqn:Ed; [|done]. intros Hp. eapply rtc_l; [|by apply IH]. split; [done|by eapply world_do_step].
Qed.

(** Eve has collected her list when Bob connects: she learns of him by his announcement, he of her by his list. *)
Definition sample_overlap : option World :=
  world_play (Visit "[12] eve" :: [Turn 0; Turn 0] ++ Visit "[13] bob" :: [Turn 1; Turn 1] ++ replicate 7 (Turn 0) ++ replicate 8 (Turn 1))
    (mkWorld (start sample_args BanList.sample_fs 0) ∅).

Definition serving_alive (w : World) (r : ClientRef) : bool :=
  match conns w !! r, heap (server w) !! r with
  | Some (Serving s _), Some c =>
    bool_decide (clients (server w) !! s = Some r) && negb (Client.cancelled c) && negb (closed (Client.publisher c))
    && match Client.write c with Some x => negb (Client.broken x) | None => false end
  | _, _ => false
  end.

Lemma serving_alive_spec w r : serving_alive w r = true ->
  exists s stream c, conns w !! r = Some (Serving s stream) /\ heap (server w) !! r = Some c
    /\ clients (server w) !! s = Some r /\ alive c.
Proof.
  unfold serving_alive. destruct (conns w !! r) as [[|s stream|]|]; [done| |done..]. destruct (heap (server w) !! r) as [c|]; [|done].
  intros [[[K1%bool_decide_eq_true K2%negb_true_iff]%andb_prop K3%negb_true_iff]%andb_prop K4]%andb_prop.
  exists s, stream, c. split_and!; [done..|]. split_and!; [done..|].
  destruct (Client.write c) as [x|]; [|done]. exists x. split; [done|by apply negb_true_iff].
Qed.

Lemma everyone_known_witness :
  exists w eve bob, sample_overlap = Some w /\ heap (server w) !! 0%nat = Some eve /\ heap (server w) !! 1%nat = Some bob
    /\ learned eve bob /\ learned bob eve.
Proof.
  destruct sample_overlap as [w|] eqn:Ew; [|vm_compute in Ew; discriminate Ew].
  destruct (serving_alive_spec w 0%nat) as (s1 & str1 & eve & P1 & H1 & M1 & A1);
    [apply (found_fact _ _ (fun w => serving_alive w 0%nat) _ Ew); vm_compute; reflexivity|].
  destruct (serving_alive_spec w 1%nat) as (s2 & str2 & bob & P2 & H2 & M2 & A2);
    [apply (found_fact _ _ (fun w => serving_alive w 1%nat) _ Ew); vm_compute; reflexivity|].
  apply world_play_reach in Ew as Hr. exists w, eve, bob. split; [exact eq_refl|]. split; [exact H1|]. split; [exact H2|].
  split; eapply (@everyone_known canonical_iter canonical_iter_laws sample_proto xor_aes no_udp lower any_name bits_json heard_json
    sample_args BanList.sample_fs 0 w); [exact Hr|exact P1|exact H1|exact M1|exact P2|exact H2|exact M2|exact A1
    |exact Hr|exact P2|exact H2|exact M2|exact P1|exact H1|exact M1|exact A2].
Defined.
End sample_overlap.
